(* ===== verification/_CoqProject ===== *)
-Q . S2P
Prelude.v
Machine.v
Memory.v
Sim.v
Regs.v
Mmio.v
BootArgs.v
RegHooks.v
ForceWake.v
Trace.v
Scan.v
Frame.v
Engine.v
Dpcd.v
Reset.v
Firmware.v
Display.v
Controller.v
Blit.v
Dyld.v
Plugin.v
Patcher.v
KextFB.v
KextHW.v
Kext.v
Load.v
Hold.v
Watchdog.v
Start.v
Monitor.v
Model.v
MergeNub.v
NetDbg.v
Interleave.v
Exports.v
Hdmi.v
Loader.v
Published.v
Ambient.v
ContextWa.v
Hooks.v
Safety.v
Identity.v
System.v
Progress.v
