(* ===== verification/Prelude.v ===== *)
(** * NootedGreen: a verification development

    NootedGreen is a Lilu plugin for macOS that makes Apple's Tiger Lake graphics drivers
    run on newer Intel graphics. It has no main loop: it is a set of hooks routed over
    functions of the Apple drivers, timers it arms itself, and code that runs once when the
    kernel patcher is ready. All of it shares two singletons ([NGreen], [Gen11]), the
    statics of its files, the graphics device's register window and the I/O registry.

    ** The machine (Machine, Memory, Sim)

    [Machine.world] is that shared state: hardware, kernel memory (byte granular), registry,
    the two singletons and a trace of what the plugin did to the outside. Code is a
    computation [M A] over it that returns, panics or runs out of fuel. Code outside the
    repository is a parameter: the device and the clock ([Hardware]), boot arguments,
    original functions of the routed drivers, symbol resolution and allocation
    ([Platform]). A routed function is a name; calling the original is [call "name" args],
    which may change the whole world. What a theorem needs of originals is the class
    [Benign R] (they move the world along [R]); what it needs of the clock is
    [SteadyClock]. Times are in nanoseconds. Nothing is assumed of what a register holds
    between two accesses: [Hold.assured] speaks of the plugin's last access to it.
    [respects R m] says a computation only moves the world along [R]; it is proved by
    decomposition ([respects_auto], hint database [ng]) and specialised to the trace
    ([emits]) and to unchanged components ([keeps]). [total] says a computation returns.
    [Frame] has the interface classes [DumpSafe] and [Frame] the trace code is verified
    against. [Sim] is a concrete register file that runs the definitions and witnesses
    the hypotheses. Arithmetic wraps with [u8] .. [u64], [s32].

    ** Components, one file and module each

    - Regs: register offsets and fields (iTGL/TGL.hpp).
    - Mmio: register accessors, zero-surface guard, workaround helpers (NGreen.hpp).
    - BootArgs: switches from the kernel command line (TGL.cpp, RcsEngineTrace.cpp).
    - RegHooks: routed register reads and writes, the plane-surface table, the error-mask
      interception, interrupt initialisation (TGL.cpp).
    - ForceWake: polling, request and fallback handshake (TGL.cpp 3875-4125).
    - Trace: register dumps, transition detector, bounded formatting, bring-up state
      (RcsEngineTrace.cpp, TglGpuBringup.cpp).
    - Scan: what the tracing code reads in the driver's memory (RcsEngineTrace.cpp).
    - Engine: tracked command streamers, their smoke test, context, ring, streamer and
      scheduler hooks (TGL.cpp 80-160, 5600, 5948-6640).
    - Dpcd: DisplayPort capabilities, lane count, panel power (TGL.cpp).
    - Reset: engine reset, interrupt sequences around it, display clock (TGL.cpp).
    - Firmware: slice configuration, topology, GuC load and buffers (TGL.cpp).
    - Display: bit iteration, display resources, external-display gate, display-pipe
      policy (TGL.cpp, TGL.hpp).
    - Controller: framebuffer controller start, personality, display firmware (TGL.cpp).
    - Blit: blitter context hooks (TGL.cpp).
    - Dyld: patches of user-space pages as they are validated (DYLDPatches.cpp).
    - Plugin: property seeding, device set-up, configuration reads (NGreen.cpp).
    - Patcher: symbol, route and patch requests (PatcherPlus.cpp).
    - KextFB, KextHW: the tables of hooks and code patches of the framebuffer and of the
      accelerator kext (TGL.cpp 640-1346).
    - Kext: what happens when a kext is loaded, and the plugin's registration
      ([Gen11::processKext], [NGreen::processKext], [NGreen::init]).
    - Load: the requests of a graphics kext's load as a plan, which the code follows.
    - Hold: what the plugin has last written to a register or read from it.
    - Watchdog: timers, accelerator probe (TGL.cpp 2798-2912, 3761-3860).
    - Start: [Gen11::start], around the original start of the accelerator: scheduler
      choice, interrupts, timers, error clearing (TGL.cpp 2914-3759).
    - Monitor: the delayed child check and the health monitor with its scan-out fill
      (TGL.cpp 1942-2795).
    - Model: marketing names by device id (Model.hpp).
    - MergeNub: merging display overrides into the registry (DisplayMergeNub.cpp).
    - NetDbg: log lines over TCP (NetDbg.cpp).
    - Interleave: the 32-bit accessors and the routed register write with its plane table
      as programs of single accesses, run by several threads at once (NGreen.hpp, TGL.cpp).
    - ContextWa: the engine workarounds behind the early return of the context hook
      (TGL.cpp 5608-5766).
    - Exports: the assembly stubs the framebuffer kext imports (TGL.cpp 6940-6984).
    - Hdmi: the idle audio component and the patches it holds back (HDMI.cpp).
    - Loader: configuration, [kern_start] and the I/O Kit class (PluginStart.cpp, Lilu's
      plugin_start.cpp, which is compiled into the plugin).

    ** The whole plugin

    System puts the components together as a transition system. Its states are a phase
    (booting, declined by Lilu, registered, ready, halted) and a world; its steps are
    [kern_start], the patcher callback, the load of any kext, a call of a routed function
    with any arguments, a call of an exported accessor, a timer, a configuration read, the
    panel and page hooks, a method of the plugin's own I/O Kit class, and a change of
    hardware, memory or registry by anybody else, DisplayMergeNub among them
    ([merge_is_outside]). A routed function runs only if
    the trace has its route, a timer only if the trace has it armed; the argument of a
    routed register write is a dword-aligned offset and a 32-bit value. Steps do not
    interleave with each other: what another processor does to the device during a hook is
    part of what the device answers (Interleave has the accesses one by one). [perform] and
    [play] execute a schedule. Published is the contract of the registry properties: the keys
    the plugin may set and the values each may have.
    The class [Ambient] (Ambient.v) is the interface between components and machine: a
    relation on worlds that every primitive moves along. Hooks.v shows that every routed
    function, timer and entry moves along any ambient relation. Safety.v and Identity.v
    have the two relations used, [life] and [found], show them ambient, and show that
    loading kexts and the callbacks move along [life] as well. Progress.v shows what
    returns.
    What is assumed of the drivers' original functions is [System.driven n]: they change
    hardware, memory and registry as they like and touch the plugin's own state only by
    entering it through these steps, in calls that return and whose own originals are
    driven to depth [n - 1]. [drivers_benign] derives the [Benign] hypotheses from it.

    Definitions keep the names of the source. Where a function is long its parts are
    definitions of their own, composed in the order of the code. Text that only goes to the
    log is left out, but the register reads made for it are kept: they are accesses of the
    device. Counters that only limit logging are left out.

    ** What the theorems show

    - Register window: accesses stay inside the mapping or go through the index/data
      pair; an enabled plane is never armed with surface 0 by the 32-bit accessors; the
      writer's recursion ends. The 64-bit accessors and the clearing workaround helpers do
      not do what they mean to; that is proved too. Under any interleaving of threads the
      accesses stay inside, each thread keeps to the guard, the error mask handed to the
      driver stays full and the plane table well formed; five examples show what the missing
      lock costs: a plane enabled behind the guard's back, a lost update, a value sent to
      another thread's register, a surface given to the wrong plane, and surface 0 passed on
      for a plane seen enabled. A thread that runs alone does what the sequential
      definitions say.
    - Hooks on registers: every hooked write leaves the error masks all ones; the plane
      table stays well formed and its guard restores the last surface.
    - Force wake returns on every clock that advances, touches only its registers, dumps
      the engines at most once, and its fallback clears every request it makes.
    - Engines: the hooks refine an abstract step machine; quarantine is permanent, makes
      the hooks that feed an engine's rings inert, and is what early submission leads to.
    - Reset and timers: errors are masked again after a reset and by every enforcer run;
      the watchdog fires five times and its last accesses leave interrupts enabled.
    - Display, firmware, start: gating of external displays, exact bit iteration, capped
      link capabilities, lane count consistent with them, encodings and topology, GuC
      bypass, seeding of missing properties only, bounds of stolen memory, configuration
      reads that agree, solving that stops at the first failure.
    - Kexts: the load of a graphics kext makes exactly the requests of the plan of its build
      and mode, and stops at the first mandatory one refused with that request's panic; no
      function is routed twice (but one, under the engine trace); the tables are well formed
      and a patched site never matches again; functions WhateverGreen owns are left to it
      in coexist mode. Files the page hook does not name are untouched.
    - Accelerator start returns with the master interrupt on and force wake released, on
      spoofed hardware with errors cleared and masked, chooses a scheduler the driver knows
      and arms its timers; the monitor runs sixty times and never paints stolen memory.
    - The machine: as long as the framebuffer kext does not misuse the exported accessors,
      in every reachable world all accesses were inside the window, the error masks were
      only written all ones and no plane was armed with surface 0; whatever it does with
      them, the engines moved along the abstract machine only, hooks are live only for kexts
      that were seen, what is published in the registry follows its contract, and the
      machine halts only in a panic of the patcher callback or of a kext load, never in a
      hook, a timer or a wait. The plugin starts exactly when Lilu accepts it.
    - Registry: the merge of display properties is the recursive union it is written to be,
      and a probe of a matching display installs every entry it lists; what a display had
      inside a listed dictionary is lost when the flat merge that runs first succeeds.

    ** Bounds and fuel

    [writeReg32] has depth 2 (its nested write is never to a surface register;
    [writeReg32_terminates] shows more fuel changes nothing). [forever] allows [2 ^ 64]
    iterations, more than a loop against a 64-bit clock can make ([forever_measure]). The
    fallback makes at most 10 passes, so its fuel is 10. Bit iteration has fuel 65 for a
    64-bit word. The legacy PLL loop is structural in its 2000 iterations, the instruction
    scan in its 256, the flush wait in its 100 polls, the scan-out fill in its pages, the
    error clearing in its 3 or 5 tries, the connection loop in its 5; the dictionary merge
    recurses on the source dictionary. Successive firings of the monitor have fuel, of
    which 60 are shown to be enough.

    ** Not modelled

    Faults: a pointer the plugin follows is taken to point to mapped memory, unless the code
    compares it or a theorem says otherwise. Originals that do not return.
    The firmware images and the blobs in Firmware.cpp (data; the two images the code copies
    are parameters), the walks of the service plane that only print names and states, byte
    tables and register constants nothing refers to, the rest of Lilu and of the kernel's
    headers (they are what the plugin is linked against), and the code the source keeps in
    comments. Members that only hold the address of an original are names of the platform
    interface; reference counts are left out. In System the hooks of the engines and the
    timers are atomic; access by access only the register accessors, the routed register
    write and its table are interleaved, in the order the accesses are made: the source has
    no ordering or atomicity beyond that, and what a compiler or processor may reorder
    between unsynchronised threads is not considered. *)
From Stdlib Require Export ZArith Lia Btauto.
From stdpp Require Export base tactics option list strings gmap.
Export ListNotations.
#[global] Open Scope string_scope.
#[global] Open Scope list_scope.
#[global] Open Scope Z_scope.

(** ** Machine integers

    A [uint8_t] .. [uint64_t] is a [Z]; the wrap-around of the C type is written
    out with [u8] .. [u64], and [s32] reads the low 32 bits as an [int]. *)
Definition u8 (z : Z) : Z := z mod 2 ^ 8.
Definition u16 (z : Z) : Z := z mod 2 ^ 16.
Definition u32 (z : Z) : Z := z mod 2 ^ 32.
Definition u64 (z : Z) : Z := z mod 2 ^ 64.
Definition s32 (z : Z) : Z :=
  let v := u32 z in if v <? 2 ^ 31 then v else v - 2 ^ 32.

(** [~x] on [uint32_t] and [uint64_t]. *)
Definition not32 (z : Z) : Z := u32 (Z.lnot z).
Definition not64 (z : Z) : Z := u64 (Z.lnot z).

(** Truth value of a C integer used as a condition. *)
Definition truthy (z : Z) : bool := negb (z =? 0).
Definition b2z (b : bool) : Z := if b then 1 else 0.

Declare Scope ng_scope.
Delimit Scope ng_scope with ng.
Notation "a .& b" := (Z.land a b) (at level 40, left associativity) : ng_scope.
Notation "a .| b" := (Z.lor a b) (at level 50, left associativity) : ng_scope.
Notation "a .^ b" := (Z.lxor a b) (at level 45, left associativity) : ng_scope.
Notation "a '.<<' n" := (Z.shiftl a n) (at level 36, left associativity) : ng_scope.
Notation "a '.>>' n" := (Z.shiftr a n) (at level 36, left associativity) : ng_scope.
#[global] Open Scope ng_scope.

(** [BIT]/[REG_BIT] and Linux's [GENMASK]. *)
Definition BIT (n : Z) : Z := 1 .<< n.

Create HintDb ng.
Create HintDb ngframe.
Create HintDb hookdefs.
Create Rewrite HintDb ng.
Create Rewrite HintDb ngbits.

Lemma u8_range z : 0 <= u8 z < 2 ^ 8.
Proof. apply Z.mod_pos_bound; lia. Qed.
Lemma u16_range z : 0 <= u16 z < 2 ^ 16.
Proof. apply Z.mod_pos_bound; lia. Qed.
Lemma u32_range z : 0 <= u32 z < 2 ^ 32.
Proof. apply Z.mod_pos_bound; lia. Qed.
Lemma u64_range z : 0 <= u64 z < 2 ^ 64.
Proof. apply Z.mod_pos_bound; lia. Qed.
#[export] Hint Resolve u8_range u16_range u32_range u64_range : ng.

Lemma u32_small z : 0 <= z < 2 ^ 32 -> u32 z = z.
Proof. apply Z.mod_small. Qed.
Lemma u64_small z : 0 <= z < 2 ^ 64 -> u64 z = z.
Proof. apply Z.mod_small. Qed.
Lemma u32_idemp z : u32 (u32 z) = u32 z.
Proof. apply Z.mod_mod; lia. Qed.
Lemma s32_small z : 0 <= z < 2 ^ 31 -> s32 z = z.
Proof. intros. unfold s32, u32. rewrite Z.mod_small by lia. by destruct (Z.ltb_spec z (2 ^ 31)); [|lia]. Qed.
Lemma u64_idemp z : u64 (u64 z) = u64 z.
Proof. apply Z.mod_mod; lia. Qed.
#[export] Hint Rewrite u32_idemp u64_idemp : ng.

(** *** Bit-level reasoning

    Two words are equal when they agree on every bit; [bitblast_eq] reduces an
    equation between bitwise expressions to a propositional tautology. *)
Lemma u32_testbit z i : 0 <= i -> Z.testbit (u32 z) i = (Z.testbit z i && (i <? 32))%bool.
Proof.
  intros Hi. unfold u32. destruct (Z.ltb_spec i 32).
  - rewrite Z.mod_pow2_bits_low by lia. btauto.
  - rewrite Z.mod_pow2_bits_high by lia. btauto.
Qed.
Lemma u64_testbit z i : 0 <= i -> Z.testbit (u64 z) i = (Z.testbit z i && (i <? 64))%bool.
Proof.
  intros Hi. unfold u64. destruct (Z.ltb_spec i 64).
  - rewrite Z.mod_pow2_bits_low by lia. btauto.
  - rewrite Z.mod_pow2_bits_high by lia. btauto.
Qed.
Lemma not32_testbit z i :
  0 <= i -> Z.testbit (not32 z) i = (negb (Z.testbit z i) && (i <? 32))%bool.
Proof. intros Hi. unfold not32. rewrite u32_testbit, Z.lnot_spec by done. done. Qed.
Lemma testbit_small z n i : 0 <= z < 2 ^ n -> n <= i -> Z.testbit z i = false.
Proof.
  intros [Hz1 Hz2] Hi. destruct (Z.eq_dec z 0) as [->|Hz]; [apply Z.bits_0|].
  apply Z.bits_above_log2; [done|]. apply Z.log2_lt_pow2; [lia|].
  eapply Z.lt_le_trans; [done|]. apply Z.pow_le_mono_r; lia.
Qed.
Lemma testbit_u32_word z i :
  0 <= z < 2 ^ 32 -> 0 <= i -> Z.testbit z i = (Z.testbit z i && (i <? 32))%bool.
Proof.
  intros Hz Hi. destruct (Z.ltb_spec i 32); [btauto|].
  rewrite (testbit_small z 32) by lia. done.
Qed.
#[export] Hint Rewrite Z.land_spec Z.lor_spec Z.lxor_spec Z.bits_0 : ngbits.
Lemma ones_testbit n i : 0 <= i -> 0 <= n -> Z.testbit (Z.ones n) i = (i <? n).
Proof. intros. by rewrite Z.testbit_ones_nonneg by lia. Qed.
#[export] Hint Rewrite ones_testbit using lia : ngbits.
#[export] Hint Rewrite Z.shiftl_spec Z.shiftr_spec Z.lnot_spec u32_testbit u64_testbit not32_testbit
  using lia : ngbits.

Ltac bitblast_eq :=
  apply Z.bits_inj'; let i := fresh "i" in intros i ?; autorewrite with ngbits; try btauto.

Lemma ltb_t a b : a < b -> (a <? b) = true.
Proof. apply Z.ltb_lt. Qed.
Lemma ltb_f a b : b <= a -> (a <? b) = false.
Proof. apply Z.ltb_ge. Qed.
(** Resolve bits that lie outside their operand's width ([0 <= z < 2 ^ n] in context). *)
Ltac bits_known := repeat
  match goal with
  | H : 0 <= ?z < 2 ^ ?n |- context [Z.testbit ?z ?j] => rewrite (testbit_small z n j H) by lia
  | |- context [Z.testbit ?z ?j] => rewrite (Z.testbit_neg_r z j) by lia
  | |- context [?a <? ?b] => first [rewrite (ltb_t a b) by lia | rewrite (ltb_f a b) by lia]
  | |- context [?i + ?n - ?n] => replace (i + n - n) with i by lia
  end.
(** An equation of 32-bit expressions, bit by bit, on each side of bit [k]. *)
Ltac bitblast_split k :=
  apply Z.bits_inj'; let i := fresh "i" in intros i ?; autorewrite with ngbits;
  destruct (Z_lt_le_dec i k); bits_known; try btauto.

(** [Z.land] and [Z.lor] keep the width of their word operands. *)
Lemma bits_bounded z n : 0 <= n -> 0 <= z -> (forall i, n <= i -> Z.testbit z i = false) -> z < 2 ^ n.
Proof.
  intros Hn Hz H. destruct (Z.eq_dec z 0) as [->|Hne]; [lia|].
  destruct (Z_lt_le_dec z (2 ^ n)) as [|Hge]; [done|exfalso].
  pose proof (Z.log2_le_mono _ _ Hge) as Hl. rewrite Z.log2_pow2 in Hl by lia.
  pose proof (Z.bit_log2 z ltac:(lia)) as Hb. rewrite H in Hb by lia. done.
Qed.
Lemma land_range_l a b n : 0 <= n -> 0 <= a < 2 ^ n -> 0 <= a .& b < 2 ^ n.
Proof.
  intros Hn Ha. assert (0 <= a .& b) by (apply Z.land_nonneg; lia).
  split; [done|]. apply bits_bounded; [done..|]. intros i Hi.
  rewrite Z.land_spec, (testbit_small a n) by lia. done.
Qed.
Lemma land_range_r a b n : 0 <= n -> 0 <= b < 2 ^ n -> 0 <= a .& b < 2 ^ n.
Proof. rewrite Z.land_comm. apply land_range_l. Qed.
Lemma land_le_r a b : 0 <= a -> 0 <= b -> a .& b <= b.
Proof.
  intros Ha Hb. rewrite <-(Z2N.id a Ha), <-(Z2N.id b Hb), <-N2Z.inj_land.
  apply N2Z.inj_le, N.land_le_r.
Qed.
Lemma lor_range a b n :
  0 <= n -> 0 <= a < 2 ^ n -> 0 <= b < 2 ^ n -> 0 <= a .| b < 2 ^ n.
Proof.
  intros Hn Ha Hb. assert (0 <= a .| b) by (apply Z.lor_nonneg; lia).
  split; [done|]. apply bits_bounded; [done..|]. intros i Hi.
  rewrite Z.lor_spec, (testbit_small a n), (testbit_small b n) by lia. done.
Qed.

(** ** Functional record update

    [r <| f := v |>] and [r <| f ::= g |>], from one eta-expansion per record. *)
Class Eta (R : Type) := eta_expand : R -> R.
Class Update {R E : Type} (f : R -> E) := update : (E -> E) -> R -> R.
#[global] Arguments update {R E} f {_} _ _.
#[global] Hint Mode Update - - ! : typeclass_instances.

Ltac derive_update R f :=
  exact (fun g (r : R) => ltac:(
    let body := eval hnf in (eta_expand r) in
    match body with context C [f r] => let b := context C [g (f r)] in exact b end)).
#[global] Hint Extern 0 (@Update ?R _ ?f) => derive_update R f : typeclass_instances.

Notation "r <| f ::= g |>" := (update f g r)
  (at level 1, left associativity, f at next level, g at level 200,
   format "r <| f  ::=  g |>") : ng_scope.
Notation "r <| f := v |>" := (update f (fun _ => v) r)
  (at level 1, left associativity, f at next level, v at level 200,
   format "r <| f  :=  v |>") : ng_scope.

(** ** Tactics *)

(** Split every [match] and [if] of the goal, discarding impossible branches. *)
Ltac cases := repeat (case_match; simplify_eq/=; try done).

(** Booleans of comparisons as propositions. *)
Create Rewrite HintDb ngbool.
#[export] Hint Rewrite Z.eqb_eq Z.eqb_neq Z.ltb_lt Z.ltb_ge Z.leb_le Z.leb_gt : ngbool.
#[export] Hint Rewrite negb_true_iff negb_false_iff orb_true_iff orb_false_iff : ngbool.
#[export] Hint Rewrite andb_true_iff andb_false_iff : ngbool.
Ltac bools := autorewrite with ngbool in *.
