(* ===== verification/Machine.v ===== *)
(** * The machine the kext runs on

    The state every component shares (the [NGreen] and [Gen11] singletons with the
    file-scope statics of TGL.cpp, kernel memory, the I/O registry, the hardware),
    the monad its code is written in, and the relational reasoning principle
    ([respects]) the component proofs are built from.

    Code that is not in the repository is a parameter: the GPU and the clock
    ([Hardware]), boot arguments, the functions of the routed Apple drivers and the
    resolution of their symbols ([Platform]). *)
From S2P Require Import Prelude.

(** ** State of the plugin *)

(** The members of the [NGreen] singleton. [rmmio] is the length of the mapping when
    the pointer is not null; [rmmioPtr] says whether the register pointer is not null;
    [iGPU] is an object address (0 is null); [ngCallback] says whether
    [NGreen::callback] has been set; [panelOnce] is the [once] of
    [wrapApplePanelSetDisplay]. [NGreen.hpp:278-297 NGreen] *)
Record NGreen := mkNGreen {
  ngCallback : bool;
  isRealTGL : bool;
  cpuModel : Z;
  deviceId : Z;
  pciRevision : Z;
  dpcdRevision : Z;
  dpcdMaxLinkRate : Z;
  dpcdMaxLaneCountRaw : Z;
  dpcdBacklightCaps : Z;
  dpcdCapsValid : bool;
  dpcdBacklightCapsValid : bool;
  iGPU : Z;
  rmmio : option Z;
  rmmioPtr : bool;
  stolen_size : Z;
  framebufferId : Z;
  request3D : bool;
  tryGuC : bool;
  gateExternalDisplays : bool;
  orgConfigRead16 : Z;
  orgConfigRead32 : Z;
  panelOnce : bool
}.
#[global] Instance eta_NGreen : Eta NGreen := fun r =>
  mkNGreen (ngCallback r) (isRealTGL r) (cpuModel r) (deviceId r) (pciRevision r)
    (dpcdRevision r) (dpcdMaxLinkRate r) (dpcdMaxLaneCountRaw r) (dpcdBacklightCaps r)
    (dpcdCapsValid r) (dpcdBacklightCapsValid r) (iGPU r) (rmmio r) (rmmioPtr r)
    (stolen_size r) (framebufferId r) (request3D r) (tryGuC r) (gateExternalDisplays r)
    (orgConfigRead16 r) (orgConfigRead32 r) (panelOnce r).

(** The initialisers of the members. *)
Definition NGreen_init : NGreen :=
  mkNGreen false false 0 0 0 0 0 0 0 false false 0 None false 0 0 false false true 0 0 false.

(** What is known of one tracked command streamer. [TGL.cpp:86-94 NGTglEngineState] *)
Record NGTglEngineState := mkEngineState {
  contextSeen : bool;
  ringReady : bool;
  controlReady : bool;
  submitted : bool;
  smokePassed : bool;
  quarantined : bool;
  lastTail : Z
}.
#[global] Instance eta_EngineState : Eta NGTglEngineState := fun r =>
  mkEngineState (contextSeen r) (ringReady r) (controlReady r) (submitted r)
    (smokePassed r) (quarantined r) (lastTail r).
Definition NGTglEngineState_init : NGTglEngineState :=
  mkEngineState false false false false false false 0.

(** One slot of the V93 plane-surface table. [TGL.cpp:4278-4281 V93PlaneSurfState] *)
Record V93PlaneSurfState := mkV93 { surfReg : Z; lastNonZeroSurf : Z }.
#[global] Instance eta_V93 : Eta V93PlaneSurfState := fun r =>
  mkV93 (surfReg r) (lastNonZeroSurf r).

(** Last values seen by the RCS transition detector.
    [RcsEngineTrace.cpp:169-179 RcsEngineTransitionState] *)
Record RcsEngineTransitionState := mkTransition {
  t_ringStart : Z;
  t_ringCtl : Z;
  t_ringTail : Z;
  t_acthd : Z;
  t_contextStatusPtr : Z;
  t_errorGen6 : Z;
  t_initialized : bool;
  t_firstCsbNonZeroSeen : bool;
  t_firstErrorNonZeroSeen : bool
}.
#[global] Instance eta_Transition : Eta RcsEngineTransitionState := fun r =>
  mkTransition (t_ringStart r) (t_ringCtl r) (t_ringTail r) (t_acthd r) (t_contextStatusPtr r)
    (t_errorGen6 r) (t_initialized r) (t_firstCsbNonZeroSeen r) (t_firstErrorNonZeroSeen r).
Definition RcsEngineTransitionState_init : RcsEngineTransitionState :=
  mkTransition 0 0 0 0 0 0 false false false.

(** Bring-up progress derived from the registers.
    [TglGpuBringup.hpp:5-30 TglGpuBringupState] *)
Record TglGpuBringupState := mkBringup {
  isTgl9A49 : bool;
  allow3d : bool;
  schedulerType : Z;
  b_mmioReady : bool;
  forceWakeOk : bool;
  gtPowered : bool;
  topologyOk : bool;
  gucRequested : bool;
  gucWopcmProgrammed : bool;
  gucFirmwareLoaded : bool;
  gucBooted : bool;
  gucInterruptsEnabled : bool;
  gucSubmissionReady : bool;
  rcsResetSeen : bool;
  rcsRingStarted : bool;
  rcsContextReady : bool;
  rcsInterruptsEnabled : bool;
  rcsFirstSubmitSeen : bool;
  rcsFirstCompletionSeen : bool;
  lastGucStatus : Z;
  lastRcsCtl : Z;
  lastRcsHead : Z;
  lastRcsTail : Z;
  lastErrorGen6 : Z
}.
#[global] Instance eta_Bringup : Eta TglGpuBringupState := fun r =>
  mkBringup (isTgl9A49 r) (allow3d r) (schedulerType r) (b_mmioReady r) (forceWakeOk r)
    (gtPowered r) (topologyOk r) (gucRequested r) (gucWopcmProgrammed r) (gucFirmwareLoaded r)
    (gucBooted r) (gucInterruptsEnabled r) (gucSubmissionReady r) (rcsResetSeen r)
    (rcsRingStarted r) (rcsContextReady r) (rcsInterruptsEnabled r) (rcsFirstSubmitSeen r)
    (rcsFirstCompletionSeen r) (lastGucStatus r) (lastRcsCtl r) (lastRcsHead r)
    (lastRcsTail r) (lastErrorGen6 r).
Definition TglGpuBringupState_init : TglGpuBringupState :=
  mkBringup false false 0 false false false false false false false false false false false
    false false false false false 0 0 0 0 0.

(** The statics of TGL.cpp, RcsEngineTrace.cpp, TglGpuBringup.cpp and DisplayMergeNub.cpp
    ([haveCreatedRef]) and the members of the
    [Gen11] singleton that the hooks read and write. *)
Record Gen11 := mkGen11 {
  g_bcs : NGTglEngineState;
  g_rcs : NGTglEngineState;
  fwCallCount : Z;
  hangcheckDumped : bool;
  v93States : list V93PlaneSurfState;
  v54WatchdogCount : Z;
  v71Count : Z;
  v60Count : Z;
  v60LastHead : Z;
  v60LastTail : Z;
  framecont : Z;
  ccont : Z;
  accelInstance : Z;
  iniin : bool;
  inpwell : bool;
  hwFirst : bool;
  tglHWLoaded : bool;
  tglFBLoaded : bool;
  v60LastChildCount : Z;
  v60LastAccelDevState : Z;
  v85PersistMap : Z;
  v85SurfAddr : Z;
  gServicePublishTraceSeq : Z;
  haveCreatedRef : bool;
  performingFirmwareLoad : bool;
  firmwareSizePointer : Z;
  dummyFirmwareBuffer : Z;
  realFirmwareBuffer : Z;
  realBinarySize : Z;
  gRcsTransitionState : RcsEngineTransitionState;
  gTglGpuBringupState : TglGpuBringupState;
  freq_max : Z
}.
#[global] Instance eta_Gen11 : Eta Gen11 := fun r =>
  mkGen11 (g_bcs r) (g_rcs r) (fwCallCount r) (hangcheckDumped r) (v93States r)
    (v54WatchdogCount r) (v71Count r) (v60Count r) (v60LastHead r) (v60LastTail r)
    (framecont r) (ccont r) (accelInstance r) (iniin r) (inpwell r)
    (hwFirst r) (tglHWLoaded r) (tglFBLoaded r) (v60LastChildCount r) (v60LastAccelDevState r)
    (v85PersistMap r) (v85SurfAddr r) (gServicePublishTraceSeq r) (haveCreatedRef r)
    (performingFirmwareLoad r) (firmwareSizePointer r)
    (dummyFirmwareBuffer r) (realFirmwareBuffer r) (realBinarySize r)
    (gRcsTransitionState r) (gTglGpuBringupState r) (freq_max r).
Definition Gen11_init : Gen11 :=
  mkGen11 NGTglEngineState_init NGTglEngineState_init 0 false
    (replicate 8 (mkV93 0 0)) 0 0 0 0xDEAD 0xDEAD 0 0 0 true false
    true false false (-1) 0xBEEF 0 0 0 false
    false 0 0 0 0
    RcsEngineTransitionState_init TglGpuBringupState_init 0.

(** ** Hardware and kernel *)

(** The GPU behind the BAR, as seen through 32-bit accesses at a dword index (a read
    may change its state), and the kernel clock. *)
Class Hardware := {
  hw : Type;
  mmio_read : Z -> hw -> Z * hw;
  mmio_write : Z -> Z -> hw -> hw;
  clock_ns : hw -> Z * hw;
  stall_ns : Z -> hw -> hw
}.

(** Property values of the I/O registry. *)
Inductive prop :=
| PNumber (bits value : Z)
| PData (bytes : list Z)
| PString (s : string)
| PBool (b : bool)
| PDict (entries : list (string * prop)).

(** What the plugin does to the outside, most recent first: accesses of the BAR by
    dword index, delays, calls of an original function, scheduled callbacks,
    registry writes, personalities added to the driver catalogue. *)
Inductive event :=
| ERd (idx val : Z)
| EWr (idx val : Z)
| EDelay (ns : Z)
| ECall (f : string) (args : list Z)
| ESchedule (f : string) (ms : Z)
| EProp (obj : Z) (key : string) (v : prop)
| ERemove (obj : Z) (key : string)
| EAddDriver (personality : prop).

Record world `{Hardware} := World {
  w_hw : hw;
  w_mem : gmap Z Z;
  w_reg : gmap (Z * string) prop;
  w_ng : NGreen;
  w_g11 : Gen11;
  w_tr : list event
}.
#[global] Instance eta_world `{Hardware} : Eta world := fun r =>
  World _ (w_hw r) (w_mem r) (w_reg r) (w_ng r) (w_g11 r) (w_tr r).

(** The rest of the kernel: boot arguments ([PE_parse_boot_argn] into an [int],
    [checkKernelArgument]), the original functions behind the routed symbols (they
    may re-enter the plugin, so they act on the whole world), which optional symbols
    were resolved, which allocations succeed, and the shape of the service plane
    ([getProvider], [OSDynamicCast], [IORegistryEntry::fromPath]; 0 is null), and the
    addresses of resolved data symbols (0 when unresolved). [bootstr] is the text a
    string boot argument leaves in its buffer (empty when absent); the clients and the
    PCI configuration of a service may change over time. *)
Class Platform `{Hardware} := {
  bootarg : string -> option Z;
  kernarg : string -> bool;
  resolved : string -> bool;
  allocOk : string -> bool;
  providerOf : Z -> Z;
  isClass : string -> Z -> bool;
  fromPath : string -> Z;
  symbolAddr : string -> Z;
  bootstr : string -> string;
  clientsOf : Z -> world -> list Z;
  pciConfig : Z -> Z -> world -> Z;
  original : string -> list Z -> world -> Z * world
}.

(** ** The monad *)
Inductive outcome `{Hardware} (A : Type) :=
| Done (a : A) (w : world)
| Panicked (msg : string) (w : world)
| OutOfFuel (w : world).
#[global] Arguments Done {_ _} _ _.
#[global] Arguments Panicked {_ _} _ _.
#[global] Arguments OutOfFuel {_ _} _.

Definition M `{Hardware} (A : Type) : Type := world -> outcome A.

#[global] Instance M_ret `{Hardware} : MRet M := fun A a w => Done a w.
#[global] Instance M_bind `{Hardware} : MBind M := fun A B k m w =>
  match m w with
  | Done a w' => k a w'
  | Panicked e w' => Panicked e w'
  | OutOfFuel w' => OutOfFuel w'
  end.

Definition final `{Hardware} {A} (o : outcome A) : world :=
  match o with Done _ w | Panicked _ w | OutOfFuel w => w end.
Definition value `{Hardware} {A} (o : outcome A) : option A :=
  match o with Done a _ => Some a | _ => None end.
#[global] Arguments final {_ _} !_ /.
#[global] Arguments value {_ _} !_ /.

Section prims.
Context `{Platform}.

Definition panic {A} (msg : string) : M A := fun w => Panicked msg w.
Definition out_of_fuel {A} : M A := fun w => OutOfFuel w.
Definition gets {A} (f : world -> A) : M A := fun w => Done (f w) w.
Definition modify (f : world -> world) : M unit := fun w => Done tt (f w).
Definition emit (e : event) (w : world) : world := w <| w_tr ::= cons e |>.

Definition ng {A} (f : NGreen -> A) : M A := gets (fun w => f (w_ng w)).
Definition set_ng (f : NGreen -> NGreen) : M unit := modify (fun w => w <| w_ng ::= f |>).
Definition g11 {A} (f : Gen11 -> A) : M A := gets (fun w => f (w_g11 w)).
Definition set_g11 (f : Gen11 -> Gen11) : M unit := modify (fun w => w <| w_g11 ::= f |>).

(** [rmmioPtr[idx]] as a volatile load and store of a [UInt32]. *)
Definition ptr_read (idx : Z) : M Z := fun w =>
  let '(v, h) := mmio_read idx (w_hw w) in
  Done (u32 v) (emit (ERd idx (u32 v)) (w <| w_hw := h |>)).
Definition ptr_write (idx v : Z) : M unit := fun w =>
  Done tt (emit (EWr idx (u32 v)) (w <| w_hw ::= mmio_write idx (u32 v) |>)).

(** [clock_get_uptime] and friends in nanoseconds; [IOPause], [IODelay] and [IOSleep] wait
    for nanoseconds, microseconds and milliseconds. *)
Definition now_ns : M Z := fun w =>
  let '(t, h) := clock_ns (w_hw w) in Done t (w <| w_hw := h |>).
Definition pause_ns (ns : Z) : M unit := fun w =>
  Done tt (emit (EDelay ns) (w <| w_hw ::= stall_ns ns |>)).
Definition delay_us (us : Z) : M unit := pause_ns (us * 1000).
Definition sleep_ms (ms : Z) : M unit := delay_us (ms * 1000).

(** [FunctionCast(hook, callback->original)(args)]. *)
Definition call (f : string) (args : list Z) : M Z := fun w =>
  let '(r, w') := original f args (emit (ECall f args) w) in Done r w'.
Definition schedule (f : string) (ms : Z) : M unit := modify (emit (ESchedule f ms)).

(** Kernel memory, byte-granular and little-endian ([getMember<T>(obj, off)]). *)
Fixpoint load_le (n : nat) (a : Z) (m : gmap Z Z) : Z :=
  match n with
  | O => 0
  | S n' => u8 (default 0 (m !! a)) .| (load_le n' (a + 1) m .<< 8)
  end.
Fixpoint store_le (n : nat) (a v : Z) (m : gmap Z Z) : gmap Z Z :=
  match n with
  | O => m
  | S n' => store_le n' (a + 1) (v .>> 8) (<[a := u8 v]> m)
  end.
Definition load (n : nat) (a : Z) : M Z := gets (fun w => load_le n a (w_mem w)).
Definition store (n : nat) (a v : Z) : M unit :=
  modify (fun w => w <| w_mem ::= store_le n a v |>).

(** [setProperty]/[removeProperty]/[getProperty] of a registry entry. *)
Definition setProperty (obj : Z) (key : string) (v : prop) : M unit :=
  modify (fun w => emit (EProp obj key v) (w <| w_reg ::= <[(obj, key) := v]> |>)).
Definition removeProperty (obj : Z) (key : string) : M unit :=
  modify (fun w => emit (ERemove obj key) (w <| w_reg ::= delete (obj, key) |>)).
Definition getProperty (obj : Z) (key : string) : M (option prop) :=
  gets (fun w => w_reg w !! (obj, key)).

(** [gIOCatalogue->addDrivers] of one personality. *)
Definition addDrivers (personality : prop) : M unit := modify (emit (EAddDriver personality)).

Definition when (b : bool) (m : M unit) : M unit := if b then m else mret ().
Fixpoint iterM {A} (xs : list A) (f : A -> M unit) : M unit :=
  match xs with [] => mret () | x :: xs => _ ← f x; iterM xs f end.
(** [a || b] and [a && b] of effectful conditions. *)
Definition orM (a b : M bool) : M bool := x ← a; if x : bool then mret true else b.
Definition andM (a b : M bool) : M bool := x ← a; if x : bool then b else mret false.

(** Loops without a static bound. [loop k body s] runs [body] up to [2 ^ k] times
    from state [s], until it returns [inr]; [forever] gives every loop [2 ^ 64]
    iterations, more than a loop driven by a 64-bit clock can make. *)
Fixpoint loop {S A} (k : nat) (body : S -> M (S + A)) (s : S) : M (S + A) :=
  match k with
  | O => body s
  | Datatypes.S k' =>
    r ← loop k' body s;
    match r with inl s' => loop k' body s' | inr a => mret (inr a) end
  end.
Definition loop_fuel : nat := 64.
Lemma loop_fuel_pow : 2 ^ Z.of_nat loop_fuel = 2 ^ 64.
Proof. done. Qed.
#[global] Opaque loop_fuel.
Definition forever {S A} (body : S -> M (S + A)) (s : S) : M A :=
  r ← loop loop_fuel body s;
  match r with inr a => mret a | inl _ => out_of_fuel end.

(** ** Relational reasoning: [m] only moves the world along [R]. *)
Definition respects {A} (R : relation world) (m : M A) : Prop :=
  forall w, R w (final (m w)).

(** Frame condition on code outside the repository: the original functions (and any
    hook of the plugin they re-enter) move the world along [R]. *)
Class Benign (R : relation world) : Prop :=
  benign f args w : R w (original f args w).2.

Section respects.
Context (R : relation world) `{!PreOrder R}.

Lemma respects_ret {A} (a : A) : respects R (mret a).
Proof. intros w. reflexivity. Qed.
Lemma respects_bind {A B} (m : M A) (k : A -> M B) :
  respects R m -> (forall a, respects R (k a)) -> respects R (m ≫= k).
Proof.
  intros Hm Hk w. specialize (Hm w). unfold mbind, M_bind.
  destruct (m w) as [a w'|e w'|w']; simpl in *; [|done..].
  etrans; [exact Hm|apply Hk].
Qed.
Lemma respects_gets {A} (f : world -> A) : respects R (gets f).
Proof. intros w. reflexivity. Qed.
Lemma respects_ng {A} (f : NGreen -> A) : respects R (ng f).
Proof. intros w. reflexivity. Qed.
Lemma respects_g11 {A} (f : Gen11 -> A) : respects R (g11 f).
Proof. intros w. reflexivity. Qed.
Lemma respects_load n a : respects R (load n a).
Proof. intros w. reflexivity. Qed.
Lemma respects_getProperty o k : respects R (getProperty o k).
Proof. intros w. reflexivity. Qed.
Lemma respects_panic {A} e : respects R (panic (A := A) e).
Proof. intros w. reflexivity. Qed.
Lemma respects_fuel {A} : respects R (out_of_fuel (A := A)).
Proof. intros w. reflexivity. Qed.
Lemma respects_when b m : respects R m -> respects R (when b m).
Proof. destruct b; [done|]. intros _. apply respects_ret. Qed.
Lemma respects_iterM {A} (xs : list A) f :
  (forall x, x ∈ xs -> respects R (f x)) -> respects R (iterM xs f).
Proof.
  induction xs as [|x xs IH]; intros Hf; simpl; [apply respects_ret|].
  apply respects_bind; [apply Hf; left|]. intros _. apply IH.
  intros y Hy. apply Hf. by right.
Qed.
Lemma respects_loop {S A} k (body : S -> M (S + A)) s :
  (forall s, respects R (body s)) -> respects R (loop k body s).
Proof.
  intros Hb. revert s. induction k as [|k IH]; intros s; simpl; [apply Hb|].
  apply respects_bind; [apply IH|]. intros [s'|a]; [apply IH|apply respects_ret].
Qed.
Lemma respects_forever {S A} (body : S -> M (S + A)) s :
  (forall s, respects R (body s)) -> respects R (forever body s).
Proof.
  intros Hb. unfold forever. apply respects_bind; [by apply respects_loop|].
  intros [s'|a]; [apply respects_fuel|apply respects_ret].
Qed.
Lemma respects_orM a b : respects R a -> respects R b -> respects R (orM a b).
Proof. intros. apply respects_bind; [done|]. intros []; [apply respects_ret|done]. Qed.
Lemma respects_andM a b : respects R a -> respects R b -> respects R (andM a b).
Proof. intros. apply respects_bind; [done|]. intros []; [done|apply respects_ret]. Qed.
End respects.

Lemma respects_weaken {A} (R R' : relation world) (m : M A) :
  (forall w w', R w w' -> R' w w') -> respects R m -> respects R' m.
Proof. intros HR Hm w. apply HR, Hm. Qed.
End prims.

(** Structural decomposition of [respects] goals: monadic glue is peeled off, the
    primitives and the component operations come from the hint database. *)
Ltac respects_step :=
  match goal with
  | |- respects ?R (mbind ?k (mret ?v)) => change (respects R (k v)); cbv beta
  | |- respects _ (mbind _ _) => apply respects_bind; [exact _| |intros ?]
  | |- respects _ (mret _) => apply respects_ret; exact _
  | |- respects _ (gets _) => apply respects_gets; exact _
  | |- respects _ (ng _) => apply respects_ng; exact _
  | |- respects _ (g11 _) => apply respects_g11; exact _
  | |- respects _ (load _ _) => apply respects_load; exact _
  | |- respects _ (getProperty _ _) => apply respects_getProperty; exact _
  | |- respects _ (panic _) => apply respects_panic; exact _
  | |- respects _ out_of_fuel => apply respects_fuel; exact _
  | |- respects _ (when _ _) => apply respects_when; [exact _|]
  | |- respects _ (iterM _ _) => apply respects_iterM; [exact _|intros ? ?]
  | |- respects _ (forever _ _) => apply respects_forever; [exact _|intros ?]
  | |- respects _ (orM _ _) => apply respects_orM; [exact _| |]
  | |- respects _ (andM _ _) => apply respects_andM; [exact _| |]
  | |- respects _ (match ?x with _ => _ end) => destruct x eqn:?
  | |- respects _ (let _ := _ in _) => progress cbv zeta
  end.
Ltac respects_auto := repeat (first [respects_step | solve [eauto 3 with ng]]).

(** ** Inversion and totality *)
Section total.
Context `{Platform}.

Lemma bind_done {A B} (m : M A) (k : A -> M B) w b w2 :
  (m ≫= k) w = Done b w2 <-> exists a w1, m w = Done a w1 /\ k a w1 = Done b w2.
Proof.
  unfold mbind, M_bind. split; [|by intros (a & w1 & -> & ->)].
  destruct (m w) eqn:E; intros; simplify_eq. eauto.
Qed.

Lemma bind_assoc {A B C} (m : M A) (f : A -> M B) (g : B -> M C) w :
  ((m ≫= f) ≫= g) w = (m ≫= (fun a => f a ≫= g)) w.
Proof. unfold mbind, M_bind. by destruct (m w). Qed.

(** [m] always returns: it neither panics nor runs out of fuel. *)
Definition total {A} (m : M A) : Prop := forall w, exists a w', m w = Done a w'.

Lemma total_ret {A} (a : A) : total (mret a).
Proof. intros w. by eexists _, _. Qed.
Lemma total_bind {A B} (m : M A) (k : A -> M B) :
  total m -> (forall a, total (k a)) -> total (m ≫= k).
Proof.
  intros Hm Hk w. destruct (Hm w) as (a & w1 & E). destruct (Hk a w1) as (b & w2 & E2).
  exists b, w2. apply bind_done. eauto.
Qed.
Lemma total_gets {A} (f : world -> A) : total (gets f).
Proof. intros w. by eexists _, _. Qed.
Lemma total_modify f : total (modify f).
Proof. intros w. by eexists _, _. Qed.
Lemma total_ptr_read i : total (ptr_read i).
Proof. intros w. unfold ptr_read. destruct (mmio_read _ _). by eexists _, _. Qed.
Lemma total_ptr_write i v : total (ptr_write i v).
Proof. intros w. by eexists _, _. Qed.
Lemma total_now : total now_ns.
Proof. intros w. unfold now_ns. destruct (clock_ns _). by eexists _, _. Qed.
Lemma total_pause ns : total (pause_ns ns).
Proof. intros w. by eexists _, _. Qed.
Lemma total_delay us : total (delay_us us).
Proof. apply total_pause. Qed.
Lemma total_call f args : total (call f args).
Proof. intros w. unfold call. destruct (original _ _ _). by eexists _, _. Qed.
Lemma total_when b m : total m -> total (when b m).
Proof. destruct b; [done|]. intros _. apply total_ret. Qed.
Lemma total_iterM {A} (xs : list A) f : (forall x, total (f x)) -> total (iterM xs f).
Proof.
  intros Hf. induction xs as [|x xs IH]; simpl; [apply total_ret|].
  apply total_bind; auto.
Qed.
Lemma total_orM a b : total a -> total b -> total (orM a b).
Proof. intros. apply total_bind; [done|]. intros []; [apply total_ret|done]. Qed.
Lemma total_andM a b : total a -> total b -> total (andM a b).
Proof. intros. apply total_bind; [done|]. intros []; [done|apply total_ret]. Qed.
End total.

#[export] Hint Resolve total_ret total_gets total_modify total_ptr_read total_ptr_write
  total_now total_pause total_delay total_call : ng.
#[export] Hint Extern 1 (total (ng _)) => apply total_gets : ng.
#[export] Hint Extern 1 (total (g11 _)) => apply total_gets : ng.
#[export] Hint Extern 1 (total (load _ _)) => apply total_gets : ng.
#[export] Hint Extern 1 (total (getProperty _ _)) => apply total_gets : ng.
#[export] Hint Extern 1 (total (set_ng _)) => apply total_modify : ng.
#[export] Hint Extern 1 (total (set_g11 _)) => apply total_modify : ng.
#[export] Hint Extern 1 (total (store _ _ _)) => apply total_modify : ng.
#[export] Hint Extern 1 (total (schedule _ _)) => apply total_modify : ng.
#[export] Hint Extern 1 (total (setProperty _ _ _)) => apply total_modify : ng.
#[export] Hint Extern 1 (total (removeProperty _ _)) => apply total_modify : ng.
#[export] Hint Extern 1 (total (addDrivers _)) => apply total_modify : ng.
#[export] Hint Extern 1 (total (sleep_ms _)) => apply total_delay : ng.
Ltac total_step :=
  match goal with
  | |- total (mbind ?k (mret ?v)) => change (total (k v)); cbv beta
  | |- total (mbind _ _) => apply total_bind; [|intros ?]
  | |- total (when _ _) => apply total_when
  | |- total (iterM _ _) => apply total_iterM; intros ?
  | |- total (orM _ _) => apply total_orM
  | |- total (andM _ _) => apply total_andM
  | |- total (match ?x with _ => _ end) => destruct x eqn:?
  | |- total (let _ := _ in _) => progress cbv zeta
  end.
Ltac total_auto := repeat (first [total_step | solve [eauto 3 with ng]]).

(** A computation that always returns, followed by a value. *)
Lemma total_then `{Platform} {A} (m : M unit) (a : A) w :
  total m -> exists w', (_ ← m; mret a) w = Done a w' /\ m w = Done () w'.
Proof. intros Ht. destruct (Ht w) as ([] & w' & E). exists w'. unfold mbind, M_bind. by rewrite E. Qed.

(** A completed computation moved the world along [R]. *)
Lemma respects_done `{Platform} {A} (R : relation world) (m : M A) w a w' :
  respects R m -> m w = Done a w' -> R w w'.
Proof. intros Hm E. specialize (Hm w). by rewrite E in Hm. Qed.

(** Take a [Done] equation of a sequence apart. *)
Ltac inv_done := repeat
  match goal with
  | E : mbind _ _ _ = Done _ _ |- _ => apply bind_done in E as (? & ? & ? & ?)
  | E : mret _ _ = Done _ _ |- _ => unfold mret, M_ret in E; simplify_eq
  | E : when true _ _ = Done _ _ |- _ => cbn [when] in E
  | E : when false _ _ = Done _ _ |- _ => cbn [when] in E
  | E : ng _ _ = Done _ _ |- _ => unfold ng, gets in E; simplify_eq
  | E : g11 _ _ = Done _ _ |- _ => unfold g11, gets in E; simplify_eq
  | E : gets _ _ = Done _ _ |- _ => unfold gets in E; simplify_eq
  end.

(** ** Loops driven by the clock *)

(** The kernel clock: [uptime] is the time a clock read returns; reading it takes
    time, nothing turns it back, and a stall lasts at least as long as asked. *)
Class SteadyClock `{Hardware} := {
  uptime : hw -> Z;
  clock_reads h : (clock_ns h).1 = uptime h;
  clock_advances h : uptime h + 1 <= uptime (clock_ns h).2;
  read_forward i h : uptime h <= uptime (mmio_read i h).2;
  write_forward i v h : uptime h <= uptime (mmio_write i v h);
  stall_forward ns h : 0 <= ns -> uptime h + ns <= uptime (stall_ns ns h)
}.

Section loops.
Context `{Platform}.

(** A measure that every continuing iteration lowers bounds the number of them. *)
Lemma loop_measure {S A} (mu : S -> world -> Z) (I : S -> world -> Prop) (body : S -> M (S + A)) k s w :
  (forall s w, I s w -> exists r w', body s w = Done r w' /\
     match r with inl s' => I s' w' /\ mu s' w' + 1 <= mu s w | inr _ => True end) ->
  (forall s w, I s w -> 0 <= mu s w) ->
  I s w ->
  exists r w', loop k body s w = Done r w' /\
    match r with inl s' => I s' w' /\ mu s' w' + 2 ^ Z.of_nat k <= mu s w | inr _ => True end.
Proof.
  intros Hstep Hpos. revert s w. induction k as [|k IH]; intros s w HI; [by apply Hstep|].
  destruct (IH s w HI) as (r & w1 & E & Hr). simpl. unfold mbind, M_bind. rewrite E.
  destruct r as [s1|a]; [|by eexists _, _].
  destruct Hr as [HI1 Hmu1]. destruct (IH s1 w1 HI1) as (r & w2 & E2 & Hr).
  exists r, w2. split; [done|]. destruct r as [s2|]; [|done]. destruct Hr as [HI2 Hmu2].
  split; [done|]. rewrite Nat2Z.inj_succ, Z.pow_succ_r; lia.
Qed.
Lemma forever_measure {S A} (mu : S -> world -> Z) (I : S -> world -> Prop) (body : S -> M (S + A)) s w :
  (forall s w, I s w -> exists r w', body s w = Done r w' /\
     match r with inl s' => I s' w' /\ mu s' w' + 1 <= mu s w | inr _ => True end) ->
  (forall s w, I s w -> 0 <= mu s w) ->
  I s w -> mu s w < 2 ^ 64 ->
  exists a w', forever body s w = Done a w'.
Proof.
  intros Hstep Hpos HI Hmu.
  destruct (loop_measure mu I body loop_fuel s w Hstep Hpos HI) as (r & w1 & E & Hr).
  unfold forever, mbind, M_bind. rewrite E. destruct r as [s1|a]; [|by eexists _, _].
  destruct Hr as [HI1 Hmu1]. specialize (Hpos _ _ HI1). rewrite loop_fuel_pow in Hmu1. lia.
Qed.

(** Partial correctness of loops: what holds when the body returns holds at the end. *)
Lemma loop_post {S A} (I : S -> world -> Prop) (Q : A -> world -> Prop) (body : S -> M (S + A)) k s w r w' :
  (forall s w r w', I s w -> body s w = Done r w' ->
     match r with inl s' => I s' w' | inr a => Q a w' end) ->
  I s w -> loop k body s w = Done r w' ->
  match r with inl s' => I s' w' | inr a => Q a w' end.
Proof.
  intros Hb. revert s w r w'. induction k as [|k IH]; intros s w r w' HI E; simpl in E; [exact (Hb _ _ _ _ HI E)|].
  apply bind_done in E as (r1 & w1 & E1 & E2). specialize (IH _ _ _ _ HI E1) as H1.
  destruct r1 as [s1|a]; [by eapply IH|]. unfold mret, M_ret in E2. by simplify_eq.
Qed.
Lemma finish_done {S A} (m : M (S + A)) w a w' :
  (r ← m; match r with inr a => mret a | inl _ => out_of_fuel end) w = Done a w' ->
  m w = Done (inr a) w'.
Proof.
  unfold mbind, M_bind. destruct (m w) as [[s|b] w1|e w1|w1]; intros E; try discriminate.
  unfold mret, M_ret in E. by simplify_eq.
Qed.
Lemma forever_post {S A} (I : S -> world -> Prop) (Q : A -> world -> Prop) (body : S -> M (S + A)) s w a w' :
  (forall s w r w', I s w -> body s w = Done r w' ->
     match r with inl s' => I s' w' | inr a => Q a w' end) ->
  I s w -> forever body s w = Done a w' -> Q a w'.
Proof.
  intros Hb HI E. apply finish_done in E. exact (loop_post I Q body _ s w (inr a) w' Hb HI E).
Qed.

(** Time never goes back in a computation made of the primitives. *)
Definition forward `{!SteadyClock} : relation world := fun w w' => uptime (w_hw w) <= uptime (w_hw w').
#[export] Instance forward_preorder `{!SteadyClock} : PreOrder forward.
Proof. split; [intros w|intros w1 w2 w3]; unfold forward; lia. Qed.
Lemma forward_ptr_read `{!SteadyClock} i : respects forward (ptr_read i).
Proof.
  intros w. unfold ptr_read. pose proof (read_forward i (w_hw w)) as Hr.
  destruct (mmio_read _ _). exact Hr.
Qed.
Lemma forward_ptr_write `{!SteadyClock} i v : respects forward (ptr_write i v).
Proof. intros w. apply write_forward. Qed.
Lemma now_ns_run `{!SteadyClock} w :
  exists w', now_ns w = Done (uptime (w_hw w)) w' /\ uptime (w_hw w) + 1 <= uptime (w_hw w') /\
             w_g11 w' = w_g11 w /\ w_ng w' = w_ng w /\ w_tr w' = w_tr w /\ w_mem w' = w_mem w.
Proof.
  unfold now_ns. pose proof (clock_reads (w_hw w)) as Hc. pose proof (clock_advances (w_hw w)) as Ha.
  destruct (clock_ns (w_hw w)) as [t h]. simpl in *. subst. eexists. split; [done|]. done.
Qed.
End loops.

(** ** The two relations used throughout *)
Section relations.
Context `{Platform}.

(** Every event a computation adds to the trace satisfies [P]. *)
Definition emits (P : event -> Prop) : relation world := fun w w' =>
  exists new, w_tr w' = new ++ w_tr w /\ Forall P new.
(** A component of the world is unchanged. *)
Definition keeps {A} (f : world -> A) : relation world := fun w w' => f w' = f w.

#[export] Instance emits_preorder P : PreOrder (emits P).
Proof.
  split.
  - intros w. by exists [].
  - intros w1 w2 w3 (n1 & E1 & F1) (n2 & E2 & F2). exists (n2 ++ n1).
    rewrite E2, E1, app_assoc. split; [done|]. by apply Forall_app.
Qed.
#[export] Instance keeps_preorder {A} (f : world -> A) : PreOrder (keeps f).
Proof. split; unfold keeps; [done|congruence]. Qed.

Lemma emits_one P e w w' : w_tr w' = e :: w_tr w -> P e -> emits P w w'.
Proof. intros E HP. exists [e]. rewrite E. split; [done|]. by constructor. Qed.
Lemma emits_silent P w w' : w_tr w' = w_tr w -> emits P w w'.
Proof. intros E. exists []. by rewrite E. Qed.

Lemma emits_ptr_read P i : (forall v, P (ERd i v)) -> respects (emits P) (ptr_read i).
Proof.
  intros HP w. unfold ptr_read. destruct (mmio_read i (w_hw w)) as [v h].
  by eapply emits_one; [reflexivity|].
Qed.
Lemma emits_ptr_write P i v : P (EWr i (u32 v)) -> respects (emits P) (ptr_write i v).
Proof. intros HP w. by eapply emits_one; [reflexivity|]. Qed.
Lemma emits_now P : respects (emits P) now_ns.
Proof.
  intros w. unfold now_ns. destruct (clock_ns (w_hw w)). by apply emits_silent.
Qed.
Lemma emits_pause P ns : P (EDelay ns) -> respects (emits P) (pause_ns ns).
Proof. intros HP w. by eapply emits_one; [reflexivity|]. Qed.
Lemma emits_delay P us : P (EDelay (us * 1000)) -> respects (emits P) (delay_us us).
Proof. apply emits_pause. Qed.
Lemma emits_sleep P ms : P (EDelay (ms * 1000 * 1000)) -> respects (emits P) (sleep_ms ms).
Proof. apply emits_delay. Qed.
Lemma emits_set_ng P f : respects (emits P) (set_ng f).
Proof. intros w. by apply emits_silent. Qed.
Lemma emits_set_g11 P f : respects (emits P) (set_g11 f).
Proof. intros w. by apply emits_silent. Qed.
Lemma emits_store P n a v : respects (emits P) (store n a v).
Proof. intros w. by apply emits_silent. Qed.
Lemma emits_schedule P f ms : P (ESchedule f ms) -> respects (emits P) (schedule f ms).
Proof. intros HP w. by eapply emits_one; [reflexivity|]. Qed.
Lemma emits_setProperty P o k v : P (EProp o k v) -> respects (emits P) (setProperty o k v).
Proof. intros HP w. by eapply emits_one; [reflexivity|]. Qed.
Lemma emits_removeProperty P o k : P (ERemove o k) -> respects (emits P) (removeProperty o k).
Proof. intros HP w. by eapply emits_one; [reflexivity|]. Qed.
Lemma emits_addDrivers P p : P (EAddDriver p) -> respects (emits P) (addDrivers p).
Proof. intros HP w. by eapply emits_one; [reflexivity|]. Qed.
Lemma emits_call P f args :
  Benign (emits P) -> P (ECall f args) -> respects (emits P) (call f args).
Proof.
  intros HB HP w. unfold call.
  pose proof (benign (R := emits P) f args (emit (ECall f args) w)) as Hb.
  destruct (original _ _ _) as [r w']. simpl in *. etrans; [|exact Hb].
  by eapply emits_one; [reflexivity|].
Qed.

Section keeps.
Context {A : Type} (f : world -> A).
Lemma keeps_modify g : (forall w, f (g w) = f w) -> respects (keeps f) (modify g).
Proof. intros Hg w. apply Hg. Qed.
Lemma keeps_call fn args :
  Benign (keeps f) -> (forall e w, f (emit e w) = f w) -> respects (keeps f) (call fn args).
Proof.
  intros HB He w. unfold call, keeps.
  pose proof (benign (R := keeps f) fn args (emit (ECall fn args) w)) as Hb.
  destruct (original _ _ _) as [r w']. simpl in *. by rewrite Hb, He.
Qed.
End keeps.
End relations.

#[export] Hint Resolve emits_ptr_read emits_ptr_write emits_now emits_delay emits_sleep
  emits_set_ng emits_set_g11 emits_store emits_schedule emits_setProperty
  emits_removeProperty emits_addDrivers emits_call : ng.
