(* ===== verification/Memory.v ===== *)
(** * Kernel memory

    Byte-granular facts about [load] and [store]: what is stored is what is loaded, and
    nothing outside the stored range changes. *)
From S2P Require Import Prelude Machine.

Section memory.
Context `{Platform}.

(** The byte at an address. *)
Definition byte (a : Z) (w : world) : Z := u8 (default 0 (w_mem w !! a)).

Lemma u8_idemp z : u8 (u8 z) = u8 z.
Proof. apply Z.mod_mod; lia. Qed.
Lemma u8_small z : 0 <= z < 2 ^ 8 -> u8 z = z.
Proof. apply Z.mod_small. Qed.
Lemma byte_range a w : 0 <= byte a w < 2 ^ 8.
Proof. apply u8_range. Qed.
Lemma load1 a w : load 1 a w = Done (byte a w) w.
Proof. unfold load, gets, byte. simpl. by rewrite Z.lor_0_r. Qed.
Lemma store1 a v w : store 1 a v w = Done () (w <| w_mem ::= <[a := u8 v]> |>).
Proof. done. Qed.
Lemma byte_same a v w : byte a (w <| w_mem ::= <[a := u8 v]> |>) = u8 v.
Proof. unfold byte. simpl. rewrite lookup_insert_eq. simpl. apply u8_idemp. Qed.
Lemma byte_other a b v w : a <> b -> byte b (w <| w_mem ::= <[a := v]> |>) = byte b w.
Proof. intros. unfold byte. simpl. by rewrite lookup_insert_ne. Qed.

Lemma store_le_outside n a v m b :
  b < a \/ a + Z.of_nat n <= b -> store_le n a v m !! b = m !! b.
Proof.
  revert a v m. induction n as [|n IH]; intros a v m Hb; simpl; [done|].
  rewrite IH by lia. apply lookup_insert_ne. lia.
Qed.
Lemma store_le_zero n a m b : a <= b < a + Z.of_nat n -> store_le n a 0 m !! b = Some 0.
Proof.
  revert a m. induction n as [|n IH]; intros a m Hb; [lia|]. cbn [store_le]. change (0 .>> 8) with 0.
  destruct (Z.eq_dec b a) as [->|Hne]; [|apply IH; lia].
  rewrite store_le_outside by lia. apply lookup_insert_eq.
Qed.
Lemma load_le_ext n a m m' :
  (forall b, a <= b < a + Z.of_nat n -> m !! b = m' !! b) -> load_le n a m = load_le n a m'.
Proof.
  revert a. induction n as [|n IH]; intros a Hb; simpl; [done|].
  rewrite (Hb a) by lia. f_equal. f_equal. apply IH. intros. apply Hb. lia.
Qed.
Lemma split_low n v : 0 <= n -> u8 v .| (((v .>> 8) mod 2 ^ n) .<< 8) = v mod 2 ^ (8 + n).
Proof.
  intros Hn. apply Z.bits_inj'. intros i Hi. unfold u8. rewrite Z.lor_spec.
  destruct (Z_lt_le_dec i 8).
  - rewrite Z.shiftl_spec_low, !Z.mod_pow2_bits_low by lia. btauto.
  - rewrite Z.shiftl_spec, Z.mod_pow2_bits_high by lia.
    destruct (Z_lt_le_dec i (8 + n)).
    + rewrite !Z.mod_pow2_bits_low, Z.shiftr_spec by lia. simpl. f_equal. lia.
    + rewrite !Z.mod_pow2_bits_high by lia. done.
Qed.
Lemma load_store_le n a v m : load_le n a (store_le n a v m) = v mod 2 ^ (8 * Z.of_nat n).
Proof.
  revert a v m. induction n as [|n IH]; intros a v m; [by rewrite Z.mod_1_r|].
  cbn [load_le store_le]. rewrite IH, store_le_outside, lookup_insert_eq by lia. simpl default.
  rewrite u8_idemp, split_low by lia. f_equal. f_equal. lia.
Qed.
Lemma load_store_disjoint n k a b v m :
  a + Z.of_nat n <= b \/ b + Z.of_nat k <= a -> load_le n a (store_le k b v m) = load_le n a m.
Proof. intros Hd. apply load_le_ext. intros c Hc. apply store_le_outside. lia. Qed.

Lemma load_le_range n a m : 0 <= load_le n a m < 2 ^ (8 * Z.of_nat n).
Proof.
  revert a. induction n as [|n IH]; intros a; cbn [load_le]; [lia|].
  specialize (IH (a + 1)). pose proof (u8_range (default 0 (m !! a))) as Hb.
  replace (8 * Z.of_nat (S n)) with (8 * Z.of_nat n + 8) by lia.
  assert (2 ^ 8 <= 2 ^ (8 * Z.of_nat n + 8)) by (apply Z.pow_le_mono_r; lia).
  apply lor_range; [lia|lia|]. rewrite Z.shiftl_mul_pow2 by lia. rewrite Z.pow_add_r by lia. nia.
Qed.
Lemma load_after_store n a v w :
  load_le n a (w_mem (w <| w_mem ::= store_le n a v |>)) = v mod 2 ^ (8 * Z.of_nat n).
Proof. apply load_store_le. Qed.
Lemma load_run n a w : load n a w = Done (load_le n a (w_mem w)) w.
Proof. done. Qed.
Lemma store_run n a v w : store n a v w = Done () (w <| w_mem ::= store_le n a v |>).
Proof. done. Qed.
End memory.
