(* ===== verification/Sim.v ===== *)
(** * A concrete platform

    A register file with a clock, used to evaluate the definitions on concrete inputs
    and to show that the hypotheses of the theorems can be met. *)
From S2P Require Import Prelude Machine.

Module Sim.
Record sim := mkSim { s_regs : gmap Z Z; s_now : Z }.
#[global] Instance eta_sim : Eta sim := fun r => mkSim (s_regs r) (s_now r).

(** Reads return what was written last (0 initially) and take 100 ns. *)
#[global] Instance sim_hardware : Hardware := {|
  hw := sim;
  mmio_read i s := (default 0 (s_regs s !! i), s <| s_now ::= Z.add 100 |>);
  mmio_write i v s := s <| s_regs ::= <[i := v]> |> <| s_now ::= Z.add 100 |>;
  clock_ns s := (s_now s, s <| s_now ::= Z.add 10 |>);
  stall_ns ns s := s <| s_now ::= Z.add ns |>
|}.

#[global] Instance sim_clock : SteadyClock.
Proof. refine {| uptime := s_now |}; intros; simpl; lia || done. Defined.

Fixpoint assoc {A} (k : string) (l : list (string * A)) : option A :=
  match l with
  | [] => None
  | (k', v) :: l => if String.eqb k k' then Some v else assoc k l
  end.

(** Boot arguments from two lists, every optional symbol resolved, originals that
    return [ret] and leave the world alone. *)
#[global] Instance sim_platform_with (ints : list (string * Z)) (flags : list string) (ret : Z) :
  Platform | 10 := {|
  bootarg s := assoc s ints;
  kernarg s := existsb (String.eqb s) flags;
  resolved _ := true;
  allocOk _ := true;
  providerOf o := if o =? 0x100 then 0x200 else 0;
  isClass _ o := negb (o =? 0);
  fromPath _ := 0x300;
  symbolAddr _ := 0;
  bootstr _ := "";
  clientsOf _ _ := [];
  pciConfig _ off _ := if off =? 0 then 0x8086 else if off =? 2 then 0x9A49 else 0;
  original _ _ w := (ret, w)
|}.
Definition plat : Platform := sim_platform_with [] [] 0.

(** A world with an 16 MiB BAR mapped and the given dwords set. *)
Definition sim_ng : NGreen :=
  NGreen_init <| ngCallback := true |> <| rmmio := Some 0x1000000 |> <| rmmioPtr := true |>.
Definition sim_world_of (n : NGreen) (regs : list (Z * Z)) : world :=
  World _ (mkSim (list_to_map regs) 0) ∅ ∅ n Gen11_init [].
Definition sim_world : list (Z * Z) -> world := sim_world_of sim_ng.

Lemma sim_benign ints flags ret (R : relation world) `{!PreOrder R} :
  @Benign _ (sim_platform_with ints flags ret) R.
Proof. intros f args w. simpl. reflexivity. Qed.
End Sim.
