(* ===== verification/Regs.v ===== *)
(** * Register offsets and bits (TGL.hpp)

    The constants of TGL.hpp that the modelled code uses, under the names of the
    header (a leading underscore dropped). *)
From S2P Require Import Prelude.

Module Regs.
(** [TGL.hpp:603-604 GENMASK] *)
Definition GENMASK (high low : Z) : Z :=
  u32 (0xFFFFFFFF .<< low) .& (0xFFFFFFFF .>> (32 - 1 - high)).
(** Lowest set bit, [__builtin_ffsll(x) - 1], of a 32-bit mask. [TGL.hpp:497-497 __bf_shf] *)
Definition bf_shf (x : Z) : Z :=
  from_option (fun i => Z.of_nat i) (-1)
    (fst <$> list_find (fun i => Z.testbit x (Z.of_nat i) = true) (seq 0 32)).
(** [TGL.hpp:498-499 REG_FIELD_PREP] *)
Definition REG_FIELD_PREP (mask val : Z) : Z := u32 (val .<< bf_shf mask) .& mask.
(** [TGL.hpp:98-98 DG1_MSTR_TILE_INTR] *)
Definition DG1_MSTR_TILE_INTR : Z := 0x190008.
(** [TGL.hpp:99-99 DG1_MSTR_IRQ] *)
Definition DG1_MSTR_IRQ : Z := (BIT 31).
(** [TGL.hpp:101-101 DBUF_POWER_REQUEST] *)
Definition DBUF_POWER_REQUEST : Z := (BIT 31).
(** [TGL.hpp:103-103 SOUTH_DSPCLK_GATE_D] *)
Definition SOUTH_DSPCLK_GATE_D : Z := 0xc2020.
(** [TGL.hpp:104-104 GEN11_CHICKEN_DCPR_2] *)
Definition GEN11_CHICKEN_DCPR_2 : Z := 0x46434.
(** [TGL.hpp:105-105 PCH_DPMGUNIT_CLOCK_GATE_DISABLE] *)
Definition PCH_DPMGUNIT_CLOCK_GATE_DISABLE : Z := (1 .<< 15).
(** [TGL.hpp:106-106 DCPR_MASK_MAXLATENCY_MEMUP_CLR] *)
Definition DCPR_MASK_MAXLATENCY_MEMUP_CLR : Z := (1 .<< 27).
(** [TGL.hpp:107-107 DCPR_MASK_LPMODE] *)
Definition DCPR_MASK_LPMODE : Z := (1 .<< 26).
(** [TGL.hpp:108-108 DCPR_SEND_RESP_IMM] *)
Definition DCPR_SEND_RESP_IMM : Z := (1 .<< 25).
(** [TGL.hpp:109-109 DCPR_CLEAR_MEMSTAT_DIS] *)
Definition DCPR_CLEAR_MEMSTAT_DIS : Z := (1 .<< 24).
(** [TGL.hpp:110-110 GEN9_CLKGATE_DIS_0] *)
Definition GEN9_CLKGATE_DIS_0 : Z := 0x46530.
(** [TGL.hpp:111-111 DARBF_GATING_DIS] *)
Definition DARBF_GATING_DIS : Z := (1 .<< 27).
(** [TGL.hpp:112-112 DC_STATE_EN] *)
Definition DC_STATE_EN : Z := 0x45504.
(** [TGL.hpp:113-113 CLKREQ_POLICY] *)
Definition CLKREQ_POLICY : Z := 0x101038.
(** [TGL.hpp:114-114 CLKREQ_POLICY_MEM_UP_OVRD] *)
Definition CLKREQ_POLICY_MEM_UP_OVRD : Z := (1 .<< 1).
(** [TGL.hpp:115-115 GEN11_COMMON_SLICE_CHICKEN3] *)
Definition GEN11_COMMON_SLICE_CHICKEN3 : Z := 0x7304.
(** [TGL.hpp:116-116 GEN12_DISABLE_CPS_AWARE_COLOR_PIPE] *)
Definition GEN12_DISABLE_CPS_AWARE_COLOR_PIPE : Z := (1 .<< 9).
(** [TGL.hpp:118-118 GEN8_CS_CHICKEN1] *)
Definition GEN8_CS_CHICKEN1 : Z := 0x2580.
(** [TGL.hpp:120-120 GEN9_PREEMPT_GPGPU_LEVEL] *)
Definition GEN9_PREEMPT_GPGPU_LEVEL (hi : Z) (lo : Z) : Z := ((hi .<< 2) .| (lo .<< 1)).
(** [TGL.hpp:122-122 GEN9_PREEMPT_GPGPU_THREAD_GROUP_LEVEL] *)
Definition GEN9_PREEMPT_GPGPU_THREAD_GROUP_LEVEL : Z := GEN9_PREEMPT_GPGPU_LEVEL 0 1.
(** [TGL.hpp:124-124 GEN9_PREEMPT_GPGPU_LEVEL_MASK] *)
Definition GEN9_PREEMPT_GPGPU_LEVEL_MASK : Z := GEN9_PREEMPT_GPGPU_LEVEL 1 1.
(** [TGL.hpp:125-125 GEN8_MCR_SLICE] *)
Definition GEN8_MCR_SLICE (slice : Z) : Z := ((slice .& 3) .<< 26).
(** [TGL.hpp:126-126 GEN8_MCR_SLICE_MASK] *)
Definition GEN8_MCR_SLICE_MASK : Z := GEN8_MCR_SLICE 3.
(** [TGL.hpp:127-127 GEN8_MCR_SUBSLICE] *)
Definition GEN8_MCR_SUBSLICE (subslice : Z) : Z := ((subslice .& 3) .<< 24).
(** [TGL.hpp:128-128 GEN8_MCR_SUBSLICE_MASK] *)
Definition GEN8_MCR_SUBSLICE_MASK : Z := GEN8_MCR_SUBSLICE 3.
(** [TGL.hpp:130-130 GEN8_MCR_SELECTOR] *)
Definition GEN8_MCR_SELECTOR : Z := 0xfdc.
(** [TGL.hpp:131-131 PS_INVOCATION_COUNT] *)
Definition PS_INVOCATION_COUNT : Z := 0x2348.
(** [TGL.hpp:133-133 RING_FORCE_TO_NONPRIV_ACCESS_RD] *)
Definition RING_FORCE_TO_NONPRIV_ACCESS_RD : Z := (1 .<< 28).
(** [TGL.hpp:138-138 RING_FORCE_TO_NONPRIV_RANGE_4] *)
Definition RING_FORCE_TO_NONPRIV_RANGE_4 : Z := (1 .<< 0).
(** [TGL.hpp:139-139 GEN7_COMMON_SLICE_CHICKEN1] *)
Definition GEN7_COMMON_SLICE_CHICKEN1 : Z := 0x7010.
(** [TGL.hpp:140-140 HIZ_CHICKEN] *)
Definition HIZ_CHICKEN : Z := 0x7018.
(** [TGL.hpp:141-141 GEN7_FF_SLICE_CS_CHICKEN1] *)
Definition GEN7_FF_SLICE_CS_CHICKEN1 : Z := 0x20e0.
(** [TGL.hpp:142-142 GEN9_FFSC_PERCTX_PREEMPT_CTRL] *)
Definition GEN9_FFSC_PERCTX_PREEMPT_CTRL : Z := (1 .<< 14).
(** [TGL.hpp:156-156 BW_BUDDY_TLB_REQ_TIMER_MASK] *)
Definition BW_BUDDY_TLB_REQ_TIMER_MASK : Z := GENMASK 21 16.
(** [TGL.hpp:157-157 BW_BUDDY_TLB_REQ_TIMER] *)
Definition BW_BUDDY_TLB_REQ_TIMER (x : Z) : Z := REG_FIELD_PREP BW_BUDDY_TLB_REQ_TIMER_MASK x.
(** [TGL.hpp:159-159 GEN12_FF_MODE2] *)
Definition GEN12_FF_MODE2 : Z := 0x6604.
(** [TGL.hpp:161-161 FF_MODE2_GS_TIMER_MASK] *)
Definition FF_MODE2_GS_TIMER_MASK : Z := GENMASK 31 24.
(** [TGL.hpp:162-162 FF_MODE2_GS_TIMER_224] *)
Definition FF_MODE2_GS_TIMER_224 : Z := REG_FIELD_PREP FF_MODE2_GS_TIMER_MASK 224.
(** [TGL.hpp:163-163 FF_MODE2_TDS_TIMER_MASK] *)
Definition FF_MODE2_TDS_TIMER_MASK : Z := GENMASK 23 16.
(** [TGL.hpp:164-164 FF_MODE2_TDS_TIMER_128] *)
Definition FF_MODE2_TDS_TIMER_128 : Z := REG_FIELD_PREP FF_MODE2_TDS_TIMER_MASK 4.
(** [TGL.hpp:166-166 GEN7_MISCCPCTL] *)
Definition GEN7_MISCCPCTL : Z := 0x9424.
(** [TGL.hpp:167-167 GEN12_DOP_CLOCK_GATE_RENDER_ENABLE] *)
Definition GEN12_DOP_CLOCK_GATE_RENDER_ENABLE : Z := (1 .<< 1).
(** [TGL.hpp:168-168 GEN9_CS_DEBUG_MODE1] *)
Definition GEN9_CS_DEBUG_MODE1 : Z := 0x20ec.
(** [TGL.hpp:169-169 FF_DOP_CLOCK_GATE_DISABLE] *)
Definition FF_DOP_CLOCK_GATE_DISABLE : Z := (1 .<< 1).
(** [TGL.hpp:170-170 GEN8_ROW_CHICKEN2] *)
Definition GEN8_ROW_CHICKEN2 : Z := 0xe4f4.
(** [TGL.hpp:172-172 GEN12_DISABLE_EARLY_READ] *)
Definition GEN12_DISABLE_EARLY_READ : Z := (1 .<< 14).
(** [TGL.hpp:173-173 GEN7_FF_THREAD_MODE] *)
Definition GEN7_FF_THREAD_MODE : Z := 0x20a0.
(** [TGL.hpp:176-176 GEN12_FF_TESSELATION_DOP_GATE_DISABLE] *)
Definition GEN12_FF_TESSELATION_DOP_GATE_DISABLE : Z := (BIT 19).
(** [TGL.hpp:177-177 GEN10_SAMPLER_MODE] *)
Definition GEN10_SAMPLER_MODE : Z := 0xe18c.
(** [TGL.hpp:178-178 ENABLE_SMALLPL] *)
Definition ENABLE_SMALLPL : Z := (1 .<< 15).
(** [TGL.hpp:179-179 GEN12_PUSH_CONST_DEREF_HOLD_DIS] *)
Definition GEN12_PUSH_CONST_DEREF_HOLD_DIS : Z := (1 .<< 8).
(** [TGL.hpp:180-180 GEN9_ROW_CHICKEN4] *)
Definition GEN9_ROW_CHICKEN4 : Z := 0xe48c.
(** [TGL.hpp:181-181 GEN12_DISABLE_TDL_PUSH] *)
Definition GEN12_DISABLE_TDL_PUSH : Z := (1 .<< 9).
(** [TGL.hpp:182-182 RING_PSMI_CTL] *)
Definition RING_PSMI_CTL (base : Z) : Z := (base + 0x50).
(** [TGL.hpp:183-183 GEN12_WAIT_FOR_EVENT_POWER_DOWN_DISABLE] *)
Definition GEN12_WAIT_FOR_EVENT_POWER_DOWN_DISABLE : Z := (1 .<< 7).
(** [TGL.hpp:184-184 GEN8_RC_SEMA_IDLE_MSG_DISABLE] *)
Definition GEN8_RC_SEMA_IDLE_MSG_DISABLE : Z := (1 .<< 12).
(** [TGL.hpp:195-195 MBUS_ABOX_BW_CREDIT_MASK] *)
Definition MBUS_ABOX_BW_CREDIT_MASK : Z := (3 .<< 20).
(** [TGL.hpp:196-196 MBUS_ABOX_BW_CREDIT] *)
Definition MBUS_ABOX_BW_CREDIT (x : Z) : Z := (x .<< 20).
(** [TGL.hpp:197-197 MBUS_ABOX_B_CREDIT_MASK] *)
Definition MBUS_ABOX_B_CREDIT_MASK : Z := (0xF .<< 16).
(** [TGL.hpp:198-198 MBUS_ABOX_B_CREDIT] *)
Definition MBUS_ABOX_B_CREDIT (x : Z) : Z := (x .<< 16).
(** [TGL.hpp:199-199 MBUS_ABOX_BT_CREDIT_POOL2_MASK] *)
Definition MBUS_ABOX_BT_CREDIT_POOL2_MASK : Z := (0x1F .<< 8).
(** [TGL.hpp:200-200 MBUS_ABOX_BT_CREDIT_POOL2] *)
Definition MBUS_ABOX_BT_CREDIT_POOL2 (x : Z) : Z := (x .<< 8).
(** [TGL.hpp:201-201 MBUS_ABOX_BT_CREDIT_POOL1_MASK] *)
Definition MBUS_ABOX_BT_CREDIT_POOL1_MASK : Z := (0x1F .<< 0).
(** [TGL.hpp:202-202 MBUS_ABOX_BT_CREDIT_POOL1] *)
Definition MBUS_ABOX_BT_CREDIT_POOL1 (x : Z) : Z := (x .<< 0).
(** [TGL.hpp:204-204 RING_CMD_CCTL] *)
Definition RING_CMD_CCTL (base : Z) : Z := (base + 0xc4).
(** [TGL.hpp:205-206 CMD_CCTL_WRITE_OVERRIDE_MASK] *)
Definition CMD_CCTL_WRITE_OVERRIDE_MASK : Z := GENMASK 13 7.
Definition CMD_CCTL_READ_OVERRIDE_MASK : Z := GENMASK 6 0.
(** [TGL.hpp:207-208 CMD_CCTL_MOCS_MASK] *)
Definition CMD_CCTL_MOCS_MASK : Z := CMD_CCTL_WRITE_OVERRIDE_MASK .| CMD_CCTL_READ_OVERRIDE_MASK.
(** [TGL.hpp:209-211 CMD_CCTL_MOCS_OVERRIDE] *)
Definition CMD_CCTL_MOCS_OVERRIDE (write read : Z) : Z :=
  REG_FIELD_PREP CMD_CCTL_WRITE_OVERRIDE_MASK (write .<< 1) .| REG_FIELD_PREP CMD_CCTL_READ_OVERRIDE_MASK (read .<< 1).
(** [TGL.hpp:212-212 BLIT_CCTL] *)
Definition BLIT_CCTL (base : Z) : Z := (base + 0x204).
(** [TGL.hpp:213-214 BLIT_CCTL_DST_MOCS_MASK] *)
Definition BLIT_CCTL_DST_MOCS_MASK : Z := GENMASK 14 8.
Definition BLIT_CCTL_SRC_MOCS_MASK : Z := GENMASK 6 0.
(** [TGL.hpp:215-216 BLIT_CCTL_MASK] *)
Definition BLIT_CCTL_MASK : Z := BLIT_CCTL_DST_MOCS_MASK .| BLIT_CCTL_SRC_MOCS_MASK.
(** [TGL.hpp:217-219 BLIT_CCTL_MOCS] *)
Definition BLIT_CCTL_MOCS (dst src : Z) : Z :=
  REG_FIELD_PREP BLIT_CCTL_DST_MOCS_MASK (dst .<< 1) .| REG_FIELD_PREP BLIT_CCTL_SRC_MOCS_MASK (src .<< 1).
(** [TGL.hpp:222-222 _DBUF_CTL_S1] *)
Definition DBUF_CTL_S1 : Z := 0x44FE8.
(** [TGL.hpp:223-223 _DBUF_CTL_S2] *)
Definition DBUF_CTL_S2 : Z := 0x44300.
(** [TGL.hpp:225-225 DBUF_TRACKER_STATE_SERVICE_MASK] *)
Definition DBUF_TRACKER_STATE_SERVICE_MASK : Z := GENMASK 23 19.
(** [TGL.hpp:226-226 DBUF_TRACKER_STATE_SERVICE] *)
Definition DBUF_TRACKER_STATE_SERVICE (x : Z) : Z := REG_FIELD_PREP DBUF_TRACKER_STATE_SERVICE_MASK x.
(** [TGL.hpp:231-231 IECPUNIT_CLKGATE_DIS] *)
Definition IECPUNIT_CLKGATE_DIS : Z := (BIT 22).
(** [TGL.hpp:232-232 VDBOX_CGCTL3F10] *)
Definition VDBOX_CGCTL3F10 (base : Z) : Z := (base + 0x3f10).
(** [TGL.hpp:237-237 RPM_CONFIG0] *)
Definition RPM_CONFIG0 : Z := 0xd00.
(** [TGL.hpp:242-242 I915_ERROR_INSTRUCTION] *)
Definition I915_ERROR_INSTRUCTION : Z := (1 .<< 0).
(** [TGL.hpp:245-245 RING_START] *)
Definition RING_START (base : Z) : Z := (base + 0x38).
(** [TGL.hpp:246-246 RING_CTL] *)
Definition RING_CTL (base : Z) : Z := (base + 0x3c).
(** [TGL.hpp:247-247 RING_EIR] *)
Definition RING_EIR (base : Z) : Z := (base + 0xb0).
(** [TGL.hpp:248-248 RING_EMR] *)
Definition RING_EMR (base : Z) : Z := (base + 0xb4).
(** [TGL.hpp:249-249 RING_TAIL] *)
Definition RING_TAIL (base : Z) : Z := (base + 0x30).
(** [TGL.hpp:250-250 RING_HEAD] *)
Definition RING_HEAD (base : Z) : Z := (base + 0x34).
(** [TGL.hpp:251-251 RING_HWS_PGA] *)
Definition RING_HWS_PGA (base : Z) : Z := (base + 0x80).
(** [TGL.hpp:252-252 RING_HWSTAM] *)
Definition RING_HWSTAM (base : Z) : Z := (base + 0x98).
(** [TGL.hpp:253-253 RING_MI_MODE] *)
Definition RING_MI_MODE (base : Z) : Z := (base + 0x9c).
(** [TGL.hpp:255-255 RING_ACTHD] *)
Definition RING_ACTHD (base : Z) : Z := (base + 0x74).
(** [TGL.hpp:256-256 RING_ACTHD_UDW] *)
Definition RING_ACTHD_UDW (base : Z) : Z := (base + 0x5c).
(** [TGL.hpp:257-257 RING_IPEHR] *)
Definition RING_IPEHR (base : Z) : Z := (base + 0x68).
(** [TGL.hpp:258-258 RING_IPEIR] *)
Definition RING_IPEIR (base : Z) : Z := (base + 0x64).
(** [TGL.hpp:259-259 RING_INSTDONE] *)
Definition RING_INSTDONE (base : Z) : Z := (base + 0x6c).
(** [TGL.hpp:260-260 RING_ESR] *)
Definition RING_ESR (base : Z) : Z := (base + 0xb8).
(** [TGL.hpp:261-261 RING_CTX_SIZE] *)
Definition RING_CTX_SIZE (base : Z) : Z := (base + 0x1a0).
(** [TGL.hpp:262-262 RING_CCID] *)
Definition RING_CCID (base : Z) : Z := (base + 0x180).
(** [TGL.hpp:263-263 RING_CTX_CTRL] *)
Definition RING_CTX_CTRL (base : Z) : Z := (base + 0x244).
(** [TGL.hpp:265-265 RING_EXECLIST_STATUS] *)
Definition RING_EXECLIST_STATUS (base : Z) : Z := (base + 0x234).
(** [TGL.hpp:266-266 RING_CONTEXT_STATUS_PTR] *)
Definition RING_CONTEXT_STATUS_PTR (base : Z) : Z := (base + 0x3a0).
(** [TGL.hpp:267-267 RING_MODE] *)
Definition RING_MODE (base : Z) : Z := (base + 0x29c).
(** [TGL.hpp:268-268 RING_FAULT_REG] *)
Definition RING_FAULT_REG (base : Z) : Z := (base + 0x150).
(** [TGL.hpp:269-269 RING_DMA_FADD] *)
Definition RING_DMA_FADD (base : Z) : Z := (base + 0x78).
(** [TGL.hpp:270-270 RING_DMA_FADD_UDW] *)
Definition RING_DMA_FADD_UDW (base : Z) : Z := (base + 0x60).
(** [TGL.hpp:271-271 RING_INSTPM] *)
Definition RING_INSTPM (base : Z) : Z := (base + 0xC0).
(** [TGL.hpp:272-272 RING_CONTEXT_STATUS_BUF] *)
Definition RING_CONTEXT_STATUS_BUF (base : Z) (idx : Z) : Z := (base + 0x370 + idx * 8).
(** [TGL.hpp:273-273 RING_CONTEXT_STATUS_BUF_HI] *)
Definition RING_CONTEXT_STATUS_BUF_HI (base : Z) (idx : Z) : Z := (base + 0x374 + idx * 8).
(** [TGL.hpp:276-276 ERROR_GEN6] *)
Definition ERROR_GEN6 : Z := 0x40A0.
(** [TGL.hpp:277-277 GEN12_RING_FAULT_REG] *)
Definition GEN12_RING_FAULT_REG : Z := 0xCEC4.
(** [TGL.hpp:278-278 GEN8_FAULT_TLB_DATA0] *)
Definition GEN8_FAULT_TLB_DATA0 : Z := 0x4B10.
(** [TGL.hpp:279-279 GEN8_FAULT_TLB_DATA1] *)
Definition GEN8_FAULT_TLB_DATA1 : Z := 0x4B14.
(** [TGL.hpp:289-289 RING_RESET_CTL] *)
Definition RING_RESET_CTL (base : Z) : Z := (base + 0xd0).
(** [TGL.hpp:295-295 GEN8_GGTT_PTE_BASE] *)
Definition GEN8_GGTT_PTE_BASE : Z := 0x800000.
(** [TGL.hpp:296-296 GGTT_PTE_LO] *)
Definition GGTT_PTE_LO (page : Z) : Z := (GEN8_GGTT_PTE_BASE + page * 8).
(** [TGL.hpp:297-297 GGTT_PTE_HI] *)
Definition GGTT_PTE_HI (page : Z) : Z := (GEN8_GGTT_PTE_BASE + page * 8 + 4).
(** [TGL.hpp:299-299 STOP_RING] *)
Definition STOP_RING : Z := (BIT 8).
(** [TGL.hpp:301-301 RENDER_RING_BASE] *)
Definition RENDER_RING_BASE : Z := 0x2000.
(** [TGL.hpp:302-302 GEN12_COMPUTE0_RING_BASE] *)
Definition GEN12_COMPUTE0_RING_BASE : Z := 0x1a000.
(** [TGL.hpp:303-303 BLT_RING_BASE] *)
Definition BLT_RING_BASE : Z := 0x22000.
(** [TGL.hpp:306-306 GEN11_VEBOX_RING_BASE] *)
Definition GEN11_VEBOX_RING_BASE : Z := 0x1c8000.
(** [TGL.hpp:309-309 ICL_REG_CDCLK_CTL] *)
Definition ICL_REG_CDCLK_CTL : Z := 0x46000.
(** [TGL.hpp:311-311 ICL_REG_DSSM] *)
Definition ICL_REG_DSSM : Z := 0x51004.
(** [TGL.hpp:357-357 ICL_CDCLK_DEC_FREQ_THRESHOLD] *)
Definition ICL_CDCLK_DEC_FREQ_THRESHOLD : Z := 0x50E.
(** [TGL.hpp:361-361 ICL_CDCLK_PLL_FREQ_REF_24_0] *)
Definition ICL_CDCLK_PLL_FREQ_REF_24_0 : Z := 24000000 * 54.
(** [TGL.hpp:362-362 ICL_CDCLK_PLL_FREQ_REF_19_2] *)
Definition ICL_CDCLK_PLL_FREQ_REF_19_2 : Z := 19200000 * 68.
(** [TGL.hpp:363-363 ICL_CDCLK_PLL_FREQ_REF_38_4] *)
Definition ICL_CDCLK_PLL_FREQ_REF_38_4 : Z := 38400000 * 34.
(** [TGL.hpp:376-376 CDCLK_FREQ_DECIMAL_MASK] *)
Definition CDCLK_FREQ_DECIMAL_MASK : Z := 0x7ff.
(** [TGL.hpp:377-377 SKL_DSSM] *)
Definition SKL_DSSM : Z := 0x51004.
(** [TGL.hpp:378-378 ICL_DSSM_CDCLK_PLL_REFCLK_MASK] *)
Definition ICL_DSSM_CDCLK_PLL_REFCLK_MASK : Z := (7 .<< 29).
(** [TGL.hpp:382-382 BXT_DE_PLL_ENABLE] *)
Definition BXT_DE_PLL_ENABLE : Z := 0x46070.
(** [TGL.hpp:383-383 BXT_DE_PLL_PLL_ENABLE] *)
Definition BXT_DE_PLL_PLL_ENABLE : Z := (1 .<< 31).
(** [TGL.hpp:447-447 MCHBAR_MIRROR_BASE_SNB] *)
Definition MCHBAR_MIRROR_BASE_SNB : Z := 0x140000.
(** [TGL.hpp:449-449 GEN6_RP_STATE_CAP] *)
Definition GEN6_RP_STATE_CAP : Z := MCHBAR_MIRROR_BASE_SNB + 0x5998.
(** [TGL.hpp:451-451 GEN9_FREQUENCY_SHIFT] *)
Definition GEN9_FREQUENCY_SHIFT : Z := 23.
(** [TGL.hpp:452-452 GEN9_FREQ_SCALER] *)
Definition GEN9_FREQ_SCALER : Z := 3.
(** [TGL.hpp:457-457 FORCEWAKE_KERNEL_FALLBACK] *)
Definition FORCEWAKE_KERNEL_FALLBACK : Z := 1 .<< 15.
(** [TGL.hpp:458-458 FORCEWAKE_ACK_TIMEOUT_MS] *)
Definition FORCEWAKE_ACK_TIMEOUT_MS : Z := 50.
(** [TGL.hpp:462-462 FORCEWAKE_RENDER_GEN9] *)
Definition FORCEWAKE_RENDER_GEN9 : Z := 0xa278.
(** [TGL.hpp:463-463 FORCEWAKE_BLITTER_GEN9] *)
Definition FORCEWAKE_BLITTER_GEN9 : Z := 0xa188.
(** [TGL.hpp:467-467 FORCEWAKE_ACK_RENDER_GEN9] *)
Definition FORCEWAKE_ACK_RENDER_GEN9 : Z := 0xD84.
(** [TGL.hpp:468-468 FORCEWAKE_ACK_BLITTER_GEN9] *)
Definition FORCEWAKE_ACK_BLITTER_GEN9 : Z := 0x130044.
(** [TGL.hpp:470-470 FORCEWAKE_MEDIA_VDBOX_GEN11] *)
Definition FORCEWAKE_MEDIA_VDBOX_GEN11 (n : Z) : Z := (0xa540 + n * 4).
(** [TGL.hpp:471-471 FORCEWAKE_MEDIA_VEBOX_GEN11] *)
Definition FORCEWAKE_MEDIA_VEBOX_GEN11 (n : Z) : Z := (0xa560 + n * 4).
(** [TGL.hpp:472-472 FORCEWAKE_ACK_MEDIA_VDBOX_GEN11] *)
Definition FORCEWAKE_ACK_MEDIA_VDBOX_GEN11 (n : Z) : Z := (0xd50 + n * 4).
(** [TGL.hpp:473-473 FORCEWAKE_ACK_MEDIA_VEBOX_GEN11] *)
Definition FORCEWAKE_ACK_MEDIA_VEBOX_GEN11 (n : Z) : Z := (0xd70 + n * 4).
(** [TGL.hpp:751-751 GEN10_DFR_RATIO_EN_AND_CHICKEN] *)
Definition GEN10_DFR_RATIO_EN_AND_CHICKEN : Z := 0x9550.
(** [TGL.hpp:752-752 DFR_DISABLE] *)
Definition DFR_DISABLE : Z := (1 .<< 9).
(** [TGL.hpp:759-759 HSW_NDE_RSTWRN_OPT] *)
Definition HSW_NDE_RSTWRN_OPT : Z := 0x46408.
(** [TGL.hpp:761-761 RESET_PCH_HANDSHAKE_ENABLE] *)
Definition RESET_PCH_HANDSHAKE_ENABLE : Z := (BIT 4).
(** [TGL.hpp:826-826 GEN11_GT_INTR_DW0] *)
Definition GEN11_GT_INTR_DW0 : Z := 0x190018.
(** [TGL.hpp:833-833 GEN11_BCS] *)
Definition GEN11_BCS : Z := 15.
(** [TGL.hpp:834-834 GEN11_RCS0] *)
Definition GEN11_RCS0 : Z := 0.
(** [TGL.hpp:836-836 GEN11_GT_INTR_DW1] *)
Definition GEN11_GT_INTR_DW1 : Z := 0x19001c.
(** [TGL.hpp:842-842 GEN11_INTR_IDENTITY_REG0] *)
Definition GEN11_INTR_IDENTITY_REG0 : Z := 0x190060.
(** [TGL.hpp:843-843 GEN11_INTR_IDENTITY_REG1] *)
Definition GEN11_INTR_IDENTITY_REG1 : Z := 0x190064.
(** [TGL.hpp:854-854 GEN11_IIR_REG0_SELECTOR] *)
Definition GEN11_IIR_REG0_SELECTOR : Z := 0x190070.
(** [TGL.hpp:855-855 GEN11_IIR_REG1_SELECTOR] *)
Definition GEN11_IIR_REG1_SELECTOR : Z := 0x190074.
(** [TGL.hpp:860-860 GEN11_RENDER_COPY_INTR_ENABLE] *)
Definition GEN11_RENDER_COPY_INTR_ENABLE : Z := 0x190030.
(** [TGL.hpp:861-861 GEN11_VCS_VECS_INTR_ENABLE] *)
Definition GEN11_VCS_VECS_INTR_ENABLE : Z := 0x190034.
(** [TGL.hpp:862-862 GEN11_GUC_SG_INTR_ENABLE] *)
Definition GEN11_GUC_SG_INTR_ENABLE : Z := 0x190038.
(** [TGL.hpp:863-863 GEN11_GPM_WGBOXPERF_INTR_ENABLE] *)
Definition GEN11_GPM_WGBOXPERF_INTR_ENABLE : Z := 0x19003c.
(** [TGL.hpp:864-864 GEN11_CRYPTO_RSVD_INTR_ENABLE] *)
Definition GEN11_CRYPTO_RSVD_INTR_ENABLE : Z := 0x190040.
(** [TGL.hpp:867-867 GEN11_RCS0_RSVD_INTR_MASK] *)
Definition GEN11_RCS0_RSVD_INTR_MASK : Z := 0x190090.
(** [TGL.hpp:868-868 GEN11_BCS_RSVD_INTR_MASK] *)
Definition GEN11_BCS_RSVD_INTR_MASK : Z := 0x1900a0.
(** [TGL.hpp:869-869 GEN11_VCS0_VCS1_INTR_MASK] *)
Definition GEN11_VCS0_VCS1_INTR_MASK : Z := 0x1900a8.
(** [TGL.hpp:870-870 GEN11_VCS2_VCS3_INTR_MASK] *)
Definition GEN11_VCS2_VCS3_INTR_MASK : Z := 0x1900ac.
(** [TGL.hpp:873-873 GEN11_VECS0_VECS1_INTR_MASK] *)
Definition GEN11_VECS0_VECS1_INTR_MASK : Z := 0x1900d0.
(** [TGL.hpp:874-874 GEN12_VECS2_VECS3_INTR_MASK] *)
Definition GEN12_VECS2_VECS3_INTR_MASK : Z := 0x1900d4.
(** [TGL.hpp:875-875 GEN11_GUC_SG_INTR_MASK] *)
Definition GEN11_GUC_SG_INTR_MASK : Z := 0x1900e8.
(** [TGL.hpp:876-876 GEN11_GPM_WGBOXPERF_INTR_MASK] *)
Definition GEN11_GPM_WGBOXPERF_INTR_MASK : Z := 0x1900ec.
(** [TGL.hpp:877-877 GEN11_CRYPTO_RSVD_INTR_MASK] *)
Definition GEN11_CRYPTO_RSVD_INTR_MASK : Z := 0x1900f0.
(** [TGL.hpp:887-887 GT_CONTEXT_SWITCH_INTERRUPT] *)
Definition GT_CONTEXT_SWITCH_INTERRUPT : Z := (1 .<< 8).
(** [TGL.hpp:893-893 GT_RENDER_USER_INTERRUPT] *)
Definition GT_RENDER_USER_INTERRUPT : Z := (1 .<< 0).
(** [TGL.hpp:896-896 GEN11_GFX_MSTR_IRQ] *)
Definition GEN11_GFX_MSTR_IRQ : Z := 0x190010.
(** [TGL.hpp:897-897 GEN11_MASTER_IRQ] *)
Definition GEN11_MASTER_IRQ : Z := (1 .<< 31).
(** [TGL.hpp:906-906 GEN11_DISPLAY_INT_CTL] *)
Definition GEN11_DISPLAY_INT_CTL : Z := 0x44200.
(** [TGL.hpp:907-907 GEN11_DISPLAY_IRQ_ENABLE] *)
Definition GEN11_DISPLAY_IRQ_ENABLE : Z := (1 .<< 31).
(** [TGL.hpp:917-917 GT_CS_MASTER_ERROR_INTERRUPT] *)
Definition GT_CS_MASTER_ERROR_INTERRUPT : Z := 3.
(** [TGL.hpp:918-918 GT_WAIT_SEMAPHORE_INTERRUPT] *)
Definition GT_WAIT_SEMAPHORE_INTERRUPT : Z := 11.
End Regs.
