(* ===== verification/Mmio.v ===== *)
(** * MMIO accessors of [NGreen] (NGreen.hpp)

    Register access through the BAR with the index/data fallback, the guard that
    keeps an enabled display plane from being armed with surface address 0, and the
    read-modify-write helpers of the hardware workarounds. *)
From S2P Require Import Prelude Machine Sim.

Module Mmio.
Section defs.
Context `{Platform}.

Definition mmPCIE_INDEX2 : Z := 0xE.
Definition mmPCIE_DATA2 : Z := 0xF.

(** [NGreen.hpp mmioValid] *)
Definition mmioValid (n : NGreen) : bool := bool_decide (is_Some (rmmio n)) && rmmioPtr n.

(** Length of the mapping, meaningful when [mmioValid]. *)
Definition getLength (n : NGreen) : Z := default 0 (rmmio n).

(** [NGreen.hpp readReg32] *)
Definition readReg32 (reg : Z) : M Z :=
  valid ← ng mmioValid;
  len ← ng getLength;
  if negb valid then mret 0
  else if u64 (reg + 4) <=? len then ptr_read (reg .>> 2)
  else _ ← ptr_write mmPCIE_INDEX2 reg; ptr_read mmPCIE_DATA2.

(** [NGreen.hpp:99-101 writeReg32] *)
Definition looksLikePlaneSurf (reg : Z) : bool :=
  ((0x60000 <=? reg) && (reg <=? 0xBFFFF)) && (reg .& 0xFFF =? 0x19C).

(** The store at the end of [writeReg32]. [NGreen.hpp:124-129 writeReg32] *)
Definition storeReg32 (reg val : Z) : M unit :=
  len ← ng getLength;
  if u64 (reg + 4) <=? len then ptr_write (reg .>> 2) val
  else _ ← ptr_write mmPCIE_INDEX2 reg; ptr_write mmPCIE_DATA2 val.

(** The guard both writers start with: the value to store, after the plane has been
    disabled with [wr] (the 32-bit writer) when nothing else can be done.
    [NGreen.hpp:102-122 writeReg32] *)
Definition guardZeroSurf (wr : Z -> Z -> M unit) (reg val : Z) : M Z :=
  if looksLikePlaneSurf reg && (val =? 0) then
    let ctlReg := u32 (reg - 0x1C) in
    planCtl ← readReg32 ctlReg;
    if truthy (planCtl .& 0x80000000) then
      currentSurf ← readReg32 reg;
      if truthy currentSurf then mret currentSurf
      else _ ← wr ctlReg (planCtl .& not32 0x80000000); mret val
    else mret val
  else mret val.

(** The function calls itself on the plane-control register; [fuel] bounds the
    depth. [NGreen.hpp writeReg32] *)
Fixpoint writeReg32_fuel (fuel : nat) (reg val : Z) : M unit :=
  match fuel with
  | O => out_of_fuel
  | S fuel' =>
    valid ← ng mmioValid;
    if negb valid then mret ()
    else val ← guardZeroSurf (writeReg32_fuel fuel') reg val; storeReg32 reg val
  end.

(** The depth is never more than 2: the control register is not a surface register. *)
Definition writeReg32 : Z -> Z -> M unit := writeReg32_fuel 2.

(** [reg] is used both as a byte offset (by the guard) and as a dword index (by the
    access), with a 32-bit access of the 64-bit value. [NGreen.hpp readReg64] *)
Definition readReg64 (reg : Z) : M Z :=
  valid ← ng mmioValid;
  len ← ng getLength;
  if negb valid then mret 0
  else if u64 (reg * 8) <? len then ptr_read reg
  else _ ← ptr_write mmPCIE_INDEX2 reg; ptr_read mmPCIE_DATA2.

(** [NGreen.hpp writeReg64] *)
Definition writeReg64 (reg val : Z) : M unit :=
  valid ← ng mmioValid;
  if negb valid then mret ()
  else
    val ← guardZeroSurf writeReg32 reg val;
    len ← ng getLength;
    if u64 (reg * 8) <? len then ptr_write reg val
    else _ ← ptr_write mmPCIE_INDEX2 reg; ptr_write mmPCIE_DATA2 val.

(** [NGreen.hpp intel_de_rmw] *)
Definition intel_de_rmw (reg clear set : Z) : M Z :=
  old ← readReg32 reg;
  _ ← writeReg32 reg ((old .& not32 clear) .| set);
  mret old.

(** [NGreen.hpp whitelist_reg_ext] *)
Definition whitelist_reg_ext (reg flags : Z) : M unit :=
  old ← readReg32 reg; writeReg32 reg (old .| flags).

Definition RING_FORCE_TO_NONPRIV_ACCESS_RW : Z := 0 .<< 28.

(** [NGreen.hpp whitelist_reg] *)
Definition whitelist_reg (reg : Z) : M unit :=
  whitelist_reg_ext reg RING_FORCE_TO_NONPRIV_ACCESS_RW.

(** [NGreen.hpp:15-18 _MASKED_FIELD] *)
Definition MASKED_FIELD (mask value : Z) : Z := u32 (mask .<< 16) .| value.
Definition MASKED_BIT_ENABLE (a : Z) : Z := MASKED_FIELD a a.

(** The value [wa_add] writes. [NGreen.hpp:204-211 wa_add] *)
Definition wa_value (old clear set read_mask : Z) (masked_reg : bool) : Z :=
  let set := if masked_reg then set .& not32 (set .>> 16) else set in
  ((old .& not32 clear) .| set) .| read_mask.

(** [NGreen.hpp wa_add] *)
Definition wa_add (reg clear set read_mask : Z) (masked_reg : bool) : M unit :=
  old ← readReg32 reg;
  writeReg32 reg (wa_value old clear set read_mask masked_reg).

(** [NGreen.hpp wa_masked_en] *)
Definition wa_masked_en (reg val : Z) : M unit :=
  wa_add reg 0 (MASKED_BIT_ENABLE val) val true.
(** [NGreen.hpp wa_masked_field_set] *)
Definition wa_masked_field_set (reg mask val : Z) : M unit :=
  wa_add reg 0 (MASKED_FIELD mask val) mask true.
(** [NGreen.hpp wa_write_clr_set] *)
Definition wa_write_clr_set (reg clear set : Z) : M unit :=
  wa_add reg clear set (clear .| set) false.
(** [NGreen.hpp wa_mcr_add] *)
Definition wa_mcr_add (reg clear set read_mask : Z) (masked_reg : bool) : M unit :=
  wa_add reg clear set read_mask masked_reg.
(** [NGreen.hpp wa_mcr_masked_en] *)
Definition wa_mcr_masked_en (reg val : Z) : M unit :=
  wa_mcr_add reg 0 (MASKED_BIT_ENABLE val) val true.
(** [NGreen.hpp wa_mcr_write_clr_set] *)
Definition wa_mcr_write_clr_set (reg clear set : Z) : M unit :=
  wa_mcr_add reg clear set (clear .| set) false.
(** [NGreen.hpp wa_write] *)
Definition wa_write (reg set : Z) : M unit := wa_write_clr_set reg (not32 0) set.
(** [NGreen.hpp wa_write_or] *)
Definition wa_write_or (reg set : Z) : M unit := wa_write_clr_set reg set set.
(** [NGreen.hpp wa_mcr_write_or] *)
Definition wa_mcr_write_or (reg set : Z) : M unit := wa_mcr_write_clr_set reg set set.
(** [NGreen.hpp wa_write_clr] *)
Definition wa_write_clr (reg clr : Z) : M unit := wa_write_clr_set reg clr 0.
(** [NGreen.hpp wa_mcr_write_clr] *)
Definition wa_mcr_write_clr (reg clr : Z) : M unit := wa_mcr_write_clr_set reg clr 0.

(** Forwarders the traces use. [NGreen.hpp readMMIO32] *)
Definition readMMIO32 (reg : Z) : M Z := readReg32 reg.
(** [TGL.cpp tmmioReady] *)
Definition tmmioReady : M bool := ng (fun n => ngCallback n && mmioValid n).
(** [TGL.cpp tWriteRegister32] *)
Definition tWriteRegister32 (a b : Z) : M unit :=
  live ← ng ngCallback; when live (writeReg32 a b).
(** [TGL.cpp tWriteRegister64] *)
Definition tWriteRegister64 (b c : Z) : M unit :=
  live ← ng ngCallback; when live (writeReg64 b c).
(** [TGL.cpp tReadRegister32] *)
Definition tReadRegister32 (a : Z) : M Z :=
  live ← ng ngCallback; if live : bool then readReg32 a else mret 0.
(** [TGL.cpp tReadRegister64] *)
Definition tReadRegister64 (b : Z) : M Z :=
  live ← ng ngCallback; if live : bool then readReg64 b else mret 0.
End defs.

Section facts.
Context `{Platform}.

(** *** The guard does not recurse: a control register is never a surface register *)
Lemma plane_surf_spec reg :
  looksLikePlaneSurf reg = true <-> 0x60000 <= reg <= 0xBFFFF /\ reg mod 4096 = 0x19C.
Proof.
  unfold looksLikePlaneSurf. change 0xFFF with (Z.ones 12).
  rewrite Z.land_ones by lia. rewrite !andb_true_iff, !Z.leb_le, Z.eqb_eq. simpl. tauto.
Qed.
Lemma plane_ctl_spec reg :
  looksLikePlaneSurf reg = true ->
  u32 (reg - 0x1C) = reg - 0x1C /\ looksLikePlaneSurf (reg - 0x1C) = false.
Proof.
  rewrite plane_surf_spec. intros [Hr Hm]. split; [apply u32_small; lia|].
  apply not_true_iff_false. rewrite plane_surf_spec. intros [_ Hm'].
  pose proof (Z.div_mod reg 4096). pose proof (Z.div_mod (reg - 0x1C) 4096).
  pose proof (Z.mod_pos_bound reg 4096). lia.
Qed.

Lemma bind_ext {A B} (m m' : M A) (k k' : A -> M B) w :
  m w = m' w -> (forall a w, k a w = k' a w) -> (m ≫= k) w = (m' ≫= k') w.
Proof. intros Hm Hk. unfold mbind, M_bind. rewrite Hm. by destruct (m' w). Qed.

Lemma guardZeroSurf_off wr reg val :
  looksLikePlaneSurf reg && (val =? 0) = false -> guardZeroSurf wr reg val = mret val.
Proof. intros Hg. unfold guardZeroSurf. by rewrite Hg. Qed.

Lemma guardZeroSurf_ext wr wr' reg val w :
  (forall v w, looksLikePlaneSurf reg = true -> wr (reg - 0x1C) v w = wr' (reg - 0x1C) v w) ->
  guardZeroSurf wr reg val w = guardZeroSurf wr' reg val w.
Proof.
  intros Hwr. unfold guardZeroSurf.
  destruct (looksLikePlaneSurf reg) eqn:Hs, (val =? 0); [|done..]. cbn [andb].
  destruct (plane_ctl_spec reg Hs) as [-> _].
  apply bind_ext; [done|]. intros c w1. destruct (truthy _); [|done].
  apply bind_ext; [done|]. intros cur w2. destruct (truthy _); [done|].
  apply bind_ext; [by apply Hwr|done].
Qed.

Lemma writeReg32_fuel_plain n n' reg val w :
  looksLikePlaneSurf reg = false ->
  writeReg32_fuel (S n) reg val w = writeReg32_fuel (S n') reg val w.
Proof. intros Hg. cbn [writeReg32_fuel]. by rewrite !guardZeroSurf_off by (by rewrite Hg). Qed.

Lemma writeReg32_fuel_enough n reg val w :
  writeReg32_fuel (S (S n)) reg val w = writeReg32 reg val w.
Proof.
  unfold writeReg32. remember (S n) as m. remember 1%nat as o. cbn [writeReg32_fuel]. subst.
  apply bind_ext; [done|]. intros v w1. destruct (negb v); [done|].
  apply bind_ext; [|done]. apply guardZeroSurf_ext. intros v' w2 Hs.
  apply writeReg32_fuel_plain. by apply plane_ctl_spec.
Qed.

(** *** One access *)
Lemma readReg32_run reg w :
  readReg32 reg w =
    if mmioValid (w_ng w) then
      if u64 (reg + 4) <=? getLength (w_ng w) then ptr_read (reg .>> 2) w
      else (_ ← ptr_write mmPCIE_INDEX2 reg; ptr_read mmPCIE_DATA2) w
    else Done 0 w.
Proof.
  unfold readReg32, mbind at 1 2, M_bind at 1 2, ng, gets.
  destruct (mmioValid (w_ng w)); [|done]. simpl negb. cbv iota. by destruct (_ <=? _).
Qed.
Lemma storeReg32_run reg val w :
  storeReg32 reg val w =
    if u64 (reg + 4) <=? getLength (w_ng w) then ptr_write (reg .>> 2) val w
    else (_ ← ptr_write mmPCIE_INDEX2 reg; ptr_write mmPCIE_DATA2 val) w.
Proof. unfold storeReg32, mbind at 1, M_bind at 1, ng, gets. by destruct (_ <=? _). Qed.
Lemma writeReg32_plain_run reg val w :
  looksLikePlaneSurf reg && (val =? 0) = false ->
  writeReg32 reg val w = if mmioValid (w_ng w) then storeReg32 reg val w else Done () w.
Proof.
  intros Hg. unfold writeReg32. cbn [writeReg32_fuel]. rewrite guardZeroSurf_off by done.
  unfold mbind, M_bind, ng, gets. by destruct (mmioValid (w_ng w)).
Qed.

Lemma readReg32_range reg w v w' : readReg32 reg w = Done v w' -> 0 <= v < 2 ^ 32.
Proof.
  rewrite readReg32_run. unfold mbind, M_bind, ptr_read, ptr_write. simpl.
  intros; repeat case_match; simplify_eq/=; auto using u32_range; lia.
Qed.

(** *** Generic relations: the accessors only read and write dwords *)
Section accessors.
Context (R : relation world) `{!PreOrder R}.
Hypothesis R_read : forall i, respects R (ptr_read i).
Hypothesis R_write : forall i v, respects R (ptr_write i v).
Lemma respects_readReg32 reg : respects R (readReg32 reg).
Proof. unfold readReg32. respects_auto; auto. Qed.
Lemma respects_storeReg32 reg v : respects R (storeReg32 reg v).
Proof. unfold storeReg32. respects_auto; auto. Qed.
Lemma respects_guard wr reg v :
  (forall r x, respects R (wr r x)) -> respects R (guardZeroSurf wr reg v).
Proof.
  intros. unfold guardZeroSurf. pose proof respects_readReg32. respects_auto; auto.
Qed.
Lemma respects_writeReg32_fuel n reg v : respects R (writeReg32_fuel n reg v).
Proof.
  revert reg v. induction n as [|n IH]; intros reg v; cbn [writeReg32_fuel]; [respects_auto|].
  pose proof respects_guard. pose proof respects_storeReg32. respects_auto; auto.
Qed.
Lemma respects_writeReg32 reg v : respects R (writeReg32 reg v).
Proof. apply respects_writeReg32_fuel. Qed.
Lemma respects_readReg64 reg : respects R (readReg64 reg).
Proof. unfold readReg64. respects_auto; auto. Qed.
Lemma respects_writeReg64 reg v : respects R (writeReg64 reg v).
Proof.
  unfold writeReg64. pose proof respects_guard. pose proof respects_writeReg32.
  respects_auto; auto.
Qed.
Lemma respects_intel_de_rmw reg c v : respects R (intel_de_rmw reg c v).
Proof.
  unfold intel_de_rmw. pose proof respects_readReg32. pose proof respects_writeReg32.
  respects_auto; auto.
Qed.
Lemma respects_wa_add reg c v m b : respects R (wa_add reg c v m b).
Proof.
  unfold wa_add. pose proof respects_readReg32. pose proof respects_writeReg32.
  respects_auto; auto.
Qed.
End accessors.

(** The state of the plugin is not touched by register accesses. *)
Lemma keeps_ptr_read {A} (f : world -> A) i :
  (forall w h e, f (emit e (w <| w_hw := h |>)) = f w) -> respects (keeps f) (ptr_read i).
Proof. intros Hf w. unfold ptr_read. destruct (mmio_read _ _). apply Hf. Qed.
Lemma keeps_ptr_write {A} (f : world -> A) i v :
  (forall w h e, f (emit e (w <| w_hw := h |>)) = f w) -> respects (keeps f) (ptr_write i v).
Proof. intros Hf w. apply Hf. Qed.

(** *** Enabled planes are never armed with surface 0

    A direct write of 0 to a surface register is acceptable when the event right
    before it shows the plane disabled: its control register was read, or has just
    been written, with bit 31 clear. *)
Definition shows_plane_off (surfIdx : Z) (e : event) : Prop :=
  match e with
  | ERd j v | EWr j v => j = surfIdx - 7 /\ Z.testbit v 31 = false
  | _ => False
  end.
Fixpoint zero_surf_ok (tr : list event) : Prop :=
  match tr with
  | [] => True
  | e :: rest =>
    match e with
    | EWr i v => looksLikePlaneSurf (4 * i) = true -> v = 0 ->
                 match rest with e' :: _ => shows_plane_off i e' | [] => False end
    | _ => True
    end /\ zero_surf_ok rest
  end.
#[local] Arguments zero_surf_ok : simpl never.

(** A register access issued by the plugin. *)
Inductive mmio_op :=
| OpRead32 (reg : Z)
| OpWrite32 (reg val : Z)
| OpRmw (reg clear set : Z)
| OpWa (reg clear set read_mask : Z) (masked_reg : bool).
Definition run_op (o : mmio_op) : M unit :=
  match o with
  | OpRead32 reg => _ ← readReg32 reg; mret ()
  | OpWrite32 reg val => writeReg32 reg val
  | OpRmw reg clear set => _ ← intel_de_rmw reg clear set; mret ()
  | OpWa reg clear set rm masked => wa_add reg clear set rm masked
  end.
Definition word (v : Z) : Prop := 0 <= v < 2 ^ 32.
Definition aligned (reg : Z) : Prop := 0 <= reg < 2 ^ 64 - 4 /\ reg mod 4 = 0.
Definition op_ok (o : mmio_op) : Prop :=
  match o with
  | OpRead32 reg => aligned reg
  | OpWrite32 reg val => aligned reg /\ word val
  | OpRmw reg c v => aligned reg /\ word c /\ word v
  | OpWa reg c v m _ => aligned reg /\ word c /\ word v /\ word m
  end.

Lemma plane_ctl_aligned reg : looksLikePlaneSurf reg = true -> aligned (reg - 0x1C).
Proof.
  intros [Hr Hm]%plane_surf_spec. split; [lia|]. rewrite Zminus_mod.
  rewrite <-(Z.mod_mod_divide reg 4096 4) by (by exists 1024). by rewrite Hm.
Qed.
Lemma zero_ok_write i v tr :
  looksLikePlaneSurf (4 * i) = false \/ v <> 0 -> zero_surf_ok tr -> zero_surf_ok (EWr i v :: tr).
Proof. intros [Hi|Hv] Ht; split; congruence || done. Qed.
Lemma shiftr2_dword reg : reg mod 4 = 0 -> 4 * (reg .>> 2) = reg.
Proof.
  intros. rewrite Z.shiftr_div_pow2 by lia. change (2 ^ 2) with 4.
  pose proof (Z.div_mod reg 4). lia.
Qed.
Lemma bit31_truthy c : word c -> truthy (c .& 0x80000000) = Z.testbit c 31.
Proof.
  intros Hc. unfold truthy. change 0x80000000 with (2 ^ 31).
  destruct (Z.testbit c 31) eqn:Hb.
  - apply negb_true_iff, Z.eqb_neq. intros E. apply (f_equal (fun z => Z.testbit z 31)) in E.
    rewrite Z.land_spec, Hb, Z.bits_0 in E. done.
  - apply negb_false_iff, Z.eqb_eq. apply Z.bits_inj'. intros i Hi.
    rewrite Z.land_spec, Z.pow2_bits_eqb, Z.bits_0 by lia.
    destruct (Z.eqb_spec 31 i) as [<-|]; [by rewrite Hb|btauto].
Qed.

(** A read leaves the trace acceptable and, inside the mapping, is its last event. *)
Lemma readReg32_trace reg w v w' :
  readReg32 reg w = Done v w' ->
  w_ng w' = w_ng w /\ (zero_surf_ok (w_tr w) -> zero_surf_ok (w_tr w')) /\
  (mmioValid (w_ng w) = true -> u64 (reg + 4) <= getLength (w_ng w) ->
   w_tr w' = ERd (reg .>> 2) v :: w_tr w).
Proof.
  rewrite readReg32_run. unfold mbind, M_bind, ptr_read, ptr_write. simpl. intros E.
  repeat case_match; simplify_eq/=; split_and!; try done; try (intros; bools; lia);
    intros; try split; try done; by apply zero_ok_write; [left|].
Qed.
Lemma storeReg32_plain_trace reg val w w' :
  reg mod 4 = 0 -> word val -> looksLikePlaneSurf reg = false \/ val <> 0 ->
  storeReg32 reg val w = Done () w' -> zero_surf_ok (w_tr w) -> zero_surf_ok (w_tr w').
Proof.
  intros Ha Hv Hg. rewrite storeReg32_run. unfold mbind, M_bind, ptr_write. simpl.
  rewrite (u32_small val) by done. intros E Hok.
  case_match; simplify_eq/=.
  - apply zero_ok_write; [by rewrite shiftr2_dword|done].
  - apply zero_ok_write; [by left|]. apply zero_ok_write; [by left|done].
Qed.
Lemma storeReg32_off_trace reg w w' tr e :
  reg mod 4 = 0 -> looksLikePlaneSurf reg = true ->
  w_tr w = e :: tr -> shows_plane_off (reg .>> 2) e ->
  storeReg32 reg 0 w = Done () w' -> zero_surf_ok (w_tr w) -> zero_surf_ok (w_tr w').
Proof.
  intros Ha Hs Htr He. rewrite storeReg32_run. unfold mbind, M_bind, ptr_write. simpl.
  intros E Hok. case_match; simplify_eq/=.
  - split; [|done]. rewrite Htr. done.
  - apply zero_ok_write; [by left|]. apply zero_ok_write; [by left|done].
Qed.

Lemma plane_off_cleared c : Z.testbit (u32 (c .& not32 0x80000000)) 31 = false.
Proof. rewrite u32_testbit, Z.land_spec by lia. change (Z.testbit (not32 0x80000000) 31) with false. btauto. Qed.
Lemma ctl_idx reg : looksLikePlaneSurf reg = true -> (reg - 0x1C) .>> 2 = (reg .>> 2) - 7.
Proof.
  rewrite plane_surf_spec. intros [Hr Hm]. rewrite !Z.shiftr_div_pow2 by lia.
  change (2 ^ 2) with 4. replace (reg - 0x1C) with (reg + (-7) * 4) by lia.
  rewrite Z.div_add by lia. lia.
Qed.

Lemma plain_write_trace n reg val w w' :
  reg mod 4 = 0 -> word val -> looksLikePlaneSurf reg = false -> mmioValid (w_ng w) = true ->
  writeReg32_fuel (S n) reg val w = Done () w' ->
  (zero_surf_ok (w_tr w) -> zero_surf_ok (w_tr w')) /\ w_ng w' = w_ng w /\
  (u64 (reg + 4) <= getLength (w_ng w) -> w_tr w' = EWr (reg .>> 2) (u32 val) :: w_tr w).
Proof.
  intros Ha Hval Hs Hv E. cbn [writeReg32_fuel] in E.
  rewrite guardZeroSurf_off in E by (by rewrite Hs). inv_done. rewrite Hv in *. cbn [negb] in *. inv_done.
  split; [by eapply storeReg32_plain_trace; eauto|].
  match goal with E : storeReg32 _ _ _ = _ |- _ => rewrite storeReg32_run in E; revert E end.
  unfold mbind, M_bind, ptr_write. case_match; intros; simplify_eq/=; bools; (split; [done|]); [done|lia].
Qed.

(** What the guard hands to the store. *)
Lemma guard_trace n reg val w v w1 :
  reg mod 4 = 0 -> word val -> mmioValid (w_ng w) = true ->
  guardZeroSurf (writeReg32_fuel (S n)) reg val w = Done v w1 -> zero_surf_ok (w_tr w) ->
  w_ng w1 = w_ng w /\ zero_surf_ok (w_tr w1) /\ word v /\
  (looksLikePlaneSurf reg = false \/ v <> 0 \/ getLength (w_ng w) < u64 (reg + 4) \/
   (v = 0 /\ exists e tr, w_tr w1 = e :: tr /\ shows_plane_off (reg .>> 2) e)).
Proof.
  intros Ha Hval Hv E Hok. unfold guardZeroSurf in E.
  destruct (looksLikePlaneSurf reg) eqn:Hs, (Z.eqb_spec val 0) as [->|Hne];
    cbn [andb] in E; try (inv_done; by auto 6).
  destruct (plane_ctl_spec reg Hs) as [Hc Hcs]. cbv zeta in E. rewrite Hc in E. inv_done.
  match goal with E : readReg32 _ w = Done ?c ?w1 |- _ =>
    pose proof (readReg32_range _ _ _ _ E) as Hcr;
    destruct (readReg32_trace _ _ _ _ E) as (Hng & Hok1 & Htr1); rename c into ctl, w1 into wa end.
  rewrite bit31_truthy in * by done. specialize (Hok1 Hok).
  assert (Hfit : getLength (w_ng w) < u64 (reg + 4) \/
    (u64 (reg + 4) <= getLength (w_ng w) /\ u64 (reg - 0x1C + 4) <= getLength (w_ng w))).
  { apply plane_surf_spec in Hs as [? _]. rewrite !u64_small by lia. lia. }
  destruct (Z.testbit ctl 31) eqn:Hb; inv_done; last first.
  { split_and!; [done|done|by split|]. right. right. destruct Hfit as [|[_ Hfit]]; [by left|right].
    split; [done|]. eexists _, _. split; [by apply Htr1|]. split; [by apply ctl_idx|done]. }
  match goal with E : readReg32 reg wa = Done ?c ?w1 |- _ =>
    pose proof (readReg32_range _ _ _ _ E) as Hsr;
    destruct (readReg32_trace _ _ _ _ E) as (Hng2 & Hok2 & _); rename c into cur end.
  unfold truthy in *. destruct (Z.eqb_spec cur 0) as [->|Hcur]; cbn [negb] in *; inv_done.
  - match goal with E : writeReg32_fuel _ _ _ _ = Done ?u _ |- _ =>
      destruct u; apply plain_write_trace in E as (Hok3 & Hng3 & Htr3) end.
    + split_and!; [congruence|auto|done|]. right. right.
      destruct Hfit as [|[_ Hfit]]; [by left|right]. split; [done|]. eexists _, _.
      split; [apply Htr3; congruence|]. split; [by apply ctl_idx|apply plane_off_cleared].
    + pose proof (Z.div_mod reg 4). rewrite Zminus_mod, Ha. done.
    + apply land_range_l; [lia|done].
    + done.
    + congruence.
  - split_and!; [congruence|auto|done|]. auto.
Qed.

Lemma writeReg32_trace reg val w w' :
  aligned reg -> word val -> writeReg32 reg val w = Done () w' ->
  zero_surf_ok (w_tr w) -> zero_surf_ok (w_tr w').
Proof.
  intros [_ Ha] Hval E Hok. unfold writeReg32 in E. remember 1%nat as n.
  cbn [writeReg32_fuel] in E. subst n. inv_done.
  destruct (mmioValid _) eqn:Hv; cbn [negb] in *; inv_done; [|done].
  match goal with E : guardZeroSurf _ _ _ _ = _ |- _ =>
    destruct (guard_trace 0 _ _ _ _ _ Ha Hval Hv E Hok) as (Hng & Hok1 & Hw & Hcase) end.
  match goal with E : storeReg32 _ ?v ?w1 = _ |- _ => rename v into v', w1 into wg, E into Est end.
  destruct Hcase as [Hs|[Hne|[Hlen|(-> & e & tr & Htr & He)]]].
  - eapply storeReg32_plain_trace; eauto.
  - eapply storeReg32_plain_trace; eauto.
  - rewrite storeReg32_run, Hng in Est.
    rewrite (proj2 (Z.leb_gt _ _) Hlen) in Est. inv_done. unfold ptr_write in *. simplify_eq/=.
    by repeat (apply zero_ok_write; [by left|]).
  - destruct (looksLikePlaneSurf reg) eqn:Hs.
    + eapply storeReg32_off_trace; eauto.
    + eapply storeReg32_plain_trace; eauto.
Qed.

(** *** Totality *)
Lemma total_readReg32 reg : total (readReg32 reg).
Proof. unfold readReg32. total_auto. Qed.
Lemma total_storeReg32 reg v : total (storeReg32 reg v).
Proof. unfold storeReg32. total_auto. Qed.
Lemma total_guard wr reg v : (forall v, looksLikePlaneSurf reg = true -> total (wr (reg - 0x1C) v)) ->
  total (guardZeroSurf wr reg v).
Proof.
  intros Hw. unfold guardZeroSurf.
  destruct (looksLikePlaneSurf reg) eqn:Hs; [|simpl; total_auto].
  pose proof total_readReg32. destruct (plane_ctl_spec reg Hs) as [-> _]. total_auto; auto.
Qed.
Lemma total_writeReg32_plain n reg v :
  looksLikePlaneSurf reg = false -> total (writeReg32_fuel (S n) reg v).
Proof.
  intros Hs. cbn [writeReg32_fuel]. pose proof total_storeReg32.
  rewrite guardZeroSurf_off by (by rewrite Hs). total_auto; auto.
Qed.
Lemma total_writeReg32 reg v : total (writeReg32 reg v).
Proof.
  unfold writeReg32. remember 1%nat as n. cbn [writeReg32_fuel]. subst n.
  pose proof total_storeReg32. total_auto; auto. apply total_guard.
  intros x Hs. apply total_writeReg32_plain. by apply plane_ctl_spec.
Qed.
Lemma total_readReg64 reg : total (readReg64 reg).
Proof. unfold readReg64. total_auto. Qed.
Lemma total_writeReg64 reg v : total (writeReg64 reg v).
Proof.
  unfold writeReg64. pose proof total_writeReg32. total_auto.
  apply total_guard. auto.
Qed.
Lemma total_intel_de_rmw reg c v : total (intel_de_rmw reg c v).
Proof.
  unfold intel_de_rmw. pose proof total_writeReg32. pose proof total_readReg32. total_auto.
Qed.
Lemma total_wa_add reg c v m b : total (wa_add reg c v m b).
Proof. unfold wa_add. pose proof total_writeReg32. pose proof total_readReg32. total_auto. Qed.
Lemma total_run_op o : total (run_op o).
Proof.
  pose proof total_writeReg32. pose proof total_readReg32. pose proof total_intel_de_rmw.
  pose proof total_wa_add. destruct o; simpl; total_auto.
Qed.

Lemma word_wa_value old c v m b :
  word old -> word c -> word v -> word m -> word (wa_value old c v m b).
Proof.
  intros. unfold wa_value. repeat apply lor_range; try (done || lia).
  - apply land_range_l; [lia|done].
  - destruct b; [apply land_range_l; [lia|done]|done].
Qed.

Lemma read_write_trace reg old v w w1 w2 u :
  aligned reg -> readReg32 reg w = Done old w1 -> writeReg32 reg v w1 = Done u w2 ->
  (word old -> word v) -> zero_surf_ok (w_tr w) -> zero_surf_ok (w_tr w2).
Proof.
  intros Ha E1 E2 Hv Hok. destruct u.
  eapply (writeReg32_trace reg v w1); [done| |done|by eapply readReg32_trace].
  eapply Hv, readReg32_range, E1.
Qed.

Lemma run_op_trace o w w' :
  op_ok o -> run_op o w = Done () w' -> zero_surf_ok (w_tr w) -> zero_surf_ok (w_tr w').
Proof.
  destruct o as [reg|reg v|reg c v|reg c v m b]; cbn [run_op op_ok].
  - intros _ E. inv_done. by eapply readReg32_trace.
  - intros [? ?]. by apply writeReg32_trace.
  - intros (? & ? & ?) E ?. unfold intel_de_rmw in E. inv_done.
    eapply read_write_trace; eauto. intros Ho.
    apply lor_range; [lia| |done]. apply land_range_l; [lia|done].
  - intros (? & ? & ? & ?) E ?. unfold wa_add in E. inv_done.
    eapply read_write_trace; eauto. intros Ho. by apply word_wa_value.
Qed.

(** *** Accesses stay inside the mapping *)
Definition in_bar (len : Z) (e : event) : Prop :=
  match e with ERd i _ | EWr i _ => 0 <= i /\ 4 * i + 4 <= len | _ => True end.
Definition bar_rel (len : Z) : relation world := fun w w' =>
  rmmio (w_ng w) = Some len -> rmmio (w_ng w') = Some len /\ emits (in_bar len) w w'.
#[global] Instance bar_rel_preorder len : PreOrder (bar_rel len).
Proof.
  split; [by intros w Hw; split|]. intros w1 w2 w3 H12 H23 H1.
  destruct (H12 H1) as [H2 E12]. destruct (H23 H2) as [H3 E23]. split; [done|by etrans].
Qed.
Lemma dword_in_bar reg len :
  0 <= reg < 2 ^ 64 - 4 -> u64 (reg + 4) <= len -> 0 <= reg .>> 2 /\ 4 * (reg .>> 2) + 4 <= len.
Proof.
  intros. rewrite u64_small in * by lia. rewrite Z.shiftr_div_pow2 by lia. change (2 ^ 2) with 4.
  pose proof (Z.div_mod reg 4). pose proof (Z.mod_pos_bound reg 4). lia.
Qed.
Lemma bar_ptr_read len i : 0 <= i -> 4 * i + 4 <= len -> respects (bar_rel len) (ptr_read i).
Proof.
  intros Hi1 Hi2 w Hw. unfold ptr_read. destruct (mmio_read _ _). split; [done|].
  by eapply emits_one.
Qed.
Lemma bar_ptr_write len i v : 0 <= i -> 4 * i + 4 <= len -> respects (bar_rel len) (ptr_write i v).
Proof. intros Hi1 Hi2 w Hw. split; [done|]. by eapply emits_one. Qed.
Lemma bar_readReg32 len reg :
  64 <= len -> 0 <= reg < 2 ^ 64 - 4 -> respects (bar_rel len) (readReg32 reg).
Proof.
  intros Hl Hr w Hw. rewrite readReg32_run. unfold getLength. rewrite Hw. simpl.
  repeat case_match; [| |by split].
  - bools. destruct (dword_in_bar reg len) as [? ?]; [done..|]. by apply bar_ptr_read.
  - eapply (respects_bind (bar_rel len)); [| |exact Hw].
    + apply bar_ptr_write; unfold mmPCIE_INDEX2; lia.
    + intros. apply bar_ptr_read; unfold mmPCIE_DATA2; lia.
Qed.
Lemma bar_storeReg32 len reg v :
  64 <= len -> 0 <= reg < 2 ^ 64 - 4 -> respects (bar_rel len) (storeReg32 reg v).
Proof.
  intros Hl Hr w Hw. rewrite storeReg32_run. unfold getLength. rewrite Hw. simpl. case_match.
  - bools. destruct (dword_in_bar reg len) as [? ?]; [done..|]. by apply bar_ptr_write.
  - eapply (respects_bind (bar_rel len)); [| |exact Hw];
      intros; apply bar_ptr_write; unfold mmPCIE_INDEX2, mmPCIE_DATA2; lia.
Qed.
Lemma bar_guard len wr reg v :
  64 <= len -> 0 <= reg < 2 ^ 64 - 4 ->
  (forall r x, 0 <= r < 2 ^ 64 - 4 -> respects (bar_rel len) (wr r x)) ->
  respects (bar_rel len) (guardZeroSurf wr reg v).
Proof.
  intros Hl Hr Hw. unfold guardZeroSurf. pose proof (bar_readReg32 len) as Hrd.
  pose proof (u32_range (reg - 0x1C)) as Hc.
  respects_auto; apply Hrd || apply Hw; lia.
Qed.
Lemma bar_writeReg32_fuel len n reg v :
  64 <= len -> 0 <= reg < 2 ^ 64 - 4 -> respects (bar_rel len) (writeReg32_fuel n reg v).
Proof.
  intros Hl. revert reg v. induction n as [|n IH]; intros reg v Hr; cbn [writeReg32_fuel];
    respects_auto; [by apply bar_guard|by apply bar_storeReg32].
Qed.
(** The register of an operation, and the offsets on which [reg + sizeof(uint32_t)] does
    not wrap around. *)
Definition op_reg (o : mmio_op) : Z :=
  match o with OpRead32 reg | OpWrite32 reg _ | OpRmw reg _ _ | OpWa reg _ _ _ _ => reg end.
Definition noWrap (o : mmio_op) : Prop := 0 <= op_reg o < 2 ^ 64 - 4.
Lemma bar_run_op len o : 64 <= len -> noWrap o -> respects (bar_rel len) (run_op o).
Proof.
  intros Hl. pose proof (bar_readReg32 len) as Hrd. pose proof (bar_writeReg32_fuel len) as Hwr.
  unfold noWrap. destruct o; cbn [run_op op_reg]; unfold intel_de_rmw, wa_add, writeReg32; intros;
    respects_auto; apply Hrd || apply Hwr; done.
Qed.

(** *** Footprints *)

(** The mapping is live and covers the register. *)
Definition mapped (reg : Z) (w : world) : Prop :=
  mmioValid (w_ng w) = true /\ u64 (reg + 4) <= getLength (w_ng w).

Lemma readReg32_direct reg w : mapped reg w -> readReg32 reg w = ptr_read (reg .>> 2) w.
Proof.
  intros [Hv Hl]. rewrite readReg32_run, Hv. by rewrite (proj2 (Z.leb_le _ _) Hl).
Qed.
Lemma writeReg32_direct reg v w :
  mapped reg w -> looksLikePlaneSurf reg = false -> writeReg32 reg v w = ptr_write (reg .>> 2) v w.
Proof.
  intros [Hv Hl] Hs. rewrite writeReg32_plain_run, Hv, storeReg32_run by (by rewrite Hs).
  by rewrite (proj2 (Z.leb_le _ _) Hl).
Qed.

Section footprint.
Context (P : event -> Prop).
Hypothesis P_read : forall i x, P (ERd i x).
Hypothesis P_index : forall x, P (EWr mmPCIE_INDEX2 x).
Hypothesis P_data : forall x, P (EWr mmPCIE_DATA2 x).
Lemma emits_readReg32 reg : respects (emits P) (readReg32 reg).
Proof. unfold readReg32. respects_auto. Qed.
Lemma emits_storeReg32 reg v : P (EWr (reg .>> 2) (u32 v)) -> respects (emits P) (storeReg32 reg v).
Proof. intros. unfold storeReg32. respects_auto. Qed.
Lemma emits_writeReg32_plain n reg v :
  looksLikePlaneSurf reg = false -> P (EWr (reg .>> 2) (u32 v)) ->
  respects (emits P) (writeReg32_fuel (S n) reg v).
Proof.
  intros Hs HP. cbn [writeReg32_fuel]. rewrite guardZeroSurf_off by (by rewrite Hs).
  pose proof emits_storeReg32. respects_auto; auto.
Qed.
(** A register write touches its own dword; a surface write possibly also the plane
    control dword before it. *)
Lemma emits_writeReg32 reg v :
  (looksLikePlaneSurf reg = true -> forall x, P (EWr (reg .>> 2) x) /\ P (EWr ((reg - 0x1C) .>> 2) x)) ->
  (looksLikePlaneSurf reg = false -> P (EWr (reg .>> 2) (u32 v))) ->
  respects (emits P) (writeReg32 reg v).
Proof.
  intros Hp Hn. destruct (looksLikePlaneSurf reg) eqn:Hs;
    [|by apply emits_writeReg32_plain; auto].
  unfold writeReg32. remember 1%nat as n. cbn [writeReg32_fuel]. subst n.
  destruct (plane_ctl_spec reg Hs) as [Hc Hcs]. unfold guardZeroSurf. rewrite Hc.
  pose proof emits_readReg32. pose proof (emits_storeReg32 reg).
  respects_auto; auto; [apply emits_writeReg32_plain; [done|]|apply emits_storeReg32];
    by apply Hp.
Qed.
End footprint.

(** *** Values written by the workaround helpers *)

(** What a masked register holds after a write: the high half of the written word
    selects the bits of the low half that change. *)
Definition masked_update (old written : Z) : Z :=
  (old .& Z.lnot (written .>> 16)) .| ((written .& (written .>> 16)) .& 0xFFFF).

Lemma wa_write_or_value old set :
  wa_value old set set (set .| set) false = old .& not32 set .| set.
Proof. unfold wa_value. bitblast_eq. Qed.
End facts.

(** ** Properties *)
Section properties.
Context `{Platform}.

(** C4 (safety). Whatever sequence of 32-bit register operations the plugin issues on
    dword-aligned registers, on any hardware: it runs to completion, and every direct
    write of 0 to a display-plane surface register comes right after an access that
    shows the plane disabled (control bit 31 clear), so an enabled plane is never
    armed with surface address 0. *)
Theorem zero_surf_guarded (ops : list mmio_op) (w : world) :
  Forall op_ok ops -> zero_surf_ok (w_tr w) ->
  exists w', iterM ops run_op w = Done () w' /\ zero_surf_ok (w_tr w').
Proof.
  intros Hops. revert w. induction Hops as [|o ops Ho _ IH]; intros w Hw; [by exists w|].
  destruct (total_run_op o w) as ([] & w1 & E). simpl. unfold mbind, M_bind. rewrite E.
  apply IH. by eapply run_op_trace.
Qed.

(** C5 (bounds). With a mapping of at least 64 bytes, no sequence of 32-bit register
    operations (reads, writes, read-modify-writes and workarounds, aligned or not) on
    offsets below [2 ^ 64 - 4] touches a dword outside the mapping: offsets past the end go
    through the index/data pair at dwords 0xE and 0xF. The last four offsets are excluded:
    there the 64-bit sum with the size of the access wraps around. *)
Theorem accesses_in_bar (ops : list mmio_op) (len : Z) (w : world) :
  64 <= len -> rmmio (w_ng w) = Some len -> Forall noWrap ops ->
  emits (in_bar len) w (final (iterM ops run_op w)).
Proof.
  intros Hl Hw Hops. refine (proj2 (respects_iterM (bar_rel len) ops run_op _ w Hw)).
  intros o Ho. apply bar_run_op; [done|]. by eapply Forall_forall in Hops.
Qed.

(** Why the last four offsets are excluded: the sum with the size wraps to at most 3, passes
    for an offset inside the mapping, and the access is a direct one at dword [reg >> 2],
    far outside it. *)
Theorem wrapped_offset_escapes (reg len v : Z) (w : world) :
  rmmio (w_ng w) = Some len -> rmmioPtr (w_ng w) = true -> 64 <= len < 2 ^ 63 -> 2 ^ 64 - 4 <= reg < 2 ^ 64 ->
  readReg32 reg w = ptr_read (reg .>> 2) w /\ storeReg32 reg v w = ptr_write (reg .>> 2) v w /\
  ~ in_bar len (EWr (reg .>> 2) v).
Proof.
  intros Hm Hp Hl Hr. assert (Hu : u64 (reg + 4) <= len).
  { replace (reg + 4) with (reg + 4 - 2 ^ 64 + 1 * 2 ^ 64) by lia.
    unfold u64. rewrite Z.mod_add, Z.mod_small by lia. lia. }
  rewrite readReg32_run, storeReg32_run. unfold mmioValid, getLength. rewrite Hm, Hp. cbn.
  apply Z.leb_le in Hu. rewrite Hu. split; [done|]. split; [done|].
  rewrite Z.shiftr_div_pow2 by lia. change (2 ^ 2) with 4. intros [_ Hi].
  pose proof (Z.div_mod reg 4). pose proof (Z.mod_pos_bound reg 4). lia.
Qed.

(** C31 (termination). The recursion of [writeReg32] on the plane-control register is
    never deeper than one call: any fuel of at least two gives the same, completed
    run. *)
Theorem writeReg32_terminates (n : nat) (reg val : Z) (w : world) :
  exists w', writeReg32_fuel (S (S n)) reg val w = Done () w' /\
             writeReg32 reg val w = Done () w'.
Proof.
  destruct (total_writeReg32 reg val w) as ([] & w' & E). exists w'.
  by rewrite writeReg32_fuel_enough.
Qed.

(** [wa_write_or] writes the old value with the bits set, and
    [wa_masked_en] on a masked register (which reads its mask half as 0) sets exactly
    the requested bits. *)
Theorem wa_set_helpers_correct (old v : Z) :
  0 <= old < 2 ^ 16 -> 0 <= v < 2 ^ 16 ->
  wa_value old v v (v .| v) false = old .| v /\
  masked_update old (wa_value old 0 (MASKED_BIT_ENABLE v) v true) = old .| v.
Proof.
  intros Ho Hv. rewrite wa_write_or_value.
  split; unfold masked_update, wa_value, MASKED_BIT_ENABLE, MASKED_FIELD;
    change 0xFFFF with (Z.ones 16); bitblast_split 16.
Qed.

(** What the clearing and field-setting helpers do because [wa_add]
    ORs the verification mask into the value: [wa_write_clr] sets the bits it should
    clear, [wa_write_clr_set] sets [clear] as well as [set], [wa_write] writes all
    ones, and [wa_masked_field_set] writes all ones into the field whatever value was
    asked for. *)
Theorem wa_clear_helpers_set_bits (old mask v : Z) :
  0 <= old < 2 ^ 16 -> 0 <= mask < 2 ^ 16 -> 0 <= v < 2 ^ 16 ->
  wa_value old mask 0 (mask .| 0) false = old .| mask /\
  wa_value old mask v (mask .| v) false = old .| mask .| v /\
  wa_value old (not32 0) v (not32 0 .| v) false = 0xFFFFFFFF /\
  masked_update old (wa_value old 0 (MASKED_FIELD mask v) mask true) = old .| mask.
Proof.
  intros Ho Hm Hv. split_and!.
  - unfold wa_value. bitblast_split 16.
  - unfold wa_value. bitblast_split 16.
  - unfold wa_value. change (not32 0) with (Z.ones 32). change 0xFFFFFFFF with (Z.ones 32).
    bitblast_split 32.
  - unfold masked_update, wa_value, MASKED_FIELD. change 0xFFFF with (Z.ones 16).
    bitblast_split 16.
Qed.

(** [readReg64] does not read the 64-bit register at byte offset
    [reg]: wherever it accesses the mapping directly it performs the 32-bit read of
    byte offset [4 * reg], and the upper half of its result is always 0. *)
Theorem readReg64_reads_dword_index (reg len : Z) (w : world) :
  rmmio (w_ng w) = Some len -> 4 <= len < 2 ^ 64 - 8 -> 0 <= reg -> 8 * reg < len ->
  readReg64 reg w = readReg32 (4 * reg) w.
Proof.
  intros Hw Hr Hl Hl2. rewrite readReg32_run. unfold readReg64, mbind, M_bind, ng, gets.
  destruct (mmioValid (w_ng w)); [|done]. cbn [negb]. unfold getLength. rewrite Hw.
  change (default 0 (Some len)) with len. rewrite !u64_small by lia. destruct (Z.ltb_spec (reg * 8) len); [|lia].
  destruct (Z.leb_spec (4 * reg + 4) len); [|lia]. f_equal.
  rewrite Z.shiftr_div_pow2 by lia. change (2 ^ 2) with 4. rewrite (Z.mul_comm 4), Z.div_mul by lia. done.
Qed.
End properties.

(** ** Evaluations *)
Import Sim.
#[local] Existing Instance plat.

(** An enabled plane at pipe A (control 0x70180, surface 0x7019C). *)
Definition plane_on (surf : Z) : world :=
  sim_world [(0x70180 / 4, 0x80000000); (0x7019C / 4, surf)].

(** The 64-bit writer is a hole in the guard: with the plane of pipe A
    enabled, [writeReg64] at the dword index of its surface register arms it with
    surface 0. *)
Theorem writeReg64_bypasses_guard :
  ~ zero_surf_ok (w_tr (final (writeReg64 (0x7019C / 4) 0 (plane_on 0x1000)))).
Proof. vm_compute. intuition congruence. Qed.

Lemma zero_surf_guarded_witness :
  exists w', iterM [OpWrite32 0x7019C 0; OpRead32 0x7019C] run_op (plane_on 0x1000) = Done () w' /\
             zero_surf_ok (w_tr w').
Proof.
  apply (zero_surf_guarded [OpWrite32 0x7019C 0; OpRead32 0x7019C] (plane_on 0x1000)).
  - repeat constructor; unfold aligned, word; try lia; done.
  - done.
Defined.

Lemma accesses_in_bar_witness :
  emits (in_bar 0x1000000) (plane_on 0)
    (final (iterM [OpWrite32 0x7019C 0; OpRead32 0x2000000] run_op (plane_on 0))).
Proof.
  apply (accesses_in_bar [OpWrite32 0x7019C 0; OpRead32 0x2000000]).
  - lia.
  - reflexivity.
  - repeat constructor; unfold noWrap; simpl; lia.
Defined.

Lemma wa_set_helpers_correct_witness :
  wa_value 5 2 2 (2 .| 2) false = 7 /\
  masked_update 5 (wa_value 5 0 (MASKED_BIT_ENABLE 2) 2 true) = 7.
Proof. apply (wa_set_helpers_correct 5 2); lia. Defined.

Lemma wa_clear_helpers_set_bits_witness :
  wa_value 1 6 0 (6 .| 0) false = 7 /\
  wa_value 1 6 8 (6 .| 8) false = 15 /\
  wa_value 1 (not32 0) 8 (not32 0 .| 8) false = 0xFFFFFFFF /\
  masked_update 1 (wa_value 1 0 (MASKED_FIELD 6 8) 6 true) = 7.
Proof. apply (wa_clear_helpers_set_bits 1 6 8); lia. Defined.

Lemma readReg64_reads_dword_index_witness :
  readReg64 0x2030 (plane_on 0) = readReg32 (4 * 0x2030) (plane_on 0).
Proof. apply (readReg64_reads_dword_index 0x2030 0x1000000); [reflexivity|lia..]. Defined.
End Mmio.
