(* ===== verification/BootArgs.v ===== *)
(** * Boot arguments (TGL.cpp, RcsEngineTrace.cpp)

    The switches read from the kernel command line. An integer argument decides when
    it is present; otherwise the dash flag does. *)
From S2P Require Import Prelude Machine Sim.

Module BootArgs.
Section defs.
Context `{Platform}.

(** The pattern shared by the switches: [PE_parse_boot_argn(name)] into an [int],
    else [checkKernelArgument(flag)]. *)
Definition switch (name flag : string) : bool :=
  match bootarg name with Some v => truthy (s32 v) | None => kernarg flag end.

(** [TGL.cpp isWEGCoexistMode] *)
Definition isWEGCoexistMode : bool := switch "nbwegcoex" "-nbwegcoex".
(** [TGL.cpp isExperimentalMonitorEnabled] *)
Definition isExperimentalMonitorEnabled : bool := switch "ngreenexp" "-ngreenexp".
(** [TGL.cpp isScheduler5TraceEnabled] *)
Definition isScheduler5TraceEnabled : bool := switch "ngreenS5Trace" "-ngreenS5Trace".
(** [TGL.cpp isV93PlaneGuardEnabled] *)
Definition isV93PlaneGuardEnabled : bool := switch "ngreenv93" "-ngreenv93".
(** [TGL.cpp isReferenceF2ProbeEnabled] *)
Definition isReferenceF2ProbeEnabled : bool := switch "ngreenRefProbeF2" "-ngreenRefProbeF2".
(** [TGL.cpp shouldForceFullMetalPath] *)
Definition shouldForceFullMetalPath : bool := switch "ngreenfullmtl" "-ngreenfullmtl".
(** [TGL.cpp isV88ScanoutFillEnabled] *)
Definition isV88ScanoutFillEnabled : bool := switch "ngreenv88" "-ngreenv88".

(** [TGL.cpp isDisplayPipeForceDisabled] *)
Definition isDisplayPipeForceDisabled : bool :=
  if match bootarg "ngreendp1" with Some v => truthy (s32 v) | None => false end then false
  else if kernarg "-ngreendp1" then false
  else match bootarg "ngreendp0" with
       | Some v => truthy (s32 v)
       | None => kernarg "-ngreendp0"
       end.

(** [TGL.cpp getV77KillDelayIterations] *)
Definition getV77KillDelayIterations : Z :=
  match bootarg "ngreenV77DelayKill" with
  | Some v => let delay := s32 v in
              if delay <? 0 then 0 else if 60 <? delay then 60 else delay
  | None => 60
  end.

(** [TGL.cpp getRcsDeepSchedulerType] *)
Definition getRcsDeepSchedulerType : Z :=
  match bootarg "ngreenSched" with
  | Some v => let s := s32 v in if (3 <=? s) && (s <=? 5) then s else 5
  | None => 5
  end.

(** [TGL.cpp getConfiguredLaneCountOverride] *)
Definition getConfiguredLaneCountOverride : Z :=
  match bootarg "ngreenLanes" with
  | Some v => let l := s32 v in if (l =? 1) || (l =? 2) || (l =? 4) then l else 0
  | None => 0
  end.

(** [RcsEngineTrace.cpp isRcsEngineTraceEnabled] *)
Definition isRcsEngineTraceEnabled : bool :=
  match bootarg "ngreen-rcsdeep" with
  | Some v => truthy (s32 v)
  | None =>
    match bootarg "ngreenRcsEngineTrace" with
    | Some v => truthy (s32 v)
    | None => if kernarg "-ngreen-rcsdeep" then true else kernarg "-ngreenRcsEngineTrace"
    end
  end.
End defs.
End BootArgs.
