(* ===== verification/RegHooks.v ===== *)
(** * Hooked register accessors of the Apple drivers (TGL.cpp)

    The wrappers routed in front of the framebuffer and accelerator register
    functions: the EMR intercept (V72), the plane-surface table (V93), the stride and
    tiling fixups of the fast path, and the interrupt initialisation done on the first
    [readAndClearInterrupts]. *)
From S2P Require Import Prelude Machine Sim Regs Mmio BootArgs.
Import Regs Mmio BootArgs.

Module RegHooks.
Section defs.
Context `{Platform}.

(** The driver's own mapping of the BAR ([mmioBase + address]) reaches the same
    dwords as [rmmioPtr]. [TGL.cpp wrapReadRegister32] *)
Definition wrapReadRegister32 (controller address : Z) : M Z :=
  if controller =? 0 then readReg32 address
  else
    partInfo ← load 8 (controller + 0xCF8);
    mmioBase ← load 8 (controller + 0x9B8);
    mmioSize ← load 4 (controller + 0xC38);
    twoDOnlyPart ← (if truthy partInfo
                    then b ← load 1 (partInfo + 0xB2); mret (truthy (b .& 1))
                    else mret false);
    let dropped2DWindow := (0x2000 <=? address) && (address <=? 0x23FFFF) in
    if twoDOnlyPart && dropped2DWindow then readReg32 address
    else if truthy mmioBase && (4 <=? mmioSize) && (address <? mmioSize - 4)
    then ptr_read (address .>> 2)
    else call "owrapReadRegister32" [controller; address].

(** V72: the error-mask registers of RCS and BCS always get all ones.
    [TGL.cpp:1800-1810 wrapWriteRegister32] *)
Definition emrAddress (address : Z) : bool := (address =? 0x20b4) || (address =? 0x220b4).
Definition v72Mask (address value : Z) : Z :=
  if emrAddress address then if negb (value =? 0xFFFFFFFF) then 0xFFFFFFFF else value
  else value.

(** [TGL.cpp wrapWriteRegister32] *)
Definition wrapWriteRegister32 (controller address value : Z) : M unit :=
  if controller =? 0 then writeReg32 address value
  else
    let value := v72Mask address value in
    _ ← call "owrapWriteRegister32" [controller; address; value]; mret ().

(** Slot of a surface register, claiming a free one. [TGL.cpp:4285-4298 getV93State] *)
Definition claimV93Slot (reg : Z) (states : list V93PlaneSurfState) :
  option nat * list V93PlaneSurfState :=
  match list_find (fun st => surfReg st = reg) states with
  | Some (i, _) => (Some i, states)
  | None =>
    match list_find (fun st => surfReg st = 0) states with
    | Some (i, _) => (Some i, <[i := mkV93 reg 0]> states)
    | None => (None, states)
    end
  end.

(** The lambda returns a pointer into the static table; here the index of the slot.
    [TGL.cpp:4285-4298 getV93State] *)
Definition getV93State (reg : Z) : M (option nat) := fun w =>
  let '(state, states) := claimV93Slot reg (v93States (w_g11 w)) in
  Done state (w <| w_g11 ::= fun g => g <| v93States := states |> |>).
Definition v93Remember (state : option nat) (v : Z) : M unit :=
  match state with
  | Some i => set_g11 (fun g =>
      g <| v93States ::= alter (fun st => st <| lastNonZeroSurf := v |>) i |>)
  | None => mret ()
  end.
Definition v93Last (state : option nat) (g : Gen11) : Z :=
  match state with
  | Some i => from_option lastNonZeroSurf 0 (v93States g !! i)
  | None => 0
  end.

(** [TGL.cpp:4301-4342 raWriteRegister32] *)
Definition v93Guard (param_1 param_2 : Z) : M Z :=
  live ← ng ngCallback;
  if live && isV93PlaneGuardEnabled then
    let reg := u32 (param_1 .& 0xFFFFF) in
    if looksLikePlaneSurf reg then
      state ← getV93State reg;
      if negb (param_2 =? 0) then _ ← v93Remember state param_2; mret param_2
      else
        let ctlReg := reg - 0x1C in
        planCtl ← readReg32 ctlReg;
        if truthy (planCtl .& 0x80000000) then
          last ← g11 (v93Last state);
          if truthy last then mret last
          else
            currentSurf ← readReg32 reg;
            if truthy currentSurf then _ ← v93Remember state currentSurf; mret currentSurf
            else _ ← writeReg32 ctlReg (planCtl .& not32 0x80000000); mret param_2
        else mret param_2
    else mret param_2
  else mret param_2.

(** [TGL.cpp raWriteRegister32] *)
Definition raWriteRegister32 (that param_1 param_2 : Z) : M unit :=
  param_2 ← v93Guard param_1 param_2;
  let param_2 := v72Mask param_1 param_2 in
  if that =? 0 then writeReg32 param_1 param_2
  else if negb (resolved "oraWriteRegister32") then writeReg32 param_1 param_2
  else _ ← call "oraWriteRegister32" [that; param_1; param_2]; mret ().

(** [TGL.cpp raWriteRegister32f] *)
Definition raWriteRegister32f (that param_1 param_2 : Z) : M unit :=
  _ ← call "oraWriteRegister32f" [that; param_1; param_2]; mret ().
(** [TGL.cpp raWriteRegister32b] *)
Definition raWriteRegister32b (that param_1 param_2 param_3 : Z) : M unit :=
  raWriteRegister32 that (u64 (param_1 + param_2)) param_3.
(** [TGL.cpp raWriteRegister64] *)
Definition raWriteRegister64 (that param_1 param_2 : Z) : M unit :=
  live ← ng ngCallback;
  param_2 ← (if live : bool then
    let reg := u32 (param_1 .& 0xFFFFF) in
    guardZeroSurf writeReg32 reg param_2
   else mret param_2);
  _ ← call "oraWriteRegister64" [that; param_1; param_2]; mret ().
(** [TGL.cpp raWriteRegister64b] *)
Definition raWriteRegister64b (that param_1 param_2 param_3 : Z) : M unit :=
  raWriteRegister64 that (u64 (param_1 + param_2)) param_3.

(** [TGL.cpp raReadRegister32] *)
Definition raReadRegister32 (that param_1 : Z) : M Z :=
  if that =? 0 then readReg32 param_1 else call "oraReadRegister32" [that; param_1].
(** [TGL.cpp raReadRegister32b] *)
Definition raReadRegister32b (that param_1 param_2 : Z) : M Z :=
  raReadRegister32 that (u64 (param_1 + param_2)).
(** [TGL.cpp raReadRegister64] *)
Definition raReadRegister64 (that param_1 : Z) : M Z :=
  call "oraReadRegister64" [that; param_1].
(** [TGL.cpp raReadRegister64b] *)
Definition raReadRegister64b (that param_1 param_2 : Z) : M Z :=
  raReadRegister64 that (u64 (param_1 + param_2)).

(** [TGL.cpp:5227-5235 FastWriteRegister32] *)
Definition planeFixup (param_1 param_2 : Z) : Z :=
  let param_2 := if param_1 =? 0x70188 then u32 (param_2 * 8) else param_2 in
  if param_1 =? 0x70180 then param_2 .& not32 (0x7 .<< 10) else param_2.
(** [TGL.cpp FastWriteRegister32] *)
Definition FastWriteRegister32 (that param_1 param_2 : Z) : M unit :=
  let param_2 := planeFixup param_1 (v72Mask param_1 param_2) in
  _ ← call "oFastWriteRegister32" [that; param_1; param_2]; mret ().

(** [TGL.cpp hwConfigureCustomAUX] *)
Definition hwConfigureCustomAUX (that param_1 : Z) : M unit :=
  when (resolved "ohwConfigureCustomAUX")
    (_ ← call "ohwConfigureCustomAUX" [that; param_1]; mret ()).
(** [TGL.cpp:5242-5254 hwRegsNeedUpdate] *)
Definition hwRegsNeedUpdate (that p1 p2 p3 p4 p5 : Z) : M Z :=
  r ← call "ohwRegsNeedUpdate" [that; p1; p2; p3; p4; p5]; mret (u8 r).

(** The interrupt sources enabled at initialisation. [TGL.cpp:4174-4188 readAndClearInterrupts] *)
Definition irqs : Z :=
  GT_RENDER_USER_INTERRUPT .|
  (GT_CS_MASTER_ERROR_INTERRUPT .| GT_CONTEXT_SWITCH_INTERRUPT .| GT_WAIT_SEMAPHORE_INTERRUPT).
Definition dmask : Z := u32 (irqs .<< 16) .| irqs.
Definition smask : Z := u32 (irqs .<< 16).

(** The writes of the first call, in order. [TGL.cpp:4151-4217 readAndClearInterrupts] *)
Definition interruptInitWrites : list (Z * Z) :=
  [ (GEN11_RENDER_COPY_INTR_ENABLE, 0); (GEN11_VCS_VECS_INTR_ENABLE, 0);
    (GEN11_RCS0_RSVD_INTR_MASK, not32 0); (GEN11_BCS_RSVD_INTR_MASK, not32 0);
    (GEN11_VCS0_VCS1_INTR_MASK, not32 0); (GEN11_VCS2_VCS3_INTR_MASK, not32 0);
    (GEN11_VECS0_VECS1_INTR_MASK, not32 0);
    (GEN11_GPM_WGBOXPERF_INTR_ENABLE, 0); (GEN11_GPM_WGBOXPERF_INTR_MASK, not32 0);
    (GEN11_GUC_SG_INTR_ENABLE, 0); (GEN11_GUC_SG_INTR_MASK, not32 0);
    (GEN11_RENDER_COPY_INTR_ENABLE, dmask); (GEN11_VCS_VECS_INTR_ENABLE, dmask);
    (GEN11_RCS0_RSVD_INTR_MASK, not32 smask); (GEN11_BCS_RSVD_INTR_MASK, not32 smask);
    (GEN11_VCS0_VCS1_INTR_MASK, not32 dmask); (GEN11_VCS2_VCS3_INTR_MASK, not32 dmask);
    (GEN11_VECS0_VECS1_INTR_MASK, not32 dmask);
    (GEN11_GPM_WGBOXPERF_INTR_ENABLE, 0); (GEN11_GPM_WGBOXPERF_INTR_MASK, not32 0);
    (GEN11_GUC_SG_INTR_ENABLE, 0); (GEN11_GUC_SG_INTR_MASK, not32 0);
    (GEN11_DISPLAY_INT_CTL, GEN11_DISPLAY_IRQ_ENABLE);
    (GEN11_GFX_MSTR_IRQ, GEN11_MASTER_IRQ) ].

(** [TGL.cpp readAndClearInterrupts] *)
Definition readAndClearInterrupts (that param_1 : Z) : M unit :=
  first ← g11 iniin;
  _ ← when first
    (_ ← set_g11 (fun g => g <| iniin := false |>);
     fc ← g11 framecont;
     _ ← wrapWriteRegister32 fc GEN11_GFX_MSTR_IRQ 0;
     _ ← wrapWriteRegister32 fc GEN11_DISPLAY_INT_CTL 0;
     _ ← wrapReadRegister32 fc GEN11_GFX_MSTR_IRQ;
     iterM interruptInitWrites (fun '(r, v) => wrapWriteRegister32 fc r v));
  _ ← call "oreadAndClearInterrupts" [that; param_1]; mret ().

(** [TGL.cpp serviceInterrupts] *)
Definition serviceInterrupts (param_1 : Z) : M Z := call "oserviceInterrupts" [param_1].
(** [TGL.cpp probePortMode] *)
Definition probePortMode : M Z := call "oprobePortMode" [].
(** [TGL.cpp wdepthFromAttribute] *)
Definition wdepthFromAttribute (that param_1 : Z) : Z := 0x1e.
End defs.

Section facts.
Context `{Platform}.

(** *** EMR stays masked *)

(** No write of the error-mask registers with anything but all ones, directly or
    through one of the three hooked write functions. *)
Definition emr_masked (e : event) : Prop :=
  match e with
  | EWr i v => i = 0x20b4 / 4 \/ i = 0x220b4 / 4 -> v = 0xFFFFFFFF
  | ECall f [_; a; v] =>
    f = "owrapWriteRegister32" \/ f = "oraWriteRegister32" \/ f = "oFastWriteRegister32" ->
    emrAddress a = true -> v = 0xFFFFFFFF
  | _ => True
  end.
Lemma v72Mask_emr a v : emrAddress a = true -> v72Mask a v = 0xFFFFFFFF.
Proof. intros Ha. unfold v72Mask. rewrite Ha. by destruct (Z.eqb_spec v 0xFFFFFFFF). Qed.
Lemma v72Mask_word a v : word v -> word (v72Mask a v).
Proof. intros. unfold v72Mask. by cases. Qed.

Lemma emr_ports x : emr_masked (EWr mmPCIE_INDEX2 x) /\ emr_masked (EWr mmPCIE_DATA2 x).
Proof. split; intros [E|E]; vm_compute in E; discriminate. Qed.
Lemma emr_writeReg32 reg v :
  aligned reg -> (emrAddress reg = true -> v = 0xFFFFFFFF) ->
  respects (emits emr_masked) (writeReg32 reg v).
Proof.
  intros [Hr Ha] Hv. pose proof emr_ports as Hp. apply emits_writeReg32; [done|apply Hp..| |].
  - intros Hs x. rewrite ctl_idx by done. apply plane_surf_spec in Hs as [? _].
    pose proof (shiftr2_dword reg Ha).
    unfold emr_masked. change (0x20b4 / 4) with 0x82d. change (0x220b4 / 4) with 0x882d.
    split; lia.
  - intros _ E. rewrite Hv; [done|]. unfold emrAddress.
    rewrite orb_true_iff, !Z.eqb_eq, <-(shiftr2_dword reg Ha).
    destruct E as [->| ->]; [left|right]; done.
Qed.
Lemma emr_readReg32 reg : respects (emits emr_masked) (readReg32 reg).
Proof. pose proof emr_ports as Hp. apply emits_readReg32; [done|apply Hp..]. Qed.

Lemma emits_getV93State P reg : respects (emits P) (getV93State reg).
Proof. intros w. unfold getV93State. destruct (claimV93Slot _ _). by apply emits_silent. Qed.
Lemma emits_v93Remember P st v : respects (emits P) (v93Remember st v).
Proof. intros w. destruct st; by apply emits_silent. Qed.
Hint Resolve emits_getV93State emits_v93Remember : ng.

Lemma emr_v93Guard a v : respects (emits emr_masked) (v93Guard a v).
Proof.
  unfold v93Guard. pose proof emr_readReg32.
  assert (Hctl : forall c, looksLikePlaneSurf (u32 (a .& 0xFFFFF)) = true ->
    respects (emits emr_masked) (writeReg32 (u32 (a .& 0xFFFFF) - 0x1C) c)).
  { intros c Hs. apply emr_writeReg32; [by apply plane_ctl_aligned|].
    apply plane_surf_spec in Hs as [Hr Hm]. unfold emrAddress. rewrite orb_true_iff, !Z.eqb_eq. lia. }
  respects_auto; auto.
Qed.

(** *** The V93 table *)

(** Eight slots, each surface register in at most one of them. *)
Definition v93_wf (states : list V93PlaneSurfState) : Prop :=
  length states = 8%nat /\
  forall i j si sj, states !! i = Some si -> states !! j = Some sj ->
    surfReg si = surfReg sj -> surfReg si <> 0 -> i = j.

Lemma claimV93Slot_spec reg states st states' :
  reg <> 0 -> v93_wf states -> claimV93Slot reg states = (st, states') ->
  v93_wf states' /\
  match st with
  | Some i => exists s, states' !! i = Some s /\ surfReg s = reg
  | None => states' = states /\
            forall i s, states !! i = Some s -> surfReg s <> reg /\ surfReg s <> 0
  end.
Proof.
  intros Hreg [Hlen Huniq]. unfold claimV93Slot.
  destruct (list_find (fun st => surfReg st = reg) states) as [[i s]|] eqn:E1.
  { intros ?; simplify_eq. apply list_find_Some in E1 as (Hi & Hs & _). split; [done|]. eauto. }
  assert (Hnew : forall j s, states !! j = Some s -> surfReg s <> reg).
  { intros j s Hj. apply list_find_None in E1. rewrite Forall_lookup in E1. eauto. }
  destruct (list_find (fun st => surfReg st = 0) states) as [[i s]|] eqn:E2; intros ?; simplify_eq.
  - apply list_find_Some in E2 as (Hi & Hs & _). apply lookup_lt_Some in Hi as Hlt. split.
    + split; [by rewrite length_insert|]. intros j k sj sk Hj Hk.
      rewrite list_lookup_insert_Some in Hj. rewrite list_lookup_insert_Some in Hk.
      destruct Hj as [(-> & <- & _)|[? Hj]], Hk as [(-> & <- & _)|[? Hk]]; simpl; [done| | |eauto];
        intros E Hn; exfalso; eapply Hnew; eauto.
    + exists (mkV93 reg 0). by rewrite list_lookup_insert_eq.
  - split; [done|]. split; [done|]. intros i s Hi. split; [eauto|].
    apply list_find_None in E2. rewrite Forall_lookup in E2. eauto.
Qed.
Lemma claimV93Slot_again reg states i states' f :
  claimV93Slot reg states = (Some i, states') ->
  (forall s, surfReg (f s) = surfReg s) ->
  v93_wf states -> reg <> 0 ->
  claimV93Slot reg (alter f i states') = (Some i, alter f i states').
Proof.
  intros E Hf Hwf Hreg. destruct (claimV93Slot_spec _ _ _ _ Hreg Hwf E) as [[Hlen Hu] (s & Hi & Hs)].
  unfold claimV93Slot.
  assert (Hfind : list_find (fun st => surfReg st = reg) (alter f i states') = Some (i, f s)).
  { apply list_find_Some. split_and!.
    - by rewrite list_lookup_alter_eq, Hi.
    - by rewrite Hf.
    - intros j y Hj Hlt. rewrite list_lookup_alter_ne in Hj by lia. intros Hy.
      specialize (Hu i j s y Hi Hj). rewrite Hs, Hy in Hu. specialize (Hu eq_refl Hreg). lia. }
  by rewrite Hfind.
Qed.

(** A plane-surface write of a non-zero value through the guard. *)
Lemma v93Guard_store p1 v w i states' :
  ngCallback (w_ng w) = true -> isV93PlaneGuardEnabled = true ->
  looksLikePlaneSurf (u32 (p1 .& 0xFFFFF)) = true -> v <> 0 ->
  claimV93Slot (u32 (p1 .& 0xFFFFF)) (v93States (w_g11 w)) = (Some i, states') ->
  v93Guard p1 v w =
    Done v (w <| w_g11 ::= fun g => g <| v93States :=
      alter (fun st => st <| lastNonZeroSurf := v |>) i states' |> |>).
Proof.
  intros Hl Hb Hs Hv Hg.
  unfold v93Guard, getV93State, v93Remember, mbind, M_bind, ng, gets, set_g11, modify.
  rewrite Hl, Hb. cbn [andb]. rewrite Hs, Hg. by rewrite (proj2 (Z.eqb_neq v 0)) by done.
Qed.

(** A zero write with a remembered address. *)
Lemma v93Guard_zero p1 w i states' s r w3 :
  let reg := u32 (p1 .& 0xFFFFF) in
  ngCallback (w_ng w) = true -> isV93PlaneGuardEnabled = true -> looksLikePlaneSurf reg = true ->
  claimV93Slot reg (v93States (w_g11 w)) = (Some i, states') ->
  states' !! i = Some s -> lastNonZeroSurf s <> 0 -> mapped (reg - 0x1C) w ->
  v93Guard p1 0 w = Done r w3 ->
  r = lastNonZeroSurf s \/ (r = 0 /\ exists e tr, w_tr w3 = e :: tr /\ shows_plane_off (reg .>> 2) e).
Proof.
  cbv zeta. intros Hl Hb Hs Hc Hi Hne Hmap.
  unfold v93Guard, mbind, M_bind, ng, g11, gets, getV93State. rewrite Hl, Hb. cbn [andb].
  rewrite Hs, Hc. cbn [negb Z.eqb]. rewrite readReg32_direct by done.
  unfold ptr_read. destruct (mmio_read _ _) as [c h].
  rewrite bit31_truthy by apply u32_range. unfold v93Last, truthy.
  destruct (Z.testbit (u32 c) 31) eqn:Hbit; simpl.
  { rewrite Hi. simpl. rewrite (proj2 (Z.eqb_neq _ _) Hne). intros E. injection E as <- _. by left. }
  intros E. injection E as <- <-. right.
  split; [done|]. eexists _, _. split; [reflexivity|]. split; [by apply ctl_idx|done].
Qed.

Definition v93_rel : relation world := fun w w' =>
  v93_wf (v93States (w_g11 w)) -> v93_wf (v93States (w_g11 w')).
#[global] Instance v93_rel_preorder : PreOrder v93_rel.
Proof. split; unfold v93_rel; [by intros ?|intros ???; auto]. Qed.
Lemma keeps_v93 {A} (m : M A) : respects (keeps w_g11) m -> respects v93_rel m.
Proof. apply respects_weaken. unfold keeps, v93_rel. by intros w w' ->. Qed.
Lemma respects_getV93State reg : reg <> 0 -> respects v93_rel (getV93State reg).
Proof.
  intros Hreg w Hwf. unfold getV93State.
  destruct (claimV93Slot reg _) as [st states] eqn:E.
  by destruct (claimV93Slot_spec _ _ _ _ Hreg Hwf E).
Qed.
Lemma respects_v93Remember st v : respects v93_rel (v93Remember st v).
Proof.
  destruct st as [i|]; [|apply respects_ret; exact _]. intros w [Hl Hu]. simpl.
  split; [by rewrite length_alter|]. intros j k sj sk Hj Hk.
  rewrite list_lookup_alter in Hj, Hk. 
  destruct (decide (i = j)), (decide (i = k)); simplify_eq/=; try done;
    rewrite ?fmap_Some in *; naive_solver.
Qed.
Lemma keeps_g11_readReg32 reg : respects (keeps w_g11) (readReg32 reg).
Proof.
  apply respects_readReg32; [exact _|intros; by apply keeps_ptr_read|intros; by apply keeps_ptr_write].
Qed.
Lemma keeps_g11_writeReg32 reg v : respects (keeps w_g11) (writeReg32 reg v).
Proof.
  apply respects_writeReg32; [exact _|intros; by apply keeps_ptr_read|intros; by apply keeps_ptr_write].
Qed.
Lemma respects_v93Guard p1 p2 : respects v93_rel (v93Guard p1 p2).
Proof.
  pose proof respects_v93Remember. pose proof respects_getV93State.
  pose proof (fun r => keeps_v93 _ (keeps_g11_readReg32 r)).
  pose proof (fun r v => keeps_v93 _ (keeps_g11_writeReg32 r v)).
  unfold v93Guard. respects_auto; auto. apply respects_getV93State.
  match goal with Hs : looksLikePlaneSurf _ = true |- _ => apply plane_surf_spec in Hs end. lia.
Qed.

(** *** The interrupt initialisation *)
Lemma ptr_write_run i v w :
  ptr_write i v w = Done () (emit (EWr i (u32 v)) (w <| w_hw ::= mmio_write i (u32 v) |>)).
Proof. done. Qed.

(** Registers below [lim], none of them a plane surface. *)
Definition plain_regs (lim : Z) (l : list (Z * Z)) : bool :=
  forallb (fun rv => (0 <=? rv.1) && (rv.1 + 4 <=? lim) && negb (looksLikePlaneSurf rv.1)) l.

Lemma writes_trace (l : list (Z * Z)) (lim len : Z) w :
  rmmio (w_ng w) = Some len -> rmmioPtr (w_ng w) = true ->
  lim <= len < 2 ^ 64 -> plain_regs lim l = true ->
  exists w', iterM l (fun '(r, v) => wrapWriteRegister32 0 r v) w = Done () w' /\
    w_tr w' = rev (map (fun '(r, v) => EWr (r .>> 2) (u32 v)) l) ++ w_tr w /\
    w_g11 w' = w_g11 w /\ w_ng w' = w_ng w.
Proof.
  intros Hlen Hptr Hlim. revert w Hlen Hptr.
  induction l as [|[r v] l IH]; intros w Hlen Hptr Hl; [by exists w|].
  apply andb_true_iff in Hl as [[[Hr Hle]%andb_true_iff Hs]%andb_true_iff Hl].
  rewrite Z.leb_le in Hr, Hle. apply negb_true_iff in Hs. simpl in Hr, Hle, Hs. simpl.
  unfold mbind, M_bind, wrapWriteRegister32 at 1. simpl.
  rewrite writeReg32_direct; [|split|done].
  - rewrite ptr_write_run. destruct (IH (emit (EWr (r .>> 2) (u32 v))
      (w <| w_hw ::= mmio_write (r .>> 2) (u32 v) |>))) as (w' & E & Ht & Hg & Hn); [done..|].
    exists w'. split; [done|]. rewrite Ht. simpl. rewrite <-app_assoc. done.
  - unfold mmioValid. by rewrite Hlen, Hptr.
  - unfold getLength. rewrite Hlen. simpl. rewrite u64_small; lia.
Qed.
End facts.

(** ** Properties *)
Section properties.
Context `{Platform}.

(** C10 (safety). The error-mask registers of RCS and BCS only ever get all ones: every
    write the three hooks make (on a dword-aligned address, with a controller object
    for [wrapWriteRegister32]) is masked, whatever value the driver asked for and
    whatever the V93 guard did before, provided the drivers' own functions do not
    unmask them behind the hooks. *)
Theorem emr_always_masked `{!Benign (emits emr_masked)} (that a v : Z) :
  aligned a ->
  respects (emits emr_masked) (raWriteRegister32 that a v) /\
  respects (emits emr_masked) (FastWriteRegister32 that a v) /\
  (that <> 0 -> respects (emits emr_masked) (wrapWriteRegister32 that a v)).
Proof.
  intros Ha. pose proof (emr_v93Guard a v). pose proof (fun x => v72Mask_emr a x) as Hm. split_and!.
  - unfold raWriteRegister32. respects_auto; try (apply emr_writeReg32; auto).
    apply emits_call; [exact _|]. intros _ Hemr. by apply Hm.
  - unfold FastWriteRegister32. respects_auto. apply emits_call; [exact _|]. intros _ Hemr.
    rewrite Hm by done. unfold planeFixup, emrAddress in *.
    apply orb_true_iff in Hemr as [E|E]; apply Z.eqb_eq in E; by subst.
  - intros Ht. unfold wrapWriteRegister32. rewrite (proj2 (Z.eqb_neq _ _) Ht). respects_auto.
    apply emits_call; [exact _|]. intros _ Hemr. by apply Hm.
Qed.

(** The V93 table keeps eight slots with every surface register in at
    most one of them, across any write through [raWriteRegister32]'s guard. *)
Theorem v93_table_wf (p1 p2 : Z) (w : world) :
  v93_wf (v93States (w_g11 w)) -> v93_wf (v93States (w_g11 (final (v93Guard p1 p2 w)))).
Proof. exact (respects_v93Guard p1 p2 w). Qed.



(** The first [readAndClearInterrupts] programs the interrupt
    registers with the master interrupt off from its first write until its last one,
    in the order of [interruptInitWrites], and only then calls the original; every
    later call goes straight to the original. *)
Theorem interrupts_initialised_once (that p len : Z) (w : world) :
  framecont (w_g11 w) = 0 -> rmmio (w_ng w) = Some len -> rmmioPtr (w_ng w) = true ->
  0x200000 <= len < 2 ^ 32 ->
  (iniin (w_g11 w) = false ->
   readAndClearInterrupts that p w = (_ ← call "oreadAndClearInterrupts" [that; p]; mret ()) w) /\
  (iniin (w_g11 w) = true -> exists w1 v,
   readAndClearInterrupts that p w = (_ ← call "oreadAndClearInterrupts" [that; p]; mret ()) w1 /\
   iniin (w_g11 w1) = false /\
   w_tr w1 = rev (map (fun '(r, v) => EWr (r .>> 2) (u32 v)) interruptInitWrites) ++
     [ERd (GEN11_GFX_MSTR_IRQ .>> 2) v; EWr (GEN11_DISPLAY_INT_CTL .>> 2) 0;
      EWr (GEN11_GFX_MSTR_IRQ .>> 2) 0] ++ w_tr w).
Proof.
  intros Hfc Hlen Hptr Hl. unfold readAndClearInterrupts. split; intros Hini.
  { unfold mbind at 1 2, M_bind at 1 2, g11, gets. by rewrite Hini. }
  set (w0 := w <| w_g11 ::= fun g => g <| iniin := false |> |>).
  destruct (writes_trace [(GEN11_GFX_MSTR_IRQ, 0); (GEN11_DISPLAY_INT_CTL, 0)] 0x200000 len w0)
    as (wa & Ea & Hta & Hga & Hna); [done|done|lia|done|].
  assert (Er : exists v wb, wrapReadRegister32 0 GEN11_GFX_MSTR_IRQ wa = Done v wb /\
     w_tr wb = ERd (GEN11_GFX_MSTR_IRQ .>> 2) v :: w_tr wa /\ w_g11 wb = w_g11 wa /\ w_ng wb = w_ng wa).
  { unfold wrapReadRegister32. rewrite Z.eqb_refl, readReg32_direct.
    - unfold ptr_read. destruct (mmio_read _ _) as [v h]. by eexists _, _.
    - split; rewrite Hna; unfold mmioValid, getLength; simpl; rewrite ?Hlen, ?Hptr; [done|].
      simpl. unfold GEN11_GFX_MSTR_IRQ. rewrite u64_small; lia. }
  destruct Er as (v & wb & Er & Htb & Hgb & Hnb).
  destruct (writes_trace interruptInitWrites 0x200000 len wb) as (wc & Ec & Htc & Hgc & Hnc);
    [by rewrite Hnb, Hna|by rewrite Hnb, Hna|lia|done|].
  exists wc, v. split_and!.
  - simpl in Ea. apply bind_done in Ea as ([] & w1 & E1 & Ea).
    apply bind_done in Ea as ([] & w2 & E2 & Ea). unfold mret, M_ret in Ea. injection Ea as ->.
    unfold mbind, M_bind, g11, gets. rewrite Hini. cbn [when].
    unfold set_g11, modify. fold w0. change (framecont (w_g11 w0)) with (framecont (w_g11 w)).
    rewrite Hfc, E1, E2, Er, Ec. done.
  - by rewrite Hgc, Hgb, Hga.
  - by rewrite Htc, Htb, Hta.
Qed.
End properties.

(** The enabled interrupt sources are OR-ed from bit positions where
    [GT_CS_MASTER_ERROR_INTERRUPT] and [GT_WAIT_SEMAPHORE_INTERRUPT] should be bit
    masks: the programmed word is 0x10B, which leaves the wait-semaphore source (bit
    11) disabled and enables the debug source (bit 1) instead. *)
Theorem irqs_miss_wait_semaphore :
  irqs = 0x10B /\ Z.testbit irqs GT_WAIT_SEMAPHORE_INTERRUPT = false /\
  Z.testbit irqs 1 = true /\ dmask = 0x010B010B.
Proof. vm_compute. done. Qed.

(** ** Evaluations *)
Import Sim.
Section eval_default.
#[local] Existing Instance plat.
Lemma emr_always_masked_witness :
  emits emr_masked (sim_world []) (final (FastWriteRegister32 0x100 0x20b4 0xfffffffa (sim_world []))).
Proof.
  apply (emr_always_masked (Benign0 := sim_benign [] [] 0 _) 0x100 0x20b4 0xfffffffa).
  unfold aligned. lia || (split; [lia|done]).
Defined.
Lemma v93_table_wf_witness :
  v93_wf (v93States (w_g11 (final (v93Guard 0x7019C 5 (sim_world []))))).
Proof.
  apply (v93_table_wf 0x7019C 5 (sim_world [])). split; [done|].
  intros i j si sj Hi _ _ Hz. exfalso. apply Hz. 
  change (v93States (w_g11 (sim_world []))) with (replicate 8 (mkV93 0 0)) in Hi.
  apply lookup_replicate in Hi as [-> _]. done.
Defined.
Lemma interrupts_initialised_once_witness :
  exists w1 v,
   readAndClearInterrupts 0x100 0 (sim_world []) =
     (_ ← call "oreadAndClearInterrupts" [0x100; 0]; mret ()) w1 /\
   iniin (w_g11 w1) = false /\
   w_tr w1 = rev (map (fun '(r, v) => EWr (r .>> 2) (u32 v)) interruptInitWrites) ++
     [ERd (GEN11_GFX_MSTR_IRQ .>> 2) v; EWr (GEN11_DISPLAY_INT_CTL .>> 2) 0;
      EWr (GEN11_GFX_MSTR_IRQ .>> 2) 0] ++ [].
Proof.
  apply (interrupts_initialised_once 0x100 0 0x1000000 (sim_world [])); try reflexivity. lia.
Defined.
End eval_default.

Section eval_v93.
#[local] Instance v93_plat : Platform := sim_platform_with [("ngreenv93", 1)] [] 0.
End eval_v93.
End RegHooks.
