(* ===== verification/ForceWake.v ===== *)
(** * Forcewake (TGL.cpp, TGL.hpp)

    Waking and releasing the power domains of the GT: the request/acknowledge
    protocol with its timeouts, the fallback handshake, and the one-time register
    dump. *)
From S2P Require Import Prelude Machine Sim Regs Mmio BootArgs RegHooks.
Import Regs Mmio BootArgs RegHooks.

Module ForceWake.
Section defs.
Context `{Platform}.

(** [TGL.hpp:610-616 FORCEWAKE_DOM_BITS] *)
Definition DOM_RENDER : Z := 1.
Definition DOM_MEDIA : Z := 2.
Definition DOM_BLITTER : Z := 4.

(** [TGL.hpp masked_field] *)
Definition masked_field (mask value : Z) : Z := u32 (mask .<< 16) .| value.
(** [TGL.hpp fw_set] *)
Definition fw_set (v : Z) : Z := masked_field v v.
(** [TGL.hpp fw_clear] *)
Definition fw_clear (v : Z) : Z := masked_field v 0.

(** [TGL.cpp fwReqReg] *)
Definition fwReqReg (d : Z) : Z :=
  if d =? DOM_RENDER then FORCEWAKE_RENDER_GEN9
  else if d =? DOM_BLITTER then FORCEWAKE_BLITTER_GEN9 else 0.
(** [TGL.cpp fwAckReg] *)
Definition fwAckReg (d : Z) : Z :=
  if d =? DOM_RENDER then FORCEWAKE_ACK_RENDER_GEN9
  else if d =? DOM_BLITTER then FORCEWAKE_ACK_BLITTER_GEN9 else 0.
(** Request and acknowledge registers of VDBOX0 and VEBOX0. [TGL.cpp:3894-3897 fwMediaEngines] *)
Definition fwMediaEngines : list (Z * Z) :=
  [ (FORCEWAKE_MEDIA_VDBOX_GEN11 0, FORCEWAKE_ACK_MEDIA_VDBOX_GEN11 0);
    (FORCEWAKE_MEDIA_VEBOX_GEN11 0, FORCEWAKE_ACK_MEDIA_VEBOX_GEN11 0) ].

(** [TGL.cpp pollRegister] *)
Definition pollRegister (reg val mask timeout : Z) : M bool :=
  start ← now_ns;
  let deadline := start + timeout * 1000000 in
  forever (fun _ : unit =>
    now ← now_ns;
    if now <? deadline then
      fc ← g11 framecont;
      rd ← wrapReadRegister32 fc reg;
      if rd .& mask =? val then mret (inr true) else mret (inl ())
    else mret (inr false)) ().

(** The [do ... while (!ack && pass++ < 10)] of the fallback, with the number of
    passes still allowed by [fuel]. [TGL.cpp forceWakeWaitAckFallback] *)
Fixpoint fallbackLoop (fuel : nat) (reqReg ackReg val mask pass : Z) : M bool :=
  match fuel with
  | O => out_of_fuel
  | S fuel' =>
    controller ← g11 framecont;
    _ ← pollRegister ackReg 0 FORCEWAKE_KERNEL_FALLBACK FORCEWAKE_ACK_TIMEOUT_MS;
    _ ← wrapWriteRegister32 controller reqReg (fw_set FORCEWAKE_KERNEL_FALLBACK);
    _ ← delay_us (10 * pass);
    _ ← pollRegister ackReg FORCEWAKE_KERNEL_FALLBACK FORCEWAKE_KERNEL_FALLBACK
          FORCEWAKE_ACK_TIMEOUT_MS;
    rd ← wrapReadRegister32 controller ackReg;
    let ack := rd .& mask =? val in
    _ ← wrapWriteRegister32 controller reqReg (fw_clear FORCEWAKE_KERNEL_FALLBACK);
    if negb ack && (pass <? 10) then fallbackLoop fuel' reqReg ackReg val mask (pass + 1)
    else mret ack
  end.
(** [TGL.cpp forceWakeWaitAckFallback] *)
Definition forceWakeWaitAckFallback (reqReg ackReg val mask : Z) : M bool :=
  fallbackLoop 10 reqReg ackReg val mask 1.

(** Registers read, in order, by the dump. [TGL.cpp:3932-3999 forceWake] *)
Definition hangcheckReads : list Z :=
  [ FORCEWAKE_ACK_RENDER_GEN9; FORCEWAKE_ACK_BLITTER_GEN9;
    RING_HEAD RENDER_RING_BASE; RING_TAIL RENDER_RING_BASE; RING_CTL RENDER_RING_BASE;
    RING_START RENDER_RING_BASE;
    RING_ACTHD_UDW RENDER_RING_BASE; RING_ACTHD RENDER_RING_BASE; RING_IPEHR RENDER_RING_BASE;
    RING_INSTDONE RENDER_RING_BASE; RING_DMA_FADD_UDW RENDER_RING_BASE;
    RING_DMA_FADD RENDER_RING_BASE;
    RING_EIR RENDER_RING_BASE; RING_ESR RENDER_RING_BASE; RING_EMR RENDER_RING_BASE;
    RING_EXECLIST_STATUS RENDER_RING_BASE; RING_CONTEXT_STATUS_PTR RENDER_RING_BASE;
    RING_HEAD BLT_RING_BASE; RING_TAIL BLT_RING_BASE; RING_CTL BLT_RING_BASE;
    RING_START BLT_RING_BASE;
    RING_HWS_PGA BLT_RING_BASE; RING_ACTHD_UDW BLT_RING_BASE; RING_ACTHD BLT_RING_BASE;
    RING_IPEHR BLT_RING_BASE; RING_INSTDONE BLT_RING_BASE;
    RING_EIR BLT_RING_BASE; RING_ESR BLT_RING_BASE; RING_EMR BLT_RING_BASE;
    0x40A0; 0xCEC4; 0x4B10; 0x4B14; 0x190018; 0x19001C;
    RENDER_RING_BASE + 0x358; BLT_RING_BASE + 0x358 ].

(** The dump: both domains are woken for the reads and released afterwards, and the
    master interrupt is turned back on when it is found off. The enumeration of the
    accelerator's children only logs. [TGL.cpp:3924-4050 forceWake] *)
Definition hangcheckRegs : M unit :=
  _ ← writeReg32 FORCEWAKE_RENDER_GEN9 ((1 .<< 16) .| 1);
  _ ← writeReg32 FORCEWAKE_BLITTER_GEN9 ((1 .<< 16) .| 1);
  _ ← delay_us 1000;
  _ ← iterM hangcheckReads (fun r => _ ← readReg32 r; mret ());
  hcMstr ← readReg32 GEN11_GFX_MSTR_IRQ;
  _ ← when (negb (truthy (hcMstr .& GEN11_MASTER_IRQ)))
        (writeReg32 GEN11_GFX_MSTR_IRQ GEN11_MASTER_IRQ);
  _ ← writeReg32 FORCEWAKE_RENDER_GEN9 (1 .<< 16);
  _ ← writeReg32 FORCEWAKE_BLITTER_GEN9 (1 .<< 16);
  _ ← readReg32 GEN11_RENDER_COPY_INTR_ENABLE;
  _ ← readReg32 GEN11_RCS0_RSVD_INTR_MASK;
  _ ← readReg32 GEN11_GFX_MSTR_IRQ;
  mret ().

(** [TGL.cpp:3921-4051 forceWake] *)
Definition hangcheckDump : M unit :=
  _ ← set_g11 (fun g => g <| hangcheckDumped := true |>); hangcheckRegs.

(** One request register and its acknowledge register: write, then wait; the outcome
    is only logged. [TGL.cpp:4067-4075 forceWake] *)
Definition wakeOne (reqReg ackReg wr ack_exp mask : Z) : M bool :=
  fc ← g11 framecont;
  _ ← wrapWriteRegister32 fc reqReg wr;
  _ ← pause_ns 100;
  orM (pollRegister ackReg ack_exp mask FORCEWAKE_ACK_TIMEOUT_MS)
    (orM (forceWakeWaitAckFallback reqReg ackReg ack_exp mask)
         (pollRegister ackReg ack_exp mask FORCEWAKE_ACK_TIMEOUT_MS)).

(** [TGL.cpp:4061-4086 forceWake] *)
Definition wakeDomain (dom wr ack_exp mask d : Z) : M unit :=
  if negb (truthy (dom .& d)) then mret ()
  else if d =? DOM_MEDIA then
    iterM fwMediaEngines (fun '(req, ack) => _ ← wakeOne req ack wr ack_exp mask; mret ())
  else
    ok ← wakeOne (fwReqReg d) (fwAckReg d) wr ack_exp mask;
    when ok (fc ← g11 framecont; _ ← wrapReadRegister32 fc (fwAckReg d); mret ()).

(** The reads logged before and after when the RCS trace is on. *)
Definition traceAcks : M unit :=
  when isRcsEngineTraceEnabled
    (_ ← readReg32 FORCEWAKE_ACK_RENDER_GEN9; _ ← readReg32 FORCEWAKE_ACK_BLITTER_GEN9; mret ()).

(** The request proper. [TGL.cpp:4053-4087 forceWake] *)
Definition wakeDomains (set : bool) (dom ctx : Z) : M unit :=
  let ack_exp := u32 (b2z set .<< ctx) in
  let mask := u32 (1 .<< ctx) in
  let wr := u32 (ack_exp .| (1 .<< ctx .<< 16)) in
  iterM [DOM_RENDER; DOM_MEDIA; DOM_BLITTER] (wakeDomain dom wr ack_exp mask).

(** [TGL.cpp forceWake] *)
Definition forceWake (that : Z) (set : bool) (dom ctx : Z) : M unit :=
  _ ← traceAcks;
  _ ← set_g11 (fun g => g <| fwCallCount ::= fun c => s32 (c + 1) |>);
  dumped ← g11 hangcheckDumped;
  count ← g11 fwCallCount;
  _ ← when (negb dumped && (count =? 15)) hangcheckDump;
  _ ← wakeDomains set dom ctx;
  traceAcks.

(** [TGL.cpp wrapSafeForceWake] *)
Definition wrapSafeForceWake (that : Z) (set : bool) (dom : Z) : M unit :=
  forceWake that set dom 1.
End defs.

(** ** Waiting for a register *)
Section poll.
Context `{Platform, !SteadyClock}.

(** The accessors with no controller object are the plugin's own. *)
Lemma wrapRead0 reg : wrapReadRegister32 0 reg = readReg32 reg.
Proof. done. Qed.
Lemma wrapWrite0 reg v : wrapWriteRegister32 0 reg v = writeReg32 reg v.
Proof. done. Qed.

Lemma forward_readReg32 reg : respects forward (readReg32 reg).
Proof. apply respects_readReg32; [exact _|apply forward_ptr_read|apply forward_ptr_write]. Qed.
Lemma keeps_ng_readReg32 reg : respects (keeps w_ng) (readReg32 reg).
Proof.
  apply respects_readReg32; [exact _|intros; by apply keeps_ptr_read|intros; by apply keeps_ptr_write].
Qed.

(** One turn of the polling loop. *)
Lemma poll_step reg val mask deadline (w : world) :
  framecont (w_g11 w) = 0 ->
  exists r w', (now ← now_ns;
    if now <? deadline then
      fc ← g11 framecont; rd ← wrapReadRegister32 fc reg;
      if rd .& mask =? val then mret (inr true) else mret (inl ())
    else mret (inr false)) w = Done r w' /\
  w_g11 w' = w_g11 w /\ w_ng w' = w_ng w /\ uptime (w_hw w) + 1 <= uptime (w_hw w') /\
  match r with
  | inl _ => uptime (w_hw w) < deadline
  | inr true => exists v w1, readReg32 reg w1 = Done v w' /\ v .& mask = val /\ w_ng w1 = w_ng w
  | inr false => deadline <= uptime (w_hw w')
  end.
Proof.
  intros Hfc. destruct (now_ns_run w) as (w1 & E & Ht & Hg & Hn & _).
  unfold mbind, M_bind. rewrite E. destruct (Z.ltb_spec (uptime (w_hw w)) deadline).
  - unfold g11, gets. rewrite Hg, Hfc, wrapRead0.
    destruct (total_readReg32 reg w1) as (v & w2 & Er). rewrite Er.
    pose proof (respects_done _ _ _ _ _ (forward_readReg32 reg) Er) as Hf. unfold forward in Hf.
    pose proof (respects_done _ _ _ _ _ (keeps_g11_readReg32 reg) Er) as Hg2. unfold keeps in Hg2.
    pose proof (respects_done _ _ _ _ _ (keeps_ng_readReg32 reg) Er) as Hn2. unfold keeps in Hn2.
    destruct (Z.eqb_spec (v .& mask) val); eexists _, _; (split; [reflexivity|]);
      split_and!; try congruence; try lia. by exists v, w1.
  - eexists _, _. split; [reflexivity|]. split_and!; try done; lia.
Qed.

Lemma pollRegister_run reg val mask timeout (w : world) :
  framecont (w_g11 w) = 0 -> 0 <= timeout < 2 ^ 32 ->
  exists b w', pollRegister reg val mask timeout w = Done b w' /\
    w_g11 w' = w_g11 w /\ w_ng w' = w_ng w /\ uptime (w_hw w) <= uptime (w_hw w') /\
    if b then exists v w1, readReg32 reg w1 = Done v w' /\ v .& mask = val /\ w_ng w1 = w_ng w
    else uptime (w_hw w) + timeout * 1000000 <= uptime (w_hw w').
Proof.
  intros Hfc Hto. destruct (now_ns_run w) as (w0 & E & Ht & Hg & Hn & _).
  set (deadline := uptime (w_hw w) + timeout * 1000000).
  set (body := fun _ : unit => now ← now_ns;
    if now <? deadline then
      fc ← g11 framecont; rd ← wrapReadRegister32 fc reg;
      if rd .& mask =? val then mret (inr true) else mret (inl ())
    else mret (inr false)).
  set (I := fun (_ : unit) (v : world) =>
    w_g11 v = w_g11 w /\ w_ng v = w_ng w /\ uptime (w_hw w) <= uptime (w_hw v)).
  assert (HI : I () w0) by (split_and!; congruence || lia).
  destruct (forever_measure (fun _ v => Z.max 0 (deadline - uptime (w_hw v))) I body () w0) as (b & w' & Ef).
  - intros [] v (Hvg & Hvn & Hvt). destruct (poll_step reg val mask deadline v) as (r & v' & Er & Hg' & Hn' & Hu & Hr);
      [congruence|]. exists r, v'. split; [done|]. destruct r as [[]|]; [|done].
    split; [split_and!; congruence || lia|lia].
  - intros. lia.
  - done.
  - subst deadline. lia.
  - exists b, w'. split; [unfold pollRegister, mbind at 1, M_bind at 1; by rewrite E|].
    refine (forever_post I (fun (b : bool) (w' : world) => w_g11 w' = w_g11 w /\ w_ng w' = w_ng w /\
      uptime (w_hw w) <= uptime (w_hw w') /\
      if b then exists (v : Z) (w1 : world), readReg32 reg w1 = Done v w' /\ v .& mask = val /\ w_ng w1 = w_ng w
      else deadline <= uptime (w_hw w')) body () w0 b w' _ HI Ef).
    intros [] v r v' (Hvg & Hvn & Hvt) Ev.
    destruct (poll_step reg val mask deadline v) as (r' & v'' & Er & Hg' & Hn' & Hu & Hr); [congruence|].
    unfold body in Ev. rewrite Er in Ev. simplify_eq. destruct r as [[]|[]].
    + split_and!; congruence || lia.
    + destruct Hr as (x & w1 & ? & ? & ?). split_and!; try congruence; [lia|].
      exists x, w1. split_and!; congruence.
    + split_and!; try congruence; lia.
Qed.
End poll.

(** ** Relations for code that reaches the registers directly

    [framecont] is never assigned, so the wrappers take their null-controller path;
    [local R] restricts [R] to such worlds. *)
Section local.
Context `{Platform}.
Definition local (R : relation world) : relation world := fun w w' =>
  framecont (w_g11 w) = 0 -> framecont (w_g11 w') = 0 /\ R w w'.
#[global] Instance local_preorder R `{!PreOrder R} : PreOrder (local R).
Proof.
  split; [by intros w Hw; split|]. intros w1 w2 w3 H12 H23 H1.
  destruct (H12 H1) as [Hw2 ?]. destruct (H23 Hw2) as [Hw3 ?]. split; [done|by etrans].
Qed.
Lemma local_fc {A} R (k : Z -> M A) :
  respects (local R) (k 0) -> respects (local R) (fc ← g11 framecont; k fc).
Proof. intros Hk w Hw. unfold mbind, M_bind, g11, gets. rewrite Hw. by apply Hk. Qed.
Lemma local_lift {A} R (m : M A) :
  respects (keeps w_g11) m -> respects R m -> respects (local R) m.
Proof. intros Hg HR w Hw. split; [|apply HR]. specialize (Hg w). unfold keeps in Hg. by rewrite Hg. Qed.

Context (R : relation world) `{!PreOrder R}.
Hypothesis R_now : respects R now_ns.
Hypothesis R_pause : forall ns, respects R (pause_ns ns).
Lemma keeps_g11_now : respects (keeps w_g11) now_ns.
Proof. intros w. unfold now_ns. by destruct (clock_ns (w_hw w)). Qed.
Lemma keeps_g11_pause ns : respects (keeps w_g11) (pause_ns ns).
Proof. by intros w. Qed.
Lemma local_now : respects (local R) now_ns.
Proof. apply local_lift; [apply keeps_g11_now|done]. Qed.
Lemma local_pause ns : respects (local R) (pause_ns ns).
Proof. apply local_lift; [apply keeps_g11_pause|done]. Qed.
Lemma local_read reg : respects R (readReg32 reg) -> respects (local R) (readReg32 reg).
Proof. intros. apply local_lift; [apply keeps_g11_readReg32|done]. Qed.
Lemma local_write reg v : respects R (writeReg32 reg v) -> respects (local R) (writeReg32 reg v).
Proof. intros. apply local_lift; [apply keeps_g11_writeReg32|done]. Qed.

Lemma local_poll reg val mask timeout :
  respects R (readReg32 reg) -> respects (local R) (pollRegister reg val mask timeout).
Proof.
  intros Hr. unfold pollRegister. pose proof local_now. pose proof (local_read reg Hr).
  apply respects_bind; [exact _|done|]. intros t. apply respects_forever; [exact _|]. intros _.
  apply respects_bind; [exact _|done|]. intros t'. destruct (_ <? _); [|respects_auto].
  apply local_fc. rewrite wrapRead0. respects_auto; auto.
Qed.
Lemma local_fallbackLoop n req ack val mask pass :
  respects R (readReg32 ack) -> (forall v, respects R (writeReg32 req v)) ->
  respects (local R) (fallbackLoop n req ack val mask pass).
Proof.
  intros Hr Hw. pose proof local_pause. pose proof (local_read ack Hr).
  pose proof (fun v m t => local_poll ack v m t Hr). pose proof (fun v => local_write req v (Hw v)).
  revert pass. induction n as [|n IH]; intros pass; simpl; [respects_auto|].
  apply local_fc. rewrite wrapRead0. cbv [wrapWriteRegister32 Z.eqb]. respects_auto; auto.
Qed.
Lemma local_wakeOne req ack wr ack_exp mask :
  respects R (readReg32 ack) -> (forall v, respects R (writeReg32 req v)) ->
  respects (local R) (wakeOne req ack wr ack_exp mask).
Proof.
  intros Hr Hw. pose proof local_pause.
  pose proof (fun v m t => local_poll ack v m t Hr). pose proof (fun v => local_write req v (Hw v)).
  pose proof (local_fallbackLoop 10 req ack ack_exp mask 1 Hr Hw).
  unfold wakeOne. apply local_fc. rewrite wrapWrite0. respects_auto; auto.
Qed.
End local.

(** ** Footprint and termination *)
Section facts.
Context `{Platform}.

(** The request registers of the domains selected by [dom]. *)
Definition requestRegs (dom : Z) : list Z :=
  (if truthy (dom .& DOM_RENDER) then [FORCEWAKE_RENDER_GEN9] else []) ++
  (if truthy (dom .& DOM_MEDIA) then map fst fwMediaEngines else []) ++
  (if truthy (dom .& DOM_BLITTER) then [FORCEWAKE_BLITTER_GEN9] else []).
(** The acknowledge registers of all domains. *)
Definition ackRegs : list Z :=
  [FORCEWAKE_ACK_RENDER_GEN9; FORCEWAKE_ACK_BLITTER_GEN9] ++ map snd fwMediaEngines.
(** Delays, reads of acknowledge registers, and writes of the given request registers
    (directly or through the index/data ports). *)
Definition only_wakes (regs : list Z) (e : event) : Prop :=
  match e with
  | EWr i _ => i ∈ map (fun r => r .>> 2) regs \/ i = mmPCIE_INDEX2 \/ i = mmPCIE_DATA2
  | ERd i _ => i ∈ map (fun r => r .>> 2) ackRegs \/ i = mmPCIE_DATA2
  | EDelay _ => True
  | _ => False
  end.
Lemma only_wakes_read regs reg : reg ∈ ackRegs -> respects (emits (only_wakes regs)) (readReg32 reg).
Proof.
  intros Hr. unfold readReg32. respects_auto; first [apply emits_ptr_read; intros v|apply emits_ptr_write].
  - left. by apply (list_elem_of_fmap_2 (fun r => r .>> 2)).
  - by right; left.
  - by right.
Qed.
Lemma only_wakes_write regs reg v :
  looksLikePlaneSurf reg = false -> reg ∈ regs -> respects (emits (only_wakes regs)) (writeReg32 reg v).
Proof.
  intros Hs Hr. unfold writeReg32. cbn [writeReg32_fuel]. rewrite guardZeroSurf_off by (by rewrite Hs).
  unfold storeReg32. respects_auto; apply emits_ptr_write.
  - left. by apply (list_elem_of_fmap_2 (fun r => r .>> 2)).
  - by right; left.
  - by right; right.
Qed.
Lemma only_wakes_wakeOne regs req ack wr ack_exp mask :
  looksLikePlaneSurf req = false -> req ∈ regs -> ack ∈ ackRegs ->
  respects (local (emits (only_wakes regs))) (wakeOne req ack wr ack_exp mask).
Proof.
  intros Hs Hr Ha. apply local_wakeOne; [exact _|apply emits_now|intros; by apply emits_pause
    |by apply only_wakes_read|]. intros. by apply only_wakes_write.
Qed.
Lemma only_wakes_wakeDomain dom wr ack_exp mask d :
  d ∈ [DOM_RENDER; DOM_MEDIA; DOM_BLITTER] ->
  respects (local (emits (only_wakes (requestRegs dom)))) (wakeDomain dom wr ack_exp mask d).
Proof.
  intros Hd. unfold wakeDomain. destruct (truthy (dom .& d)) eqn:Hsel; cbn [negb]; [|respects_auto].
  assert (Hin : forall r, r ∈ (if d =? DOM_MEDIA then map fst fwMediaEngines else [fwReqReg d]) ->
    r ∈ requestRegs dom /\ looksLikePlaneSurf r = false).
  { intros r Hr. unfold requestRegs. rewrite !elem_of_app.
    rewrite !list_elem_of_In in *. simpl in Hd.
    destruct Hd as [<-|[<-|[<-|[]]]]; rewrite Hsel; simpl in Hr |- *;
      repeat destruct Hr as [<-|Hr]; try done; (split; [tauto|reflexivity]). }
  destruct (d =? DOM_MEDIA) eqn:Hmed.
  - apply respects_iterM; [exact _|]. intros [req ack] Hm. apply respects_bind; [exact _| |intros _; respects_auto].
    destruct (Hin req) as [? ?]; [by apply (list_elem_of_fmap_2 fst) in Hm|]. apply only_wakes_wakeOne; [done..|].
    apply elem_of_app. right. by apply (list_elem_of_fmap_2 snd) in Hm.
  - destruct (Hin (fwReqReg d)) as [? ?]; [by left|].
    assert (fwAckReg d ∈ ackRegs).
    { unfold fwAckReg. destruct (d =? DOM_RENDER) eqn:?; [by left|].
      destruct (d =? DOM_BLITTER) eqn:?; [by right; left|].
      rewrite !list_elem_of_In in Hd. simpl in Hd. destruct Hd as [<-|[<-|[<-|[]]]]; done. }
    apply respects_bind; [exact _|by apply only_wakes_wakeOne|]. intros ok.
    apply respects_when; [exact _|]. apply local_fc. rewrite wrapRead0.
    apply respects_bind; [exact _|by apply local_read, only_wakes_read|intros _; respects_auto].
Qed.
Lemma only_wakes_wakeDomains set dom ctx :
  respects (local (emits (only_wakes (requestRegs dom)))) (wakeDomains set dom ctx).
Proof. apply respects_iterM; [exact _|]. intros d Hd. by apply only_wakes_wakeDomain. Qed.
Lemma traceAcks_local regs : respects (local (emits (only_wakes regs))) traceAcks.
Proof.
  unfold traceAcks.
  pose proof (fun r Hr => local_read _ r (only_wakes_read regs r Hr)) as Hread. respects_auto; apply Hread;
    unfold ackRegs; set_solver.
Qed.
End facts.

Section returns.
Context `{Platform, !SteadyClock}.

(** [m] returns from every world without a controller object. *)
Definition returns {A} (m : M A) : Prop := forall w, framecont (w_g11 w) = 0 ->
  exists a w', m w = Done a w' /\ w_g11 w' = w_g11 w.
Lemma returns_total {A} (m : M A) : total m -> respects (keeps w_g11) m -> returns m.
Proof.
  intros Ht Hk w _. destruct (Ht w) as (a & w' & E). exists a, w'. split; [done|].
  exact (respects_done _ _ _ _ _ Hk E).
Qed.
Lemma returns_ret {A} (a : A) : returns (mret a).
Proof. intros w _. by eexists _, _. Qed.
Lemma returns_bind {A B} (m : M A) (k : A -> M B) :
  returns m -> (forall a, returns (k a)) -> returns (m ≫= k).
Proof.
  intros Hm Hk w Hw. destruct (Hm w Hw) as (a & w1 & E1 & G1).
  destruct (Hk a w1) as (b & w2 & E2 & G2); [congruence|].
  exists b, w2. split; [apply bind_done; eauto|congruence].
Qed.
Lemma returns_fc {A} (k : Z -> M A) : returns (k 0) -> returns (fc ← g11 framecont; k fc).
Proof. intros Hk w Hw. unfold mbind, M_bind, g11, gets. rewrite Hw. by apply Hk. Qed.
Lemma returns_orM a b : returns a -> returns b -> returns (orM a b).
Proof. intros. apply returns_bind; [done|]. intros []; [apply returns_ret|done]. Qed.
Lemma returns_when b m : returns m -> returns (when b m).
Proof. destruct b; [done|]. intros _. apply returns_ret. Qed.
Lemma returns_iterM {A} (xs : list A) f : (forall x, returns (f x)) -> returns (iterM xs f).
Proof.
  intros Hf. induction xs as [|x xs IH]; cbn [iterM]; [apply returns_ret|].
  apply returns_bind; auto.
Qed.
Lemma returns_read reg : returns (readReg32 reg).
Proof. apply returns_total; [apply total_readReg32|apply keeps_g11_readReg32]. Qed.
Lemma returns_write reg v : returns (writeReg32 reg v).
Proof. apply returns_total; [apply total_writeReg32|apply keeps_g11_writeReg32]. Qed.
Lemma returns_pause ns : returns (pause_ns ns).
Proof. apply returns_total; [apply total_pause|apply keeps_g11_pause]. Qed.
Lemma returns_poll reg val mask timeout : 0 <= timeout < 2 ^ 32 -> returns (pollRegister reg val mask timeout).
Proof.
  intros Ht w Hw. destruct (pollRegister_run reg val mask timeout w Hw Ht) as (b & w' & E & G & _).
  by exists b, w'.
Qed.

Ltac returns_auto := repeat
  match goal with
  | |- returns (mbind _ (g11 framecont)) =>
    apply returns_fc; cbv [wrapReadRegister32 wrapWriteRegister32 Z.eqb]
  | |- returns (mbind _ _) => apply returns_bind; [|intros ?]
  | |- returns (readReg32 _) => apply returns_read
  | |- returns (writeReg32 _ _) => apply returns_write
  | |- returns (pause_ns _) => apply returns_pause
  | |- returns (delay_us _) => apply returns_pause
  | |- returns (pollRegister _ _ _ _) => apply returns_poll; unfold FORCEWAKE_ACK_TIMEOUT_MS; lia
  | |- returns (mret _) => apply returns_ret
  | |- returns (orM _ _) => apply returns_orM
  | |- returns (when _ _) => apply returns_when
  | |- returns (iterM _ _) => apply returns_iterM; intros ?
  end.

Lemma returns_fallbackLoop n req ack val mask pass :
  pass + Z.of_nat n = 11 -> 1 <= Z.of_nat n -> returns (fallbackLoop n req ack val mask pass).
Proof.
  revert pass. induction n as [|n IH]; intros pass Hp Hn; [lia|]. cbn [fallbackLoop].
  returns_auto. destruct (negb _ && (pass <? 10)) eqn:Hc; [|apply returns_ret].
  apply andb_true_iff in Hc as [_ Hc%Z.ltb_lt]. apply IH; lia.
Qed.
Lemma returns_wakeOne req ack wr ack_exp mask : returns (wakeOne req ack wr ack_exp mask).
Proof. unfold wakeOne. returns_auto. by apply returns_fallbackLoop. Qed.
Lemma returns_wakeDomains set dom ctx : returns (wakeDomains set dom ctx).
Proof.
  pose proof returns_wakeOne. unfold wakeDomains. apply returns_iterM. intros d. unfold wakeDomain.
  destruct (negb _); [apply returns_ret|]. destruct (_ =? _).
  - apply returns_iterM. intros [req ack]. returns_auto. auto.
  - returns_auto. auto.
Qed.
Lemma returns_hangcheckRegs : returns hangcheckRegs.
Proof. unfold hangcheckRegs. returns_auto. Qed.
Lemma returns_traceAcks : returns traceAcks.
Proof. unfold traceAcks. returns_auto. Qed.

(** *** The writes of the fallback *)
Definition writes_to (idx : Z) (tr : list event) : list Z :=
  omap (fun e => match e with EWr i v => if i =? idx then Some v else None | _ => None end) tr.
Lemma writes_to_app idx t1 t2 : writes_to idx (t1 ++ t2) = writes_to idx t1 ++ writes_to idx t2.
Proof. apply omap_app. Qed.
Lemma writes_to_hit idx v tr : writes_to idx (EWr idx v :: tr) = v :: writes_to idx tr.
Proof. unfold writes_to. simpl. by rewrite Z.eqb_refl. Qed.
Definition not_write (idx : Z) (e : event) : Prop :=
  match e with EWr i _ => i <> idx | _ => True end.
Lemma quiet_writes idx w w' : emits (not_write idx) w w' -> writes_to idx (w_tr w') = writes_to idx (w_tr w).
Proof.
  intros (new & -> & Hn). rewrite writes_to_app. 
  assert (E : writes_to idx new = []); [|by rewrite E].
  induction Hn as [|e new He _ IH]; [done|]. unfold writes_to in *. simpl.
  destruct e; try done. simpl in He. by rewrite (proj2 (Z.eqb_neq _ _) He).
Qed.
Lemma quiet_read idx reg :
  mmPCIE_DATA2 < idx -> respects (emits (not_write idx)) (readReg32 reg).
Proof.
  intros Hi. unfold mmPCIE_DATA2 in Hi.
  apply emits_readReg32; simpl; unfold mmPCIE_INDEX2, mmPCIE_DATA2; intros; done || lia.
Qed.
Lemma poll_quiet idx reg val mask timeout w :
  mmPCIE_DATA2 < idx -> framecont (w_g11 w) = 0 -> 0 <= timeout < 2 ^ 32 ->
  exists b w', pollRegister reg val mask timeout w = Done b w' /\ w_g11 w' = w_g11 w /\
    w_ng w' = w_ng w /\ writes_to idx (w_tr w') = writes_to idx (w_tr w).
Proof.
  intros Hi Hw Ht. destruct (pollRegister_run reg val mask timeout w Hw Ht) as (b & w' & E & G & N & _).
  exists b, w'. split_and!; [done..|]. apply quiet_writes.
  assert (Hl : respects (local (emits (not_write idx))) (pollRegister reg val mask timeout)).
  { apply local_poll; [exact _|apply emits_now|by apply quiet_read]. }
  by destruct (respects_done _ _ _ _ _ Hl E Hw).
Qed.
Lemma write_mapped reg v w :
  mapped reg w -> looksLikePlaneSurf reg = false ->
  exists w', writeReg32 reg v w = Done () w' /\ w_g11 w' = w_g11 w /\ w_ng w' = w_ng w /\
    w_tr w' = EWr (reg .>> 2) (u32 v) :: w_tr w.
Proof. intros Hm Hs. rewrite writeReg32_direct by done. by eexists. Qed.

(** One pass: the request bit is set and cleared again. *)
Definition fallback_writes : list Z :=
  [u32 (fw_clear FORCEWAKE_KERNEL_FALLBACK); u32 (fw_set FORCEWAKE_KERNEL_FALLBACK)].

Lemma fallbackLoop_run n req ack val mask pass w :
  pass + Z.of_nat n = 11 -> 1 <= Z.of_nat n ->
  framecont (w_g11 w) = 0 -> mapped req w -> looksLikePlaneSurf req = false ->
  mmPCIE_DATA2 < req .>> 2 ->
  exists b w' k, fallbackLoop n req ack val mask pass w = Done b w' /\ w_g11 w' = w_g11 w /\
    (1 <= k <= n)%nat /\
    writes_to (req .>> 2) (w_tr w') =
      concat (replicate k fallback_writes) ++ writes_to (req .>> 2) (w_tr w).
Proof.
  revert pass w. induction n as [|n IH]; intros pass w Hp Hn Hfc Hm Hs Hi; [lia|].
  cbn [fallbackLoop]. unfold mbind, M_bind, g11, gets. rewrite Hfc.
  destruct (poll_quiet (req .>> 2) ack 0 FORCEWAKE_KERNEL_FALLBACK FORCEWAKE_ACK_TIMEOUT_MS w)
    as (b1 & w1 & E1 & G1 & N1 & T1); [done|done|done|]. rewrite E1, wrapWrite0.
  destruct (write_mapped req (fw_set FORCEWAKE_KERNEL_FALLBACK) w1) as (w2 & E2 & G2 & N2 & T2);
    [unfold mapped in *; by rewrite N1|done|]. rewrite E2. unfold delay_us, pause_ns at 1.
  match goal with |- context [emit (EDelay ?d) ?x] => set (w3 := emit (EDelay d) x) end.
  destruct (poll_quiet (req .>> 2) ack FORCEWAKE_KERNEL_FALLBACK FORCEWAKE_KERNEL_FALLBACK
    FORCEWAKE_ACK_TIMEOUT_MS w3) as (b4 & w4 & E4 & G4 & N4 & T4); [done|simpl; congruence|done|].
  rewrite E4, wrapRead0. destruct (returns_read ack w4) as (rd & w5 & E5 & G5); [rewrite G4; simpl; congruence|].
  pose proof (respects_done _ _ _ _ _ (keeps_ng_readReg32 ack) E5) as N5. unfold keeps in N5.
  pose proof (quiet_writes _ _ _ (respects_done _ _ _ _ _ (quiet_read _ ack Hi) E5)) as T5.
  rewrite E5, wrapWrite0.
  destruct (write_mapped req (fw_clear FORCEWAKE_KERNEL_FALLBACK) w5) as (w6 & E6 & G6 & N6 & T6);
    [unfold mapped in *; rewrite N5, N4; simpl; by rewrite N2, N1|done|]. rewrite E6.
  assert (Hw6 : writes_to (req .>> 2) (w_tr w6) = fallback_writes ++ writes_to (req .>> 2) (w_tr w)).
  { rewrite T6, writes_to_hit, T5, T4. unfold w3.
    change (writes_to (req .>> 2) (w_tr (emit _ ?x))) with (writes_to (req .>> 2) (w_tr w2)).
    by rewrite T2, writes_to_hit, T1. }
  assert (Hg6 : w_g11 w6 = w_g11 w) by (rewrite G6, G5, G4; simpl; congruence).
  destruct (negb _ && (pass <? 10)) eqn:Hc.
  - apply andb_true_iff in Hc as [_ Hc%Z.ltb_lt].
    destruct (IH (pass + 1) w6) as (b & w' & k & E & G & Hk & T); [lia|lia|congruence| |done|done|].
    { unfold mapped in *. rewrite N6, N5, N4. simpl. by rewrite N2, N1. }
    exists b, w', (S k). split; [done|]. split; [congruence|]. split; [lia|].
    rewrite T, Hw6, replicate_S_end, concat_app. cbn [concat]. by rewrite app_nil_r, <-app_assoc.
  - eexists _, w6, 1%nat. split; [reflexivity|]. split; [done|]. split; [lia|]. by rewrite Hw6.
Qed.
End returns.

(** ** Properties *)
Section properties.
Context `{Platform, !SteadyClock}.

(** C32 (liveness). On a steady clock [pollRegister] always returns: with [true] right
    after a read of the register that matched under the mask, with [false] only once
    the whole timeout has passed. *)
Theorem pollRegister_correct (reg val mask timeout : Z) (w : world) :
  framecont (w_g11 w) = 0 -> 0 <= timeout < 2 ^ 32 -> mapped reg w ->
  exists b w', pollRegister reg val mask timeout w = Done b w' /\ w_g11 w' = w_g11 w /\
    if b then exists v tr, w_tr w' = ERd (reg .>> 2) v :: tr /\ v .& mask = val
    else uptime (w_hw w) + timeout * 1000000 <= uptime (w_hw w').
Proof.
  intros Hfc Ht [Hv Hl]. destruct (pollRegister_run reg val mask timeout w Hfc Ht)
    as (b & w' & E & G & _ & _ & Hb). exists b, w'. split; [done|]. split; [done|].
  destruct b; [|done]. destruct Hb as (v & w1 & Er & Hm & Hn).
  destruct (readReg32_trace _ _ _ _ Er) as (_ & _ & Htr). rewrite Hn in Htr. eauto.
Qed.

(** C9 (safety). The acknowledge fallback always returns after one to ten passes, and
    each pass leaves the fallback request balanced: on its request register it writes
    exactly the set and then the clear of [FORCEWAKE_KERNEL_FALLBACK]. *)
Theorem fallback_balanced (req ack val mask : Z) (w : world) :
  framecont (w_g11 w) = 0 -> mapped req w -> looksLikePlaneSurf req = false ->
  mmPCIE_DATA2 < req .>> 2 ->
  exists b w' k, forceWakeWaitAckFallback req ack val mask w = Done b w' /\
    (1 <= k <= 10)%nat /\
    writes_to (req .>> 2) (w_tr w') =
      concat (replicate k fallback_writes) ++ writes_to (req .>> 2) (w_tr w).
Proof.
  intros Hfc Hm Hs Hi.
  destruct (fallbackLoop_run 10 req ack val mask 1 w) as (b & w' & k & E & _ & Hk & T); [done..|].
  by exists b, w', k.
Qed.

(** A run with the register dump somewhere between accesses of the given kind. *)
Definition dumps (P : event -> Prop) : relation world := fun w w' =>
  exists w1 w2, emits P w w1 /\ hangcheckRegs w1 = Done () w2 /\ emits P w2 w'.
Lemma forceWake_run (that : Z) (set : bool) (dom ctx : Z) (w : world) :
  framecont (w_g11 w) = 0 ->
  let count := s32 (fwCallCount (w_g11 w) + 1) in
  exists w', forceWake that set dom ctx w = Done () w' /\
    framecont (w_g11 w') = 0 /\ fwCallCount (w_g11 w') = count /\
    hangcheckDumped (w_g11 w') = hangcheckDumped (w_g11 w) || (count =? 15) /\
    if negb (hangcheckDumped (w_g11 w)) && (count =? 15) then dumps (only_wakes (requestRegs dom)) w w'
    else emits (only_wakes (requestRegs dom)) w w'.
Proof.
  intros Hfc count. set (P := only_wakes (requestRegs dom)).
  destruct (returns_traceAcks w Hfc) as ([] & w1 & E1 & G1).
  destruct (respects_done _ _ _ _ _ (traceAcks_local (requestRegs dom)) E1 Hfc) as [_ T1].
  unfold forceWake, mbind at 1 2 3 4, M_bind at 1 2 3 4. rewrite E1.
  unfold set_g11 at 1, modify at 1, g11, gets. set (w2 := w1 <| w_g11 ::= _ |>).
  assert (Hc2 : fwCallCount (w_g11 w2) = count) by (simpl; by rewrite G1).
  assert (Hd2 : hangcheckDumped (w_g11 w2) = hangcheckDumped (w_g11 w)) by (simpl; by rewrite G1).
  assert (T2 : emits P w w2) by (etrans; [exact T1|by apply emits_silent]).
  assert (Hd : exists w3, when (negb (hangcheckDumped (w_g11 w2)) && (fwCallCount (w_g11 w2) =? 15))
      hangcheckDump w2 = Done () w3 /\ framecont (w_g11 w3) = 0 /\
      fwCallCount (w_g11 w3) = count /\
      hangcheckDumped (w_g11 w3) = hangcheckDumped (w_g11 w) || (count =? 15) /\
      if negb (hangcheckDumped (w_g11 w)) && (count =? 15)
      then dumps P w w3 else emits P w w3).
  { rewrite Hc2, Hd2. destruct (negb _ && _) eqn:Hc; cbn [when].
    - apply andb_true_iff in Hc as [Hn%negb_true_iff Hc].
      set (w2' := w2 <| w_g11 ::= fun g => g <| hangcheckDumped := true |> |>).
      destruct (returns_hangcheckRegs w2') as ([] & w3 & E3 & G3); [simpl; congruence|].
      exists w3. split; [exact E3|]. rewrite G3, Hn, Hc. split_and!; [simpl; congruence|exact Hc2|done|].
      exists w2', w3. split; [etrans; [exact T2|by apply emits_silent]|]. split; [exact E3|reflexivity].
    - exists w2. split; [done|]. split_and!; [simpl; congruence|exact Hc2| |exact T2].
      rewrite Hd2. revert Hc. destruct (hangcheckDumped (w_g11 w)), (count =? 15); cbn; congruence. }
  destruct Hd as (w3 & E3 & F3 & C3 & D3 & S3). unfold mbind, M_bind. rewrite E3.
  destruct (returns_wakeDomains set dom ctx w3 F3) as ([] & w4 & E4 & G4). rewrite E4.
  destruct (respects_done _ _ _ _ _ (only_wakes_wakeDomains set dom ctx) E4 F3) as [F4 T4].
  destruct (returns_traceAcks w4 F4) as ([] & w5 & E5 & G5).
  destruct (respects_done _ _ _ _ _ (traceAcks_local (requestRegs dom)) E5 F4) as [F5 T5].
  exists w5. split; [done|]. rewrite G5, G4. split_and!; [done..|].
  assert (T45 : emits P w3 w5) by (by etrans).
  clear E3. destruct (_ && _); [|by etrans].
  destruct S3 as (wa & wb & Ta & Ed & Tb).
  exists wa, wb. split; [done|]. split; [done|]. by etrans.
Qed.

(** Any number of force-wake calls, with their arguments. *)
Definition wakeAll (calls : list (Z * bool * Z * Z)) : M unit :=
  iterM calls (fun '(that, set, dom, ctx) => forceWake that set dom ctx).
(** The accesses of a call, whatever domains it is for. *)
Definition anyWake : event -> Prop := only_wakes (requestRegs 7).
Lemma requestRegs_all dom : requestRegs dom ⊆ requestRegs 7.
Proof.
  intros r. unfold requestRegs. rewrite !elem_of_app. change (truthy (7 .& DOM_RENDER)) with true.
  change (truthy (7 .& DOM_MEDIA)) with true. change (truthy (7 .& DOM_BLITTER)) with true.
  intros [Hr|[Hr|Hr]]; destruct (truthy _); try (by apply elem_of_nil in Hr); auto.
Qed.
Lemma only_wakes_any dom e : only_wakes (requestRegs dom) e -> anyWake e.
Proof.
  destruct e; try done. intros [Hi|Hi]; [left|by right]. apply list_elem_of_fmap in Hi as (r & -> & Hr).
  apply (list_elem_of_fmap_2 (fun r => r .>> 2)). by apply (requestRegs_all dom).
Qed.
Lemma wakeAll_run calls w :
  framecont (w_g11 w) = 0 -> 0 <= fwCallCount (w_g11 w) ->
  fwCallCount (w_g11 w) + Z.of_nat (length calls) < 2 ^ 31 ->
  hangcheckDumped (w_g11 w) = (15 <=? fwCallCount (w_g11 w)) ->
  exists w', wakeAll calls w = Done () w' /\
    fwCallCount (w_g11 w') = fwCallCount (w_g11 w) + Z.of_nat (length calls) /\
    hangcheckDumped (w_g11 w') = (15 <=? fwCallCount (w_g11 w')) /\
    if negb (hangcheckDumped (w_g11 w)) && hangcheckDumped (w_g11 w') then dumps anyWake w w' else emits anyWake w w'.
Proof.
  revert w. induction calls as [|[[[that set] dom] ctx] calls IH]; intros w Hf Hz Hn Hd.
  { exists w. cbn. split; [done|]. split; [lia|]. split; [done|]. destruct (hangcheckDumped _); cbn; reflexivity. }
  cbn [length] in Hn |- *. rewrite Nat2Z.inj_succ in Hn |- *.
  destruct (forceWake_run that set dom ctx w Hf) as (w1 & E1 & F1 & C1 & D1 & S1).
  rewrite s32_small in C1, D1, S1 by lia.
  assert (Hd1 : hangcheckDumped (w_g11 w1) = (15 <=? fwCallCount (w_g11 w1))).
  { rewrite D1, C1, Hd. destruct (Z.leb_spec 15 (fwCallCount (w_g11 w))), (Z.eqb_spec (fwCallCount (w_g11 w) + 1) 15),
      (Z.leb_spec 15 (fwCallCount (w_g11 w) + 1)); done || lia. }
  destruct (IH w1 F1) as (w' & E & C & D & S); [lia|lia|done|].
  exists w'. unfold wakeAll in *. cbn [iterM]. unfold mbind, M_bind. rewrite E1. split; [exact E|].
  split; [lia|]. split; [done|].
  assert (W : forall x y, emits (only_wakes (requestRegs dom)) x y -> emits anyWake x y).
  { intros x y (new & T & Hnew). exists new. split; [done|]. eapply Forall_impl; [exact Hnew|apply only_wakes_any]. }
  rewrite D1 in S. destruct (hangcheckDumped (w_g11 w)) eqn:Hw; cbn [negb andb orb] in *.
  { etrans; [by apply W|exact S]. }
  destruct (_ =? 15) eqn:E15; cbn [negb andb] in S.
  - replace (hangcheckDumped (w_g11 w')) with true by (rewrite D; symmetry; apply Z.leb_le; lia).
    destruct S1 as (wa & wb & Ta & Ed & Tb). exists wa, wb. split; [by apply W|]. split; [done|].
    etrans; [by apply W|exact S].
  - destruct (hangcheckDumped (w_g11 w')).
    + destruct S as (wa & wb & Ta & Ed & Tb). exists wa, wb. split; [|done]. etrans; [by apply W|exact Ta].
    + etrans; [by apply W|exact S].
Qed.

(** C8 (termination). On a steady clock, however often and with whatever arguments the force
    wake is called after the plugin was loaded, every call returns, whatever the hardware
    answers, and is counted. Between them the calls touch nothing but request and
    acknowledge registers, apart from one register dump: it is taken at most once, and in
    a run of 30 calls or more it has been taken. (With the controller object never set, as
    in the whole program, and fewer than [2 ^ 31] calls, the range of the counter.) *)
Theorem forceWake_returns (calls : list (Z * bool * Z * Z)) (w : world) :
  framecont (w_g11 w) = 0 -> fwCallCount (w_g11 w) = 0 -> hangcheckDumped (w_g11 w) = false ->
  Z.of_nat (length calls) < 2 ^ 31 ->
  exists w', wakeAll calls w = Done () w' /\ fwCallCount (w_g11 w') = Z.of_nat (length calls) /\
    (if hangcheckDumped (w_g11 w') then dumps anyWake w w' else emits anyWake w w') /\
    ((30 <= length calls)%nat -> hangcheckDumped (w_g11 w') = true).
Proof.
  intros Hf Hz Hd Hn. destruct (wakeAll_run calls w) as (w' & E & C & D & S); rewrite ?Hz; [done|lia|lia|done|].
  rewrite Hz, Z.add_0_l in C. rewrite Hd in S. exists w'. split_and!; [done..|].
  intros Hl. rewrite D, C. apply Z.leb_le. lia.
Qed.

(** The call the code takes the dump on is the fifteenth. *)
Theorem dump_on_fifteenth (calls : list (Z * bool * Z * Z)) (w : world) :
  framecont (w_g11 w) = 0 -> fwCallCount (w_g11 w) = 0 -> hangcheckDumped (w_g11 w) = false ->
  Z.of_nat (length calls) < 2 ^ 31 ->
  exists w', wakeAll calls w = Done () w' /\ (hangcheckDumped (w_g11 w') = true <-> (15 <= length calls)%nat).
Proof.
  intros Hf Hz Hd Hn. destruct (wakeAll_run calls w) as (w' & E & C & D & _); rewrite ?Hz; [done|lia|lia|done|].
  exists w'. split; [done|]. rewrite D, C, Hz, Z.leb_le. lia.
Qed.

(** Outside the one-time dump, a forcewake call writes nothing but the
    request registers of the domains it was asked for: render, the two media engines,
    blitter. *)
Theorem forceWake_footprint (that : Z) (set : bool) (dom ctx : Z) (w : world) :
  framecont (w_g11 w) = 0 ->
  hangcheckDumped (w_g11 w) = true \/ s32 (fwCallCount (w_g11 w) + 1) <> 15 ->
  emits (only_wakes (requestRegs dom)) w (final (forceWake that set dom ctx w)).
Proof.
  intros Hfc Hnd. destruct (forceWake_run that set dom ctx w Hfc) as (w' & -> & _ & _ & _ & Hs). cbn [final].
  replace (negb _ && _) with false in Hs; [done|]. destruct Hnd as [->|Hne]; [done|].
  rewrite (proj2 (Z.eqb_neq _ _) Hne). by destruct (hangcheckDumped _).
Qed.

End properties.

(** ** Evaluations *)
Import Sim.
#[local] Existing Instance plat.
Lemma pollRegister_correct_witness :
  exists b w', pollRegister FORCEWAKE_ACK_RENDER_GEN9 2 2 1 (sim_world [(0xD84 / 4, 3)]) = Done b w' /\
    w_g11 w' = Gen11_init /\
    if b then exists v tr, w_tr w' = ERd (FORCEWAKE_ACK_RENDER_GEN9 .>> 2) v :: tr /\ v .& 2 = 2
    else uptime (w_hw (sim_world [(0xD84 / 4, 3)])) + 1 * 1000000 <= uptime (w_hw w').
Proof.
  apply (pollRegister_correct FORCEWAKE_ACK_RENDER_GEN9 2 2 1 (sim_world [(0xD84 / 4, 3)]));
    [reflexivity|lia|split; [reflexivity|vm_compute; discriminate]].
Defined.
Lemma fallback_balanced_witness :
  exists b w' k, forceWakeWaitAckFallback FORCEWAKE_RENDER_GEN9 FORCEWAKE_ACK_RENDER_GEN9 2 2 (sim_world [])
      = Done b w' /\ (1 <= k <= 10)%nat /\
    writes_to (FORCEWAKE_RENDER_GEN9 .>> 2) (w_tr w') =
      concat (replicate k fallback_writes) ++ writes_to (FORCEWAKE_RENDER_GEN9 .>> 2) [].
Proof.
  apply (fallback_balanced FORCEWAKE_RENDER_GEN9 FORCEWAKE_ACK_RENDER_GEN9 2 2 (sim_world []));
    [reflexivity|split; [reflexivity|vm_compute; discriminate]|reflexivity|reflexivity].
Defined.
Lemma forceWake_returns_witness :
  exists w', wakeAll (replicate 40 (0, true, 7, 1)) (sim_world []) = Done () w' /\
    fwCallCount (w_g11 w') = 40 /\
    (if hangcheckDumped (w_g11 w') then dumps anyWake (sim_world []) w' else emits anyWake (sim_world []) w') /\
    ((30 <= 40)%nat -> hangcheckDumped (w_g11 w') = true).
Proof. apply (forceWake_returns (replicate 40 (0, true, 7, 1)) (sim_world [])); [reflexivity..|simpl; lia]. Defined.
Lemma forceWake_footprint_witness :
  emits (only_wakes (requestRegs 1)) (sim_world []) (final (forceWake 0 true 1 1 (sim_world []))).
Proof.
  apply (forceWake_footprint 0 true 1 1 (sim_world [])); [reflexivity|].
  right. vm_compute. discriminate.
Defined.
End ForceWake.
