(* ===== verification/Trace.v ===== *)
(** * Tracing (RcsEngineTrace.cpp, TglGpuBringup.cpp)

    The diagnostic components: register dumps, the transition detector of the render
    engine, the bring-up state derived from the registers, and the formatting of
    dword dumps into fixed buffers. A dump is modelled by the accesses it makes; the
    text that goes to the log is only modelled where it is computed into a buffer or
    decides what is reported. *)
From S2P Require Import Prelude Machine Sim Regs Mmio BootArgs.
Import Regs Mmio BootArgs.

Module Trace.
Section defs.
Context `{Platform}.

(** [RcsEngineTrace.cpp getTraceSchedulerType] *)
Definition getTraceSchedulerType : Z :=
  match bootarg "ngreenSched" with
  | Some v => let s := s32 v in if (3 <=? s) && (s <=? 5) then s else 5
  | None => 5
  end.
(** [RcsEngineTrace.cpp#1 readTraceReg] *)
Definition readTraceReg (reg : Z) : M Z := tReadRegister32 reg.
(** [RcsEngineTrace.cpp looksLikeKernelPtr] *)
Definition looksLikeKernelPtr (value : Z) : bool := 0xffffff8000000000 <=? value.
(** [RcsEngineTrace.cpp isCanonicalPtr] *)
Definition isCanonicalPtr (value : Z) : bool :=
  (value .>> 63 =? 0) || (0x1FFFF <=? value .>> 47).
(** [RcsEngineTrace.cpp isAlignedPtr] *)
Definition isAlignedPtr (value alignment : Z) : bool := value .& (alignment - 1) =? 0.
(** [RcsEngineTrace.cpp vtableMatches] *)
Definition vtableMatches (objectVtable symbolVtable : Z) : bool :=
  negb (symbolVtable =? 0) &&
  ((objectVtable =? symbolVtable) || (objectVtable =? u64 (symbolVtable + 0x10))).

(** [TGL.cpp tGetSharedMappedBufferVirtualAddress] *)
Definition tGetSharedMappedBufferVirtualAddress (buffer : Z) : M Z :=
  if (buffer =? 0) || negb (resolved "oIGSharedMappedBuffergetVirtualAddress") then mret 0
  else call "oIGSharedMappedBuffergetVirtualAddress" [buffer].
(** [TGL.cpp tGetMappedBufferGPUVirtualAddress] *)
Definition tGetMappedBufferGPUVirtualAddress (buffer : Z) : M Z :=
  if (buffer =? 0) || negb (resolved "oIGMappedBuffergetGPUVirtualAddress") then mret 0
  else call "oIGMappedBuffergetGPUVirtualAddress" [buffer].

(** [TGL.cpp tGetIGMappedBufferVtable] *)
Definition tGetIGMappedBufferVtable : Z := symbolAddr "vtableIGMappedBuffer".
(** [TGL.cpp tGetIGSharedMappedBufferVtable] *)
Definition tGetIGSharedMappedBufferVtable : Z := symbolAddr "vtableIGSharedMappedBuffer".

(** The type of a candidate object, from its vtable. [RcsEngineTrace.cpp candidateTypeName] *)
Inductive candidateType := CNull | CShared | CMapped | CUnknown.
Definition candidateTypeName (candidate : Z) : M candidateType :=
  if candidate =? 0 then mret CNull
  else
    objectVtable ← load 8 candidate;
    mret (if vtableMatches objectVtable tGetIGSharedMappedBufferVtable then CShared
          else if vtableMatches objectVtable tGetIGMappedBufferVtable then CMapped else CUnknown).

(** [RcsEngineTrace.cpp dumpCandidateMappedBuffers] *)
Definition dumpCandidateMappedBuffers (object : Z) : M unit :=
  if object =? 0 then mret ()
  else iterM (seq 0 36) (fun i =>
    value ← load 8 (object + Z.of_nat i * 8);
    if negb (looksLikeKernelPtr value) then mret ()
    else
      ty ← candidateTypeName value;
      match ty with
      | CShared => _ ← tGetSharedMappedBufferVirtualAddress value; mret ()
      | CMapped => _ ← tGetMappedBufferGPUVirtualAddress value; mret ()
      | _ => mret ()
      end).

(** [RcsEngineTrace.cpp dumpContextImageKnownFields] *)
Definition dumpContextImageKnownFields (context : Z) : M unit :=
  if negb isRcsEngineTraceEnabled || (context =? 0) then mret ()
  else
    _ ← dumpCandidateMappedBuffers context;
    b98 ← load 8 (context + 0x98); _ ← tGetSharedMappedBufferVirtualAddress b98;
    bb0 ← load 8 (context + 0xb0); _ ← tGetMappedBufferGPUVirtualAddress bb0;
    ba8 ← load 8 (context + 0xa8); _ ← tGetSharedMappedBufferVirtualAddress ba8;
    ba0 ← load 8 (context + 0xa0); _ ← tGetSharedMappedBufferVirtualAddress ba0;
    mret ().

(** Ring dword shown at position [i] of a dump that starts at [tailCursor].
    [RcsEngineTrace.cpp:162-166 dumpRingMemoryKnownFields] *)
Definition ringDumpIndex (tailCursor mask i : Z) : Z :=
  u32 (((tailCursor .& mask) .>> 2) + i) .& (mask .>> 2).

(** The dwords of ring memory it reads: [None] when there is no CPU mapping or the
    computed size is 0 (a mask of all ones). [RcsEngineTrace.cpp dumpRingMemoryKnownFields] *)
Definition dumpRingMemoryKnownFields (ringBuffer : Z) : M (option (list Z)) :=
  if negb isRcsEngineTraceEnabled || (ringBuffer =? 0) then mret None
  else
    _ ← dumpCandidateMappedBuffers ringBuffer;
    b80 ← load 8 (ringBuffer + 0x80);
    ringCpu ← tGetSharedMappedBufferVirtualAddress b80;
    tailCursor ← load 4 (ringBuffer + 0x64);
    mask ← load 4 (ringBuffer + 0x90);
    let ringSize := u32 (mask + 1) in
    if (ringCpu =? 0) || (ringSize =? 0) then mret None
    else mret (Some (map (fun i => ringDumpIndex tailCursor mask (Z.of_nat i)) (seq 0 16))).

(** The unknown bits left after the decode. [RcsEngineTrace.cpp decodeErrorGen6] *)
Definition decodeErrorGen6 (value : Z) : bool * Z :=
  let known := truthy (value .& I915_ERROR_INSTRUCTION) in
  (known, value .& not32 (if known then I915_ERROR_INSTRUCTION else 0)).

(** Registers read by the activation dump, in order. [RcsEngineTrace.cpp:235-256 dumpRcsEngineActivationState] *)
Definition activationReads : list Z :=
  [ RING_START RENDER_RING_BASE; RING_CTL RENDER_RING_BASE; RING_HEAD RENDER_RING_BASE;
    RING_TAIL RENDER_RING_BASE; RING_HWS_PGA RENDER_RING_BASE;
    RING_EXECLIST_STATUS RENDER_RING_BASE; RING_CONTEXT_STATUS_PTR RENDER_RING_BASE;
    RING_ACTHD RENDER_RING_BASE; RING_ACTHD_UDW RENDER_RING_BASE; RING_IPEHR RENDER_RING_BASE;
    RING_IPEIR RENDER_RING_BASE; RING_INSTDONE RENDER_RING_BASE; RING_EIR RENDER_RING_BASE;
    RING_ESR RENDER_RING_BASE; RING_FAULT_REG RENDER_RING_BASE; ERROR_GEN6;
    GEN12_RING_FAULT_REG; GEN11_RENDER_COPY_INTR_ENABLE; GEN11_RCS0_RSVD_INTR_MASK;
    GEN11_GFX_MSTR_IRQ; GEN11_GT_INTR_DW0; GEN11_GT_INTR_DW1 ].
(** Each context-status entry is read high word first, twice.
    [RcsEngineTrace.cpp:273-284 dumpRcsEngineActivationState] *)
Definition csbDumpReads : list Z :=
  concat (map (fun i => let i := Z.of_nat i in
    [ RING_CONTEXT_STATUS_BUF_HI RENDER_RING_BASE i; RING_CONTEXT_STATUS_BUF RENDER_RING_BASE i;
      RING_CONTEXT_STATUS_BUF_HI RENDER_RING_BASE i; RING_CONTEXT_STATUS_BUF RENDER_RING_BASE i ])
    (seq 0 6)).
Definition readAll (regs : list Z) : M unit :=
  iterM regs (fun r => _ ← readTraceReg r; mret ()).

(** [RcsEngineTrace.cpp dumpRcsEngineActivationState] *)
Definition dumpRcsEngineActivationState : M unit :=
  when isRcsEngineTraceEnabled
    (ready ← tmmioReady;
     when ready (_ ← readTraceReg FORCEWAKE_ACK_RENDER_GEN9;
                 _ ← readAll activationReads; readAll csbDumpReads)).

(** A change of the render engine worth reporting, with the old and the new value. *)
Inductive transition :=
| TRingStart (old new : Z)
| TRingCtl (old new : Z)
| TRingTail (old new : Z)
| TActhd (old new : Z)
| TContextStatusPtr (old new : Z)
| TFirstCsb
| TFirstError (new : Z)
| TErrorCleared (old : Z).

(** One sampling of the registers. *)
Record sample := mkSample {
  s_start : Z; s_ctl : Z; s_tail : Z; s_acthd : Z; s_ctxptr : Z; s_error : Z; s_csb : bool
}.

(** Stops at the first non-zero half of an entry. [RcsEngineTrace.cpp:301-308 markRcsRegisterTransition] *)
Fixpoint anyCsb (idxs : list Z) : M bool :=
  match idxs with
  | [] => mret false
  | i :: idxs =>
    lo ← readTraceReg (RING_CONTEXT_STATUS_BUF RENDER_RING_BASE i);
    if truthy lo then mret true
    else
      hi ← readTraceReg (RING_CONTEXT_STATUS_BUF_HI RENDER_RING_BASE i);
      if truthy hi then mret true else anyCsb idxs
  end.

(** What is reported and remembered for a sample. [RcsEngineTrace.cpp:310-362 markRcsRegisterTransition] *)
Definition zeroEdge (f : Z -> Z -> transition) (old new : Z) : list transition :=
  (if (old =? 0) && negb (new =? 0) then [f old new] else []) ++
  (if negb (old =? 0) && (new =? 0) then [f old new] else []).
Definition changed (f : Z -> Z -> transition) (old new : Z) : list transition :=
  if old =? new then [] else [f old new].
Definition detect (st : RcsEngineTransitionState) (s : sample) :
  RcsEngineTransitionState * list transition :=
  if negb (t_initialized st) then
    (mkTransition (s_start s) (s_ctl s) (s_tail s) (s_acthd s) (s_ctxptr s) (s_error s)
       true (s_csb s) (negb (s_error s =? 0)), [])
  else
    (mkTransition (s_start s) (s_ctl s) (s_tail s) (s_acthd s) (s_ctxptr s) (s_error s)
       true (t_firstCsbNonZeroSeen st || s_csb s)
       (t_firstErrorNonZeroSeen st || negb (s_error s =? 0)),
     zeroEdge TRingStart (t_ringStart st) (s_start s) ++
     zeroEdge TRingCtl (t_ringCtl st) (s_ctl s) ++
     changed TRingTail (t_ringTail st) (s_tail s) ++
     changed TActhd (t_acthd st) (s_acthd s) ++
     changed TContextStatusPtr (t_contextStatusPtr st) (s_ctxptr s) ++
     (if negb (t_firstCsbNonZeroSeen st) && s_csb s then [TFirstCsb] else []) ++
     (if negb (t_firstErrorNonZeroSeen st) && negb (s_error s =? 0) then [TFirstError (s_error s)] else []) ++
     (if negb (t_errorGen6 st =? 0) && (s_error s =? 0) then [TErrorCleared (t_errorGen6 st)] else [])).

(** [RcsEngineTrace.cpp markRcsRegisterTransition] *)
Definition markRcsRegisterTransition : M (list transition) :=
  ready ← tmmioReady;
  if negb isRcsEngineTraceEnabled || negb ready then mret []
  else
    ringStart ← readTraceReg (RING_START RENDER_RING_BASE);
    ringCtl ← readTraceReg (RING_CTL RENDER_RING_BASE);
    ringTail ← readTraceReg (RING_TAIL RENDER_RING_BASE);
    acthd ← readTraceReg (RING_ACTHD RENDER_RING_BASE);
    ctxptr ← readTraceReg (RING_CONTEXT_STATUS_PTR RENDER_RING_BASE);
    errorGen6 ← readTraceReg ERROR_GEN6;
    csb ← anyCsb [0; 1; 2; 3; 4; 5];
    st ← g11 gRcsTransitionState;
    let '(st', out) := detect st (mkSample ringStart ringCtl ringTail acthd ctxptr errorGen6 csb) in
    _ ← set_g11 (fun g => g <| gRcsTransitionState := st' |>);
    mret out.

(** [mmioBase] of a descriptor. [RcsEngineTrace.cpp:392-392 validateRcsDescriptorOrEngineObject] *)
Definition descMmioBase (execCtl : Z) : Z := if 0x3c <=? execCtl then execCtl - 0x3c else 0.
(** The descriptor table as (type, mmioExecListControl) pairs; [None] is an unresolved
    table. [RcsEngineTrace.cpp validateRcsDescriptorOrEngineObject] *)
Definition validateRcsDescriptorOrEngineObject (descs : option (list (Z * Z))) (object : Z) : bool :=
  if negb isRcsEngineTraceEnabled then false
  else if object =? 0 then false
  else match descs with
       | None => true
       | Some ds =>
         match list_find (fun d => d.1 = 0) (take 6 ds) with
         | None => false
         | Some (_, d) => descMmioBase d.2 =? RENDER_RING_BASE
         end
       end.

(** [RcsEngineTrace.cpp scanMappedCandidates] *)
Definition scanMappedCandidates (object objectSize : Z) : M unit :=
  if negb isRcsEngineTraceEnabled || (object =? 0) then mret ()
  else iterM (seq 0 (Z.to_nat (objectSize / 8))) (fun i =>
    value ← load 8 (object + Z.of_nat i * 8);
    if (value =? 0) || negb (looksLikeKernelPtr value) || negb (isCanonicalPtr value) ||
       negb (isAlignedPtr value 8) then mret ()
    else
      _ ← tGetSharedMappedBufferVirtualAddress value;
      _ ← tGetMappedBufferGPUVirtualAddress value;
      mret ()).

(** *** Formatting dwords into a 256-byte buffer *)
Definition hexDigit (d : Z) : string :=
  String (Ascii.ascii_of_nat (Z.to_nat (if d <? 10 then 48 + d else 87 + d))) EmptyString.
Fixpoint hexDigits (fuel : nat) (v : Z) : string :=
  match fuel with
  | O => EmptyString
  | S fuel' => if v <? 16 then hexDigit v else hexDigits fuel' (v / 16) +:+ hexDigit (v mod 16)
  end.
(** ["%x"] of a 32-bit value. *)
Definition hex32 (v : Z) : string := hexDigits 8 v.

(** [snprintf(buf, size, text)]: at most [size - 1] characters are stored, the length
    of the whole text is returned. *)
Definition snprintf (size : nat) (text : string) : string * nat :=
  (String.substring 0 (pred size) text, String.length text).

(** The loop that appends ["%s0x%x"] while more than 16 bytes are left: the text built,
    and the bytes left. [RcsEngineTrace.cpp:506-515 scanContextImageFields] *)
Fixpoint formatDwords (first : bool) (bufLeft : nat) (dwords : list Z) (acc : string) : string * nat :=
  match dwords with
  | [] => (acc, bufLeft)
  | d :: dwords =>
    if (16 <? bufLeft)%nat then
      let '(stored, written) := snprintf bufLeft ((if first then "" else ",") +:+ "0x" +:+ hex32 d) in
      formatDwords false (bufLeft - written) dwords (acc +:+ stored)
    else (acc, bufLeft)
  end.
(** The text meant to be in the buffer. *)
Fixpoint dwordsText (first : bool) (dwords : list Z) : string :=
  match dwords with
  | [] => ""
  | d :: dwords => (if first then "" else ",") +:+ "0x" +:+ hex32 d +:+ dwordsText false dwords
  end.

(** *** Bring-up state from the registers (TglGpuBringup.cpp) *)
Definition GUC_STATUS_REG : Z := 0xC000.
(** [TglGpuBringup.cpp stageContains] *)
Definition stageContains (stage needle : string) : bool :=
  match String.index 0 needle stage with Some _ => true | None => false end.
(** [TglGpuBringup.cpp#1 traceRead32] *)
Definition traceRead32 (reg : Z) : M Z := tReadRegister32 reg.
(** [TglGpuBringup.cpp anyRcsCsbEntrySet] *)
Definition anyRcsCsbEntrySet : M bool := anyCsb [0; 1; 2; 3; 4; 5].
(** [TglGpuBringup.cpp isTglTraceEnabled] *)
Definition isTglTraceEnabled : bool := switch "ngreenTglTrace" "-ngreenTglTrace".

Definition set_bringup (f : TglGpuBringupState -> TglGpuBringupState) : M unit :=
  set_g11 (fun g => g <| gTglGpuBringupState ::= f |>).

(** What the stage name alone tells. [TglGpuBringup.cpp:55-66 updateTglGpuBringupStateFromRegisters] *)
Definition noteStage (stage : string) (st : TglGpuBringupState) : TglGpuBringupState :=
  let st := if stageContains stage "getGPUInfo" then st <| topologyOk := true |> else st in
  let st := if stageContains stage "resetGraphicsEngine" then st <| rcsResetSeen := true |> else st in
  let st := if stageContains stage "loadGuCBinary" then st <| gucRequested := true |> else st in
  if stageContains stage "checkWOPCMSettings" then st <| gucWopcmProgrammed := true |> else st.

(** What the registers tell. [TglGpuBringup.cpp:89-105 updateTglGpuBringupStateFromRegisters] *)
Definition deriveBringup (fwAckRender gucStatus gucIntrEnable gucIntrMask rcsCtl rcsHead rcsTail
    rcsStart rcsHws rcsContextStatusPtr rcsIntrEnable rcsIntrMask acthd ipehr errorGen6 gtIntrDw0 : Z)
    (csb : bool) (st : TglGpuBringupState) : TglGpuBringupState :=
  let both := GT_CONTEXT_SWITCH_INTERRUPT .| GT_RENDER_USER_INTERRUPT in
  let fwOk := truthy (fwAckRender .& 1) in
  let booted := truthy gucStatus in
  let gucIrq := truthy gucIntrEnable && negb (gucIntrMask =? 0xFFFFFFFF) in
  st <| forceWakeOk := fwOk |>
     <| gtPowered := fwOk || truthy rcsCtl || truthy rcsStart || truthy gucStatus |>
     <| gucBooted := booted |>
     <| gucInterruptsEnabled := gucIrq |>
     <| gucSubmissionReady := booted && gucIrq |>
     <| rcsRingStarted := truthy rcsStart || truthy rcsCtl |>
     <| rcsContextReady := truthy rcsHws || truthy rcsContextStatusPtr |>
     <| rcsInterruptsEnabled := truthy (rcsIntrEnable .& (1 .<< GEN11_RCS0)) &&
                                negb (rcsIntrMask .& both =? both) |>
     <| rcsFirstSubmitSeen := truthy rcsHead || truthy rcsTail || truthy acthd || truthy ipehr |>
     <| rcsFirstCompletionSeen := csb || truthy (gtIntrDw0 .& (1 .<< GEN11_RCS0)) |>
     <| lastGucStatus := gucStatus |>
     <| lastRcsCtl := rcsCtl |>
     <| lastRcsHead := rcsHead |>
     <| lastRcsTail := rcsTail |>
     <| lastErrorGen6 := errorGen6 |>.

(** [TglGpuBringup.cpp updateTglGpuBringupStateFromRegisters] *)
Definition updateTglGpuBringupStateFromRegisters (stage : string) : M unit :=
  if negb isTglTraceEnabled then mret ()
  else
    ready ← tmmioReady;
    _ ← set_bringup (fun st =>
          noteStage stage (st <| allow3d := kernarg "-allow3d" |> <| b_mmioReady := ready |>));
    if negb ready then mret ()
    else
      fwAckRender ← traceRead32 FORCEWAKE_ACK_RENDER_GEN9;
      gucStatus ← traceRead32 GUC_STATUS_REG;
      gucIntrEnable ← traceRead32 GEN11_GUC_SG_INTR_ENABLE;
      gucIntrMask ← traceRead32 GEN11_GUC_SG_INTR_MASK;
      rcsCtl ← traceRead32 (RING_CTL RENDER_RING_BASE);
      rcsHead ← traceRead32 (RING_HEAD RENDER_RING_BASE);
      rcsTail ← traceRead32 (RING_TAIL RENDER_RING_BASE);
      rcsStart ← traceRead32 (RING_START RENDER_RING_BASE);
      rcsHws ← traceRead32 (RING_HWS_PGA RENDER_RING_BASE);
      rcsContextStatusPtr ← traceRead32 (RING_CONTEXT_STATUS_PTR RENDER_RING_BASE);
      rcsIntrEnable ← traceRead32 GEN11_RENDER_COPY_INTR_ENABLE;
      rcsIntrMask ← traceRead32 GEN11_RCS0_RSVD_INTR_MASK;
      acthd ← traceRead32 (RING_ACTHD RENDER_RING_BASE);
      ipehr ← traceRead32 (RING_IPEHR RENDER_RING_BASE);
      errorGen6 ← traceRead32 ERROR_GEN6;
      gtIntrDw0 ← traceRead32 GEN11_GT_INTR_DW0;
      csb ← anyRcsCsbEntrySet;
      set_bringup (deriveBringup fwAckRender gucStatus gucIntrEnable gucIntrMask rcsCtl rcsHead
        rcsTail rcsStart rcsHws rcsContextStatusPtr rcsIntrEnable rcsIntrMask acthd ipehr
        errorGen6 gtIntrDw0 csb).

Definition readAllWhenReady (regs : list Z) : M unit :=
  when isTglTraceEnabled
    (ready ← tmmioReady; when ready (iterM regs (fun r => _ ← traceRead32 r; mret ()))).

(** [TglGpuBringup.cpp dumpRcsRegisters] *)
Definition dumpRcsRegisters : M unit :=
  readAllWhenReady
    ([ RING_START RENDER_RING_BASE; RING_CTL RENDER_RING_BASE; RING_HEAD RENDER_RING_BASE;
       RING_TAIL RENDER_RING_BASE; RING_HWS_PGA RENDER_RING_BASE;
       RING_EXECLIST_STATUS RENDER_RING_BASE; RING_CONTEXT_STATUS_PTR RENDER_RING_BASE;
       RING_ACTHD RENDER_RING_BASE; RING_ACTHD_UDW RENDER_RING_BASE; RING_IPEHR RENDER_RING_BASE;
       RING_IPEIR RENDER_RING_BASE; RING_INSTDONE RENDER_RING_BASE; RING_EIR RENDER_RING_BASE;
       RING_ESR RENDER_RING_BASE; ERROR_GEN6; GEN12_RING_FAULT_REG ] ++
     concat (map (fun i => [RING_CONTEXT_STATUS_BUF_HI RENDER_RING_BASE (Z.of_nat i);
                            RING_CONTEXT_STATUS_BUF RENDER_RING_BASE (Z.of_nat i)]) (seq 0 6))).
(** [TglGpuBringup.cpp dumpGucRegisters] *)
Definition dumpGucRegisters : M unit :=
  readAllWhenReady
    [ GUC_STATUS_REG; GEN11_GUC_SG_INTR_ENABLE; GEN11_GUC_SG_INTR_MASK; GEN11_GT_INTR_DW0;
      GEN11_GT_INTR_DW1; GEN11_INTR_IDENTITY_REG0; GEN11_INTR_IDENTITY_REG1;
      GEN11_IIR_REG0_SELECTOR; GEN11_IIR_REG1_SELECTOR ].
(** [TglGpuBringup.cpp dumpGtInterruptRegisters] *)
Definition dumpGtInterruptRegisters : M unit :=
  readAllWhenReady
    [ GEN11_GFX_MSTR_IRQ; GEN11_RENDER_COPY_INTR_ENABLE; GEN11_RCS0_RSVD_INTR_MASK;
      GEN11_GT_INTR_DW0; GEN11_GT_INTR_DW1; GEN11_GUC_SG_INTR_ENABLE; GEN11_GUC_SG_INTR_MASK ].
(** [TglGpuBringup.cpp dumpTglGpuBringupState] *)
Definition dumpTglGpuBringupState (stage : string) : M unit :=
  when isTglTraceEnabled
    (_ ← updateTglGpuBringupStateFromRegisters stage;
     _ ← dumpRcsRegisters; _ ← dumpGucRegisters; dumpGtInterruptRegisters).
End defs.

(** ** Buffers *)
Lemma string_length_app a b : String.length (a +:+ b) = (String.length a + String.length b)%nat.
Proof. induction a as [|c a IH]; simpl; [done|by rewrite IH]. Qed.
Lemma string_app_assoc (a b c : string) : a +:+ (b +:+ c) = (a +:+ b) +:+ c.
Proof. induction a as [|x a IH]; [done|]. change (String x (a +:+ (b +:+ c)) = String x ((a +:+ b) +:+ c)). by f_equal. Qed.
Lemma string_app_nil (a : string) : a +:+ "" = a.
Proof. induction a as [|x a IH]; [done|]. change (String x (a +:+ "") = String x a). by f_equal. Qed.
Lemma substring_all n s : (String.length s <= n)%nat -> String.substring 0 n s = s.
Proof.
  revert n. induction s as [|c s IH]; intros [|n] Hn; simpl in *; try done; [lia|].
  rewrite IH; [done|lia].
Qed.
Lemma hexDigits_length fuel v : (String.length (hexDigits fuel v) <= fuel)%nat.
Proof.
  revert v. induction fuel as [|f IH]; intros v; simpl; [lia|]. case_match; simpl; [lia|].
  rewrite string_length_app. specialize (IH (v / 16)). simpl. lia.
Qed.
Lemma entry_length first d :
  (String.length ((if first : bool then "" else ",") +:+ "0x" +:+ hex32 d) <= 11)%nat.
Proof.
  rewrite !string_length_app. pose proof (hexDigits_length 8 d). unfold hex32.
  destruct first; simpl in *; lia.
Qed.
Lemma formatDwords_run first left dwords acc :
  (11 * length dwords + 16 < left)%nat ->
  formatDwords first left dwords acc =
    (acc +:+ dwordsText first dwords, (left - String.length (dwordsText first dwords))%nat) /\
  (String.length (dwordsText first dwords) <= 11 * length dwords)%nat.
Proof.
  revert first left acc. induction dwords as [|d ds IH]; intros first left acc Hl.
  { simpl. split; [|lia]. f_equal; [by rewrite string_app_nil|lia]. }
  simpl length in Hl. pose proof (entry_length first d) as He.
  cbn [formatDwords dwordsText snprintf]. rewrite (proj2 (Nat.ltb_lt 16 left)) by lia.
  unfold snprintf. rewrite substring_all by lia.
  set (e := (if first then "" else ",") +:+ "0x" +:+ hex32 d) in *.
  destruct (IH false (left - String.length e)%nat (acc +:+ e)) as [E Hlen]; [lia|].
  replace ((if first then "" else ",") +:+ "0x" +:+ hex32 d +:+ dwordsText false ds)
    with (e +:+ dwordsText false ds) by (unfold e; by rewrite !string_app_assoc).
  rewrite E, string_length_app, string_app_assoc. simpl length. split; [f_equal; lia|lia].
Qed.

(** ** Ring indices *)
Lemma ringDumpIndex_range tailCursor mask i :
  0 <= mask < 2 ^ 32 -> (mask + 1) mod 4 = 0 ->
  0 <= ringDumpIndex tailCursor mask i /\ 4 * ringDumpIndex tailCursor mask i + 4 <= mask + 1.
Proof.
  intros Hm Hd. unfold ringDumpIndex. set (x := u32 _). pose proof (u32_range (((tailCursor .& mask) .>> 2) + i)) as Hx.
  assert (H0 : 0 <= x .& (mask .>> 2)) by (apply Z.land_nonneg; left; unfold x; lia).
  assert (H1 : x .& (mask .>> 2) <= mask .>> 2).
  { apply land_le_r; [unfold x; lia|]. apply Z.shiftr_nonneg. lia. }
  rewrite Z.shiftr_div_pow2 in * by lia. change (2 ^ 2) with 4 in *.
  pose proof (Z.div_mod mask 4). pose proof (Z.div_mod (mask + 1) 4). pose proof (Z.mod_pos_bound mask 4).
  split; [done|]. lia.
Qed.

(** ** The transition detector over a run of samples *)
Fixpoint detectAll (st : RcsEngineTransitionState) (ss : list sample) : list transition :=
  match ss with
  | [] => []
  | s :: ss => let '(st', out) := detect st s in out ++ detectAll st' ss
  end.
Definition isFirstCsb (t : transition) : bool := match t with TFirstCsb => true | _ => false end.
Lemma firstCsb_edges f old new :
  (forall a b, isFirstCsb (f a b) = false) ->
  List.filter isFirstCsb (zeroEdge f old new) = [] /\ List.filter isFirstCsb (changed f old new) = [].
Proof. intros Hf. unfold zeroEdge, changed. split; repeat case_match; simpl; rewrite ?Hf; done. Qed.
Lemma detect_firstCsb st s st' out :
  detect st s = (st', out) ->
  List.filter isFirstCsb out =
    (if t_initialized st && negb (t_firstCsbNonZeroSeen st) && s_csb s then [TFirstCsb] else []) /\
  t_initialized st' = true /\
  t_firstCsbNonZeroSeen st' = (if t_initialized st then t_firstCsbNonZeroSeen st || s_csb s else s_csb s).
Proof.
  unfold detect. destruct (t_initialized st); simpl; intros E; injection E as <- <-; [|done].
  split; [|done]. rewrite !List.filter_app.
  repeat match goal with |- context [List.filter isFirstCsb (zeroEdge ?f ?a ?b)] =>
    rewrite (proj1 (firstCsb_edges f a b (fun _ _ => eq_refl))) end.
  repeat match goal with |- context [List.filter isFirstCsb (changed ?f ?a ?b)] =>
    rewrite (proj2 (firstCsb_edges f a b (fun _ _ => eq_refl))) end.
  simpl. repeat case_match; done.
Qed.
Lemma detectAll_seen st ss :
  t_initialized st = true -> t_firstCsbNonZeroSeen st = true ->
  List.filter isFirstCsb (detectAll st ss) = [].
Proof.
  revert st. induction ss as [|s ss IH]; intros st Hi Hs; [done|]. simpl.
  destruct (detect st s) as [st' out] eqn:E. apply detect_firstCsb in E as (Ef & Hi' & Hs').
  rewrite List.filter_app, Ef, Hi, Hs. simpl. apply IH; [done|]. by rewrite Hs', Hi, Hs.
Qed.

(** ** Properties *)

(** The dword dumps fit their 256-byte buffers: formatting up to 16 32-bit
    values never truncates an entry, leaves room for the terminator, and produces the
    complete comma-separated text. *)
Theorem dword_dump_fits (dwords : list Z) :
  (length dwords <= 16)%nat ->
  formatDwords true 256 dwords "" =
    (dwordsText true dwords, (256 - String.length (dwordsText true dwords))%nat) /\
  (String.length (dwordsText true dwords) < 256)%nat.
Proof.
  intros Hl. destruct (formatDwords_run true 256 dwords "") as [E Hlen]; [lia|]. split; [done|lia].
Qed.

(** Every dword the ring dump shows lies inside the ring: for a ring of
    [mask + 1] bytes, a multiple of 4, all indices are below the number of dwords,
    also when the cursor is near the end or the mask is not a power of two minus one. *)
Theorem ring_dump_in_ring (tailCursor mask i : Z) :
  0 <= mask < 2 ^ 32 -> (mask + 1) mod 4 = 0 ->
  0 <= ringDumpIndex tailCursor mask i /\ 4 * ringDumpIndex tailCursor mask i + 4 <= mask + 1.
Proof. apply ringDumpIndex_range. Qed.

(** Over any run of samples the detector reports the first non-empty
    context-status buffer at most once, never at its first sample (which only sets the
    baseline), and a sample equal to the remembered values reports nothing. *)
Theorem detector_reports_once (st : RcsEngineTransitionState) (s : sample) (ss : list sample) :
  (length (List.filter isFirstCsb (detectAll st ss)) <= 1)%nat /\
  (t_initialized st = false -> (detect st s).2 = []) /\
  (let st' := (detect st s).1 in (detect st' s).2 = []).
Proof.
  split_and!.
  - revert st. induction ss as [|s' ss IH]; intros st; [simpl; lia|]. simpl.
    destruct (detect st s') as [st' out] eqn:E. apply detect_firstCsb in E as (Ef & Hi & Hs).
    rewrite List.filter_app, Ef, length_app.
    destruct (t_initialized st && negb (t_firstCsbNonZeroSeen st) && s_csb s') eqn:Hc; [|simpl; apply IH].
    apply andb_true_iff in Hc as [[Hc1 Hc2]%andb_true_iff Hc3].
    rewrite detectAll_seen; [simpl; lia|done|]. rewrite Hs, Hc1, Hc3. apply orb_true_r.
  - intros Hi. unfold detect. by rewrite Hi.
  - unfold detect. destruct (t_initialized st); simpl; unfold zeroEdge, changed;
      rewrite !Z.eqb_refl; destruct (s_csb s), (s_start s =? 0), (s_ctl s =? 0), (s_error s =? 0);
      simpl; rewrite ?orb_true_r, ?orb_false_r; simpl; rewrite ?andb_false_r; done.
Qed.

(** The bring-up state stays consistent with the registers it is
    derived from: GuC submission is only called ready when the GuC has booted and its
    interrupts are on, an awake render domain or a programmed ring implies a powered
    GT, and the facts noted from earlier stages are kept. *)
Theorem bringup_consistent (stage : string) (fw gs gie gim ctl hd tl start hws csp ie im act ipe err dw0 : Z)
    (csb : bool) (st : TglGpuBringupState) :
  let st' := deriveBringup fw gs gie gim ctl hd tl start hws csp ie im act ipe err dw0 csb (noteStage stage st) in
  (gucSubmissionReady st' = true -> gucBooted st' = true /\ gucInterruptsEnabled st' = true) /\
  (forceWakeOk st' = true \/ rcsRingStarted st' = true -> gtPowered st' = true) /\
  (topologyOk st = true -> topologyOk st' = true) /\
  (rcsResetSeen st = true -> rcsResetSeen st' = true) /\
  (gucRequested st = true -> gucRequested st' = true) /\
  (gucWopcmProgrammed st = true -> gucWopcmProgrammed st' = true).
Proof.
  cbv zeta. split_and!.
  - simpl. by intros [-> ->]%andb_true_iff.
  - simpl. rewrite !orb_true_iff. tauto.
  - unfold noteStage. simpl. repeat case_match; done.
  - unfold noteStage. simpl. repeat case_match; done.
  - unfold noteStage. simpl. repeat case_match; done.
  - unfold noteStage. simpl. repeat case_match; done.
Qed.

(** ** Evaluations *)
Lemma dword_dump_fits_witness :
  formatDwords true 256 [0x1; 0xdeadbeef; 0] "" = ("0x1,0xdeadbeef,0x0", 238%nat) /\
  (String.length "0x1,0xdeadbeef,0x0" < 256)%nat.
Proof. apply (dword_dump_fits [0x1; 0xdeadbeef; 0]). simpl. lia. Defined.
Lemma ring_dump_in_ring_witness :
  0 <= ringDumpIndex 0x3ff8 0x3fff 5 /\ 4 * ringDumpIndex 0x3ff8 0x3fff 5 + 4 <= 0x3fff + 1.
Proof. apply (ring_dump_in_ring 0x3ff8 0x3fff 5); [lia|reflexivity]. Defined.
End Trace.
