(* ===== verification/Scan.v ===== *)
(** * Scans of driver memory (RcsEngineTrace.cpp)

    The tracing functions that read context images, rings, status pages and objects of the
    driver and print what they find. Each is modelled by the memory it reads and by the lines
    it prints: the text built in a buffer, or the words that go into the line. They change
    nothing; what matters is which words they read. *)
From S2P Require Import Prelude Machine Sim Regs Mmio BootArgs Trace.
Import Regs Mmio BootArgs Trace.

Module Scan.
Section defs.
Context `{Platform}.

(** The dwords at the given indices of a mapping. *)
Fixpoint readDwords (base : Z) (idxs : list Z) : M (list Z) :=
  match idxs with
  | [] => mret []
  | i :: idxs => d ← load 4 (base + 4 * i); ds ← readDwords base idxs; mret (d :: ds)
  end.
(** The text of a dump in its buffer of 256 bytes. *)
Definition dumpText (base : Z) (idxs : list Z) : M string :=
  ds ← readDwords base idxs; mret (formatDwords true 256 ds "").1.
Definition upTo (n : nat) : list Z := map Z.of_nat (seq 0 n).

(** Head, tail, base and control words of a context image, and its first 8 dwords.
    [RcsEngineTrace.cpp:491-518 scanContextImageFields] *)
Definition scanContextImageFields (cpuPtr : Z) : M (option (list Z * string)) :=
  if negb isRcsEngineTraceEnabled || (cpuPtr =? 0) then mret None
  else
    fields ← readDwords cpuPtr [0x1014 / 4; 0x101c / 4; 0x1024 / 4; 0x102c / 4];
    first8Dwords ← dumpText cpuPtr (upTo 8);
    mret (Some (fields, first8Dwords)).
(** The dwords read at a tail. [RcsEngineTrace.cpp:544-549 scanRingMemoryFields] *)
Definition tailWindow (tail mask : Z) : list Z := map (ringDumpIndex tail mask) (upTo 16).
(** The start of the ring, the old tail when there is one, the new one when it differs.
    [RcsEngineTrace.cpp:531-565 scanRingMemoryFields] *)
Definition ringWindows (mask oldTail newTail : Z) : list (list Z) :=
  [upTo 16] ++ (if 0 <? oldTail then [tailWindow oldTail mask] else []) ++
  (if (0 <? newTail) && negb (newTail =? oldTail) then [tailWindow newTail mask] else []).
Fixpoint dumpWindows (base : Z) (windows : list (list Z)) : M (list string) :=
  match windows with
  | [] => mret []
  | win :: windows => t ← dumpText base win; ts ← dumpWindows base windows; mret (t :: ts)
  end.
(** [RcsEngineTrace.cpp:520-574 scanRingMemoryFields] *)
Definition scanRingMemoryFields (cpuPtr ringSize oldTail newTail : Z) : M (list string) :=
  if negb isRcsEngineTraceEnabled || (cpuPtr =? 0) || (ringSize =? 0) then mret []
  else dumpWindows cpuPtr (ringWindows (u32 (ringSize - 1)) oldTail newTail).
(** The first 16 dwords of a status page and the stamp at index 3.
    [RcsEngineTrace.cpp scanHwsCandidates] *)
Definition scanHwsCandidates (cpuPtr : Z) : M (option (string * Z)) :=
  if negb isRcsEngineTraceEnabled || (cpuPtr =? 0) then mret None
  else
    dwords ← dumpText cpuPtr (upTo 16);
    stampIdx3Value ← load 4 (cpuPtr + 4 * 3);
    mret (Some (dwords, stampIdx3Value)).

(** The 64-bit words of an object that are not 0, with their offsets. *)
Fixpoint nonZeroQwords (object : Z) (idxs : list Z) : M (list (Z * Z)) :=
  match idxs with
  | [] => mret []
  | i :: idxs =>
    v ← load 8 (object + 8 * i);
    vs ← nonZeroQwords object idxs;
    mret (if v =? 0 then vs else (8 * i, v) :: vs)
  end.
Definition dumpNonZero (object : Z) : M (list (Z * Z)) :=
  if negb isRcsEngineTraceEnabled || (object =? 0) then mret []
  else nonZeroQwords object (upTo (Z.to_nat (0x180 / 8))).
(** [RcsEngineTrace.cpp dumpIGHardwareContextObject] *)
Definition dumpIGHardwareContextObject (context : Z) : M (list (Z * Z)) := dumpNonZero context.
(** [RcsEngineTrace.cpp dumpIGHardwareRingBufferObject] *)
Definition dumpIGHardwareRingBufferObject (ringBuffer : Z) : M (list (Z * Z)) := dumpNonZero ringBuffer.
(** Every 64-bit word, 0 or not. [RcsEngineTrace.cpp dumpObjectQwords] *)
Fixpoint qwords (object : Z) (idxs : list Z) : M (list Z) :=
  match idxs with
  | [] => mret []
  | i :: idxs => v ← load 8 (object + 8 * i); vs ← qwords object idxs; mret (v :: vs)
  end.
Definition dumpObjectQwords (object : Z) : M (list Z) :=
  if object =? 0 then mret [] else qwords object (upTo (Z.to_nat (0x120 / 8))).

(** The engine descriptors the driver exports, as (type, mmioExecListControl): type, base
    and whether it is the render engine's. [RcsEngineTrace.cpp dumpNearbyKnownEngineGlobals] *)
Definition dumpNearbyKnownEngineGlobals (descs : option (list (Z * Z))) : list (Z * Z * bool) :=
  if negb isRcsEngineTraceEnabled then []
  else match descs with
       | None => []
       | Some ds => map (fun d => (d.1, descMmioBase d.2, descMmioBase d.2 =? RENDER_RING_BASE)) (take 6 ds)
       end.

(** [RcsEngineTrace.cpp findVtableEntry] *)
Definition findVtableEntry (object vtableOffset : Z) : M Z :=
  if object =? 0 then mret 0 else vtablePtr ← load 8 object; mret (u64 (vtablePtr + vtableOffset)).
(** The context of the ring, its vtable, and the slot of the submission when there is one.
    [RcsEngineTrace.cpp traceVirtualCallInSubmitToRing] *)
Definition traceVirtualCallInSubmitToRing (ringBuffer : Z) : M (option (Z * option (Z * Z))) :=
  if negb isRcsEngineTraceEnabled || (ringBuffer =? 0) then mret None
  else
    context ← load 8 (ringBuffer + 0x20);
    if context =? 0 then mret (Some (context, None))
    else
      ctxVtable ← load 8 context;
      submitEntry ← findVtableEntry context 0x100;
      mret (Some (context, Some (ctxVtable, submitEntry))).
End defs.

(** ** What is read *)
Section facts.
Context `{Platform}.
(** A scan returns and leaves the world as it was. *)
Definition pure {A} (m : M A) : Prop := forall w, exists a, m w = Done a w.
Lemma pure_respects {A} (R : relation world) `{!PreOrder R} (m : M A) : pure m -> respects R m.
Proof. intros Hm w. destruct (Hm w) as (a & ->). simpl. reflexivity. Qed.
Lemma pure_total {A} (m : M A) : pure m -> total m.
Proof. intros Hm w. destruct (Hm w) as (a & E). eauto. Qed.
Lemma pure_nonZero object : pure (dumpNonZero object).
Proof.
  intros w. unfold dumpNonZero. destruct (_ || _); [by eexists|]. induction (upTo _) as [|i idxs (a & IH)]; [by eexists|].
  cbn [nonZeroQwords]. unfold mbind, M_bind, load, gets. rewrite IH. by eexists.
Qed.
Lemma pure_context c : pure (dumpIGHardwareContextObject c).
Proof. apply pure_nonZero. Qed.
Lemma pure_ring c : pure (dumpIGHardwareRingBufferObject c).
Proof. apply pure_nonZero. Qed.
Lemma pure_virtualCall c : pure (traceVirtualCallInSubmitToRing c).
Proof.
  intros w. unfold traceVirtualCallInSubmitToRing, findVtableEntry, mbind, M_bind, load, gets.
  destruct (_ || _); [by eexists|]. destruct (_ =? 0) eqn:E; by eexists.
Qed.
(** The dwords at the indices, as they are in memory. *)
Definition dwordsAt (base : Z) (idxs : list Z) (w : world) : list Z :=
  map (fun i => load_le 4 (base + 4 * i) (w_mem w)) idxs.
Lemma readDwords_run base idxs w : readDwords base idxs w = Done (dwordsAt base idxs w) w.
Proof.
  induction idxs as [|i idxs IH]; [done|]. cbn [readDwords]. unfold mbind, M_bind, load, gets. by rewrite IH.
Qed.
Lemma dumpText_run base idxs w : (length idxs <= 16)%nat ->
  dumpText base idxs w = Done (dwordsText true (dwordsAt base idxs w)) w.
Proof.
  intros Hl. unfold dumpText, mbind, M_bind. rewrite readDwords_run.
  destruct (formatDwords_run true 256 (dwordsAt base idxs w) "") as [-> _]; [|done].
  unfold dwordsAt. rewrite length_map. lia.
Qed.
Lemma ringWindows_length mask a b : Forall (fun l => length l = 16%nat) (ringWindows mask a b).
Proof.
  unfold ringWindows, tailWindow. assert (length (upTo 16) = 16%nat) by done.
  repeat case_match; repeat constructor; by rewrite ?length_map.
Qed.
Lemma dumpWindows_run base windows w : Forall (fun l => length l = 16%nat) windows ->
  dumpWindows base windows w = Done (map (fun l => dwordsText true (dwordsAt base l w)) windows) w.
Proof.
  induction 1 as [|l windows Hl _ IH]; [done|]. cbn [dumpWindows map]. unfold mbind, M_bind.
  rewrite dumpText_run, IH by lia. done.
Qed.

(** C40 (bounds). With the engine trace on, the scan of a ring buffer whose size is a multiple
    of 4, at least 64 bytes and below 2^32 returns, changes nothing and prints the complete
    text of at most three runs of 16 dwords, every one of which lies inside the ring,
    wherever the old and the new tail are. *)
Theorem ring_scan_in_ring (cpuPtr ringSize oldTail newTail : Z) (w : world) :
  isRcsEngineTraceEnabled = true -> cpuPtr <> 0 -> 64 <= ringSize < 2 ^ 32 -> ringSize mod 4 = 0 ->
  let windows := ringWindows (ringSize - 1) oldTail newTail in
  scanRingMemoryFields cpuPtr ringSize oldTail newTail w =
    Done (map (fun l => dwordsText true (dwordsAt cpuPtr l w)) windows) w /\
  (length windows <= 3)%nat /\
  Forall (Forall (fun i => 0 <= i /\ 4 * i + 4 <= ringSize)) windows.
Proof.
  intros He Hc Hr Hm windows. split_and!.
  - unfold scanRingMemoryFields. rewrite He, (proj2 (Z.eqb_neq cpuPtr 0)), (proj2 (Z.eqb_neq ringSize 0)) by lia.
    cbn [negb orb]. rewrite u32_small by lia. apply dumpWindows_run, ringWindows_length.
  - unfold windows, ringWindows. repeat case_match; cbn; lia.
  - assert (Ht : forall t, Forall (fun i => 0 <= i /\ 4 * i + 4 <= ringSize) (tailWindow t (ringSize - 1))).
    { intros t. apply Forall_forall. intros i Hi. apply list_elem_of_fmap in Hi as (j & -> & _).
      assert (Hs : (ringSize - 1 + 1) mod 4 = 0) by (by replace (ringSize - 1 + 1) with ringSize by lia).
      pose proof (ringDumpIndex_range t (ringSize - 1) j ltac:(lia) Hs). lia. }
    assert (Hstart : Forall (fun i => 0 <= i /\ 4 * i + 4 <= ringSize) (upTo 16)).
    { apply Forall_forall. intros i Hi. apply list_elem_of_fmap in Hi as (j & -> & Hj%elem_of_seq). lia. }
    unfold windows, ringWindows. repeat case_match; cbn [app];
      repeat (apply Forall_cons_2; [first [exact Hstart | apply Ht]|]); apply Forall_nil_2.
Qed.
(** A status page is read in its first 64 bytes only. *)
Lemma hws_scan_run cpuPtr w : isRcsEngineTraceEnabled = true -> cpuPtr <> 0 ->
  scanHwsCandidates cpuPtr w =
    Done (Some (dwordsText true (dwordsAt cpuPtr (upTo 16) w), load_le 4 (cpuPtr + 12) (w_mem w))) w.
Proof.
  intros He Hc. unfold scanHwsCandidates. rewrite He, (proj2 (Z.eqb_neq cpuPtr 0)) by done. cbn [negb orb].
  unfold mbind, M_bind. rewrite dumpText_run by done. done.
Qed.
End facts.

(** ** Evaluations *)
Import Sim.
Definition scan_plat : Platform := sim_platform_with [("ngreenRcsEngineTrace", 1)] [] 0.
Lemma ring_scan_in_ring_witness :
  Forall (Forall (fun i => 0 <= i /\ 4 * i + 4 <= 0x4000)) (ringWindows (0x4000 - 1) 0x3ff8 0x10).
Proof. apply (@ring_scan_in_ring _ scan_plat 0x1000 0x4000 0x3ff8 0x10 (sim_world [])); [reflexivity|lia|lia|reflexivity]. Defined.
(** The start of the ring is read without the mask: a ring of 32 bytes is read past its end. *)
Example small_ring_overread : existsb (fun i => 32 <? 4 * i + 4) (concat (ringWindows (32 - 1) 0 0)) = true.
Proof. reflexivity. Qed.
End Scan.
Ltac solve_pure := first [apply Scan.pure_context | apply Scan.pure_ring | apply Scan.pure_virtualCall].
#[export] Hint Extern 1 (respects _ (Scan.dumpIGHardwareContextObject _)) => apply Scan.pure_respects; [exact _|solve_pure] : ng ngframe.
#[export] Hint Extern 1 (respects _ (Scan.dumpIGHardwareRingBufferObject _)) => apply Scan.pure_respects; [exact _|solve_pure] : ng ngframe.
#[export] Hint Extern 1 (respects _ (Scan.traceVirtualCallInSubmitToRing _)) => apply Scan.pure_respects; [exact _|solve_pure] : ng ngframe.
#[export] Hint Extern 1 (total (Scan.dumpIGHardwareContextObject _)) => apply Scan.pure_total; solve_pure : ng.
#[export] Hint Extern 1 (total (Scan.dumpIGHardwareRingBufferObject _)) => apply Scan.pure_total; solve_pure : ng.
#[export] Hint Extern 1 (total (Scan.traceVirtualCallInSubmitToRing _)) => apply Scan.pure_total; solve_pure : ng.
