(* ===== verification/Frame.v ===== *)
(** * What the shared operations leave alone

    Interface between the register and trace components and their clients: a relation
    on worlds that looks at the plugin state and at the two tracked engines only is
    respected by every accessor and every dump, so that a client proof deals with its
    own assignments and nothing else. *)
From S2P Require Import Prelude Machine Regs Mmio BootArgs RegHooks Trace.
Import Regs Mmio BootArgs RegHooks Trace.

(** ** Dumps

    What a relation needs so that the register dumps respect it: reading a register and
    updating the tracers' own state. *)
Section dump_safe.
Context `{Platform}.
Class DumpSafe (R : relation world) : Prop := {
  dump_preorder :: PreOrder R;
  dump_read r : respects R (readReg32 r);
  dump_transition st : respects R (set_g11 (fun g => g <| gRcsTransitionState := st |>));
  dump_bringup f : respects R (set_bringup f)
}.
Context (R : relation world) `{!DumpSafe R}.
Lemma dump_tRead a : respects R (tReadRegister32 a).
Proof. unfold tReadRegister32. pose proof dump_read. respects_auto; auto. Qed.
Lemma dump_readTraceReg a : respects R (readTraceReg a).
Proof. apply dump_tRead. Qed.
Lemma dump_traceRead32 a : respects R (traceRead32 a).
Proof. apply dump_tRead. Qed.
Lemma dump_tmmioReady : respects R tmmioReady.
Proof. apply respects_ng. exact _. Qed.
Hint Resolve dump_tRead dump_readTraceReg dump_traceRead32 dump_tmmioReady dump_transition
  dump_bringup : ng.
Lemma dump_readAll rs : respects R (readAll rs).
Proof. unfold readAll. respects_auto. Qed.
Hint Resolve dump_readAll : ng.
Lemma dump_rcs : respects R dumpRcsEngineActivationState.
Proof. unfold dumpRcsEngineActivationState. respects_auto. Qed.
Lemma dump_anyCsb l : respects R (anyCsb l).
Proof. induction l as [|i l IH]; simpl; respects_auto; exact IH. Qed.
Hint Resolve dump_anyCsb : ng.
Lemma dump_mark : respects R markRcsRegisterTransition.
Proof. unfold markRcsRegisterTransition. respects_auto. Qed.
Lemma dump_update stage : respects R (updateTglGpuBringupStateFromRegisters stage).
Proof. unfold updateTglGpuBringupStateFromRegisters, anyRcsCsbEntrySet. respects_auto. Qed.
Lemma dump_readAllWhenReady rs : respects R (readAllWhenReady rs).
Proof. unfold readAllWhenReady. respects_auto. Qed.
Hint Resolve dump_update dump_readAllWhenReady : ng.
Lemma dump_state stage : respects R (dumpTglGpuBringupState stage).
Proof.
  unfold dumpTglGpuBringupState, dumpRcsRegisters, dumpGucRegisters, dumpGtInterruptRegisters. respects_auto.
Qed.
End dump_safe.
#[export] Hint Extern 0 (DumpSafe _) => exact _ : ngframe ng.
#[export] Hint Resolve dump_tRead dump_rcs dump_mark dump_bringup dump_state : ngframe ng.

Section frame.
Context `{Platform}.

(** The part of the statics a framed relation may look at. *)
Definition core (g : Gen11) : NGTglEngineState * NGTglEngineState := (g_bcs g, g_rcs g).

Class Frame (R : relation world) : Prop := {
  frame_preorder :: PreOrder R;
  frame_benign :: Benign R;
  frame_quiet w w' : w_ng w' = w_ng w -> core (w_g11 w') = core (w_g11 w) -> R w w'
}.

Context (R : relation world) `{!Frame R}.

Lemma frame_modify f :
  (forall w, w_ng (f w) = w_ng w) -> (forall w, core (w_g11 (f w)) = core (w_g11 w)) ->
  respects R (modify f).
Proof. intros Hn Hg w. apply frame_quiet; [apply Hn|apply Hg]. Qed.
Lemma frame_set_g11 f : (forall g, core (f g) = core g) -> respects R (set_g11 f).
Proof. intros Hf. apply frame_modify; [done|]. intros w. apply Hf. Qed.
Lemma frame_ptr_read i : respects R (ptr_read i).
Proof. intros w. unfold ptr_read. destruct (mmio_read _ _). by apply frame_quiet. Qed.
Lemma frame_ptr_write i v : respects R (ptr_write i v).
Proof. intros w. by apply frame_quiet. Qed.
Lemma frame_now : respects R now_ns.
Proof. intros w. unfold now_ns. destruct (clock_ns _). by apply frame_quiet. Qed.
Lemma frame_delay us : respects R (delay_us us).
Proof. intros w. by apply frame_quiet. Qed.
Lemma frame_sleep ms : respects R (sleep_ms ms).
Proof. apply frame_delay. Qed.
Lemma frame_store n a v : respects R (store n a v).
Proof. by apply frame_modify. Qed.
Lemma frame_schedule f ms : respects R (schedule f ms).
Proof. by apply frame_modify. Qed.
Lemma frame_setProperty o k v : respects R (setProperty o k v).
Proof. by apply frame_modify. Qed.
Lemma frame_removeProperty o k : respects R (removeProperty o k).
Proof. by apply frame_modify. Qed.
Lemma frame_addDrivers p : respects R (addDrivers p).
Proof. by apply frame_modify. Qed.
Lemma frame_call f args : respects R (call f args).
Proof.
  intros w. unfold call. pose proof (benign (R := R) f args (emit (ECall f args) w)) as Hb.
  destruct (original _ _ _) as [r w']. simpl in *. etrans; [|exact Hb]. by apply frame_quiet.
Qed.

(** Accessors. *)
Lemma frame_readReg32 reg : respects R (readReg32 reg).
Proof. apply respects_readReg32; [exact _|exact frame_ptr_read|exact frame_ptr_write]. Qed.
Lemma frame_writeReg32 reg v : respects R (writeReg32 reg v).
Proof. apply respects_writeReg32; [exact _|exact frame_ptr_read|exact frame_ptr_write]. Qed.
Lemma frame_readMMIO32 reg : respects R (readMMIO32 reg).
Proof. apply frame_readReg32. Qed.
Lemma frame_tRead32 a : respects R (tReadRegister32 a).
Proof. unfold tReadRegister32. pose proof frame_readReg32. respects_auto; auto. Qed.
Lemma frame_readTraceReg reg : respects R (readTraceReg reg).
Proof. apply frame_tRead32. Qed.
Lemma frame_traceRead32 reg : respects R (traceRead32 reg).
Proof. apply frame_tRead32. Qed.
Lemma frame_tmmioReady : respects R tmmioReady.
Proof. apply respects_ng. exact _. Qed.
End frame.
#[export] Hint Resolve frame_ptr_read frame_ptr_write frame_now frame_delay frame_sleep
  frame_store frame_schedule frame_setProperty frame_removeProperty frame_addDrivers frame_call
  frame_readReg32 frame_writeReg32 frame_readMMIO32 frame_tRead32 frame_readTraceReg frame_traceRead32
  frame_tmmioReady : ngframe.
#[export] Hint Extern 0 (Frame _) => exact _ : ngframe.

#[export] Instance frame_dump_safe `{Platform} R `{!Frame R} : DumpSafe R.
Proof.
  split; [exact _|by apply frame_readReg32|intros; by apply frame_set_g11|intros; by apply frame_set_g11].
Qed.

(** [respects_auto] with the framed operations; what is left are the client's own
    assignments. *)
Ltac frame_auto := repeat (first [respects_step | solve [eauto 3 with ngframe]]).

Section dumps.
Context `{Platform} (R : relation world) `{!Frame R}.
Lemma frame_sharedVA b : respects R (tGetSharedMappedBufferVirtualAddress b).
Proof. unfold tGetSharedMappedBufferVirtualAddress. frame_auto. Qed.
Lemma frame_mappedVA b : respects R (tGetMappedBufferGPUVirtualAddress b).
Proof. unfold tGetMappedBufferGPUVirtualAddress. frame_auto. Qed.
Hint Resolve frame_sharedVA frame_mappedVA : ngframe.
Lemma frame_candidateTypeName c : respects R (candidateTypeName c).
Proof. unfold candidateTypeName. frame_auto. Qed.
Hint Resolve frame_candidateTypeName : ngframe.
Lemma frame_dumpCandidates o : respects R (dumpCandidateMappedBuffers o).
Proof. unfold dumpCandidateMappedBuffers. frame_auto. Qed.
Hint Resolve frame_dumpCandidates : ngframe.
Lemma frame_dumpContext c : respects R (dumpContextImageKnownFields c).
Proof. unfold dumpContextImageKnownFields. frame_auto. Qed.
Lemma frame_dumpRing b : respects R (dumpRingMemoryKnownFields b).
Proof. unfold dumpRingMemoryKnownFields. frame_auto. Qed.
Lemma frame_scan o n : respects R (scanMappedCandidates o n).
Proof. unfold scanMappedCandidates. frame_auto. Qed.
End dumps.
#[export] Hint Resolve frame_sharedVA frame_mappedVA frame_candidateTypeName frame_dumpCandidates
  frame_dumpContext frame_dumpRing frame_scan : ngframe.

(** ** Running an access of a mapped register *)
Section mapped.
Context `{Platform}.
(** Nothing but the hardware and the trace differs. *)
Definition same_soft (w w' : world) : Prop :=
  w_ng w' = w_ng w /\ w_g11 w' = w_g11 w /\ w_mem w' = w_mem w /\ w_reg w' = w_reg w.
#[export] Instance same_soft_preorder : PreOrder same_soft.
Proof. split; unfold same_soft; [done|]. intros w1 w2 w3 (?&?&?&?) (?&?&?&?). split_and!; congruence. Qed.
Lemma same_soft_mapped reg w w' : same_soft w w' -> mapped reg w -> mapped reg w'.
Proof. intros (Hn & _) [? ?]. unfold mapped. by rewrite Hn. Qed.
Lemma read_mapped reg w : mapped reg w ->
  exists v w', readReg32 reg w = Done v w' /\ same_soft w w' /\ w_tr w' = ERd (reg .>> 2) v :: w_tr w.
Proof.
  intros Hm. rewrite readReg32_direct by done. unfold ptr_read. destruct (mmio_read _ _) as [v h].
  by eexists _, _.
Qed.
Lemma write_run_mapped reg v w : mapped reg w -> looksLikePlaneSurf reg = false ->
  exists w', writeReg32 reg v w = Done () w' /\ same_soft w w' /\
    w_tr w' = EWr (reg .>> 2) (u32 v) :: w_tr w.
Proof. intros Hm Hs. rewrite writeReg32_direct by done. by eexists. Qed.
(** A BAR of [len] bytes maps every register that ends below [len]. *)
Lemma mapped_below len reg w :
  rmmio (w_ng w) = Some len -> rmmioPtr (w_ng w) = true -> len < 2 ^ 64 -> 0 <= reg -> reg + 4 <= len ->
  mapped reg w.
Proof.
  intros Hr Hp Hl Hlo Hhi. unfold mapped, mmioValid, getLength. rewrite Hr, Hp. split; [done|].
  simpl. rewrite u64_small; lia.
Qed.
End mapped.

(** ** Totality of the dumps *)
Section totality.
Context `{Platform}.
Hint Resolve total_readReg32 : ng.
Lemma total_tRead r : total (tReadRegister32 r).
Proof. unfold tReadRegister32. pose proof total_readReg32. total_auto. Qed.
Lemma total_tmmioReady : total tmmioReady.
Proof. apply total_gets. Qed.
Hint Resolve total_tRead total_tmmioReady : ng.
Lemma total_anyCsb l : total (anyCsb l).
Proof. induction l as [|i l IH]; simpl; unfold readTraceReg; total_auto; exact IH. Qed.
Hint Resolve total_anyCsb : ng.
Lemma total_dumpRcs : total dumpRcsEngineActivationState.
Proof. unfold dumpRcsEngineActivationState, readAll, readTraceReg. total_auto. Qed.
Lemma total_mark : total markRcsRegisterTransition.
Proof. unfold markRcsRegisterTransition, readTraceReg. total_auto. Qed.
Lemma total_update st : total (updateTglGpuBringupStateFromRegisters st).
Proof.
  unfold updateTglGpuBringupStateFromRegisters, set_bringup, traceRead32, anyRcsCsbEntrySet. total_auto.
Qed.
Hint Resolve total_dumpRcs total_mark total_update : ng.
Lemma total_dumpBringup st : total (dumpTglGpuBringupState st).
Proof.
  unfold dumpTglGpuBringupState, dumpRcsRegisters, dumpGucRegisters, dumpGtInterruptRegisters,
    readAllWhenReady, traceRead32. total_auto.
Qed.
End totality.
#[export] Hint Resolve total_readReg32 total_writeReg32 total_tRead total_tmmioReady total_dumpRcs
  total_mark total_dumpBringup : ng.
