(* ===== verification/Engine.v ===== *)
(** * Engine bring-up and quarantine (TGL.cpp)

    The state machine that tracks the blitter (BCS) and render (RCS) command
    streamers through context setup, ring programming and submission, smoke-tests
    them against the ring registers, and quarantines an engine that fails; and the
    hooks of the accelerator driver that drive it. *)
From S2P Require Import Prelude Machine Sim Regs Mmio BootArgs RegHooks Trace Scan Frame.
Import Regs Mmio BootArgs RegHooks Trace Scan.

Module Engine.
(** [TGL.cpp:80-84 NGTglTrackedEngine] *)
Inductive NGTglTrackedEngine := EngNone | EngBCS | EngRCS.
#[global] Instance engine_eq_dec : EqDecision NGTglTrackedEngine.
Proof. solve_decision. Defined.

(** [TGL.hpp:502-510 IGHwCsType] *)
Definition kIGHwCsTypeRCS : Z := 0.
Definition kIGHwCsTypeBCS : Z := 2.

(** [TGL.cpp getTrackedEngineFromCsType] *)
Definition getTrackedEngineFromCsType (type : Z) : NGTglTrackedEngine :=
  if type =? kIGHwCsTypeBCS then EngBCS
  else if type =? kIGHwCsTypeRCS then EngRCS else EngNone.
(** [TGL.cpp trackedEngineRingBase] *)
Definition trackedEngineRingBase (e : NGTglTrackedEngine) : Z :=
  match e with EngBCS => BLT_RING_BASE | EngRCS => RENDER_RING_BASE | EngNone => 0 end.
(** The pointer into [gTglBringupState], null for an untracked engine.
    [TGL.cpp trackedEngineState] *)
Definition trackedEngineState (e : NGTglTrackedEngine) (g : Gen11) : option NGTglEngineState :=
  match e with EngBCS => Some (g_bcs g) | EngRCS => Some (g_rcs g) | EngNone => None end.
Definition updateEngine (e : NGTglTrackedEngine) (f : NGTglEngineState -> NGTglEngineState)
    (g : Gen11) : Gen11 :=
  match e with
  | EngBCS => g <| g_bcs ::= f |>
  | EngRCS => g <| g_rcs ::= f |>
  | EngNone => g
  end.

Section defs.
Context `{Platform}.

Definition with_engine (e : NGTglTrackedEngine) (f : NGTglEngineState -> NGTglEngineState) : M unit :=
  set_g11 (updateEngine e f).

(** [TGL.cpp getTrackedEngineFromContext] *)
Definition getTrackedEngineFromContext (context : Z) : M NGTglTrackedEngine :=
  csState ← (if context =? 0 then mret 0 else load 8 (context + 0xb8));
  if csState =? 0 then mret EngNone
  else type ← load 4 (csState + 0x20); mret (getTrackedEngineFromCsType (s32 type)).
(** [TGL.cpp getTrackedEngineFromRingBuffer] *)
Definition getTrackedEngineFromRingBuffer (ringBuffer : Z) : M NGTglTrackedEngine :=
  context ← (if ringBuffer =? 0 then mret 0 else load 8 (ringBuffer + 0x20));
  getTrackedEngineFromContext context.

(** [TGL.cpp shouldUseSpoofedSafeSchedulerPolicy] *)
Definition shouldUseSpoofedSafeSchedulerPolicy (n : NGreen) : bool :=
  ngCallback n && negb (isRealTGL n) && negb (tryGuC n).

(** [TGL.cpp shouldBlockTrackedEngine] *)
Definition shouldBlockTrackedEngine (e : NGTglTrackedEngine) (g : Gen11) : bool :=
  match trackedEngineState e g with Some s => quarantined s | None => false end.
(** [TGL.cpp markTrackedEngineContextSeen] *)
Definition markTrackedEngineContextSeen (e : NGTglTrackedEngine) : M unit :=
  with_engine e (fun s => s <| contextSeen := true |>).
(** [TGL.cpp markTrackedEngineRingReady] *)
Definition markTrackedEngineRingReady (e : NGTglTrackedEngine) : M unit :=
  with_engine e (fun s => s <| ringReady := true |>).
(** [TGL.cpp markTrackedEngineControlReady] *)
Definition markTrackedEngineControlReady (e : NGTglTrackedEngine) (ready : bool) : M unit :=
  with_engine e (fun s => s <| controlReady := ready |>).
(** [TGL.cpp markTrackedEngineSubmitted] *)
Definition markTrackedEngineSubmitted (e : NGTglTrackedEngine) : M unit :=
  with_engine e (fun s => s <| submitted := true |>).

(** The smoke test on one reading of the ring registers. [TGL.cpp:6006-6012 evaluateTrackedEngineBootstrap] *)
Definition smokePass (s : NGTglEngineState) (start ctl head tail exec ctxptr : Z) : bool :=
  contextSeen s && ringReady s && controlReady s && truthy start && truthy ctl &&
  (truthy tail || truthy head || truthy exec || truthy ctxptr).

(** [TGL.cpp evaluateTrackedEngineBootstrap] *)
Definition evaluateTrackedEngineBootstrap (e : NGTglTrackedEngine) : M bool :=
  let ringBase := trackedEngineRingBase e in
  ready ← ng (fun n => ngCallback n && mmioValid n);
  st ← g11 (trackedEngineState e);
  match st with
  | None => mret false
  | Some _ =>
    if (ringBase =? 0) || negb ready then mret false
    else
      start ← readMMIO32 (RING_START ringBase);
      ctl ← readMMIO32 (RING_CTL ringBase);
      head ← readMMIO32 (RING_HEAD ringBase);
      tail ← readMMIO32 (RING_TAIL ringBase);
      exec ← readMMIO32 (RING_EXECLIST_STATUS ringBase);
      ctxptr ← readMMIO32 (RING_CONTEXT_STATUS_PTR ringBase);
      pass ← g11 (fun g => match trackedEngineState e g with
                           | Some s => smokePass s start ctl head tail exec ctxptr
                           | None => false end);
      if pass : bool then _ ← with_engine e (fun s => s <| smokePassed := true |>); mret true
      else
        real ← ng isRealTGL;
        if real && bool_decide (e = EngRCS) then mret false
        else _ ← with_engine e (fun s => s <| quarantined := true |>); mret false
  end.

(** *** Trace calls around the originals *)
Definition dumpContext (that : Z) : M unit :=
  _ ← dumpIGHardwareContextObject that; scanMappedCandidates that 0x180.
Definition dumpRing (that : Z) : M unit :=
  _ ← dumpIGHardwareRingBufferObject that; scanMappedCandidates that 0x180.
Definition traced (m : M unit) : M unit := when isRcsEngineTraceEnabled m.
Definition markTransition : M unit := _ ← markRcsRegisterTransition; mret ().
Definition ctxTracePre (that : Z) : M unit :=
  traced (_ ← dumpRcsEngineActivationState; _ ← dumpContextImageKnownFields that; dumpContext that).
Definition ctxTracePost (that : Z) : M unit :=
  traced (_ ← dumpRcsEngineActivationState; _ ← dumpContextImageKnownFields that;
          _ ← markTransition; dumpContext that).
(** Call an original when its symbol was resolved. *)
Definition callIf (f : string) (args : list Z) : M unit :=
  when (resolved f) (_ ← call f args; mret ()).

(** [TGL.cpp IGHardwareContextinitRingGPUVirtualAddress] *)
Definition IGHardwareContextinitRingGPUVirtualAddress (that : Z) : M unit :=
  engine ← getTrackedEngineFromContext that;
  blocked ← g11 (shouldBlockTrackedEngine engine);
  if blocked : bool then mret ()
  else
    _ ← ctxTracePre that;
    _ ← callIf "oIGHardwareContextinitRingGPUVirtualAddress" [that];
    _ ← markTrackedEngineContextSeen engine;
    ctxTracePost that.

(** [TGL.cpp IGHardwareContextinitRingRegisters] *)
Definition IGHardwareContextinitRingRegisters (that : Z) : M unit :=
  engine ← getTrackedEngineFromContext that;
  blocked ← g11 (shouldBlockTrackedEngine engine);
  if blocked : bool then mret ()
  else
    _ ← ctxTracePre that;
    _ ← callIf "oIGHardwareContextinitRingRegisters" [that];
    _ ← markTrackedEngineRingReady engine;
    ctxTracePost that.

(** [TGL.cpp IGHardwareContextinitRingControl] *)
Definition IGHardwareContextinitRingControl (that : Z) (enable : bool) : M unit :=
  engine ← getTrackedEngineFromContext that;
  blocked ← g11 (shouldBlockTrackedEngine engine);
  if blocked : bool then mret ()
  else
    notReady ← g11 (fun g => match trackedEngineState engine g with
                             | Some s => enable && negb (ringReady s) | None => false end);
    _ ← when notReady (markTrackedEngineRingReady engine);
    _ ← ctxTracePre that;
    _ ← callIf "oIGHardwareContextinitRingControl" [that; b2z enable];
    _ ← markTrackedEngineControlReady engine enable;
    _ ← when enable (_ ← evaluateTrackedEngineBootstrap engine; mret ());
    ctxTracePost that.

(** [TGL.cpp IGHardwareContextresetRingHead] *)
Definition IGHardwareContextresetRingHead (that : Z) : M unit :=
  engine ← getTrackedEngineFromContext that;
  blocked ← g11 (shouldBlockTrackedEngine engine);
  if blocked : bool then mret ()
  else
    _ ← traced (_ ← dumpRcsEngineActivationState; dumpContext that);
    _ ← callIf "oIGHardwareContextresetRingHead" [that];
    _ ← with_engine engine (fun s => s <| submitted := false |>);
    traced (_ ← dumpRcsEngineActivationState; _ ← markTransition; dumpContext that).

(** [TGL.cpp IGHardwareContextupdateRingTail] *)
Definition IGHardwareContextupdateRingTail (that tail : Z) : M unit :=
  engine ← getTrackedEngineFromContext that;
  blocked ← g11 (shouldBlockTrackedEngine engine);
  if blocked : bool then mret ()
  else
    notReady ← g11 (fun g => match trackedEngineState engine g with
                             | Some s => negb (ringReady s) | None => false end);
    if notReady : bool then with_engine engine (fun s => s <| quarantined := true |>)
    else
      _ ← with_engine engine (fun s => s <| lastTail := tail |>);
      _ ← ctxTracePre that;
      _ ← callIf "oIGHardwareContextupdateRingTail" [that; tail];
      _ ← markTrackedEngineSubmitted engine;
      _ ← evaluateTrackedEngineBootstrap engine;
      ctxTracePost that.

(** What follows the [return] of the source, the workaround tables of each engine, is
    unreachable. [TGL.cpp:5600-5606 IGHardwareExtendedContextinitWithOptions] *)
Definition IGHardwareExtendedContextinitWithOptions (that param_1 param_2 : Z) : M Z :=
  ret ← call "oIGHardwareExtendedContextinitWithOptions" [that; param_1; param_2];
  engine ← getTrackedEngineFromContext that;
  _ ← markTrackedEngineContextSeen engine;
  mret (u8 ret).

(** [TGL.cpp IGHardwareRingBufferinit] *)
Definition IGHardwareRingBufferinit (that context : Z) : M Z :=
  engine ← getTrackedEngineFromContext context;
  blocked ← g11 (shouldBlockTrackedEngine engine);
  if blocked : bool then mret 0
  else
    _ ← traced (_ ← dumpRcsEngineActivationState; _ ← dumpContextImageKnownFields context;
                _ ← dumpRingMemoryKnownFields that; _ ← dumpRing that; dumpContext context);
    if negb (resolved "oIGHardwareRingBufferinit") then
      _ ← traced dumpRcsEngineActivationState; mret 0
    else
      ret ← call "oIGHardwareRingBufferinit" [that; context];
      _ ← traced (_ ← dumpRcsEngineActivationState; _ ← dumpContextImageKnownFields context;
                  _ ← dumpRingMemoryKnownFields that; _ ← markTransition; _ ← dumpRing that; dumpContext context);
      mret ret.

(** The trace calls of [submitToRing]. [TGL.cpp:6488-6511 IGHardwareRingBuffersubmitToRing] *)
Definition submitTrace (that : Z) : M unit :=
  _ ← traceVirtualCallInSubmitToRing that;
  _ ← dumpRing that;
  context ← load 8 (that + 0x20);
  _ ← when (negb (context =? 0)) (dumpContext context);
  _ ← dumpRcsEngineActivationState;
  _ ← dumpRingMemoryKnownFields that;
  dumpContextImageKnownFields context.

(** Evaluate the bootstrap of an engine that has not passed yet. *)
Definition evaluateUnlessPassed (e : NGTglTrackedEngine) : M unit :=
  pending ← g11 (fun g => match trackedEngineState e g with
                          | Some s => negb (smokePassed s) | None => false end);
  when pending (_ ← evaluateTrackedEngineBootstrap e; mret ()).

(** [TGL.cpp IGHardwareRingBuffersubmitToRing] *)
Definition IGHardwareRingBuffersubmitToRing (that : Z) : M unit :=
  engine ← getTrackedEngineFromRingBuffer that;
  blocked ← g11 (shouldBlockTrackedEngine engine);
  if blocked : bool then mret ()
  else
    notReady ← g11 (fun g => match trackedEngineState engine g with
                             | Some s => negb (controlReady s) | None => false end);
    if notReady : bool then with_engine engine (fun s => s <| quarantined := true |>)
    else
      _ ← traced (submitTrace that);
      _ ← callIf "oIGHardwareRingBuffersubmitToRing" [that];
      _ ← markTrackedEngineSubmitted engine;
      _ ← evaluateUnlessPassed engine;
      traced (_ ← submitTrace that; markTransition).

(** [TGL.cpp IGHardwareRenderCommandStreamerinit] *)
Definition IGHardwareRenderCommandStreamerinit (that accelerator workLoop scheduler : Z) : M Z :=
  _ ← traced dumpRcsEngineActivationState;
  if negb (resolved "oIGHardwareRenderCommandStreamerinit") then
    _ ← traced dumpRcsEngineActivationState; mret 0
  else
    ret ← call "oIGHardwareRenderCommandStreamerinit" [that; accelerator; workLoop; scheduler];
    _ ← traced (_ ← dumpRcsEngineActivationState; markTransition);
    mret ret.

(** The gate of the command-streamer hooks: nothing is submitted under the safe
    policy once BCS is quarantined. *)
Definition streamerBlocked (w : world) : bool :=
  shouldUseSpoofedSafeSchedulerPolicy (w_ng w) && quarantined (g_bcs (w_g11 w)).

(** [TGL.cpp IGHardwareCommandStreamerresumeScheduling] *)
Definition IGHardwareCommandStreamerresumeScheduling (that : Z) : M unit :=
  blocked ← gets streamerBlocked;
  if blocked : bool then mret ()
  else
    _ ← traced dumpRcsEngineActivationState;
    _ ← callIf "oIGHardwareCommandStreamerresumeScheduling" [that];
    traced (_ ← dumpRcsEngineActivationState; markTransition).

(** [TGL.cpp IGHardwareCommandStreamersubmitExecList] *)
Definition IGHardwareCommandStreamersubmitExecList (that stamp : Z) : M unit :=
  blocked ← gets streamerBlocked;
  if blocked : bool then mret ()
  else
    _ ← traced dumpRcsEngineActivationState;
    _ ← callIf "oIGHardwareCommandStreamersubmitExecList" [that; stamp];
    _ ← evaluateUnlessPassed EngRCS;
    traced (_ ← dumpRcsEngineActivationState; markTransition).

(** [TGL.cpp IGHardwareCommandStreamerprepareExecListAndSubmit] *)
Definition IGHardwareCommandStreamerprepareExecListAndSubmit (that arg1 arg2 arg3 : Z) : M unit :=
  blocked ← gets streamerBlocked;
  if blocked : bool then mret ()
  else
    _ ← traced dumpRcsEngineActivationState;
    _ ← callIf "oIGHardwareCommandStreamerprepareExecListAndSubmit" [that; arg1; arg2; arg3];
    _ ← evaluateUnlessPassed EngRCS;
    traced (_ ← dumpRcsEngineActivationState; markTransition).
(** *** IGScheduler5

    Every hook forwards to the original between two dumps of the submission state; an
    unresolved original makes it return false after one more dump. Checks of the engine
    descriptor whose result is only logged are left out. *)

(** Registers the dump reads. [TGL.cpp:6048-6071 dumpRCSSubmissionState] *)
Definition submissionReads : list Z :=
  [ RING_START RENDER_RING_BASE; RING_CTL RENDER_RING_BASE; RING_HEAD RENDER_RING_BASE;
    RING_TAIL RENDER_RING_BASE; RING_HWS_PGA RENDER_RING_BASE;
    RING_EXECLIST_STATUS RENDER_RING_BASE; RING_CONTEXT_STATUS_PTR RENDER_RING_BASE; ERROR_GEN6;
    GEN11_RENDER_COPY_INTR_ENABLE; GEN11_RCS0_RSVD_INTR_MASK; GEN11_GFX_MSTR_IRQ;
    GEN11_GT_INTR_DW0; GEN11_GT_INTR_DW1 ] ++
  concat (map (fun i => [RING_CONTEXT_STATUS_BUF RENDER_RING_BASE (Z.of_nat i);
                         RING_CONTEXT_STATUS_BUF_HI RENDER_RING_BASE (Z.of_nat i)]) (seq 0 4)).
(** [TGL.cpp dumpRCSSubmissionState] *)
Definition dumpRCSSubmissionState : M unit :=
  ready ← tmmioReady;
  if negb ready then mret ()
  else iterM submissionReads (fun r => _ ← tReadRegister32 r; mret ()).

(** The common shape of the hooks; [extra] is the trace after a resolved call. *)
Definition s5Forward (f : string) (args : list Z) (extra : Z -> M unit) : M Z :=
  _ ← dumpRCSSubmissionState;
  _ ← traced dumpRcsEngineActivationState;
  if negb (resolved f) then
    _ ← dumpRCSSubmissionState; _ ← traced dumpRcsEngineActivationState; mret 0
  else
    ret ← call f args;
    _ ← dumpRCSSubmissionState;
    _ ← traced (_ ← dumpRcsEngineActivationState; _ ← markTransition; extra ret);
    mret ret.
Definition s5Hook (f : string) (args : list Z) : M Z := s5Forward f args (fun _ => mret ()).

(** [TGL.cpp IGScheduler5initWithAccelerator] *)
Definition IGScheduler5initWithAccelerator (that accelerator : Z) : M bool :=
  r ← s5Hook "oIGScheduler5initWithAccelerator" [that; accelerator]; mret (truthy r).
(** [TGL.cpp IGScheduler5resume] *)
Definition IGScheduler5resume (that : Z) : M unit :=
  _ ← s5Hook "oIGScheduler5resume" [that]; mret ().

(** What the log says about an accepted push. [TGL.cpp:6172-6182 IGScheduler5push] *)
Inductive pushVerdict :=
| RingNotProgrammed | TailNotMoving | ActhdStuck | CsbStuck | CsbMoved | NoVerdict.
Definition pushAnalysis (ret ringStart ringCtl ringTail acthd csb0 csb0Hi : Z) : pushVerdict :=
  if (ret =? 1) && (ringStart =? 0) && (ringCtl =? 0) then RingNotProgrammed
  else if (truthy ringStart || truthy ringCtl) && (ringTail =? 0) then TailNotMoving
  else if truthy ringTail && (acthd =? 0) then ActhdStuck
  else if truthy acthd && (csb0 =? 0) && (csb0Hi =? 0) then CsbStuck
  else if truthy csb0 || truthy csb0Hi then CsbMoved
  else NoVerdict.
(** [TGL.cpp IGScheduler5push] *)
Definition IGScheduler5push (that context arg2 arg3 : Z) (arg4 arg5 : bool) : M bool :=
  r ← s5Forward "oIGScheduler5push" [that; context; arg2; arg3; b2z arg4; b2z arg5] (fun _ =>
    iterM [RING_START RENDER_RING_BASE; RING_CTL RENDER_RING_BASE; RING_TAIL RENDER_RING_BASE;
           RING_ACTHD RENDER_RING_BASE; RING_CONTEXT_STATUS_BUF RENDER_RING_BASE 0;
           RING_CONTEXT_STATUS_BUF_HI RENDER_RING_BASE 0]
      (fun reg => _ ← tReadRegister32 reg; mret ()));
  mret (truthy r).
(** [TGL.cpp IGScheduler5notify] *)
Definition IGScheduler5notify (that type : Z) : M unit :=
  _ ← s5Hook "oIGScheduler5notify" [that; type]; mret ().
(** [TGL.cpp IGScheduler5enableStampInterrupt] *)
Definition IGScheduler5enableStampInterrupt (that stampIndex : Z) : M unit :=
  _ ← s5Hook "oIGScheduler5enableStampInterrupt" [that; stampIndex]; mret ().
(** [TGL.cpp IGScheduler5enableContextSwitchInterrupts] *)
Definition IGScheduler5enableContextSwitchInterrupts (that : Z) : M unit :=
  _ ← s5Hook "oIGScheduler5enableContextSwitchInterrupts" [that]; mret ().
(** [TGL.cpp IGScheduler5checkForProgress] *)
Definition IGScheduler5checkForProgress (that type : Z) : M bool :=
  r ← s5Hook "oIGScheduler5checkForProgress" [that; type]; mret (truthy r).
End defs.

#[export] Hint Unfold IGHardwareExtendedContextinitWithOptions IGHardwareContextinitRingGPUVirtualAddress IGHardwareContextinitRingRegisters
  IGHardwareContextinitRingControl IGHardwareContextupdateRingTail
  IGHardwareRenderCommandStreamerinit IGHardwareCommandStreamerresumeScheduling
  IGHardwareCommandStreamersubmitExecList IGHardwareCommandStreamerprepareExecListAndSubmit
  IGScheduler5initWithAccelerator IGScheduler5resume IGScheduler5push IGScheduler5notify
  IGScheduler5enableStampInterrupt IGScheduler5enableContextSwitchInterrupts
  IGScheduler5checkForProgress markTrackedEngineContextSeen markTrackedEngineRingReady
  markTrackedEngineControlReady markTrackedEngineSubmitted : hookdefs.

(** ** The hooks as a system

    Every entry point of the component, so that its guarantees can be stated once. *)
Inductive hook :=
| HExtInit (that a b : Z) | HInitVA (that : Z) | HInitRegs (that : Z) | HInitControl (that : Z) (enable : bool)
| HResetHead (that : Z) | HUpdateTail (that tail : Z) | HRingInit (that context : Z)
| HSubmit (that : Z) | HRcsInit (that accelerator workLoop scheduler : Z) | HResume (that : Z)
| HSubmitExec (that stamp : Z) | HPrepareExec (that a b c : Z)
| HS5Init (that accelerator : Z) | HS5Resume (that : Z)
| HS5Push (that context a b : Z) (c d : bool) | HS5Notify (that type : Z)
| HS5Stamp (that i : Z) | HS5Switch (that : Z) | HS5Progress (that type : Z).

Section system.
Context `{Platform}.
Definition runHook (h : hook) : M unit :=
  match h with
  | HExtInit t a b => _ ← IGHardwareExtendedContextinitWithOptions t a b; mret ()
  | HInitVA t => IGHardwareContextinitRingGPUVirtualAddress t
  | HInitRegs t => IGHardwareContextinitRingRegisters t
  | HInitControl t e => IGHardwareContextinitRingControl t e
  | HResetHead t => IGHardwareContextresetRingHead t
  | HUpdateTail t v => IGHardwareContextupdateRingTail t v
  | HRingInit t c => _ ← IGHardwareRingBufferinit t c; mret ()
  | HSubmit t => IGHardwareRingBuffersubmitToRing t
  | HRcsInit t a w s => _ ← IGHardwareRenderCommandStreamerinit t a w s; mret ()
  | HResume t => IGHardwareCommandStreamerresumeScheduling t
  | HSubmitExec t s => IGHardwareCommandStreamersubmitExecList t s
  | HPrepareExec t a b c => IGHardwareCommandStreamerprepareExecListAndSubmit t a b c
  | HS5Init t a => _ ← IGScheduler5initWithAccelerator t a; mret ()
  | HS5Resume t => IGScheduler5resume t
  | HS5Push t c a b x y => _ ← IGScheduler5push t c a b x y; mret ()
  | HS5Notify t ty => IGScheduler5notify t ty
  | HS5Stamp t i => IGScheduler5enableStampInterrupt t i
  | HS5Switch t => IGScheduler5enableContextSwitchInterrupts t
  | HS5Progress t ty => _ ← IGScheduler5checkForProgress t ty; mret ()
  end.

(** One step of an engine, independent of how the hooks reach it. *)
Inductive estep : relation NGTglEngineState :=
| es_context s : estep s (s <| contextSeen := true |>)
| es_ring s : estep s (s <| ringReady := true |>)
| es_control s b : estep s (s <| controlReady := b |>)
| es_submit s b : estep s (s <| submitted := b |>)
| es_tail s t : estep s (s <| lastTail := t |>)
| es_pass s : contextSeen s = true -> ringReady s = true -> controlReady s = true ->
              estep s (s <| smokePassed := true |>)
| es_quarantine s : estep s (s <| quarantined := true |>).

(** Both engines of the plugin move along [estep]. *)
Definition engines_step : relation world := fun w w' =>
  rtc estep (g_bcs (w_g11 w)) (g_bcs (w_g11 w')) /\
  rtc estep (g_rcs (w_g11 w)) (g_rcs (w_g11 w')).
#[export] Instance engines_preorder : PreOrder engines_step.
Proof.
  split; [by intros w; split|]. intros w1 w2 w3 [] []. split; by etrans.
Qed.
#[export] Instance engines_frame `{!Benign engines_step} : Frame engines_step.
Proof.
  split; [exact _..|]. intros w w' _ Hc. unfold core in Hc. simplify_eq.
  split; [by replace (g_bcs (w_g11 w')) with (g_bcs (w_g11 w))
         |by replace (g_rcs (w_g11 w')) with (g_rcs (w_g11 w))].
Qed.

Section hooks.
Context `{!Benign engines_step}.
Lemma steps_with_engine e f : (forall s, estep s (f s)) -> respects engines_step (with_engine e f).
Proof.
  intros Hf w. destruct e; split; simpl; try done; apply rtc_once, Hf.
Qed.
Hint Constructors estep : core.
Hint Resolve steps_with_engine : ngframe.
Lemma steps_engine_of c : respects engines_step (getTrackedEngineFromContext c).
Proof. unfold getTrackedEngineFromContext. frame_auto. Qed.
Lemma steps_engine_of_ring c : respects engines_step (getTrackedEngineFromRingBuffer c).
Proof. pose proof steps_engine_of. unfold getTrackedEngineFromRingBuffer. frame_auto; auto. Qed.
Hint Resolve steps_engine_of steps_engine_of_ring : ngframe.
Lemma steps_settle {A} e start ctl head tail exec ctxptr (yes no : M A) :
  respects engines_step yes -> respects engines_step no ->
  respects engines_step
    (pass ← g11 (fun g => match trackedEngineState e g with
                          | Some s => smokePass s start ctl head tail exec ctxptr
                          | None => false end);
     if pass : bool then _ ← with_engine e (fun s => s <| smokePassed := true |>); yes else no).
Proof.
  intros Hy Hn w. unfold mbind at 1, M_bind at 1, g11, gets.
  destruct (match trackedEngineState e _ with Some _ => _ | None => _ end) eqn:Hp; [|apply Hn].
  unfold mbind, M_bind, with_engine, set_g11, modify. etrans; [|apply Hy].
  destruct e; simpl in Hp; try discriminate; unfold smokePass in Hp; bools; destruct_and!;
    split; simpl; try done; apply rtc_once; by apply es_pass.
Qed.
Lemma steps_evaluate e : respects engines_step (evaluateTrackedEngineBootstrap e).
Proof.
  unfold evaluateTrackedEngineBootstrap.
  do 2 (apply respects_bind; [exact _|frame_auto|intros ?]).
  repeat lazymatch goal with
  | |- respects _ (mbind _ (g11 _)) => apply steps_settle
  | |- _ => first [respects_step | solve [eauto 3 with ngframe]]
  end.
Qed.
Hint Resolve steps_evaluate : ngframe.
Lemma steps_traced m : respects engines_step m -> respects engines_step (traced m).
Proof. intros. by apply respects_when; [exact _|]. Qed.
Hint Resolve steps_traced : ngframe.
Lemma steps_dumpContext t : respects engines_step (dumpContext t).
Proof. unfold dumpContext. frame_auto. Qed.
Lemma steps_dumpRing t : respects engines_step (dumpRing t).
Proof. unfold dumpRing. frame_auto. Qed.
Hint Resolve steps_dumpContext steps_dumpRing : ngframe.
Lemma steps_pre t : respects engines_step (ctxTracePre t).
Proof. unfold ctxTracePre. apply steps_traced. frame_auto. Qed.
Lemma steps_mark : respects engines_step markTransition.
Proof. unfold markTransition. frame_auto. Qed.
Hint Resolve steps_pre steps_mark : ngframe.
Lemma steps_post t : respects engines_step (ctxTracePost t).
Proof. unfold ctxTracePost. apply steps_traced. frame_auto. Qed.
Lemma steps_callIf f args : respects engines_step (callIf f args).
Proof. unfold callIf. frame_auto. Qed.
Hint Resolve steps_post steps_callIf : ngframe.
Lemma steps_unlessPassed e : respects engines_step (evaluateUnlessPassed e).
Proof. unfold evaluateUnlessPassed. frame_auto. Qed.
Lemma steps_submitTrace t : respects engines_step (submitTrace t).
Proof. unfold submitTrace. frame_auto. Qed.
Lemma steps_dumpSubmission : respects engines_step dumpRCSSubmissionState.
Proof. unfold dumpRCSSubmissionState. frame_auto. Qed.
Hint Resolve steps_unlessPassed steps_submitTrace steps_dumpSubmission : ngframe.
Lemma steps_s5Forward f args extra :
  (forall r, respects engines_step (extra r)) -> respects engines_step (s5Forward f args extra).
Proof.
  intros. unfold s5Forward. frame_auto; apply steps_traced; frame_auto; auto.
Qed.
Lemma steps_s5Hook f args : respects engines_step (s5Hook f args).
Proof. apply steps_s5Forward. intros. apply respects_ret. exact _. Qed.
Hint Resolve steps_s5Hook steps_s5Forward : ngframe.
Lemma steps_submit t : respects engines_step (IGHardwareRingBuffersubmitToRing t).
Proof. unfold IGHardwareRingBuffersubmitToRing. frame_auto; apply steps_traced; frame_auto. Qed.
Lemma steps_ringInit t c : respects engines_step (IGHardwareRingBufferinit t c).
Proof. unfold IGHardwareRingBufferinit. frame_auto; apply steps_traced; frame_auto. Qed.
Lemma steps_resetHead t : respects engines_step (IGHardwareContextresetRingHead t).
Proof. unfold IGHardwareContextresetRingHead. frame_auto; apply steps_traced; frame_auto. Qed.
Hint Resolve steps_submit steps_ringInit steps_resetHead : ngframe.
Lemma steps_hook h : respects engines_step (runHook h).
Proof.
  destruct h; cbn [runHook]; autounfold with hookdefs; frame_auto;
    try (apply steps_traced; frame_auto); apply steps_s5Forward; intros; frame_auto.
Qed.
End hooks.

Lemma hooks_refine `{!Benign engines_step} (hs : list hook) (w : world) :
  engines_step w (final (iterM hs runHook w)).
Proof. revert w. apply (respects_iterM engines_step). intros h _. apply steps_hook. Qed.

(** ** Consequences on the abstract machine *)
Definition passed_is_ready (s : NGTglEngineState) : Prop :=
  smokePassed s = true -> contextSeen s = true /\ ringReady s = true.
Definition flags_grow : relation NGTglEngineState := fun s s' =>
  (contextSeen s = true -> contextSeen s' = true) /\ (ringReady s = true -> ringReady s' = true) /\
  (smokePassed s = true -> smokePassed s' = true) /\ (quarantined s = true -> quarantined s' = true).
Lemma estep_inv s s' : estep s s' -> flags_grow s s' /\ (passed_is_ready s -> passed_is_ready s').
Proof. destruct 1; unfold flags_grow, passed_is_ready; simpl; naive_solver. Qed.
Lemma rtc_estep_inv s s' : rtc estep s s' -> flags_grow s s' /\ (passed_is_ready s -> passed_is_ready s').
Proof.
  induction 1 as [s|s1 s2 s3 [Hg Hp]%estep_inv _ [Hg' Hp']]; [done|].
  split; [|by auto]. unfold flags_grow in *. naive_solver.
Qed.

(** ** Where a hook is refused *)

(** The engine a hook acts on, for the hooks that look it up before they do anything; the
    context-initialisation hook ([HExtInit]) looks it up after the original has run. *)
Definition hookEngine (h : hook) : option (M NGTglTrackedEngine) :=
  match h with
  | HInitVA t | HInitRegs t | HInitControl t _ | HResetHead t | HUpdateTail t _ =>
      Some (getTrackedEngineFromContext t)
  | HRingInit _ c => Some (getTrackedEngineFromContext c)
  | HSubmit t => Some (getTrackedEngineFromRingBuffer t)
  | _ => None
  end.
(** What must be ready before a hook submits work. *)
Definition readiness (h : hook) (s : NGTglEngineState) : bool :=
  match h with HUpdateTail _ _ => ringReady s | HSubmit _ => controlReady s | _ => true end.

Lemma hook_blocked h m e w :
  hookEngine h = Some m -> m w = Done e w -> shouldBlockTrackedEngine e (w_g11 w) = true ->
  runHook h w = Done () w.
Proof.
  intros Hh Hm Hb. destruct h; simplify_eq/=;
    autounfold with hookdefs;
    unfold IGHardwareContextresetRingHead, IGHardwareRingBufferinit, IGHardwareRingBuffersubmitToRing,
      mbind, M_bind; rewrite Hm; unfold g11, gets; by rewrite Hb.
Qed.
(** The hooks a quarantine stops: those of a ring or a context when their engine is
    quarantined, the command streamer's when the copy engine is and the policy for spoofed
    platforms applies. *)
Definition refused (h : hook) (w : world) : Prop :=
  match h with
  | HResume _ | HSubmitExec _ _ | HPrepareExec _ _ _ _ => streamerBlocked w = true
  | _ => exists m e, hookEngine h = Some m /\ m w = Done e w /\ shouldBlockTrackedEngine e (w_g11 w) = true
  end.
Lemma hook_refused h w : refused h w -> runHook h w = Done () w.
Proof.
  destruct h; try (intros (m & e & Hh & Hm & Hb); by eapply hook_blocked); intros Hb; cbn [runHook];
    autounfold with hookdefs; unfold mbind, M_bind, gets; cbn [refused] in Hb; by rewrite Hb.
Qed.
Lemma hook_not_ready h m e s w :
  hookEngine h = Some m -> m w = Done e w -> trackedEngineState e (w_g11 w) = Some s ->
  quarantined s = false -> readiness h s = false ->
  runHook h w = with_engine e (fun s => s <| quarantined := true |>) w.
Proof.
  intros Hh Hm Hs Hq Hr. destruct h; simplify_eq/=;
    autounfold with hookdefs; unfold IGHardwareRingBuffersubmitToRing, mbind, M_bind; rewrite Hm;
    unfold g11, gets, shouldBlockTrackedEngine; cbv beta; rewrite Hs, Hq; cbv beta iota;
    by rewrite Hs, Hr.
Qed.

(** ** The smoke test *)

(** The registers it reads, in order. *)
Definition smokeReads (e : NGTglTrackedEngine) : list Z :=
  let b := trackedEngineRingBase e in
  [RING_START b; RING_CTL b; RING_HEAD b; RING_TAIL b; RING_EXECLIST_STATUS b; RING_CONTEXT_STATUS_PTR b].
Definition settle (real : bool) (e : NGTglTrackedEngine) (pass : bool) (s : NGTglEngineState) :
  NGTglEngineState :=
  if pass then s <| smokePassed := true |>
  else if real && bool_decide (e = EngRCS) then s else s <| quarantined := true |>.

Lemma mapped_smoke e w len :
  rmmio (w_ng w) = Some len -> rmmioPtr (w_ng w) = true -> 0x100000 <= len < 2 ^ 64 ->
  Forall (fun r => mapped r w) (smokeReads e).
Proof.
  intros Hr Hp Hl. unfold mapped, mmioValid, getLength. rewrite Hr, Hp.
  unfold smokeReads. rewrite !Forall_cons, Forall_nil. simpl.
  split_and!; try done; (etrans; [|apply Hl]); destruct e; by vm_compute.
Qed.

Lemma evaluate_run e s w :
  trackedEngineState e (w_g11 w) = Some s -> ngCallback (w_ng w) = true ->
  Forall (fun r => mapped r w) (smokeReads e) ->
  exists vs w', length vs = 6%nat /\
    let pass := match vs with
                | [start; ctl; head; tail; exec; ctxptr] => smokePass s start ctl head tail exec ctxptr
                | _ => false end in
    evaluateTrackedEngineBootstrap e w = Done pass w' /\
    w_tr w' = rev (zip_with (fun r v => ERd (r .>> 2) v) (smokeReads e) vs) ++ w_tr w /\
    w_ng w' = w_ng w /\ w_mem w' = w_mem w /\
    w_g11 w' = updateEngine e (settle (isRealTGL (w_ng w)) e pass) (w_g11 w).
Proof.
  intros Hs Hc Hm. assert (Hv : mmioValid (w_ng w) = true) by (by inversion Hm as [|? ? [? _]]).
  unfold smokeReads in Hm. rewrite !Forall_cons in Hm. destruct Hm as (H1 & H2 & H3 & H4 & H5 & H6 & _).
  destruct (read_mapped _ w H1) as (v1 & w1 & E1 & S1 & T1).
  destruct (read_mapped _ w1 (same_soft_mapped _ _ _ S1 H2)) as (v2 & w2 & E2 & S2 & T2).
  assert (S12 : same_soft w w2) by (by etrans).
  destruct (read_mapped _ w2 (same_soft_mapped _ _ _ S12 H3)) as (v3 & w3 & E3 & S3 & T3).
  assert (S13 : same_soft w w3) by (by etrans).
  destruct (read_mapped _ w3 (same_soft_mapped _ _ _ S13 H4)) as (v4 & w4 & E4 & S4 & T4).
  assert (S14 : same_soft w w4) by (by etrans).
  destruct (read_mapped _ w4 (same_soft_mapped _ _ _ S14 H5)) as (v5 & w5 & E5 & S5 & T5).
  assert (S15 : same_soft w w5) by (by etrans).
  destruct (read_mapped _ w5 (same_soft_mapped _ _ _ S15 H6)) as (v6 & w6 & E6 & S6 & T6).
  assert (S16 : same_soft w w6) by (by etrans). destruct S16 as (Hn & Hg & Hme & _).
  set (pass := smokePass s v1 v2 v3 v4 v5 v6).
  exists [v1; v2; v3; v4; v5; v6],
    (w6 <| w_g11 ::= updateEngine e (settle (isRealTGL (w_ng w)) e pass) |>).
  split; [done|]. cbv zeta. simpl. rewrite Hg, T6, T5, T4, T3, T2, T1. split_and!; try done.
  unfold evaluateTrackedEngineBootstrap, mbind, M_bind, ng, g11, gets, readMMIO32.
  rewrite Hs, Hc, Hv.
  replace ((trackedEngineRingBase e =? 0) || _) with false by (by destruct e).
  rewrite E1, E2, E3, E4, E5, E6, Hg, Hs. fold pass. unfold settle.
  destruct pass; [done|]. rewrite Hn. destruct (isRealTGL (w_ng w) && bool_decide (e = EngRCS)); [|done].
  destruct w6, w_g11; by destruct e.
Qed.

(** ** Properties *)

(** Whatever sequence of accelerator hooks runs, in whatever order, each
    tracked engine only moves along the abstract step relation [estep]: flags are set one
    at a time and the smoke test passes only on an engine whose context, ring and control
    are set up. *)
Theorem hooks_refine_engine_machine `{!Benign engines_step} (hs : list hook) (w : world) :
  engines_step w (final (iterM hs runHook w)).
Proof. apply hooks_refine. Qed.

(** Over any sequence of hooks an engine that passed its smoke test has seen
    its context and its ring set up, and the context, ring, passed and quarantined flags of
    an engine are never taken back: a quarantine lasts until the next boot. *)
Theorem quarantine_is_permanent `{!Benign engines_step} (hs : list hook) (w : world)
    (e : NGTglTrackedEngine) (s s' : NGTglEngineState) :
  trackedEngineState e (w_g11 w) = Some s ->
  trackedEngineState e (w_g11 (final (iterM hs runHook w))) = Some s' ->
  flags_grow s s' /\ (passed_is_ready s -> passed_is_ready s').
Proof.
  intros Hs Hs'. destruct (hooks_refine hs w) as [Hb Hr].
  apply rtc_estep_inv. destruct e; simplify_eq/=; done.
Qed.


(** C7 (error). Work submitted to an engine before it is ready (a ring tail before the ring
    is programmed, a ring submission before its control is enabled) never reaches the
    original driver: the only effect is that the engine is quarantined. *)
Theorem early_submission_quarantines (h : hook) (m : M NGTglTrackedEngine)
    (e : NGTglTrackedEngine) (s : NGTglEngineState) (w : world) :
  hookEngine h = Some m -> m w = Done e w -> trackedEngineState e (w_g11 w) = Some s ->
  quarantined s = false -> readiness h s = false ->
  runHook h w = Done () (w <| w_g11 ::= updateEngine e (fun s => s <| quarantined := true |>) |>).
Proof. apply hook_not_ready. Qed.

(** C16 (functional). With the registers mapped, the bootstrap evaluation reads six ring
    registers of the engine in order, once each, and returns their smoke test. A pass is
    recorded. A failure quarantines the engine when it is the copy engine or the platform
    is a spoofed one (the render engine of real Tiger Lake is the case the code treats
    apart). The members of [NGreen] and memory are left as they were. *)
Theorem evaluate_bootstrap_spec (e : NGTglTrackedEngine) (s : NGTglEngineState) (w : world) (len : Z) :
  trackedEngineState e (w_g11 w) = Some s -> ngCallback (w_ng w) = true ->
  rmmio (w_ng w) = Some len -> rmmioPtr (w_ng w) = true -> 0x100000 <= len < 2 ^ 64 ->
  exists vs w', length vs = 6%nat /\
    let pass := match vs with
                | [start; ctl; head; tail; exec; ctxptr] => smokePass s start ctl head tail exec ctxptr
                | _ => false end in
    evaluateTrackedEngineBootstrap e w = Done pass w' /\
    w_tr w' = rev (zip_with (fun r v => ERd (r .>> 2) v) (smokeReads e) vs) ++ w_tr w /\
    w_ng w' = w_ng w /\ w_mem w' = w_mem w /\
    (pass = true -> w_g11 w' = updateEngine e (fun s => s <| smokePassed := true |>) (w_g11 w)) /\
    (pass = false -> isRealTGL (w_ng w) = false \/ e <> EngRCS ->
       w_g11 w' = updateEngine e (fun s => s <| quarantined := true |>) (w_g11 w)).
Proof.
  intros Hs Hc Hr Hp Hl. destruct (evaluate_run e s w Hs Hc) as (vs & w' & Hn & E & T & N & Me & G);
    [by eapply mapped_smoke|].
  exists vs, w'. split; [done|]. cbv zeta in *. split_and!; try done; intros Hpass; rewrite G, Hpass; [by destruct e|].
  intros Ho. unfold settle. destruct (isRealTGL (w_ng w) && bool_decide (e = EngRCS)) eqn:Hx; [|by destruct e].
  apply andb_true_iff in Hx as [Hx ->%bool_decide_eq_true]. destruct Ho; congruence.
Qed.
(** On real Tiger Lake the render engine is not quarantined on any failure, early or late. *)
Theorem rcs_failure_deferred (s : NGTglEngineState) (w : world) (len : Z) :
  trackedEngineState EngRCS (w_g11 w) = Some s -> ngCallback (w_ng w) = true ->
  rmmio (w_ng w) = Some len -> rmmioPtr (w_ng w) = true -> 0x100000 <= len < 2 ^ 64 -> isRealTGL (w_ng w) = true ->
  exists b w', evaluateTrackedEngineBootstrap EngRCS w = Done b w' /\ (b = false -> w_g11 w' = w_g11 w).
Proof.
  intros Hs Hc Hr Hp Hl Hreal. destruct (evaluate_run EngRCS s w Hs Hc) as (vs & w' & _ & E & _ & _ & _ & G);
    [by eapply mapped_smoke|].
  eexists _, w'. split; [exact E|]. intros Hb. rewrite G, Hb, Hreal. cbn. by destruct (w_g11 w).
Qed.
End system.

(** ** Evaluations *)
Import Sim.
#[local] Existing Instance plat.
Definition bcs_quarantined : world :=
  (sim_world []) <| w_mem := store_le 8 0x10b8 0x2000 (store_le 4 0x2020 2 ∅) |>
               <| w_g11 ::= updateEngine EngBCS (fun s => s <| quarantined := true |>) |>.
Definition bcs_fresh : world :=
  (sim_world []) <| w_mem := store_le 8 0x10b8 0x2000 (store_le 4 0x2020 2 ∅) |>.
Lemma hooks_refine_engine_machine_witness :
  engines_step bcs_fresh (final (iterM [HInitVA 0x1000; HUpdateTail 0x1000 8] runHook bcs_fresh)).
Proof.
  apply (@hooks_refine_engine_machine _ plat (sim_benign [] [] 0 engines_step)).
Defined.
Lemma quarantine_is_permanent_witness :
  flags_grow (g_bcs (w_g11 bcs_fresh))
    (g_bcs (w_g11 (final (iterM [HInitVA 0x1000; HUpdateTail 0x1000 8] runHook bcs_fresh)))) /\
  (passed_is_ready (g_bcs (w_g11 bcs_fresh)) ->
   passed_is_ready (g_bcs (w_g11 (final (iterM [HInitVA 0x1000; HUpdateTail 0x1000 8] runHook bcs_fresh))))).
Proof.
  apply (@quarantine_is_permanent _ plat (sim_benign [] [] 0 engines_step)
           [HInitVA 0x1000; HUpdateTail 0x1000 8] bcs_fresh EngBCS); reflexivity.
Defined.
Lemma early_submission_quarantines_witness :
  runHook (HUpdateTail 0x1000 8) bcs_fresh =
  Done () (bcs_fresh <| w_g11 ::= updateEngine EngBCS (fun s => s <| quarantined := true |>) |>).
Proof.
  apply (early_submission_quarantines (HUpdateTail 0x1000 8) (getTrackedEngineFromContext 0x1000)
           EngBCS NGTglEngineState_init);
    [reflexivity|vm_compute; reflexivity|reflexivity|reflexivity|reflexivity].
Defined.
Lemma evaluate_bootstrap_spec_witness :
  exists vs w', length vs = 6%nat /\
    let pass := match vs with
                | [start; ctl; head; tail; exec; ctxptr] =>
                    smokePass NGTglEngineState_init start ctl head tail exec ctxptr
                | _ => false end in
    evaluateTrackedEngineBootstrap EngBCS (sim_world []) = Done pass w' /\
    w_tr w' = rev (zip_with (fun r v => ERd (r .>> 2) v) (smokeReads EngBCS) vs) ++ [] /\
    w_ng w' = sim_ng /\ w_mem w' = ∅ /\
    (pass = true -> w_g11 w' = updateEngine EngBCS (fun s => s <| smokePassed := true |>) Gen11_init) /\
    (pass = false -> isRealTGL sim_ng = false \/ EngBCS <> EngRCS ->
       w_g11 w' = updateEngine EngBCS (fun s => s <| quarantined := true |>) Gen11_init).
Proof.
  apply (evaluate_bootstrap_spec EngBCS NGTglEngineState_init (sim_world []) 0x1000000);
    reflexivity || lia.
Defined.
End Engine.
