(* ===== verification/Dpcd.v ===== *)
(** * Panel link: DPCD capabilities, lane count, panel power (TGL.cpp, NGreen.hpp)

    The AUX read hook caches the sink's capabilities and caps what the driver sees of
    them, the lane-count hook chooses the lanes of the link from the cache, and the
    panel-power hooks report the power sequencer in the registry. *)
From S2P Require Import Prelude Machine Memory Sim Regs Mmio BootArgs RegHooks.
Import Regs Mmio BootArgs RegHooks.

Module Dpcd.
Section defs.
Context `{Platform}.

(** The bytes of a capability block the hook looks at. [NGreen.hpp:313-342 DPCDCap16] *)
Definition off_revision : Z := 0.
Definition off_maxLinkRate : Z := 1.
Definition off_maxLaneCount : Z := 2.
Definition sizeof_DPCDCap16 : Z := 16.

(** [TGL.cpp sanitizeDpcdLaneCount] *)
Definition sanitizeDpcdLaneCount (rawLaneCount : Z) : Z :=
  let l := rawLaneCount .& 0x1F in
  if (l =? 1) || (l =? 2) || (l =? 4) then l else 0.

(** [TGL.cpp:34-37 PCH_PP_STATUS] *)
Definition PCH_PP_CONTROL : Z := 0xC7204.
Definition PCH_PP_STATUS : Z := 0xC7200.
Definition PCH_PP_STATUS_POWER_ON : Z := 1 .<< 31.
Definition PCH_PP_STATUS_POWER_SEQUENCE_ACTIVE : Z := 1 .<< 30.
(** [TGL.cpp readPanelPowerStatusBits] *)
Definition readPanelPowerStatusBits : M Z :=
  ready ← ng (fun n => ngCallback n && mmioValid n);
  if negb ready then mret 0
  else
    status ← readMMIO32 PCH_PP_STATUS;
    mret ((if truthy (status .& PCH_PP_STATUS_POWER_ON) then 1 else 0) .|
          (if truthy (status .& PCH_PP_STATUS_POWER_SEQUENCE_ACTIVE) then 2 else 0)).
(** [TGL.cpp:5335-5338 isPanelPowerOn] *)
Definition isPanelPowerOn0 : M Z :=
  bits ← readPanelPowerStatusBits; mret (if truthy (bits .& 1) then 1 else 0).
(** The second reading of the status and that of the control are logged only.
    [TGL.cpp:5578-5598 isPanelPowerOn] *)
Definition isPanelPowerOn (that : Z) : M Z :=
  statusBits ← readPanelPowerStatusBits;
  ready ← ng (fun n => ngCallback n && mmioValid n);
  _ ← when ready (_ ← readMMIO32 PCH_PP_STATUS; _ ← readMMIO32 PCH_PP_CONTROL; mret ());
  mret (if truthy (statusBits .& 1) then 1 else 0).

(** A read of the training registers at 0x0100: the rate is clamped, the lanes are
    those of the cached capabilities. [TGL.cpp:4535-4542 wrapICLReadAUX] *)
Definition clampLinkConfig (buffer length : Z) : M unit :=
  r0 ← load 1 buffer;
  _ ← when (0x14 <? r0) (store 1 buffer 0x14);
  valid ← ng dpcdCapsValid;
  when ((2 <=? length) && valid)
    (raw ← ng dpcdMaxLaneCountRaw;
     let cachedLaneCount := raw .& 0x1F in
     when ((cachedLaneCount =? 1) || (cachedLaneCount =? 2) || (cachedLaneCount =? 4))
       (r1 ← load 1 (buffer + 1); store 1 (buffer + 1) ((r1 .& 0xE0) .| cachedLaneCount))).

(** What is remembered of the sink. [TGL.cpp:4575-4582 wrapICLReadAUX] *)
Definition cacheCaps (revision rate lanes : Z) : M unit :=
  set_ng (fun n => n <| dpcdRevision := revision |> <| dpcdMaxLinkRate := rate |>
                     <| dpcdMaxLaneCountRaw := lanes |> <| dpcdCapsValid := true |>).
(** What the driver is shown of it on a spoofed platform. [TGL.cpp:4591-4606 wrapICLReadAUX] *)
Definition capCaps (buffer sinkMaxLaneCount : Z) : M unit :=
  rate ← load 1 (buffer + off_maxLinkRate);
  _ ← when (0x14 <? rate) (store 1 (buffer + off_maxLinkRate) 0x14);
  let l := sinkMaxLaneCount .& 0x1F in
  let laneCount := if negb (l =? 1) && negb (l =? 2) && negb (l =? 4) then 2 else l in
  lanes ← load 1 (buffer + off_maxLaneCount);
  store 1 (buffer + off_maxLaneCount) ((lanes .& 0xE0) .| laneCount).

(** A successful read of the capability block. [TGL.cpp:4574-4611 wrapICLReadAUX] *)
Definition handleCaps (buffer : Z) : M unit :=
  revision ← load 1 (buffer + off_revision);
  rate ← load 1 (buffer + off_maxLinkRate);
  lanes ← load 1 (buffer + off_maxLaneCount);
  _ ← cacheCaps revision rate lanes;
  real ← ng isRealTGL;
  _ ← when (negb real) (capCaps buffer lanes);
  rev ← load 1 (buffer + off_revision);
  when (rev <? 3) (store 1 (buffer + off_maxLinkRate) 0).

(** [TGL.cpp wrapICLReadAUX] *)
Definition wrapICLReadAUX (that address buffer length : Z) : M Z :=
  retVal ← call "orgICLReadAUX" [that; address; buffer; length];
  if negb (retVal =? 0) then mret retVal
  else
    real ← ng isRealTGL;
    _ ← when (negb real && (address =? 0x100) && negb (buffer =? 0) && (1 <=? length))
          (clampLinkConfig buffer length);
    if (address =? 0x700) && negb (buffer =? 0) && (1 <=? length) then
      caps ← load 1 buffer;
      _ ← set_ng (fun n => n <| dpcdBacklightCaps := caps |> <| dpcdBacklightCapsValid := true |>);
      mret retVal
    else if negb (address =? 0) && negb (address =? 0x2200) then mret retVal
    else if (length <? sizeof_DPCDCap16) || (buffer =? 0) then mret retVal
    else _ ← handleCaps buffer; mret retVal.

(** The lanes chosen on a spoofed platform. [TGL.cpp:5259-5273 computeLaneCount] *)
Definition chooseLanes (n : NGreen) : Z :=
  let lanesOverride := getConfiguredLaneCountOverride in
  let dpcdLaneCount := if dpcdCapsValid n then sanitizeDpcdLaneCount (dpcdMaxLaneCountRaw n) else 0 in
  if truthy lanesOverride then lanesOverride
  else if truthy dpcdLaneCount then dpcdLaneCount else 2.
(** [TGL.cpp computeLaneCount] *)
Definition computeLaneCount (that timing linkRate bpp laneCount : Z) : M unit :=
  if laneCount =? 0 then mret ()
  else
    real ← ng isRealTGL;
    if negb real then lanes ← ng chooseLanes; store 4 laneCount lanes
    else _ ← call "ocomputeLaneCount" [that; timing; linkRate; bpp; laneCount]; mret ().

(** *** Panel power *)

(** The condition is [-1 < iVar3] with [iVar3] of type [uint32_t]: the usual arithmetic
    conversions turn [-1] into [2 ^ 32 - 1]. [TGL.cpp disableVDDForAux] *)
Definition disableVDDForAux (that : Z) : M Z :=
  cc ← g11 ccont;
  rd ← raReadRegister32 cc 0xc7200;
  let iVar3 := u32 rd in
  _ ← when (u32 (-1) <? iVar3)
        (r ← load 8 (that + 0xd60); setProperty r "AAPL,LCD-PowerState-ON" (PBool false));
  ret ← call "odisableVDDForAux" [that];
  mret (u8 ret).
(** [TGL.cpp prepareToEnterWake] *)
Definition prepareToEnterWake (that : Z) : M unit :=
  p ← load 8 (that + 0x1d0);
  on ← isPanelPowerOn p;
  _ ← when (truthy on) (setProperty that "AAPL,LCD-PowerState-ON" (PBool true));
  _ ← call "oprepareToEnterWake" [that]; mret ().
(** [TGL.cpp setPanelPowerState] *)
Definition setPanelPowerState (that : Z) (param_1 : bool) : M unit :=
  _ ← call "osetPanelPowerState" [that; b2z param_1];
  r ← load 8 (that + 0xd60);
  setProperty r "AAPL,LCD-PowerState-ON" (PBool param_1).

(** *** Ports and training *)
(** [TGL.cpp#1 PowerWellinit] *)
Definition PowerWellinit (that param_1 : Z) : M unit :=
  _ ← set_g11 (fun g => g <| inpwell := true |>);
  _ ← call "oPowerWellinit" [that; param_1];
  set_g11 (fun g => g <| inpwell := false |>).
(** [TGL.cpp setPortMode] *)
Definition setPortMode (that param_1 : Z) : M Z :=
  ret ← call "osetPortMode" [that; param_1]; mret (u8 ret).
(** [TGL.cpp getPortByDDI] *)
Definition getPortByDDI (param_1 : Z) : M Z :=
  ret ← call "ogetPortByDDI" [param_1];
  inp ← g11 inpwell;
  _ ← when inp (_ ← setPortMode ret 1; mret ());
  mret ret.
(** [TGL.cpp AppleIntelPowerWellinit] *)
Definition AppleIntelPowerWellinit (that param_1 : Z) : M unit :=
  cc ← load 8 (param_1 + 0xc40);
  _ ← set_g11 (fun g => g <| ccont := cc |>);
  _ ← call "oAppleIntelPowerWellinit" [that; param_1]; mret ().
(** [TGL.cpp fastLinkTraining] *)
Definition fastLinkTraining : M Z := _ ← call "ofastLinkTraining" []; mret 1.
(** [TGL.cpp LightUpEDP] *)
Definition LightUpEDP (that p1 p2 p3 : Z) : M Z :=
  _ ← call "oLightUpEDP" [that; p1; p2; p3]; mret 0.
(** [TGL.cpp handleLinkIntegrityCheck] *)
Definition handleLinkIntegrityCheck : M Z := mret 0.
(** [TGL.cpp setupPlanarSurfaceDBUF] *)
Definition setupPlanarSurfaceDBUF : M unit := mret ().
(** [TGL.cpp updateDBUF] *)
Definition updateDBUF (that p1 p2 : Z) (p3 : bool) : M unit := mret ().
(** [TGL.cpp logStateInRegistry] *)
Definition logStateInRegistry (that p1 : Z) : M unit :=
  _ ← call "ologStateInRegistry" [that; p1]; mret ().
(** [TGL.cpp initializeLogging] *)
Definition initializeLogging (that : Z) : M unit :=
  _ ← call "oinitializeLogging" [that]; mret ().

(** *** Mode validation: the pixel clock of the timing is overwritten first *)

(** [pixelClock] is at offset 40 of the SDK's [IODetailedTimingInformationV2].
    [TGL.cpp:5366-5367 maxSupportedDepths] *)
Definition forcePixelClock (timing : Z) : M unit :=
  when (negb (timing =? 0)) (store 8 (timing + 40) 785400000).
(** [TGL.cpp maxSupportedDepths] *)
Definition maxSupportedDepths (param_1 : Z) : M Z :=
  _ ← forcePixelClock param_1; ret ← call "omaxSupportedDepths" [param_1]; mret (u8 ret).
(** [TGL.cpp validateModeDepth] *)
Definition validateModeDepth (that param_1 param_2 : Z) : M Z :=
  _ ← forcePixelClock param_1; ret ← call "ovalidateModeDepth" [that; param_1; param_2]; mret (u8 ret).
(** [TGL.cpp validateDisplayMode] *)
Definition validateDisplayMode (that param_1 param_2 param_3 : Z) : M Z :=
  _ ← forcePixelClock param_3;
  ret ← call "ovalidateDisplayMode" [that; param_1; param_2; param_3]; mret (u8 ret).
(** [TGL.cpp:5392-5399 setupDisplayTiming] *)
Definition setupDisplayTiming (that param_1 param_2 : Z) : M unit :=
  _ ← forcePixelClock param_2; _ ← call "osetupDisplayTiming" [that; param_1; param_2]; mret ().
End defs.

(** ** Facts *)

(** Lane counts a link can have, and the one settled on for a sink that advertises
    [raw] in the low bits of its lane byte. *)
Definition goodLanes (l : Z) : Prop := l = 1 \/ l = 2 \/ l = 4.
Definition effectiveLanes (raw : Z) : Z :=
  let l := raw .& 0x1F in if (l =? 1) || (l =? 2) || (l =? 4) then l else 2.
Lemma effectiveLanes_good raw : goodLanes (effectiveLanes raw).
Proof.
  unfold goodLanes, effectiveLanes. destruct (_ || _) eqn:E; [|auto].
  rewrite !orb_true_iff, !Z.eqb_eq in E. tauto.
Qed.
Lemma merge_lanes raw l : 0 <= raw < 2 ^ 8 -> goodLanes l ->
  u8 ((raw .& 0xE0) .| l) .& 0x1F = l /\ u8 ((raw .& 0xE0) .| l) .& 0xE0 = raw .& 0xE0.
Proof.
  intros Hr Hl. assert (0 <= l < 2 ^ 5) by (destruct Hl as [-> | [-> | ->]]; lia).
  rewrite u8_small by (apply lor_range; [lia|apply land_range_l; lia|lia]).
  change 0xE0 with (Z.ones 3 .<< 5). change 0x1F with (Z.ones 5).
  split; bitblast_split 5.
Qed.
Lemma sanitize_effective raw :
  sanitizeDpcdLaneCount raw = effectiveLanes raw \/
  (sanitizeDpcdLaneCount raw = 0 /\ effectiveLanes raw = 2).
Proof. unfold sanitizeDpcdLaneCount, effectiveLanes. destruct (_ || _); auto. Qed.
Lemma sanitize_truthy raw : truthy (sanitizeDpcdLaneCount raw) = true ->
  sanitizeDpcdLaneCount raw = effectiveLanes raw.
Proof. destruct (sanitize_effective raw) as [|[-> _]]; [done|discriminate]. Qed.

Section facts.
Context `{Platform}.
Lemma override_good : getConfiguredLaneCountOverride = 0 \/ goodLanes getConfiguredLaneCountOverride.
Proof.
  unfold getConfiguredLaneCountOverride, goodLanes. destruct (bootarg _) as [v|]; [|auto].
  destruct (_ || _) eqn:E; [|auto]. rewrite !orb_true_iff, !Z.eqb_eq in E. tauto.
Qed.
Lemma chooseLanes_good n : goodLanes (chooseLanes n).
Proof.
  unfold chooseLanes. destruct override_good as [-> | Hg].
  - simpl. destruct (truthy (if dpcdCapsValid n then _ else _)) eqn:E; [|right; by left].
    destruct (dpcdCapsValid n); [|done]. rewrite sanitize_truthy by done. apply effectiveLanes_good.
  - destruct (truthy getConfiguredLaneCountOverride) eqn:E; [done|].
    apply negb_false_iff, Z.eqb_eq in E. rewrite E in Hg. unfold goodLanes in Hg. lia.
Qed.
Lemma chooseLanes_cached n :
  getConfiguredLaneCountOverride = 0 -> dpcdCapsValid n = true ->
  chooseLanes n = effectiveLanes (dpcdMaxLaneCountRaw n).
Proof.
  intros Ho Hv. unfold chooseLanes. rewrite Ho, Hv. simpl.
  destruct (truthy _) eqn:E; [by apply sanitize_truthy|].
  apply negb_false_iff, Z.eqb_eq in E. destruct (sanitize_effective (dpcdMaxLaneCountRaw n)) as [E'|[_ E']]; [|done].
  pose proof (effectiveLanes_good (dpcdMaxLaneCountRaw n)). unfold goodLanes in *. lia.
Qed.

(** The capability block after the hook: [m] is the memory the original left. *)
Definition cappedRate (real : bool) (revision rate : Z) : Z :=
  if revision <? 3 then 0 else if real then rate else Z.min rate 0x14.
Definition cappedLanes (real : bool) (lanes : Z) : Z :=
  if real then lanes else (lanes .& 0xE0) .| effectiveLanes lanes.

(** Clamping the rate and the lanes of a block the driver has in its buffer. *)
Lemma capCaps_run b (w w1 : world) :
  (forall a, byte a w1 = byte a w) ->
  exists w2, capCaps b (byte (b + 2) w) w1 = Done () w2 /\
    byte (b + 1) w2 = Z.min (byte (b + 1) w) 0x14 /\
    byte (b + 2) w2 = cappedLanes false (byte (b + 2) w) /\
    (forall a, a <> b + 1 -> a <> b + 2 -> byte a w2 = byte a w) /\
    w_ng w2 = w_ng w1 /\ w_tr w2 = w_tr w1.
Proof.
  intros B1. pose proof (byte_range (b + 2) w) as Hb2.
  assert (He : (if negb (byte (b + 2) w .& 0x1F =? 1) && negb (byte (b + 2) w .& 0x1F =? 2) &&
              negb (byte (b + 2) w .& 0x1F =? 4) then 2 else byte (b + 2) w .& 0x1F) =
              effectiveLanes (byte (b + 2) w)).
  { unfold effectiveLanes. destruct (_ =? 1), (_ =? 2), (_ =? 4); done. }
  unfold capCaps, off_maxLinkRate, off_maxLaneCount, mbind, M_bind. rewrite load1, B1.
  cbv zeta. rewrite He. assert (Hu : u8 ((byte (b + 2) w .& 0xE0) .| effectiveLanes (byte (b + 2) w)) =
    (byte (b + 2) w .& 0xE0) .| effectiveLanes (byte (b + 2) w)).
  { apply u8_small, lor_range; [lia|apply land_range_l; lia|].
    destruct (effectiveLanes_good (byte (b + 2) w)) as [-> | [-> | ->]]; lia. }
  destruct (Z.ltb_spec 0x14 (byte (b + 1) w)); cbn [when].
  - rewrite store1, load1, store1, byte_other, B1 by lia. eexists. split; [reflexivity|].
    rewrite Hu, byte_other, byte_same, <-Hu, byte_same, Hu by lia. unfold cappedLanes.
    split_and!; try done; [vm_compute (u8 20); lia|].
    intros. rewrite !byte_other by lia. apply B1.
  - unfold mret, M_ret. rewrite load1, store1, B1. eexists. split; [reflexivity|].
    rewrite Hu, byte_other, <-Hu, byte_same, Hu by lia. unfold cappedLanes. rewrite B1.
    split_and!; try done; [lia|]. intros. rewrite byte_other by lia. apply B1.
Qed.
Lemma handleCaps_run b w :
  exists w', handleCaps b w = Done () w' /\
    byte (b + 1) w' = cappedRate (isRealTGL (w_ng w)) (byte b w) (byte (b + 1) w) /\
    byte (b + 2) w' = cappedLanes (isRealTGL (w_ng w)) (byte (b + 2) w) /\
    (forall a, a <> b + 1 -> a <> b + 2 -> byte a w' = byte a w) /\
    w_ng w' = (w_ng w) <| dpcdRevision := byte b w |> <| dpcdMaxLinkRate := byte (b + 1) w |>
                <| dpcdMaxLaneCountRaw := byte (b + 2) w |> <| dpcdCapsValid := true |> /\
    w_tr w' = w_tr w.
Proof.
  unfold handleCaps, cacheCaps, off_revision, off_maxLinkRate, off_maxLaneCount.
  rewrite Z.add_0_r. unfold mbind, M_bind. rewrite !load1. unfold set_ng, modify, ng, gets.
  set (w1 := w <| w_ng ::= _ |>). change (isRealTGL (w_ng w1)) with (isRealTGL (w_ng w)).
  assert (B1 : forall a, byte a w1 = byte a w) by done.
  assert (N1 : w_ng w1 = (w_ng w) <| dpcdRevision := byte b w |> <| dpcdMaxLinkRate := byte (b + 1) w |>
                <| dpcdMaxLaneCountRaw := byte (b + 2) w |> <| dpcdCapsValid := true |>) by done.
  assert (T1 : w_tr w1 = w_tr w) by done. clearbody w1.
  pose proof (byte_range b w) as Hb. pose proof (byte_range (b + 1) w) as Hb1.
  pose proof (byte_range (b + 2) w) as Hb2.
  destruct (isRealTGL (w_ng w)); cbn [negb when].
  - unfold mret at 1, M_ret at 1. rewrite load1, B1. unfold cappedRate, cappedLanes.
    destruct (byte b w <? 3); cbn [when].
    + rewrite store1. eexists. split; [reflexivity|].
      rewrite byte_same, byte_other by lia. rewrite B1. split_and!; try done.
      intros. rewrite byte_other by lia. done.
    + exists w1. rewrite !B1. by split_and!.
  - destruct (capCaps_run b w w1 B1) as (w2 & E2 & R2 & L2 & O2 & N2 & T2).
    rewrite E2. rewrite load1, O2 by lia. destruct (byte b w <? 3) eqn:Hr; cbn [when].
    + rewrite store1. eexists. split; [reflexivity|]. unfold cappedRate, cappedLanes. rewrite Hr.
      rewrite byte_same, byte_other by lia. split_and!; try done; simpl; try congruence.
      intros. rewrite byte_other by lia. by apply O2.
    + exists w2. unfold cappedRate, cappedLanes. rewrite Hr. split_and!; try done; congruence.
Qed.

(** The hook on a capability read the original completed. *)
Lemma wrapICLReadAUX_caps that address buffer length w w1 :
  original "orgICLReadAUX" [that; address; buffer; length]
    (emit (ECall "orgICLReadAUX" [that; address; buffer; length]) w) = (0, w1) ->
  address = 0 \/ address = 0x2200 -> 16 <= length -> buffer <> 0 ->
  wrapICLReadAUX that address buffer length w = (_ ← handleCaps buffer; mret 0) w1.
Proof.
  intros Ho Ha Hl Hb. unfold wrapICLReadAUX, mbind, M_bind, call, ng, gets, sizeof_DPCDCap16.
  rewrite Ho. cbn [Z.eqb negb]. rewrite (proj2 (Z.eqb_neq buffer 0) Hb), (proj2 (Z.ltb_ge length 16)) by lia.
  destruct Ha as [-> | ->]; cbn [Z.eqb negb andb Pos.eqb]; by rewrite andb_false_r.
Qed.

(** ** Properties *)

(** C35 (functional). When the panel's capability block is read on a spoofed platform, the
    driver never sees a link rate above HBR2 nor a lane count other than 1, 2 or 4; the
    sink's framing bits and every byte but the rate and the lane byte stay as the sink
    reported them, and the unmodified values are remembered. On real hardware the lane
    byte is not touched. *)
Theorem dpcd_caps_capped (that address buffer length : Z) (w w1 : world) :
  original "orgICLReadAUX" [that; address; buffer; length]
    (emit (ECall "orgICLReadAUX" [that; address; buffer; length]) w) = (0, w1) ->
  address = 0 \/ address = 0x2200 -> 16 <= length -> buffer <> 0 ->
  exists w', wrapICLReadAUX that address buffer length w = Done 0 w' /\
    (if isRealTGL (w_ng w1) then byte (buffer + 2) w' = byte (buffer + 2) w1
     else byte (buffer + 1) w' <= 0x14 /\
          goodLanes (byte (buffer + 2) w' .& 0x1F) /\
          byte (buffer + 2) w' .& 0xE0 = byte (buffer + 2) w1 .& 0xE0) /\
    (byte buffer w1 < 3 -> byte (buffer + 1) w' = 0) /\
    (forall a, a <> buffer + 1 -> a <> buffer + 2 -> byte a w' = byte a w1) /\
    dpcdMaxLinkRate (w_ng w') = byte (buffer + 1) w1 /\
    dpcdMaxLaneCountRaw (w_ng w') = byte (buffer + 2) w1 /\ dpcdCapsValid (w_ng w') = true.
Proof.
  intros Ho Ha Hl Hb. rewrite (wrapICLReadAUX_caps _ _ _ _ _ _ Ho Ha Hl Hb).
  destruct (handleCaps_run buffer w1) as (w' & E & Er & El & Eo & En & _).
  exists w'. unfold mbind, M_bind. rewrite E. split; [done|]. rewrite Er, El, En.
  unfold cappedRate, cappedLanes. split; [|split_and!; try done; by intros ->%Z.ltb_lt].
  destruct (isRealTGL (w_ng w1)); [done|].
  pose proof (byte_range (buffer + 2) w1) as Hr. pose proof (effectiveLanes_good (byte (buffer + 2) w1)) as Hg.
  destruct (merge_lanes _ _ Hr Hg) as [M1 M2]. rewrite u8_small in M1, M2; [|..].
  - rewrite M1, M2. split_and!; try done. destruct (_ <? 3); lia.
  - apply lor_range; [lia|apply land_range_l; lia|]. destruct Hg as [-> | [-> | ->]]; lia.
  - apply lor_range; [lia|apply land_range_l; lia|]. destruct Hg as [-> | [-> | ->]]; lia.
Qed.

(** On a spoofed platform the lane-count hook always stores 1, 2 or 4 in its
    result, whatever the boot argument and the sink say, and without calling the original;
    the boot argument wins over the sink. *)
Theorem lane_count_bounded (that timing linkRate bpp laneCount : Z) (w : world) :
  laneCount <> 0 -> isRealTGL (w_ng w) = false ->
  exists w', computeLaneCount that timing linkRate bpp laneCount w = Done () w' /\
    w_tr w' = w_tr w /\ goodLanes (load_le 4 laneCount (w_mem w')) /\
    (getConfiguredLaneCountOverride <> 0 ->
     load_le 4 laneCount (w_mem w') = getConfiguredLaneCountOverride).
Proof.
  intros Hl Hr. unfold computeLaneCount, mbind, M_bind, ng, gets.
  rewrite (proj2 (Z.eqb_neq _ _) Hl), Hr. cbn [negb]. rewrite store_run.
  eexists. split; [reflexivity|]. split; [done|]. rewrite load_after_store.
  pose proof (chooseLanes_good (w_ng w)) as Hg.
  rewrite Z.mod_small by (destruct Hg as [-> | [-> | ->]]; simpl; lia). split; [done|].
  intros Ho. unfold chooseLanes. unfold truthy. by rewrite (proj2 (Z.eqb_neq _ _) Ho).
Qed.

(** The lane count later computed for the link of a spoofed platform is the
    one the driver was shown when it read the panel's capabilities, unless a boot argument
    overrides it: the cache and the rewritten block agree. *)
Theorem lane_count_matches_caps (that address buffer length dp timing linkRate bpp laneCount : Z)
    (w w1 w2 : world) :
  original "orgICLReadAUX" [that; address; buffer; length]
    (emit (ECall "orgICLReadAUX" [that; address; buffer; length]) w) = (0, w1) ->
  address = 0 \/ address = 0x2200 -> 16 <= length -> buffer <> 0 -> isRealTGL (w_ng w1) = false ->
  getConfiguredLaneCountOverride = 0 -> laneCount <> 0 ->
  wrapICLReadAUX that address buffer length w = Done 0 w2 ->
  exists w3, computeLaneCount dp timing linkRate bpp laneCount w2 = Done () w3 /\
    load_le 4 laneCount (w_mem w3) = byte (buffer + 2) w2 .& 0x1F.
Proof.
  intros Ho Ha Hl Hb Hr Hov Hlc E.
  rewrite (wrapICLReadAUX_caps _ _ _ _ _ _ Ho Ha Hl Hb) in E. unfold mbind, M_bind in E.
  destruct (handleCaps_run buffer w1) as (w' & E' & _ & El & _ & En & _).
  rewrite E' in E. unfold mret, M_ret in E. simplify_eq.
  rewrite Hr in El. unfold computeLaneCount, mbind, M_bind, ng, gets.
  rewrite (proj2 (Z.eqb_neq _ _) Hlc).
  replace (isRealTGL (w_ng w2)) with false by (rewrite En; by rewrite <-Hr). cbn [negb].
  rewrite store_run. eexists. split; [reflexivity|]. rewrite load_after_store.
  rewrite chooseLanes_cached by (done || by rewrite En). rewrite En. simpl dpcdMaxLaneCountRaw.
  pose proof (byte_range (buffer + 2) w1) as Hby. pose proof (effectiveLanes_good (byte (buffer + 2) w1)) as Hg.
  destruct (merge_lanes _ _ Hby Hg) as [M1 _]. rewrite El. unfold cappedLanes.
  rewrite u8_small in M1 by (apply lor_range; [lia|apply land_range_l; lia|destruct Hg as [-> | [-> | ->]]; lia]).
  rewrite M1. apply Z.mod_small. destruct Hg as [-> | [-> | ->]]; simpl; lia.
Qed.

Lemma minus_one_greatest v : (u32 (-1) <? u32 v) = false.
Proof. apply Z.ltb_ge. pose proof (u32_range v). assert (u32 (-1) = 2 ^ 32 - 1) as -> by done. lia. Qed.
(** The event does not say that the panel is off. *)
Definition not_lcd_off (e : event) : Prop :=
  match e with EProp _ k (PBool false) => k <> "AAPL,LCD-PowerState-ON" | _ => True end.
Lemma not_lcd_off_read that a :
  Benign (emits not_lcd_off) -> respects (emits not_lcd_off) (raReadRegister32 that a).
Proof.
  intros HB. unfold raReadRegister32. destruct (that =? 0).
  - apply respects_readReg32; [exact _|intros; by apply emits_ptr_read|intros; by apply emits_ptr_write].
  - by apply emits_call.
Qed.
(** The hook on [disableVDDForAux] never reports the panel as off, whatever the
    power sequencer reads: its test compares an unsigned value with -1. *)
Theorem disable_vdd_never_reports_off `{!Benign (emits not_lcd_off)} (that : Z) (w : world) :
  emits not_lcd_off w (final (disableVDDForAux that w)).
Proof.
  revert w. change (respects (emits not_lcd_off) (disableVDDForAux that)).
  unfold disableVDDForAux. apply respects_bind; [exact _|respects_auto|intros cc].
  apply respects_bind; [exact _|by apply not_lcd_off_read|intros rd]. cbv zeta.
  rewrite minus_one_greatest. cbn [when].
  apply respects_bind; [exact _|apply respects_ret; exact _|intros _].
  apply respects_bind; [exact _|by apply emits_call|intros r; apply respects_ret; exact _].
Qed.
End facts.

(** ** Evaluations *)
Import Sim.
(** A panel that advertises HBR3 on 3 lanes with enhanced framing, at address 0x5000. *)
Definition panel_world : world :=
  (sim_world []) <| w_mem := <[0x5000 := 0x12]> (<[0x5001 := 0x1E]> (<[0x5002 := 0x83]> ∅)) |>.
#[local] Existing Instance plat.
Definition panel_called : world := emit (ECall "orgICLReadAUX" [1; 0; 0x5000; 16]) panel_world.
Lemma dpcd_caps_capped_witness :
  exists w', wrapICLReadAUX 1 0 0x5000 16 panel_world = Done 0 w' /\
    (byte 0x5001 w' <= 0x14 /\ goodLanes (byte 0x5002 w' .& 0x1F) /\
     byte 0x5002 w' .& 0xE0 = byte 0x5002 panel_called .& 0xE0) /\
    (byte 0x5000 panel_called < 3 -> byte 0x5001 w' = 0) /\
    (forall a, a <> 0x5001 -> a <> 0x5002 -> byte a w' = byte a panel_called) /\
    dpcdMaxLinkRate (w_ng w') = 0x1E /\ dpcdMaxLaneCountRaw (w_ng w') = 0x83 /\
    dpcdCapsValid (w_ng w') = true.
Proof. apply (dpcd_caps_capped 1 0 0x5000 16 panel_world panel_called); [reflexivity|auto|lia|lia]. Defined.
Lemma lane_count_bounded_witness :
  exists w', computeLaneCount 1 2 3 4 0x6000 panel_world = Done () w' /\
    w_tr w' = [] /\ goodLanes (load_le 4 0x6000 (w_mem w')) /\
    (getConfiguredLaneCountOverride <> 0 ->
     load_le 4 0x6000 (w_mem w') = getConfiguredLaneCountOverride).
Proof. apply (lane_count_bounded 1 2 3 4 0x6000 panel_world); [lia|reflexivity]. Defined.
Lemma lane_count_matches_caps_witness :
  exists w3, computeLaneCount 1 2 3 4 0x6000 (final (wrapICLReadAUX 1 0 0x5000 16 panel_world)) = Done () w3 /\
    load_le 4 0x6000 (w_mem w3) = byte 0x5002 (final (wrapICLReadAUX 1 0 0x5000 16 panel_world)) .& 0x1F.
Proof.
  apply (lane_count_matches_caps 1 0 0x5000 16 1 2 3 4 0x6000 panel_world panel_called);
    [reflexivity|auto|lia|lia|reflexivity|reflexivity|lia|vm_compute; reflexivity].
Defined.
Lemma disable_vdd_never_reports_off_witness :
  emits not_lcd_off (sim_world []) (final (disableVDDForAux 0x1000 (sim_world []))).
Proof. apply (@disable_vdd_never_reports_off _ plat (sim_benign [] [] 0 _)). Defined.
End Dpcd.
