(* ===== verification/Reset.v ===== *)
(** * Engine reset (TGL.cpp)

    The hooks around the driver's GPU reset: workarounds and error suppression on
    [resetGraphicsEngine], the interrupt registers on [beginReset] and [endReset]. *)
From S2P Require Import Prelude Machine Sim Regs Mmio BootArgs RegHooks Trace Frame.
Import Regs Mmio BootArgs RegHooks Trace.

Module Reset.
Section defs.
Context `{Platform}.

(** Registers programmed in order. *)
Definition program (l : list (Z * Z)) : M unit := iterM l (fun '(r, v) => writeReg32 r v).
(** Reads whose values only go to the log. *)
Definition readLog (l : list Z) : M unit := iterM l (fun r => _ ← readReg32 r; mret ()).

(** The MCR selection for slice 0, subslice 0. [TGL.cpp:6692-6693 resetGraphicsEngine] *)
Definition mcr : Z := GEN8_MCR_SLICE 0 .| GEN8_MCR_SUBSLICE 0.
Definition mcr_mask : Z := GEN8_MCR_SLICE_MASK .| GEN8_MCR_SUBSLICE_MASK.

(** [TGL.cpp:6665-6698 resetGraphicsEngine] *)
Definition gtWorkarounds : M unit :=
  _ ← wa_write_or (VDBOX_CGCTL3F10 RENDER_RING_BASE) IECPUNIT_CLKGATE_DIS;
  _ ← wa_write_or (VDBOX_CGCTL3F10 BLT_RING_BASE) IECPUNIT_CLKGATE_DIS;
  _ ← wa_write_or (VDBOX_CGCTL3F10 GEN11_VEBOX_RING_BASE) IECPUNIT_CLKGATE_DIS;
  _ ← wa_mcr_write_or GEN10_DFR_RATIO_EN_AND_CHICKEN DFR_DISABLE;
  _ ← wa_add GEN7_MISCCPCTL GEN12_DOP_CLOCK_GATE_RENDER_ENABLE 0 0 false;
  _ ← wa_masked_en GEN11_COMMON_SLICE_CHICKEN3 GEN12_DISABLE_CPS_AWARE_COLOR_PIPE;
  _ ← wa_masked_field_set GEN8_CS_CHICKEN1 GEN9_PREEMPT_GPGPU_LEVEL_MASK
        GEN9_PREEMPT_GPGPU_THREAD_GROUP_LEVEL;
  _ ← wa_write_clr_set GEN8_MCR_SELECTOR mcr_mask mcr;
  wa_masked_en GEN7_FF_SLICE_CS_CHICKEN1 GEN9_FFSC_PERCTX_PREEMPT_CTRL.

(** Clear the error register when set, mask the errors of both rings.
    [TGL.cpp:6704-6712 resetGraphicsEngine] *)
Definition suppressErrors : M unit :=
  err ← readReg32 ERROR_GEN6;
  _ ← when (truthy err) (writeReg32 ERROR_GEN6 0);
  _ ← writeReg32 (RING_EMR RENDER_RING_BASE) 0xFFFFFFFF;
  writeReg32 (RING_EMR BLT_RING_BASE) 0xFFFFFFFF.

Definition snapshotPre : list Z :=
  [ RING_CTL RENDER_RING_BASE; RING_HEAD RENDER_RING_BASE; RING_TAIL RENDER_RING_BASE;
    RING_CTL BLT_RING_BASE; RING_HEAD BLT_RING_BASE; RING_TAIL BLT_RING_BASE;
    ERROR_GEN6; RING_MI_MODE RENDER_RING_BASE; RING_MI_MODE BLT_RING_BASE ].
Definition snapshotPost : list Z :=
  [ RING_CTL RENDER_RING_BASE; RING_HEAD RENDER_RING_BASE; RING_TAIL RENDER_RING_BASE;
    RING_CTL BLT_RING_BASE; ERROR_GEN6 ].

(** Before and after the original. [TGL.cpp:6645-6726 resetGraphicsEngine] *)
Definition resetPre : M unit :=
  _ ← when isTglTraceEnabled
        (_ ← set_bringup (fun st => st <| rcsResetSeen := true |>);
         dumpTglGpuBringupState "resetGraphicsEngine PRE");
  _ ← when isRcsEngineTraceEnabled dumpRcsEngineActivationState;
  _ ← gtWorkarounds;
  _ ← suppressErrors;
  readLog snapshotPre.
(** [TGL.cpp:6730-6757 resetGraphicsEngine] *)
Definition resetPost : M unit :=
  _ ← readLog snapshotPost;
  _ ← suppressErrors;
  _ ← dumpTglGpuBringupState "resetGraphicsEngine POST";
  when isRcsEngineTraceEnabled
    (_ ← dumpRcsEngineActivationState; _ ← markRcsRegisterTransition; mret ()).
(** [TGL.cpp resetGraphicsEngine] *)
Definition resetGraphicsEngine (that param_1 : Z) : M Z :=
  _ ← resetPre;
  ret ← call "oresetGraphicsEngine" [that; param_1];
  _ ← resetPost;
  mret ret.

(** [TGL.cpp:6853-6884 beginReset] *)
Definition beginResetWrites : list (Z * Z) :=
  [ (DG1_MSTR_TILE_INTR, 0); (GEN11_GFX_MSTR_IRQ, 0);
    (GEN11_RENDER_COPY_INTR_ENABLE, 0); (GEN11_VCS_VECS_INTR_ENABLE, 0);
    (GEN11_RCS0_RSVD_INTR_MASK, not32 0); (GEN11_BCS_RSVD_INTR_MASK, not32 0);
    (GEN11_VCS0_VCS1_INTR_MASK, not32 0); (GEN11_VCS2_VCS3_INTR_MASK, not32 0);
    (GEN12_VECS2_VECS3_INTR_MASK, not32 0);
    (GEN11_GPM_WGBOXPERF_INTR_ENABLE, 0); (GEN11_GPM_WGBOXPERF_INTR_MASK, not32 0);
    (GEN11_GUC_SG_INTR_ENABLE, 0); (GEN11_GUC_SG_INTR_MASK, not32 0);
    (GEN11_CRYPTO_RSVD_INTR_ENABLE, 0); (GEN11_CRYPTO_RSVD_INTR_MASK, not32 0);
    (GEN11_GFX_MSTR_IRQ, not32 0) ].
(** [TGL.cpp beginReset] *)
Definition beginReset (that : Z) : M Z :=
  ret ← call "obeginReset" [that]; _ ← program beginResetWrites; mret (u8 ret).

(** [TGL.cpp:6894-6898 endReset] *)
Definition end_irqs : Z := GT_RENDER_USER_INTERRUPT.
Definition end_dmask : Z := u32 (end_irqs .<< 16) .| end_irqs.
Definition end_smask : Z := u32 (end_irqs .<< 16).
(** [TGL.cpp:6903-6922 endReset] *)
Definition endResetWrites : list (Z * Z) :=
  [ (GEN11_RENDER_COPY_INTR_ENABLE, end_dmask); (GEN11_VCS_VECS_INTR_ENABLE, end_dmask);
    (GEN11_RCS0_RSVD_INTR_MASK, not32 end_smask); (GEN11_BCS_RSVD_INTR_MASK, not32 end_smask);
    (GEN11_VCS0_VCS1_INTR_MASK, not32 end_dmask); (GEN11_VCS2_VCS3_INTR_MASK, not32 end_dmask);
    (GEN11_VECS0_VECS1_INTR_MASK, not32 end_dmask); (GEN12_VECS2_VECS3_INTR_MASK, not32 end_dmask);
    (GEN11_GFX_MSTR_IRQ, GEN11_MASTER_IRQ); (DG1_MSTR_TILE_INTR, DG1_MSTR_IRQ) ].
(** [TGL.cpp endReset] *)
Definition endReset (that : Z) : M unit :=
  _ ← call "oendReset" [that]; program endResetWrites.

(** *** CD clock *)

(** Target PLL frequency for a reference clock index; [None] leaves the clock alone.
    [TGL.cpp:1840-1859 sanitizeCDClockFrequency] *)
Definition targetPLL (referenceFrequency : Z) : option Z :=
  if referenceFrequency =? 1 then Some ICL_CDCLK_PLL_FREQ_REF_19_2
  else if referenceFrequency =? 0 then Some ICL_CDCLK_PLL_FREQ_REF_24_0
  else if referenceFrequency =? 2 then Some ICL_CDCLK_PLL_FREQ_REF_38_4
  else None.
(** [TGL.cpp disableCDClock] *)
Definition disableCDClock (that : Z) : M unit := _ ← call "odisableCDClock" [that]; mret ().
(** [TGL.cpp#1 sanitizeCDClockFrequency] *)
Definition sanitizeCDClockFrequency (that : Z) : M unit :=
  dssm ← readReg32 ICL_REG_DSSM;
  match targetPLL (dssm .>> 29) with
  | None => mret ()
  | Some newPLLFrequency =>
    _ ← (if resolved "orgDisableCDClock" then _ ← call "orgDisableCDClock" [that]; mret ()
         else disableCDClock that);
    _ ← call "orgSetCDClockFrequency" [that; newPLLFrequency]; mret ()
  end.
(** [TGL.cpp#1 wrapProbeCDClockFrequency] *)
Definition wrapProbeCDClockFrequency (that : Z) : M Z :=
  squash ← readReg32 BXT_DE_PLL_ENABLE;
  _ ← when (negb (truthy (squash .& BXT_DE_PLL_PLL_ENABLE)))
        (writeReg32 BXT_DE_PLL_ENABLE (squash .| BXT_DE_PLL_PLL_ENABLE));
  ctl ← readReg32 ICL_REG_CDCLK_CTL;
  let cdclk := ctl .& CDCLK_FREQ_DECIMAL_MASK in
  _ ← when (cdclk <? ICL_CDCLK_DEC_FREQ_THRESHOLD) (sanitizeCDClockFrequency that);
  call "orgProbeCDClockFrequency" [that].
(** [TGL.cpp:4868-4871 initCDClock] *)
Definition initCDClock (that : Z) : M unit := _ ← call "oinitCDClock" [that]; mret ().
(** [TGL.cpp setCDClockFrequencyOnHotplug] *)
Definition setCDClockFrequencyOnHotplug (that : Z) : M unit :=
  _ ← call "osetCDClockFrequencyOnHotplug" [that]; mret ().
End defs.

(** ** Facts *)
Section facts.
Context `{Platform}.

Hint Resolve total_wa_add : ng.
Lemma total_gtWorkarounds : total gtWorkarounds.
Proof.
  unfold gtWorkarounds, wa_write_or, wa_mcr_write_or, wa_mcr_write_clr_set, wa_mcr_add, wa_write_clr_set,
    wa_masked_en, wa_masked_field_set. total_auto.
Qed.
Lemma total_suppress : total suppressErrors.
Proof. unfold suppressErrors. total_auto. Qed.
Hint Resolve total_gtWorkarounds total_suppress : ng.
Lemma total_resetPre : total resetPre.
Proof. unfold resetPre, readLog, set_bringup. total_auto. Qed.

(** Only the plugin's record matters to where a register goes. *)
#[export] Instance keeps_ng_frame `{!Benign (keeps w_ng)} : Frame (keeps w_ng).
Proof. split; [exact _|exact _|done]. Qed.
Section keeps.
Context `{!Benign (keeps w_ng)}.
Lemma keeps_ng_wa_add reg c v m b : respects (keeps w_ng) (wa_add reg c v m b).
Proof. apply respects_wa_add; [exact _|intros; by apply keeps_ptr_read|intros; by apply keeps_ptr_write]. Qed.
Hint Resolve keeps_ng_wa_add : ngframe.
Lemma keeps_ng_resetPre : respects (keeps w_ng) resetPre.
Proof.
  unfold resetPre, readLog, gtWorkarounds, suppressErrors, wa_write_or, wa_mcr_write_or,
    wa_mcr_write_clr_set, wa_mcr_add, wa_write_clr_set, wa_masked_en, wa_masked_field_set. frame_auto.
Qed.
End keeps.

(** Dumps write nothing but the index port of the fallback path. *)
Definition port_only (e : event) : Prop :=
  match e with EWr i _ => i = mmPCIE_INDEX2 \/ i = mmPCIE_DATA2 | _ => True end.
Lemma port_readReg32 r : respects (emits port_only) (readReg32 r).
Proof. apply emits_readReg32; simpl; auto. Qed.
#[export] Instance port_dump_safe : DumpSafe (emits port_only).
Proof.
  split; [exact _|exact port_readReg32|intros; apply emits_set_g11|intros; apply emits_set_g11].
Qed.

Lemma suppress_run len w :
  rmmio (w_ng w) = Some len -> rmmioPtr (w_ng w) = true -> 0x200000 <= len < 2 ^ 64 ->
  exists err w', suppressErrors w = Done () w' /\
    w_tr w' = EWr (RING_EMR BLT_RING_BASE .>> 2) 0xFFFFFFFF ::
              EWr (RING_EMR RENDER_RING_BASE .>> 2) 0xFFFFFFFF ::
              (if truthy err then [EWr (ERROR_GEN6 .>> 2) 0] else []) ++
              ERd (ERROR_GEN6 .>> 2) err :: w_tr w.
Proof.
  intros Hr Hp Hl.
  assert (Hm : forall reg w', 0 <= reg -> reg + 4 <= 0x200000 -> w_ng w' = w_ng w -> mapped reg w').
  { intros reg w' ? ? Hn. apply (mapped_below len); rewrite ?Hn; try done; lia. }
  destruct (read_mapped ERROR_GEN6 w) as (err & w1 & E1 & S1 & T1); [by apply Hm|].
  assert (N1 : w_ng w1 = w_ng w) by apply S1.
  assert (Hc : exists w2, when (truthy err) (writeReg32 ERROR_GEN6 0) w1 = Done () w2 /\
    w_ng w2 = w_ng w /\ w_tr w2 = (if truthy err then [EWr (ERROR_GEN6 .>> 2) 0] else []) ++ w_tr w1).
  { destruct (truthy err); cbn [when]; [|by exists w1].
    destruct (write_run_mapped ERROR_GEN6 0 w1) as (w2 & E2 & S2 & T2); [by apply Hm|done|].
    exists w2. split; [done|]. split; [|done]. destruct S2 as [-> _]. done. }
  destruct Hc as (w2 & E2 & N2 & T2).
  destruct (write_run_mapped (RING_EMR RENDER_RING_BASE) 0xFFFFFFFF w2) as (w3 & E3 & S3 & T3);
    [by apply Hm|done|].
  destruct (write_run_mapped (RING_EMR BLT_RING_BASE) 0xFFFFFFFF w3) as (w4 & E4 & S4 & T4).
  { apply Hm; [done..|]. destruct S3 as [-> _]. done. }
  { done. }
  exists err, w4. unfold suppressErrors, mbind, M_bind. rewrite E1, E2, E3, E4. split; [done|].
  by rewrite T4, T3, T2, T1.
Qed.

(** What runs after the masks are back only reads. *)
Lemma port_postDumps :
  respects (emits port_only)
    (_ ← dumpTglGpuBringupState "resetGraphicsEngine POST";
     when isRcsEngineTraceEnabled
       (_ ← dumpRcsEngineActivationState; _ ← markRcsRegisterTransition; mret ())).
Proof. respects_auto. Qed.
Lemma total_postDumps :
  total (_ ← dumpTglGpuBringupState "resetGraphicsEngine POST";
     when isRcsEngineTraceEnabled
       (_ ← dumpRcsEngineActivationState; _ ← markRcsRegisterTransition; mret ())).
Proof. total_auto. Qed.
Lemma readLog_run l w : exists w', readLog l w = Done () w' /\ w_ng w' = w_ng w.
Proof.
  assert (Ht : total (readLog l)) by (unfold readLog; total_auto).
  destruct (Ht w) as ([] & w' & E). exists w'. split; [done|].
  assert (Hk : respects (keeps w_ng) (readLog l)).
  { unfold readLog. respects_auto. apply respects_readReg32;
      [exact _|intros; by apply keeps_ptr_read|intros; by apply keeps_ptr_write]. }
  exact (respects_done _ _ _ _ _ Hk E).
Qed.

Lemma resetPost_run len w :
  rmmio (w_ng w) = Some len -> rmmioPtr (w_ng w) = true -> 0x200000 <= len < 2 ^ 64 ->
  exists w' after before, resetPost w = Done () w' /\
    w_tr w' = after ++ EWr (RING_EMR BLT_RING_BASE .>> 2) 0xFFFFFFFF ::
              EWr (RING_EMR RENDER_RING_BASE .>> 2) 0xFFFFFFFF :: before /\
    Forall port_only after.
Proof.
  intros Hr Hp Hl. destruct (readLog_run snapshotPost w) as (w1 & E1 & N1).
  destruct (suppress_run len w1) as (err & w2 & E2 & T2); [by rewrite N1..|done|].
  destruct (total_postDumps w2) as ([] & w3 & E3).
  destruct (respects_done _ _ _ _ _ port_postDumps E3) as (new & T3 & F3).
  exists w3, new, ((if truthy err then [EWr (ERROR_GEN6 .>> 2) 0] else []) ++
    ERd (ERROR_GEN6 .>> 2) err :: w_tr w1).
  split; [|split; [by rewrite T3, T2|done]].
  unfold resetPost. unfold mbind at 1, M_bind at 1. rewrite E1.
  unfold mbind at 1, M_bind at 1. rewrite E2. exact E3.
Qed.

Lemma program_run (l : list (Z * Z)) (len : Z) w :
  rmmio (w_ng w) = Some len -> rmmioPtr (w_ng w) = true ->
  0x200000 <= len < 2 ^ 64 -> plain_regs 0x200000 l = true ->
  exists w', program l w = Done () w' /\
    w_tr w' = rev (map (fun '(r, v) => EWr (r .>> 2) (u32 v)) l) ++ w_tr w.
Proof.
  intros Hr Hp Hl Hpl. destruct (writes_trace l 0x200000 len w) as (w' & E & T & _); [done..|].
  by exists w'.
Qed.
End facts.

(** ** Properties *)
Section properties.
Context `{Platform}.

(** C33 (safety). Whatever the driver's reset leaves behind, the hook returns with both error
    mask registers rewritten to all ones after the original: nothing the plugin does
    afterwards writes a register again but the index and data port the accessors fall back to. The
    mapping is assumed to have at least 2 MiB, and the driver's functions to leave the
    plugin's own members alone. *)
Theorem reset_leaves_errors_masked `{!Benign (keeps w_ng)} (that p len : Z) (w : world) :
  rmmio (w_ng w) = Some len -> rmmioPtr (w_ng w) = true -> 0x200000 <= len < 2 ^ 64 ->
  exists ret w' after before, resetGraphicsEngine that p w = Done ret w' /\
    w_tr w' = after ++ EWr (RING_EMR BLT_RING_BASE .>> 2) 0xFFFFFFFF ::
              EWr (RING_EMR RENDER_RING_BASE .>> 2) 0xFFFFFFFF :: before /\
    Forall port_only after.
Proof.
  intros Hr Hp Hl. destruct (total_resetPre w) as ([] & w1 & E1).
  destruct (total_call "oresetGraphicsEngine" [that; p] w1) as (ret & wo & E2).
  assert (No : w_ng wo = w_ng w).
  { pose proof (respects_done _ _ _ _ _ keeps_ng_resetPre E1) as N1.
    pose proof (respects_done _ _ _ _ _ (frame_call (keeps w_ng) _ _) E2) as N2.
    unfold keeps in *. congruence. }
  destruct (resetPost_run len wo) as (w' & after & before & E3 & T3 & F3); [by rewrite No..|done|].
  exists ret, w', after, before. split; [|done].
  unfold resetGraphicsEngine. unfold mbind at 1, M_bind at 1. rewrite E1.
  unfold mbind at 1, M_bind at 1. rewrite E2. unfold mbind, M_bind. by rewrite E3.
Qed.

(** Around a reset the interrupt registers are programmed right after the
    original, in the listed order and with nothing in between: [beginReset] turns the tile
    and master interrupts off first and ends with all ones in the master register, which
    turns it back on before the reset is over; of the engine masks it leaves VECS0/VECS1
    alone. [endReset] unmasks that one too and re-enables the master interrupt last. *)
Theorem reset_interrupt_sequence (that ret len : Z) (w : world) (begin : bool) :
  let f := if begin then "obeginReset" else "oendReset" in
  let ws := if begin then beginResetWrites else endResetWrites in
  forall w1, original f [that] (emit (ECall f [that]) w) = (ret, w1) ->
  rmmio (w_ng w1) = Some len -> rmmioPtr (w_ng w1) = true -> 0x200000 <= len < 2 ^ 64 ->
  (exists w', (if begin then r ← beginReset that; mret (Some r) else _ ← endReset that; mret None) w =
      Done (if begin then Some (u8 ret) else None) w' /\
    w_tr w' = rev (map (fun '(r, v) => EWr (r .>> 2) (u32 v)) ws) ++ w_tr w1) /\
  head ws = Some (if begin then (DG1_MSTR_TILE_INTR, 0) else (GEN11_RENDER_COPY_INTR_ENABLE, 0x10001)) /\
  (begin = true -> last ws = Some (GEN11_GFX_MSTR_IRQ, 0xFFFFFFFF)) /\
  (GEN11_VECS0_VECS1_INTR_MASK ∈ map fst ws <-> begin = false).
Proof.
  intros f ws w1 Ho Hr Hp Hl. split_and!.
  - destruct (program_run ws len w1) as (w' & E & T); [done..|by destruct begin|].
    exists w'. split; [|done]. subst f ws.
    destruct begin; unfold beginReset, endReset, mbind, M_bind, call; rewrite Ho, E; done.
  - subst ws. by destruct begin.
  - subst ws. by intros ->.
  - subst ws. destruct begin; split; try done; intros; [exfalso|].
    + eapply (bool_decide_unpack (GEN11_VECS0_VECS1_INTR_MASK ∉ map fst beginResetWrites)); [|done].
      by vm_compute.
    + by apply (bool_decide_unpack (GEN11_VECS0_VECS1_INTR_MASK ∈ map fst endResetWrites)).
Qed.

(** The reset workaround meant to steer multicast reads to slice 0,
    subslice 0 sets every selector bit instead, slice 3 and subslice 3, whatever the
    register held: the helper ORs the cleared field back in. The preemption level field
    likewise ends up with both bits set instead of the thread-group level. *)
Theorem reset_steers_to_wrong_slice (old : Z) :
  0 <= old < 2 ^ 32 ->
  wa_value old mcr_mask mcr (mcr_mask .| mcr) false .& mcr_mask = mcr_mask /\ mcr = 0 /\
  (wa_value old 0 (MASKED_FIELD GEN9_PREEMPT_GPGPU_LEVEL_MASK GEN9_PREEMPT_GPGPU_THREAD_GROUP_LEVEL)
     GEN9_PREEMPT_GPGPU_LEVEL_MASK true) .& GEN9_PREEMPT_GPGPU_LEVEL_MASK = GEN9_PREEMPT_GPGPU_LEVEL_MASK /\
  GEN9_PREEMPT_GPGPU_THREAD_GROUP_LEVEL <> GEN9_PREEMPT_GPGPU_LEVEL_MASK.
Proof.
  intros Ho. split_and!; try done; unfold wa_value.
  - change (mcr_mask .| mcr) with mcr_mask. bitblast_eq.
  - bitblast_eq.
Qed.
End properties.

(** ** Evaluations *)
Import Sim.
#[local] Existing Instance plat.
Lemma reset_leaves_errors_masked_witness :
  exists ret w' after before, resetGraphicsEngine 1 2 (sim_world [(ERROR_GEN6 / 4, 0x7b)]) = Done ret w' /\
    w_tr w' = after ++ EWr (RING_EMR BLT_RING_BASE .>> 2) 0xFFFFFFFF ::
              EWr (RING_EMR RENDER_RING_BASE .>> 2) 0xFFFFFFFF :: before /\
    Forall port_only after.
Proof.
  apply (@reset_leaves_errors_masked _ plat (sim_benign [] [] 0 _) 1 2 0x1000000); reflexivity || lia.
Defined.
Lemma reset_interrupt_sequence_witness :
  (exists w', (r ← beginReset 1; mret (Some r)) (sim_world []) = Done (Some (u8 0)) w' /\
    w_tr w' = rev (map (fun '(r, v) => EWr (r .>> 2) (u32 v)) beginResetWrites) ++
              [ECall "obeginReset" [1]]) /\
  head beginResetWrites = Some (DG1_MSTR_TILE_INTR, 0) /\
  (true = true -> last beginResetWrites = Some (GEN11_GFX_MSTR_IRQ, 0xFFFFFFFF)) /\
  (GEN11_VECS0_VECS1_INTR_MASK ∈ map fst beginResetWrites <-> true = false).
Proof.
  apply (reset_interrupt_sequence 1 0 0x1000000 (sim_world []) true
           (emit (ECall "obeginReset" [1]) (sim_world []))); reflexivity || lia.
Defined.
Lemma reset_steers_to_wrong_slice_witness :
  wa_value 0 mcr_mask mcr (mcr_mask .| mcr) false .& mcr_mask = mcr_mask /\ mcr = 0 /\
  (wa_value 0 0 (MASKED_FIELD GEN9_PREEMPT_GPGPU_LEVEL_MASK GEN9_PREEMPT_GPGPU_THREAD_GROUP_LEVEL)
     GEN9_PREEMPT_GPGPU_LEVEL_MASK true) .& GEN9_PREEMPT_GPGPU_LEVEL_MASK = GEN9_PREEMPT_GPGPU_LEVEL_MASK /\
  GEN9_PREEMPT_GPGPU_THREAD_GROUP_LEVEL <> GEN9_PREEMPT_GPGPU_LEVEL_MASK.
Proof. apply (reset_steers_to_wrong_slice 0). lia. Defined.
End Reset.
