(* ===== verification/Firmware.v ===== *)
(** * GPU identity and firmware policy (TGL.cpp)

    Which firmware and scheduler the accelerator driver may use, the topology it is told
    about, and the encodings written to the hardware. *)
From S2P Require Import Prelude Machine Memory Sim Regs Mmio BootArgs RegHooks Trace Frame Engine.
Import Regs Mmio BootArgs RegHooks Trace Engine.

Module Firmware.
Section defs.
Context `{Platform}.

(** [TGL.cpp:1361-1395 setAsyncSliceCount] *)
Definition sliceField (n : Z) : option Z := if (n =? 1) || (n =? 2) then Some n else None.
Definition subsliceField (n : Z) : option Z :=
  if n =? 2 then Some 0x20 else if n =? 4 then Some 0x40 else if n =? 5 then Some 0x50
  else if n =? 6 then Some 0x60 else if n =? 8 then Some 0x80 else if n =? 10 then Some 0xA0
  else None.
Definition euField (n : Z) : option Z :=
  if n =? 1 then Some 0x100 else if n =? 2 then Some 0x200 else if n =? 3 then Some 0x300
  else if n =? 4 then Some 0x400 else if n =? 5 then Some 0x500 else if n =? 6 then Some 0x600
  else if n =? 8 then Some 0x800 else None.
Definition orPanic (msg : string) (o : option Z) : M Z :=
  match o with Some v => mret v | None => panic msg end.
(** The register is written through the driver's own mapping, whose address is the
    member at 0x1240. [TGL.cpp setAsyncSliceCount] *)
Definition setAsyncSliceCount (that configRaw : Z) : M unit :=
  let sliceCount := (configRaw .>> 0) .& 0xFF in
  let subsliceCount := (configRaw .>> 8) .& 0xFF in
  let euCount := (configRaw .>> 16) .& 0xFF in
  s ← orPanic "IGPU: setAsyncSliceCount - Invalid slice count" (sliceField sliceCount);
  ss ← orPanic "IGPU: setAsyncSliceCount - Invalid subsliceCount" (subsliceField subsliceCount);
  eu ← orPanic "IGPU: setAsyncSliceCount - Invalid EU count/power mode" (euField euCount);
  let hwRegisterValue := s .| ss .| eu in
  _ ← store 4 (that + 0x12a0) configRaw;
  mmioBase ← load 8 (that + 0x1240);
  store 4 (mmioBase + 0xa204) hwRegisterValue.

(** [TGL.cpp:1348-1352 blit3d_supported] *)
Definition blit3d_supported : M Z := mret 0.

(** Stores to members of an object, in order. *)
Definition setMembers (that : Z) (l : list (nat * Z * Z)) : M unit :=
  iterM l (fun '(n, off, v) => store n (that + off) v).

(** [TGL.cpp:1452-1466 getGPUInfo] *)
Definition numSlices : Z := 1.
Definition numSubSlices : Z := 10.
Definition maxEUPerSubSlice : Z := 8.
Definition totalEU : Z := u32 (maxEUPerSubSlice * numSubSlices).
Definition topologyTGL : list (nat * Z * Z) :=
  [ (4%nat, 0x115c, numSlices); (4%nat, 0x1158, numSubSlices); (4%nat, 0x116c, maxEUPerSubSlice);
    (4%nat, 0x1124, totalEU); (4%nat, 0x0dd8, numSlices); (4%nat, 0x0ddc, numSubSlices);
    (4%nat, 0x1164, 8); (8%nat, 0x1150, 0x1C2000003E8) ].
(** What is reported to the driver. [TGL.cpp:1474-1484 getGPUInfo] *)
Definition finishGPUInfo (real ret : bool) : M bool :=
  if negb real && shouldForceFullMetalPath && negb ret then
    _ ← (_ ← when isTglTraceEnabled (set_bringup (fun st => st <| topologyOk := true |>));
         dumpTglGpuBringupState "getGPUInfo POST forced-success");
    mret true
  else
    _ ← dumpTglGpuBringupState "getGPUInfo POST"; mret ret.
(** [TGL.cpp getGPUInfo] *)
Definition getGPUInfo (that : Z) : M bool :=
  r ← call "ogetGPUInfo" [that];
  let ret := truthy (u8 r) in
  real ← ng (fun n => ngCallback n && isRealTGL n);
  _ ← when isTglTraceEnabled (set_bringup (fun st => st <| topologyOk := ret |>));
  _ ← setMembers that topologyTGL;
  finishGPUInfo real ret.

(** [TGL.cpp:1502-1513 getGPUInfoICL] *)
Definition topologyICL : list (nat * Z * Z) :=
  [ (4%nat, 0x1190, 1); (4%nat, 0x1188, 8); (4%nat, 0x11a0, 8); (4%nat, 0x1154, u32 (8 * 8));
    (4%nat, 0x12cc, 1); (4%nat, 0x12d0, 8); (4%nat, 0x1198, 8) ].
(** [TGL.cpp getGPUInfoICL] *)
Definition getGPUInfoICL (that : Z) : M bool :=
  r ← call "ogetGPUInfoICL" [that]; _ ← setMembers that topologyICL; mret (truthy (u8 r)).

(** [TGL.cpp initHardwareCaps] *)
Definition initHardwareCaps (this_ptr : Z) : M bool :=
  gpuSku ← load 4 (this_ptr + 0x1120);
  numSubslices ← load 4 (this_ptr + 0x1158);
  let needSkuFix := (gpuSku =? 2) && (numSubslices <=? 10) in
  _ ← when needSkuFix (store 4 (this_ptr + 0x1120) 1);
  result ← (if resolved "oinitHardwareCaps" then
              r ← call "oinitHardwareCaps" [this_ptr]; mret (truthy (u8 r))
            else mret false);
  _ ← when needSkuFix (store 4 (this_ptr + 0x1120) gpuSku);
  mret result.

(** [TGL.cpp checkWOPCMSettings] *)
Definition checkWOPCMSettings (that param_1 param_2 : Z) : M unit :=
  _ ← dumpTglGpuBringupState "checkWOPCMSettings PRE";
  _ ← (if resolved "ocheckWOPCMSettings" then
         _ ← call "ocheckWOPCMSettings" [that; param_1; param_2]; mret ()
       else when (negb (param_2 =? 0))
         (_ ← store 8 param_2 (1 * 1024 * 1024); store 8 (param_2 + 8) (1 * 1024 * 1024)));
  _ ← when isTglTraceEnabled (set_bringup (fun st => st <| gucWopcmProgrammed := true |>));
  dumpTglGpuBringupState "checkWOPCMSettings POST".

(** [TGL.cpp wrapPavpSessionCallback] *)
Definition wrapPavpSessionCallback (intelAccelerator sessionCommand sessionAppId a4 : Z) (flag : bool) : M Z :=
  cc ← g11 ccont;
  _ ← store 8 (intelAccelerator + 0x90) cc;
  if sessionCommand =? 4 then mret 0
  else call "orgPavpSessionCallback" [intelAccelerator; sessionCommand; sessionAppId; a4; b2z flag].

Definition kIOReturnUnsupported : Z := 0xe00002c7.
(** [TGL.cpp wrapFBClientDoAttribute] *)
Definition wrapFBClientDoAttribute (fbclient attribute unk1 unk2 unk3 unk4 args : Z) : M Z :=
  if attribute =? 0x923 then mret kIOReturnUnsupported
  else call "orgFBClientDoAttribute" [fbclient; attribute; unk1; unk2; unk3; unk4; args].

(** The bookkeeping of the bypass. [TGL.cpp:1618-1628 loadGuCBinary] *)
Definition bypassGuC : M unit :=
  _ ← when isTglTraceEnabled (set_bringup (fun st =>
        st <| gucRequested := false |> <| gucFirmwareLoaded := false |>));
  _ ← traced dumpRcsEngineActivationState;
  dumpTglGpuBringupState "loadGuCBinary POST stub".
(** [TGL.cpp#1 loadGuCBinary] *)
Definition loadGuCBinary (that : Z) : M Z :=
  _ ← traced dumpRcsEngineActivationState;
  _ ← dumpTglGpuBringupState "loadGuCBinary PRE";
  allowed ← ng (fun n => isRealTGL n || tryGuC n);
  if allowed : bool then
    ret ← (if resolved "oloadGuCBinary" then call "oloadGuCBinary" [that] else mret 0);
    _ ← when isTglTraceEnabled (set_bringup (fun st =>
          st <| gucRequested := true |> <| gucFirmwareLoaded := truthy ret |>));
    _ ← traced dumpRcsEngineActivationState;
    _ ← dumpTglGpuBringupState "loadGuCBinary POST";
    mret ret
  else _ ← bypassGuC; mret 1.

(** [TGL.cpp canLoadFirmware] *)
Definition canLoadFirmware (that accelerator : Z) : M bool :=
  _ ← dumpTglGpuBringupState "canLoadFirmware PRE";
  if resolved "ocanLoadFirmware" then
    r ← call "ocanLoadFirmware" [that; accelerator];
    if negb (truthy (u8 r)) then _ ← dumpTglGpuBringupState "canLoadFirmware FORCED OK"; mret true
    else _ ← dumpTglGpuBringupState "canLoadFirmware OK"; mret true
  else _ ← dumpTglGpuBringupState "canLoadFirmware NO-ORIG OK"; mret true.

(** [TGL.cpp wrapLoadGuCBinary] *)
Definition wrapLoadGuCBinary (that : Z) : M Z :=
  fsp ← g11 firmwareSizePointer;
  _ ← when (truthy fsp) (set_g11 (fun g => g <| performingFirmwareLoad := true |>));
  r ← call "orgLoadGuCBinary" [that];
  _ ← set_g11 (fun g => g <| performingFirmwareLoad := false |>);
  mret (u8 r).
(** [TGL.cpp wrapLoadFirmware] *)
Definition wrapLoadFirmware (that : Z) : M bool :=
  r ← call "orgLoadFirmware" [that]; mret (truthy (u8 r)).
(** [TGL.cpp wrapSystemWillSleep] *)
Definition wrapSystemWillSleep (that : Z) : M unit := mret ().
(** The GuC object is the 76th pointer of the instance. [TGL.cpp wrapSystemDidWake] *)
Definition wrapSystemDidWake (that : Z) : M unit :=
  GuC ← load 8 (that + 76 * 8);
  _ ← when (negb (GuC =? 0) && isClass "IGHardwareGuC" GuC)
        (_ ← call "release" [GuC]; store 8 (that + 76 * 8) 0);
  _ ← call "orgLoadFirmware" [that]; mret ().

(** [TGL.cpp wrapInitSchedControl] *)
Definition wrapInitSchedControl (that : Z) : M bool :=
  safe ← ng shouldUseSpoofedSafeSchedulerPolicy;
  if safe : bool then mret true
  else
    perfLoad ← g11 performingFirmwareLoad;
    _ ← set_g11 (fun g => g <| performingFirmwareLoad := false |>);
    r ← call "orgInitSchedControl" [that];
    _ ← set_g11 (fun g => g <| performingFirmwareLoad := perfLoad |>);
    mret (truthy (u8 r)).

(** The substitution of the buffer of an allocated object; the replacement firmware has
    length 0, so nothing is copied. [TGL.cpp:1729-1738 wrapIgBufferWithOptions] *)
Definition substituteBuffer (r : Z) : M unit :=
  status ← call "setKernelWriting" [1];
  when (status =? 0)
    (real ← load 8 (r + 7 * 8);
     _ ← set_g11 (fun g => g <| realFirmwareBuffer := real |>);
     dummy ← g11 dummyFirmwareBuffer;
     _ ← store 8 (r + 7 * 8) dummy;
     _ ← set_g11 (fun g => g <| realBinarySize := 0 |>);
     fsp ← g11 firmwareSizePointer;
     _ ← store 4 fsp 0;
     _ ← call "setKernelWriting" [0]; mret ()).
(** [TGL.cpp wrapIgBufferWithOptions] *)
Definition wrapIgBufferWithOptions (accelTask size type flags : Z) : M Z :=
  loading ← g11 performingFirmwareLoad;
  if loading : bool then
    n ← load 8 size;
    buf ← call "Buffer::create" [n];
    _ ← set_g11 (fun g => g <| dummyFirmwareBuffer := buf |>);
    newsize ← load 8 size;
    r ← call "orgIgBufferWithOptions" [accelTask; newsize; type; flags];
    dummy ← g11 dummyFirmwareBuffer;
    _ ← (if truthy r && truthy dummy then substituteBuffer r
         else when (truthy dummy)
           (_ ← call "Buffer::deleter" [dummy];
            set_g11 (fun g => g <| dummyFirmwareBuffer := 0 |>)));
    mret r
  else call "orgIgBufferWithOptions" [accelTask; size; type; flags].
(** [TGL.cpp wrapIgBufferGetGpuVirtualAddress] *)
Definition wrapIgBufferGetGpuVirtualAddress (that : Z) : M Z :=
  pending ← g11 (fun g => performingFirmwareLoad g && truthy (realFirmwareBuffer g));
  _ ← when pending
    (real ← g11 realFirmwareBuffer;
     _ ← store 8 (that + 7 * 8) real;
     _ ← set_g11 (fun g => g <| realFirmwareBuffer := 0 |>);
     dummy ← g11 dummyFirmwareBuffer;
     _ ← call "Buffer::deleter" [dummy];
     set_g11 (fun g => g <| dummyFirmwareBuffer := 0 |>));
  call "orgIgBufferGetGpuVirtualAddress" [that].

(** The reported frequency, a product of [uint32_t]s. [TGL.cpp:3812-3812 wrapPmNotifyWrapper] *)
Definition pmFrequency (freqMax : Z) : Z := u32 (u32 (GEN9_FREQ_SCALER .<< GEN9_FREQUENCY_SHIFT) * freqMax).
(** The original gets the address of a local in place of [freq]; the ratio is read from the
    hardware until it is not 0. [TGL.cpp wrapPmNotifyWrapper] *)
Definition wrapPmNotifyWrapper (a0 a1 a2 freq : Z) : M Z :=
  let cfreq := symbolAddr "wrapPmNotifyWrapper::cfreq" in
  _ ← store 4 cfreq 0;
  _ ← call "orgPmNotifyWrapper" [a0; a1; a2; cfreq];
  fmax ← g11 freq_max;
  _ ← when (negb (truthy fmax))
    (fc ← g11 framecont;
     cap ← wrapReadRegister32 fc GEN6_RP_STATE_CAP;
     set_g11 (fun g => g <| freq_max := cap .& 0xFF |>));
  fmax ← g11 freq_max;
  _ ← store 4 freq (pmFrequency fmax);
  mret 0.
End defs.

(** ** Facts *)
Section facts.
Context `{Platform}.

Definition byteAt (config k : Z) : Z := (config .>> k) .& 0xFF.
(** The counts the hardware accepts. *)
Definition validConfig (config : Z) : bool :=
  bool_decide (byteAt config 0 ∈ [1; 2]) && bool_decide (byteAt config 8 ∈ [2; 4; 5; 6; 8; 10]) &&
  bool_decide (byteAt config 16 ∈ [1; 2; 3; 4; 5; 6; 8]).
Lemma sliceField_spec n : sliceField n = if bool_decide (n ∈ [1; 2]) then Some n else None.
Proof.
  unfold sliceField. destruct (bool_decide_reflect (n ∈ [1; 2])) as [Hn|Hn].
  - rewrite !elem_of_cons, elem_of_nil in Hn. destruct Hn as [-> | [-> | []]]; done.
  - rewrite !elem_of_cons, elem_of_nil in Hn.
    rewrite (proj2 (Z.eqb_neq n 1)), (proj2 (Z.eqb_neq n 2)) by tauto. done.
Qed.
Ltac table n l :=
  destruct (bool_decide_reflect (n ∈ l)) as [Hn|Hn]; rewrite !elem_of_cons, elem_of_nil in Hn;
  [repeat destruct Hn as [-> | Hn]; done
  |repeat match goal with |- context [n =? ?k] => rewrite (proj2 (Z.eqb_neq n k)) by tauto end; done].
Lemma subsliceField_spec n :
  subsliceField n = if bool_decide (n ∈ [2; 4; 5; 6; 8; 10]) then Some (16 * n) else None.
Proof. unfold subsliceField. table n [2; 4; 5; 6; 8; 10]. Qed.
Lemma euField_spec n :
  euField n = if bool_decide (n ∈ [1; 2; 3; 4; 5; 6; 8]) then Some (256 * n) else None.
Proof. unfold euField. table n [1; 2; 3; 4; 5; 6; 8]. Qed.
Lemma fields_disjoint s ss eu : s ∈ [1; 2] -> ss ∈ [2; 4; 5; 6; 8; 10] -> eu ∈ [1; 2; 3; 4; 5; 6; 8] ->
  s .| (16 * ss) .| (256 * eu) = s + 16 * ss + 256 * eu.
Proof.
  rewrite !elem_of_cons, !elem_of_nil. intros Hs Hss He.
  repeat destruct Hs as [-> | Hs]; try done; repeat destruct Hss as [-> | Hss]; try done;
    repeat destruct He as [-> | He]; done.
Qed.

(** Reading back a member that was set last. *)
Lemma setMembers_run that l w :
  exists w', setMembers that l w = Done () w' /\
    w_mem w' = foldl (fun m '(n, off, v) => store_le n (that + off) v m) (w_mem w) l /\
    w_tr w' = w_tr w.
Proof.
  revert w. induction l as [|[[n off] v] l IH]; intros w; [by exists w|].
  destruct (IH (w <| w_mem ::= store_le n (that + off) v |>)) as (w' & E & Hm & Ht).
  exists w'. by unfold setMembers, mbind, M_bind in *.
Qed.
#[local] Instance mem_dump_safe : DumpSafe (keeps w_mem).
Proof.
  split; [exact _| |done|done]. intros r.
  apply respects_readReg32; [exact _|intros; by apply keeps_ptr_read|intros; by apply keeps_ptr_write].
Qed.

(** A store that does not overlap what is loaded is skipped, one that is loaded is read. *)
Ltac read_member :=
  repeat (rewrite load_store_disjoint by lia); rewrite load_store_le; try reflexivity.
Lemma topology_loads that m :
  let m' := foldl (fun m '(n, off, v) => store_le n (that + off) v m) m topologyTGL in
  load_le 4 (that + 0x115c) m' = 1 /\ load_le 4 (that + 0x1158) m' = 10 /\
  load_le 4 (that + 0x116c) m' = 8 /\ load_le 4 (that + 0x1124) m' = 80 /\
  load_le 4 (that + 0x0dd8) m' = 1 /\ load_le 4 (that + 0x0ddc) m' = 10 /\
  load_le 4 (that + 0x1164) m' = 8 /\ load_le 8 (that + 0x1150) m' = 0x1C2000003E8.
Proof. cbn [foldl topologyTGL]. split_and!; read_member. Qed.

Lemma finishGPUInfo_run real ret w :
  exists w', finishGPUInfo real ret w =
    Done (ret || (negb real && shouldForceFullMetalPath)) w' /\ w_mem w' = w_mem w.
Proof.
  assert (Hr : exists w', finishGPUInfo real ret w =
    Done (ret || (negb real && shouldForceFullMetalPath)) w').
  { unfold finishGPUInfo. destruct (negb real && shouldForceFullMetalPath && negb ret) eqn:Hc.
    - apply andb_true_iff in Hc as [-> _]. rewrite orb_true_r.
      edestruct (total_then (_ ← when isTglTraceEnabled (set_bringup (fun st => st <| topologyOk := true |>));
         dumpTglGpuBringupState "getGPUInfo POST forced-success") true w) as (w' & E & _); [|by exists w'].
      unfold set_bringup. total_auto.
    - edestruct (total_then (dumpTglGpuBringupState "getGPUInfo POST") ret w) as (w' & E & _); [total_auto|].
      exists w'. destruct ret, (negb real && shouldForceFullMetalPath); done. }
  destruct Hr as (w' & E). exists w'. split; [done|].
  refine (respects_done (keeps w_mem) _ _ _ _ _ E). unfold finishGPUInfo. respects_auto.
Qed.

#[local] Instance ng_dump_safe : DumpSafe (keeps w_ng).
Proof.
  split; [exact _| |done|done]. intros r.
  apply respects_readReg32; [exact _|intros; by apply keeps_ptr_read|intros; by apply keeps_ptr_write].
Qed.
Lemma total_bypass : total bypassGuC.
Proof. unfold bypassGuC, traced, set_bringup. total_auto. Qed.

Lemma dump_tracedRcs R `{!DumpSafe R} : respects R (traced dumpRcsEngineActivationState).
Proof. unfold traced. respects_auto. Qed.
Lemma dump_bypass R `{!DumpSafe R} : respects R bypassGuC.
Proof. unfold bypassGuC, traced. respects_auto. Qed.

(** No original function is called. *)
Definition no_call (e : event) : Prop := match e with ECall _ _ => False | _ => True end.
#[local] Instance no_call_dump_safe : DumpSafe (emits no_call).
Proof.
  split; [exact _| |intros; apply emits_set_g11|intros; apply emits_set_g11].
  intros r. by apply emits_readReg32.
Qed.

(** ** Properties *)

(** [setAsyncSliceCount] accepts exactly the slice, subslice and EU counts of
    the hardware: on anything else it panics before touching the object or the register,
    and otherwise it records the configuration and writes the counts to their fields
    (bits 3:0, 7:4 and 11:8). *)
Theorem async_slice_count_encoding (that configRaw : Z) (w : world) :
  if validConfig configRaw then
    exists m, m = store_le 4 (that + 0x12a0) configRaw (w_mem w) /\
      setAsyncSliceCount that configRaw w = Done () (w <| w_mem :=
        store_le 4 (load_le 8 (that + 0x1240) m + 0xa204)
          (byteAt configRaw 0 + 16 * byteAt configRaw 8 + 256 * byteAt configRaw 16) m |>)
  else exists msg, setAsyncSliceCount that configRaw w = Panicked msg w.
Proof.
  unfold setAsyncSliceCount, mbind, M_bind, orPanic, validConfig. cbv zeta.
  fold (byteAt configRaw 0) (byteAt configRaw 8) (byteAt configRaw 16).
  rewrite sliceField_spec, subsliceField_spec, euField_spec.
  destruct (bool_decide_reflect (byteAt configRaw 0 ∈ [1; 2])) as [Hs|]; [|simpl; by eexists].
  destruct (bool_decide_reflect (byteAt configRaw 8 ∈ [2; 4; 5; 6; 8; 10])) as [Hss|]; [|simpl; by eexists].
  destruct (bool_decide_reflect (byteAt configRaw 16 ∈ [1; 2; 3; 4; 5; 6; 8])) as [He|]; [|simpl; by eexists].
  eexists. split; [reflexivity|]. rewrite <-(fields_disjoint _ _ _ Hs Hss He). done.
Qed.

(** After [getGPUInfo] the accelerator object describes one slice of ten
    subslices with eight EUs each: the EU total is their product, the mirror fields agree,
    and the configuration they make up is one [setAsyncSliceCount] accepts. On a spoofed
    platform in full-Metal mode a failure of the original is reported as success. *)
Theorem gpu_topology_consistent (that r : Z) (w w1 : world) :
  original "ogetGPUInfo" [that] (emit (ECall "ogetGPUInfo" [that]) w) = (r, w1) ->
  exists ret w' (field : Z -> Z), getGPUInfo that w = Done ret w' /\
    field = (fun off => load_le 4 (that + off) (w_mem w')) /\
    field 0x1124 = field 0x116c * field 0x1158 * field 0x115c /\
    field 0x0dd8 = field 0x115c /\ field 0x0ddc = field 0x1158 /\
    validConfig (field 0x115c .| (field 0x1158 .<< 8) .| (field 0x116c .<< 16)) = true /\
    ret = truthy (u8 r) ||
          (negb (ngCallback (w_ng w1) && isRealTGL (w_ng w1)) && shouldForceFullMetalPath).
Proof.
  intros Ho. unfold getGPUInfo, mbind, M_bind, call, ng, gets. rewrite Ho. cbv zeta.
  set (m1 := when isTglTraceEnabled _ w1).
  assert (Hm1 : exists w2, m1 = Done () w2 /\ w_mem w2 = w_mem w1).
  { subst m1. destruct isTglTraceEnabled; by eexists. }
  destruct Hm1 as (w2 & -> & M2). destruct (setMembers_run that topologyTGL w2) as (w3 & -> & M3 & _).
  destruct (topology_loads that (w_mem w2)) as (F1 & F2 & F3 & F4 & F5 & F6 & _). rewrite <-M3 in *.
  destruct (finishGPUInfo_run (ngCallback (w_ng w1) && isRealTGL (w_ng w1)) (truthy (u8 r)) w3)
    as (w' & -> & M4).
  eexists _, w', (fun off => load_le 4 (that + off) (w_mem w')). split; [reflexivity|].
  rewrite M4, F1, F2, F3, F4, F5, F6. by split_and!.
Qed.

(** On a spoofed platform that did not opt into GuC, no GuC firmware is loaded
    and no GuC scheduler is set up: both hooks report success to the driver without
    calling its code. *)
Theorem guc_bypassed_when_spoofed (that : Z) (w : world) :
  ngCallback (w_ng w) = true -> isRealTGL (w_ng w) = false -> tryGuC (w_ng w) = false ->
  (exists w', loadGuCBinary that w = Done 1 w' /\ emits no_call w w') /\
  wrapInitSchedControl that w = Done true w.
Proof.
  intros Hc Hr Ht. split.
  - assert (T1 : total (traced dumpRcsEngineActivationState)) by (unfold traced; total_auto).
    destruct (T1 w) as ([] & w1 & E1). destruct (total_dumpBringup "loadGuCBinary PRE" w1) as ([] & w2 & E2).
    destruct (total_bypass w2) as ([] & w3 & E3).
    assert (N2 : w_ng w2 = w_ng w).
    { pose proof (respects_done (keeps w_ng) _ _ _ _ (dump_tracedRcs _) E1) as N1.
      pose proof (respects_done (keeps w_ng) _ _ _ _ (dump_state _ _) E2) as N2. unfold keeps in *. congruence. }
    exists w3. split.
    + unfold loadGuCBinary, mbind, M_bind, ng, gets. rewrite E1, E2, N2, Hr, Ht. cbn [orb]. by rewrite E3.
    + etrans; [exact (respects_done (emits no_call) _ _ _ _ (dump_tracedRcs _) E1)|].
      etrans; [exact (respects_done (emits no_call) _ _ _ _ (dump_state _ _) E2)|].
      exact (respects_done (emits no_call) _ _ _ _ (dump_bypass _) E3).
  - unfold wrapInitSchedControl, mbind, M_bind, ng, gets, shouldUseSpoofedSafeSchedulerPolicy.
    by rewrite Hc, Hr, Ht.
Qed.

(** The firmware-load window is scoped: the scheduler set-up runs with the
    window closed and leaves it as it found it, and a load closes it when it returns. *)
Theorem firmware_window_scoped (that : Z) (w : world) :
  (shouldUseSpoofedSafeSchedulerPolicy (w_ng w) = false ->
   exists r w' wi, wrapInitSchedControl that w = Done r w' /\
     performingFirmwareLoad (w_g11 w') = performingFirmwareLoad (w_g11 w) /\
     performingFirmwareLoad (w_g11 wi) = false /\
     w' = (original "orgInitSchedControl" [that] wi).2
            <| w_g11 ::= fun g => g <| performingFirmwareLoad := performingFirmwareLoad (w_g11 w) |> |>) /\
  (exists r w', wrapLoadGuCBinary that w = Done r w' /\ performingFirmwareLoad (w_g11 w') = false).
Proof.
  split.
  - intros Hs. unfold wrapInitSchedControl, mbind, M_bind, ng, gets, g11, gets, call, set_g11, modify.
    rewrite Hs. set (wi := emit _ _). destruct (original "orgInitSchedControl" [that] wi) as [r w1] eqn:E.
    eexists _, _, wi. rewrite E. split; [reflexivity|]. done.
  - unfold wrapLoadGuCBinary, mbind, M_bind, g11, gets, call, set_g11, modify.
    destruct (truthy (firmwareSizePointer (w_g11 w))); cbn [when]; unfold mret, M_ret;
      destruct (original "orgLoadGuCBinary" _ _) as [r w1]; eexists _, _; (split; [reflexivity|done]).
Qed.
End facts.

(** ** Evaluations *)
Import Sim.
#[local] Existing Instance plat.
Lemma gpu_topology_consistent_witness :
  exists ret w' (field : Z -> Z), getGPUInfo 0x10000 (sim_world []) = Done ret w' /\
    field = (fun off => load_le 4 (0x10000 + off) (w_mem w')) /\
    field 0x1124 = field 0x116c * field 0x1158 * field 0x115c /\
    field 0x0dd8 = field 0x115c /\ field 0x0ddc = field 0x1158 /\
    validConfig (field 0x115c .| (field 0x1158 .<< 8) .| (field 0x116c .<< 16)) = true /\
    ret = truthy (u8 0) || (negb (true && false) && shouldForceFullMetalPath).
Proof.
  apply (gpu_topology_consistent 0x10000 0 (sim_world []) (emit (ECall "ogetGPUInfo" [0x10000]) (sim_world []))).
  reflexivity.
Defined.
Lemma guc_bypassed_when_spoofed_witness :
  (exists w', loadGuCBinary 1 (sim_world []) = Done 1 w' /\ emits no_call (sim_world []) w') /\
  wrapInitSchedControl 1 (sim_world []) = Done true (sim_world []).
Proof. apply (guc_bypassed_when_spoofed 1 (sim_world [])); reflexivity. Defined.
Lemma firmware_window_scoped_witness :
  exists r w', wrapLoadGuCBinary 1 (sim_world []) = Done r w' /\ performingFirmwareLoad (w_g11 w') = false.
Proof. apply (firmware_window_scoped 1 (sim_world [])). Defined.
Example slice_config : validConfig 0x080A01 = true /\ validConfig 0x080701 = false.
Proof. by vm_compute. Qed.
End Firmware.
