(* ===== verification/Display.v ===== *)
(** * Displays (TGL.cpp, TGL.hpp)

    Gating of external displays, the display-pipe policy published in the registry, the
    display engine set-up around the framebuffer driver's start, and the hooks that hand
    the saved controller to the driver's objects. *)
From S2P Require Import Prelude Machine Memory Sim Regs Mmio BootArgs RegHooks Reset.
Import Regs Mmio BootArgs RegHooks Reset.

Module Display.
(** ** Bit iteration *)

(** [__builtin_ctzl] on a non-zero 64-bit word. *)
Fixpoint ctz_from (fuel : nat) (v i : Z) : Z :=
  match fuel with
  | O => 64
  | S fuel => if Z.testbit v i then i else ctz_from fuel v (i + 1)
  end.
Definition ctzl (v : Z) : Z := ctz_from 64 v 0.
(** [TGL.hpp find_first_bit] *)
Definition find_first_bit (val size : Z) : Z :=
  if (val =? 0) || (size =? 0) then size else ctzl val.
(** [TGL.hpp find_next_bit] *)
Definition find_next_bit (val size offset : Z) : Z :=
  if size <=? offset then size
  else
    let v := val .& u64 (Z.ones 64 .<< offset) in
    if v =? 0 then size else ctzl v.
Fixpoint bitsFrom (fuel : nat) (val size bit : Z) : list Z :=
  match fuel with
  | O => []
  | S fuel =>
    if bit <? size then bit :: bitsFrom fuel val size (find_next_bit val size (bit + 1)) else []
  end.
(** The values the loop variable takes. [TGL.hpp:492-495 for_each_set_bit] *)
Definition for_each_set_bit (val size : Z) : list Z := bitsFrom 65 val size (find_first_bit val size).

(** [TGL.hpp:143-143 _PICK_EVEN] *)
Definition PICK_EVEN (index a b : Z) : Z := a + index * (b - a).
(** [TGL.hpp:185-186 _PICK_EVEN_2RANGES] *)
Definition PICK_EVEN_2RANGES (index c_index a b c d : Z) : Z := PICK_EVEN (index - c_index) c d.
(** [TGL.hpp:188-194 MBUS_ABOX_CTL] *)
Definition MBUS_ABOX_CTL (x : Z) : Z := PICK_EVEN_2RANGES x 2 0x45038 0x45048 0x4504C 0x4504C.
(** [TGL.hpp:145-149 BW_BUDDY_CTL] *)
Definition BW_BUDDY_CTL (x : Z) : Z := PICK_EVEN x 0x45130 0x45140.
(** [TGL.hpp:150-154 BW_BUDDY_PAGE_MASK] *)
Definition BW_BUDDY_PAGE_MASK (x : Z) : Z := PICK_EVEN x 0x45134 0x45144.

(** Rows of the page-mask table: channels, DRAM type, mask; the last row ends it.
    [TGL.hpp:591-601 tgl_buddy_page_masks] *)
Definition INTEL_DRAM_DDR4 : Z := 2.
Definition INTEL_DRAM_LPDDR4 : Z := 4.
Definition INTEL_DRAM_DDR5 : Z := 5.
Definition INTEL_DRAM_LPDDR5 : Z := 6.
Definition tgl_buddy_page_masks : list (Z * Z * Z) :=
  [ (1, INTEL_DRAM_DDR4, 0xF); (1, INTEL_DRAM_DDR5, 0xF);
    (2, INTEL_DRAM_LPDDR4, 0x1C); (2, INTEL_DRAM_LPDDR5, 0x1C);
    (2, INTEL_DRAM_DDR4, 0x1F); (2, INTEL_DRAM_DDR5, 0x1E);
    (4, INTEL_DRAM_LPDDR4, 0x38); (4, INTEL_DRAM_LPDDR5, 0x38); (0, 0, 0) ].
(** The mask of the first row that matches or ends the table.
    [TGL.cpp:5908-5911 allocateDisplayResources] *)
Fixpoint buddyMask (channels type : Z) (t : list (Z * Z * Z)) : Z :=
  match t with
  | [] => 0
  | (c, ty, m) :: t =>
    if negb (m =? 0) then if (c =? channels) && (ty =? type) then m else buddyMask channels type t
    else m
  end.

Section defs.
Context `{Platform}.

Definition rmw (reg clear set : Z) : M unit := _ ← intel_de_rmw reg clear set; mret ().

Definition abox_mask : Z := GENMASK 2 1.
Definition aboxMask : Z :=
  MBUS_ABOX_BT_CREDIT_POOL1_MASK .| MBUS_ABOX_BT_CREDIT_POOL2_MASK .| MBUS_ABOX_B_CREDIT_MASK .|
  MBUS_ABOX_BW_CREDIT_MASK.
Definition aboxVal : Z :=
  MBUS_ABOX_BT_CREDIT_POOL1 16 .| MBUS_ABOX_BT_CREDIT_POOL2 16 .| MBUS_ABOX_B_CREDIT 1 .|
  MBUS_ABOX_BW_CREDIT 1.
(** [TGL.cpp:5843-5854 allocateDisplayResources] *)
Definition displayCoreInit : M unit :=
  _ ← writeReg32 DC_STATE_EN 0;
  _ ← rmw SOUTH_DSPCLK_GATE_D 0 PCH_DPMGUNIT_CLOCK_GATE_DISABLE;
  rmw HSW_NDE_RSTWRN_OPT RESET_PCH_HANDSHAKE_ENABLE RESET_PCH_HANDSHAKE_ENABLE.
(** [TGL.cpp:5858-5878 allocateDisplayResources] *)
Definition dbufInit : M unit :=
  _ ← rmw DBUF_CTL_S1 DBUF_TRACKER_STATE_SERVICE_MASK (DBUF_TRACKER_STATE_SERVICE 8);
  _ ← rmw DBUF_CTL_S2 DBUF_TRACKER_STATE_SERVICE_MASK (DBUF_TRACKER_STATE_SERVICE 8);
  _ ← rmw DBUF_CTL_S1 DBUF_POWER_REQUEST DBUF_POWER_REQUEST;
  _ ← readReg32 DBUF_CTL_S1;
  _ ← delay_us 10;
  _ ← rmw DBUF_CTL_S2 DBUF_POWER_REQUEST DBUF_POWER_REQUEST;
  _ ← readReg32 DBUF_CTL_S2;
  delay_us 10.
(** [TGL.cpp:5882-5899 allocateDisplayResources] *)
Definition mbusInit : M unit :=
  iterM (for_each_set_bit abox_mask 8) (fun i => rmw (MBUS_ABOX_CTL i) aboxMask aboxVal).
(** [TGL.cpp:5903-5921 allocateDisplayResources] *)
Definition buddyInit : M unit :=
  iterM (for_each_set_bit abox_mask 8) (fun i =>
    _ ← writeReg32 (BW_BUDDY_PAGE_MASK i) (buddyMask 2 INTEL_DRAM_DDR4 tgl_buddy_page_masks);
    rmw (BW_BUDDY_CTL i) BW_BUDDY_TLB_REQ_TIMER_MASK (BW_BUDDY_TLB_REQ_TIMER 8)).
(** [TGL.cpp allocateDisplayResources] *)
Definition allocateDisplayResources (that : Z) : M Z :=
  ret ← call "oallocateDisplayResources" [that];
  _ ← displayCoreInit;
  _ ← dbufInit;
  _ ← mbusInit;
  _ ← buddyInit;
  _ ← rmw CLKREQ_POLICY CLKREQ_POLICY_MEM_UP_OVRD 0;
  mret ret.

(** ** Gating *)
(** [TGL.cpp shouldGateExternalDisplayBringup] *)
Definition shouldGateExternalDisplayBringup : M bool := ng (fun n => ngCallback n && gateExternalDisplays n).
(** [TGL.cpp isBuiltInFramebufferObject] *)
Definition isBuiltInFramebufferObject (framebuffer : Z) : M bool :=
  if framebuffer =? 0 then mret false else i ← load 4 (framebuffer + 0x1dc); mret (i =? 0).
(** [TGL.cpp framebufferKindString] *)
Definition framebufferKindString (framebuffer : Z) : M string :=
  b ← isBuiltInFramebufferObject framebuffer; mret (if b : bool then "BuiltInEDP" else "External").
(** [TGL.cpp setFramebufferGateState] *)
Definition setFramebufferGateState (framebuffer : Z) (connected : bool) : M unit :=
  if framebuffer =? 0 then mret () else store 1 (framebuffer + 0x1e0) (b2z connected).

(** Whether a hook must turn an external framebuffer away. *)
Definition gated (that : Z) : M bool :=
  andM shouldGateExternalDisplayBringup (b ← isBuiltInFramebufferObject that; mret (negb b)).
Definition publishGate (that : Z) (kind phase : string) : M unit :=
  when (isClass "IOService" that)
    (_ ← setProperty that "NGreenConnectorKind" (PString kind);
     setProperty that "NGreenBringupPhase" (PString phase)).
Definition refuse (that : Z) : M unit :=
  _ ← setFramebufferGateState that false; publishGate that "External" "FBOnly".
Definition publishReady (that : Z) : M unit :=
  when (isClass "IOService" that)
    (kind ← framebufferKindString that;
     _ ← setProperty that "NGreenConnectorKind" (PString kind);
     gate ← shouldGateExternalDisplayBringup;
     setProperty that "NGreenBringupPhase" (PString (if gate : bool then "InternalReady" else "ExternalReady"))).
Definition openBuiltIn (that : Z) : M unit :=
  b ← isBuiltInFramebufferObject that; when b (setFramebufferGateState that true).

(** [TGL.cpp getOnlineInfo] *)
Definition getOnlineInfo (that displayPath online changed : Z) : M unit :=
  _ ← call "ogetOnlineInfo" [that; displayPath; online; changed];
  g ← gated that;
  if g : bool then
    _ ← when (truthy online) (store 1 online 0);
    _ ← when (truthy changed) (store 1 changed 0);
    refuse that
  else
    _ ← when (truthy online) (store 1 online 1);
    _ ← setFramebufferGateState that true;
    publishReady that.
(** [TGL.cpp enableController] *)
Definition enableController (that : Z) : M Z :=
  g ← gated that;
  if g : bool then _ ← refuse that; mret 0
  else
    _ ← openBuiltIn that; _ ← publishReady that;
    ret ← call "oenableController" [that]; mret (u8 ret).
(** [TGL.cpp setDisplayMode] *)
Definition setDisplayMode (that param_1 param_2 : Z) : M Z :=
  g ← gated that;
  if g : bool then _ ← refuse that; mret 0
  else
    _ ← openBuiltIn that; _ ← publishReady that;
    ret ← call "osetDisplayMode" [that; param_1; param_2]; mret (u8 ret).
(** [TGL.cpp connectionChanged] *)
Definition connectionChanged (that : Z) : M Z :=
  g ← gated that;
  if g : bool then _ ← refuse that; mret 0
  else
    r ← call "oconnectionChanged" [that];
    let ret := u8 r in
    _ ← when (truthy ret) (openBuiltIn that);
    _ ← publishReady that;
    mret ret.

(** ** Display pipe policy *)
(** [TGL.cpp createDisplayPipeCapabilityDict] *)
Definition createDisplayPipeCapabilityDict (enabled : bool) : option prop :=
  if allocOk "OSDictionary" then
    Some (PDict [("DisplayPipeSupported", PBool enabled); ("TransactionsSupported", PBool enabled)])
  else None.
(** [TGL.cpp applyDisplayPipePolicy] *)
Definition applyDisplayPipePolicy (entry : Z) : M unit :=
  if entry =? 0 then mret ()
  else match createDisplayPipeCapabilityDict (negb isDisplayPipeForceDisabled) with
       | None => mret ()
       | Some dpCaps => setProperty entry "IOAccelDisplayPipeCapabilities" dpCaps
       end.
(** [TGL.cpp publishBootDisplayProperties] *)
Definition publishBootDisplayProperties (framebuffer framebufferIndex : Z) : M unit :=
  if framebuffer =? 0 then mret ()
  else
    _ ← setProperty framebuffer "AAPL,DisplayPipe" (PNumber 32 framebufferIndex);
    when (framebufferIndex =? 0) (setProperty framebuffer "AAPL,boot-display" (PBool true)).
(** A string is only published when it is not there yet and could be allocated. *)
Definition publishOnce (obj : Z) (key text : string) : M unit :=
  p ← getProperty obj key;
  when (negb (bool_decide (is_Some p)) && allocOk "OSString") (setProperty obj key (PString text)).
(** [TGL.cpp publishFramebufferTriageResources] *)
Definition publishFramebufferTriageResources : M unit :=
  let resources := fromPath "/IOResources" in
  if resources =? 0 then mret ()
  else
    _ ← publishOnce resources "FB_Triage" "FB Driver Info :  56 0 ff 51 54 52 54 53";
    publishOnce resources "Triage" "3D Debug Info: 1 223".

(** A display machine is created when the accelerator has none.
    [TGL.cpp:421-438 ensureDisplayPipeBacking] *)
Definition rescueDisplayMachine (that displayMachine : Z) : M Z :=
  if (displayMachine =? 0) && resolved "oNewDisplayMachine" && resolved "oDisplayMachineInit" then
    dm ← call "oNewDisplayMachine" [that];
    if dm =? 0 then mret 0
    else
      initOk ← call "oDisplayMachineInit" [dm; that];
      if truthy (u8 initOk) then _ ← store 8 (that + 0x378) dm; mret dm
      else _ ← when (isClass "OSObject" dm) (_ ← call "release" [dm]; mret ()); mret 0
  else mret displayMachine.
(** [TGL.cpp ensureDisplayPipeBacking] *)
Definition ensureDisplayPipeBacking (that : Z) : M unit :=
  if that =? 0 then mret ()
  else
    let p := providerOf that in
    let provider := if isClass "IOPCIDevice" p then p else 0 in
    dm0 ← load 8 (that + 0x378);
    displayMachine ← rescueDisplayMachine that dm0;
    if displayMachine =? 0 then mret ()
    else
      _ ← when (truthy provider && resolved "oDisplayMachineStart")
            (_ ← call "oDisplayMachineStart" [displayMachine; provider]; mret ());
      gate ← shouldGateExternalDisplayBringup;
      if gate : bool then setProperty that "NGreenExternalGateActive" (PBool true)
      else when (resolved "oDisplayMachineProbeDisplayPipes")
             (_ ← call "oDisplayMachineProbeDisplayPipes" [displayMachine]; mret ()).

(** Names of the services worth logging. [TGL.cpp isServicePublishTraceTarget] *)
Definition contains (needle : string) (s : string) : bool :=
  match String.index 0 needle s with Some _ => true | None => false end.
Definition traceTargetName (s : string) : bool :=
  String.eqb s "IntelAccelerator" || String.eqb s "IGAccelDevice" || contains "DisplayPipe" s.
(** [TGL.cpp isServicePublishTraceTarget] *)
Definition isServicePublishTraceTarget (name cls : option string) : bool :=
  from_option traceTargetName false name || from_option traceTargetName false cls.
(** Only the sequence number is kept: the walk over the service's neighbours goes to the log.
    [TGL.cpp:530-638 logServicePublishSnapshot] *)
Definition logServicePublishSnapshot (svc : Z) : M unit :=
  if svc =? 0 then mret ()
  else set_g11 (fun g => g <| gServicePublishTraceSeq ::= fun n => u32 (n + 1) |>).
End defs.

(** ** Bit iteration visits exactly the set bits *)
Lemma ctz_from_spec fuel v i :
  (forall k, i <= k < i + Z.of_nat fuel -> Z.testbit v k = false) /\ ctz_from fuel v i = 64 \/
  i <= ctz_from fuel v i < i + Z.of_nat fuel /\ Z.testbit v (ctz_from fuel v i) = true /\
  forall k, i <= k < ctz_from fuel v i -> Z.testbit v k = false.
Proof.
  revert i. induction fuel as [|fuel IH]; intros i; cbn [ctz_from]; [left; split; [intros; lia|done]|].
  destruct (Z.testbit v i) eqn:Hi; [right; split_and!; try done; intros; lia|].
  destruct (IH (i + 1)) as [[Hk Hr]|(Hr & Ht & Hk)].
  - left. split; [|done]. intros k ?. destruct (Z.eq_dec k i) as [->|]; [done|]. apply Hk. lia.
  - right. split_and!; [lia|lia|done|]. intros k ?. destruct (Z.eq_dec k i) as [->|]; [done|]. apply Hk. lia.
Qed.
Lemma ctzl_spec v : 0 <= v < 2 ^ 64 -> v <> 0 ->
  0 <= ctzl v < 64 /\ Z.testbit v (ctzl v) = true /\ forall k, 0 <= k < ctzl v -> Z.testbit v k = false.
Proof.
  intros Hv Hne. destruct (ctz_from_spec 64 v 0) as [[Hk _]|Hs]; [|exact Hs].
  exfalso. apply Hne, Z.bits_inj'. intros k Hk0. rewrite Z.bits_0.
  destruct (Z_lt_le_dec k 64); [apply Hk; lia|by apply (testbit_small v 64)].
Qed.

Definition next_set (val size off r : Z) : Prop :=
  off <= r /\ (forall k, off <= k < r -> k < size -> Z.testbit val k = false) /\
  (r < size -> Z.testbit val r = true).
Lemma find_first_spec val size : 0 <= val < 2 ^ 64 -> 0 <= size <= 64 ->
  next_set val size 0 (find_first_bit val size).
Proof.
  intros Hv Hs. unfold find_first_bit, next_set. destruct (Z.eqb_spec val 0) as [->|Hne].
  { simpl. split_and!; [lia|intros; apply Z.bits_0|intros; lia]. }
  destruct (Z.eqb_spec size 0) as [->|]; [simpl; split_and!; intros; lia|]. simpl.
  destruct (ctzl_spec val Hv Hne) as (? & ? & Hk). split_and!; [lia| |done]. intros k ? ?. apply Hk. lia.
Qed.
Lemma find_next_spec val size off : 0 <= val < 2 ^ 64 -> 0 <= off -> 0 <= size <= 64 -> off <= size ->
  next_set val size off (find_next_bit val size off).
Proof.
  intros Hv Ho Hs Hle. unfold find_next_bit, next_set.
  destruct (Z.leb_spec size off); [split_and!; intros; lia|]. cbv zeta.
  set (v := val .& u64 (Z.ones 64 .<< off)).
  assert (Hb : forall k, 0 <= k -> Z.testbit v k = Z.testbit val k && (off <=? k)).
  { intros k Hk. subst v. rewrite Z.land_spec, u64_testbit, Z.shiftl_spec by lia.
    destruct (Z.leb_spec off k).
    - rewrite Z.testbit_ones_nonneg by lia. destruct (Z.ltb_spec k 64).
      + rewrite (proj2 (Z.ltb_lt (k - off) 64)) by lia. btauto.
      + rewrite (testbit_small val 64) by lia. btauto.
    - rewrite (Z.testbit_neg_r _ (k - off)) by lia. btauto. }
  assert (Hvr : 0 <= v < 2 ^ 64) by (apply land_range_l; lia).
  destruct (Z.eqb_spec v 0) as [Hz|Hne].
  - split_and!; [lia| |intros; lia]. intros k Hk _. specialize (Hb k ltac:(lia)). rewrite Hz, Z.bits_0 in Hb.
    rewrite (proj2 (Z.leb_le off k)), andb_true_r in Hb by lia. done.
  - destruct (ctzl_spec v Hvr Hne) as (Hr & Ht & Hk). rewrite Hb in Ht by lia.
    apply andb_true_iff in Ht as [Ht Hoff%Z.leb_le]. split_and!; [done| |done].
    intros k Hk1 _. specialize (Hk k ltac:(lia)). rewrite Hb in Hk by lia.
    rewrite (proj2 (Z.leb_le off k)), andb_true_r in Hk by lia. done.
Qed.
Definition setBits (val size from : Z) : list Z :=
  List.filter (Z.testbit val) (seqZ from (size - from)).
Lemma setBits_skip val size from r : 0 <= from -> from <= r ->
  (forall k, from <= k < r -> k < size -> Z.testbit val k = false) ->
  setBits val size from = setBits val size r.
Proof.
  intros Hf Hr Hk. unfold setBits. remember (Z.to_nat (r - from)) as n.
  revert from Hf Hr Hk Heqn. induction n as [|n IH]; intros from Hf Hr Hk Heqn.
  { replace from with r by lia. done. }
  destruct (Z_le_dec size from).
  { rewrite !seqZ_nil by lia. done. }
  rewrite seqZ_cons by lia. cbn [List.filter]. rewrite Hk by lia.
  replace (Z.pred (size - from)) with (size - Z.succ from) by lia.
  apply IH; [lia|lia| |lia]. intros. apply Hk; lia.
Qed.
Lemma bitsFrom_spec fuel val size bit : 0 <= val < 2 ^ 64 -> 0 <= size <= 64 -> 0 <= bit ->
  (bit < size -> Z.testbit val bit = true) -> size - bit < Z.of_nat fuel ->
  bitsFrom fuel val size bit = setBits val size bit.
Proof.
  intros Hv Hs. revert bit. induction fuel as [|fuel IH]; intros bit Hb Ht Hf; cbn [bitsFrom].
  { unfold setBits. by rewrite seqZ_nil by lia. }
  destruct (Z.ltb_spec bit size) as [Hlt|Hge]; [|unfold setBits; by rewrite seqZ_nil by lia].
  destruct (find_next_spec val size (bit + 1)) as (Hr & Hk & Hset); [lia..|].
  rewrite IH; [|lia|done|lia].
  unfold setBits at 2. rewrite seqZ_cons by lia. cbn [List.filter]. rewrite Ht by done. f_equal.
  replace (Z.pred (size - bit)) with (size - Z.succ bit) by lia.
  change (setBits val size (find_next_bit val size (bit + 1)) = setBits val size (Z.succ bit)).
  symmetry. apply setBits_skip; [lia|lia|]. intros. apply Hk; lia.
Qed.
Lemma for_each_set_bit_set val size : 0 <= val < 2 ^ 64 -> 0 <= size <= 64 ->
  for_each_set_bit val size = setBits val size 0.
Proof.
  intros Hv Hs. destruct (find_first_spec val size Hv Hs) as (Hr & Hk & Ht).
  unfold for_each_set_bit. rewrite bitsFrom_spec by (done || lia).
  symmetry. by apply setBits_skip.
Qed.

(** C39 (equivalence). The bit loop of the display set-up visits exactly the set bits below
    its bound, each once and in increasing order, for every 64-bit word and every bound of
    at most 64. *)
Theorem for_each_set_bit_correct (val size : Z) :
  0 <= val < 2 ^ 64 -> 0 <= size <= 64 ->
  for_each_set_bit val size = List.filter (Z.testbit val) (seqZ 0 size).
Proof. intros Hv Hs. rewrite for_each_set_bit_set by done. unfold setBits. by rewrite Z.sub_0_r. Qed.
Lemma for_each_set_bit_correct_witness :
  for_each_set_bit 0x8000000000000006 64 = List.filter (Z.testbit 0x8000000000000006) (seqZ 0 64).
Proof. apply (for_each_set_bit_correct 0x8000000000000006 64); lia. Defined.

(** ** Gating *)

(** The hooks of a framebuffer that are refused while external displays are gated. *)
Inductive fbHook := FEnable | FSetMode (mode depth : Z) | FChanged.
Section gating.
Context `{Platform}.
Definition runFb (h : fbHook) (that : Z) : M Z :=
  match h with
  | FEnable => enableController that
  | FSetMode mode depth => setDisplayMode that mode depth
  | FChanged => connectionChanged that
  end.
(** The connector number of a framebuffer object; 0 is the built-in panel. *)
Definition fbIndex (that : Z) (w : world) : Z := load_le 4 (that + 0x1dc) (w_mem w).
Definition gateByte (that : Z) (w : world) : Z := byte (that + 0x1e0) w.

Lemma gated_run that w : that <> 0 ->
  gated that w = Done (ngCallback (w_ng w) && gateExternalDisplays (w_ng w) && negb (fbIndex that w =? 0)) w.
Proof.
  intros Ht. unfold gated, andM, shouldGateExternalDisplayBringup, isBuiltInFramebufferObject, mbind, M_bind, ng, gets.
  destruct (ngCallback (w_ng w) && gateExternalDisplays (w_ng w)); [|done].
  by rewrite (proj2 (Z.eqb_neq _ _) Ht).
Qed.
(** What a refusal leaves: the gate byte cleared and, on a service, the two properties set. *)
Definition refusal (that : Z) (w w' : world) : Prop :=
  let ios := isClass "IOService" that in
  w_mem w' = <[that + 0x1e0 := 0]> (w_mem w) /\
  w_reg w' = (if ios then <[(that, "NGreenBringupPhase") := PString "FBOnly"]>
                            (<[(that, "NGreenConnectorKind") := PString "External"]> (w_reg w))
              else w_reg w) /\
  w_tr w' = (if ios then [EProp that "NGreenBringupPhase" (PString "FBOnly");
                          EProp that "NGreenConnectorKind" (PString "External")] else []) ++ w_tr w /\
  w_hw w' = w_hw w /\ w_ng w' = w_ng w /\ w_g11 w' = w_g11 w.
Lemma refuse_run that w : that <> 0 -> exists w', refuse that w = Done () w' /\ refusal that w w'.
Proof.
  intros Ht. unfold refuse, setFramebufferGateState, publishGate, mbind, M_bind, refusal.
  rewrite (proj2 (Z.eqb_neq _ _) Ht), store1.
  destruct (isClass "IOService" that); cbn [when]; eexists; repeat (split; [reflexivity|]); reflexivity.
Qed.

(** C34 (safety). While external displays are gated, enabling an external framebuffer,
    setting its mode and reporting a connection change are refused before the driver:
    each returns 0, and all it leaves is the framebuffer's gate byte cleared and, where the
    framebuffer is an I/O Kit service, its registry entry marked as an external,
    framebuffer-only connector; no other byte of memory, no other property, no register and
    no state of the plugin changes. Asking for the online state ([getOnlineInfo]) is not
    covered: it calls the driver first. *)
Theorem external_display_refused (h : fbHook) (that : Z) (w : world) :
  that <> 0 -> ngCallback (w_ng w) = true -> gateExternalDisplays (w_ng w) = true ->
  fbIndex that w <> 0 ->
  exists w', runFb h that w = Done 0 w' /\ refusal that w w'.
Proof.
  intros Ht Hc Hg Hi. destruct (refuse_run that w Ht) as (w' & E & Hr). exists w'. split; [|exact Hr].
  pose proof (gated_run that w Ht) as G. rewrite Hc, Hg, (proj2 (Z.eqb_neq _ _) Hi) in G.
  cbn [andb negb] in G.
  destruct h; cbn [runFb]; unfold enableController, setDisplayMode, connectionChanged, mbind, M_bind;
    rewrite G; by rewrite E.
Qed.

(** The built-in panel is never gated: whatever the gate says, enabling it
    or setting its mode opens its gate byte and then reaches the driver, whose result is
    returned. *)
Theorem builtin_display_served (mode : option (Z * Z)) (that : Z) (w : world) :
  that <> 0 -> fbIndex that w = 0 ->
  exists w1, gateByte that w1 = 1 /\ w_ng w1 = w_ng w /\
    (match mode with None => enableController that w
                   | Some (m, d) => setDisplayMode that m d w end) =
    (ret ← (match mode with None => call "oenableController" [that]
                          | Some (m, d) => call "osetDisplayMode" [that; m; d] end); mret (u8 ret)) w1.
Proof.
  intros Ht Hi. pose proof (gated_run that w Ht) as G. rewrite Hi, andb_false_r in G.
  assert (Ho : openBuiltIn that w = Done () (w <| w_mem ::= <[that + 0x1e0 := u8 1]> |>)).
  { unfold openBuiltIn, isBuiltInFramebufferObject, setFramebufferGateState, mbind, M_bind.
    rewrite (proj2 (Z.eqb_neq _ _) Ht), load_run. fold (fbIndex that w). by rewrite Hi. }
  set (w0 := w <| w_mem ::= _ |>) in Ho.
  assert (Hp : exists w1, publishReady that w0 = Done () w1 /\ gateByte that w1 = 1 /\ w_ng w1 = w_ng w).
  { assert (B : gateByte that w0 = 1) by apply byte_same. unfold publishReady, gateByte in *.
    destruct (isClass "IOService" that); cbn [when]; [|by exists w0].
    unfold framebufferKindString, isBuiltInFramebufferObject, shouldGateExternalDisplayBringup, mbind, M_bind.
    rewrite (proj2 (Z.eqb_neq _ _) Ht). rewrite load_run. by eexists. }
  destruct Hp as (w1 & Ep & B1 & N1). exists w1. split; [done|]. split; [done|].
  destruct mode as [[m d]|]; unfold enableController, setDisplayMode, mbind, M_bind; by rewrite G, Ho, Ep.
Qed.

(** The register macro for the memory-bus arbiter boxes ignores its index: both
    iterations of the set-up program ABOX2, and ABOX1, which the mask asks for, is never
    written. *)
Theorem mbus_abox1_unprogrammed (w : world) :
  for_each_set_bit abox_mask 8 = [1; 2] /\ (forall x, MBUS_ABOX_CTL x = 0x4504C) /\
  emits (fun e => match e with
                  | EWr i _ => i = 0x4504C .>> 2 \/ i = mmPCIE_INDEX2 \/ i = mmPCIE_DATA2
                  | _ => True end) w (final (mbusInit w)).
Proof.
  split; [by vm_compute|]. split.
  { intros x. unfold MBUS_ABOX_CTL, PICK_EVEN_2RANGES, PICK_EVEN. lia. }
  set (P := fun e => _). revert w. change (respects (emits P) mbusInit).
  unfold mbusInit, rmw, intel_de_rmw. apply respects_iterM; [exact _|]. intros x _.
  assert (Hx : MBUS_ABOX_CTL x = 0x4504C) by (unfold MBUS_ABOX_CTL, PICK_EVEN_2RANGES, PICK_EVEN; lia).
  rewrite Hx.
  assert (Hr : forall r, respects (emits P) (readReg32 r)) by (intros; apply emits_readReg32; subst P; simpl; auto).
  assert (Hw : forall v, respects (emits P) (writeReg32 0x4504C v)).
  { intros v. apply emits_writeReg32; subst P; simpl; auto; intros Hs; by vm_compute in Hs. }
  respects_auto; auto.
Qed.
End gating.

(** ** Evaluations *)
Import Sim.
#[local] Existing Instance plat.
Definition fb_world (index : Z) : world := (sim_world []) <| w_mem := store_le 4 0x81dc index ∅ |>.
Lemma external_display_refused_witness :
  exists w', runFb (FSetMode 1 2) 0x8000 (fb_world 1) = Done 0 w' /\ refusal 0x8000 (fb_world 1) w'.
Proof.
  apply (external_display_refused (FSetMode 1 2) 0x8000 (fb_world 1));
    [lia|reflexivity|reflexivity|vm_compute; discriminate].
Defined.
Lemma builtin_display_served_witness :
  exists w1, gateByte 0x8000 w1 = 1 /\ w_ng w1 = sim_ng /\
    enableController 0x8000 (fb_world 0) = (ret ← call "oenableController" [0x8000]; mret (u8 ret)) w1.
Proof. apply (builtin_display_served None 0x8000 (fb_world 0)); [lia|reflexivity]. Defined.
End Display.
