(* ===== verification/Controller.v ===== *)
(** * Framebuffer controller start and display engine firmware (TGL.cpp)

    The hooks around the framebuffer controller: its start, which publishes the
    accelerator's personality, the display microcontroller firmware, and the hooks that
    hand the saved controller pointer to the driver's objects. *)
From Stdlib Require Import Ascii.
From S2P Require Import Prelude Machine Memory Sim Regs Mmio BootArgs RegHooks Trace Frame Engine Reset Display.
Import Regs Mmio BootArgs RegHooks Trace Engine Reset Display.

Module Controller.
(** ["%04X"] of a 16-bit value. *)
Definition hexUpper (d : Z) : string :=
  String (Ascii.ascii_of_nat (Z.to_nat (if d <? 10 then 48 + d else 55 + d))) EmptyString.
Definition hex4 (v : Z) : string :=
  hexUpper ((v .>> 12) .& 15) +:+ hexUpper ((v .>> 8) .& 15) +:+
  hexUpper ((v .>> 4) .& 15) +:+ hexUpper (v .& 15).

Section defs.
Context `{Platform}.

(** [TGL.cpp:4631-4650 AppleIntelBaseControllerstart] *)
Definition displayWorkarounds : M unit :=
  _ ← displayCoreInit;
  _ ← rmw GEN11_CHICKEN_DCPR_2 0
        (DCPR_CLEAR_MEMSTAT_DIS .| DCPR_SEND_RESP_IMM .| DCPR_MASK_LPMODE .| DCPR_MASK_MAXLATENCY_MEMUP_CLR);
  _ ← rmw GEN9_CLKGATE_DIS_0 0 DARBF_GATING_DIS;
  rmw CLKREQ_POLICY CLKREQ_POLICY_MEM_UP_OVRD 0.

(** Entries whose object could be allocated. *)
Definition strEntry (key text : string) : list (string * prop) :=
  if allocOk "OSString" then [(key, PString text)] else [].
Definition numEntry (key : string) (bits v : Z) : list (string * prop) :=
  if allocOk "OSNumber" then [(key, PNumber bits v)] else [].
Definition optEntry (key : string) (p : option prop) : list (string * prop) :=
  match p with Some p => [(key, p)] | None => [] end.

(** [TGL.cpp:4676-4682 AppleIntelBaseControllerstart] *)
Definition pciPrimaryMatch (service : Z) (w : world) : string :=
  let p := providerOf service in
  if isClass "IOPCIDevice" p then
    (Trace.snprintf 11 ("0x" +:+ hex4 (u16 (pciConfig p 2 w)) +:+ hex4 (u16 (pciConfig p 0 w)))).1
  else "0x9A498086".
Definition named (tgl : bool) (tglName iclName : string) : string := if tgl then tglName else iclName.
(** The personality. [TGL.cpp:4671-4751 AppleIntelBaseControllerstart] *)
Definition personality (tgl : bool) (primary : string) : prop :=
  PDict (
    strEntry "CFBundleIdentifier" (named tgl "com.xxxxx.driver.AppleIntelTGLGraphics" "com.apple.driver.AppleIntelICLGraphics") ++
    strEntry "IOClass" "IntelAccelerator" ++
    strEntry "IOMatchCategory" "IOAccelerator" ++
    strEntry "IOProviderClass" "IOPCIDevice" ++
    strEntry "IOPCIClassMatch" "0x03000000&0xff000000" ++
    strEntry "IOPCIPrimaryMatch" primary ++
    numEntry "IOProbeScore" 32 1000 ++
    strEntry "MetalPluginName" (named tgl "AppleIntelTGLGraphicsMTLDriver" "AppleIntelICLGraphicsMTLDriver") ++
    strEntry "IOGLBundleName" (named tgl "AppleIntelTGLGraphicsGLDriver" "AppleIntelICLGraphicsGLDriver") ++
    strEntry "IODVDBundleName" (named tgl "AppleIntelTGLGraphicsVADriver" "AppleIntelICLGraphicsVADriver") ++
    strEntry "IOSourceVersion" "0.0.0.0.0" ++
    strEntry "IOGVACodec" "Gen10" ++
    strEntry "IOGVAScaler" "Gen10" ++
    strEntry "IOGVABGRAEnc" "Gen10" ++
    numEntry "IOVARendererID" 32 17301568 ++
    optEntry "IOCFPlugInTypes"
      (if allocOk "OSDictionary" then
         Some (PDict (strEntry "ACCF0000-0000-0000-0000-000a2789904e" "IOAccelerator2D.plugin"))
       else None) ++
    optEntry "IOAccelDisplayPipeCapabilities" (createDisplayPipeCapabilityDict (negb isDisplayPipeForceDisabled))).
(** [TGL.cpp:4669-4769 AppleIntelBaseControllerstart] *)
Definition injectPersonality (service : Z) : M unit :=
  when (allocOk "OSDictionary")
    (tgl ← g11 tglHWLoaded;
     primary ← gets (pciPrimaryMatch service);
     when (allocOk "OSArray" && truthy (symbolAddr "gIOCatalogue"))
       (addDrivers (personality tgl primary))).

(** Registers whose values go to the log around the registration. *)
Definition publishReads : list Z :=
  [ RING_HEAD RENDER_RING_BASE; RING_TAIL RENDER_RING_BASE; RING_CTL RENDER_RING_BASE; ERROR_GEN6;
    FORCEWAKE_RENDER_GEN9; FORCEWAKE_ACK_RENDER_GEN9; FORCEWAKE_BLITTER_GEN9; FORCEWAKE_ACK_BLITTER_GEN9 ].
(** The scan of the service's children only logs. [TGL.cpp:4772-4798 AppleIntelBaseControllerstart] *)
Definition publishService (service : Z) : M unit :=
  _ ← applyDisplayPipePolicy service;
  _ ← readLog publishReads;
  errGen6 ← readReg32 ERROR_GEN6;
  _ ← when (truthy errGen6) (writeReg32 ERROR_GEN6 0);
  _ ← call "registerService" [service];
  _ ← logServicePublishSnapshot service;
  readLog publishReads.
(** [TGL.cpp AppleIntelBaseControllerstart] *)
Definition AppleIntelBaseControllerstart (that param_1 : Z) : M bool :=
  _ ← displayWorkarounds;
  r ← call "oAppleIntelBaseControllerstart" [that; param_1];
  let ret := truthy (u8 r) in
  _ ← when (ret && isClass "IOService" that)
        (_ ← injectPersonality that; publishService that);
  mret ret.

(** [TGL.cpp AppleIntelFramebufferinit] *)
Definition AppleIntelFramebufferinit (frame cont param_2 : Z) : M bool :=
  r ← call "oAppleIntelFramebufferinit" [frame; cont; param_2];
  cc ← g11 ccont;
  _ ← store 8 (frame + 0x4a40) cc;
  _ ← when (isClass "IOService" frame)
        (_ ← publishFramebufferTriageResources;
         _ ← publishBootDisplayProperties frame param_2;
         readLog publishReads);
  mret (truthy (u8 r)).
(** [TGL.cpp AppleIntelPlaneinit] *)
Definition AppleIntelPlaneinit (that param_1 : Z) : M Z :=
  r ← call "oAppleIntelPlaneinit" [that; param_1]; mret (u8 r).
(** [TGL.cpp AppleIntelScalerinit] *)
Definition AppleIntelScalerinit (that param_1 : Z) : M Z := call "oAppleIntelScalerinit" [that; param_1].

(** Hand the saved controller to the object (member at [off]), then call the original. *)
Definition withController (off : Z) (f : string) (that : Z) (args : list Z) : M unit :=
  cc ← g11 ccont;
  _ ← store 8 (that + off) cc;
  _ ← call f (that :: args); mret ().
(** [TGL.cpp disableScaler] *)
Definition disableScaler (that : Z) (param_1 : bool) : M unit :=
  withController 0x28 "odisableScaler" that [b2z param_1].
(** [TGL.cpp programPipeScaler] *)
Definition programPipeScaler (that param_1 : Z) : M unit :=
  withController 0x28 "oprogramPipeScaler" that [param_1].
(** [TGL.cpp enablePlane] *)
Definition enablePlane (that : Z) (param_1 : bool) : M unit :=
  withController 0x90 "oenablePlane" that [b2z param_1].
(** [TGL.cpp AppleIntelScalerupdateRegisterCache] *)
Definition AppleIntelScalerupdateRegisterCache (that : Z) : M unit :=
  withController 0x28 "oAppleIntelScalerupdateRegisterCache" that [].
(** [TGL.cpp AppleIntelPlaneupdateRegisterCache] *)
Definition AppleIntelPlaneupdateRegisterCache (that : Z) : M unit :=
  withController 0x90 "oAppleIntelPlaneupdateRegisterCache" that [].
(** [TGL.cpp enableDisplayEngine] *)
Definition enableDisplayEngine (that : Z) : M unit := withController 0x78 "oenableDisplayEngine" that [].
(** [TGL.cpp disableDisplayEngine] *)
Definition disableDisplayEngine (that : Z) : M unit := withController 0x78 "odisableDisplayEngine" that [].
(** [TGL.cpp disablePowerWellPG] *)
Definition disablePowerWellPG (that param_1 : Z) : M unit :=
  withController 0x78 "odisablePowerWellPG" that [param_1].
(** [TGL.cpp enablePowerWellPG] *)
Definition enablePowerWellPG (that param_1 : Z) : M unit :=
  withController 0x78 "oenablePowerWellPG" that [param_1].
(** [TGL.cpp hwSetPowerWellStatePG] *)
Definition hwSetPowerWellStatePG (that : Z) (param_1 : bool) (param_2 : Z) : M unit :=
  withController 0x78 "ohwSetPowerWellStatePG" that [b2z param_1; param_2].
(** [TGL.cpp hwSetPowerWellStateDDI] *)
Definition hwSetPowerWellStateDDI (that : Z) (param_1 : bool) (param_2 : Z) : M unit :=
  withController 0x78 "ohwSetPowerWellStateDDI" that [b2z param_1; param_2].
(** [TGL.cpp hwSetPowerWellStateAux] *)
Definition hwSetPowerWellStateAux (that : Z) (param_1 : bool) (param_2 : Z) : M unit :=
  withController 0x78 "ohwSetPowerWellStateAux" that [b2z param_1; param_2].

(** [TGL.cpp:6827-6832 enablePipe] *)
Definition enablePipe (that p1 p2 p3 : Z) : M unit := _ ← call "oenablePipe" [that; p1; p2; p3]; mret ().
(** The pipe is enabled by hand on the first mode set only. [TGL.cpp:6815-6825 hwSetMode] *)
Definition hwSetMode (that p1 p2 p3 : Z) : M Z :=
  ret ← call "ohwSetMode" [that; p1; p2; p3];
  first ← g11 hwFirst;
  _ ← when first (enablePipe that p1 p2 p3);
  _ ← set_g11 (fun g => g <| hwFirst := false |>);
  mret ret.

(** The vendor record: 4 bytes of version, 32 of vendor string (only its first character is
    assigned), vendor id at 36, vendor class at 40.
    [TGL.cpp:6786-6813 IntelFBClientControldoAttribute] *)
Definition IntelFBClientControldoAttribute (that p1 p2 p3 p4 p5 p6 : Z) : M Z :=
  ret ← call "oIntelFBClientControldoAttribute" [that; p1; p2; p3; p4; p5; p6];
  n ← (if (p1 =? 1) && truthy p5 then load 8 p5 else mret 0);
  if (p1 =? 1) && truthy p5 && (0x2b <? n) then
    _ ← store 4 p4 0; _ ← store 2 (p4 + 2) 0; _ ← store 2 p4 0;
    _ ← store 4 (p4 + 36) 0x8086;
    _ ← store 1 (p4 + 4) 73;
    _ ← store 4 (p4 + 40) 1;
    mret 0
  else mret ret.

(** *** Display microcontroller firmware *)

(** The two blobs, as the 32-bit words read from them. *)
Context (tgl_dmc adlp_dmc : list Z).

(** [TGL.cpp:5015-5019 hwInitializeCState] *)
Definition tglDmcRegs : list (Z * Z) :=
  [ (0x8F074, 0x00006FC0); (0x8F004, 0x00A40088); (0x8F034, 0xC003B400); (0x45520, 2) ].
(** [TGL.cpp:5034-5091 hwInitializeCState] *)
Definition adlpDmcRegs : list (Z * Z) :=
  [ (0x8F074, 0x00086FC0); (0x8F034, 0xC003B400); (0x8F004, 0x01240108); (0x8F008, 0x512050D4);
    (0x8F03C, 0xC003B300); (0x8F00C, 0x584C57FC); (0x5F074, 0x00096FC0); (0x5F034, 0xC003DF00);
    (0x5F004, 0x214C2114); (0x5F038, 0xC003E000); (0x5F008, 0x22402208); (0x5F03C, 0xC0032C00);
    (0x5F00C, 0x241422FC); (0x5F040, 0xC0033100); (0x5F010, 0x26F826CC); (0x5F474, 0x0009EFC0);
    (0x5F434, 0xC003DF00); (0x5F404, 0xA968A930); (0x5F438, 0xC003E000); (0x5F408, 0xAA5CAA24);
    (0x5F43C, 0xC0032C00); (0x5F40C, 0xAC30AB18); (0x5F440, 0xC0033100); (0x5F410, 0xAF14AEE8);
    (0x5F874, 0x00053FC0); (0x5F83C, 0xC0032C00); (0x5F80C, 0x25202408); (0x5F840, 0xC0033100);
    (0x5F810, 0x280427D8); (0x5FC3C, 0xC0032C00); (0x5FC0C, 0x95209408); (0x5FC40, 0xC0033100);
    (0x5FC10, 0x980497D8); (0x60400, 0x8A000006); (0x60000, 0x0A9F09FF); (0x60004, 0x0A9F09FF);
    (0x60008, 0x0A4F0A2F); (0x6000C, 0x06D5063F); (0x60010, 0x06D50000); (0x60014, 0x06480642);
    (0x60028, 0x00000000); (0x60030, 0x7E5D159E); (0x60034, 0x00800000); (0x60040, 0x0007C1CD);
    (0x60044, 0x00080000); (0x61204, 0x00000067); (0x61208, 0x07D00001); (0x46140, 0x10000000);
    (0x45400, 0x00000401); (0x45404, 0x00000C03); (0x45408, 0x40000000); (0x4540C, 0x00000401);
    (0x45520, 2) ].

(** [TGL.cpp:5011-5013 hwInitializeCState] *)
Fixpoint writeBlob (controller off : Z) (blob : list Z) : M unit :=
  match blob with
  | [] => mret ()
  | d :: blob => _ ← FastWriteRegister32 controller (off + 0x80000) d; writeBlob controller (off + 4) blob
  end.
(** The original runs with its own firmware load suppressed, then the blob and the registers
    of its platform are written. [TGL.cpp:5007-5019 hwInitializeCState] *)
Definition loadDmc (that origB48 : Z) (blob : list Z) (regs : list (Z * Z)) : M unit :=
  _ ← store 4 (that + 0xB48) 0;
  _ ← call "ohwInitializeCState" [that];
  _ ← store 4 (that + 0xB48) origB48;
  cc ← g11 ccont;
  _ ← writeBlob cc 0 blob;
  program regs.
Definition startsWith (c C : Ascii.ascii) (s : string) : bool :=
  match s with String a _ => Ascii.eqb a c || Ascii.eqb a C | EmptyString => false end.
(** [TGL.cpp:4990-5104 hwInitializeCState] *)
Definition hwInitializeCState (that : Z) : M unit :=
  origB48 ← load 4 (that + 0xB48);
  let dmcArg := bootstr "ngreen-dmc" in
  _ ← (if startsWith "t"%char "T"%char dmcArg then loadDmc that origB48 tgl_dmc tglDmcRegs
       else if startsWith "a"%char "A"%char dmcArg then loadDmc that origB48 adlp_dmc adlpDmcRegs
       else _ ← call "ohwInitializeCState" [that]; mret ());
  hwConfigureCustomAUX that 1.
End defs.

(** ** Facts *)
Section facts.
Context `{Platform}.

Lemma hexUpper_length d : String.length (hexUpper d) = 1%nat.
Proof. done. Qed.
Lemma hex4_length v : String.length (hex4 v) = 4%nat.
Proof. unfold hex4. by rewrite !string_length_app, !hexUpper_length. Qed.
Lemma pciPrimaryMatch_length service w : String.length (pciPrimaryMatch service w) = 10%nat.
Proof.
  unfold pciPrimaryMatch. cbv zeta. destruct (isClass _ _); [|done]. unfold snprintf. cbn [fst Nat.pred].
  assert (L : forall a b, String.length ("0x" +:+ hex4 a +:+ hex4 b) = 10%nat).
  { intros. by rewrite !string_length_app, !hex4_length. }
  rewrite substring_all; [apply L|]. by rewrite L.
Qed.

(** The trace only grows. *)
Definition any_event (e : event) : Prop := True.
Lemma grows_readReg32 r : respects (emits any_event) (readReg32 r).
Proof. by apply emits_readReg32. Qed.
Lemma grows_writeReg32 r v : respects (emits any_event) (writeReg32 r v).
Proof. by apply emits_writeReg32. Qed.
Hint Resolve grows_readReg32 grows_writeReg32 : ng.
Lemma total_displayWorkarounds : total displayWorkarounds.
Proof.
  unfold displayWorkarounds, displayCoreInit, rmw. pose proof total_intel_de_rmw. total_auto.
Qed.
Lemma total_readLog l : total (readLog l).
Proof. unfold readLog. total_auto. Qed.

Lemma inject_run service w :
  allocOk "OSDictionary" = true -> allocOk "OSArray" = true -> symbolAddr "gIOCatalogue" <> 0 ->
  injectPersonality service w =
    Done () (emit (EAddDriver (personality (tglHWLoaded (w_g11 w)) (pciPrimaryMatch service w))) w).
Proof.
  intros Hd Ha Hg. unfold injectPersonality, mbind, M_bind, g11, gets, truthy.
  rewrite Hd, Ha, (proj2 (Z.eqb_neq _ _) Hg). done.
Qed.
Lemma publish_run `{!Benign (emits any_event)} service w :
  exists w' a b, publishService service w = Done () w' /\
    w_tr w' = a ++ ECall "registerService" [service] :: b ++ w_tr w.
Proof.
  unfold publishService.
  assert (T1 : total (_ ← applyDisplayPipePolicy service; _ ← readLog publishReads;
     errGen6 ← readReg32 ERROR_GEN6; when (truthy errGen6) (writeReg32 ERROR_GEN6 0))).
  { unfold applyDisplayPipePolicy. pose proof total_readLog. total_auto. }
  assert (R1 : respects (emits any_event) (_ ← applyDisplayPipePolicy service; _ ← readLog publishReads;
     errGen6 ← readReg32 ERROR_GEN6; when (truthy errGen6) (writeReg32 ERROR_GEN6 0))).
  { unfold applyDisplayPipePolicy, readLog. respects_auto. by apply emits_setProperty. }
  destruct (T1 w) as ([] & w1 & E1). destruct (respects_done _ _ _ _ _ R1 E1) as (b & B & _).
  set (post := (_ ← logServicePublishSnapshot service; readLog publishReads) : M unit).
  assert (T3 : total post) by (unfold post, logServicePublishSnapshot; pose proof total_readLog; total_auto).
  destruct (T3 (original "registerService" [service]
     (emit (ECall "registerService" [service]) w1)).2) as ([] & w3 & E3).
  assert (R3 : respects (emits any_event) post) by (unfold post, logServicePublishSnapshot, readLog; respects_auto).
  destruct (respects_done _ _ _ _ _ R3 E3) as (a3 & A3 & _).
  destruct (benign (R := emits any_event) "registerService" [service]
     (emit (ECall "registerService" [service]) w1)) as (a2 & A2 & _).
  exists w3, (a3 ++ a2), b. split.
  - unfold mbind, M_bind in E1 |- *. unfold call.
    destruct (applyDisplayPipePolicy service w); try discriminate.
    destruct (readLog publishReads w0); try discriminate. destruct (readReg32 ERROR_GEN6 w2); try discriminate.
    rewrite E1. destruct (original _ _ _) as [r w5]. exact E3.
  - rewrite A3, A2. change (w_tr (emit ?e ?x)) with (e :: w_tr x). rewrite B. by rewrite <-app_assoc.
Qed.

(** When the controller starts, the accelerator's personality is in the
    driver catalogue before the controller is registered for matching, so that the
    registration can find it; its PCI match string always has its ten characters and
    never overruns the eleven-byte buffer it is printed to. *)
Theorem personality_before_registration `{!Benign (emits any_event)} (that p r : Z) (w w1 w2 : world) :
  displayWorkarounds w = Done () w1 ->
  original "oAppleIntelBaseControllerstart" [that; p]
    (emit (ECall "oAppleIntelBaseControllerstart" [that; p]) w1) = (r, w2) ->
  truthy (u8 r) = true -> isClass "IOService" that = true ->
  allocOk "OSDictionary" = true -> allocOk "OSArray" = true -> symbolAddr "gIOCatalogue" <> 0 ->
  exists w' a b primary, AppleIntelBaseControllerstart that p w = Done true w' /\
    w_tr w' = a ++ ECall "registerService" [that] :: b ++
      EAddDriver (personality (tglHWLoaded (w_g11 w2)) primary) :: w_tr w2 /\
    String.length primary = 10%nat.
Proof.
  intros E1 Ho Hr Hc Hd Ha Hg. unfold AppleIntelBaseControllerstart, mbind, M_bind, call.
  rewrite E1, Ho. cbv zeta. rewrite Hr, Hc. cbn [andb when].
  rewrite inject_run by done. edestruct publish_run as (w' & a & b & -> & T).
  exists w', a, b, (pciPrimaryMatch that w2). split; [done|]. split; [exact T|].
  apply pciPrimaryMatch_length.
Qed.

(** *** The firmware hook and the driver's own firmware switch *)
Section dmc.
Context (tgl_dmc adlp_dmc : list Z) (that : Z).
(** The member that makes the driver load its own firmware. *)
Definition switch (w : world) : Z := load_le 4 (that + 0xB48) (w_mem w).
Definition setSwitch (v : Z) (w : world) : world := w <| w_mem ::= store_le 4 (that + 0xB48) v |>.
(** The driver's register write and AUX set-up leave the switch alone. *)
Hypothesis spared : forall f args w,
  f = "oFastWriteRegister32" \/ f = "ohwConfigureCustomAUX" -> switch (original f args w).2 = switch w.
Lemma switch_call f args :
  f = "oFastWriteRegister32" \/ f = "ohwConfigureCustomAUX" -> respects (keeps switch) (call f args).
Proof.
  intros Hf w. unfold call, keeps. pose proof (spared f args (emit (ECall f args) w) Hf) as E.
  by destruct (original _ _ _).
Qed.
Lemma switch_writeReg32 r v : respects (keeps switch) (writeReg32 r v).
Proof. apply respects_writeReg32; [exact _|intros; by apply keeps_ptr_read|intros; by apply keeps_ptr_write]. Qed.
Hint Resolve switch_writeReg32 : ng.
Hint Extern 1 (respects _ (call _ _)) => (apply switch_call; tauto) : ng.
Lemma switch_writeBlob c off l : respects (keeps switch) (writeBlob c off l).
Proof.
  revert off. induction l as [|d l IH]; intros off; simpl; unfold FastWriteRegister32; respects_auto; apply IH.
Qed.
Lemma total_writeBlob c off l : total (writeBlob c off l).
Proof. revert off. induction l as [|d l IH]; intros off; simpl; unfold FastWriteRegister32; total_auto; apply IH. Qed.
Hint Resolve switch_writeBlob total_writeBlob : ng.

(** The firmware the boot argument selects, with the registers that go with it. *)
Definition selected : option (list Z * list (Z * Z)) :=
  let dmcArg := bootstr "ngreen-dmc" in
  if startsWith "t"%char "T"%char dmcArg then Some (tgl_dmc, tglDmcRegs)
  else if startsWith "a"%char "A"%char dmcArg then Some (adlp_dmc, adlpDmcRegs) else None.
(** What follows the original. *)
Definition install (fw : option (list Z * list (Z * Z))) : M unit :=
  _ ← match fw with
      | Some (blob, regs) => cc ← g11 ccont; _ ← writeBlob cc 0 blob; program regs
      | None => mret ()
      end;
  hwConfigureCustomAUX that 1.
Lemma install_run fw w : exists w', install fw w = Done () w' /\ switch w' = switch w.
Proof.
  assert (Ht : total (install fw)) by (unfold install, hwConfigureCustomAUX, program; total_auto).
  assert (Hk : respects (keeps switch) (install fw)) by (unfold install, hwConfigureCustomAUX, program; respects_auto).
  destruct (Ht w) as ([] & w' & E). exists w'. split; [done|]. exact (respects_done _ _ _ _ _ Hk E).
Qed.

(** C38 (invariant). The firmware hook runs the driver's own initialisation, whatever that
    does to memory, and returns: when the boot argument selects a firmware, with the
    driver's firmware switch cleared, which is put back to what it was before the selected
    blob and registers are written; otherwise with memory as it found it. On return the
    switch holds what it held on entry, or what the driver's initialisation left when no
    firmware is selected. Assumed: the driver's functions return, and its register write
    and AUX set-up, which run after the switch is put back, leave the switch alone. *)
Theorem firmware_switch_restored (w : world) :
  let w1 := match selected with Some _ => setSwitch 0 w | None => w end in
  switch (setSwitch 0 w) = 0 /\
  exists r w2 w',
    call "ohwInitializeCState" [that] w1 = Done r w2 /\
    let w3 := match selected with Some _ => setSwitch (switch w) w2 | None => w2 end in
    hwInitializeCState tgl_dmc adlp_dmc that w = install selected w3 /\
    install selected w3 = Done () w' /\
    switch w' = match selected with Some _ => switch w | None => switch w2 end.
Proof.
  intros w1. split; [unfold switch, setSwitch; cbn -[load_le store_le]; by rewrite load_store_le|].
  destruct (total_call "ohwInitializeCState" [that] w1) as (r & w2 & E).
  set (w3 := match selected with Some _ => setSwitch (switch w) w2 | None => w2 end).
  destruct (install_run selected w3) as (w' & Ei & Es). exists r, w2, w'. split; [done|]. cbv zeta. split; [|split; [done|]].
  - unfold hwInitializeCState. unfold mbind at 1, M_bind at 1. rewrite load_run. cbv zeta.
    subst w1 w3. unfold selected, install, setSwitch in *.
    repeat case_match; simplify_eq; unfold loadDmc, mbind, M_bind, store, modify; by rewrite E.
  - rewrite Es. subst w3. destruct selected; [|done]. unfold switch, setSwitch. cbn -[load_le store_le].
    rewrite load_store_le. apply Z.mod_small, (load_le_range 4).
Qed.
End dmc.
End facts.

(** ** Evaluations *)
Import Sim.
#[local] Instance start_plat : Platform := {|
  bootarg _ := None; kernarg _ := false; resolved _ := true; allocOk _ := true;
  providerOf _ := 0x200; isClass _ _ := true; fromPath _ := 0x300; symbolAddr _ := 0x400;
  bootstr s := if String.eqb s "ngreen-dmc" then "tgl" else ""; clientsOf _ _ := [];
  pciConfig _ off _ := if off =? 0 then 0x8086 else 0x9A49; original _ _ w := (1, w) |}.
Definition started : world := final (displayWorkarounds (sim_world [])).
Definition started_called : world := emit (ECall "oAppleIntelBaseControllerstart" [0x100; 2]) started.
Lemma personality_before_registration_witness :
  exists w' a b primary, AppleIntelBaseControllerstart 0x100 2 (sim_world []) = Done true w' /\
    w_tr w' = a ++ ECall "registerService" [0x100] :: b ++
      EAddDriver (personality (tglHWLoaded (w_g11 started_called)) primary) :: w_tr started_called /\
    String.length primary = 10%nat.
Proof.
  refine (@personality_before_registration _ start_plat (fun f args w => ltac:(reflexivity)) 0x100 2 1
    (sim_world []) started started_called _ eq_refl eq_refl eq_refl eq_refl eq_refl _).
  - vm_compute. reflexivity.
  - vm_compute. discriminate.
Defined.
(** A driver that turns its switch on again while it initialises. *)
#[local] Instance stubborn_plat : Platform := {|
  bootarg := @bootarg _ start_plat; kernarg _ := false; resolved _ := true; allocOk _ := true;
  providerOf _ := 0x200; isClass _ _ := true; fromPath _ := 0x300; symbolAddr _ := 0x400;
  bootstr := @bootstr _ start_plat; clientsOf _ _ := []; pciConfig := @pciConfig _ start_plat;
  original f _ w := (1, if String.eqb f "ohwInitializeCState" then setSwitch 0x1000 7 w else w) |}.
Lemma firmware_switch_restored_witness :
  exists w', @hwInitializeCState _ stubborn_plat [1; 2; 3] [] 0x1000 (setSwitch 0x1000 1 (sim_world [])) = Done () w' /\
    switch 0x1000 w' = 1.
Proof.
  assert (Hs : forall f args w, f = "oFastWriteRegister32" \/ f = "ohwConfigureCustomAUX" ->
    switch 0x1000 (@original _ stubborn_plat f args w).2 = switch 0x1000 w) by (intros f args w [-> | ->]; reflexivity).
  pose proof (@firmware_switch_restored _ stubborn_plat [1; 2; 3] [] 0x1000 Hs (setSwitch 0x1000 1 (sim_world [])))
    as (_ & r & w2 & w' & _ & E & Ei & S).
  exists w'. split; [exact (eq_trans E Ei)|exact S].
Defined.
Example match_string : pciPrimaryMatch 0x100 (sim_world []) = "0x9A498086".
Proof. by vm_compute. Qed.
End Controller.
