(* ===== verification/Blit.v ===== *)
(** * Blitter contexts (TGL.cpp)

    Hooks of the accelerator's blit contexts: the replacement of the 3D blit context's
    initialiser, which faults on spoofed hardware, and the thin hooks around it. *)
From S2P Require Import Prelude Machine Memory Sim Regs Mmio BootArgs Engine.
Import BootArgs Engine.

Module Blit.
Section defs.
Context `{Platform}.

(** Members zeroed in place of the original, with their sizes.
    [TGL.cpp:5506-5511 IGHardwareBlit3DContextinitialize] *)
Definition blitMembers : list (nat * Z) :=
  [ (8%nat, 0xe8); (8%nat, 0xf0); (8%nat, 0x100); (8%nat, 0xf8); (8%nat, 0x108); (4%nat, 0x110) ].
(** When the original may run: the buffer is mapped and has at least 0xD040 bytes.
    [TGL.cpp:5477-5479 IGHardwareBlit3DContextinitialize] *)
Definition safeForOriginal (mappedBufPtr gpuBufBase gpuBufSize : Z) : bool :=
  truthy mappedBufPtr && truthy gpuBufBase && (0xD040 <=? gpuBufSize).
(** [TGL.cpp IGHardwareBlit3DContextinitialize] *)
Definition IGHardwareBlit3DContextinitialize (that : Z) : M unit :=
  if that =? 0 then mret ()
  else
    real ← ng isRealTGL;
    if real : bool then _ ← call "oIGHardwareBlit3DContextinitialize" [that]; mret ()
    else
      mappedBufPtr ← load 8 (that + 0xd8);
      let allowOriginal := kernarg "-ngreenV69AllowOriginal" in
      gpuBufBase ← (if mappedBufPtr =? 0 then mret 0 else load 8 (mappedBufPtr + 0x18));
      gpuBufSize ← (if mappedBufPtr =? 0 then mret 0 else load 8 (mappedBufPtr + 0x20));
      if allowOriginal && safeForOriginal mappedBufPtr gpuBufBase gpuBufSize then
        _ ← call "oIGHardwareBlit3DContextinitialize" [that]; mret ()
      else iterM blitMembers (fun '(n, off) => store n (that + off) 0).

(** [*getMember<void **>(that, off)]: the member is itself followed. *)
Definition deref (p : Z) : M Z := if p =? 0 then panic "page fault at 0" else load 8 p.
(** [TGL.cpp IGHardwareBlit3DContextoperatornew] *)
Definition IGHardwareBlit3DContextoperatornew (that param_1 : Z) : M Z :=
  call "oIGHardwareBlit3DContextoperatornew" [that; param_1].
(** [TGL.cpp getBlit3DContext] *)
Definition getBlit3DContext (that : Z) (param_1 : bool) : M Z :=
  p ← load 8 (that + 0x298);
  blti ← deref p;
  if truthy blti then mret blti
  else
    this_00 ← IGHardwareBlit3DContextoperatornew that (b2z param_1);
    _ ← IGHardwareExtendedContextinitWithOptions this_00 that (symbolAddr "Blit3DExtendedCtxParams");
    p ← load 8 (that + 0x298);
    _ ← (if p =? 0 then panic "page fault at 0" else store 8 p this_00);
    mret this_00.
(** [TGL.cpp getBlit2DContext] *)
Definition getBlit2DContext (that : Z) (param_1 : bool) : M Z := call "ogetBlit2DContext" [that; b2z param_1].
(** [TGL.cpp:5521-5524 blit3d_supported] *)
Definition blit3d_supported2 (p1 p2 : Z) : M Z := mret 0.
(** [TGL.cpp IGMappedBuffergetMemory] *)
Definition IGMappedBuffergetMemory (that : Z) : M Z :=
  r ← call "oIGMappedBuffergetMemory" [that]; mret (u8 r).
(** [TGL.cpp blit3d_init_ctx] *)
Definition blit3d_init_ctx (that : Z) : M Z := r ← call "oblit3d_init_ctx" [that]; mret (u8 r).
(** [TGL.cpp initBlitUsage] *)
Definition initBlitUsage (that : Z) : M unit := _ ← call "oinitBlitUsage" [that]; mret ().
(** [TGL.cpp markBlitUsage] *)
Definition markBlitUsage (that : Z) : M unit := _ ← call "omarkBlitUsage" [that]; mret ().
(** The call of the original after the [return] is unreachable.
    [TGL.cpp IGAccelSegmentResourceListprepare] *)
Definition IGAccelSegmentResourceListprepare (that : Z) : M Z := mret 0.
(** [TGL.cpp blit3d_initialize_scratch_space] *)
Definition blit3d_initialize_scratch_space (that : Z) : M unit :=
  _ ← call "oblit3d_initialize_scratch_space" [that]; mret ().
(** [TGL.cpp ExtendedContextWithOptions] *)
Definition ExtendedContextWithOptions (param_1 : Z) : M Z := call "oExtendedContextWithOptions" [param_1].
(** [TGL.cpp alwaysReturnSuccess] *)
Definition alwaysReturnSuccess (p : Z) : M Z := mret 0.
(** [TGL.cpp dozero] *)
Definition dozero : M Z := mret 0.
(** [TGL.cpp dovoid] *)
Definition dovoid : M unit := mret ().
(** [TGL.cpp dotrue] *)
Definition dotrue : M bool := mret true.
(** The counter only limits the log. [TGL.cpp releaseDoorbell] *)
Definition releaseDoorbell : M unit := mret ().
(** [TGL.cpp initPlatformWorkarounds] *)
Definition initPlatformWorkarounds (that : Z) : M unit := _ ← call "oinitPlatformWorkarounds" [that]; mret ().
(** [TGL.cpp getOSInformation] *)
Definition getOSInformation (that : Z) : M Z := call "ogetOSInformation" [that].
(** [TGL.cpp SetupDPSSTTimings] *)
Definition SetupDPSSTTimings (that p1 p2 p3 : Z) : M Z :=
  r ← call "oSetupDPSSTTimings" [that; p1; p2; p3]; mret (u8 r).
(** [TGL.cpp validateDetailedTiming] *)
Definition validateDetailedTiming (that p1 p2 : Z) : M Z :=
  r ← call "ovalidateDetailedTiming" [that; p1; p2]; mret (u32 r).
(** [TGL.cpp SetupTimings] *)
Definition SetupTimings (that p1 p2 p3 p4 : Z) : M unit :=
  _ ← call "oSetupTimings" [that; p1; p2; p3; p4]; mret ().
(** [TGL.cpp getPixelInformation] *)
Definition getPixelInformation (that p1 p2 p3 p4 : Z) : M Z :=
  call "ogetPixelInformation" [that; p1; p2; p3; p4].
End defs.

Section properties.
Context `{Platform}.
Definition cleared (that : Z) (m : gmap Z Z) : gmap Z Z :=
  foldl (fun m '(n, off) => store_le n (that + off) 0 m) m blitMembers.
Lemma clear_run that l w :
  iterM l (fun '(n, off) => store n (that + off) 0) w =
  Done () (w <| w_mem ::= fun m => foldl (fun m '(n, off) => store_le n (that + off) 0 m) m l |>).
Proof.
  revert w. induction l as [|[n off] l IH]; intros w; [by destruct w|].
  cbn [iterM]. unfold mbind, M_bind. rewrite store_run, IH. done.
Qed.

Lemma clear_outside that m a :
  a < that + 0xe8 \/ that + 0x114 <= a -> cleared that m !! a = m !! a.
Proof. intros Ha. unfold cleared. cbn [foldl blitMembers]. by rewrite !store_le_outside by lia. Qed.
Lemma clear_inside that m a :
  that + 0xe8 <= a < that + 0x114 -> cleared that m !! a = Some 0.
Proof.
  intros Ha. unfold cleared. cbn [foldl blitMembers].
  repeat match goal with
  | |- store_le ?n ?x 0 _ !! a = _ =>
    destruct (Z_lt_le_dec a x); [rewrite (store_le_outside n x) by lia|
    destruct (Z_lt_le_dec a (x + Z.of_nat n)); [apply store_le_zero; lia|
    rewrite (store_le_outside n x) by lia]]
  end; lia.
Qed.

(** The blit-context initialiser never faults on a null object and never runs
    the driver's own on spoofed hardware unless it was asked for and the context has a
    mapped buffer of at least 0xD040 bytes; in its place exactly the 44 bytes of the context's
    cursors at 0xe8..0x113 are zeroed. *)
Theorem blit3d_original_guarded (that : Z) (w : world) :
  isRealTGL (w_ng w) = false ->
  let buf := load_le 8 (that + 0xd8) (w_mem w) in
  let runs := (kernarg "-ngreenV69AllowOriginal" &&
    safeForOriginal buf (load_le 8 (buf + 0x18) (w_mem w)) (load_le 8 (buf + 0x20) (w_mem w)))%bool in
  if that =? 0 then IGHardwareBlit3DContextinitialize that w = Done () w
  else if runs then
    IGHardwareBlit3DContextinitialize that w =
      (_ ← call "oIGHardwareBlit3DContextinitialize" [that]; mret ()) w
  else exists w', IGHardwareBlit3DContextinitialize that w = Done () w' /\
    w_tr w' = w_tr w /\ w_g11 w' = w_g11 w /\
    (forall a, that + 0xe8 <= a < that + 0x114 -> byte a w' = 0) /\
    (forall a, a < that + 0xe8 \/ that + 0x114 <= a -> byte a w' = byte a w).
Proof.
  intros Hr buf runs. unfold IGHardwareBlit3DContextinitialize, mbind, M_bind, ng, gets.
  destruct (that =? 0); [done|]. rewrite Hr, load_run. fold buf.
  assert (Hruns : (kernarg "-ngreenV69AllowOriginal" && safeForOriginal buf
      (if buf =? 0 then 0 else load_le 8 (buf + 0x18) (w_mem w))
      (if buf =? 0 then 0 else load_le 8 (buf + 0x20) (w_mem w)))%bool = runs).
  { subst runs. unfold safeForOriginal, truthy. by destruct (buf =? 0). }
  assert (E : forall off, (if buf =? 0 then mret 0 else load 8 (buf + off)) w =
     Done (if buf =? 0 then 0 else load_le 8 (buf + off) (w_mem w)) w) by (intros off; by destruct (buf =? 0)).
  rewrite (E 0x18), (E 0x20). cbv zeta. rewrite Hruns. destruct runs; [done|].
  rewrite clear_run. eexists. split; [reflexivity|]. split; [done|]. split; [done|].
  split; intros a Ha; unfold byte;
    match goal with |- context [w_mem (update w_mem ?f w)] =>
      change (w_mem (update w_mem f w)) with (cleared that (w_mem w)) end.
  - rewrite clear_inside by done. done.
  - by rewrite clear_outside.
Qed.
End properties.

(** The size the guard asks for is four bytes short of the 0x44 bytes at 0xD000 that, by the
    note on the hook, the original writes. *)
Theorem blit3d_guard_short :
  safeForOriginal 1 1 0xD040 = true /\ 0xD040 < 0xD000 + 0x44.
Proof. by vm_compute. Qed.
(** A task without a context faults in the hook that should create one: the member is
    followed before it is tested. *)
Theorem blit3d_context_null_faults `{Platform} (that : Z) (param : bool) (w : world) :
  load_le 8 (that + 0x298) (w_mem w) = 0 ->
  getBlit3DContext that param w = Panicked "page fault at 0" w.
Proof. intros Hp. unfold getBlit3DContext, mbind, M_bind. rewrite load_run, Hp. done. Qed.

(** ** Evaluations *)
Import Sim.
#[local] Existing Instance plat.
Lemma blit3d_original_guarded_witness :
  exists w', IGHardwareBlit3DContextinitialize 0x9000 (sim_world []) = Done () w' /\
    w_tr w' = [] /\ w_g11 w' = Gen11_init /\
    (forall a, 0x9000 + 0xe8 <= a < 0x9000 + 0x114 -> byte a w' = 0) /\
    (forall a, a < 0x9000 + 0xe8 \/ 0x9000 + 0x114 <= a -> byte a w' = byte a (sim_world [])).
Proof. exact (blit3d_original_guarded 0x9000 (sim_world []) eq_refl). Defined.
End Blit.
