(* ===== verification/Dyld.v ===== *)
(** * Shared-cache patches (DYLDPatches.cpp, DYLDPatches.hpp)

    The hook on the kernel's page validation: pages of user-space code are rewritten as
    they are read, chosen by the path of the file and by boot arguments. Lilu's search and
    replace is a parameter. The pattern tables for AMD drivers at the end of
    DYLDPatches.hpp are not used by the program and are left out. *)
From Stdlib Require Import Ascii.
From S2P Require Import Prelude Machine Memory Sim BootArgs.
Import BootArgs.

Module Dyld.
(** [DYLDPatches.hpp:73-73 kVideoToolboxDRMModelOriginal] *)
Definition kVideoToolboxDRMModelOriginal : list Z :=
  [ 0x4D; 0x61; 0x63; 0x50; 0x72; 0x6F; 0x35; 0x2C; 0x31; 0x00; 0x4D; 0x61; 0x63; 0x50; 0x72; 0x6F; 0x36; 0x2C;
    0x31; 0x00; 0x49; 0x4F; 0x53; 0x65; 0x72; 0x76; 0x69; 0x63; 0x65; 0x00 ].
(** [DYLDPatches.hpp:75-75 kHwGvaId] *)
Definition kHwGvaId : list Z :=
  [ 0x4D; 0x61; 0x63; 0x2D; 0x37; 0x42; 0x41; 0x35; 0x42; 0x32; 0x44; 0x39; 0x45; 0x34; 0x32; 0x44; 0x44; 0x44;
    0x39; 0x34; 0x00 ].
(** [DYLDPatches.hpp:78-78 kAGVABoardIdOriginal] *)
Definition kAGVABoardIdOriginal : list Z :=
  [ 0x62; 0x6F; 0x61; 0x72; 0x64; 0x2D; 0x69; 0x64; 0x00; 0x68; 0x77; 0x2E; 0x6D; 0x6F; 0x64; 0x65; 0x6C; 0x00 ].
(** [DYLDPatches.hpp:79-79 kAGVABoardIdPatched] *)
Definition kAGVABoardIdPatched : list Z :=
  [ 0x68; 0x77; 0x67; 0x76; 0x61; 0x2D; 0x69; 0x64; 0x00; 0x68; 0x77; 0x2E; 0x6D; 0x6F; 0x64; 0x65; 0x6C; 0x00 ].
(** [DYLDPatches.hpp:81-81 kCoreLSKDMSEPath] *)
Definition kCoreLSKDMSEPath : string :=
  "/System/Library/PrivateFrameworks/CoreLSKDMSE.framework/Versions/A/CoreLSKDMSE".
(** [DYLDPatches.hpp:82-82 kCoreLSKDPath] *)
Definition kCoreLSKDPath : string :=
  "/System/Library/PrivateFrameworks/CoreLSKD.framework/Versions/A/CoreLSKD".
(** [DYLDPatches.hpp:84-84 kCoreLSKDOriginal] *)
Definition kCoreLSKDOriginal : list Z :=
  [ 0xC7; 0xC0; 0x01; 0x00; 0x00; 0x00; 0x0F; 0xA2 ].
(** [DYLDPatches.hpp:85-85 kCoreLSKDPatched] *)
Definition kCoreLSKDPatched : list Z :=
  [ 0xC7; 0xC0; 0xC3; 0x06; 0x03; 0x00; 0x66; 0x90 ].
(** [DYLDPatches.hpp:88-88 kHEVCEncBoardIdOriginal] *)
Definition kHEVCEncBoardIdOriginal : list Z :=
  [ 0x76; 0x65; 0x6E; 0x64; 0x6F; 0x72; 0x38; 0x62; 0x69; 0x74; 0x00; 0x49; 0x4F; 0x53; 0x65; 0x72; 0x76; 0x69;
    0x63; 0x65; 0x00; 0x62; 0x6F; 0x61; 0x72; 0x64; 0x2D; 0x69; 0x64; 0x00 ].
(** [DYLDPatches.hpp:89-89 kHEVCEncBoardIdPatched] *)
Definition kHEVCEncBoardIdPatched : list Z :=
  [ 0x76; 0x65; 0x6E; 0x64; 0x6F; 0x72; 0x38; 0x62; 0x69; 0x74; 0x00; 0x49; 0x4F; 0x53; 0x65; 0x72; 0x76; 0x69;
    0x63; 0x65; 0x00; 0x68; 0x77; 0x67; 0x76; 0x61; 0x2D; 0x69; 0x64; 0x00 ].
(** [DYLDPatches.cpp:67-67 tglGraphicsMTLDriver] *)
Definition tglGraphicsMTLDriver : string :=
  "/System/Library/Extensions/AppleIntelTGLGraphicsMTLDriver.bundle/Contents/MacOS/AppleIntelTGLGraphicsMTLDriver".
(** [DYLDPatches.cpp:68-68 kTGLGraphicsMTLDrivero] *)
Definition kTGLGraphicsMTLDrivero : list Z :=
  [ 0x41; 0x83; 0x7D; 0x00; 0x01; 0x48; 0x8B; 0x05; 0x50; 0x7B; 0x47; 0x00 ].
(** [DYLDPatches.cpp:69-69 kTGLGraphicsMTLDriverp] *)
Definition kTGLGraphicsMTLDriverp : list Z :=
  [ 0x41; 0x83; 0x7D; 0x00; 0x00; 0x48; 0x8B; 0x05; 0x50; 0x7B; 0x47; 0x00 ].
(** [DYLDPatches.cpp:70-70 libMTLIGCCompilerPluginPath] *)
Definition libMTLIGCCompilerPluginPath : string :=
  "/System/Library/Extensions/AppleIntelGraphicsShared.bundle/Contents/MacOS/libMTLIGCCompilerPlugin.dylib".
(** [DYLDPatches.cpp:71-71 klibMTLIGCCompilerPluginOriginal] *)
Definition klibMTLIGCCompilerPluginOriginal : list Z :=
  [ 0x8B; 0x87; 0x18; 0x01; 0x00; 0x00; 0x83; 0xC0; 0xF3; 0x83; 0xF8; 0x11; 0x73; 0x19; 0xB9; 0xEB; 0xA0; 0x01;
    0x00; 0x0F; 0xA3; 0xC1; 0x73; 0x0F; 0x48; 0x98; 0x48; 0x8D; 0x0D; 0xAD; 0x8D; 0x00; 0x00 ].
(** [DYLDPatches.cpp:72-72 klibMTLIGCCompilerPluginPatched] *)
Definition klibMTLIGCCompilerPluginPatched : list Z :=
  [ 0x8B; 0x87; 0x18; 0x01; 0x00; 0x00; 0x83; 0xC0; 0xF3; 0xB8; 0x05; 0x00; 0x00; 0x00; 0x90; 0x90; 0x90; 0x90;
    0x90; 0x90; 0x90; 0x90; 0x90; 0x90; 0x48; 0x98; 0x48; 0x8D; 0x0D; 0xAD; 0x8D; 0x00; 0x00 ].
(** [DYLDPatches.cpp:73-73 klibMTLIGCCompilerPluginOriginal2] *)
Definition klibMTLIGCCompilerPluginOriginal2 : list Z :=
  [ 0x2F; 0x53; 0x79; 0x73; 0x74; 0x65; 0x6D; 0x2F; 0x4C; 0x69; 0x62; 0x72; 0x61; 0x72; 0x79; 0x2F; 0x45; 0x78;
    0x74; 0x65; 0x6E; 0x73; 0x69; 0x6F; 0x6E; 0x73; 0x2F; 0x41; 0x70; 0x70; 0x6C; 0x65; 0x49; 0x6E; 0x74; 0x65;
    0x6C; 0x53; 0x4B; 0x4C; 0x47; 0x72; 0x61; 0x70; 0x68; 0x69; 0x63; 0x73; 0x4D; 0x54; 0x4C; 0x44; 0x72; 0x69;
    0x76; 0x65; 0x72; 0x2E; 0x62; 0x75; 0x6E; 0x64; 0x6C; 0x65; 0x2F; 0x43; 0x6F; 0x6E; 0x74; 0x65; 0x6E; 0x74;
    0x73; 0x2F; 0x52; 0x65; 0x73; 0x6F; 0x75; 0x72; 0x63; 0x65; 0x73; 0x2F; 0x72; 0x75; 0x6E; 0x74; 0x69; 0x6D;
    0x65; 0x2E; 0x67; 0x70; 0x75; 0x65; 0x6E; 0x63; 0x6F; 0x64; 0x65; 0x2E; 0x73; 0x70; 0x6C; 0x69; 0x74; 0x00 ].
(** [DYLDPatches.cpp:74-74 klibMTLIGCCompilerPluginPatched2] *)
Definition klibMTLIGCCompilerPluginPatched2 : list Z :=
  [ 0x2F; 0x53; 0x79; 0x73; 0x74; 0x65; 0x6D; 0x2F; 0x4C; 0x69; 0x62; 0x72; 0x61; 0x72; 0x79; 0x2F; 0x45; 0x78;
    0x74; 0x65; 0x6E; 0x73; 0x69; 0x6F; 0x6E; 0x73; 0x2F; 0x41; 0x70; 0x70; 0x6C; 0x65; 0x49; 0x6E; 0x74; 0x65;
    0x6C; 0x54; 0x47; 0x4C; 0x47; 0x72; 0x61; 0x70; 0x68; 0x69; 0x63; 0x73; 0x4D; 0x54; 0x4C; 0x44; 0x72; 0x69;
    0x76; 0x65; 0x72; 0x2E; 0x62; 0x75; 0x6E; 0x64; 0x6C; 0x65; 0x2F; 0x43; 0x6F; 0x6E; 0x74; 0x65; 0x6E; 0x74;
    0x73; 0x2F; 0x52; 0x65; 0x73; 0x6F; 0x75; 0x72; 0x63; 0x65; 0x73; 0x2F; 0x72; 0x75; 0x6E; 0x74; 0x69; 0x6D;
    0x65; 0x2E; 0x67; 0x70; 0x75; 0x65; 0x6E; 0x63; 0x6F; 0x64; 0x65; 0x2E; 0x73; 0x70; 0x6C; 0x69; 0x74; 0x00 ].
(** [DYLDPatches.cpp:125-125 f3b_sonoma] *)
Definition f3b_sonoma : list Z :=
  [ 0x75; 0x0A; 0xE8; 0x79; 0x03; 0x0B; 0x00; 0xE9; 0xE6; 0xF6; 0xFF; 0xFF; 0x83; 0xBD; 0xC0; 0xFE; 0xFF; 0xFF;
    0x00; 0x48; 0x8D; 0x05; 0xF2; 0x76; 0x0C; 0x00 ].
(** [DYLDPatches.cpp:126-126 r3b_sonoma] *)
Definition r3b_sonoma : list Z :=
  [ 0x90; 0x90; 0xE8; 0x79; 0x03; 0x0B; 0x00; 0xE9; 0xE6; 0xF6; 0xFF; 0xFF; 0x83; 0xBD; 0xC0; 0xFE; 0xFF; 0xFF;
    0x00; 0x48; 0x8D; 0x05; 0xF2; 0x76; 0x0C; 0x00 ].
(** [DYLDPatches.cpp:129-129 f_getmtltex_sonoma] *)
Definition f_getmtltex_sonoma : list Z :=
  [ 0x55; 0x48; 0x89; 0xE5; 0x41; 0x57; 0x41; 0x56; 0x41; 0x55; 0x41; 0x54; 0x53; 0x48; 0x81; 0xEC; 0x68; 0x01;
    0x00; 0x00; 0x49; 0x89; 0xF6; 0x49; 0x89; 0xFF ].
(** [DYLDPatches.cpp:130-130 r_getmtltex_sonoma] *)
Definition r_getmtltex_sonoma : list Z :=
  [ 0x31; 0xC0; 0xC3; 0x90; 0x90; 0x90; 0x90; 0x90; 0x90; 0x90; 0x90; 0x90; 0x90; 0x90; 0x90; 0x90; 0x90; 0x90;
    0x90; 0x90; 0x90; 0x90; 0x90; 0x90; 0x90; 0x90 ].
(** [DYLDPatches.cpp:134-134 f_getmtlcq_sonoma] *)
Definition f_getmtlcq_sonoma : list Z :=
  [ 0x55; 0x48; 0x89; 0xE5; 0x41; 0x57; 0x41; 0x56; 0x53; 0x48; 0x81; 0xEC; 0x88; 0x00; 0x00; 0x00; 0x48; 0x8B;
    0x05; 0xE9; 0x29; 0x88; 0x3F; 0x48; 0x8B; 0x00 ].
(** [DYLDPatches.cpp:135-135 r_getmtlcq_sonoma] *)
Definition r_getmtlcq_sonoma : list Z :=
  [ 0x31; 0xC0; 0xC3; 0x90; 0x90; 0x90; 0x90; 0x90; 0x90; 0x90; 0x90; 0x90; 0x90; 0x90; 0x90; 0x90; 0x90; 0x90;
    0x90; 0x90; 0x90; 0x90; 0x90; 0x90; 0x90; 0x90 ].
(** [DYLDPatches.cpp:137-137 f_skipfdp_sonoma] *)
Definition f_skipfdp_sonoma : list Z :=
  [ 0x55; 0x48; 0x89; 0xE5; 0x41; 0x57; 0x41; 0x56; 0x41; 0x55; 0x41; 0x54; 0x53; 0x48; 0x81; 0xEC; 0x78; 0x05;
    0x00; 0x00; 0x48; 0x89; 0xB5; 0x88; 0xFB; 0xFF; 0xFF ].
(** [DYLDPatches.cpp:138-138 r_skipfdp_sonoma] *)
Definition r_skipfdp_sonoma : list Z :=
  [ 0xC3; 0x90; 0x90; 0x90; 0x90; 0x90; 0x90; 0x90; 0x90; 0x90; 0x90; 0x90; 0x90; 0x90; 0x90; 0x90; 0x90; 0x90;
    0x90; 0x90; 0x90; 0x90; 0x90; 0x90; 0x90; 0x90; 0x90 ].
(** [DYLDPatches.cpp:139-139 f_skippresent_sonoma] *)
Definition f_skippresent_sonoma : list Z :=
  [ 0x55; 0x48; 0x89; 0xE5; 0x41; 0x57; 0x41; 0x56; 0x41; 0x55; 0x41; 0x54; 0x53; 0x48; 0x81; 0xEC; 0xA8; 0x00;
    0x00; 0x00; 0x49; 0x89; 0xCE; 0x89; 0xD3; 0x49; 0x89; 0xF4; 0x49; 0x89; 0xFF ].
(** [DYLDPatches.cpp:140-140 r_skippresent_sonoma] *)
Definition r_skippresent_sonoma : list Z :=
  [ 0xC3; 0x90; 0x90; 0x90; 0x90; 0x90; 0x90; 0x90; 0x90; 0x90; 0x90; 0x90; 0x90; 0x90; 0x90; 0x90; 0x90; 0x90;
    0x90; 0x90; 0x90; 0x90; 0x90; 0x90; 0x90; 0x90; 0x90; 0x90; 0x90; 0x90; 0x90 ].
(** [DYLDPatches.cpp:141-141 f_skipac_sonoma] *)
Definition f_skipac_sonoma : list Z :=
  [ 0x55; 0x48; 0x89; 0xE5; 0x41; 0x57; 0x41; 0x56; 0x41; 0x55; 0x41; 0x54; 0x53; 0x48; 0x81; 0xEC; 0xD8; 0x01;
    0x00; 0x00; 0x48; 0x8B; 0x05; 0xC1; 0xAA; 0x8F; 0x3F; 0x48; 0x8B; 0x00; 0x48; 0x89; 0x45; 0xD0 ].
(** [DYLDPatches.cpp:142-142 r_skipac_sonoma] *)
Definition r_skipac_sonoma : list Z :=
  [ 0xC3; 0x90; 0x90; 0x90; 0x90; 0x90; 0x90; 0x90; 0x90; 0x90; 0x90; 0x90; 0x90; 0x90; 0x90; 0x90; 0x90; 0x90;
    0x90; 0x90; 0x90; 0x90; 0x90; 0x90; 0x90; 0x90; 0x90; 0x90; 0x90; 0x90; 0x90; 0x90; 0x90; 0x90 ].
(** [DYLDPatches.cpp:143-143 f4_skyl_sonoma] *)
Definition f4_skyl_sonoma : list Z :=
  [ 0x0F; 0x84; 0x9E; 0x00; 0x00; 0x00; 0xE8; 0x75; 0x3D; 0xEC; 0xFF; 0x4C; 0x8B; 0x3D; 0x58; 0xCC; 0x91; 0x3E;
    0x4C; 0x89; 0xFF; 0xBE; 0x10; 0x00; 0x00; 0x00; 0xE8; 0x09; 0xEA; 0x1C; 0x00; 0x84; 0xC0; 0x0F; 0x84; 0x51;
    0xFA; 0xFF; 0xFF ].
(** [DYLDPatches.cpp:144-144 r4_skyl_sonoma] *)
Definition r4_skyl_sonoma : list Z :=
  [ 0x90; 0x90; 0x90; 0x90; 0x90; 0x90; 0xE8; 0x75; 0x3D; 0xEC; 0xFF; 0x4C; 0x8B; 0x3D; 0x58; 0xCC; 0x91; 0x3E;
    0x4C; 0x89; 0xFF; 0xBE; 0x10; 0x00; 0x00; 0x00; 0xE8; 0x09; 0xEA; 0x1C; 0x00; 0x84; 0xC0; 0x0F; 0x84; 0x51;
    0xFA; 0xFF; 0xFF ].
(** [DYLDPatches.cpp:148-148 f_runfdp_guard_sonoma] *)
Definition f_runfdp_guard_sonoma : list Z :=
  [ 0x49; 0x8B; 0xBE; 0x88; 0x08; 0x00; 0x00; 0x48; 0x8B; 0x07; 0xFF; 0x50; 0x28 ].
(** [DYLDPatches.cpp:149-149 r_runfdp_guard_sonoma] *)
Definition r_runfdp_guard_sonoma : list Z :=
  [ 0x49; 0x8B; 0xBE; 0x88; 0x08; 0x00; 0x00; 0x48; 0x85; 0xFF; 0x74; 0x06; 0x90 ].

(** ** Patches *)

(** A pattern and its replacement; an empty mask is a null one. [DYLDPatches.hpp:8-37 DYLDPatch] *)
Record DYLDPatch := mkDyld {
  find : list Z;
  findMask : list Z;
  replace : list Z;
  replaceMask : list Z;
  size : nat;
  comment : string
}.
(** The constructor from two arrays of the same length. [DYLDPatches.hpp:26-28 DYLDPatch] *)
Definition patch (f r : list Z) (c : string) : DYLDPatch := mkDyld f [] r [] (length f) c.

(** [strncmp(a, b, n) != 0] on strings without embedded terminators. *)
Fixpoint strncmp (a b : string) (n : nat) : bool :=
  match n with
  | O => false
  | S n =>
    match a, b with
    | EmptyString, EmptyString => false
    | String x a, String y b => if Ascii.eqb x y then strncmp a b n else true
    | _, _ => true
    end
  end.
(** [arrsize] of a string literal counts its terminator. *)
Definition arrsize (s : string) : nat := S (String.length s).

(** The patches of a file outside the shared cache. [DYLDPatches.cpp:78-91 wrapCsValidatePage] *)
Definition tglDriverPatches : list DYLDPatch :=
  [ patch kTGLGraphicsMTLDrivero kTGLGraphicsMTLDriverp "TGL MTL driver fallback patch" ].
Definition compilerPatches : list DYLDPatch :=
  [ patch klibMTLIGCCompilerPluginOriginal klibMTLIGCCompilerPluginPatched "MTL IGC compiler device bypass";
    patch klibMTLIGCCompilerPluginOriginal2 klibMTLIGCCompilerPluginPatched2 "MTL IGC compiler runtime path rewrite" ].
(** [DYLDPatches.cpp:95-95 wrapCsValidatePage] *)
Definition coreLSKDPatch : DYLDPatch :=
  patch kCoreLSKDOriginal kCoreLSKDPatched "CoreLSKD streaming CPUID to Haswell".
(** [DYLDPatches.cpp:105-108 wrapCsValidatePage] *)
Definition boardIdPatches : list DYLDPatch :=
  [ patch kAGVABoardIdOriginal kAGVABoardIdPatched "iMacPro1,1 spoof (AppleGVA)";
    patch kHEVCEncBoardIdOriginal kHEVCEncBoardIdPatched "iMacPro1,1 spoof (AppleGVAHEVCEncoder)" ].
(** [DYLDPatches.cpp:163-169 wrapCsValidatePage] *)
Definition noMetalPatches : list DYLDPatch :=
  [ patch f3b_sonoma r3b_sonoma "CoreDisplay assertion bypass (Sonoma)";
    patch f_skipfdp_sonoma r_skipfdp_sonoma "RunFullDisplayPipe skip entire function (Sonoma)";
    patch f_skippresent_sonoma r_skippresent_sonoma "Display::Present skip (Sonoma)";
    patch f_getmtltex_sonoma r_getmtltex_sonoma "GetMTLTexture return NULL (Sonoma)";
    patch f_skipac_sonoma r_skipac_sonoma "AccessComplete skip (Sonoma)" ].
(** [DYLDPatches.cpp:172-175 wrapCsValidatePage] *)
Definition stage1Patches : list DYLDPatch :=
  [ patch f3b_sonoma r3b_sonoma "CoreDisplay assertion bypass (Sonoma)";
    patch f_skipac_sonoma r_skipac_sonoma "AccessComplete skip (Sonoma, stage1)" ].
(** [DYLDPatches.cpp:176-181 wrapCsValidatePage] *)
Definition stage2Patches : list DYLDPatch :=
  [ patch f3b_sonoma r3b_sonoma "CoreDisplay assertion bypass (Sonoma)";
    patch f_skipac_sonoma r_skipac_sonoma "AccessComplete skip (Sonoma, stage2)";
    patch f_getmtltex_sonoma r_getmtltex_sonoma "GetMTLTexture return NULL (Sonoma, stage2)";
    patch f_getmtlcq_sonoma r_getmtlcq_sonoma "GetMTLCommandQueue return NULL (Sonoma, stage2)" ].
(** [DYLDPatches.cpp:182-187 wrapCsValidatePage] *)
Definition stage3Patches : list DYLDPatch :=
  [ patch f3b_sonoma r3b_sonoma "CoreDisplay assertion bypass (Sonoma)";
    patch f_getmtltex_sonoma r_getmtltex_sonoma "GetMTLTexture return NULL (Sonoma, stage3)";
    patch f_getmtlcq_sonoma r_getmtlcq_sonoma "GetMTLCommandQueue return NULL (Sonoma, stage3)";
    patch f_runfdp_guard_sonoma r_runfdp_guard_sonoma "RunFullDisplayPipe NULL vcall guard (Sonoma, stage3)" ].
(** [DYLDPatches.cpp:188-194 wrapCsValidatePage] *)
Definition stage3SkylPatches : list DYLDPatch :=
  [ patch f3b_sonoma r3b_sonoma "CoreDisplay assertion bypass (Sonoma)";
    patch f_getmtltex_sonoma r_getmtltex_sonoma "GetMTLTexture return NULL (Sonoma, stage3)";
    patch f_getmtlcq_sonoma r_getmtlcq_sonoma "GetMTLCommandQueue return NULL (Sonoma, stage3)";
    patch f_runfdp_guard_sonoma r_runfdp_guard_sonoma "RunFullDisplayPipe NULL vcall guard (Sonoma, stage3)";
    patch f4_skyl_sonoma r4_skyl_sonoma "SkyLight conditional bypass (Sonoma, stage3)" ].
(** [DYLDPatches.cpp:206-211 wrapCsValidatePage] *)
Definition guardedDefaultPatches : list DYLDPatch :=
  [ patch f3b_sonoma r3b_sonoma "CoreDisplay assertion bypass (Sonoma)";
    patch f_getmtltex_sonoma r_getmtltex_sonoma "GetMTLTexture return NULL (Sonoma, default)";
    patch f_getmtlcq_sonoma r_getmtlcq_sonoma "GetMTLCommandQueue return NULL (Sonoma, default)";
    patch f_runfdp_guard_sonoma r_runfdp_guard_sonoma "RunFullDisplayPipe NULL vcall guard (Sonoma, default)" ].

Section defs.
Context `{Platform}.

(** [DYLDPatches.cpp shouldDisableMetalPath] *)
Definition shouldDisableMetalPath : bool := kernarg "-ngreenNoMetal".
(** [DYLDPatches.cpp getLegacyFullMTLStage] *)
Definition getLegacyFullMTLStage : Z :=
  let fullMTLStage := if kernarg "-ngreenFullMTLTest" then 1 else 0 in
  match bootarg "ngreenFullMTLStage" with
  | Some v => let s := s32 v in
              let s := if s <? 0 then 0 else s in
              if 3 <? s then 3 else s
  | None => fullMTLStage
  end.
(** [DYLDPatches.cpp shouldEnableSkyLightBypass] *)
Definition shouldEnableSkyLightBypass : bool := kernarg "-ngreenSkylBypass".

(** The list chosen by the switches. [DYLDPatches.cpp:162-213 wrapCsValidatePage] *)
Definition metalPatches : list DYLDPatch :=
  if shouldDisableMetalPath then noMetalPatches
  else if 0 <? getLegacyFullMTLStage then
    if getLegacyFullMTLStage =? 1 then stage1Patches
    else if getLegacyFullMTLStage =? 2 then stage2Patches
    else if shouldEnableSkyLightBypass then stage3SkylPatches
    else stage3Patches
  else guardedDefaultPatches.

(** [KernelPatcher::findAndReplaceWithMask] on the bytes of a page, the Darwin major version,
    [vn_getpath], [UserPatcher::matchSharedCachePath] and the machine's model identifier. *)
Context (findAndReplaceWithMask : list Z -> list Z -> list Z -> list Z -> list Z -> list Z).
Context (kernelVersion : Z) (vn_getpath : Z -> world -> option string)
  (matchSharedCachePath : string -> bool) (modelIdentifier : list Z).

Definition PAGE_SIZE : nat := Z.to_nat 4096.
(** The bytes of a page, and a page written back. *)
Definition readPage (data : Z) (m : gmap Z Z) : list Z :=
  map (fun i => u8 (default 0 (m !! (data + Z.of_nat i)))) (seq 0 PAGE_SIZE).
Fixpoint writeBytes (a : Z) (bs : list Z) (m : gmap Z Z) : gmap Z Z :=
  match bs with [] => m | b :: bs => writeBytes (a + 1) bs (<[a := u8 b]> m) end.
Definition onPage (data : Z) (f : list Z -> list Z) : M unit :=
  modify (fun w => w <| w_mem ::= fun m => writeBytes data (f (readPage data m)) m |>).
(** [DYLDPatches.hpp:39-45 apply] *)
Definition apply (data : Z) (p : DYLDPatch) : M unit :=
  onPage data (fun page =>
    findAndReplaceWithMask page (take (size p) (find p))
      (if decide (findMask p = []) then [] else take (size p) (findMask p))
      (take (size p) (replace p))
      (if decide (replaceMask p = []) then [] else take (size p) (replaceMask p))).
(** [DYLDPatches.hpp:47-54 applyAll] *)
Definition applyAll (data : Z) (ps : list DYLDPatch) : M unit := iterM ps (apply data).

(** A file that is not in the shared cache. [DYLDPatches.cpp:66-98 wrapCsValidatePage] *)
Definition patchFile (path : string) (data : Z) : M unit :=
  if strncmp path kCoreLSKDMSEPath (arrsize kCoreLSKDMSEPath) || strncmp path kCoreLSKDPath (arrsize kCoreLSKDPath) then
    _ ← when (negb (strncmp path tglGraphicsMTLDriver (arrsize tglGraphicsMTLDriver)))
          (applyAll data tglDriverPatches);
    when (negb (strncmp path libMTLIGCCompilerPluginPath (arrsize libMTLIGCCompilerPluginPath)))
      (applyAll data compilerPatches)
  else apply data coreLSKDPatch.
(** A page of the shared cache. [DYLDPatches.cpp:100-214 wrapCsValidatePage] *)
Definition patchSharedCache (data : Z) : M unit :=
  _ ← onPage data (fun page =>
        findAndReplaceWithMask page kVideoToolboxDRMModelOriginal [] (take 20 modelIdentifier) []);
  _ ← applyAll data boardIdPatches;
  when (22 <=? kernelVersion) (applyAll data metalPatches).
(** [DYLDPatches.cpp:57-215 wrapCsValidatePage] *)
Definition wrapCsValidatePage (vp pager page_offset data validated_p tainted_p nx_p : Z) : M unit :=
  _ ← call "orgCsValidatePage" [vp; pager; page_offset; data; validated_p; tainted_p; nx_p];
  path ← gets (vn_getpath vp);
  match path with
  | None => mret ()
  | Some path => if negb (matchSharedCachePath path) then patchFile path data else patchSharedCache data
  end.

(** A failed route is only logged. [DYLDPatches.cpp:42-55 processPatcher] *)
Definition processPatcher : M unit :=
  let entry := fromPath "/" in
  _ ← when (truthy entry) (setProperty entry "hwgva-id" (PData kHwGvaId));
  _ ← call "routeMultipleLong _cs_validate_page" [symbolAddr "wrapCsValidatePage"]; mret ().
End defs.

(** ** Facts *)
Lemma strncmp_literal (a b : string) : strncmp a b (arrsize b) = negb (String.eqb a b).
Proof.
  unfold arrsize. revert a. induction b as [|y b IH]; intros [|x a]; try done.
  change (arrsize (String y b)) with (S (S (String.length b))). cbn [strncmp String.eqb].
  destruct (Ascii.eqb x y); [apply IH|done].
Qed.

(** Every list a page can be patched with. *)
Definition allPatches : list DYLDPatch :=
  tglDriverPatches ++ compilerPatches ++ [coreLSKDPatch] ++ boardIdPatches ++ noMetalPatches ++ stage1Patches ++
  stage2Patches ++ stage3Patches ++ stage3SkylPatches ++ guardedDefaultPatches.
(** Pattern and replacement are byte strings of the declared size, which fits in a page, and
    they differ. *)
Definition wfPatch (p : DYLDPatch) : Prop :=
  length (find p) = size p /\ length (replace p) = size p /\ (0 < size p <= PAGE_SIZE)%nat /\
  Forall (fun b => 0 <= b < 256) (find p) /\ Forall (fun b => 0 <= b < 256) (replace p) /\ find p <> replace p.
#[global] Instance wfPatch_dec p : Decision (wfPatch p).
Proof. unfold wfPatch. exact _. Defined.

Lemma lists_wf : Forall wfPatch allPatches.
Proof. apply (bool_decide_unpack _). by vm_compute. Qed.

(** Every patch of every list is well formed: pattern and replacement are byte strings of
    exactly the declared size, no longer than a page and different from each other, so a
    replacement covers what was matched and never more. *)
Theorem patch_lists_well_formed : Forall wfPatch allPatches.
Proof. exact lists_wf. Qed.

Section bytes.
#[local] Opaque PAGE_SIZE.
Lemma lookup_writeBytes_out a bs m b : b < a \/ a + Z.of_nat (length bs) <= b -> writeBytes a bs m !! b = m !! b.
Proof.
  revert a m. induction bs as [|x bs IH]; intros a m Hb; [done|]. cbn [writeBytes length] in *.
  rewrite IH by lia. apply lookup_insert_ne. lia.
Qed.
Lemma lookup_writeBytes a bs m i x :
  bs !! i = Some x -> writeBytes a bs m !! (a + Z.of_nat i) = Some (u8 x).
Proof.
  revert a m i. induction bs as [|y bs IH]; intros a m [|i] Hx; cbn [writeBytes]; simplify_eq/=.
  - rewrite lookup_writeBytes_out by lia. rewrite Z.add_0_r. apply lookup_insert_eq.
  - replace (a + Z.of_nat (S i)) with (a + 1 + Z.of_nat i) by lia. by apply IH.
Qed.
Lemma readPage_lookup data m i :
  (i < PAGE_SIZE)%nat -> readPage data m !! i = Some (u8 (default 0 (m !! (data + Z.of_nat i)))).
Proof. intros Hi. unfold readPage. rewrite list_lookup_fmap, lookup_seq_lt by done. done. Qed.
Lemma readPage_length data m : length (readPage data m) = PAGE_SIZE.
Proof. unfold readPage. by rewrite length_map, length_seq. Qed.
(** Writing a page back as it was read changes no byte. *)
Lemma rewrite_page data m b :
  u8 (default 0 (writeBytes data (readPage data m) m !! b)) = u8 (default 0 (m !! b)).
Proof.
  destruct (decide (data <= b < data + Z.of_nat PAGE_SIZE)) as [Hb|Hb].
  - assert (Hi : (Z.to_nat (b - data) < PAGE_SIZE)%nat) by lia.
    pose proof (lookup_writeBytes data _ m _ _ (readPage_lookup data m _ Hi)) as E.
    replace (data + Z.of_nat (Z.to_nat (b - data))) with b in E by lia. rewrite E. cbn [default]. rewrite u8_idemp. apply u8_idemp.
  - rewrite lookup_writeBytes_out; [done|]. rewrite readPage_length. lia.
Qed.
End bytes.

Section facts.
Context `{Platform}.
Context (far : list Z -> list Z -> list Z -> list Z -> list Z -> list Z).
Context (kernelVersion : Z) (vn_getpath : Z -> world -> option string)
  (matchSharedCachePath : string -> bool) (modelIdentifier : list Z).
Abbreviation hook := (wrapCsValidatePage far kernelVersion vn_getpath matchSharedCachePath modelIdentifier).

(** Neither path is the other's: one of the comparisons is never equal. *)
Lemma not_both_paths path :
  strncmp path kCoreLSKDMSEPath (arrsize kCoreLSKDMSEPath) || strncmp path kCoreLSKDPath (arrsize kCoreLSKDPath) = true.
Proof. rewrite !strncmp_literal. destruct (String.eqb_spec path kCoreLSKDMSEPath) as [->|]; reflexivity. Qed.
Lemma patchFile_other path data w :
  path <> tglGraphicsMTLDriver -> path <> libMTLIGCCompilerPluginPath -> patchFile far path data w = Done () w.
Proof.
  intros H1 H2. unfold patchFile. rewrite not_both_paths, !strncmp_literal.
  rewrite (proj2 (String.eqb_neq _ _) H1), (proj2 (String.eqb_neq _ _) H2). done.
Qed.

(** C28 (safety). Whatever the search and replace does, a page of a file outside the shared cache is left as
    the kernel validated it unless the file is one of the two Intel drivers. The two CoreLSKD
    libraries are among the files left alone: the branch made to patch them is never
    taken. *)
Theorem other_files_untouched (vp pager off data v t nx : Z) (path : string) (w w1 : world) (r : Z) :
  call "orgCsValidatePage" [vp; pager; off; data; v; t; nx] w = Done r w1 ->
  vn_getpath vp w1 = Some path -> matchSharedCachePath path = false ->
  path <> tglGraphicsMTLDriver -> path <> libMTLIGCCompilerPluginPath ->
  hook vp pager off data v t nx w = Done () w1.
Proof.
  intros E Hp Hm H1 H2. unfold wrapCsValidatePage, mbind, M_bind. rewrite E. unfold gets. rewrite Hp, Hm.
  cbn [negb]. by apply patchFile_other.
Qed.

(** *** Pages without a pattern *)
Definition occurs (f page : list Z) : Prop := exists pre post, page = pre ++ f ++ post.
(** A pattern that does not occur is not replaced. *)
Hypothesis far_unmatched : forall page f r rm, ~ occurs f page -> far page f [] r rm = page.

(** No byte of memory differs. *)
Definition same_bytes : relation world := fun w w' =>
  forall b, u8 (default 0 (w_mem w' !! b)) = u8 (default 0 (w_mem w !! b)).
Lemma same_bytes_page data w w' : same_bytes w w' -> readPage data (w_mem w') = readPage data (w_mem w).
Proof. intros E. unfold readPage. apply list_fmap_ext. intros i x _. apply E. Qed.
Lemma onPage_unmatched data f r rm w :
  ~ occurs f (readPage data (w_mem w)) ->
  exists w', onPage data (fun page => far page f [] r rm) w = Done () w' /\ same_bytes w w' /\ w_tr w' = w_tr w.
Proof.
  intros Ho. eexists. split; [done|]. split; [|done]. intros b. cbn. rewrite far_unmatched by done. apply rewrite_page.
Qed.
Lemma applyAll_unmatched data ps w :
  Forall wfPatch ps -> Forall (fun p => findMask p = []) ps ->
  Forall (fun p => ~ occurs (find p) (readPage data (w_mem w))) ps ->
  exists w', applyAll far data ps w = Done () w' /\ same_bytes w w'.
Proof.
  unfold applyAll. revert w. induction ps as [|p ps IH]; intros w Hw Hm Ho; [by exists w|].
  apply Forall_cons in Hw as [(Hs & _) Hw], Hm as [Hm Hms], Ho as [Hp Ho]. cbn [iterM]. unfold mbind, M_bind.
  assert (E : exists w1, apply far data p w = Done () w1 /\ same_bytes w w1).
  { unfold apply. rewrite Hm. destruct (decide ([] = [])); [|done].
    rewrite (take_ge (find p)) by lia. destruct (onPage_unmatched data (find p) (take (size p) (replace p))
      (if decide (replaceMask p = []) then [] else take (size p) (replaceMask p)) w Hp) as (w1 & E & S & _). by exists w1. }
  destruct E as (w1 & -> & S1). destruct (IH w1 Hw Hms) as (w2 & -> & S2).
  { by rewrite (same_bytes_page data _ _ S1). }
  exists w2. split; [done|]. intros b. by rewrite S2, S1.
Qed.
Lemma metal_sublist p : p ∈ metalPatches -> p ∈ allPatches.
Proof.
  unfold metalPatches, allPatches. rewrite !elem_of_app.
  destruct shouldDisableMetalPath; [tauto|]. destruct (0 <? _); [|tauto].
  destruct (_ =? 1); [tauto|]. destruct (_ =? 2); [tauto|]. destruct shouldEnableSkyLightBypass; tauto.
Qed.
Lemma all_unmasked : Forall (fun p => findMask p = []) allPatches.
Proof. apply (bool_decide_unpack _). by vm_compute. Qed.
Lemma sublist_unmatched data ps w :
  (forall p, p ∈ ps -> p ∈ allPatches) ->
  (forall p, p ∈ allPatches -> ~ occurs (find p) (readPage data (w_mem w))) ->
  exists w', applyAll far data ps w = Done () w' /\ same_bytes w w'.
Proof.
  intros Hs Ho. pose proof lists_wf as Hw. pose proof all_unmasked as Hm.
  rewrite Forall_forall in Hw, Hm. apply applyAll_unmatched; apply Forall_forall; auto.
Qed.
Lemma in_all ps :
  ps = tglDriverPatches \/ ps = compilerPatches \/ ps = boardIdPatches -> forall p, p ∈ ps -> p ∈ allPatches.
Proof. unfold allPatches. intros Hp p Hi. rewrite !elem_of_app. destruct Hp as [->|[->| ->]]; tauto. Qed.
Lemma patchFile_unmatched path data w :
  (forall p, p ∈ allPatches -> ~ occurs (find p) (readPage data (w_mem w))) ->
  exists w', patchFile far path data w = Done () w' /\ same_bytes w w'.
Proof.
  intros Ho. unfold patchFile. rewrite not_both_paths.
  assert (Hc : forall b ps u, (forall p, p ∈ ps -> p ∈ allPatches) -> same_bytes w u ->
    exists u', when b (applyAll far data ps) u = Done () u' /\ same_bytes w u').
  { intros [] ps u Hs Hu; cbn [when]; [|by exists u].
    destruct (sublist_unmatched data ps u Hs) as (u' & E & S); [by rewrite (same_bytes_page data _ _ Hu)|].
    exists u'. split; [done|]. intros b. by rewrite S, Hu. }
  destruct (Hc (negb (strncmp path tglGraphicsMTLDriver (arrsize tglGraphicsMTLDriver))) tglDriverPatches w) as (w1 & E1 & S1); [apply in_all; tauto|done|].
  destruct (Hc (negb (strncmp path libMTLIGCCompilerPluginPath (arrsize libMTLIGCCompilerPluginPath))) compilerPatches w1) as (w2 & E2 & S2); [apply in_all; tauto|done|].
  exists w2. unfold mbind, M_bind. rewrite E1, E2. done.
Qed.
Lemma patchCache_unmatched data w :
  ~ occurs kVideoToolboxDRMModelOriginal (readPage data (w_mem w)) ->
  (forall p, p ∈ allPatches -> ~ occurs (find p) (readPage data (w_mem w))) ->
  exists w', patchSharedCache far kernelVersion modelIdentifier data w = Done () w' /\ same_bytes w w'.
Proof.
  intros Hv Ho. destruct (onPage_unmatched data _ (take 20 modelIdentifier) [] w Hv) as (w1 & E1 & S1 & _).
  destruct (sublist_unmatched data boardIdPatches w1) as (w2 & E2 & S2);
    [apply in_all; tauto|by rewrite (same_bytes_page data _ _ S1)|].
  assert (S12 : same_bytes w w2) by (intros b; by rewrite S2, S1).
  unfold patchSharedCache, mbind, M_bind. rewrite E1, E2. destruct (22 <=? kernelVersion); cbn [when]; [|by exists w2].
  destruct (sublist_unmatched data metalPatches w2 metal_sublist) as (w3 & E3 & S3);
    [by rewrite (same_bytes_page data _ _ S12)|].
  exists w3. split; [done|]. intros b. by rewrite S3, S12.
Qed.

(** The hook always completes, and a page in which none of
    the patterns occurs leaves it with no byte of memory changed, whatever the path, the
    switches and the kernel version. *)
Theorem unmatched_pages_untouched (vp pager off data v t nx r : Z) (w w1 : world) :
  call "orgCsValidatePage" [vp; pager; off; data; v; t; nx] w = Done r w1 ->
  ~ occurs kVideoToolboxDRMModelOriginal (readPage data (w_mem w1)) ->
  (forall p, p ∈ allPatches -> ~ occurs (find p) (readPage data (w_mem w1))) ->
  exists w', hook vp pager off data v t nx w = Done () w' /\ same_bytes w1 w'.
Proof.
  intros E Hv Ho. unfold wrapCsValidatePage, mbind, M_bind. rewrite E. unfold gets.
  destruct (vn_getpath vp w1) as [path|]; [|by exists w1].
  destruct (matchSharedCachePath path); cbn [negb]; [by apply patchCache_unmatched|by apply patchFile_unmatched].
Qed.
End facts.

Section choice.
Context `{Platform}.
Definition bytesOf (ps : list DYLDPatch) : list (list Z * list Z) := map (fun p => (find p, replace p)) ps.

(** The stage read from the boot arguments is between 0 and 3 whatever integer is given. The
    default choice patches exactly what stage 3 patches; the SkyLight bypass takes effect in
    stage 3 and nowhere else; switching Metal off wins over every stage. *)
Theorem metal_choice :
  0 <= getLegacyFullMTLStage <= 3 /\
  (shouldDisableMetalPath = true -> metalPatches = noMetalPatches) /\
  (shouldDisableMetalPath = false -> shouldEnableSkyLightBypass = false ->
     getLegacyFullMTLStage = 0 \/ getLegacyFullMTLStage = 3 -> bytesOf metalPatches = bytesOf stage3Patches) /\
  (f4_skyl_sonoma ∈ map find metalPatches <->
     shouldDisableMetalPath = false /\ getLegacyFullMTLStage = 3 /\ shouldEnableSkyLightBypass = true).
Proof.
  assert (Hb : 0 <= getLegacyFullMTLStage <= 3).
  { unfold getLegacyFullMTLStage. destruct (bootarg _) as [x|]; [|destruct (kernarg _); lia].
    destruct (Z.ltb_spec (s32 x) 0); [by vm_compute|]. destruct (Z.ltb_spec 3 (s32 x)); lia. }
  split; [done|]. unfold metalPatches. destruct shouldDisableMetalPath.
  { split; [done|]. split; [done|]. split; [|by intros (? & _)]. intros Hi. exfalso. revert Hi.
    apply (bool_decide_unpack (f4_skyl_sonoma ∉ map find noMetalPatches)). by vm_compute. }
  split; [done|]. assert (Hs : getLegacyFullMTLStage = 0 \/ getLegacyFullMTLStage = 1 \/ getLegacyFullMTLStage = 2 \/
    getLegacyFullMTLStage = 3) by lia.
  assert (Hno : forall ps, bool_decide (f4_skyl_sonoma ∉ map find ps) = true -> f4_skyl_sonoma ∈ map find ps -> False).
  { intros ps Hd%bool_decide_eq_true. exact Hd. }
  destruct Hs as [E|[E|[E|E]]]; rewrite E; cbn [Z.ltb Z.eqb Z.compare Pos.eqb]; destruct shouldEnableSkyLightBypass;
    (split; [intros _ ? ?; first [done|lia]|]);
    (split; [intros Hi; first [by (exfalso; revert Hi; apply Hno; vm_compute)|done]|intros (_ & ? & ?); try done]).
  apply (bool_decide_unpack (f4_skyl_sonoma ∈ map find stage3SkylPatches)). by vm_compute.
Qed.
End choice.

(** ** Evaluations *)
Import Sim.
#[local] Instance dyld_plat : Platform := sim_platform_with [("ngreenFullMTLStage", 7)] ["-ngreenSkylBypass"] 0.
(** Replace the first occurrence of an unmasked pattern. *)
Fixpoint replaceFirst (page f r : list Z) : list Z :=
  if decide (take (length f) page = f) then r ++ drop (length r) page
  else match page with [] => [] | b :: page => b :: replaceFirst page f r end.
Definition sim_far (page f fm r rm : list Z) : list Z := replaceFirst page f r.
Lemma sim_far_unmatched page f r rm : ~ occurs f page -> sim_far page f [] r rm = page.
Proof.
  unfold sim_far. induction page as [|b page IH]; intros Ho; cbn [replaceFirst].
  - destruct (decide _) as [E|]; [|done]. destruct Ho. exists [], []. rewrite <-E. by rewrite take_nil.
  - destruct (decide _) as [E|].
    + destruct Ho. exists [], (drop (length f) (b :: page)). cbn [app]. rewrite <-E at 1. by rewrite take_drop.
    + f_equal. apply IH. intros (pre & post & E). apply Ho. exists (b :: pre), post. by rewrite E.
Qed.
Definition sim_path (vp : Z) (w : world) : option string := Some (if vp =? 1 then kCoreLSKDPath else tglGraphicsMTLDriver).
Lemma other_files_untouched_witness :
  wrapCsValidatePage sim_far 23 sim_path (fun _ => false) [] 1 2 0 0x8000 3 4 5 (sim_world []) =
    Done () (emit (ECall "orgCsValidatePage" [1; 2; 0; 0x8000; 3; 4; 5]) (sim_world [])).
Proof.
  apply (other_files_untouched sim_far 23 sim_path (fun _ => false) [] 1 2 0 0x8000 3 4 5 kCoreLSKDPath
    (sim_world []) (emit (ECall "orgCsValidatePage" [1; 2; 0; 0x8000; 3; 4; 5]) (sim_world [])) 0);
    first [reflexivity|discriminate].
Defined.
(** A page of zeros has none of the patterns. *)
Lemma zero_page f data : Exists (fun b => b <> 0) f -> ~ occurs f (readPage data ∅).
Proof.
  intros Hf (pre & post & E). apply Exists_exists in Hf as (b & Hb & Hn). apply Hn.
  assert (Hi : b ∈ readPage data ∅) by (rewrite E, !elem_of_app; auto).
  apply list_elem_of_fmap in Hi as (i & -> & _). by rewrite lookup_empty.
Qed.
Lemma patterns_nonzero : Forall (fun p => Exists (fun b => b <> 0) (find p)) allPatches.
Proof. apply (bool_decide_unpack _). by vm_compute. Qed.
Lemma unmatched_pages_untouched_witness :
  exists w', wrapCsValidatePage sim_far 23 sim_path (fun _ => true) [] 2 2 0 0x8000 3 4 5 (sim_world []) = Done () w' /\
    same_bytes (emit (ECall "orgCsValidatePage" [2; 2; 0; 0x8000; 3; 4; 5]) (sim_world [])) w'.
Proof.
  refine (unmatched_pages_untouched sim_far 23 sim_path (fun _ => true) [] sim_far_unmatched 2 2 0 0x8000 3 4 5 0
    (sim_world []) (emit (ECall "orgCsValidatePage" [2; 2; 0; 0x8000; 3; 4; 5]) (sim_world [])) eq_refl _ _).
  - apply zero_page. left. discriminate.
  - intros p Hp. apply zero_page. exact (proj1 (Forall_forall _ _) patterns_nonzero p Hp).
Defined.
Example stage_clamped : getLegacyFullMTLStage = 3 /\ metalPatches = stage3SkylPatches.
Proof. by vm_compute. Qed.
Example driver_patched :
  replaceFirst ([0x90] ++ kTGLGraphicsMTLDrivero ++ [0x90]) kTGLGraphicsMTLDrivero kTGLGraphicsMTLDriverp =
  [0x90] ++ kTGLGraphicsMTLDriverp ++ [0x90].
Proof. by vm_compute. Qed.
End Dyld.
