(* ===== verification/Plugin.v ===== *)
(** * Start of the plugin (NGreen.cpp)

    What [NGreen] does when the patcher is ready: seed the properties of the graphics
    device, find it, record what it is, size its stolen memory, publish the framebuffer's
    personality and route its PCI configuration reads; and the hooks of NGreen.cpp. *)
From Stdlib Require Import Ascii.
From S2P Require Import Prelude Machine Memory Sim Regs Mmio BootArgs Dyld.
Import Regs Mmio BootArgs.

Module Plugin.
(** The bytes of a C string literal, its terminator included. *)
Definition cbytes (s : string) : list Z :=
  map (fun c => Z.of_nat (nat_of_ascii c)) (String.list_ascii_of_string s) ++ [0].
(** Little-endian value of a run of bytes. *)
Fixpoint le (l : list Z) : Z :=
  match l with [] => 0 | b :: l => u8 b .| (le l .<< 8) end.

(** [NGreen.cpp:41-42 builtin2] *)
Definition builtin2 : list Z := [0x00; 0x00; 0x49; 0x9A].
Definition builtin3 : list Z := [0x49; 0x9A; 0x00; 0x00].
Definition unifiedMem : list Z := [0x00; 0x00; 0x00; 0x60].

(** The paths probed before the device scan. [NGreen.cpp:56-61 shouldAutoSeedIGPUPropertiesEarly] *)
Definition paths : list string :=
  [ "IOService:/AppleACPIPlatformExpert/PC00@0/IGPU@2";
    "IOService:/AppleACPIPlatformExpert/PC00@0/GFX0@2";
    "IOService:/AppleACPIPlatformExpert/PCI0@0/IGPU@2";
    "IOService:/AppleACPIPlatformExpert/PCI0@0/GFX0@2" ].

(** [WIOKit::getOSDataValue] into a [uint32_t]: data of exactly that size. *)
Definition getOSDataValue (p : option prop) : option Z :=
  match p with
  | Some (PData bytes) => if Nat.eqb (length bytes) 4 then Some (le bytes) else None
  | _ => None
  end.

(** First value of a key. *)
Fixpoint lookup_key {A} (k : string) (l : list (string * A)) : option A :=
  match l with [] => None | (k', v) :: l => if String.eqb k k' then Some v else lookup_key k l end.
(** [OSDictionary::setObject]. *)
Fixpoint setObject (k : string) (v : prop) (d : list (string * prop)) : list (string * prop) :=
  match d with
  | [] => [(k, v)]
  | (k', v') :: d => if String.eqb k k' then (k, v) :: d else (k', v') :: setObject k v d
  end.

(** Size of stolen memory in MiB for a graphics mode select, from the previous value of
    the member, and the member's final value. [NGreen.cpp:412-420 processPatcher] *)
Definition stolenMiB (prev gms : Z) : Z :=
  if gms <? 0x10 then u32 (gms * 32)
  else if (gms =? 0x20) || (gms =? 0x30) || (gms =? 0x40) then u32 (gms * 32)
  else if (0xF0 <=? gms) && (gms <=? 0xFE) then u32 (((gms .& 0x0F) + 1) * 4)
  else prev.
(** [NGreen.cpp:412-422 processPatcher] *)
Definition stolenSize (prev gms : Z) : Z :=
  let s := stolenMiB prev gms in
  u32 ((if s <? 128 then 128 else s) * (1024 * 1024)).

(** Display model of the processor from [cpuid(1).eax]. [NGreen.cpp:388-395 processPatcher] *)
Definition cpuModelOf (eax : Z) : Z :=
  let family := (eax .>> 8) .& 0xF in
  let model := (eax .>> 4) .& 0xF in
  let extModel := (eax .>> 16) .& 0xF in
  if family =? 6 then model .| (extModel .<< 4) else model.

Section defs.
Context `{Platform}.

(** [NGreen.cpp shouldForceRPLBringupPlatform] *)
Definition shouldForceRPLBringupPlatform (entry : Z) : M bool :=
  p ← (if truthy entry then getProperty entry "AAPL,ig-platform-id" else mret None);
  match p with
  | Some (PData bytes) =>
    if Nat.ltb (length bytes) 4 then mret true else mret (le (take 4 bytes) =? 0x8A5C0002)
  | _ => mret true
  end.
(** [NGreen.cpp:63-76 shouldAutoSeedIGPUPropertiesEarly] *)
Fixpoint anyNeedsSeed (ps : list string) : M bool :=
  match ps with
  | [] => mret false
  | p :: ps =>
    let entry := fromPath p in
    if negb (truthy entry) then anyNeedsSeed ps
    else
      shouldSeed ← orM (shouldForceRPLBringupPlatform entry)
                       (d ← getProperty entry "device-id";
                        mret (match d with Some _ => false | None => true end));
      if shouldSeed : bool then mret true else anyNeedsSeed ps
  end.
(** [NGreen.cpp shouldAutoSeedIGPUPropertiesEarly] *)
Definition shouldAutoSeedIGPUPropertiesEarly : M bool := anyNeedsSeed paths.
(** [NGreen.cpp shouldEnableLegacyPllBringup] *)
Definition shouldEnableLegacyPllBringup : bool := switch "ngreenlegacypll" "-ngreenlegacypll".
(** [NGreen.cpp hasAllow3DBootArg] *)
Definition hasAllow3DBootArg : bool := kernarg "-allow3d".
(** [NGreen.cpp shouldDisableExternalOutputs] *)
Definition shouldDisableExternalOutputs : bool := switch "NGreenNoExternal" "-NGreenNoExternal".
(** [NGreen.cpp isLegacyIGPUPropSeedingEnabled] *)
Definition isLegacyIGPUPropSeedingEnabled : bool := switch "ngreenforceprops" "-ngreenforceprops".

(** The framebuffer personality; an entry is left out when its object cannot be allocated.
    [NGreen.cpp:102-123 publishTglFramebufferPersonality] *)
Definition fbPersonality : prop :=
  let str (k v : string) := if allocOk "OSString" then [(k, PString v)] else [] in
  PDict (
    str "CFBundleIdentifier" "com.xxxxx.driver.AppleIntelTGLGraphicsFramebuffer" ++
    str "IOClass" "AppleIntelFramebufferController" ++
    str "IOMatchCategory" "IOFramebuffer" ++
    str "IOProviderClass" "IOPCIDevice" ++
    str "IOPCIClassMatch" "0x03000000&0xff000000" ++
    str "IOPCIPrimaryMatch" "0x9A498086" ++
    str "IOSourceVersion" "0.0.0.0.0" ++
    (if allocOk "OSNumber" then [("IOProbeScore", PNumber 32 80000)] else [])).
(** [NGreen.cpp publishTglFramebufferPersonality] *)
Definition publishTglFramebufferPersonality (gpu : Z) : M unit :=
  when (allocOk "OSDictionary" && allocOk "OSArray" && truthy (symbolAddr "gIOCatalogue"))
    (_ ← addDrivers fbPersonality;
     when (truthy gpu) (_ ← call "registerService" [gpu]; mret ())).

(** [0xea] bytes from the address of the empty array [sconf]. *)
Definition sconfBytes (sconf : string) (w : world) : list Z :=
  map (fun i => byte (symbolAddr sconf + Z.of_nat i) w) (seq 0 (Z.to_nat 0xea)).
(** What is seeded, in the order of the code. [NGreen.cpp:179-221 seedIGPUPropertiesOnEntry] *)
Definition seedTable (w : world) : list (string * prop) :=
  [ ("AAPL,ig-platform-id", PData builtin2);
    ("device-id", PData builtin3);
    ("built-in", PData [0]);
    ("AAPL,slot-name", PData (cbytes "built-in"));
    ("hda-gfx", PData (cbytes "onboard-1"));
    ("model", PData (cbytes "Intel Iris Xe Graphics"));
    ("framebuffer-unifiedmem", PData unifiedMem);
    ("saved-config", PData (sconfBytes "seedIGPUPropertiesOnEntry::sconf" w)) ].
(** [NGreen.cpp:177-223 seedIGPUPropertiesOnEntry] *)
Fixpoint seedMissing (entry : Z) (tbl : list (string * prop)) (changed : bool) : M bool :=
  match tbl with
  | [] => mret changed
  | (k, v) :: tbl =>
    p ← getProperty entry k;
    match p with
    | Some _ => seedMissing entry tbl changed
    | None => _ ← setProperty entry k v; seedMissing entry tbl true
    end
  end.
(** [NGreen.cpp seedIGPUPropertiesOnEntry] *)
Definition seedIGPUPropertiesOnEntry (entry : Z) : M bool :=
  if negb (truthy entry) then mret false
  else tbl ← gets seedTable; seedMissing entry tbl false.
(** Whether an entry was found, and changed, only goes to the log.
    [NGreen.cpp seedIGPUPropertiesEarly] *)
Definition seedIGPUPropertiesEarly : M unit :=
  iterM paths (fun p => _ ← seedIGPUPropertiesOnEntry (fromPath p); mret ()).

(** The length of a memory map, a property of the map object. *)
Context (mapLength : Z -> Z).
(** A null map is dereferenced. [NGreen.cpp setRMMIOIfNecessary] *)
Definition setRMMIOIfNecessary : M unit :=
  g ← ng iGPU;
  if negb (truthy g) then mret ()
  else
    m ← ng rmmio;
    if match m with Some len => negb (truthy len) | None => true end then
      map ← call "mapDeviceMemoryWithRegister" [g; 0x10];
      if negb (truthy map) then
        _ ← set_ng (fun n => n <| rmmio := None |>); panic "null IOMemoryMap"
      else
        _ ← set_ng (fun n => n <| rmmio := Some (mapLength map) |>);
        va ← call "getVirtualAddress" [map];
        set_ng (fun n => n <| rmmioPtr := truthy va |>)
    else mret ().

(** [routeVirtual]: swap slot [off] of the object's virtual table, remembering what was there. *)
Definition routeVirtual (obj off func : Z) (saveOrg : Z -> M unit) : M bool :=
  vt ← (if truthy obj then load 8 obj else mret 0);
  if negb (truthy vt) then mret false
  else
    cur ← load 8 (vt + off * 8);
    if cur =? func then mret false
    else _ ← saveOrg cur; _ ← store 8 (vt + off * 8) func; mret true.

(** [while (timeout--)]. [NGreen.cpp:477-483 processPatcher] *)
Fixpoint pllWait (timeout : nat) : M unit :=
  match timeout with
  | O => mret ()
  | S timeout =>
    v ← readReg32 BXT_DE_PLL_ENABLE;
    if truthy (v .& (1 .<< 30)) then mret ()
    else _ ← delay_us 1; pllWait timeout
  end.
(** [NGreen.cpp:465-485 processPatcher] *)
Definition legacyPll : M unit :=
  when shouldEnableLegacyPllBringup
    (_ ← setRMMIOIfNecessary;
     _ ← writeReg32 0x46020 0;
     _ ← delay_us 50;
     _ ← writeReg32 BXT_DE_PLL_ENABLE 0;
     _ ← delay_us 20;
     _ ← intel_de_rmw 0x6d000 0xFF 60;
     _ ← writeReg32 BXT_DE_PLL_ENABLE BXT_DE_PLL_PLL_ENABLE;
     pllWait (Z.to_nat 2000)).

(** Properties set whatever the entry holds, when seeding is on. [NGreen.cpp:357-365 processPatcher] *)
Definition forceProps (g : Z) : M unit :=
  _ ← setProperty g "built-in" (PData [0]);
  _ ← setProperty g "AAPL,slot-name" (PData (cbytes "built-in"));
  _ ← setProperty g "hda-gfx" (PData (cbytes "onboard-1"));
  _ ← setProperty g "model" (PData (cbytes "Intel Iris Xe Graphics"));
  p ← getProperty g "saved-config";
  match p with
  | Some (PData _) => mret ()
  | _ => s ← gets (sconfBytes "processPatcher::sconf"); setProperty g "saved-config" (PData s)
  end.
(** [cpuid(1).eax]. *)
Context (cpuid1 : Z).
(** [NGreen.cpp:380-408 processPatcher] *)
Definition recordDevice (g : Z) : M unit :=
  dev ← gets (pciConfig g 2);
  rev ← gets (pciConfig g 8);
  _ ← set_ng (fun n => n <| deviceId := u32 dev |> <| pciRevision := u32 rev |>
        <| cpuModel := cpuModelOf cpuid1 |> <| request3D := hasAllow3DBootArg |>
        <| isRealTGL := true |> <| tryGuC := true |>
        <| gateExternalDisplays := shouldDisableExternalOutputs |>);
  _ ← setProperty g "NGreenAllow3DRequested" (PBool hasAllow3DBootArg);
  _ ← setProperty g "NGreenTryGuC" (PBool true);
  setProperty g "NGreenGateExternal" (PBool shouldDisableExternalOutputs).
(** [NGreen.cpp:410-423 processPatcher] *)
Definition computeStolenSize (videoBuiltin : Z) : M unit :=
  v ← gets (pciConfig videoBuiltin 0x50);
  let gms := u16 v .>> 8 in
  set_ng (fun n => n <| stolen_size ::= fun prev => stolenSize prev gms |>).
(** [NGreen.cpp:434-456 processPatcher] *)
Definition publishAccelProps (g : Z) : M unit :=
  let str (k v : string) := when (allocOk "OSString") (setProperty g k (PString v)) in
  _ ← setProperty g "IOPCIAccelerationGpu" (PData [1]);
  _ ← str "MetalPluginName" "AppleIntelTGLGraphics";
  _ ← str "IOAccelScaleFactorDict" "IOAccelScaleFactorDict";
  _ ← str "IOAccelDeviceShaderBinary" "IOAccelTGLShaderBinary";
  _ ← str "IOPCIMatch" "0x9A498086";
  _ ← str "IOAccelDriverConnectCategory" "IOAccelGPU";
  setProperty g "IOAccelCaps" (PData [0x00; 0x00; 0x10; 0x00]).
(** [NGreen.cpp:487-488 processPatcher] *)
Definition routeConfigReads (g : Z) : M unit :=
  _ ← routeVirtual g 0x10C (symbolAddr "configRead16") (fun o => set_ng (fun n => n <| orgConfigRead16 := o |>));
  _ ← routeVirtual g 0x10A (symbolAddr "configRead32") (fun o => set_ng (fun n => n <| orgConfigRead32 := o |>));
  mret ().

(** Where [DeviceInfo] keeps the built-in video device. *)
Context (videoBuiltinOff : Z).
(** [NGreen.cpp:315-499 processPatcher] *)
Definition setupDevice (seedIGPUProps : bool) (devInfo : Z) : M unit :=
  _ ← call "processSwitchOff" [devInfo];
  vb ← load 8 (devInfo + videoBuiltinOff);
  let g := if isClass "IOPCIDevice" vb then vb else 0 in
  _ ← set_ng (fun n => n <| iGPU := g |>);
  if negb (truthy g) then panic "videoBuiltin is not IOPCIDevice"
  else
    _ ← call "enablePCIPowerManagement" [g; 0];
    _ ← call "setBusMasterEnable" [g; 1];
    _ ← call "setMemoryEnable" [g; 1];
    _ ← call "renameDevice IGPU" [g];
    _ ← call "awaitPublishing" [g];
    _ ← seedIGPUPropertiesOnEntry g;
    _ ← when seedIGPUProps (forceProps g);
    _ ← recordDevice g;
    _ ← computeStolenSize vb;
    _ ← when seedIGPUProps (setProperty g "framebuffer-unifiedmem" (PData unifiedMem));
    _ ← publishTglFramebufferPersonality g;
    _ ← publishAccelProps g;
    _ ← legacyPll;
    _ ← routeConfigReads g;
    _ ← call "DeviceInfo::deleter" [devInfo]; mret ().
(** [NGreen.cpp processPatcher] *)
Definition processPatcher : M unit :=
  _ ← when (negb (kernarg "-nbdyldoff")) Dyld.processPatcher;
  autoSeed ← shouldAutoSeedIGPUPropertiesEarly;
  let seedIGPUProps := isLegacyIGPUPropSeedingEnabled || autoSeed in
  _ ← when seedIGPUProps seedIGPUPropertiesEarly;
  devInfo ← call "DeviceInfo::create" [];
  when (truthy devInfo) (setupDevice seedIGPUProps devInfo).

(** *** PCI configuration reads *)
(** [getName] of a service (none when null). *)
Context (getName : Z -> world -> option string).
Definition isIGPU (name : option string) : bool :=
  match name with Some n => String.prefix "IGPU" n | None => false end.
(** The spoofed id of the service, when it is the graphics device. [NGreen.cpp:594-597 configRead16] *)
Definition spoofedId (service : Z) : M (option Z) :=
  name ← gets (getName service);
  if isIGPU name then p ← getProperty service "device-id"; mret (getOSDataValue p) else mret None.
(** [NGreen.cpp configRead16] *)
Definition configRead16 (service space offset : Z) : M Z :=
  cb ← ng ngCallback;
  org ← ng orgConfigRead16;
  if cb && truthy org then
    r ← call "orgConfigRead16" [service; space; offset];
    let result := u16 r in
    if (offset =? 2) && truthy service then
      d ← spoofedId service;
      match d with
      | Some device => if negb (device =? result) then mret (u16 device) else mret result
      | None => mret result
      end
    else mret result
  else mret 0.
(** [NGreen.cpp configRead32] *)
Definition configRead32 (service space offset : Z) : M Z :=
  cb ← ng ngCallback;
  org ← ng orgConfigRead32;
  if cb && truthy org then
    r ← call "orgConfigRead32" [service; space; offset];
    let result := u32 r in
    if ((offset =? 2) || (offset =? 0)) && truthy service then
      d ← spoofedId service;
      match d with
      | Some device =>
        if negb (device =? (result .& 0xFFFF)) then mret ((result .& 0xFFFF) .| u32 (device .<< 16))
        else mret result
      | None => mret result
      end
    else mret result
  else mret 0.

(** *** Backlight panels *)
(** [NGreen.cpp wrapFunctionReturnZero] *)
Definition wrapFunctionReturnZero : M Z := mret 0.
(** [NGreen.cpp:637-659 appleBacklightData] *)
Definition appleBacklightData : list (string * list Z) :=
  [ ("F14Txxxx", [0x00; 0x11; 0x00; 0x00; 0x00; 0x34; 0x00; 0x52; 0x00; 0x73; 0x00; 0x94; 0x00; 0xBE; 0x00; 0xFA; 0x01;
       0x36; 0x01; 0x72; 0x01; 0xC5; 0x02; 0x2F; 0x02; 0xB9; 0x03; 0x60; 0x04; 0x1A; 0x05; 0x0A; 0x06; 0x0E; 0x07; 0x10]);
    ("F15Txxxx", [0x00; 0x11; 0x00; 0x00; 0x00; 0x36; 0x00; 0x54; 0x00; 0x7D; 0x00; 0xB2; 0x00; 0xF5; 0x01; 0x49; 0x01;
       0xB1; 0x02; 0x2B; 0x02; 0xB8; 0x03; 0x59; 0x04; 0x13; 0x04; 0xEC; 0x05; 0xF3; 0x07; 0x34; 0x08; 0xAF; 0x0A; 0xD9]);
    ("F16Txxxx", [0x00; 0x11; 0x00; 0x00; 0x00; 0x18; 0x00; 0x27; 0x00; 0x3A; 0x00; 0x52; 0x00; 0x71; 0x00; 0x96; 0x00;
       0xC4; 0x00; 0xFC; 0x01; 0x40; 0x01; 0x93; 0x01; 0xF6; 0x02; 0x6E; 0x02; 0xFE; 0x03; 0xAA; 0x04; 0x78; 0x05; 0x6C]);
    ("F17Txxxx", [0x00; 0x11; 0x00; 0x00; 0x00; 0x1F; 0x00; 0x34; 0x00; 0x4F; 0x00; 0x71; 0x00; 0x9B; 0x00; 0xCF; 0x01;
       0x0E; 0x01; 0x5D; 0x01; 0xBB; 0x02; 0x2F; 0x02; 0xB9; 0x03; 0x60; 0x04; 0x29; 0x05; 0x1E; 0x06; 0x44; 0x07; 0xA1]);
    ("F18Txxxx", [0x00; 0x11; 0x00; 0x00; 0x00; 0x53; 0x00; 0x8C; 0x00; 0xD5; 0x01; 0x31; 0x01; 0xA2; 0x02; 0x2E; 0x02;
       0xD8; 0x03; 0xAE; 0x04; 0xAC; 0x05; 0xE5; 0x07; 0x59; 0x09; 0x1C; 0x0B; 0x3B; 0x0D; 0xD0; 0x10; 0xEA; 0x14; 0x99]);
    ("F19Txxxx", [0x00; 0x11; 0x00; 0x00; 0x02; 0x8F; 0x03; 0x53; 0x04; 0x5A; 0x05; 0xA1; 0x07; 0xAE; 0x0A; 0x3D; 0x0E;
       0x14; 0x13; 0x74; 0x1A; 0x5E; 0x24; 0x18; 0x31; 0xA9; 0x44; 0x59; 0x5E; 0x76; 0x83; 0x11; 0xB6; 0xC7; 0xFF; 0x7B]);
    ("F24Txxxx", [0x00; 0x11; 0x00; 0x01; 0x00; 0x34; 0x00; 0x52; 0x00; 0x73; 0x00; 0x94; 0x00; 0xBE; 0x00; 0xFA; 0x01;
       0x36; 0x01; 0x72; 0x01; 0xC5; 0x02; 0x2F; 0x02; 0xB9; 0x03; 0x60; 0x04; 0x1A; 0x05; 0x0A; 0x06; 0x0E; 0x07; 0x10]) ].
(** [NGreen.cpp wrapApplePanelSetDisplay] *)
Definition wrapApplePanelSetDisplay (that display : Z) : M bool :=
  once ← ng panelOnce;
  _ ← when (negb once)
        (_ ← set_ng (fun n => n <| panelOnce := true |>);
         p ← getProperty that "ApplePanels";
         match p with
         | Some (PDict panels) =>
           when (allocOk "copyCollection")
             (setProperty that "ApplePanels"
                (PDict (foldl (fun d e => if allocOk "OSData" then setObject e.1 (PData e.2) d else d)
                          panels appleBacklightData)))
         | _ => mret ()
         end);
  r ← call "orgApplePanelSetDisplay" [that; display];
  mret (truthy (u8 r)).
End defs.

(** ** Facts *)
Lemma le4_range l : length l = 4%nat -> 0 <= le l < 2 ^ 32.
Proof.
  destruct l as [|a [|b [|c [|d [|]]]]]; try done. intros _. cbn [le]. change (0 .<< 8) with 0. rewrite Z.lor_0_r.
  assert (Hs : forall x y n, 0 <= n -> 0 <= y < 2 ^ n -> 0 <= u8 x .| (y .<< 8) < 2 ^ (n + 8)).
  { intros x y n Hn Hy. pose proof (u8_range x) as Hx.
    assert (2 ^ 8 <= 2 ^ (n + 8)) by (apply Z.pow_le_mono_r; lia).
    apply lor_range; [lia|lia|]. rewrite Z.shiftl_mul_pow2, Z.pow_add_r by lia. nia. }
  apply (Hs _ _ 24); [lia|]. apply (Hs _ _ 16); [lia|]. apply (Hs _ _ 8); [lia|]. apply u8_range.
Qed.
Lemma getOSDataValue_range p v : getOSDataValue p = Some v -> 0 <= v < 2 ^ 32.
Proof.
  destruct p as [[]|]; simpl; try done. destruct (Nat.eqb_spec (length bytes) 4); [|done].
  intros; simplify_eq. by apply le4_range.
Qed.

Section facts.
Context `{Platform}.

(** *** Seeding *)
Definition missing (entry : Z) (w : world) (kv : string * prop) : bool :=
  match w_reg w !! (entry, kv.1) with Some _ => false | None => true end.
Definition seeded (entry : Z) (tbl : list (string * prop)) (w : world) (o : Z) (k : string) : option prop :=
  match w_reg w !! (o, k) with
  | Some v => Some v
  | None => if o =? entry then lookup_key k tbl else None
  end.
Lemma seedMissing_run entry tbl changed w :
  exists w', seedMissing entry tbl changed w = Done (changed || existsb (missing entry w) tbl) w' /\
    (forall o k, w_reg w' !! (o, k) = seeded entry tbl w o k) /\ w_mem w' = w_mem w /\ w_ng w' = w_ng w.
Proof.
  revert changed w. induction tbl as [|[k v] tbl IH]; intros changed w; cbn [seedMissing].
  { exists w. split; [by rewrite orb_false_r|]. split; [|done]. intros o k. unfold seeded. simpl.
    destruct (_ !! _); [done|]. by destruct (o =? entry). }
  unfold mbind, M_bind, getProperty, gets. cbn [existsb]. unfold missing at 1. cbn [fst].
  destruct (w_reg w !! (entry, k)) as [v0|] eqn:E.
  - destruct (IH changed w) as (w' & -> & Hr & Hm). exists w'. split; [done|]. split; [|done].
    intros o k'. rewrite Hr. unfold seeded. cbn [lookup_key].
    destruct (w_reg w !! (o, k')) eqn:E'; [done|]. destruct (Z.eqb_spec o entry); [subst|done].
    destruct (String.eqb_spec k' k); [by subst; rewrite E in E'|done].
  - unfold setProperty, modify. set (w1 := emit _ _). destruct (IH true w1) as (w' & -> & Hr & Hm).
    exists w'. split; [by rewrite orb_true_r|]. split; [|done].
    assert (L : forall o k', w_reg w1 !! (o, k') = if (o =? entry) && String.eqb k' k then Some v else w_reg w !! (o, k')).
    { intros o k'. unfold w1. simpl. destruct (Z.eqb_spec o entry), (String.eqb_spec k' k); subst; simpl;
        [by rewrite lookup_insert_eq|by rewrite lookup_insert_ne by congruence..]. }
    intros o k'. rewrite Hr. unfold seeded. rewrite L. cbn [lookup_key].
    destruct (Z.eqb_spec o entry), (String.eqb_spec k' k); subst; simpl; try done. by rewrite E.
Qed.
Lemma lookup_key_in {A} k (v : A) l : (k, v) ∈ l -> is_Some (lookup_key k l).
Proof.
  induction l as [|[k' v'] l IH]; [by rewrite elem_of_nil|]. intros [?|?]%elem_of_cons; simpl.
  - simplify_eq. rewrite String.eqb_refl. by eexists.
  - destruct (String.eqb k k'); [by eexists|auto].
Qed.
Lemma seedMissing_done entry tbl w :
  (forall kv, kv ∈ tbl -> missing entry w kv = false) -> seedMissing entry tbl false w = Done false w.
Proof.
  induction tbl as [|[k v] tbl IH]; intros Hm; [done|]. cbn [seedMissing]. unfold mbind, M_bind, getProperty, gets.
  specialize (Hm (k, v) ltac:(set_solver)) as Hk. unfold missing in Hk. cbn [fst] in Hk.
  destruct (_ !! _); [|done]. apply IH. set_solver.
Qed.

(** C36 (functional). Seeding an entry gives it each of the eight properties it lacks, with
    the value of the table, and changes nothing else: a property the firmware or the boot
    loader provided keeps its value, other entries are not touched. It reports a change
    exactly when something was missing, and a second run does nothing. *)
Theorem seeding_fills_only_missing (entry : Z) (w : world) :
  truthy entry = true ->
  exists w', seedIGPUPropertiesOnEntry entry w = Done (existsb (missing entry w) (seedTable w)) w' /\
    (forall o k, w_reg w' !! (o, k) =
       match w_reg w !! (o, k) with
       | Some v => Some v
       | None => if o =? entry then lookup_key k (seedTable w) else None
       end) /\
    seedIGPUPropertiesOnEntry entry w' = Done false w'.
Proof.
  intros He. unfold seedIGPUPropertiesOnEntry. rewrite He. cbn [negb]. unfold mbind, M_bind, gets.
  destruct (seedMissing_run entry (seedTable w) false w) as (w' & E & Hr & Hm & Hn). exists w'.
  split; [exact E|]. split; [exact Hr|]. apply seedMissing_done. intros [k v] Hk.
  assert (Ht : seedTable w' = seedTable w) by (unfold seedTable, sconfBytes, byte; by rewrite Hm).
  rewrite Ht in Hk. unfold missing. cbn [fst]. rewrite Hr. unfold seeded. rewrite Z.eqb_refl.
  destruct (w_reg w !! _); [done|]. by destruct (lookup_key_in _ _ _ Hk) as [? ->].
Qed.

(** The platform id that makes the entry a candidate for seeding survives the seeding. *)
Theorem seeding_keeps_rejected_platform (entry : Z) (w : world) :
  truthy entry = true ->
  w_reg w !! (entry, "AAPL,ig-platform-id") = Some (PData [0x02; 0x00; 0x5C; 0x8A]) ->
  exists b w', seedIGPUPropertiesOnEntry entry w = Done b w' /\
    shouldForceRPLBringupPlatform entry w = Done true w /\
    shouldForceRPLBringupPlatform entry w' = Done true w'.
Proof.
  intros He Hp. unfold seedIGPUPropertiesOnEntry, shouldForceRPLBringupPlatform. rewrite He. cbn [negb].
  unfold mbind, M_bind, getProperty, gets. rewrite Hp.
  destruct (seedMissing_run entry (seedTable w) false w) as (w' & E & Hr & _). eexists _, w'.
  split; [exact E|]. split; [done|]. rewrite Hr. unfold seeded. by rewrite Hp.
Qed.

(** *** Stolen memory *)

(** C37 (bounds). Whatever the firmware's graphics mode select says, the recorded size of
    stolen memory is at least 128 MiB, at most 2 GiB, a whole number of MiB and never
    wraps; for the encodings the code knows (steps of 32 MiB below 0x10 and at 0x20, 0x30
    and 0x40, steps of 4 MiB from 0xF0) it is the larger of the encoded size and 128 MiB. *)
Theorem stolen_size_bounded (vb : Z) (w : world) :
  stolen_size (w_ng w) = 0 ->
  exists w', computeStolenSize vb w = Done () w' /\
    let gms := u16 (pciConfig vb 0x50 w) .>> 8 in
    let s := stolen_size (w_ng w') in
    128 * 2 ^ 20 <= s <= 2 ^ 31 /\ s mod 2 ^ 20 = 0 /\
    (gms < 0x10 \/ gms = 0x20 \/ gms = 0x30 \/ gms = 0x40 -> s = Z.max 128 (gms * 32) * 2 ^ 20) /\
    (0xF0 <= gms <= 0xFE -> s = Z.max 128 ((gms - 0xF0 + 1) * 4) * 2 ^ 20).
Proof.
  intros Hz. unfold computeStolenSize, mbind, M_bind, gets, set_ng, modify. eexists. split; [done|]. cbv zeta.
  change (stolen_size (w_ng (w <| w_ng ::= _ |>))) with
    (stolenSize (stolen_size (w_ng w)) (u16 (pciConfig vb 0x50 w) .>> 8)). rewrite Hz.
  set (gms := u16 _ .>> 8).
  assert (Hg : 0 <= gms < 256).
  { unfold gms. rewrite Z.shiftr_div_pow2 by lia. pose proof (u16_range (pciConfig vb 0x50 w)). 
    split; [apply Z.div_pos; lia|apply Z.div_lt_upper_bound; lia]. }
  clearbody gms. unfold stolenSize, stolenMiB, u32.
  assert (Hl : 0xF0 <= gms -> gms .& 0x0F = gms - 0xF0).
  { intros. change 0x0F with (Z.ones 4). rewrite Z.land_ones by lia.
    rewrite <-(Z_mod_plus_full gms (-15)). rewrite Z.mod_small by lia. lia. }
  repeat case_match; bools; try lia; Z.to_euclidean_division_equations; lia.
Qed.

(** *** Configuration reads *)
Lemma spoofedId_run getName service w name d :
  getName service w = Some name -> String.prefix "IGPU" name = true ->
  getOSDataValue (w_reg w !! (service, "device-id")) = Some d ->
  spoofedId getName service w = Done (Some d) w.
Proof.
  intros Hn Hp Hd. unfold spoofedId, mbind, M_bind, gets. rewrite Hn. cbn [isIGPU]. rewrite Hp.
  unfold getProperty, gets. by rewrite Hd.
Qed.
Lemma half_words lo d : 0 <= lo < 2 ^ 16 -> 0 <= d ->
  (lo .| u32 (d .<< 16)) .& 0xFFFF = lo /\ (lo .| u32 (d .<< 16)) .>> 16 = u16 d.
Proof.
  intros Hlo Hd. split.
  - change 0xFFFF with (Z.ones 16). bitblast_split 16.
  - apply Z.bits_inj'. intros i Hi. unfold u16. autorewrite with ngbits.
    rewrite (testbit_small lo 16) by lia. destruct (Z_lt_le_dec i 16).
    + rewrite Z.mod_pow2_bits_low by lia. bits_known. btauto.
    + rewrite Z.mod_pow2_bits_high by lia. bits_known. btauto.
Qed.

Section config.
Context (getName : Z -> world -> option string) `{!Benign (keeps w_reg)}.
Lemma reg_after_call f args w r w' : call f args w = Done r w' -> w_reg w' = w_reg w.
Proof. apply (respects_done (keeps w_reg)), keeps_call; [exact _|done]. Qed.

(** C15 (equivalence). For the graphics device, the 16-bit read of the device id returns the
    id in the registry, and the 32-bit read of the identification word (also when it is
    asked for at the device id's offset) keeps the vendor half of the hardware and has
    that same id in its upper half, unless the id equals the vendor half itself: both
    widths present the same spoofed device. *)
Theorem config_reads_agree (service space off d : Z) (name : string) (w : world) :
  ngCallback (w_ng w) = true -> orgConfigRead16 (w_ng w) <> 0 -> orgConfigRead32 (w_ng w) <> 0 ->
  service <> 0 -> (forall v, getName service v = Some name) -> String.prefix "IGPU" name = true ->
  getOSDataValue (w_reg w !! (service, "device-id")) = Some d ->
  off = 0 \/ off = 2 ->
  exists w16 r32 w32,
    configRead16 getName service space 2 w = Done (u16 d) w16 /\
    configRead32 getName service space off w = Done r32 w32 /\
    let real := u32 (original "orgConfigRead32" [service; space; off]
                       (emit (ECall "orgConfigRead32" [service; space; off]) w)).1 in
    r32 .& 0xFFFF = real .& 0xFFFF /\ (d <> real .& 0xFFFF -> r32 .>> 16 = u16 d).
Proof.
  intros Hc H16 H32 Hs Hn Hp Hd Ho.
  assert (T : forall z, z <> 0 -> truthy z = true) by (intros z Hz; unfold truthy; by apply negb_true_iff, Z.eqb_neq).
  destruct (total_call "orgConfigRead16" [service; space; 2] w) as (r1 & w1 & E1).
  destruct (total_call "orgConfigRead32" [service; space; off] w) as (r2 & w2 & E2).
  assert (S1 : spoofedId getName service w1 = Done (Some d) w1).
  { apply (spoofedId_run _ _ _ name); [done..|]. by rewrite (reg_after_call _ _ _ _ _ E1). }
  assert (S2 : spoofedId getName service w2 = Done (Some d) w2).
  { apply (spoofedId_run _ _ _ name); [done..|]. by rewrite (reg_after_call _ _ _ _ _ E2). }
  unfold configRead16, configRead32. unfold ng, gets, mbind, M_bind. rewrite Hc, !T by done.
  assert (Hoff : (off =? 2) || (off =? 0) = true) by (destruct Ho; by subst).
  rewrite Hoff. change (2 =? 2) with true. cbn [andb]. rewrite E1, E2. cbv zeta. rewrite S1, S2.
  assert (R2 : (original "orgConfigRead32" [service; space; off]
                  (emit (ECall "orgConfigRead32" [service; space; off]) w)).1 = r2).
  { unfold call in E2. destruct (original _ _ _). by simplify_eq. }
  rewrite R2. exists w1.
  assert (Hlo : 0 <= u32 r2 .& 0xFFFF < 2 ^ 16) by (apply land_range_r; lia).
  destruct (half_words (u32 r2 .& 0xFFFF) d) as [L U]; [done|apply getOSDataValue_range in Hd; lia|].
  exists (if negb (d =? u32 r2 .& 0xFFFF) then (u32 r2 .& 0xFFFF) .| u32 (d .<< 16) else u32 r2), w2.
  split.
  - destruct (Z.eqb_spec d (u16 r1)) as [->|]; [|done]. cbn [negb]. unfold u16. rewrite Z.mod_mod by lia. done.
  - destruct (Z.eqb_spec d (u32 r2 .& 0xFFFF)) as [->|]; cbn [negb]; [done|]. done.
Qed.

(** Every other read, and every read of another service, is the hardware's. *)
Theorem config_reads_transparent (service space off r : Z) (w w' : world) :
  ngCallback (w_ng w) = true -> orgConfigRead16 (w_ng w) <> 0 -> off <> 2 ->
  original "orgConfigRead16" [service; space; off] (emit (ECall "orgConfigRead16" [service; space; off]) w) = (r, w') ->
  configRead16 getName service space off w = Done (u16 r) w'.
Proof.
  intros Hc H16 Ho E. unfold configRead16, ng, gets, mbind, M_bind, call. rewrite Hc. unfold truthy.
  rewrite (proj2 (Z.eqb_neq _ _) H16), (proj2 (Z.eqb_neq _ _) Ho). cbn [andb negb]. by rewrite E.
Qed.
End config.

(** *** The register window *)
(** A live window is left alone. *)
Lemma setRMMIO_live mapLength w len :
  rmmio (w_ng w) = Some len -> len <> 0 -> setRMMIOIfNecessary mapLength w = Done () w.
Proof.
  intros Hm Hl. unfold setRMMIOIfNecessary, ng, gets, mbind, M_bind.
  destruct (truthy (iGPU _)); [|done]. cbn [negb]. rewrite Hm. unfold truthy.
  by rewrite (proj2 (Z.eqb_neq _ _) Hl).
Qed.
End facts.

(** ** Evaluations *)
Import Sim.
#[local] Instance plugin_plat : Platform := sim_platform_with [] ["-allow3d"] 0x46A68086.
Definition plugin_world : world :=
  World _ (mkSim ∅ 0) ∅
    {[ (0x300, "device-id") := PData builtin3; (0x300, "model") := PString "Iris" ]}
    (sim_ng <| orgConfigRead16 := 1 |> <| orgConfigRead32 := 1 |>) Gen11_init [].
Lemma seeding_fills_only_missing_witness :
  exists w', seedIGPUPropertiesOnEntry 0x300 plugin_world = Done true w' /\
    w_reg w' !! (0x300, "model") = Some (PString "Iris") /\
    w_reg w' !! (0x300, "AAPL,ig-platform-id") = Some (PData builtin2).
Proof.
  destruct (seeding_fills_only_missing 0x300 plugin_world eq_refl) as (w' & E & Hr & _).
  exists w'. split; [exact E|]. split; rewrite Hr; reflexivity.
Defined.
Lemma stolen_size_bounded_witness :
  exists w', computeStolenSize 0x200 plugin_world = Done () w' /\ stolen_size (w_ng w') = 128 * 2 ^ 20.
Proof.
  destruct (stolen_size_bounded 0x200 plugin_world eq_refl) as (w' & E & _ & _ & Hs & _).
  exists w'. split; [exact E|]. apply Hs. left. reflexivity.
Defined.
Lemma config_reads_agree_witness :
  exists w16 r32 w32,
    configRead16 (fun _ _ => Some "IGPU") 0x300 0 2 plugin_world = Done 0x9A49 w16 /\
    configRead32 (fun _ _ => Some "IGPU") 0x300 0 0 plugin_world = Done r32 w32 /\
    r32 .& 0xFFFF = 0x8086 /\ r32 .>> 16 = 0x9A49.
Proof.
  destruct (@config_reads_agree _ plugin_plat (fun _ _ => Some "IGPU") (sim_benign _ _ _ (keeps w_reg))
    0x300 0 0 0x9A49 "IGPU" plugin_world eq_refl ltac:(discriminate) ltac:(discriminate) ltac:(discriminate)
    (fun _ => eq_refl) eq_refl eq_refl (or_introl eq_refl)) as (w16 & r32 & w32 & E1 & E2 & L & U).
  exists w16, r32, w32. split; [exact E1|]. split; [exact E2|]. split; [exact L|]. apply U. discriminate.
Defined.
Example tgl_model : cpuModelOf 0x806C1 = 0x8C.
Proof. reflexivity. Qed.
End Plugin.
