(* ===== verification/Patcher.v ===== *)
(** * Symbol solving, routing and patching (PatcherPlus.cpp)

    The requests the kext hooks are installed with: a symbol first, then a byte pattern.
    Lilu's patcher is a parameter: its effects are calls, its pattern search a function. *)
From S2P Require Import Prelude Machine Memory Sim.

Module Patcher.
(** [pattern] and [mask] are addresses (0 is null), [address] is the slot the result goes to.
    [PatcherPlus.hpp:7-9 SolveRequestPlus] *)
Record SolveRequestPlus := mkSolve {
  s_symbol : string;
  s_address : Z;
  s_pattern : Z;
  s_mask : Z;
  s_patternSize : Z
}.
(** [PatcherPlus.hpp:34-36 RouteRequestPlus] *)
Record RouteRequestPlus := mkRoute {
  r_symbol : string;
  r_to : Z;
  r_org : Z;
  r_pattern : Z;
  r_mask : Z;
  r_patternSize : Z
}.
(** [PatcherPlus.hpp:83-85 LookupPatchPlus] *)
Record LookupPatchPlus := mkPatch {
  p_find : Z;
  p_findMask : Z;
  p_replace : Z;
  p_replaceMask : Z;
  p_size : Z;
  p_count : Z;
  p_skip : Z
}.

Section defs.
Context `{Platform}.
(** [KernelPatcher::findPattern]: the offset of the first match of a (masked) pattern. *)
Context (findPattern : Z -> Z -> Z -> Z -> Z -> world -> option Z).

(** The pattern search shared by [solve] and [route]: an offset of 0 counts as no match.
    [PatcherPlus.cpp:14-25 SolveRequestPlus::solve] *)
Definition lookupPattern (pattern mask patternSize address maxSize : Z) : M (option Z) :=
  if negb (truthy pattern) || negb (truthy patternSize) then mret None
  else
    o ← gets (findPattern pattern mask patternSize address maxSize);
    match o with
    | Some offset => if truthy offset then mret (Some offset) else mret None
    | None => mret None
    end.
(** [PatcherPlus.cpp:6-29 SolveRequestPlus::solve] *)
Definition solve (id address maxSize : Z) (r : SolveRequestPlus) : M bool :=
  if negb (truthy (s_address r)) then mret false
  else
    v ← call ("solveSymbol " +:+ s_symbol r) [id];
    _ ← store 8 (s_address r) v;
    if truthy (u64 v) then mret true
    else
      _ ← call "clearError" [];
      o ← lookupPattern (s_pattern r) (s_mask r) (s_patternSize r) address maxSize;
      match o with
      | Some offset => _ ← store 8 (s_address r) (address + offset); mret true
      | None => mret false
      end.
(** Run a list of requests until one fails. *)
Fixpoint whileOk {A} (f : A -> M bool) (rs : list A) : M bool :=
  match rs with
  | [] => mret true
  | r :: rs => ok ← f r; if ok : bool then whileOk f rs else mret false
  end.
(** [PatcherPlus.cpp:31-37 SolveRequestPlus::solveAll] *)
Definition solveAll (id address maxSize : Z) : list SolveRequestPlus -> M bool :=
  whileOk (solve id address maxSize).
(** [PatcherPlus.cpp:39-64 RouteRequestPlus::route] *)
Definition route (id address maxSize : Z) (r : RouteRequestPlus) : M bool :=
  ok ← call ("routeMultiple " +:+ r_symbol r) [id; r_to r; r_org r; address; maxSize];
  if truthy (u8 ok) then mret true
  else
    _ ← call "clearError" [];
    o ← lookupPattern (r_pattern r) (r_mask r) (r_patternSize r) address maxSize;
    match o with
    | Some offset =>
      org ← call "routeFunction" [address + offset; r_to r; 1];
      if negb (truthy (u64 org)) then mret false
      else _ ← when (truthy (r_org r)) (store 8 (r_org r) org); mret true
    | None => mret false
    end.
(** [PatcherPlus.cpp:66-72 RouteRequestPlus::routeAll] *)
Definition routeAll (id address maxSize : Z) : list RouteRequestPlus -> M bool :=
  whileOk (route id address maxSize).
(** [PatcherPlus.cpp:74-82 LookupPatchPlus::apply] *)
Definition apply_patch (address maxSize : Z) (p : LookupPatchPlus) : M bool :=
  if negb (truthy (p_findMask p)) && negb (truthy (p_replaceMask p)) && negb (truthy (p_skip p)) then
    _ ← call "applyLookupPatch" [p_find p; p_replace p; p_size p; p_count p; address; maxSize];
    e ← call "getError" [];
    mret (e =? 0)
  else
    r ← call "findAndReplaceWithMask"
          [ address; maxSize; p_find p; p_size p;
            p_findMask p; (if truthy (p_findMask p) then p_size p else 0);
            p_replace p; p_size p;
            p_replaceMask p; (if truthy (p_replaceMask p) then p_size p else 0);
            p_count p; p_skip p ];
    mret (truthy (u8 r)).
(** [PatcherPlus.cpp:84-95 LookupPatchPlus::applyAll] *)
Definition applyAll (address maxSize : Z) : list LookupPatchPlus -> M bool :=
  whileOk (apply_patch address maxSize).
End defs.

(** ** Requests written as tables *)

(** A static byte array: its name, which stands for its address, and its contents. *)
Record bytes := mkBytes { b_name : string; b_data : list Z }.
(** [{symbol, replacement, original}]; some routes keep no original. *)
Record hook := mkHook { h_symbol : string; h_to : string; h_org : option string }.
(** A patch, with optional masks. *)
Record bytePatch := mkBytePatch {
  y_find : bytes;
  y_findMask : option bytes;
  y_replace : bytes;
  y_replaceMask : option bytes;
  y_count : Z
}.
(** [PatcherPlus.hpp:87-89 LookupPatchPlus::LookupPatchPlus] *)
Definition plain (find replace : bytes) (count : Z) : bytePatch := mkBytePatch find None replace None count.
(** [PatcherPlus.hpp:95-98 LookupPatchPlus::LookupPatchPlus] *)
Definition masked (find findMask replace replaceMask : bytes) (count : Z) : bytePatch :=
  mkBytePatch find (Some findMask) replace (Some replaceMask) count.

Section tables.
Context `{Platform}.
Definition addrOf (o : option string) : Z := match o with Some s => symbolAddr s | None => 0 end.
(** The address of a variable, as opposed to what it holds. *)
Definition slotOf (name : string) : Z := symbolAddr ("&" +:+ name).
(** No request of the program has a pattern. [PatcherPlus.hpp:12-13 SolveRequestPlus::SolveRequestPlus] *)
Definition solveOf (symbol slot : string) : SolveRequestPlus := mkSolve symbol (slotOf slot) 0 0 0.
(** [PatcherPlus.hpp:38-45 RouteRequestPlus::RouteRequestPlus] *)
Definition routeOf (h : hook) : RouteRequestPlus :=
  mkRoute (h_symbol h) (symbolAddr (h_to h))
    (match h_org h with Some o => slotOf o | None => 0 end) 0 0 0.
(** The size is [arrsize] of the find array. [PatcherPlus.hpp:87-98 LookupPatchPlus::LookupPatchPlus] *)
Definition patchOf (p : bytePatch) : LookupPatchPlus :=
  mkPatch (symbolAddr (b_name (y_find p))) (addrOf (b_name <$> y_findMask p))
    (symbolAddr (b_name (y_replace p))) (addrOf (b_name <$> y_replaceMask p))
    (Z.of_nat (length (b_data (y_find p)))) (y_count p) 0.
End tables.

(** ** Facts *)
Section facts.
Context `{Platform} `{!Benign (keeps w_mem)}.
Context (findPattern : Z -> Z -> Z -> Z -> Z -> world -> option Z) (id address maxSize : Z).
(** The image lies in the address space, and a match lies in the image. *)
Hypothesis image : 0 <= address /\ address + maxSize < 2 ^ 64.
Hypothesis found : forall p m n w o, findPattern p m n address maxSize w = Some o -> 0 <= o < maxSize.

Definition slot (r : SolveRequestPlus) (w : world) : Z := load_le 8 (s_address r) (w_mem w).
Definition apart (r r' : SolveRequestPlus) : Prop :=
  s_address r + 8 <= s_address r' \/ s_address r' + 8 <= s_address r.

Lemma mem_after_call f args w : exists r w', call f args w = Done r w' /\ w_mem w' = w_mem w.
Proof.
  destruct (total_call f args w) as (r & w' & E). exists r, w'. split; [done|].
  exact (respects_done (keeps w_mem) _ _ _ _ (keeps_call w_mem f args _ ltac:(done)) E).
Qed.
Lemma lookupPattern_run p m n w :
  exists o, lookupPattern findPattern p m n address maxSize w = Done o w /\
    match o with Some off => 0 < off < maxSize | None => True end.
Proof.
  unfold lookupPattern. destruct (_ || _); [by exists None|]. unfold mbind, M_bind, gets.
  destruct (findPattern _ _ _ _ _ _) as [off|] eqn:E; [|by exists None].
  apply found in E. unfold truthy. destruct (Z.eqb_spec off 0); [by exists None|].
  exists (Some off). split; [done|]. lia.
Qed.
Lemma solve_run r w :
  exists b w', solve findPattern id address maxSize r w = Done b w' /\
    (b = true -> s_address r <> 0 /\ slot r w' <> 0) /\
    (forall r', apart r r' -> slot r' w' = slot r' w).
Proof.
  unfold solve, truthy at 1. destruct (Z.eqb_spec (s_address r) 0) as [|Ha]; [by exists false, w|].
  cbn [negb]. unfold mbind, M_bind.
  destruct (mem_after_call ("solveSymbol " +:+ s_symbol r) [id] w) as (v & w1 & -> & M1). rewrite store_run.
  assert (Hk : forall r' x (u : world), apart r r' ->
    slot r' (u <| w_mem ::= store_le 8 (s_address r) x |>) = slot r' u).
  { intros r' x u Hr. apply load_store_disjoint. unfold apart in Hr. lia. }
  assert (Hm : forall r' (u u' : world), w_mem u = w_mem u' -> slot r' u = slot r' u') by (intros ? ? ? E; unfold slot; by rewrite E).
  destruct (truthy (u64 v)) eqn:Hv.
  - eexists true, _. split; [done|]. split; [intros _; split; [done|]|].
    + unfold slot. rewrite load_after_store. change (u64 v <> 0). unfold truthy in Hv. bools. done.
    + intros r' Hr. rewrite Hk by done. by apply Hm.
  - set (w2 := w1 <| w_mem ::= _ |>). destruct (mem_after_call "clearError" [] w2) as (e & w3 & -> & M3).
    destruct (lookupPattern_run (s_pattern r) (s_mask r) (s_patternSize r) w3) as ([off|] & -> & Ho).
    + rewrite store_run. eexists true, _. split; [done|]. split; [intros _; split; [done|]|].
      * unfold slot. rewrite load_after_store. rewrite Z.mod_small by lia. lia.
      * intros r' Hr. rewrite Hk, (Hm _ _ _ M3) by done. unfold w2. rewrite Hk by done. by apply Hm.
    + exists false, w3. split; [done|]. split; [done|]. intros r' Hr.
      rewrite (Hm _ _ _ M3). unfold w2. rewrite Hk by done. by apply Hm.
Qed.

Lemma apart_sym r r' : apart r r' -> apart r' r.
Proof. unfold apart. tauto. Qed.
Lemma solveAll_run rs w :
  ForallOrdPairs apart rs ->
  exists b w', solveAll findPattern id address maxSize rs w = Done b w' /\
    (forall r', Forall (fun r => apart r r') rs -> slot r' w' = slot r' w) /\
    (b = true -> Forall (fun r => s_address r <> 0 /\ slot r w' <> 0) rs) /\
    (b = false -> exists pre r post, rs = pre ++ r :: post /\
       Forall (fun r => s_address r <> 0 /\ slot r w' <> 0) pre /\
       Forall (fun r => slot r w' = slot r w) post).
Proof.
  revert w. induction rs as [|r rs IH]; intros w Hd; [by exists true, w|].
  inversion_clear Hd as [|? ? Hr Hrs]. unfold solveAll in *. cbn [whileOk]. unfold mbind, M_bind.
  destruct (solve_run r w) as (b & w1 & -> & Hb & Hf). destruct b; cycle 1.
  { exists false, w1. split; [done|]. split; [intros r' [? _]%Forall_cons; auto|]. split; [done|].
    intros _. exists [], r, rs. split; [done|]. split; [constructor|].
    eapply Forall_impl; [exact Hr|]. auto. }
  destruct (IH w1 Hrs) as (b & w' & -> & Hf' & Ht & Hn). exists b, w'. split; [done|].
  destruct (Hb eq_refl) as [Ha Hs].
  assert (Hs' : slot r w' <> 0).
  { rewrite Hf'; [done|]. eapply Forall_impl; [exact Hr|]. intros. by apply apart_sym. }
  split; [intros r' [? ?]%Forall_cons; rewrite Hf' by done; auto|].
  split; [intros E; constructor; auto|]. intros E.
  destruct (Hn E) as (pre & r1 & post & -> & Hp & Hq). exists (r :: pre), r1, post. split; [done|].
  split; [by constructor|]. apply Forall_app in Hr as [_ [_ Hr]%Forall_cons].
  apply Forall_forall. intros x Hx. rewrite Forall_forall in Hq, Hr. rewrite (Hq x Hx). by apply Hf, Hr.
Qed.

(** With slots that do not overlap, [solveAll] always returns; when it
    succeeds every slot holds an address; when it fails it has stopped at the first
    request it could not solve: every slot before it holds an address and every slot
    after it is as it was. *)
Theorem solveAll_stops_at_first_failure (rs : list SolveRequestPlus) (w : world) :
  ForallOrdPairs apart rs ->
  exists b w', solveAll findPattern id address maxSize rs w = Done b w' /\
    (b = true -> Forall (fun r => s_address r <> 0 /\ slot r w' <> 0) rs) /\
    (b = false -> exists pre r post, rs = pre ++ r :: post /\
       Forall (fun r => s_address r <> 0 /\ slot r w' <> 0) pre /\
       Forall (fun r => slot r w' = slot r w) post).
Proof. intros Hd. destruct (solveAll_run rs w Hd) as (b & w' & E & _ & Hr). by exists b, w'. Qed.
End facts.

(** ** Evaluations *)
Import Sim.
#[local] Instance solve_plat : Platform := sim_platform_with [] [] 0.
(** No symbol resolves; the pattern is found only where one is given. *)
Definition sim_find (p m n a s : Z) (w : world) : option Z := if p =? 0x10 then Some 0x40 else None.
Definition solve_requests : list SolveRequestPlus :=
  [ mkSolve "a" 0x1000 0x10 0 4; mkSolve "b" 0x1008 0 0 0; mkSolve "c" 0x1010 0x10 0 4 ].
Lemma solveAll_stops_at_first_failure_witness :
  exists b w', solveAll sim_find 1 0x8000 0x100 solve_requests (sim_world []) = Done b w' /\
    (b = true -> Forall (fun r => s_address r <> 0 /\ slot r w' <> 0) solve_requests) /\
    (b = false -> exists pre r post, solve_requests = pre ++ r :: post /\
       Forall (fun r => s_address r <> 0 /\ slot r w' <> 0) pre /\
       Forall (fun r => slot r w' = slot r (sim_world [])) post).
Proof.
  apply (@solveAll_stops_at_first_failure _ solve_plat (sim_benign _ _ _ (keeps w_mem)) sim_find 1 0x8000 0x100).
  - lia.
  - unfold sim_find. intros p m n w o. destruct (p =? 0x10); [|discriminate]. intros E. injection E as <-. lia.
  - repeat constructor; unfold apart; simpl; lia.
Defined.
Example second_fails : value (solveAll sim_find 1 0x8000 0x100 solve_requests (sim_world [])) = Some false.
Proof. by vm_compute. Qed.
Example only_first_solved :
  map (fun r => slot r (final (solveAll sim_find 1 0x8000 0x100 solve_requests (sim_world [])))) solve_requests
  = [0x8040; 0; 0].
Proof. by vm_compute. Qed.
End Patcher.
