(* ===== verification/KextFB.v ===== *)
(** * Hooks and patches of the framebuffer kext (TGL.cpp)

    The tables [Gen11::processKext] installs in AppleIntelTGLGraphicsFramebuffer: one set
    of routes for every build, one for the production and one for the debug build, and a
    list of code patches for each. Byte arrays no request mentions are left out. *)
From S2P Require Import Prelude Machine Patcher.
Import Patcher.

Module KextFB.
(** The bytes of a table of 32-bit words. *)
Definition words (l : list Z) : list Z :=
  concat (map (fun w => [u8 w; u8 (w .>> 8); u8 (w .>> 16); u8 (w .>> 24)]) l).
(** [TGL.cpp:671-716 Gen11::processKext] *)
Definition routes : list hook :=
  [ mkHook "__ZN24AppleIntelBaseController17registerWithAICPMEPv" "alwaysReturnSuccess" (Some "oalwaysReturnSuccess");
    mkHook "__ZN19AppleIntelPowerWell21hwSetPowerWellStatePGEbj.cold.1" "releaseDoorbell" None;
    mkHook "__ZN19AppleIntelPowerWell21hwSetPowerWellStatePGEbj.cold.2" "releaseDoorbell" None;
    mkHook "__ZN19AppleIntelPowerWell21hwSetPowerWellStatePGEbj.cold.3" "releaseDoorbell" None;
    mkHook "__ZN19AppleIntelPowerWell21hwSetPowerWellStatePGEbj.cold.4" "releaseDoorbell" None;
    mkHook "__ZN19AppleIntelPowerWell21hwSetPowerWellStatePGEbj.cold.5" "releaseDoorbell" None;
    mkHook "__ZN19AppleIntelPowerWell21hwSetPowerWellStatePGEbj.cold.6" "releaseDoorbell" None;
    mkHook "__ZN19AppleIntelPowerWell21hwSetPowerWellStatePGEbj.cold.7" "releaseDoorbell" None;
    mkHook "__ZN19AppleIntelPowerWell21hwSetPowerWellStatePGEbj.cold.8" "releaseDoorbell" None;
    mkHook "__ZN19AppleIntelPowerWell21hwSetPowerWellStatePGEbj.cold.9" "releaseDoorbell" None;
    mkHook "__ZN19AppleIntelPowerWell21hwSetPowerWellStatePGEbj.cold.10" "releaseDoorbell" None;
    mkHook "__ZN19AppleIntelPowerWell21hwSetPowerWellStatePGEbj.cold.11" "releaseDoorbell" None;
    mkHook "__ZN19AppleIntelPowerWell21hwSetPowerWellStatePGEbj.cold.12" "releaseDoorbell" None;
    mkHook "__ZN19AppleIntelPowerWell22hwSetPowerWellStateAuxEbj.cold.1" "releaseDoorbell" None;
    mkHook "__ZN16AppleIntelScaler13disableScalerEb" "disableScaler" (Some "odisableScaler");
    mkHook "__ZN15AppleIntelPlane11enablePlaneEb" "enablePlane" (Some "oenablePlane");
    mkHook "__ZN16AppleIntelScaler17programPipeScalerEP21AppleIntelDisplayPath" "programPipeScaler" (Some "oprogramPipeScaler");
    mkHook "__ZN15AppleIntelPlane19updateRegisterCacheEv" "AppleIntelPlaneupdateRegisterCache" (Some "oAppleIntelPlaneupdateRegisterCache");
    mkHook "__ZN16AppleIntelScaler19updateRegisterCacheEv" "AppleIntelScalerupdateRegisterCache" (Some "oAppleIntelScalerupdateRegisterCache");
    mkHook "__ZN19AppleIntelPowerWell20disableDisplayEngineEv" "disableDisplayEngine" (Some "odisableDisplayEngine");
    mkHook "__ZN19AppleIntelPowerWell19enableDisplayEngineEv" "enableDisplayEngine" (Some "oenableDisplayEngine");
    mkHook "__ZN14AppleIntelPort16computeLaneCountEPK29IODetailedTimingInformationV2jjPj" "computeLaneCount" (Some "ocomputeLaneCount");
    mkHook "__ZN14AppleIntelPort7readAUXEjPvj" "wrapICLReadAUX" (Some "orgICLReadAUX");
    mkHook "__ZN21AppleIntelFramebuffer13getOnlineInfoEP21AppleIntelDisplayPathPhS2_" "getOnlineInfo" (Some "ogetOnlineInfo");
    mkHook "__ZN21AppleIntelFramebuffer16enableControllerEv" "enableController" (Some "oenableController");
    mkHook "__ZN21AppleIntelFramebuffer14setDisplayModeEii" "setDisplayMode" (Some "osetDisplayMode");
    mkHook "__ZN21AppleIntelFramebuffer17connectionChangedEv" "connectionChanged" (Some "oconnectionChanged");
    mkHook "__ZN19AppleIntelPowerWell21hwSetPowerWellStatePGEbj" "releaseDoorbell" None;
    mkHook "__ZN19AppleIntelPowerWell22hwSetPowerWellStateAuxEbj" "hwSetPowerWellStateAux" (Some "ohwSetPowerWellStateAux");
    mkHook "__ZN19AppleIntelPowerWell22hwSetPowerWellStateDDIEbj" "hwSetPowerWellStateDDI" (Some "ohwSetPowerWellStateDDI");
    mkHook "__ZN31AppleIntelRegisterAccessManager19FastWriteRegister32Emj" "FastWriteRegister32" (Some "oFastWriteRegister32");
    mkHook "__ZN31AppleIntelRegisterAccessManager15WriteRegister32Emj" "raWriteRegister32" (Some "oraWriteRegister32");
    mkHook "__ZN31AppleIntelRegisterAccessManager15WriteRegister32EPVvmj" "raWriteRegister32b" None;
    mkHook "__ZN21AppleIntelFramebuffer17prepareToExitWakeEv" "releaseDoorbell" None;
    mkHook "__ZN21AppleIntelFramebuffer18prepareToEnterWakeEv" "releaseDoorbell" None;
    mkHook "__ZN21AppleIntelFramebuffer18prepareToExitSleepEv" "releaseDoorbell" None;
    mkHook "__ZN21AppleIntelFramebuffer19prepareToEnterSleepEv" "releaseDoorbell" None;
    mkHook "__ZN24AppleIntelBaseController15enableVDDForAuxEP14AppleIntelPort" "releaseDoorbell" None ].
(** [TGL.cpp:720-734 Gen11::processKext] *)
Definition prodRoutes : list hook :=
  [ mkHook "__ZN21AppleIntelFramebuffer4initEP31AppleIntelFramebufferControllerj" "AppleIntelFramebufferinit" (Some "oAppleIntelFramebufferinit");
    mkHook "__ZN31AppleIntelFramebufferController10hwShutdownEP21AppleIntelFramebuffer" "handleLinkIntegrityCheck" None;
    mkHook "__ZN31AppleIntelFramebufferController18hwInitializeCStateEv" "hwInitializeCState" (Some "ohwInitializeCState");
    mkHook "__ZN31AppleIntelFramebufferController20hwConfigureCustomAUXEb" "hwConfigureCustomAUX" (Some "ohwConfigureCustomAUX");
    mkHook "__ZN19AppleIntelPowerWell4initEP31AppleIntelFramebufferController" "AppleIntelPowerWellinit" (Some "oAppleIntelPowerWellinit");
    mkHook "__ZN31AppleIntelFramebufferController5startEP9IOService" "AppleIntelBaseControllerstart" (Some "oAppleIntelBaseControllerstart");
    mkHook "__ZN31AppleIntelFramebufferController21probeCDClockFrequencyEv" "wrapProbeCDClockFrequency" (Some "orgProbeCDClockFrequency");
    mkHook "__ZN31AppleIntelFramebufferController11initCDClockEv" "initCDClock" (Some "oinitCDClock");
    mkHook "__ZN31AppleIntelFramebufferController28setCDClockFrequencyOnHotplugEv" "setCDClockFrequencyOnHotplug" (Some "osetCDClockFrequencyOnHotplug");
    mkHook "__ZN31AppleIntelFramebufferController14disableCDClockEv" "disableCDClock" (Some "odisableCDClock");
    mkHook "__ZN31AppleIntelFramebufferController23initPlatformWorkaroundsEv" "initPlatformWorkarounds" (Some "oinitPlatformWorkarounds");
    mkHook "__ZN31AppleIntelFramebufferController16getOSInformationEv" "getOSInformation" (Some "ogetOSInformation");
    mkHook "__ZN31AppleIntelFramebufferController16hwRegsNeedUpdateEP21AppleIntelFramebufferP21AppleIntelDisplayPathP10CRTCParamsPK29IODetailedTimingInformationV2PN16AppleIntelScaler12SCALERPARAMSE" "hwRegsNeedUpdate" (Some "ohwRegsNeedUpdate") ].
(** [TGL.cpp:739-754 Gen11::processKext] *)
Definition dbgRoutes : list hook :=
  [ mkHook "__ZN21AppleIntelFramebuffer4initEP24AppleIntelBaseControllerj" "AppleIntelFramebufferinit" (Some "oAppleIntelFramebufferinit");
    mkHook "__ZN24AppleIntelBaseController10hwShutdownEP21AppleIntelFramebuffer" "handleLinkIntegrityCheck" None;
    mkHook "__ZN24AppleIntelBaseController18hwInitializeCStateEv" "hwInitializeCState" (Some "ohwInitializeCState");
    mkHook "__ZN24AppleIntelBaseController20hwConfigureCustomAUXEb" "hwConfigureCustomAUX" (Some "ohwConfigureCustomAUX");
    mkHook "__ZN19AppleIntelPowerWell4initEP24AppleIntelBaseController" "AppleIntelPowerWellinit" (Some "oAppleIntelPowerWellinit");
    mkHook "__ZN24AppleIntelBaseController5startEP9IOService" "AppleIntelBaseControllerstart" (Some "oAppleIntelBaseControllerstart");
    mkHook "__ZN24AppleIntelBaseController21probeCDClockFrequencyEv" "wrapProbeCDClockFrequency" (Some "orgProbeCDClockFrequency");
    mkHook "__ZN24AppleIntelBaseController11initCDClockEv" "initCDClock" (Some "oinitCDClock");
    mkHook "__ZN24AppleIntelBaseController28setCDClockFrequencyOnHotplugEv" "setCDClockFrequencyOnHotplug" (Some "osetCDClockFrequencyOnHotplug");
    mkHook "__ZN24AppleIntelBaseController14disableCDClockEv" "disableCDClock" (Some "odisableCDClock");
    mkHook "__ZN24AppleIntelBaseController23initPlatformWorkaroundsEv" "initPlatformWorkarounds" (Some "oinitPlatformWorkarounds");
    mkHook "__ZN24AppleIntelBaseController16getOSInformationEv" "getOSInformation" (Some "ogetOSInformation");
    mkHook "__ZN24AppleIntelBaseController16hwRegsNeedUpdateEP21AppleIntelFramebufferP21AppleIntelDisplayPathP10CRTCParamsPK29IODetailedTimingInformationV2PN16AppleIntelScaler12SCALERPARAMSE" "hwRegsNeedUpdate" (Some "ohwRegsNeedUpdate") ].
(** [TGL.cpp:760-760 f1] *)
Definition f1 : bytes := mkBytes "FB.f1"
  [ 0xe8; 0x99; 0x9f; 0xfd; 0xff; 0x89; 0x45; 0xc8; 0x3d; 0xff; 0xff; 0x00; 0x00; 0x74; 0x78 ].
(** [TGL.cpp:761-761 r1] *)
Definition r1 : bytes := mkBytes "FB.r1"
  [ 0xe8; 0x99; 0x9f; 0xfd; 0xff; 0x89; 0x45; 0xc8; 0x3d; 0xff; 0xff; 0x00; 0x00; 0xeb; 0x78 ].
(** [TGL.cpp:763-763 f1p] *)
Definition f1p : bytes := mkBytes "FB.f1p"
  [ 0xe8; 0x66; 0xb0; 0xfe; 0xff; 0x89; 0x45; 0xc8; 0x3d; 0xff; 0xff; 0x00; 0x00; 0x74; 0x45 ].
(** [TGL.cpp:764-764 r1p] *)
Definition r1p : bytes := mkBytes "FB.r1p"
  [ 0xe8; 0x66; 0xb0; 0xfe; 0xff; 0x89; 0x45; 0xc8; 0x3d; 0xff; 0xff; 0x00; 0x00; 0xeb; 0x45 ].
(** [TGL.cpp:772-772 f2] *)
Definition f2 : bytes := mkBytes "FB.f2"
  [ 0xc7; 0x05; 0x07; 0x81; 0x10; 0x00; 0x01; 0x03; 0x09; 0x03; 0xb8; 0x00; 0x00; 0x00; 0x04 ].
(** [TGL.cpp:773-773 r2] *)
Definition r2 : bytes := mkBytes "FB.r2"
  [ 0xc7; 0x05; 0x07; 0x81; 0x10; 0x00; 0x01; 0x04; 0x03; 0x02; 0xb8; 0x00; 0x00; 0x00; 0x04 ].
(** [TGL.cpp:775-775 f2p] *)
Definition f2p : bytes := mkBytes "FB.f2p"
  [ 0xc7; 0x05; 0x57; 0xe5; 0x0b; 0x00; 0x01; 0x03; 0x09; 0x03 ].
(** [TGL.cpp:776-776 r2p] *)
Definition r2p : bytes := mkBytes "FB.r2p"
  [ 0xc7; 0x05; 0x57; 0xe5; 0x0b; 0x00; 0x01; 0x04; 0x03; 0x02 ].
(** [TGL.cpp:785-785 f2d] *)
Definition f2d : bytes := mkBytes "FB.f2d"
  [ 0x0f; 0x94; 0xc0; 0xb9; 0x00; 0x00; 0x10; 0x00; 0xba; 0x00; 0x00; 0x80; 0x00 ].
(** [TGL.cpp:786-786 r2d] *)
Definition r2d : bytes := mkBytes "FB.r2d"
  [ 0x0f; 0x94; 0xc0; 0xb9; 0x00; 0x00; 0x10; 0x00; 0xba; 0x00; 0x00; 0x40; 0x00 ].
(** [TGL.cpp:789-789 f2dp] *)
Definition f2dp : bytes := mkBytes "FB.f2dp"
  [ 0xb8; 0x00; 0x00; 0x10; 0x00; 0xba; 0x00; 0x00; 0x80; 0x00; 0x0f; 0x44; 0xd0; 0x0f; 0x94; 0xc1; 0x48; 0x01; 0x0d;
    0xa2; 0xd0; 0x09; 0x00 ].
(** [TGL.cpp:790-790 r2dp] *)
Definition r2dp : bytes := mkBytes "FB.r2dp"
  [ 0xb8; 0x00; 0x00; 0x10; 0x00; 0xba; 0x00; 0x00; 0x40; 0x00; 0x0f; 0x44; 0xd0; 0x0f; 0x94; 0xc1; 0x48; 0x01; 0x0d;
    0xa2; 0xd0; 0x09; 0x00 ].
(** The table of connectors, row by row. [TGL.cpp:799-808 f3] *)
Definition f3 : bytes := mkBytes "FB.f3"
  (words (concat [ [0; 0; 0; 0; 2; 0x18];
                   [1; 2; 1; 0; 0x400; 0x201];
                   [2; 3; 1; 0; 0x400; 0x201];
                   [3; 9; 1; 1; 0x400; 0x201];
                   [4; 0xa; 1; 1; 0x400; 0x201];
                   [5; 0xb; 1; 1; 0x400; 0x201];
                   [6; 0xc; 1; 1; 0x400; 0x201];
                   [7; 0xd; 1; 1; 0x400; 0x201];
                   [8; 0xe; 1; 1; 0x400; 0x201] ])).
(** [TGL.cpp:810-819 r3] *)
Definition r3 : bytes := mkBytes "FB.r3"
  (words (concat [ [0; 0; 1; 1; 2; 0x18];
                   [1; 2; 1; 0; 0x400; 0x201];
                   [2; 3; 1; 0; 0x800; 0x201] ] ++ replicate 36 0)).
(** [TGL.cpp:823-823 f4] *)
Definition f4 : bytes := mkBytes "FB.f4"
  [ 0x00; 0x72; 0x0c; 0x00 ].
(** [TGL.cpp:824-824 r4] *)
Definition r4 : bytes := mkBytes "FB.r4"
  [ 0x00; 0x12; 0x06; 0x00 ].
(** [TGL.cpp:826-826 f4a] *)
Definition f4a : bytes := mkBytes "FB.f4a"
  [ 0x04; 0x72; 0x0c; 0x00 ].
(** [TGL.cpp:827-827 r4a] *)
Definition r4a : bytes := mkBytes "FB.r4a"
  [ 0x04; 0x12; 0x06; 0x00 ].
(** [TGL.cpp:829-829 f4b] *)
Definition f4b : bytes := mkBytes "FB.f4b"
  [ 0x08; 0x72; 0x0c; 0x00 ].
(** [TGL.cpp:830-830 r4b] *)
Definition r4b : bytes := mkBytes "FB.r4b"
  [ 0x08; 0x12; 0x06; 0x00 ].
(** [TGL.cpp:832-832 f4c] *)
Definition f4c : bytes := mkBytes "FB.f4c"
  [ 0x0c; 0x72; 0x0c; 0x00 ].
(** [TGL.cpp:833-833 r4c] *)
Definition r4c : bytes := mkBytes "FB.r4c"
  [ 0x0c; 0x12; 0x06; 0x00 ].
(** [TGL.cpp:841-841 f7] *)
Definition f7 : bytes := mkBytes "FB.f7"
  [ 0x83; 0xc0; 0xfc; 0x48; 0x39; 0xf0; 0x76; 0x11; 0x48; 0x8b; 0x47; 0x50; 0x48; 0xff; 0x05; 0xca; 0xf5; 0x0c; 0x00 ].
(** [TGL.cpp:842-842 r7] *)
Definition r7 : bytes := mkBytes "FB.r7"
  [ 0x83; 0xc0; 0xf8; 0x48; 0x39; 0xf0; 0x76; 0x11; 0x48; 0x8b; 0x47; 0x50; 0x48; 0xff; 0x05; 0xca; 0xf5; 0x0c; 0x00 ].
(** [TGL.cpp:844-844 f7p] *)
Definition f7p : bytes := mkBytes "FB.f7p"
  [ 0x83; 0xc0; 0xfc; 0x48; 0x39; 0xf0; 0x76; 0x11; 0x48; 0x8b; 0x47; 0x50; 0x48; 0xff; 0x05; 0x84; 0x40; 0x08; 0x00 ].
(** [TGL.cpp:845-845 r7p] *)
Definition r7p : bytes := mkBytes "FB.r7p"
  [ 0x83; 0xc0; 0xf8; 0x48; 0x39; 0xf0; 0x76; 0x11; 0x48; 0x8b; 0x47; 0x50; 0x48; 0xff; 0x05; 0x84; 0x40; 0x08; 0x00 ].
(** [TGL.cpp:849-849 f10] *)
Definition f10 : bytes := mkBytes "FB.f10"
  [ 0xe8; 0xaf; 0xe2; 0xff; 0xff; 0x84; 0xc0; 0x74; 0x5b ].
(** [TGL.cpp:850-850 r10] *)
Definition r10 : bytes := mkBytes "FB.r10"
  [ 0xe8; 0xaf; 0xe2; 0xff; 0xff; 0x84; 0xc0; 0xeb; 0x5b ].
(** [TGL.cpp:852-852 f10p] *)
Definition f10p : bytes := mkBytes "FB.f10p"
  [ 0xe8; 0x9e; 0xf3; 0xff; 0xff; 0x84; 0xc0; 0x74; 0x3d ].
(** [TGL.cpp:853-853 r10p] *)
Definition r10p : bytes := mkBytes "FB.r10p"
  [ 0xe8; 0x9e; 0xf3; 0xff; 0xff; 0x84; 0xc0; 0xeb; 0x3d ].
(** [TGL.cpp:856-856 f13b] *)
Definition f13b : bytes := mkBytes "FB.f13b"
  [ 0xff; 0x90; 0x90; 0x01; 0x00; 0x00; 0x49; 0x8b; 0x0e; 0x4c; 0x89; 0xf7; 0x89; 0xc6; 0xff; 0x91; 0x38; 0x01; 0x00;
    0x00 ].
(** [TGL.cpp:857-857 r13b] *)
Definition r13b : bytes := mkBytes "FB.r13b"
  [ 0xc7; 0xc0; 0x01; 0x00; 0x00; 0x00; 0x49; 0x8b; 0x0e; 0x4c; 0x89; 0xf7; 0x89; 0xc6; 0xff; 0x91; 0x38; 0x01; 0x00;
    0x00 ].
(** [TGL.cpp:859-859 f13] *)
Definition f13 : bytes := mkBytes "FB.f13"
  [ 0xff; 0x91; 0x90; 0x01; 0x00; 0x00; 0x83; 0xf8; 0x02; 0x0f; 0x84; 0xec; 0x00; 0x00; 0x00 ].
(** [TGL.cpp:860-860 r13] *)
Definition r13 : bytes := mkBytes "FB.r13"
  [ 0x90; 0x90; 0x90; 0x90; 0x90; 0x90; 0x90; 0x90; 0x90; 0x90; 0x90; 0x90; 0x90; 0x90; 0x90 ].
(** [TGL.cpp:881-881 f19] *)
Definition f19 : bytes := mkBytes "FB.f19"
  [ 0xbe; 0x70; 0x44; 0x04; 0x00 ].
(** [TGL.cpp:882-882 r19] *)
Definition r19 : bytes := mkBytes "FB.r19"
  [ 0xbe; 0xa0; 0x38; 0x16; 0x00 ].
(** [TGL.cpp:888-888 f20p] *)
Definition f20p : bytes := mkBytes "FB.f20p"
  [ 0xff; 0x90; 0xf8; 0x09; 0x00; 0x00; 0x41; 0x89; 0xc6; 0x48; 0x85; 0xdb; 0x74; 0x17 ].
(** [TGL.cpp:889-889 r20p] *)
Definition r20p : bytes := mkBytes "FB.r20p"
  [ 0x90; 0x90; 0x90; 0x90; 0x90; 0x90; 0x90; 0x90; 0x90; 0x48; 0x85; 0xdb; 0x74; 0x17 ].
(** [TGL.cpp:904-923 Gen11::processKext] *)
Definition patchesp : list bytePatch :=
  [ plain f1p r1p 1; plain f2p r2p 1; plain f2dp r2dp 1; plain f3 r3 1; plain f4 r4 11; plain f4a r4a 11;
    plain f4b r4b 2; plain f4c r4c 2; plain f7p r7p 1; plain f10p r10p 1; plain f19 r19 1; plain f20p r20p 1 ].
(** [TGL.cpp:929-962 Gen11::processKext] *)
Definition patches : list bytePatch :=
  [ plain f1 r1 1; plain f2d r2d 1; plain f3 r3 1; plain f4 r4 12; plain f4a r4a 11; plain f4b r4b 2;
    plain f4c r4c 2; plain f7 r7 1; plain f10 r10 1; plain f13 r13 1; plain f13b r13b 1 ].
(** [TGL.cpp:969-971 Gen11::processKext] *)
Definition probeF2Patch : list bytePatch :=
  [ plain f2 r2 1 ].
End KextFB.
