(* ===== verification/KextHW.v ===== *)
(** * Hooks and patches of the accelerator kext (TGL.cpp)

    The tables [Gen11::processKext] installs in AppleIntelTGLGraphics: symbols to solve,
    routes in the groups the code installs them in, and code patches. Byte arrays no
    request mentions are left out. *)
From S2P Require Import Prelude Machine Patcher.
Import Patcher.

Module KextHW.
(** [TGL.cpp:1051-1087 Gen11::processKext] *)
Definition routes : list hook :=
  [ mkHook "__ZN16IntelAccelerator20_PAVPCommandCallbackEP8OSObject22PAVPSessionCommandID_tjPj" "wrapPavpSessionCallback" (Some "orgPavpSessionCallback");
    mkHook "__ZN20IGHardwareRingBuffer19resetGraphicsEngineEP17IGHardwareContext" "resetGraphicsEngine" (Some "oresetGraphicsEngine");
    mkHook "__ZN16IntelAccelerator5startEP9IOService" "start" (Some "ostart");
    mkHook "__ZN16IntelAccelerator5probeEP9IOServicePi" "probe" (Some "oprobe");
    mkHook "__ZN23IGHardwareBlit3DContext10initializeEv" "IGHardwareBlit3DContextinitialize" (Some "oIGHardwareBlit3DContextinitialize") ].
(** [TGL.cpp:1100-1104 Gen11::processKext] *)
Definition firmwareRoute : list hook :=
  [ mkHook "__ZN13IGHardwareGuC13loadGuCBinaryEv" "loadGuCBinary" (Some "oloadGuCBinary");
    mkHook "__ZN13IGHardwareGuC16initSchedControlEv" "wrapInitSchedControl" (Some "orgInitSchedControl");
    mkHook "__ZN5IGGuC15canLoadFirmwareEP22IOGraphicsAccelerator2" "canLoadFirmware" (Some "ocanLoadFirmware") ].
(** [TGL.cpp:1108-1120 Gen11::processKext] *)
Definition policyRoutes : list hook :=
  [ mkHook "__ZN25IGHardwareExtendedContext15initWithOptionsEP11IGAccelTaskRK31IGHardwareExtendedContextParams" "IGHardwareExtendedContextinitWithOptions" (Some "oIGHardwareExtendedContextinitWithOptions");
    mkHook "__ZN17IGHardwareContext25initRingGPUVirtualAddressEv" "IGHardwareContextinitRingGPUVirtualAddress" (Some "oIGHardwareContextinitRingGPUVirtualAddress");
    mkHook "__ZN17IGHardwareContext17initRingRegistersEv" "IGHardwareContextinitRingRegisters" (Some "oIGHardwareContextinitRingRegisters");
    mkHook "__ZN17IGHardwareContext15initRingControlEb" "IGHardwareContextinitRingControl" (Some "oIGHardwareContextinitRingControl");
    mkHook "__ZN17IGHardwareContext13resetRingHeadEv" "IGHardwareContextresetRingHead" (Some "oIGHardwareContextresetRingHead");
    mkHook "__ZN17IGHardwareContext14updateRingTailEj" "IGHardwareContextupdateRingTail" (Some "oIGHardwareContextupdateRingTail");
    mkHook "__ZN20IGHardwareRingBuffer4initEP17IGHardwareContext" "IGHardwareRingBufferinit" (Some "oIGHardwareRingBufferinit");
    mkHook "__ZN20IGHardwareRingBuffer12submitToRingEv" "IGHardwareRingBuffersubmitToRing" (Some "oIGHardwareRingBuffersubmitToRing");
    mkHook "__ZN26IGHardwareCommandStreamer514submitExecListEj" "IGHardwareCommandStreamersubmitExecList" (Some "oIGHardwareCommandStreamersubmitExecList");
    mkHook "__ZN26IGHardwareCommandStreamer516resumeSchedulingEv" "IGHardwareCommandStreamerresumeScheduling" (Some "oIGHardwareCommandStreamerresumeScheduling");
    mkHook "__ZN26IGHardwareCommandStreamer524prepareExecListAndSubmitEjjPKj" "IGHardwareCommandStreamerprepareExecListAndSubmit" (Some "oIGHardwareCommandStreamerprepareExecListAndSubmit") ].
(** [TGL.cpp:1124-1126 Gen11::processKext] *)
Definition bringupTraceRoutes : list hook :=
  [ mkHook "__ZN13IGHardwareGuC18checkWOPCMSettingsEmR14IOVirtualRange" "checkWOPCMSettings" (Some "ocheckWOPCMSettings") ].
(** [TGL.cpp:1130-1138 Gen11::processKext] *)
Definition schedulerPolicyRoutes : list hook :=
  [ mkHook "__ZN12IGScheduler519initWithAcceleratorEP22IOGraphicsAccelerator2" "IGScheduler5initWithAccelerator" (Some "oIGScheduler5initWithAccelerator");
    mkHook "__ZN12IGScheduler56resumeEv" "IGScheduler5resume" (Some "oIGScheduler5resume");
    mkHook "__ZN12IGScheduler54pushEP17IGHardwareContextjjbb" "IGScheduler5push" (Some "oIGScheduler5push");
    mkHook "__ZN12IGScheduler56notifyE10IGHwCsType" "IGScheduler5notify" (Some "oIGScheduler5notify");
    mkHook "__ZN12IGScheduler520enableStampInterruptEi" "IGScheduler5enableStampInterrupt" (Some "oIGScheduler5enableStampInterrupt");
    mkHook "__ZN12IGScheduler529enableContextSwitchInterruptsEv" "IGScheduler5enableContextSwitchInterrupts" (Some "oIGScheduler5enableContextSwitchInterrupts");
    mkHook "__ZN12IGScheduler516checkForProgressE10IGHwCsType" "IGScheduler5checkForProgress" (Some "oIGScheduler5checkForProgress") ].
(** [TGL.cpp:1149-1150 Gen11::processKext] *)
Definition traceRoutes : list hook :=
  [ mkHook "__ZN32IGHardwareRenderCommandStreamer54initEP22IOGraphicsAccelerator2P10IOWorkLoopP12IGScheduler5"
      "IGHardwareRenderCommandStreamerinit" (Some "oIGHardwareRenderCommandStreamerinit");
    mkHook "__ZN26IGHardwareCommandStreamer516resumeSchedulingEv"
      "IGHardwareCommandStreamerresumeScheduling" (Some "oIGHardwareCommandStreamerresumeScheduling") ].
(** [TGL.cpp:1154-1159 Gen11::processKext] *)
Definition coexistOffRoutes : list hook :=
  [ mkHook "__ZN16IntelAccelerator26SafeForceWakeMultithreadedEbjj" "forceWake" (Some "oforceWake") ].
(** [TGL.cpp:1167-1170 Gen11::processKext] *)
Definition gpuInfoRoute : list hook :=
  [ mkHook "__ZN16IntelAccelerator10getGPUInfoEv" "getGPUInfo" (Some "ogetGPUInfo");
    mkHook "__ZN16IntelAccelerator16initHardwareCapsEv" "initHardwareCaps" (Some "oinitHardwareCaps") ].
(** [TGL.cpp:998-1003 Gen11::processKext] *)
Definition displaySymbols : list (string * string) :=
  [ ("__ZN16IntelAccelerator17newDisplayMachineEv", "oNewDisplayMachine");
    ("__ZN21IGAccelDisplayMachine4initEP22IOGraphicsAccelerator2", "oDisplayMachineInit");
    ("__ZN21IGAccelDisplayMachine5startEP11IOPCIDevice", "oDisplayMachineStart");
    ("__ZN21IGAccelDisplayMachine17probeDisplayPipesEv", "oDisplayMachineProbeDisplayPipes") ].
(** The addresses are fields of a local array, also where a member initialises one.
    [TGL.cpp:1014-1040 Gen11::processKext] *)
Definition traceSymbols : list (string * option string) :=
  [ ("__ZN20IGHardwareRingBuffer19resetGraphicsEngineEP17IGHardwareContext", None);
    ("__ZN12IGScheduler519initWithAcceleratorEP22IOGraphicsAccelerator2", None);
    ("__ZN12IGScheduler56resumeEv", None);
    ("__ZN12IGScheduler54pushEP17IGHardwareContextjjbb", None);
    ("__ZN12IGScheduler56notifyE10IGHwCsType", None);
    ("__ZN12IGScheduler516checkForProgressE10IGHwCsType", None);
    ("__ZN12IGScheduler520enableStampInterruptEi", None);
    ("__ZN12IGScheduler529enableContextSwitchInterruptsEv", None);
    ("__ZN17IGHardwareContext25initRingGPUVirtualAddressEv", None);
    ("__ZN17IGHardwareContext17initRingRegistersEv", None);
    ("__ZN17IGHardwareContext15initRingControlEb", None);
    ("__ZN17IGHardwareContext13resetRingHeadEv", None);
    ("__ZN17IGHardwareContext14updateRingTailEj", None);
    ("__ZN20IGHardwareRingBuffer4initEP17IGHardwareContext", None);
    ("__ZN20IGHardwareRingBuffer12submitToRingEv", None);
    ("__ZN26IGHardwareCommandStreamer514submitExecListEj", None);
    ("__ZN26IGHardwareCommandStreamer516resumeSchedulingEv", None);
    ("__ZN26IGHardwareCommandStreamer524prepareExecListAndSubmitEjjPKj", None);
    ("__ZN26IGHardwareCommandStreamer526processContextStatusBufferEj", None);
    ("__ZN32IGHardwareRenderCommandStreamer54initEP22IOGraphicsAccelerator2P10IOWorkLoopP12IGScheduler5", None);
    ("__ZNK20IGSharedMappedBuffer17getVirtualAddressEv", Some "oIGSharedMappedBuffergetVirtualAddress");
    ("__ZNK14IGMappedBuffer20getGPUVirtualAddressEv", Some "oIGMappedBuffergetGPUVirtualAddress");
    ("__ZL11kIGHwCsDesc", Some "kIGHwCsDescSymbol");
    ("__ZTV14IGMappedBuffer", Some "vtableIGMappedBuffer");
    ("__ZTV20IGSharedMappedBuffer", Some "vtableIGSharedMappedBuffer") ].
(** [TGL.cpp:1181-1183 f3] *)
Definition f3 : bytes := mkBytes "HW.f3"
  [ 0x8b; 0x3e; 0x81; 0xff; 0xee; 0xbe; 0xaf; 0xde; 0x7f; 0x15; 0x81; 0xff; 0x86; 0x80; 0x40; 0x9a; 0x74; 0x2d ].
(** [TGL.cpp:1184-1186 r3] *)
Definition r3 : bytes := mkBytes "HW.r3"
  [ 0x8b; 0x3e; 0x81; 0xff; 0xee; 0xbe; 0xaf; 0xde; 0x90; 0x90; 0x81; 0xff; 0x86; 0x80; 0x40; 0x9a; 0xeb; 0x2d ].
(** [TGL.cpp:1199-1201 f3b] *)
Definition f3b : bytes := mkBytes "HW.f3b"
  [ 0x74; 0x23; 0x83; 0xf9; 0x02; 0x0f; 0x85; 0x89; 0x01; 0x00; 0x00; 0x83; 0xfe; 0x01; 0x75; 0x59; 0x83; 0xfa; 0x0c;
    0x75; 0x54; 0x41; 0xc7; 0x87; 0x64; 0x11; 0x00; 0x00; 0x08; 0x00; 0x00; 0x00 ].
(** [TGL.cpp:1202-1204 r3b] *)
Definition r3b : bytes := mkBytes "HW.r3b"
  [ 0x90; 0x90; 0x83; 0xf9; 0x02; 0x90; 0x90; 0x90; 0x90; 0x90; 0x90; 0x83; 0xfe; 0x01; 0x90; 0x90; 0x83; 0xfa; 0x0c;
    0x90; 0x90; 0x41; 0xc7; 0x87; 0x64; 0x11; 0x00; 0x00; 0x08; 0x00; 0x00; 0x00 ].
(** [TGL.cpp:1211-1213 f3bb] *)
Definition f3bb : bytes := mkBytes "HW.f3bb"
  [ 0xbe; 0x08; 0x00; 0x00; 0x00; 0x29; 0xde; 0x41; 0x89; 0xb7; 0x6c; 0x11; 0x00; 0x00; 0x41; 0x8b; 0x8f; 0x58; 0x11;
    0x00; 0x00 ].
(** [TGL.cpp:1214-1216 r3bb] *)
Definition r3bb : bytes := mkBytes "HW.r3bb"
  [ 0xbe; 0x08; 0x00; 0x00; 0x00; 0x90; 0x90; 0x41; 0x89; 0xb7; 0x6c; 0x11; 0x00; 0x00; 0x41; 0x8b; 0x8f; 0x58; 0x11;
    0x00; 0x00 ].
(** [TGL.cpp:1223-1225 f3bbb] *)
Definition f3bbb : bytes := mkBytes "HW.f3bbb"
  [ 0x8b; 0x5d; 0xd0; 0xf3; 0x0f; 0xb8; 0xf3; 0x01; 0xf6; 0x41; 0x89; 0xb7; 0x58; 0x11; 0x00; 0x00 ].
(** [TGL.cpp:1226-1228 r3bbb] *)
Definition r3bbb : bytes := mkBytes "HW.r3bbb"
  [ 0x8b; 0x5d; 0xd0; 0xbe; 0x0a; 0x00; 0x00; 0x00; 0x90; 0x41; 0x89; 0xb7; 0x58; 0x11; 0x00; 0x00 ].
(** [TGL.cpp:1253-1256 f_devstart] *)
Definition f_devstart : bytes := mkBytes "HW.f_devstart"
  [ 0xff; 0x90; 0x70; 0x09; 0x00; 0x00; 0x84; 0xc0; 0x74; 0x00; 0x48; 0x8d; 0x00 ].
(** [TGL.cpp:1257-1260 m_devstart] *)
Definition m_devstart : bytes := mkBytes "HW.m_devstart"
  [ 0xff; 0xff; 0xff; 0xff; 0xff; 0xff; 0xff; 0xff; 0xff; 0x00; 0xff; 0xff; 0x00 ].
(** [TGL.cpp:1261-1264 r_devstart] *)
Definition r_devstart : bytes := mkBytes "HW.r_devstart"
  [ 0xff; 0x90; 0x70; 0x09; 0x00; 0x00; 0x84; 0xc0; 0x90; 0x90; 0x48; 0x8d; 0x00 ].
(** [TGL.cpp:1265-1268 rm_devstart] *)
Definition rm_devstart : bytes := mkBytes "HW.rm_devstart"
  [ 0x00; 0x00; 0x00; 0x00; 0x00; 0x00; 0x00; 0x00; 0xff; 0xff; 0x00; 0x00; 0x00 ].
(** [TGL.cpp:1274-1277 f_devstart_long] *)
Definition f_devstart_long : bytes := mkBytes "HW.f_devstart_long"
  [ 0xff; 0x90; 0x70; 0x09; 0x00; 0x00; 0x84; 0xc0; 0x0f; 0x84; 0x00; 0x00; 0x00; 0x00 ].
(** [TGL.cpp:1278-1281 m_devstart_long] *)
Definition m_devstart_long : bytes := mkBytes "HW.m_devstart_long"
  [ 0xff; 0xff; 0xff; 0xff; 0xff; 0xff; 0xff; 0xff; 0xff; 0xff; 0x00; 0x00; 0x00; 0x00 ].
(** [TGL.cpp:1282-1285 r_devstart_long] *)
Definition r_devstart_long : bytes := mkBytes "HW.r_devstart_long"
  [ 0xff; 0x90; 0x70; 0x09; 0x00; 0x00; 0x84; 0xc0; 0x90; 0x90; 0x90; 0x90; 0x90; 0x90 ].
(** [TGL.cpp:1286-1289 rm_devstart_long] *)
Definition rm_devstart_long : bytes := mkBytes "HW.rm_devstart_long"
  [ 0x00; 0x00; 0x00; 0x00; 0x00; 0x00; 0x00; 0x00; 0xff; 0xff; 0xff; 0xff; 0xff; 0xff ].
(** [TGL.cpp:1298-1301 Gen11::processKext] *)
Definition patchesAlways : list bytePatch :=
  [ plain f3 r3 1 ].
(** [TGL.cpp:1307-1312 Gen11::processKext] *)
Definition patchesRPL : list bytePatch :=
  [ plain f3b r3b 1; plain f3bb r3bb 1; plain f3bbb r3bbb 1; masked f_devstart m_devstart r_devstart rm_devstart 1 ].
(** [TGL.cpp:1317-1325 Gen11::processKext] *)
Definition patchRPLDevstartLong : bytePatch :=
  masked f_devstart_long m_devstart_long r_devstart_long rm_devstart_long 1.
End KextHW.
