(* ===== verification/Kext.v ===== *)
(** * Loading a kext (TGL.cpp, NGreen.cpp)

    [NGreen::processKext] is called for every kext Lilu watches: it patches the accelerator
    family, the display policy and the backlight kexts itself and leaves the graphics kexts
    to [Gen11::processKext], which routes their functions to the hooks and patches their
    code. A mandatory request that fails panics. Lilu's patcher is a parameter, and so are
    the indices it gives to the kexts; log lines are left out. *)
From S2P Require Import Prelude Machine Memory Sim Mmio BootArgs Trace Frame Plugin Patcher KextFB KextHW.
Import Mmio BootArgs Trace Patcher.

Module Kext.
(** ** The patches of the other kexts *)
(** [NGreen.cpp:522-522 f2_f] *)
Definition f2_f : bytes := mkBytes "f2_f"
  [ 0x41; 0x54; 0x53; 0x50; 0xf7; 0xc2; 0x00; 0x00; 0x00; 0x00; 0x74; 0x00 ].
(** [NGreen.cpp:523-523 f2_m] *)
Definition f2_m : bytes := mkBytes "f2_m"
  [ 0xFF; 0xFF; 0xFF; 0xFF; 0xFF; 0xFF; 0x00; 0x00; 0x00; 0x00; 0xFF; 0x00 ].
(** [NGreen.cpp:524-524 f2_r] *)
Definition f2_r : bytes := mkBytes "f2_r"
  (replicate 10 0 ++ [ 0xEB; 0x00 ]).
(** [NGreen.cpp:525-525 f2_rm] *)
Definition f2_rm : bytes := mkBytes "f2_rm"
  (replicate 10 0 ++ [ 0xFF; 0x00 ]).
(** [NGreen.cpp:538-538 f1_f] *)
Definition f1_f : bytes := mkBytes "f1_f"
  [ 0x75; 0x00; 0x49; 0x8b; 0x87; 0x00; 0x00; 0x00; 0x00; 0x4c; 0x8b; 0x80; 0x00; 0x00; 0x00; 0x00; 0x45; 0x8b; 0x8f ].
(** [NGreen.cpp:539-539 f1_m] *)
Definition f1_m : bytes := mkBytes "f1_m"
  [ 0xFF; 0x00; 0xFF; 0xFF; 0xFF; 0x00; 0x00; 0x00; 0x00; 0xFF; 0xFF; 0xFF; 0x00; 0x00; 0x00; 0x00; 0xFF; 0xFF; 0xFF ].
(** [NGreen.cpp:540-540 f1_r] *)
Definition f1_r : bytes := mkBytes "f1_r"
  ([ 0x90; 0x90 ] ++ replicate 17 0).
(** [NGreen.cpp:541-541 f1_rm] *)
Definition f1_rm : bytes := mkBytes "f1_rm"
  ([ 0xFF; 0xFF ] ++ replicate 17 0).
(** [NGreen.cpp:526-526 NGreen::processKext] *)
Definition p2 : bytePatch := masked f2_f f2_m f2_r f2_rm 2.
(** [NGreen.cpp:542-542 NGreen::processKext] *)
Definition p1 : bytePatch := masked f1_f f1_m f1_r f1_rm 1.
(** [NGreen.hpp:309-310 kAGDPBoardIDKeyOriginal] *)
Definition agdpPatch : bytePatch :=
  plain (mkBytes "kAGDPBoardIDKeyOriginal" (Plugin.cbytes "board-id"))
    (mkBytes "kAGDPBoardIDKeyPatched" (Plugin.cbytes "applehax")) 1.
(** [NGreen.cpp:565-567 NGreen::processKext] *)
Definition backlightPatch : bytePatch :=
  plain (mkBytes "find" (Plugin.cbytes "F%uT%04x")) (mkBytes "replace" (Plugin.cbytes "F%uTxxxx")) 1.

Section defs.
Context `{Platform}.
Context (findPattern : Z -> Z -> Z -> Z -> Z -> world -> option Z).
Context (mapLength : Z -> Z).
(** [KextInfo::loadIndex] of each watched kext, assigned by Lilu. *)
Context (loadIndex : string -> Z).

(** [PANIC_COND(!m, ...)]. *)
Definition require (m : M bool) (msg : string) : M unit :=
  ok ← m; if ok : bool then mret () else panic msg.

Section kext.
Context (index address size : Z).
Definition solves (rs : list (string * string)) : M bool :=
  solveAll findPattern index address size (map (fun '(s, o) => solveOf s o) rs).
Definition routes (hs : list hook) : M bool := routeAll findPattern index address size (map routeOf hs).
Definition applies (ps : list bytePatch) : M bool := applyAll address size (map patchOf ps).

(** The debug build names its controller [AppleIntelBaseController]. [TGL.cpp:649-651 Gen11::processKext] *)
Definition isProduction : M bool :=
  prod ← call "solveSymbol __ZN24AppleIntelBaseController5startEP9IOService" [index; address; size];
  mret (negb (truthy (u64 prod))).
(** [TGL.cpp:653-669 Gen11::processKext] *)
Definition cdClockSymbol (isprod : bool) : list (string * string) :=
  [ (if isprod then "__ZN31AppleIntelFramebufferController19setCDClockFrequencyEy"
     else "__ZN24AppleIntelBaseController19setCDClockFrequencyEy", "orgSetCDClockFrequency") ].
(** [TGL.cpp:719-758 Gen11::processKext] *)
Definition buildRoutes (isprod : bool) : M unit :=
  if isprod then require (routes KextFB.prodRoutes) "Failed to route p symbols"
  else require (routes KextFB.dbgRoutes) "Failed to route d symbols".
(** [TGL.cpp:903-979 Gen11::processKext] *)
Definition buildPatches (isprod : bool) : M unit :=
  if isprod then require (applies KextFB.patchesp) "kextG11FBT Failed to apply production patches!"
  else
    _ ← require (applies KextFB.patches) "kextG11FBT Failed to apply dbg patches!";
    tgl ← ng isRealTGL;
    if isReferenceF2ProbeEnabled && negb tgl then
      require (applies KextFB.probeF2Patch) "kextG11FBT Failed to apply reference f2 probe patch!"
    else mret ().
(** [TGL.cpp:642-980 Gen11::processKext] *)
Definition processFramebuffer : M bool :=
  _ ← set_g11 (fun g => g <| tglFBLoaded := true |>);
  _ ← Plugin.setRMMIOIfNecessary mapLength;
  isprod ← isProduction;
  _ ← require (solves (cdClockSymbol isprod)) "Failed to resolve symbols";
  _ ← require (routes KextFB.routes) "Failed to route dp symbols";
  _ ← buildRoutes isprod;
  _ ← buildPatches isprod;
  mret true.

(** [TGL.cpp:984-989 Gen11::processKext] *)
Definition resetBringup : M unit :=
  when isTglTraceEnabled
    (cb ← ng ngCallback; tgl ← ng isRealTGL;
     _ ← set_bringup (fun _ => TglGpuBringupState_init <| isTgl9A49 := cb && tgl |>);
     dumpTglGpuBringupState "AppleIntelTGLGraphics processKext entry").
(** The field [addr] of entry [i]. [TGL.cpp:1008-1012 Gen11::processKext] *)
Definition traceSlot (i : nat) : Z := slotOf "traceSymbols" + 24 * Z.of_nat i + 8.
(** The array is filled with the members' values before it is walked.
    [TGL.cpp:1014-1040 Gen11::processKext] *)
Definition fillTraceSymbols (es : list (nat * (string * option string))) : M unit :=
  iterM es (fun '(i, (_, o)) =>
    v ← match o with Some m => load 8 (slotOf m) | None => mret 0 end;
    store 8 (traceSlot i) v).
(** [TGL.cpp:1042-1048 Gen11::processKext] *)
Definition solveTraceSymbols (es : list (nat * (string * option string))) : M unit :=
  iterM es (fun '(i, (s, _)) =>
    _ ← solve findPattern index address size (mkSolve s (traceSlot i) 0 0 0); mret ()).
(** [TGL.cpp:1007-1049 Gen11::processKext] *)
Definition solveTrace : M unit :=
  when isRcsEngineTraceEnabled
    (let es := imap pair KextHW.traceSymbols in
     _ ← fillTraceSymbols es; solveTraceSymbols es).
(** [TGL.cpp:1090-1106 Gen11::processKext] *)
Definition routeFirmware : M unit :=
  _ ← store 8 (slotOf "schedControlAddr") 0;
  _ ← require (solve findPattern index address size
                 (solveOf "__ZN13IGHardwareGuC16initSchedControlEv" "schedControlAddr"))
        "Failed to resolve IGHardwareGuC::initSchedControl symbol";
  require (routes KextHW.firmwareRoute) "Failed to route GuC firmware/scheduler symbols".
(** [TGL.cpp:1142-1151 Gen11::processKext] *)
Definition routeTrace : M unit :=
  when isRcsEngineTraceEnabled
    (iterM KextHW.traceRoutes (fun h => _ ← route findPattern index address size (routeOf h); mret ())).
(** Routes WhateverGreen would otherwise own. [TGL.cpp:1153-1175 Gen11::processKext] *)
Definition routeOwned : M unit :=
  when (negb isWEGCoexistMode || shouldForceFullMetalPath)
    (_ ← require (routes KextHW.coexistOffRoutes) "Failed to route coexist-off symbols";
     require (routes KextHW.gpuInfoRoute) "Failed to route GPU info/caps symbols").
(** [TGL.cpp:1294-1336 Gen11::processKext] *)
Definition patchAccelerator : M unit :=
  _ ← require (applies KextHW.patchesAlways) "kextG11HWT Failed to apply base patches!";
  tgl ← ng isRealTGL;
  when (negb tgl)
    (_ ← require (applies KextHW.patchesRPL) "kextG11HWT Failed to apply RPL-specific patches!";
     _ ← apply_patch address size (patchOf KextHW.patchRPLDevstartLong); mret ()).
(** [TGL.cpp:982-1342 Gen11::processKext] *)
Definition processAccelerator : M bool :=
  _ ← resetBringup;
  _ ← set_g11 (fun g => g <| tglHWLoaded := true |>);
  _ ← Plugin.setRMMIOIfNecessary mapLength;
  _ ← require (solves KextHW.displaySymbols) "Failed to resolve display machine symbols (TGL)";
  _ ← solveTrace;
  _ ← require (routes KextHW.routes) "Failed to route symbols";
  _ ← routeFirmware;
  _ ← require (routes KextHW.policyRoutes) "Failed to route TGL ring/context policy symbols";
  _ ← when isTglTraceEnabled
        (require (routes KextHW.bringupTraceRoutes) "Failed to route TGL bring-up trace symbols");
  _ ← require (routes KextHW.schedulerPolicyRoutes) "Failed to route IGScheduler5 policy symbols";
  _ ← routeTrace;
  _ ← routeOwned;
  _ ← patchAccelerator;
  mret true.
(** [TGL.cpp:640-1346 Gen11::processKext] *)
Definition gen11ProcessKext : M bool :=
  if loadIndex "kextG11FBT" =? index then processFramebuffer
  else if loadIndex "kextG11HWT" =? index then processAccelerator
  else mret false.

(** [NGreen.cpp:514-546 NGreen::processKext] *)
Definition patchAcceleratorFamily : M unit :=
  _ ← apply_patch address size (patchOf p2);
  _ ← call "clearError" [];
  _ ← apply_patch address size (patchOf p1);
  _ ← call "clearError" []; mret ().
(** [NGreen.cpp:560-572 NGreen::processKext] *)
Definition patchBacklight : M unit :=
  ok ← call "routeMultiple __ZN15AppleIntelPanel10setDisplayEP9IODisplay"
         [loadIndex "kextBacklight"; symbolAddr "wrapApplePanelSetDisplay"; slotOf "orgApplePanelSetDisplay";
          address; size];
  when (truthy (u8 ok)) (_ ← apply_patch address size (patchOf backlightPatch); mret ()).
(** [NGreen.cpp:573-580 NGreen::processKext] *)
Definition routeMccs : M unit :=
  let zero := symbolAddr "wrapFunctionReturnZero" in
  _ ← call ("routeMultiple __ZN25AppleMCCSControlGibraltar5probeEP9IOServicePi,"
            +:+ "__ZN21AppleMCCSControlCello5probeEP9IOServicePi") [index; zero; zero; address; size];
  _ ← call "clearError" []; mret ().
(** [NGreen.cpp NGreen::processKext] *)
Definition processKext : M bool :=
  _ ← (if loadIndex "kextIOAcceleratorFamily2" =? index then patchAcceleratorFamily
       else if loadIndex "kextIOGraphics" =? index then mret ()
       else if loadIndex "kextAGDP" =? index then
         _ ← apply_patch address size (patchOf agdpPatch); mret ()
       else if loadIndex "kextBacklight" =? index then patchBacklight
       else if loadIndex "kextMCCSControl" =? index then routeMccs
       else _ ← gen11ProcessKext; mret ());
  mret true.
End kext.

(** *** Registration *)
(** [lilu.onKextLoadForce(&kext)]. *)
Definition watch (kext : string) : M unit := _ ← call ("onKextLoadForce " +:+ kext) []; mret ().
(** Reads the clock for its log line. [RcsEngineTrace.cpp logBuildMarker] *)
Definition logBuildMarker : M unit := when isRcsEngineTraceEnabled (_ ← now_ns; mret ()).
(** [TGL.cpp Gen11::init] *)
Definition gen11Init : M unit := iterM ["kextG11FBT"; "kextG11HWT"] watch.
(** The IOGraphics watcher is commented out. [NGreen.cpp NGreen::init] *)
Definition init : M unit :=
  _ ← set_ng (fun n => n <| ngCallback := true |>);
  _ ← logBuildMarker;
  _ ← iterM ["kextAGDP"; "kextBacklight"; "kextMCCSControl"; "kextIOAcceleratorFamily2"] watch;
  _ ← gen11Init;
  _ ← call "onPatcherLoadForce" [symbolAddr "processPatcher"];
  _ ← call "onKextLoadForce" [0; 0; symbolAddr "processKext"]; mret ().
End defs.

(** ** What is installed *)

(** The routes WhateverGreen installs itself. *)
Definition ownedHooks : list hook := KextHW.coexistOffRoutes ++ KextHW.gpuInfoRoute.
Definition hwPatches (tgl : bool) : list bytePatch :=
  KextHW.patchesAlways ++ (if tgl then [] else KextHW.patchesRPL).
(** Every patch [processKext] asks for, in any kext; the userspace patches are Dyld.v's. *)
Definition allPatches : list bytePatch :=
  KextFB.patchesp ++ KextFB.patches ++ KextFB.probeF2Patch ++ hwPatches false ++
  [KextHW.patchRPLDevstartLong; p1; p2; agdpPatch; backlightPatch].

(** Every array of a patch has the size the patcher is told, and holds bytes. *)
Definition arrays (p : bytePatch) : list bytes :=
  y_find p :: y_replace p :: option_list (y_findMask p) ++ option_list (y_replaceMask p).
Definition is_byte (b : Z) : Prop := 0 <= b < 256.
(** The bytes a site becomes, and whether a site matches. *)
Definition selectByte (old new mask : Z) : Z := (old .& (255 - mask)) .| (new .& mask).
Definition maskOr (o : option bytes) (n : nat) : list Z :=
  match o with Some m => b_data m | None => replicate n 255 end.
Definition patchSite (p : bytePatch) (site : list Z) : list Z :=
  zip_with (fun '(b, r) m => selectByte b r m) (zip site (b_data (y_replace p)))
    (maskOr (y_replaceMask p) (length site)).
Definition matchesSite (p : bytePatch) (site : list Z) : bool :=
  forallb (fun '((b, f), m) => (b .& m) =? (f .& m))
    (zip (zip site (b_data (y_find p))) (maskOr (y_findMask p) (length site))).
(** Some byte decides: it is compared, it is replaced, and what it becomes differs from
    what is looked for. *)
Definition decides (p : bytePatch) : bool :=
  let n := length (b_data (y_find p)) in
  existsb (fun '(((f, r), fm), rm) => (fm =? 255) && (rm =? 255) && negb (f =? r))
    (zip (zip (zip (b_data (y_find p)) (b_data (y_replace p)))
       (maskOr (y_findMask p) n)) (maskOr (y_replaceMask p) n)).
Definition wf_patch (p : bytePatch) : Prop :=
  0 < y_count p /\ (0 < length (b_data (y_find p)))%nat /\
  Forall (fun a => length (b_data a) = length (b_data (y_find p)) /\ Forall is_byte (b_data a)) (arrays p).
#[global] Instance is_byte_dec b : Decision (is_byte b).
Proof. unfold is_byte. apply _. Defined.
#[global] Instance wf_patch_dec p : Decision (wf_patch p).
Proof. unfold wf_patch. apply _. Defined.

(** ** The tables *)
Lemma wf_all : Forall wf_patch allPatches.
Proof. apply (bool_decide_unpack _). vm_compute. exact I. Qed.
Lemma decides_all : forallb decides allPatches = true.
Proof. by vm_compute. Qed.
Lemma patchSite_lookup p site i b r :
  site !! i = Some b -> b_data (y_replace p) !! i = Some r ->
  maskOr (y_replaceMask p) (length site) !! i = Some 255 -> is_byte b -> is_byte r ->
  patchSite p site !! i = Some r.
Proof.
  intros Hb Hr Hm Bb Br. unfold patchSite. rewrite lookup_zip_with, lookup_zip_with, Hb, Hr, Hm. simpl.
  unfold selectByte. f_equal. change (255 - 255) with 0. rewrite Z.land_0_r, Z.lor_0_l.
  change 255 with (Z.ones 8). rewrite Z.land_ones by lia. apply Z.mod_small. exact Br.
Qed.
Lemma patchSite_length p site :
  wf_patch p -> length site = length (b_data (y_find p)) -> length (patchSite p site) = length site.
Proof.
  intros (_ & _ & Ha) Hl. unfold patchSite. rewrite !length_zip_with. unfold arrays in Ha.
  rewrite !Forall_cons, Forall_app in Ha. destruct Ha as (_ & [Lr _] & _ & Hm).
  rewrite Lr, <-Hl, Nat.min_id. destruct (y_replaceMask p) as [m|]; cbn [maskOr option_list] in *.
  - apply Forall_singleton in Hm as [-> _]. lia.
  - rewrite length_replicate. lia.
Qed.
(** Where a deciding byte is, the patched site differs from the pattern. *)
Lemma decided p site :
  wf_patch p -> decides p = true -> length site = length (b_data (y_find p)) -> Forall is_byte site ->
  matchesSite p (patchSite p site) = false.
Proof.
  intros Hw Hd Hl Hs. pose proof Hw as (_ & _ & Ha). apply existsb_exists in Hd as ([[[f r] fm] rm] & Hi & Hd).
  apply list_elem_of_In, list_elem_of_lookup in Hi as [i Hi].
  apply lookup_zip_with_Some in Hi as ([[f' r'] fm'] & rm' & E & Hi & Hrm). simplify_eq.
  apply lookup_zip_with_Some in Hi as ([f1 r1] & fm1 & E & Hi & Hfm). simplify_eq.
  apply lookup_zip_with_Some in Hi as (f2 & r2 & E & Hf & Hr). simplify_eq. bools. destruct Hd as [[-> ->] Hne].
  unfold arrays in Ha. rewrite !Forall_cons in Ha. destruct Ha as ([_ Bf] & [Lr Br] & _).
  destruct (lookup_lt_is_Some_2 site i) as [b Hb]; [rewrite Hl; by eapply lookup_lt_Some|].
  assert (Bb : is_byte b) by (by eapply (Forall_lookup_1 is_byte _ _ _ Hs)).
  assert (Bf2 : is_byte f2) by (by eapply (Forall_lookup_1 is_byte _ _ _ Bf)).
  assert (Br2 : is_byte r2) by (by eapply (Forall_lookup_1 is_byte _ _ _ Br)).
  pose proof (patchSite_lookup p site i b r2 Hb Hr ltac:(by rewrite Hl) Bb Br2) as Hp.
  apply not_true_iff_false. intros Hm. unfold matchesSite in Hm. rewrite forallb_forall in Hm.
  assert (Hlen : length (patchSite p site) = length (b_data (y_find p))).
  { rewrite patchSite_length by done. exact Hl. }
  specialize (Hm ((r2, f2), 255)). ospecialize (Hm _).
  - apply list_elem_of_In, list_elem_of_lookup. exists i. rewrite lookup_zip_with, lookup_zip_with, Hp, Hf.
    rewrite Hlen, Hfm. done.
  - bools. change 255 with (Z.ones 8) in Hm. rewrite !Z.land_ones in Hm by lia.
    unfold is_byte in *. rewrite !Z.mod_small in Hm by done. congruence.
Qed.

(** C21 (type). Every patch asked for when a kext is loaded (the framebuffer's and the
    accelerator's of every build and platform, the accelerator family's, the display
    policy's and the backlight's) is well formed: the pattern, the replacement and the
    masks are byte arrays of one length, the length the patcher is given, so it never
    reads past an array; the patch is asked for at least once; and a site it has been
    applied to keeps its length and never matches the pattern again, whatever the site's
    masked-out bytes are. The patches of the shared cache (DYLDPatches.cpp) are not among
    them: their patterns and replacements may differ in length. *)
Theorem kext_patches_well_formed (p : bytePatch) (site : list Z) :
  p ∈ allPatches -> length site = length (b_data (y_find p)) -> Forall is_byte site ->
  wf_patch p /\ length (patchSite p site) = length site /\ matchesSite p (patchSite p site) = false.
Proof.
  intros Hp Hl Hs. pose proof (proj1 (Forall_forall _ _) wf_all p Hp) as Hw.
  split; [done|]. split; [by apply patchSite_length|]. apply decided; try done.
  exact (proj1 (forallb_forall _ _) decides_all p (proj1 (list_elem_of_In _ _) Hp)).
Qed.
Lemma kext_patches_well_formed_witness :
  matchesSite KextHW.patchRPLDevstartLong (b_data (y_find KextHW.patchRPLDevstartLong)) = true /\
  matchesSite KextHW.patchRPLDevstartLong
    (patchSite KextHW.patchRPLDevstartLong (b_data (y_find KextHW.patchRPLDevstartLong))) = false.
Proof.
  split; [reflexivity|]. refine (proj2 (proj2 (kext_patches_well_formed _ _ _ _ _))).
  - unfold allPatches. rewrite !elem_of_app. do 4 right. left.
  - reflexivity.
  - apply (bool_decide_unpack _). vm_compute. exact I.
Defined.

(** ** Running the requests *)
Section facts.
Context `{Platform}.
Context (findPattern : Z -> Z -> Z -> Z -> Z -> world -> option Z) (mapLength : Z -> Z).
Context (loadIndex : string -> Z) (index address size : Z).

(** *** How a load can end *)
Definition Ends {A} (msgs : list string) (m : M A) : Prop := forall w,
  match m w with Done _ _ => True | Panicked e _ => e ∈ msgs | OutOfFuel _ => False end.
Lemma Ends_total {A} msgs (m : M A) : total m -> Ends msgs m.
Proof. intros Hm w. by destruct (Hm w) as (a & w' & ->). Qed.
Lemma Ends_bind {A B} msgs (m : M A) (k : A -> M B) :
  Ends msgs m -> (forall a, Ends msgs (k a)) -> Ends msgs (m ≫= k).
Proof. intros Hm Hk w. specialize (Hm w). unfold mbind, M_bind. destruct (m w); [apply Hk|done..]. Qed.
Lemma Ends_require msgs m msg : total m -> msg ∈ msgs -> Ends msgs (require m msg).
Proof.
  intros Hm Hi. apply Ends_bind; [by apply Ends_total|]. intros [] w; [done|exact Hi].
Qed.
Lemma Ends_setRMMIO msgs : "null IOMemoryMap" ∈ msgs -> Ends msgs (Plugin.setRMMIOIfNecessary mapLength).
Proof.
  intros Hi. unfold Plugin.setRMMIOIfNecessary.
  repeat (first [ apply Ends_bind; [|intros ?] | case_match | apply Ends_total; total_auto; fail | intros w; exact Hi ]).
Qed.
Lemma total_whileOk {A} (f : A -> M bool) rs : (forall r, total (f r)) -> total (whileOk f rs).
Proof. intros Hf. induction rs; simpl; total_auto; auto. Qed.
Lemma total_solve r : total (solve findPattern index address size r).
Proof. unfold solve, lookupPattern. total_auto. Qed.
Lemma total_route r : total (route findPattern index address size r).
Proof. unfold route, lookupPattern. total_auto. Qed.
Lemma total_apply p : total (apply_patch address size p).
Proof. unfold apply_patch. total_auto. Qed.
Hint Resolve total_whileOk total_solve total_route total_apply : ng.
Lemma total_routes hs : total (routes findPattern index address size hs).
Proof. apply total_whileOk. auto with ng. Qed.
Lemma total_solves rs : total (solves findPattern index address size rs).
Proof. apply total_whileOk. auto with ng. Qed.
Lemma total_applies ps : total (applies address size ps).
Proof. apply total_whileOk. auto with ng. Qed.
Hint Resolve total_routes total_solves total_applies : ng.

(** What a load can panic with. *)
Definition fbMessages : list string :=
  [ "null IOMemoryMap"; "Failed to resolve symbols"; "Failed to route dp symbols"; "Failed to route p symbols";
    "Failed to route d symbols"; "kextG11FBT Failed to apply production patches!";
    "kextG11FBT Failed to apply dbg patches!"; "kextG11FBT Failed to apply reference f2 probe patch!" ].
Definition hwMessages : list string :=
  [ "null IOMemoryMap"; "Failed to resolve display machine symbols (TGL)"; "Failed to route symbols";
    "Failed to resolve IGHardwareGuC::initSchedControl symbol";
    "Failed to route GuC firmware/scheduler symbols"; "Failed to route TGL ring/context policy symbols";
    "Failed to route TGL bring-up trace symbols"; "Failed to route IGScheduler5 policy symbols";
    "Failed to route coexist-off symbols"; "Failed to route GPU info/caps symbols";
    "kextG11HWT Failed to apply base patches!"; "kextG11HWT Failed to apply RPL-specific patches!" ].

Ltac member := apply (bool_decide_unpack _); vm_compute; exact I.
Ltac ends := repeat
  match goal with
  | |- Ends _ (require _ _) => apply Ends_require; [solve [auto with ng]|member]
  | |- Ends _ (Plugin.setRMMIOIfNecessary _) => apply Ends_setRMMIO; member
  | |- Ends _ (mbind _ _) => apply Ends_bind; [|intros ?]
  | |- Ends _ (when ?b _) => destruct b; cbn [when]
  | |- Ends _ (match ?b with _ => _ end) => destruct b
  | |- Ends _ _ => apply Ends_total; solve [total_auto]
  end.
Lemma framebuffer_ends : Ends fbMessages (processFramebuffer findPattern mapLength index address size).
Proof. unfold processFramebuffer, isProduction, buildRoutes, buildPatches. ends. Qed.

Lemma accelerator_ends : Ends hwMessages (processAccelerator findPattern mapLength index address size).
Proof.
  unfold processAccelerator, resetBringup, solveTrace, fillTraceSymbols, solveTraceSymbols, routeFirmware,
    routeTrace, routeOwned, patchAccelerator, set_bringup. ends.
Qed.
End facts.

(** *** Hooks left to WhateverGreen *)
Section coexist.
Context `{Platform}.
Context (findPattern : Z -> Z -> Z -> Z -> Z -> world -> option Z) (mapLength : Z -> Z).
Context (loadIndex : string -> Z) (index address size : Z).
Definition routeCall (h : hook) : string := "routeMultiple " +:+ h_symbol h.
Definition notOwned (e : event) : Prop :=
  match e with ECall f _ => f ∉ map routeCall ownedHooks | _ => True end.
Context `{!Benign (emits notOwned)}.
#[local] Instance notOwned_dumps : DumpSafe (emits notOwned).
Proof.
  split; [exact _| |intros; apply emits_set_g11|intros; apply emits_set_g11].
  intros r. apply respects_readReg32; [exact _| |]; intros; [by apply emits_ptr_read|by apply emits_ptr_write].
Qed.
(** A call whose name is known. *)
Ltac free := solve [apply emits_call; [exact _|]; apply (bool_decide_unpack _); vm_compute; exact I].
Hint Extern 1 (respects (emits notOwned) (call _ _)) => free : ng.
Lemma free_lookup p m n : respects (emits notOwned) (lookupPattern findPattern p m n address size).
Proof. unfold lookupPattern. respects_auto. Qed.
Hint Resolve free_lookup : ng.
Lemma free_solve r : respects (emits notOwned) (solve findPattern index address size r).
Proof. unfold solve. respects_auto. Qed.
Lemma free_apply p : respects (emits notOwned) (apply_patch address size p).
Proof. unfold apply_patch. respects_auto. Qed.
Lemma free_route h :
  routeCall h ∉ map routeCall ownedHooks -> respects (emits notOwned) (route findPattern index address size (routeOf h)).
Proof. intros Hh. unfold route. respects_auto. Qed.
Lemma free_whileOk {A B} (f : A -> M bool) (g : B -> A) rs :
  (forall r, r ∈ rs -> respects (emits notOwned) (f (g r))) -> respects (emits notOwned) (whileOk f (map g rs)).
Proof.
  induction rs as [|r rs IH]; intros Hf; simpl; respects_auto; [apply Hf; left|].
  apply IH. intros x Hx. apply Hf. by right.
Qed.
Lemma free_routes hs :
  Forall (fun h => routeCall h ∉ map routeCall ownedHooks) hs ->
  respects (emits notOwned) (routes findPattern index address size hs).
Proof. intros Hh. apply free_whileOk. intros h Hi. apply free_route. by eapply Forall_forall in Hh. Qed.
Lemma free_solves rs : respects (emits notOwned) (solves findPattern index address size rs).
Proof. apply free_whileOk. intros [s o] _. apply free_solve. Qed.
Lemma free_applies ps : respects (emits notOwned) (applies address size ps).
Proof. apply free_whileOk. intros p _. apply free_apply. Qed.
Lemma free_require m msg : respects (emits notOwned) m -> respects (emits notOwned) (require m msg).
Proof. intros Hm. unfold require. respects_auto; done. Qed.
Hint Resolve free_solve free_apply free_solves free_applies free_require : ng.
Hint Extern 1 (respects _ (routes _ _ _ _ _)) =>
  apply free_routes; apply (bool_decide_unpack _); vm_compute; exact I : ng.
Lemma free_traceRoutes : Forall (fun h => routeCall h ∉ map routeCall ownedHooks) KextHW.traceRoutes.
Proof. apply (bool_decide_unpack _). vm_compute. exact I. Qed.
Lemma free_accelerator :
  isWEGCoexistMode = true -> shouldForceFullMetalPath = false ->
  respects (emits notOwned) (processAccelerator findPattern mapLength index address size).
Proof.
  intros Hc Hf. unfold processAccelerator, resetBringup, Plugin.setRMMIOIfNecessary, solveTrace, fillTraceSymbols,
    solveTraceSymbols, routeFirmware, routeTrace, routeOwned, patchAccelerator. rewrite Hc, Hf. cbn [negb orb when].
  respects_auto. apply free_route. exact (proj1 (Forall_forall _ _) free_traceRoutes _ ltac:(eassumption)).
Qed.
Lemma free_framebuffer : respects (emits notOwned) (processFramebuffer findPattern mapLength index address size).
Proof.
  unfold processFramebuffer, Plugin.setRMMIOIfNecessary, isProduction, buildRoutes, buildPatches. respects_auto.
Qed.
Hint Resolve free_accelerator free_framebuffer : ng.

(** C24 (safety). In coexist mode, without forced full Metal, whatever kext is loaded, none
    of the functions WhateverGreen owns (force wake, GPU information, hardware
    capabilities) is routed. *)
Theorem coexist_leaves_weg_routes (w : world) :
  isWEGCoexistMode = true -> shouldForceFullMetalPath = false ->
  emits notOwned w (final (processKext findPattern mapLength loadIndex index address size w)).
Proof.
  intros Hc Hf. revert w. change (respects (emits notOwned) (processKext findPattern mapLength loadIndex index address size)).
  unfold processKext, patchAcceleratorFamily, patchBacklight, routeMccs, gen11ProcessKext. respects_auto.
Qed.
End coexist.

(** *** Symbols solved for the trace *)
Section trace.
Context `{Platform} `{!Benign (keeps w_mem)}.
Context (findPattern : Z -> Z -> Z -> Z -> Z -> world -> option Z) (index address size : Z).
(** The 25 symbols solved for the engine trace land in a local array: a member that
    initialises an entry (or any memory outside the array) is as it was. *)
Lemma trace_symbols_discarded a :
  a + 8 <= slotOf "traceSymbols" \/ slotOf "traceSymbols" + 600 <= a ->
  respects (keeps (fun w => load_le 8 a (w_mem w))) (solveTrace findPattern index address size).
Proof.
  intros Ha.
  assert (Hc : forall f args, respects (keeps (fun w => load_le 8 a (w_mem w))) (call f args)).
  { intros f args w. pose proof (keeps_call w_mem f args _ ltac:(done) w) as Hk. unfold keeps in *. by rewrite Hk. }
  assert (Hs : forall i v, (i < 25)%nat -> respects (keeps (fun w => load_le 8 a (w_mem w))) (store 8 (traceSlot i) v)).
  { intros i v Hi w. unfold keeps, traceSlot. cbn -[load_le store_le]. apply load_store_disjoint. lia. }
  assert (Hl : forall i e, (i, e) ∈ imap pair KextHW.traceSymbols -> (i < 25)%nat).
  { intros i e He. apply list_elem_of_lookup in He as [j Hj]. rewrite list_lookup_imap in Hj.
    destruct (KextHW.traceSymbols !! j) eqn:E; [|done]. apply lookup_lt_Some in E. simplify_eq/=. done. }
  unfold solveTrace, fillTraceSymbols, solveTraceSymbols, solve, lookupPattern. cbv zeta. respects_auto; eauto.
Qed.
End trace.

(** ** Evaluations *)
Import Sim.
(** A patcher that grants every request. *)
Definition granting (flags : list string) : Platform :=
  let p := sim_platform_with [] flags 1 in {|
  bootarg := @bootarg _ p; kernarg := @kernarg _ p; resolved := @resolved _ p; allocOk := @allocOk _ p;
  providerOf := @providerOf _ p; isClass := @isClass _ p; fromPath := @fromPath _ p;
  symbolAddr s := Z.of_nat (String.length s); bootstr := @bootstr _ p; clientsOf := @clientsOf _ p;
  pciConfig := @pciConfig _ p;
  original f args w := (if String.eqb f "getError" then 0 else 1, w)
|}.
Lemma granting_benign flags (R : relation world) `{!PreOrder R} : @Benign _ (granting flags) R.
Proof. intros f args w. reflexivity. Qed.
Definition kext_index (s : string) : Z :=
  if String.eqb s "kextG11FBT" then 1 else if String.eqb s "kextG11HWT" then 2 else 0.
Definition noPattern (p m n a sz : Z) (w : world) : option Z := None.
#[local] Abbreviation loadKext flags index :=
  (@gen11ProcessKext _ (granting flags) noPattern (fun _ => 0x1000000) kext_index index 0x8000 0x1000 (sim_world [])).

Lemma coexist_leaves_weg_routes_witness :
  emits notOwned (sim_world [])
    (final (@processKext _ (granting ["-nbwegcoex"]) noPattern (fun _ => 0x1000000) kext_index 2 0x8000 0x1000 (sim_world []))).
Proof.
  apply (@coexist_leaves_weg_routes _ (granting ["-nbwegcoex"])); [apply granting_benign; exact _|reflexivity|reflexivity].
Defined.
(** The same load without coexist mode routes them. *)
Example force_wake_routed :
  existsb (fun e => match e with ECall f _ => String.eqb f "routeMultiple __ZN16IntelAccelerator26SafeForceWakeMultithreadedEbjj" | _ => false end)
    (w_tr (final (loadKext [] 2))) = true.
Proof. by vm_compute. Qed.
(** A patcher that refuses everything. *)
Example refused_load_panics :
  match @gen11ProcessKext _ plat noPattern (fun _ => 0x1000000) kext_index 1 0x8000 0x1000 (sim_world []) with
  | Panicked msg _ => msg = "Failed to resolve symbols"
  | _ => False
  end.
Proof. by vm_compute. Qed.
End Kext.
