(* ===== verification/Load.v ===== *)
(** * What a kext load asks of the patcher (TGL.cpp, Gen11::processKext)

    The load of a graphics kext as an abstract plan: the requests it makes of Lilu's
    patcher, in order, each with the message of the panic its refusal causes or none when a
    refusal is ignored. The routing code of Kext.v is shown to follow the plan of the build
    and mode it finds: it makes these requests and no others, and stops at the first
    mandatory one that is refused. *)
From S2P Require Import Prelude Machine Memory Sim Mmio BootArgs Trace Frame Plugin Patcher KextFB KextHW Kext.
Import Mmio BootArgs Trace Patcher Kext.

Module Load.
(** ** Plans *)
Inductive request :=
  | RSolve (r : SolveRequestPlus)
  | RRoute (h : hook)
  | RPatch (p : bytePatch).
Definition plan : Type := list (request * option string).
Definition must (msg : string) (rs : list request) : plan := map (fun r => (r, Some msg)) rs.
Definition may (rs : list request) : plan := map (fun r => (r, None)) rs.

(** A run of a plan: the answers given so far, and the message it stopped with. *)
Inductive obeys : plan -> list (request * bool) -> option string -> Prop :=
  | obeys_end : obeys [] [] None
  | obeys_granted r o p l v : obeys p l v -> obeys ((r, o) :: p) ((r, true) :: l) v
  | obeys_waived r p l v : obeys p l v -> obeys ((r, None) :: p) ((r, false) :: l) v
  | obeys_refused r msg p : obeys ((r, Some msg) :: p) [(r, false)] (Some msg).

Section plans.
Context `{Platform}.
Definition solving (rs : list (string * string)) : list request := map (fun '(s, o) => RSolve (solveOf s o)) rs.
(** The framebuffer: [probe] is the reference probe patch. *)
Definition fbPlan (isprod probe : bool) : plan :=
  must "Failed to resolve symbols" (solving (cdClockSymbol isprod)) ++
  must "Failed to route dp symbols" (map RRoute KextFB.routes) ++
  (if isprod then
     must "Failed to route p symbols" (map RRoute KextFB.prodRoutes) ++
     must "kextG11FBT Failed to apply production patches!" (map RPatch KextFB.patchesp)
   else
     must "Failed to route d symbols" (map RRoute KextFB.dbgRoutes) ++
     must "kextG11FBT Failed to apply dbg patches!" (map RPatch KextFB.patches) ++
     (if probe then must "kextG11FBT Failed to apply reference f2 probe patch!" (map RPatch KextFB.probeF2Patch)
      else [])).
(** The entries of the local array of trace symbols. *)
Definition traceRequests : list request :=
  map (fun '(i, (s, _)) => RSolve (mkSolve s (traceSlot i) 0 0 0)) (imap pair KextHW.traceSymbols).
Definition isProbe (h : hook) : Prop := h_to h = "probe".
(** The accelerator: traced, traced by engine, owning WhateverGreen's hooks, on a real
    Tiger Lake, with the accelerator's probe hooked. *)
Definition hwPlan (traced engines owned tgl probe : bool) : plan :=
  must "Failed to resolve display machine symbols (TGL)" (solving KextHW.displaySymbols) ++
  (if engines then may traceRequests else []) ++
  must "Failed to route symbols"
    (map RRoute (if probe then KextHW.routes else filter (fun h => ~ isProbe h) KextHW.routes)) ++
  must "Failed to resolve IGHardwareGuC::initSchedControl symbol"
    [RSolve (solveOf "__ZN13IGHardwareGuC16initSchedControlEv" "schedControlAddr")] ++
  must "Failed to route GuC firmware/scheduler symbols" (map RRoute KextHW.firmwareRoute) ++
  must "Failed to route TGL ring/context policy symbols" (map RRoute KextHW.policyRoutes) ++
  (if traced then must "Failed to route TGL bring-up trace symbols" (map RRoute KextHW.bringupTraceRoutes) else []) ++
  must "Failed to route IGScheduler5 policy symbols" (map RRoute KextHW.schedulerPolicyRoutes) ++
  (if engines then may (map RRoute KextHW.traceRoutes) else []) ++
  (if owned then
     must "Failed to route coexist-off symbols" (map RRoute KextHW.coexistOffRoutes) ++
     must "Failed to route GPU info/caps symbols" (map RRoute KextHW.gpuInfoRoute)
   else []) ++
  must "kextG11HWT Failed to apply base patches!" (map RPatch KextHW.patchesAlways) ++
  (if tgl then []
   else must "kextG11HWT Failed to apply RPL-specific patches!" (map RPatch KextHW.patchesRPL) ++
        may [RPatch KextHW.patchRPLDevstartLong]).
End plans.

(** ** The requests in the trace *)
Definition isRequest (e : event) : bool :=
  match e with
  | ECall f _ => String.prefix "solveSymbol " f || String.prefix "routeMultiple " f || String.eqb f "routeFunction"
                 || String.eqb f "applyLookupPatch" || String.eqb f "findAndReplaceWithMask"
  | _ => false
  end.
(** The symbols routed, the last one first. *)
Definition routeOfEvent (e : event) : option string :=
  match e with ECall f _ => if String.prefix "routeMultiple " f then Some f else None | _ => None end.
Definition routesOf : list event -> list string := omap routeOfEvent.
Definition routeOfRequest (r : request) : option string :=
  match r with RRoute h => Some (routeCall h) | _ => None end.

Definition panicOf `{Hardware} {A} (o : outcome A) : option string :=
  match o with Panicked msg _ => Some msg | _ => None end.

(** ** Facts *)
(** *** Plans *)
Lemma obeys_app p1 p2 l1 l2 v : obeys p1 l1 None -> obeys p2 l2 v -> obeys (p1 ++ p2) (l1 ++ l2) v.
Proof. intros H1 H2. remember None eqn:E. induction H1; simplify_eq/=; [done|constructor; auto..]. Qed.
Lemma obeys_stop p1 p2 l msg : obeys p1 l (Some msg) -> obeys (p1 ++ p2) l (Some msg).
Proof. intros H1. remember (Some msg) eqn:E. induction H1; simplify_eq/=; constructor; auto. Qed.
(** The requests made are the first ones of the plan. *)
Lemma obeys_prefix p l v : obeys p l v -> exists rest, map fst p = map fst l ++ rest.
Proof. induction 1 as [|? ? ? ? ? _ [rest E]|? ? ? ? _ [rest E]|]; simpl; [by exists []|exists rest; by f_equal..|by eexists]. Qed.

(** *** Moving through a load *)
Section facts.
Context `{Platform}.
Context (findPattern : Z -> Z -> Z -> Z -> Z -> world -> option Z) (mapLength : Z -> Z).
Context (loadIndex : string -> Z) (index address size : Z).

Definition ask (r : request) : M bool :=
  match r with
  | RSolve s => solve findPattern index address size s
  | RRoute h => route findPattern index address size (routeOf h)
  | RPatch p => apply_patch address size (patchOf p)
  end.
(** The trace grows by events of [P], the platform stays what it is, and a kext that was
    seen stays seen. *)
Definition moving (P : event -> Prop) : relation world := fun w w' =>
  emits P w w' /\ isRealTGL (w_ng w') = isRealTGL (w_ng w) /\
  (tglFBLoaded (w_g11 w) = true -> tglFBLoaded (w_g11 w') = true) /\
  (tglHWLoaded (w_g11 w) = true -> tglHWLoaded (w_g11 w') = true).
#[export] Instance moving_preorder P : PreOrder (moving P).
Proof.
  split.
  - intros w. split; [reflexivity|auto].
  - intros w1 w2 w3 (E1 & T1 & F1 & H1) (E2 & T2 & F2 & H2).
    split; [by etrans|]. split; [congruence|auto].
Qed.
Definition silent (e : event) : Prop := isRequest e = false.
(** Nothing is asked of the patcher. *)
Definition quiet : relation world := moving silent.
Lemma moving_weaken (P Q : event -> Prop) w w' : (forall e, P e -> Q e) -> moving P w w' -> moving Q w w'.
Proof. intros HPQ ((tr & E & F) & R). split; [|done]. exists tr. split; [done|]. by eapply Forall_impl. Qed.

(** Between two worlds these requests, and no others, were made and so answered. *)
Inductive answered : list (request * bool) -> relation world :=
  | answered_nil w w' : quiet w w' -> answered [] w w'
  | answered_cons r b l w wa wb w' :
      quiet w wa -> ask r wa = Done b wb -> answered l wb w' -> answered ((r, b) :: l) w w'.
Lemma answered_pre l w1 w2 w3 : quiet w1 w2 -> answered l w2 w3 -> answered l w1 w3.
Proof. intros Q A. inversion A; simplify_eq; [constructor; by etrans|econstructor; [by etrans|done..]]. Qed.
Lemma answered_app l1 l2 w1 w2 w3 : answered l1 w1 w2 -> answered l2 w2 w3 -> answered (l1 ++ l2) w1 w3.
Proof. intros A1 A2. induction A1; simpl; [by eapply answered_pre|econstructor; eauto]. Qed.

Section moves.
Context (P : event -> Prop) `{!Benign (moving P)} (uncalled : forall e, silent e -> P e).
Lemma moving_same w w' e :
  w_tr w' = e ++ w_tr w -> Forall P e -> isRealTGL (w_ng w') = isRealTGL (w_ng w) ->
  tglFBLoaded (w_g11 w') = tglFBLoaded (w_g11 w) -> tglHWLoaded (w_g11 w') = tglHWLoaded (w_g11 w) ->
  moving P w w'.
Proof. intros Et He En Ef Eh. split; [by exists e|]. rewrite En, Ef, Eh. auto. Qed.
Lemma moving_ptr_read i : respects (moving P) (ptr_read i).
Proof.
  intros w. unfold ptr_read. destruct (mmio_read _ _).
  eapply (moving_same _ _ [_]); [done|by apply Forall_singleton, uncalled|done..].
Qed.
Lemma moving_ptr_write i v : respects (moving P) (ptr_write i v).
Proof. intros w. eapply (moving_same _ _ [_]); [done|by apply Forall_singleton, uncalled|done..]. Qed.
Lemma moving_store n a v : respects (moving P) (store n a v).
Proof. intros w. by apply (moving_same _ _ []). Qed.
Lemma moving_call f args : P (ECall f args) -> respects (moving P) (call f args).
Proof.
  intros HP w. unfold call. pose proof (benign (R := moving P) f args (emit (ECall f args) w)) as Hb.
  destruct (original _ _ _) as [r w']. simpl in *. etrans; [|exact Hb].
  apply (moving_same _ _ [ECall f args]); [done|by apply Forall_singleton|done..].
Qed.
Lemma moving_set_g11 f :
  (forall g, tglFBLoaded g = true -> tglFBLoaded (f g) = true) ->
  (forall g, tglHWLoaded g = true -> tglHWLoaded (f g) = true) -> respects (moving P) (set_g11 f).
Proof. intros Hf Hh w. split; [by apply emits_silent|]. split; [done|]. split; [apply Hf|apply Hh]. Qed.
Lemma moving_set_ng f : (forall n, isRealTGL (f n) = isRealTGL n) -> respects (moving P) (set_ng f).
Proof. intros Hf w. split; [by apply emits_silent|]. split; [apply Hf|auto]. Qed.
Lemma moving_dumps : DumpSafe (moving P).
Proof.
  split; [exact _| |intros; by apply moving_set_g11|intros; by apply moving_set_g11].
  intros r. apply respects_readReg32; [exact _|exact moving_ptr_read|exact moving_ptr_write].
Qed.
Lemma moving_setRMMIO : respects (moving P) (Plugin.setRMMIOIfNecessary mapLength).
Proof.
  unfold Plugin.setRMMIOIfNecessary.
  respects_auto; first [by apply moving_set_ng | by apply moving_call, uncalled].
Qed.
Lemma moving_resetBringup : respects (moving P) resetBringup.
Proof. unfold resetBringup. pose proof moving_dumps. respects_auto. Qed.
End moves.

(** *** Following a plan *)
Context `{!Benign quiet}.
#[local] Instance loading_benign : Benign (moving (fun _ => True)).
Proof. intros f args w. apply (moving_weaken silent); [done|]. apply (benign (R := quiet)). Qed.
Lemma asking r : respects (moving (fun _ => True)) (ask r).
Proof.
  assert (Hc : forall f args, respects (moving (fun _ => True)) (call f args)) by (intros; by apply (moving_call (fun _ => True))).
  assert (Hs : forall n a v, respects (moving (fun _ => True)) (store n a v)) by (intros; apply (moving_store (fun _ => True))).
  destruct r; cbn [ask]; unfold solve, route, apply_patch, lookupPattern; respects_auto; auto.
Qed.
Lemma answered_moves l w w' : answered l w w' -> moving (fun _ => True) w w'.
Proof.
  induction 1 as [w w' Q|r b l w wa wb w' Q E _ IH]; [by eapply moving_weaken|].
  etrans; [by eapply moving_weaken|]. etrans; [|exact IH]. eapply respects_done; [|exact E]. apply asking.
Qed.
Lemma total_ask r : total (ask r).
Proof. destruct r; [apply total_solve|apply total_route|apply total_apply]. Qed.

(** On a platform [t], [m] makes the requests of [p]. *)
Definition Follows (t : bool) (p : plan) {A} (m : M A) : Prop := forall w, isRealTGL (w_ng w) = t ->
  exists l, answered l w (final (m w)) /\ obeys p l (panicOf (m w)) /\
    match m w with OutOfFuel _ => False | _ => True end.
Lemma Follows_bind t p1 p2 {A B} (m : M A) (k : A -> M B) :
  Follows t p1 m -> (forall a, Follows t p2 (k a)) -> Follows t (p1 ++ p2) (m ≫= k).
Proof.
  intros Hm Hk w Ht. destruct (Hm w Ht) as (l1 & A1 & O1 & E1). unfold mbind, M_bind.
  destruct (m w) as [a w1|msg w1|w1]; [|exists l1; split; [done|split; [by apply obeys_stop|done]]|done].
  destruct (Hk a w1) as (l2 & A2 & O2 & E2).
  { rewrite <-Ht. apply (answered_moves _ _ _ A1). }
  exists (l1 ++ l2). split; [by eapply answered_app|]. split; [by apply obeys_app|done].
Qed.
Lemma Follows_then t p {A B} (m : M A) (k : A -> M B) :
  Follows t [] m -> (forall a, Follows t p (k a)) -> Follows t p (m ≫= k).
Proof. apply Follows_bind. Qed.
Lemma Follows_tgl t p {B} (k : bool -> M B) : Follows t p (k t) -> Follows t p (ng isRealTGL ≫= k).
Proof. intros Hk w Ht. unfold mbind, M_bind, ng, gets. rewrite Ht. by apply Hk. Qed.
(** Code that asks nothing. *)
Lemma Follows_quiet t {A} (m : M A) : total m -> respects quiet m -> Follows t [] m.
Proof.
  intros Hm Hq w _. specialize (Hq w). destruct (Hm w) as (a & w' & E). rewrite E in *.
  exists []. split; [by constructor|]. split; [constructor|done].
Qed.
Lemma Follows_when t (b : bool) p (m : M unit) : Follows t p m -> Follows t (if b then p else []) (when b m).
Proof. intros Hm. destruct b; [done|]. apply Follows_quiet; [apply total_ret|]. apply (respects_ret quiet). Qed.
Lemma Follows_ask t r o (k : bool -> M unit) p :
  (Follows t p (k true)) -> (match o with None => Follows t p (k false) | Some msg => k false = panic msg end) ->
  Follows t ((r, o) :: p) (ask r ≫= k).
Proof.
  intros Hk Hn w Ht. unfold mbind, M_bind. destruct (total_ask r w) as (b & w1 & E). rewrite E.
  assert (Ht' : isRealTGL (w_ng w1) = t).
  { rewrite <-Ht. apply (respects_done _ _ _ _ _ (asking r) E). }
  destruct b.
  - destruct (Hk w1 Ht') as (l & A & O & F). exists ((r, true) :: l).
    split; [by econstructor|]. split; [by constructor|done].
  - destruct o as [msg|].
    + rewrite Hn. exists [(r, false)]. split; [|split; [constructor|done]].
      econstructor; [reflexivity|exact E|constructor; reflexivity].
    + destruct (Hn w1 Ht') as (l & A & O & F). exists ((r, false) :: l).
      split; [by econstructor|]. split; [by constructor|done].
Qed.
Lemma Follows_ext t p {A} (m m' : M A) : (forall w, m w = m' w) -> Follows t p m -> Follows t p m'.
Proof. intros E Hm w Ht. rewrite <-E. by apply Hm. Qed.
Lemma Follows_require t msg {A B} (f : A -> M bool) (g : B -> A) (q : B -> request) rs :
  (forall b, f (g b) = ask (q b)) -> Follows t (must msg (map q rs)) (require (whileOk f (map g rs)) msg).
Proof.
  intros Hq. induction rs as [|r rs IH]; cbn [map whileOk must].
  - apply Follows_quiet; [apply total_ret|]. apply (respects_ret quiet).
  - unfold require in *. eapply Follows_ext; [intros w; symmetry; apply bind_assoc|]. rewrite Hq.
    by apply Follows_ask.
Qed.
Lemma Follows_iter t {A} (f : A -> M unit) (q : A -> request) rs :
  (forall r, f r = (_ ← ask (q r); mret ())) -> Follows t (may (map q rs)) (iterM rs f).
Proof.
  intros Hq. induction rs as [|r rs IH]; cbn [map iterM may].
  - apply Follows_quiet; [apply total_ret|]. apply (respects_ret quiet).
  - rewrite Hq. eapply Follows_ext; [intros w; symmetry; apply bind_assoc|]. by apply Follows_ask.
Qed.
Lemma Follows_routes t msg hs :
  Follows t (must msg (map RRoute hs)) (require (routes findPattern index address size hs) msg).
Proof. by apply Follows_require. Qed.
Lemma Follows_applies t msg ps :
  Follows t (must msg (map RPatch ps)) (require (applies address size ps) msg).
Proof. by apply Follows_require. Qed.
Lemma Follows_solves t msg rs :
  Follows t (must msg (solving rs)) (require (solves findPattern index address size rs) msg).
Proof. apply Follows_require. by intros []. Qed.

(** *** The two loads *)
Ltac follows := repeat
  match goal with
  | |- Follows _ _ (require (routes _ _ _ _ _) _) => apply Follows_routes
  | |- Follows _ _ (require (applies _ _ _) _) => apply Follows_applies
  | |- Follows _ _ (require (solves _ _ _ _ _) _) => apply Follows_solves
  | |- Follows _ (_ ++ _) (mbind _ _) => apply Follows_bind; [|intros ?]
  | |- Follows _ (if ?b then _ else []) (when ?b _) => apply Follows_when
  end.
Ltac stage t := apply Follows_bind; [t|intros _].
Lemma quiet_call f args : silent (ECall f args) -> respects quiet (call f args).
Proof. apply moving_call. exact _. Qed.
Lemma Follows_end t {A} (a : A) : Follows t [] (mret a).
Proof. apply Follows_quiet; [apply total_ret|]. apply (respects_ret quiet). Qed.
Lemma fb_follows t isprod :
  Follows t (fbPlan isprod (isReferenceF2ProbeEnabled && negb t))
    (_ ← require (solves findPattern index address size (cdClockSymbol isprod)) "Failed to resolve symbols";
     _ ← require (routes findPattern index address size KextFB.routes) "Failed to route dp symbols";
     _ ← buildRoutes findPattern index address size isprod; _ ← buildPatches address size isprod; mret true).
Proof.
  unfold fbPlan, buildRoutes, buildPatches. follows. destruct isprod; cbn [app].
  - rewrite <-(app_nil_r (must "kextG11FBT Failed to apply production patches!" _)). follows. apply Follows_end.
  - apply Follows_bind; [follows|intros _].
    rewrite <-(app_nil_r (must "kextG11FBT Failed to apply dbg patches!" _ ++ _)).
    apply Follows_bind; [follows|intros _; apply Follows_end]. apply Follows_tgl. destruct (_ && _); follows. apply Follows_end.
Qed.
Lemma solveTrace_follows t :
  Follows t (if isRcsEngineTraceEnabled then may traceRequests else []) (solveTrace findPattern index address size).
Proof.
  unfold solveTrace. apply Follows_when. cbv zeta. apply Follows_then; [|intros _].
  - unfold fillTraceSymbols. apply Follows_quiet; [total_auto|]. pose proof (moving_store silent). respects_auto; auto.
  - unfold solveTraceSymbols, traceRequests. apply Follows_iter. by intros [i [s o]].
Qed.
Lemma routeTrace_follows t :
  Follows t (if isRcsEngineTraceEnabled then may (map RRoute KextHW.traceRoutes) else [])
    (routeTrace findPattern index address size).
Proof. unfold routeTrace. apply Follows_when, Follows_iter. done. Qed.
Lemma routeFirmware_follows t :
  Follows t (must "Failed to resolve IGHardwareGuC::initSchedControl symbol"
               [RSolve (solveOf "__ZN13IGHardwareGuC16initSchedControlEv" "schedControlAddr")] ++
             must "Failed to route GuC firmware/scheduler symbols" (map RRoute KextHW.firmwareRoute))
    (routeFirmware findPattern index address size).
Proof.
  unfold routeFirmware. apply Follows_then; [|intros _].
  - apply Follows_quiet; [total_auto|]. apply (moving_store silent).
  - follows. cbn [must map]. unfold require. rewrite <-(app_nil_r [_]). apply Follows_ask; [apply Follows_end|done].
Qed.
Lemma hw_follows t :
  Follows t (hwPlan isTglTraceEnabled isRcsEngineTraceEnabled (negb isWEGCoexistMode || shouldForceFullMetalPath) t true)
    (_ ← require (solves findPattern index address size KextHW.displaySymbols)
           "Failed to resolve display machine symbols (TGL)";
     _ ← solveTrace findPattern index address size;
     _ ← require (routes findPattern index address size KextHW.routes) "Failed to route symbols";
     _ ← routeFirmware findPattern index address size;
     _ ← require (routes findPattern index address size KextHW.policyRoutes)
           "Failed to route TGL ring/context policy symbols";
     _ ← when isTglTraceEnabled
           (require (routes findPattern index address size KextHW.bringupTraceRoutes)
              "Failed to route TGL bring-up trace symbols");
     _ ← require (routes findPattern index address size KextHW.schedulerPolicyRoutes)
           "Failed to route IGScheduler5 policy symbols";
     _ ← routeTrace findPattern index address size;
     _ ← routeOwned findPattern index address size;
     _ ← patchAccelerator address size; mret true).
Proof.
  unfold hwPlan. stage follows. stage ltac:(apply solveTrace_follows). stage follows.
  rewrite (app_assoc (must "Failed to resolve IGHardwareGuC::initSchedControl symbol" _)).
  stage ltac:(apply routeFirmware_follows). do 3 stage follows. stage ltac:(apply routeTrace_follows).
  stage ltac:(unfold routeOwned; follows).
  rewrite <-(app_nil_r (must "kextG11HWT Failed to apply base patches!" _ ++ _)).
  stage ltac:(unfold patchAccelerator; follows; apply Follows_tgl); [|apply Follows_end].
  destruct t; cbn [negb when]; follows; [apply Follows_end|]. apply Follows_ask; apply Follows_end.
Qed.

Lemma setRMMIO_ends w :
  match Plugin.setRMMIOIfNecessary mapLength w with
  | Done _ _ => True
  | Panicked msg w' => msg = "null IOMemoryMap" /\ rmmio (w_ng w') = None
  | OutOfFuel _ => False
  end.
Proof.
  unfold Plugin.setRMMIOIfNecessary, ng, gets, mbind, M_bind. destruct (negb (truthy (iGPU _))); [done|].
  destruct (match rmmio _ with Some _ => _ | None => _ end); [|done].
  destruct (total_call "mapDeviceMemoryWithRegister" [iGPU (w_ng w); 0x10] w) as (r & w1 & ->).
  destruct (negb (truthy r)); [done|]. cbn.
  match goal with |- context [call ?f ?a ?w] => by destruct (total_call f a w) as (? & ? & ->) end.
Qed.
(** Loading [kext] ended: not in a loop, and with [seen] set when it returned. *)
Definition ended (seen : Gen11 -> bool) (o : outcome bool) : Prop :=
  match o with Done b w' => b = true /\ seen (w_g11 w') = true | Panicked _ _ => True | OutOfFuel _ => False end.
(** The registers could not be mapped, before anything was asked. *)
Definition unmapped (w : world) (o : outcome bool) : Prop :=
  panicOf o = Some "null IOMemoryMap" /\ rmmio (w_ng (final o)) = None /\ quiet w (final o).
Lemma mapped_then (k : M bool) w :
  unmapped w ((_ ← Plugin.setRMMIOIfNecessary mapLength; k) w) \/
  exists w1, quiet w w1 /\ (_ ← Plugin.setRMMIOIfNecessary mapLength; k) w = k w1.
Proof.
  pose proof (setRMMIO_ends w) as He. pose proof (moving_setRMMIO silent ltac:(done) w) as Q.
  unfold mbind, M_bind. destruct (Plugin.setRMMIOIfNecessary mapLength w) as [[] w1|msg w1|w1]; [|left|done].
  - right. by exists w1.
  - destruct He as [-> Hr]. by split.
Qed.
Lemma unmapped_pre w w1 o : quiet w w1 -> unmapped w1 o -> unmapped w o.
Proof. intros Q (E & R & Q'). split; [done|]. split; [done|by etrans]. Qed.
Lemma unmapped_ended seen w o : unmapped w o -> ended seen o.
Proof. intros (E & _). by destruct o. Qed.
Lemma bind_run {A B} (m : M A) (k : A -> M B) w a w' : m w = Done a w' -> (m ≫= k) w = k a w'.
Proof. intros E. unfold mbind, M_bind. by rewrite E. Qed.
Lemma ended_follows (seen : Gen11 -> bool) l w (o : outcome bool) :
  seen = tglFBLoaded \/ seen = tglHWLoaded -> seen (w_g11 w) = true -> answered l w (final o) ->
  match o with OutOfFuel _ => False | Done b _ => b = true | _ => True end -> ended seen o.
Proof.
  intros Hs L A F. pose proof (answered_moves _ _ _ A) as (_ & _ & M1 & M2).
  destruct o; [|done..]. split; [done|]. destruct Hs as [-> | ->]; auto.
Qed.
Lemma isProduction_moves w isprod w' :
  isProduction index address size w = Done isprod w' -> moving (fun _ => True) w w'.
Proof.
  apply respects_done. unfold isProduction. apply respects_bind; [exact _|by apply (moving_call (fun _ => True))|].
  intros a. apply respects_ret; exact _.
Qed.

Lemma framebuffer_load (w : world) :
  loadIndex "kextG11FBT" = index ->
  let o := gen11ProcessKext findPattern mapLength loadIndex index address size w in
  ended tglFBLoaded o /\
  (unmapped w o \/
   exists w1 isprod w2 l,
     quiet w w1 /\ isProduction index address size w1 = Done isprod w2 /\ answered l w2 (final o) /\
     obeys (fbPlan isprod (isReferenceF2ProbeEnabled && negb (isRealTGL (w_ng w)))) l (panicOf o)).
Proof.
  intros Hi o. subst o. unfold gen11ProcessKext. rewrite Hi, Z.eqb_refl. unfold processFramebuffer.
  set (w0 := w <| w_g11 ::= fun g => g <| tglFBLoaded := true |> |>).
  assert (Q0 : quiet w w0) by (split; [by apply emits_silent|by split]).
  match goal with |- context [(_ ← Plugin.setRMMIOIfNecessary mapLength; ?k)] => set (m := k) end.
  change ((_ ← set_g11 (fun g => g <| tglFBLoaded := true |>); _ ← Plugin.setRMMIOIfNecessary mapLength; m) w)
    with ((_ ← Plugin.setRMMIOIfNecessary mapLength; m) w0).
  destruct (mapped_then m w0) as [U|(w1 & Q1 & ->)].
  { split; [by eapply unmapped_ended|left; by eapply unmapped_pre]. }
  assert (Hp : total (isProduction index address size)) by (unfold isProduction; total_auto).
  destruct (Hp w1) as (isprod & w2 & Ep). pose proof (isProduction_moves _ _ _ Ep) as M2.
  destruct (fb_follows (isRealTGL (w_ng w)) isprod w2) as (l & A & O & F).
  { rewrite (proj1 (proj2 M2)), (proj1 (proj2 Q1)). apply Q0. }
  unfold m. rewrite (bind_run _ _ _ _ _ Ep).
  split; [|right; exists w1, isprod, w2, l; split; [by etrans|done]].
  apply (ended_follows _ l w2); [by left|by apply M2, Q1|done|].
  match goal with |- match ?o with Done _ _ => _ | _ => _ end => destruct o eqn:E end; [by inv_done|done..].
Qed.
(** C19 (refinement). Loading the framebuffer kext follows its plan: it ends, and unless the
    registers cannot be mapped (a panic before anything is asked) it tells the build apart
    and then makes exactly the requests of the plan for that build, in order (the clock
    symbol, the common hooks, the hooks of the build, its patches, and the reference probe
    patch when it is enabled on a debug build of another platform than Tiger Lake). When
    all are granted it returns and the load is recorded; at the first one that is refused
    it asks nothing more and panics with the message of that request. Assumed of Lilu and
    I/O Kit: their functions return, and make no request, change no platform flag and
    forget no load of their own. *)
Theorem framebuffer_load_complete (w : world) :
  loadIndex "kextG11FBT" = index ->
  let o := gen11ProcessKext findPattern mapLength loadIndex index address size w in
  ended tglFBLoaded o /\
  (unmapped w o \/
   exists w1 isprod w2 l,
     quiet w w1 /\ isProduction index address size w1 = Done isprod w2 /\ answered l w2 (final o) /\
     obeys (fbPlan isprod (isReferenceF2ProbeEnabled && negb (isRealTGL (w_ng w)))) l (panicOf o)).
Proof. exact (framebuffer_load w). Qed.

Lemma accelerator_load w :
  loadIndex "kextG11FBT" <> index -> loadIndex "kextG11HWT" = index ->
  let o := gen11ProcessKext findPattern mapLength loadIndex index address size w in
  ended tglHWLoaded o /\
  (unmapped w o \/
   exists w1 l, quiet w w1 /\ answered l w1 (final o) /\
     obeys (hwPlan isTglTraceEnabled isRcsEngineTraceEnabled (negb isWEGCoexistMode || shouldForceFullMetalPath)
              (isRealTGL (w_ng w)) true) l (panicOf o)).
Proof.
  intros Hn Hi o. subst o. unfold gen11ProcessKext. rewrite (proj2 (Z.eqb_neq _ _) Hn), Hi, Z.eqb_refl.
  unfold processAccelerator. assert (Hr : total resetBringup) by (unfold resetBringup, set_bringup; total_auto).
  destruct (Hr w) as ([] & wr & Er). rewrite (bind_run _ _ _ _ _ Er).
  assert (Qr : quiet w wr) by (eapply respects_done; [by apply (moving_resetBringup silent)|done]).
  set (w0 := wr <| w_g11 ::= fun g => g <| tglHWLoaded := true |> |>).
  assert (Q0 : quiet w w0) by (etrans; [exact Qr|]; split; [by apply emits_silent|by split]).
  match goal with |- context [(_ ← Plugin.setRMMIOIfNecessary mapLength; ?k)] => set (m := k) end.
  change ((_ ← set_g11 (fun g => g <| tglHWLoaded := true |>); _ ← Plugin.setRMMIOIfNecessary mapLength; m) wr)
    with ((_ ← Plugin.setRMMIOIfNecessary mapLength; m) w0).
  destruct (mapped_then m w0) as [U|(w1 & Q1 & ->)].
  { split; [by eapply unmapped_ended|left; by eapply unmapped_pre]. }
  destruct (hw_follows (isRealTGL (w_ng w)) w1) as (l & A & O & F).
  { rewrite (proj1 (proj2 Q1)). apply Q0. }
  unfold m. split; [|right; exists w1, l; split; [by etrans|done]].
  apply (ended_follows _ l w1); [by right|by apply Q1|done|].
  match goal with |- match ?o with Done _ _ => _ | _ => _ end => destruct o eqn:E end; [by inv_done|done..].
Qed.

(** C20 (refinement). Loading the accelerator kext follows its plan: it ends, and unless the
    registers cannot be mapped (a panic before anything is asked) it makes exactly the
    requests of the plan for its mode, in order: the display-machine symbols, the common
    hooks, the firmware, engine and scheduler hooks, and the patches; the bring-up hook
    exactly when traced, the trace symbols and trace hooks exactly when the engine trace is
    on, the force-wake and GPU-information hooks exactly when WhateverGreen does not own
    them or full Metal is forced, the Raptor Lake patches exactly when the GPU is not a
    real Tiger Lake. When every mandatory request is granted it returns and the load is
    recorded; at the first one that is refused it asks nothing more and panics with the
    message of that request. Whether the accelerator's probe is among the common hooks is
    left open. Assumed of Lilu and I/O Kit: their functions return, and make no request,
    change no platform flag and forget no load of their own. *)
Theorem accelerator_load_complete (w : world) :
  loadIndex "kextG11FBT" <> index -> loadIndex "kextG11HWT" = index ->
  let o := gen11ProcessKext findPattern mapLength loadIndex index address size w in
  ended tglHWLoaded o /\
  (unmapped w o \/
   exists probe w1 l, quiet w w1 /\ answered l w1 (final o) /\
     obeys (hwPlan isTglTraceEnabled isRcsEngineTraceEnabled (negb isWEGCoexistMode || shouldForceFullMetalPath)
              (isRealTGL (w_ng w)) probe) l (panicOf o)).
Proof.
  intros Hn Hi. destruct (accelerator_load w Hn Hi) as (He & [U|R]); (split; [done|]); [by left|right].
  by exists true.
Qed.

(** *** The routes of a load *)
Definition unrouted (e : event) : Prop := routeOfEvent e = None.
Definition routing (l : list string) : relation world := fun w w' =>
  exists tr, w_tr w' = tr ++ w_tr w /\ routesOf tr = reverse l.
Lemma routing_app l1 l2 w1 w2 w3 : routing l1 w1 w2 -> routing l2 w2 w3 -> routing (l1 ++ l2) w1 w3.
Proof.
  intros (t1 & E1 & R1) (t2 & E2 & R2). exists (t2 ++ t1). rewrite E2, E1, app_assoc. split; [done|].
  unfold routesOf in *. by rewrite omap_app, R1, R2, reverse_app.
Qed.
Lemma routesOf_unrouted tr : Forall unrouted tr -> routesOf tr = [].
Proof. induction 1 as [|e tr He _ IH]; [done|]. unfold unrouted in He. cbn. by rewrite He. Qed.
Lemma routing_nil w w' : moving unrouted w w' -> routing [] w w'.
Proof.
  intros ((tr & E & F) & _). exists tr. split; [done|]. by apply routesOf_unrouted.
Qed.
Lemma silent_unrouted e : silent e -> unrouted e.
Proof.
  unfold silent, unrouted. destruct e; try done. cbn [isRequest routeOfEvent].
  destruct (String.prefix "routeMultiple " _); [|done]. by rewrite orb_true_r.
Qed.
Lemma quiet_routing w w' : quiet w w' -> routing [] w w'.
Proof. intros Q. apply routing_nil. by eapply moving_weaken; [apply silent_unrouted|]. Qed.
#[local] Instance unrouted_benign : Benign (moving unrouted).
Proof. intros f args w. apply (moving_weaken silent); [apply silent_unrouted|]. apply (benign (R := quiet)). Qed.
Lemma free_call f args : String.prefix "routeMultiple " f = false -> respects (moving unrouted) (call f args).
Proof. intros E. apply moving_call; [exact _|]. unfold unrouted. cbn. by rewrite E. Qed.
Lemma free_store n a v : respects (moving unrouted) (store n a v).
Proof. apply moving_store. Qed.
Lemma prefix_app p s : String.prefix p (p +:+ s) = true.
Proof.
  induction p as [|c p IH]; [by destruct s|].
  change (String c p +:+ s) with (String c (p +:+ s)). cbn [String.prefix].
  by destruct (Ascii.ascii_dec c c).
Qed.
Lemma call_routing f args w v w' :
  String.prefix "routeMultiple " f = true -> call f args w = Done v w' -> routing [f] w w'.
Proof.
  intros Hf E. unfold call in E.
  pose proof (benign (R := quiet) f args (emit (ECall f args) w)) as ((tr & Et & F) & _).
  destruct (original _ _ _) as [r w1]. simplify_eq/=. exists (tr ++ [ECall f args]). rewrite <-app_assoc.
  split; [done|]. unfold routesOf. rewrite omap_app. cbn. rewrite Hf. fold (routesOf tr).
  by rewrite routesOf_unrouted by (eapply Forall_impl; [exact F|apply silent_unrouted]).
Qed.
Ltac free := respects_auto; solve [apply free_store | apply free_call; reflexivity].
Lemma ask_routing r b w w' : ask r w = Done b w' -> routing (option_list (routeOfRequest r)) w w'.
Proof.
  destruct r as [s|h|p]; cbn [ask routeOfRequest option_list]; intros E.
  - apply routing_nil. revert E. apply respects_done. unfold solve, lookupPattern. free.
  - unfold route in E. apply bind_done in E as (v & w1 & E1%call_routing & E); [|apply prefix_app].
    apply (routing_app [_] [] _ w1); [exact E1|]. apply routing_nil. revert E. apply respects_done.
    unfold lookupPattern. free.
  - apply routing_nil. revert E. apply respects_done. unfold apply_patch. free.
Qed.
Lemma answered_routing l w w' : answered l w w' -> routing (omap routeOfRequest (map fst l)) w w'.
Proof.
  induction 1 as [w w' Q|r b l w wa wb w' Q E _ IH]; [by apply quiet_routing|].
  apply (routing_app [] _ _ _ _ (quiet_routing _ _ Q)).
  pose proof (routing_app _ _ _ _ _ (ask_routing _ _ _ _ E) IH) as R. cbn. by destruct (routeOfRequest r).
Qed.
Lemma isProduction_routing w isprod w' : isProduction index address size w = Done isprod w' -> routing [] w w'.
Proof. intros E. apply routing_nil. revert E. apply respects_done. unfold isProduction. free. Qed.
End facts.

Definition resumeCall : string := "routeMultiple __ZN26IGHardwareCommandStreamer516resumeSchedulingEv".
(** Routed once, but for the function the engine trace routes again. *)
Definition once (engines : bool) (l : list string) : Prop :=
  NoDup (if engines then filter (fun f => f <> resumeCall) l else l).
#[local] Instance once_dec engines l : Decision (once engines l).
Proof. unfold once. apply _. Defined.
Lemma once_app engines l1 l2 : once engines (l1 ++ l2) -> once engines l1.
Proof. unfold once. destruct engines; rewrite ?filter_app; apply NoDup_app. Qed.
Lemma once_reverse engines l : once engines l -> once engines (reverse l).
Proof.
  unfold once. destruct engines; [|by rewrite reverse_Permutation]. intros Hl.
  by rewrite (reverse_Permutation l).
Qed.
Section once.
Context `{Platform}.
Context (findPattern : Z -> Z -> Z -> Z -> Z -> world -> option Z) (mapLength : Z -> Z).
Context (loadIndex : string -> Z) (index address size : Z).
Context `{!Benign quiet}.
Definition planRoutes (rs : list request) : list string := omap routeOfRequest rs.
Lemma fb_once isprod probe engines : once engines (planRoutes (map fst (fbPlan isprod probe))).
Proof. apply (bool_decide_unpack _). destruct isprod, probe, engines; vm_compute; exact I. Qed.
Lemma hw_once traced engines owned tgl : once engines (planRoutes (map fst (hwPlan traced engines owned tgl true))).
Proof. apply (bool_decide_unpack _). destruct traced, engines, owned, tgl; vm_compute; exact I. Qed.
Lemma once_obeys engines p l v : once engines (planRoutes (map fst p)) -> obeys p l v -> once engines (planRoutes (map fst l)).
Proof.
  intros Ho [rest E]%obeys_prefix. unfold planRoutes in *. rewrite E, omap_app in Ho. by apply once_app in Ho.
Qed.
Lemma once_routing engines l w w' :
  once engines l -> routing l w w' -> exists tr, w_tr w' = tr ++ w_tr w /\ once engines (routesOf tr).
Proof. intros Ho (tr & E & Er). exists tr. rewrite Er. split; [done|]. by apply once_reverse. Qed.

(** C26 (safety). No two hooks fight over a function: in the load of a graphics kext, however
    it ends, no symbol is routed twice, but for [resumeScheduling] while the engine trace
    is on. Assumed of Lilu and I/O Kit: their functions make no request of their own. *)
Theorem hooks_routed_once (w : world) :
  exists tr,
    w_tr (final (gen11ProcessKext findPattern mapLength loadIndex index address size w)) = tr ++ w_tr w /\
    once isRcsEngineTraceEnabled (routesOf tr).
Proof.
  destruct (decide (loadIndex "kextG11FBT" = index)) as [Ef|Nf]; [|destruct (decide (loadIndex "kextG11HWT" = index)) as [Eh|Nh]].
  - destruct (framebuffer_load findPattern mapLength loadIndex index address size w Ef)
      as (_ & [(_ & _ & Q)|(w1 & isprod & w2 & l & Q & Ep & A & O)]).
    + apply (once_routing _ []); [apply (bool_decide_unpack _); by destruct isRcsEngineTraceEnabled|by apply quiet_routing].
    + eapply (once_routing _ (planRoutes (map fst l))).
      * eapply once_obeys; [|exact O]. apply fb_once.
      * apply (routing_app [] _ _ _ _ (quiet_routing _ _ Q)).
        apply (routing_app [] _ _ _ _ (isProduction_routing _ _ _ _ _ _ Ep)). by eapply answered_routing.
  - destruct (accelerator_load findPattern mapLength loadIndex index address size w Nf Eh)
      as (_ & [(_ & _ & Q)|(w1 & l & Q & A & O)]).
    + apply (once_routing _ []); [apply (bool_decide_unpack _); by destruct isRcsEngineTraceEnabled|by apply quiet_routing].
    + eapply (once_routing _ (planRoutes (map fst l))).
      * eapply once_obeys; [|exact O]. apply hw_once.
      * apply (routing_app [] _ _ _ _ (quiet_routing _ _ Q)). by eapply answered_routing.
  - exists []. unfold gen11ProcessKext. rewrite !(proj2 (Z.eqb_neq _ _)) by done. split; [done|].
    apply (bool_decide_unpack _). by destruct isRcsEngineTraceEnabled.
Qed.
End once.

(** ** Evaluations *)
Import Sim.
#[local] Abbreviation loadKext flags index :=
  (@gen11ProcessKext _ (granting flags) noPattern (fun _ => 0x1000000) kext_index index 0x8000 0x1000 (sim_world [])).
#[local] Instance granting_quiet flags : @Benign _ (granting flags) quiet.
Proof. apply granting_benign. exact _. Qed.

Lemma framebuffer_load_complete_witness :
  exists w', loadKext [] 1 = Done true w' /\ tglFBLoaded (w_g11 w') = true.
Proof.
  pose proof (@framebuffer_load_complete _ (granting []) noPattern (fun _ => 0x1000000) kext_index 1 0x8000 0x1000
    (granting_quiet _) (sim_world []) eq_refl) as (T & _).
  assert (V : value (loadKext [] 1) = Some true) by (vm_compute; reflexivity).
  destruct (gen11ProcessKext _ _ _ _ _ _ _) as [b w'| |]; [|discriminate V..]. destruct T as (Eb & F).
  exists w'. rewrite Eb. split; [reflexivity|exact F].
Defined.
Lemma accelerator_load_complete_witness :
  exists w', loadKext ["-nbwegcoex"] 2 = Done true w' /\ tglHWLoaded (w_g11 w') = true.
Proof.
  pose proof (@accelerator_load_complete _ (granting ["-nbwegcoex"]) noPattern (fun _ => 0x1000000) kext_index 2
    0x8000 0x1000 (granting_quiet _) (sim_world []) ltac:(discriminate) eq_refl) as (T & _).
  assert (V : value (loadKext ["-nbwegcoex"] 2) = Some true) by (vm_compute; reflexivity).
  destruct (gen11ProcessKext _ _ _ _ _ _ _) as [b w'| |]; [|discriminate V..].
  destruct T as (Eb & F). exists w'. rewrite Eb. split; [reflexivity|exact F].
Defined.
Lemma hooks_routed_once_witness :
  exists tr, w_tr (final (loadKext [] 2)) = tr ++ [] /\ NoDup (routesOf tr).
Proof.
  exact (@hooks_routed_once _ (granting []) noPattern (fun _ => 0x1000000) kext_index 2 0x8000 0x1000
    (granting_quiet _) (sim_world [])).
Defined.
(** With the engine trace on, one function is routed twice. *)
Example resume_routed_twice :
  length (filter (fun f => f = resumeCall) (routesOf (w_tr (final (loadKext ["-ngreen-rcsdeep"] 2))))) = 2%nat.
Proof. by vm_compute. Qed.
(** The accelerator's probe is hooked without any boot argument. *)
Example probe_always_hooked :
  existsb (fun f => String.eqb f "routeMultiple __ZN16IntelAccelerator5probeEP9IOServicePi")
    (routesOf (w_tr (final (loadKext [] 2)))) = true.
Proof. by vm_compute. Qed.
End Load.
