(* ===== verification/Hold.v ===== *)
(** * The last word on a register

    What the plugin leaves behind is stated on its own accesses, for any hardware: a register
    is [assured] a value when an access of it showed or wrote that value and the plugin
    neither wrote it again nor called the driver since. [holds J] relates worlds between
    which the registers [J] were not written: reads, writes of other registers and delays
    respect it, so the state a long sequence leaves is decided by the last access that
    matters. *)
From S2P Require Import Prelude Machine Regs Mmio BootArgs RegHooks Trace Frame Reset.
Import Regs Mmio Reset.

Section hold.
Context `{Platform}.

(** The registers are mapped, all those used here included. *)
Definition Live (w : world) : Prop :=
  exists len, rmmio (w_ng w) = Some len /\ rmmioPtr (w_ng w) = true /\ 0x200000 <= len < 2 ^ 64.
Lemma live_soft w w' : same_soft w w' -> Live w -> Live w'.
Proof. intros (Hn & _) (len & ?). exists len. by rewrite Hn. Qed.
Lemma live_mapped r w : Live w -> 0 <= r -> r + 4 <= 0x200000 -> mapped r w.
Proof. intros (len & Hr & Hp & Hl) ? ?. apply (mapped_below len); [done|done|lia..]. Qed.
Lemma rd r w : Live w -> 0 <= r -> r + 4 <= 0x200000 ->
  exists v w', readReg32 r w = Done v w' /\ same_soft w w' /\ w_tr w' = ERd (r .>> 2) v :: w_tr w.
Proof. intros Hl Hlo Hhi. apply read_mapped. by apply live_mapped. Qed.
Lemma wr r v w : Live w -> 0 <= r -> r + 4 <= 0x200000 -> looksLikePlaneSurf r = false ->
  exists w', writeReg32 r v w = Done () w' /\ same_soft w w' /\ w_tr w' = EWr (r .>> 2) (u32 v) :: w_tr w.
Proof. intros Hl Hlo Hhi Hs. apply write_run_mapped; [|done]. by apply live_mapped. Qed.

(** Neither a write of the register nor a call that leaves the plugin. *)
Definition spares (r : Z) (e : event) : Prop :=
  match e with EWr i _ => i <> r .>> 2 | ECall _ _ => False | _ => True end.
(** Since the trace [since], an access of the register had a value that satisfies [P], and the
    register has been spared from then on. *)
Definition assured (r : Z) (P : Z -> Prop) (tr since : list event) : Prop :=
  exists new v mid, Forall (spares r) new /\ P v /\
    (tr = new ++ EWr (r .>> 2) v :: mid ++ since \/ tr = new ++ ERd (r .>> 2) v :: mid ++ since).
Lemma assured_later r P w w' since :
  emits (spares r) w w' -> assured r P (w_tr w) since -> assured r P (w_tr w') since.
Proof.
  intros (n & T & Hn) (new & v & mid & Hs & Hv & E). exists (n ++ new), v, mid. rewrite T.
  split; [by apply Forall_app|]. split; [done|]. rewrite <-!app_assoc. destruct E as [-> | ->]; auto.
Qed.
Lemma assured_since r P tr since older new : since = new ++ older -> assured r P tr since -> assured r P tr older.
Proof.
  intros -> (n & v & mid & Hs & Hv & E). exists n, v, (mid ++ new). by rewrite <-app_assoc.
Qed.
Lemma assured_weaken r (P Q : Z -> Prop) tr since : (forall v, P v -> Q v) -> assured r P tr since -> assured r Q tr since.
Proof. intros HPQ (n & v & mid & Hs & Hv & E). exists n, v, mid. auto. Qed.
Lemma assured_now r (P : Z -> Prop) e v tr : P v -> e = EWr (r .>> 2) v \/ e = ERd (r .>> 2) v -> assured r P (e :: tr) tr.
Proof. intros Hv [-> | ->]; exists [], v, []; auto. Qed.

(** Register accesses and delays only; the registers [J] are not written. *)
Definition sparing (J : list Z) (e : event) : Prop :=
  match e with ERd _ _ | EDelay _ => True | EWr i _ => i ∉ map (fun j => j .>> 2) J | _ => False end.
Lemma sparing_spares J r e : r ∈ J -> sparing J e -> spares r e.
Proof.
  intros Hr. destruct e; try done. simpl. intros Hi ->. apply Hi. by apply (list_elem_of_fmap_2 (fun j => j .>> 2)).
Qed.
Definition holds (J : list Z) : relation world := fun w w' =>
  Live w -> same_soft w w' /\ emits (sparing J) w w'.
#[export] Instance holds_preorder J : PreOrder (holds J).
Proof.
  split; [intros w _; split; reflexivity|]. intros w1 w2 w3 H12 H23 Hl. destruct (H12 Hl) as [S1 E1].
  destruct (H23 (live_soft _ _ S1 Hl)) as [S2 E2]. split; by etrans.
Qed.
(** Accesses decided by computation. *)
Definition readable (r : Z) : bool := (0 <=? r) && (r + 4 <=? 0x200000).
Definition apartFrom (J : list Z) (r : Z) : bool :=
  readable r && negb (looksLikePlaneSurf r) && forallb (fun j => negb ((r .>> 2) =? (j .>> 2))) J.
Lemma readable_spec r : readable r = true -> 0 <= r /\ r + 4 <= 0x200000.
Proof. unfold readable. rewrite andb_true_iff, !Z.leb_le. done. Qed.

Context (J : list Z).
Lemma holds_read r : readable r = true -> respects (holds J) (readReg32 r).
Proof.
  intros [Hlo Hhi]%readable_spec w Hl. destruct (rd r w Hl Hlo Hhi) as (v & w' & -> & S & T). cbn [final].
  split; [done|]. by eapply emits_one.
Qed.
Lemma holds_write r v : apartFrom J r = true -> respects (holds J) (writeReg32 r v).
Proof.
  unfold apartFrom. rewrite !andb_true_iff, forallb_forall. intros [[[Hlo Hhi]%readable_spec Hs%negb_true_iff] Ha] w Hl.
  destruct (wr r v w Hl Hlo Hhi Hs) as (w' & -> & S & T). cbn [final]. split; [done|].
  eapply emits_one; [exact T|]. intros (j & Hj & Hin)%list_elem_of_fmap.
  specialize (Ha j (proj1 (list_elem_of_In _ _) Hin)). rewrite Hj, Z.eqb_refl in Ha. done.
Qed.
Lemma holds_pause ns : respects (holds J) (pause_ns ns).
Proof. intros w Hl. split; [done|]. by eapply emits_one. Qed.
Lemma holds_readLog l : forallb readable l = true -> respects (holds J) (readLog l).
Proof.
  rewrite forallb_forall. intros Hr. unfold readLog. apply respects_iterM; [exact _|]. intros r Hi.
  apply respects_bind; [exact _|apply holds_read, Hr; by apply list_elem_of_In|intros; apply respects_ret; exact _].
Qed.
(** A run of code that holds [J]. *)
Lemma holds_done {A} (m : M A) w a w' :
  respects (holds J) m -> Live w -> m w = Done a w' ->
  same_soft w w' /\ Live w' /\ forall j, j ∈ J -> emits (spares j) w w'.
Proof.
  intros Hm Hl E. destruct (respects_done _ _ _ _ _ Hm E Hl) as [S (new & T & Hn)]. split; [done|].
  split; [by eapply live_soft|]. intros j Hj. exists new. split; [done|].
  eapply Forall_impl; [exact Hn|]. intros e. by apply sparing_spares.
Qed.
Lemma holds_extends {A} (m : M A) w a w' :
  respects (holds J) m -> Live w -> m w = Done a w' -> Live w' /\ exists new, w_tr w' = new ++ w_tr w.
Proof.
  intros Hm Hl E. destruct (respects_done _ _ _ _ _ Hm E Hl) as [S (new & T & _)].
  split; [by eapply live_soft|by exists new].
Qed.
End hold.

(** Decide the side conditions by computation. *)
Ltac holds_step :=
  match goal with
  | |- respects (holds _) (readReg32 _) => apply holds_read; vm_compute; reflexivity
  | |- respects (holds _) (writeReg32 _ _) => apply holds_write; vm_compute; reflexivity
  | |- respects (holds _) (delay_us _) => apply holds_pause
  | |- respects (holds _) (readLog _) => apply holds_readLog; vm_compute; reflexivity
  | |- respects _ _ => respects_step
  end.
Ltac holds_auto := repeat first [holds_step | solve [eauto 3 with ng]].
(** Membership in a list of register offsets, by computation. *)
Ltac in_list := apply (bool_decide_unpack _); vm_compute; exact I.

(** ** Checking and repairing a register *)
Section fixes.
Context `{Platform}.
(** A register is read and, when its value is [bad], rewritten as [f] says; what it is left with
    satisfies [good]. *)
Definition fixes (r : Z) (good : Z -> Prop) (m : M unit) : Prop :=
  (forall J, apartFrom J r = true -> respects (holds J) m) /\
  forall w, Live w -> exists w', m w = Done () w' /\ same_soft w w' /\ assured r good (w_tr w') (w_tr w).
Lemma fixes_read_write r bad f (good : Z -> Prop) k :
  apartFrom [] r = true -> (forall v, 0 <= v < 2 ^ 32 -> bad v = false -> good v) ->
  (forall v, 0 <= v < 2 ^ 32 -> bad v = true -> good (u32 (f v))) ->
  total k -> (forall J, respects (holds J) k) -> respects (holds [r]) k ->
  fixes r good (v ← readReg32 r; when (bad v) (_ ← writeReg32 r (f v); k)).
Proof.
  unfold apartFrom. cbn [forallb]. rewrite !andb_true_iff. intros [[Hrd Hs%negb_true_iff] _] Hok Hfix Hk HkJ Hkr.
  destruct (readable_spec r Hrd) as [Hlo Hhi]. split.
  - intros J HJ. apply respects_bind; [exact _|by apply holds_read|]. intros v. apply respects_when; [exact _|].
    apply respects_bind; [exact _|by apply holds_write|intros _; apply HkJ].
  - intros w Hl. destruct (rd r w Hl Hlo Hhi) as (v & w1 & E1 & S1 & T1).
    pose proof (readReg32_range _ _ _ _ E1) as Hv.
    unfold mbind, M_bind. rewrite E1. destruct (bad v) eqn:Hb; cbn [when].
    + destruct (wr r (f v) w1 (live_soft _ _ S1 Hl) Hlo Hhi Hs) as (w2 & E2 & S2 & T2).
      destruct (Hk w2) as ([] & w3 & E3).
      destruct (holds_done [r] k w2 () w3 Hkr (live_soft _ _ S2 (live_soft _ _ S1 Hl)) E3) as (S3 & _ & K3).
      exists w3. rewrite E2, E3. split; [done|]. split; [etrans; [exact S1|by etrans]|].
      eapply assured_later; [apply K3; by left|]. rewrite T2, T1.
      apply (assured_since _ _ _ (ERd (r .>> 2) v :: w_tr w) _ [ERd (r .>> 2) v]); [done|].
      apply (assured_now r good _ (u32 (f v))); [by apply Hfix|by left].
    + exists w1. split; [done|]. split; [done|]. rewrite T1. apply (assured_now r good _ v); [by apply Hok|by right].
Qed.
Lemma bind_ret_unit (m : M unit) w : (_ ← m; mret ()) w = m w.
Proof. unfold mbind, M_bind. by destruct (m w) as [[] ?| |]. Qed.
Lemma fixes_last r bad f (good : Z -> Prop) :
  apartFrom [] r = true -> (forall v, 0 <= v < 2 ^ 32 -> bad v = false -> good v) ->
  (forall v, 0 <= v < 2 ^ 32 -> bad v = true -> good (u32 (f v))) ->
  fixes r good (v ← readReg32 r; when (bad v) (writeReg32 r (f v))).
Proof.
  intros Hr Hok Hfix. destruct (fixes_read_write r bad f good (mret ()) Hr Hok Hfix) as [HJ Hw];
    [apply total_ret|intros; by apply respects_ret, holds_preorder|by apply respects_ret, holds_preorder|].
  assert (E : forall w, (v ← readReg32 r; when (bad v) (writeReg32 r (f v))) w =
                        (v ← readReg32 r; when (bad v) (_ ← writeReg32 r (f v); mret ())) w).
  { intros w. unfold mbind at 1 2, M_bind at 1 2. destruct (readReg32 r w) as [v w1| |]; [|done..].
    destruct (bad v); [|done]. cbn [when]. by rewrite bind_ret_unit. }
  split.
  - intros J HJr w. rewrite E. by apply HJ.
  - intros w. rewrite E. apply Hw.
Qed.
(** Two repairs in sequence: what the first assured stays assured. *)
Lemma fixes_run r good m J w : fixes r good m -> apartFrom J r = true -> Live w ->
  exists w', m w = Done () w' /\ same_soft w w' /\ Live w' /\ assured r good (w_tr w') (w_tr w) /\
    (exists new, w_tr w' = new ++ w_tr w) /\ forall j, j ∈ J -> emits (spares j) w w'.
Proof.
  intros [HJ Hw] Ha Hl. destruct (Hw w Hl) as (w' & E & S & A). exists w'.
  destruct (holds_done J m w () w' (HJ J Ha) Hl E) as (_ & L & K).
  destruct (respects_done _ _ _ _ _ (HJ J Ha) E Hl) as [_ (new & T & _)]. eauto 10.
Qed.
End fixes.
