(* ===== verification/Watchdog.v ===== *)
(** * Timers and the accelerator's probe (TGL.cpp)

    The callbacks that keep the command streamers' errors masked and their interrupts
    enabled while the driver starts, and the hooks around the accelerator's probe. *)
From S2P Require Import Prelude Machine Memory Sim Regs Mmio BootArgs RegHooks Trace Frame Reset Hold.
Import Regs Mmio BootArgs RegHooks Trace Reset.

Module Watchdog.
Section defs.
Context `{Platform}.

(** [thread_call_allocate] and [thread_call_enter_delayed]; nothing happens when the
    allocation fails. [TGL.cpp:2828-2833 v71EmrEnforcer] *)
Definition arm (f : string) (ms : Z) : M unit := when (allocOk "thread_call") (schedule f ms).

(** The interval is 50 ms. [TGL.cpp v71EmrEnforcer] *)
Definition v71EmrEnforcer : M unit :=
  _ ← set_g11 (fun g => g <| v71Count ::= fun n => s32 (n + 1) |>);
  emrRcs ← readReg32 (RING_EMR RENDER_RING_BASE);
  emrBcs ← readReg32 (RING_EMR BLT_RING_BASE);
  _ ← when (negb (emrRcs =? 0xFFFFFFFF)) (writeReg32 (RING_EMR RENDER_RING_BASE) 0xFFFFFFFF);
  _ ← when (negb (emrBcs =? 0xFFFFFFFF)) (writeReg32 (RING_EMR BLT_RING_BASE) 0xFFFFFFFF);
  err ← readReg32 ERROR_GEN6;
  _ ← when (truthy err) (writeReg32 ERROR_GEN6 0);
  arm "v71EmrEnforcer" 50.

(** [TGL.cpp:2846-2858 v54IrqWatchdog] *)
Definition watchMaster : M unit :=
  mstrIrq ← readReg32 GEN11_GFX_MSTR_IRQ;
  when (negb (truthy (mstrIrq .& GEN11_MASTER_IRQ)))
    (_ ← writeReg32 GEN11_GFX_MSTR_IRQ GEN11_MASTER_IRQ;
     _ ← delay_us 100;
     _ ← readReg32 GEN11_GFX_MSTR_IRQ; mret ()).
(** [TGL.cpp:2864-2875 v54IrqWatchdog] *)
Definition watchTier1 : M unit :=
  rcIntrEn ← readReg32 GEN11_RENDER_COPY_INTR_ENABLE;
  let wantBits := (1 .<< GEN11_RCS0) .| (1 .<< GEN11_BCS) in
  when (negb (truthy (rcIntrEn .& (1 .<< GEN11_RCS0))))
    (_ ← writeReg32 GEN11_RENDER_COPY_INTR_ENABLE (rcIntrEn .| wantBits);
     _ ← readReg32 GEN11_RENDER_COPY_INTR_ENABLE; mret ()).
(** [TGL.cpp:2877-2883 v54IrqWatchdog] *)
Definition wantUnmasked : Z := GT_CONTEXT_SWITCH_INTERRUPT .| GT_RENDER_USER_INTERRUPT.
Definition watchTier2 : M unit :=
  rcsMask ← readReg32 GEN11_RCS0_RSVD_INTR_MASK;
  when (truthy (rcsMask .& wantUnmasked))
    (writeReg32 GEN11_RCS0_RSVD_INTR_MASK (rcsMask .& not32 wantUnmasked)).
(** [TGL.cpp:2885-2889 v54IrqWatchdog] *)
Definition watchError : M unit :=
  errNow ← readReg32 ERROR_GEN6;
  when (truthy errNow) (writeReg32 ERROR_GEN6 0).
(** [TGL.cpp:2893-2898 v54IrqWatchdog] *)
Definition watchLog : M unit :=
  readLog [ RING_CTL RENDER_RING_BASE; RING_HEAD RENDER_RING_BASE; RING_TAIL RENDER_RING_BASE; ERROR_GEN6 ].
(** [TGL.cpp v54IrqWatchdog] *)
Definition v54IrqWatchdog : M unit :=
  _ ← set_g11 (fun g => g <| v54WatchdogCount ::= fun n => s32 (n + 1) |>);
  _ ← watchMaster;
  _ ← watchTier1;
  _ ← watchTier2;
  _ ← watchError;
  _ ← watchLog;
  n ← g11 v54WatchdogCount;
  when (n <? 5) (arm "v54IrqWatchdog" 2000).

(** The members the driver's own probe would fill. [TGL.cpp probe] *)
Definition probe (that provider score : Z) : M Z :=
  idPair ← gets (fun w => u32 (pciConfig provider 0 w));
  if isClass "IOPCIDevice" provider && (idPair .& 0xFFFF =? 0x8086) && (idPair .>> 16 =? 0x9A49) then
    rev ← gets (fun w => u8 (pciConfig provider 8 w));
    cls ← gets (fun w => u8 (pciConfig provider 0x1F w));
    _ ← store 4 (that + 4368) rev;
    _ ← store 4 (that + 4372) cls;
    _ ← store 4 (that + 4376) idPair;
    _ ← store 4 (that + 4384) 2;
    _ ← when (truthy score) (store 4 score 1000);
    mret that
  else call "oprobe" [that; provider; score].

(** The decoded instruction at an address: its length, the error flag, the opcodes and the
    fields of its ModRM byte (the disassembler is Lilu's). *)
Record hde64s := mkHde {
  h_size : Z; h_error : bool; h_opcode : Z; h_opcode2 : Z; h_modrm_reg : Z; h_modrm_rm : Z
}.
Context (hdeDisasm : Z -> world -> hde64s).
(** The scan for the jump after the comparison: where it stopped and whether it is there.
    [TGL.cpp:3824-3841 patchRCSCheck] *)
Fixpoint scanRCSCheck (n : nat) (start : Z) (found_cmp : bool) (w : world) : Z * bool :=
  match n with
  | O => (start, false)
  | S n =>
    let dis := hdeDisasm start w in
    if h_error dis then (start, false)
    else
      let found_cmp := found_cmp ||
        ((h_opcode dis =? 0x80) && (h_modrm_reg dis =? 7) && (h_modrm_rm dis =? 1)) in
      if found_cmp && (h_opcode dis =? 0x0f) && (h_opcode2 dis =? 0x85) then (start, true)
      else scanRCSCheck n (u64 (start + h_size dis)) found_cmp w
  end.
(** Six bytes of no-operation. [TGL.cpp:3846-3847 patchRCSCheck] *)
Definition storeNop6 (start : Z) : M unit := store 6 start 0x909090909090.
(** The final position, and whether the jump was patched out. [TGL.cpp patchRCSCheck] *)
Definition patchRCSCheck (start : Z) : M (Z * bool) :=
  r ← gets (scanRCSCheck 256 start false);
  let '(start, found_jmp) := r in
  if found_jmp : bool then
    status ← call "setKernelWriting" [1];
    if status =? 0 then
      _ ← storeNop6 start;
      _ ← call "setKernelWriting" [0];
      mret (start, true)
    else mret (start, false)
  else mret (start, false).
End defs.

(** ** What a firing leaves behind *)
Section facts.
Context `{Platform}.
Lemma arm_run f ms w :
  exists w', arm f ms w = Done () w' /\ w_hw w' = w_hw w /\ w_ng w' = w_ng w /\ w_g11 w' = w_g11 w /\
    w_tr w' = (if allocOk "thread_call" then [ESchedule f ms] else []) ++ w_tr w.
Proof. unfold arm. destruct (allocOk _); by eexists. Qed.

(** What the registers the timers watch should be: the master bit set, RCS interrupts
    delivered, the reserved half of the mask clear, no error pending, errors masked. *)
Definition masterOn (v : Z) : Prop := truthy (v .& GEN11_MASTER_IRQ) = true.
Definition rcsDelivered (v : Z) : Prop := truthy (v .& (1 .<< GEN11_RCS0)) = true.
Definition isClear (v : Z) : Prop := v = 0.
Definition isMasked (v : Z) : Prop := v = 0xFFFFFFFF.
Lemma master_fixes : fixes GEN11_GFX_MSTR_IRQ masterOn watchMaster.
Proof.
  apply fixes_read_write; [done|..].
  - intros v _ Hv. by apply negb_false_iff in Hv.
  - reflexivity.
  - total_auto.
  - intros J. holds_auto.
  - holds_auto.
Qed.
Lemma tier1_fixes : fixes GEN11_RENDER_COPY_INTR_ENABLE rcsDelivered watchTier1.
Proof.
  apply fixes_read_write; [done|..].
  - intros v _ Hv. by apply negb_false_iff in Hv.
  - intros v _ _. unfold rcsDelivered, truthy. apply negb_true_iff, Z.eqb_neq. intros E0.
    apply (f_equal (fun z => Z.testbit z 0)) in E0. revert E0.
    rewrite Z.bits_0, Z.land_spec, u32_testbit, !Z.lor_spec by lia.
    change (Z.testbit (1 .<< GEN11_RCS0) 0) with true. rewrite orb_true_r. discriminate.
  - total_auto.
  - intros J. holds_auto.
  - holds_auto.
Qed.
Lemma tier2_fixes : fixes GEN11_RCS0_RSVD_INTR_MASK (fun _ => True) watchTier2.
Proof. by apply fixes_last. Qed.
Lemma error_fixes : fixes ERROR_GEN6 isClear watchError.
Proof.
  apply fixes_last; [done|..]; [|reflexivity]. intros v _ Hv. apply negb_false_iff, Z.eqb_eq in Hv. exact Hv.
Qed.

(** *** The error masks *)
(** The mask of one engine: its value has been read; it is rewritten when it is not all ones. *)
Lemma mask_fixed r v J w since :
  (r = RING_EMR RENDER_RING_BASE \/ r = RING_EMR BLT_RING_BASE) -> apartFrom J r = true -> Live w ->
  assured r (fun x => x = v) (w_tr w) since ->
  exists w', when (negb (v =? 0xFFFFFFFF)) (writeReg32 r 0xFFFFFFFF) w = Done () w' /\ same_soft w w' /\ Live w' /\
    assured r isMasked (w_tr w') since /\ forall j, j ∈ J -> emits (spares j) w w'.
Proof.
  intros Hr HJ Hl (new & x & mid & Hs & -> & E).
  assert (Hrange : 0 <= r /\ r + 4 <= 0x200000 /\ looksLikePlaneSurf r = false).
  { destruct Hr as [-> | ->]; split_and!; vm_compute; congruence. }
  destruct Hrange as (Hlo & Hhi & Hp).
  destruct (Z.eqb_spec v 0xFFFFFFFF) as [->|Hne]; cbn [negb when].
  - exists w. split; [done|]. split; [done|]. split; [done|]. split; [exists new, 0xFFFFFFFF, mid; by split_and!|].
    intros j _. reflexivity.
  - destruct (wr r 0xFFFFFFFF w Hl Hlo Hhi Hp) as (w' & Ew & S & T). exists w'. split; [done|]. split; [done|].
    destruct (holds_done J _ w () w' (holds_write J r _ HJ) Hl Ew) as (_ & L & K). split; [done|]. split; [|exact K].
    rewrite T. destruct E as [E|E].
    + apply (assured_since _ _ _ (w_tr w) _ (new ++ EWr (r .>> 2) v :: mid)); [by rewrite E, <-app_assoc|].
      apply (assured_now r isMasked _ 0xFFFFFFFF); [done|by left].
    + apply (assured_since _ _ _ (w_tr w) _ (new ++ ERd (r .>> 2) v :: mid)); [by rewrite E, <-app_assoc|].
      apply (assured_now r isMasked _ 0xFFFFFFFF); [done|by left].
Qed.

(** Each run of the enforcer leaves the error masks of both command streamers assured to be all
    ones and the error register clear, whatever the driver had put there and whatever the
    hardware answers, and as its last act schedules the next run 50 ms later: the
    enforcement never stops while timers can be allocated. *)
Theorem enforcer_masks_errors (w : world) :
  Live w ->
  exists w', v71EmrEnforcer w = Done () w' /\ Live w' /\
    assured (RING_EMR RENDER_RING_BASE) isMasked (w_tr w') (w_tr w) /\
    assured (RING_EMR BLT_RING_BASE) isMasked (w_tr w') (w_tr w) /\
    assured ERROR_GEN6 isClear (w_tr w') (w_tr w) /\
    (allocOk "thread_call" = true -> exists tr, w_tr w' = ESchedule "v71EmrEnforcer" 50 :: tr).
Proof.
  intros Hl. set (w0 := w <| w_g11 ::= fun g => g <| v71Count ::= fun n => s32 (n + 1) |> |>).
  assert (L0 : Live w0) by exact Hl. change (w_tr w) with (w_tr w0).
  set (R := RING_EMR RENDER_RING_BASE). set (B := RING_EMR BLT_RING_BASE).
  destruct (rd R w0 L0) as (a & w1 & E1 & S1 & T1); [done|done|]. pose proof (live_soft _ _ S1 L0) as L1.
  destruct (rd B w1 L1) as (b & w2 & E2 & S2 & T2); [done|done|]. pose proof (live_soft _ _ S2 L1) as L2.
  assert (A2 : assured R (fun x => x = a) (w_tr w2) (w_tr w0)).
  { exists [ERd (B .>> 2) b], a, []. rewrite T2, T1. split; [by repeat constructor|]. split; [done|]. by right. }
  assert (B2 : assured B (fun x => x = b) (w_tr w2) (w_tr w0)).
  { exists [], b, [ERd (R .>> 2) a]. rewrite T2, T1. split; [done|]. split; [done|]. by right. }
  destruct (mask_fixed R a [B] w2 (w_tr w0)) as (w3 & E3 & S3 & L3 & A3 & K3); [by left|reflexivity|done|done|].
  destruct (mask_fixed B b [R] w3 (w_tr w0)) as (w4 & E4 & S4 & L4 & B4 & K4); [by right|reflexivity|done| |].
  { eapply assured_later; [apply K3; by left|done]. }
  destruct (fixes_run _ _ _ [R; B] w4 error_fixes) as (w5 & E5 & S5 & L5 & C5 & (n5 & T5) & K5); [reflexivity|done|].
  destruct (arm_run "v71EmrEnforcer" 50 w5) as (w6 & E6 & _ & N6 & _ & T6). exists w6.
  assert (K6 : forall r, emits (spares r) w5 w6).
  { intros r. exists (if allocOk "thread_call" then [ESchedule "v71EmrEnforcer" 50] else []). split; [done|].
    destruct (allocOk _); by repeat constructor. }
  split. { unfold watchError in E5. apply bind_done in E5 as (e & w5' & E5 & E5').
    unfold v71EmrEnforcer, mbind, M_bind, set_g11, modify. fold w0 R B. by rewrite E1, E2, E3, E4, E5, E5'. }
  split. { destruct L5 as (len & L5). exists len. by rewrite N6. }
  split_and!.
  - eapply assured_later; [apply K6|]. eapply assured_later; [apply K5; by left|].
    eapply assured_later; [apply K4; by left|done].
  - eapply assured_later; [apply K6|]. eapply assured_later; [apply K5; by right; left|done].
  - eapply assured_later; [apply K6|].
    assert (E0 : exists n, w_tr w4 = n ++ w_tr w0).
    { destruct B4 as (x & v & mid & _ & _ & [-> | ->]); eexists (x ++ _ :: mid); by rewrite <-app_assoc. }
    destruct E0 as (n & E0). eapply assured_since; [exact E0|exact C5].
  - intros Ha. rewrite T6, Ha. by eexists.
Qed.

(** *** The interrupt watchdog *)
(** Since [since]: the master interrupt on, RCS interrupts delivered, no error pending. *)
Definition healthy (tr since : list event) : Prop :=
  assured GEN11_GFX_MSTR_IRQ masterOn tr since /\ assured GEN11_RENDER_COPY_INTR_ENABLE rcsDelivered tr since /\
  assured ERROR_GEN6 isClear tr since.
Definition watchedRegs : list Z := [GEN11_GFX_MSTR_IRQ; GEN11_RENDER_COPY_INTR_ENABLE; ERROR_GEN6].
Lemma healthy_later w w' since :
  (forall r, r ∈ watchedRegs -> emits (spares r) w w') -> healthy (w_tr w) since -> healthy (w_tr w') since.
Proof.
  intros He (H1 & H2 & H3). split_and!; (eapply assured_later; [apply He; in_list|done]).
Qed.
Lemma readLog_last l r w : Live w -> forallb readable (l ++ [r]) = true ->
  exists v w' tr, readLog (l ++ [r]) w = Done () w' /\ w_tr w' = ERd (r .>> 2) v :: tr.
Proof.
  unfold readLog. revert w. induction l as [|x l IH]; intros w Hl [[Hlo Hhi]%readable_spec Hb]%andb_true_iff; cbn [app iterM].
  - destruct (rd r w Hl Hlo Hhi) as (v & w' & E & _ & T). exists v, w', (w_tr w). unfold mbind, M_bind. by rewrite E.
  - destruct (rd x w Hl Hlo Hhi) as (v1 & w1 & E1 & S1 & _).
    destruct (IH w1 (live_soft _ _ S1 Hl) Hb) as (v & w' & tr & E & T). exists v, w', tr.
    split; [|done]. apply bind_done. exists (), w1. split; [apply bind_done; by exists v1, w1|exact E].
Qed.
Lemma log_run w : Live w ->
  exists v w' tr, watchLog w = Done () w' /\ same_soft w w' /\ (forall r, r ∈ watchedRegs -> emits (spares r) w w') /\
    w_tr w' = ERd (ERROR_GEN6 .>> 2) v :: tr.
Proof.
  intros Hl. set (l := [RING_CTL RENDER_RING_BASE; RING_HEAD RENDER_RING_BASE; RING_TAIL RENDER_RING_BASE]).
  destruct (readLog_last l ERROR_GEN6 w Hl eq_refl) as (v & w' & tr & E & T). exists v, w', tr.
  assert (Hh : respects (holds watchedRegs) watchLog) by (unfold watchLog; holds_auto).
  destruct (holds_done watchedRegs watchLog w () w' Hh Hl E) as (S & _ & K).
  by split_and!.
Qed.
(** The checks of one firing, in order. *)
Lemma checks_run w : Live w ->
  exists w' v tr, (_ ← watchMaster; _ ← watchTier1; _ ← watchTier2; _ ← watchError; watchLog) w = Done () w' /\
    same_soft w w' /\ healthy (w_tr w') (w_tr w) /\ w_tr w' = ERd (ERROR_GEN6 .>> 2) v :: tr.
Proof.
  intros Hl. set (M := GEN11_GFX_MSTR_IRQ). set (T := GEN11_RENDER_COPY_INTR_ENABLE).
  destruct (fixes_run _ _ _ [] w master_fixes) as (w1 & E1 & S1 & L1 & A1 & (n1 & T1) & _); [reflexivity|done|].
  destruct (fixes_run _ _ _ [M] w1 tier1_fixes) as (w2 & E2 & S2 & L2 & A2 & (n2 & T2) & K2); [reflexivity|done|].
  destruct (fixes_run _ _ _ [M; T] w2 tier2_fixes) as (w3 & E3 & S3 & L3 & _ & (n3 & T3) & K3); [reflexivity|done|].
  destruct (fixes_run _ _ _ [M; T] w3 error_fixes) as (w4 & E4 & S4 & L4 & A4 & _ & K4); [reflexivity|done|].
  destruct (log_run w4 L4) as (v & w5 & tr & E5 & S5 & K5 & T5). exists w5, v, tr.
  split; [unfold mbind, M_bind; by rewrite E1, E2, E3, E4, E5|].
  split; [by etrans; [exact S1|etrans; [exact S2|etrans; [exact S3|etrans; [exact S4|]]]]|]. split; [|done].
  apply (healthy_later w4); [done|]. split_and!.
  - eapply assured_later; [apply K4; by left|]. eapply assured_later; [apply K3; by left|].
    eapply assured_later; [apply K2; by left|done].
  - eapply assured_later; [apply K4; by right; left|]. eapply assured_later; [apply K3; by right; left|].
    eapply assured_since; [exact T1|done].
  - eapply assured_since; [|exact A4]. rewrite T3, T2, T1, !app_assoc. reflexivity.
Qed.

(** One firing: the checks, then the timer is armed again while fewer than five have run. *)
Lemma watchdog_run w : Live w ->
  exists w', v54IrqWatchdog w = Done () w' /\ Live w' /\ healthy (w_tr w') (w_tr w) /\
    v54WatchdogCount (w_g11 w') = s32 (v54WatchdogCount (w_g11 w) + 1) /\
    exists v tr, w_tr w' =
      (if (v54WatchdogCount (w_g11 w') <? 5) && allocOk "thread_call" then [ESchedule "v54IrqWatchdog" 2000] else [])
      ++ ERd (ERROR_GEN6 .>> 2) v :: tr.
Proof.
  intros Hl. set (w0 := w <| w_g11 ::= fun g => g <| v54WatchdogCount ::= fun n => s32 (n + 1) |> |>).
  assert (L0 : Live w0) by exact Hl. destruct (checks_run w0 L0) as (w1 & v & tr & E & S & Hh & T).
  pose proof (live_soft _ _ S L0) as L1.
  assert (C1 : v54WatchdogCount (w_g11 w1) = s32 (v54WatchdogCount (w_g11 w) + 1)) by (destruct S as (_ & -> & _); done).
  assert (R : v54IrqWatchdog w = when (v54WatchdogCount (w_g11 w1) <? 5) (arm "v54IrqWatchdog" 2000) w1).
  { do 4 (apply bind_done in E as ([] & ? & ? & E)).
    unfold v54IrqWatchdog, mbind, M_bind, set_g11, modify, g11, gets. fold w0.
    repeat match goal with Hs : _ = Done () _ |- _ => rewrite Hs; clear Hs end. done. }
  rewrite R. destruct (_ <? 5) eqn:Hn; cbn [when].
  - destruct (arm_run "v54IrqWatchdog" 2000 w1) as (w' & -> & _ & N' & G' & T'). exists w'.
    split; [done|]. split; [destruct L1 as (len & ?); exists len; by rewrite N'|].
    split; [|rewrite G', Hn; split; [done|]; exists v, tr; by rewrite T', T].
    apply (healthy_later w1); [|exact Hh]. intros r _. eexists. split; [exact T'|].
    destruct (allocOk _); by repeat constructor.
  - exists w1. rewrite Hn. split; [done|]. split; [done|]. split; [done|]. split; [done|]. by exists v, tr.
Qed.

(** Whether the last thing that happened was the arming of the watchdog. *)
Definition armed (w : world) : bool :=
  match w_tr w with ESchedule f _ :: _ => String.eqb f "v54IrqWatchdog" | _ => false end.
(** Let the timer fire until it is not armed again; the number of firings. *)
Fixpoint fireWatchdog (fuel : nat) : M Z :=
  match fuel with
  | O => out_of_fuel
  | S fuel =>
    _ ← v54IrqWatchdog;
    again ← gets armed;
    if again : bool then n ← fireWatchdog fuel; mret (n + 1) else mret 1
  end.
Lemma fire_run (k : nat) (w : world) :
  Live w -> v54WatchdogCount (w_g11 w) = 4 - Z.of_nat k -> (k <= 4)%nat -> allocOk "thread_call" = true ->
  forall fuel, (k < fuel)%nat ->
  exists w' since, fireWatchdog fuel w = Done (Z.of_nat k + 1) w' /\ healthy (w_tr w') since.
Proof.
  intros Hl Hc Hk Ha. revert w Hl Hc. induction k as [|k IH]; intros w Hl Hc fuel Hf; (destruct fuel as [|fuel]; [lia|]);
    destruct (watchdog_run w Hl) as (w1 & E1 & L1 & H1 & C1 & v & tr & T1);
    rewrite Hc in C1; rewrite Ha, andb_true_r in T1; cbn [fireWatchdog]; unfold mbind, M_bind, gets; rewrite E1.
  - exists w1, (w_tr w). assert (A : armed w1 = false) by (unfold armed; rewrite T1, C1; reflexivity). by rewrite A.
  - assert (C1' : v54WatchdogCount (w_g11 w1) = 4 - Z.of_nat k) by (rewrite C1, s32_small; lia).
    assert (A : armed w1 = true).
    { unfold armed. rewrite T1, C1'. rewrite (proj2 (Z.ltb_lt _ _)) by lia. reflexivity. }
    rewrite A. destruct (IH ltac:(lia) w1 L1 C1' fuel ltac:(lia)) as (w' & since & -> & H'). exists w', since.
    split; [|done]. unfold mret, M_ret. f_equal. lia.
Qed.

(** Started once, with timers to be had, the interrupt watchdog fires exactly five times and
    then stops. When it stops, its last word on the registers is: master interrupt on, RCS
    interrupts delivered, no error pending. *)
Theorem watchdog_fires_five_times (w : world) (fuel : nat) :
  Live w -> v54WatchdogCount (w_g11 w) = 0 -> allocOk "thread_call" = true -> (5 <= fuel)%nat ->
  exists w' since, fireWatchdog fuel w = Done 5 w' /\ healthy (w_tr w') since.
Proof. intros Hl Hc Ha Hf. apply (fire_run 4); [done|by rewrite Hc|lia|done|lia]. Qed.

(** The second-tier check clears bits of the reserved half of the register: the RCS bits of
    the mask (its upper half) are written as they were read. *)
Theorem watchdog_unmasks_reserved_half (w : world) :
  Live w ->
  let i := GEN11_RCS0_RSVD_INTR_MASK .>> 2 in
  exists v w', watchTier2 w = Done () w' /\
    (w_tr w' = ERd i v :: w_tr w \/
     exists x, w_tr w' = EWr i x :: ERd i v :: w_tr w /\ x .>> 16 = v .>> 16).
Proof.
  intros Hl i. destruct (rd GEN11_RCS0_RSVD_INTR_MASK w Hl) as (v & w1 & E1 & S1 & T1); [done|done|].
  pose proof (readReg32_range _ _ _ _ E1) as Hv.
  exists v. unfold watchTier2, mbind, M_bind. rewrite E1. destruct (truthy _); cbn [when]; [|exists w1; auto].
  destruct (wr GEN11_RCS0_RSVD_INTR_MASK (v .& not32 wantUnmasked) w1 (live_soft _ _ S1 Hl)) as (w2 & E2 & _ & T2); [done..|].
  exists w2. split; [done|]. right. eexists. split; [by rewrite T2, T1|].
  apply Z.bits_inj'. intros n Hn. rewrite !Z.shiftr_spec, u32_testbit, Z.land_spec by lia.
  rewrite not32_testbit by lia. destruct (Z_lt_le_dec (n + 16) 32).
  - rewrite (testbit_small wantUnmasked 9) by first [done|lia]. rewrite (ltb_t (n + 16) 32) by lia. btauto.
  - rewrite (testbit_small _ 32) by lia. btauto.
Qed.
End facts.

(** *** Probe and the removed check *)
Section hooks.
Context `{Platform}.
(** The device the driver is made for is accepted without asking the original. *)
Theorem probe_forces_9A49 (that provider score : Z) (w : world) :
  isClass "IOPCIDevice" provider = true -> u32 (pciConfig provider 0 w) = 0x9A498086 ->
  exists w', probe that provider score w = Done that w' /\ w_tr w' = w_tr w.
Proof.
  intros Hc Hi. unfold probe, mbind, M_bind, gets. rewrite Hc, Hi. cbn [andb]. cbv zeta.
  change ((0x9A498086 .& 0xFFFF =? 0x8086)) with true. change (0x9A498086 .>> 16 =? 0x9A49) with true. cbn [andb].
  rewrite !store_run. destruct (truthy score); cbn [when]; [rewrite store_run|]; by eexists.
Qed.

Lemma scan_found hdeDisasm n start c w s :
  scanRCSCheck hdeDisasm n start c w = (s, true) ->
  h_error (hdeDisasm s w) = false /\ h_opcode (hdeDisasm s w) = 0x0f /\ h_opcode2 (hdeDisasm s w) = 0x85.
Proof.
  revert start c. induction n as [|n IH]; intros start c; cbn [scanRCSCheck]; [intros ?; simplify_eq|].
  cbv zeta. destruct (h_error (hdeDisasm start w)) eqn:He; [intros ?; simplify_eq|].
  destruct (_ && (h_opcode2 (hdeDisasm start w) =? 0x85)) eqn:Ej; [|apply IH].
  intros E. simplify_eq. bools. destruct_and!. bools. done.
Qed.
(** What is patched is the six-byte jump the scan stopped at, and nothing else. *)
Theorem rcs_check_patched_out `{!Benign (keeps w_mem)} hdeDisasm (start s : Z) (w w' : world) :
  patchRCSCheck hdeDisasm start w = Done (s, true) w' ->
  h_opcode (hdeDisasm s w) = 0x0f /\ h_opcode2 (hdeDisasm s w) = 0x85 /\
  load_le 6 s (w_mem w') = 0x909090909090 /\
  forall b, b < s \/ s + 6 <= b -> w_mem w' !! b = w_mem w !! b.
Proof.
  unfold patchRCSCheck, mbind at 1, M_bind at 1, gets.
  destruct (scanRCSCheck hdeDisasm 256 start false w) as [s0 j] eqn:E. destruct j; [|intros; unfold mret, M_ret in *; simplify_eq].
  intros R. apply bind_done in R as (st & w1 & C1 & R). destruct (st =? 0); [|unfold mret, M_ret in R; simplify_eq].
  apply bind_done in R as ([] & w2 & C2 & R). apply bind_done in R as (r & w3 & C3 & R).
  assert (M2 : w_mem w2 = store_le 6 s0 0x909090909090 (w_mem w1)).
  { unfold storeNop6 in C2. rewrite store_run in C2. by injection C2 as <-. }
  unfold mret, M_ret in R. injection R as -> ->.
  assert (K : forall f args (u u' : world) x, call f args u = Done x u' -> w_mem u' = w_mem u).
  { intros f args u u' x. apply (respects_done (keeps w_mem)), keeps_call; [exact _|done]. }
  rewrite (K _ _ _ _ _ C3), M2. apply scan_found in E as (_ & -> & ->). split; [done|]. split; [done|].
  split; [by rewrite load_store_le|]. intros b Hb.
  rewrite store_le_outside by lia. by rewrite (K _ _ _ _ _ C1).
Qed.
End hooks.

(** ** Evaluations *)
Import Sim.
#[local] Instance timer_plat : Platform := sim_platform_with [] [] 0.
Lemma sim_live regs : Live (sim_world regs).
Proof. exists 0x1000000. split; [done|]. split; [done|]. lia. Qed.
(** Errors unmasked and pending. *)
Definition unmasked : world := sim_world [(RING_EMR RENDER_RING_BASE .>> 2, 0x10); (ERROR_GEN6 .>> 2, 1)].
Lemma enforcer_masks_errors_witness :
  exists w', v71EmrEnforcer unmasked = Done () w' /\
    assured (RING_EMR RENDER_RING_BASE) isMasked (w_tr w') [] /\ assured ERROR_GEN6 isClear (w_tr w') [].
Proof.
  destruct (enforcer_masks_errors unmasked (sim_live _)) as (w' & E & _ & R & _ & G & _).
  exists w'. split; [exact E|]. split; [exact R|exact G].
Defined.
Lemma watchdog_fires_five_times_witness :
  exists w' since, fireWatchdog 5 (sim_world []) = Done 5 w' /\ healthy (w_tr w') since.
Proof. apply (watchdog_fires_five_times (sim_world []) 5); [apply sim_live|reflexivity|reflexivity|lia]. Defined.
End Watchdog.
