(* ===== verification/Start.v ===== *)
(** * Start of the accelerator (TGL.cpp, [Gen11::start])

    The hook around [IntelAccelerator::start]: which scheduler the driver is told to use,
    the workarounds and interrupts before it, and what is repaired, published, armed and
    cleared after it. *)
From S2P Require Import Prelude Machine Memory Sim Regs Mmio BootArgs RegHooks ForceWake Trace Frame Engine Reset.
From S2P Require Import Display Controller Dyld Plugin Hold Watchdog.
Import Regs Mmio BootArgs RegHooks ForceWake Trace Engine Reset Display Controller Watchdog.

Module Start.
Section defs.
Context `{Platform}.

(** [TGL.cpp readDeviceIdFromService] *)
Definition readDeviceIdFromService (service : Z) : M Z :=
  if negb (truthy service) then mret 0
  else
    p ← getProperty service "device-id";
    match Plugin.getOSDataValue p with
    | Some d => mret (d .& 0xFFFF)
    | None =>
      let entry := providerOf service in
      if negb (truthy entry) then mret 0
      else q ← getProperty entry "device-id"; mret (default 0 (Plugin.getOSDataValue q) .& 0xFFFF)
    end.

(** *** Scheduler selection *)

(** The value of an [OSNumber] property as an [int]. *)
Definition intProperty (p : option prop) : option Z :=
  match p with Some (PNumber _ v) => Some (s32 v) | _ => None end.
(** The choice, from the default, the policy, the boot argument and the provider's property.
    [TGL.cpp:2922-2954 start] *)
Definition selectScheduler (real safe : bool) (arg prop : option Z) : Z :=
  let schedType := if real then 3 else 5 in
  match (match arg with
         | Some v => let b := s32 v in if (3 <=? b) && (b <=? 5) then Some b else None
         | None => None
         end) with
  | Some b => if safe && negb (b =? 5) then 5 else b
  | None =>
    match prop with
    | Some val => if safe && negb (val =? 5) then 5
                  else if (3 <=? val) && (val <=? 5) then val else schedType
    | None => schedType
    end
  end.
(** The provider's own setting, when it is a service. [TGL.cpp:2937-2941 start] *)
Definition plistScheduler (param_1 : Z) : M (option Z) :=
  if isClass "IOService" param_1 then p ← getProperty param_1 "SchedulerType"; mret (intProperty p)
  else mret None.
(** A copy of the [Development] dictionary with more entries, when it is a dictionary and can be
    copied. *)
Definition extendDevelopment (service : Z) (d : list (string * prop)) (entries : list (string * prop)) : M unit :=
  when (allocOk "OSDictionary")
    (setProperty service "Development"
       (PDict (foldl (fun d e => Plugin.setObject e.1 e.2 d) d entries))).
(** [TGL.cpp:2956-2981 start] *)
Definition publishScheduler (service schedType : Z) (safe : bool) : M unit :=
  _ ← when (allocOk "OSNumber") (setProperty service "GraphicsSchedulerSelect" (PNumber 32 schedType));
  _ ← setProperty service "NGreenSchedulerPolicySafe" (PBool safe);
  gate ← shouldGateExternalDisplayBringup;
  _ ← setProperty service "NGreenExternalGateActive" (PBool gate);
  dev ← getProperty service "Development";
  match dev with
  | Some (PDict d) =>
    extendDevelopment service d
      (Controller.numEntry "GraphicsSchedulerSelect" 32 schedType ++
       Controller.numEntry "SchedulerFallbackOnFirmwareFail" 32 1)
  | _ => mret ()
  end.
(** [TGL.cpp:2983-2989 start] *)
Definition tracePre (service schedType : Z) : M unit :=
  when isTglTraceEnabled
    (_ ← set_bringup (fun st => st <| schedulerType := schedType |>);
     d ← readDeviceIdFromService service;
     _ ← set_bringup (fun st => st <| isTgl9A49 := d =? 0x9A49 |> <| gucRequested := schedType =? 3 |>);
     dumpTglGpuBringupState "IntelAccelerator::start PRE").
(** [TGL.cpp:2995-3024 start] *)
Definition injectMultiForceWake (service : Z) : M unit :=
  real ← ng isRealTGL;
  when (negb real)
    (dev ← getProperty service "Development";
     extendDevelopment service (match dev with Some (PDict d) => d | _ => [] end)
       (Controller.numEntry "MultiForceWakeSelect" 32 1)).

(** *** Before the original *)

(** Up to 50 ms for the acknowledge. [TGL.cpp:3031-3038 start] *)
Definition awaitRenderAck : M unit :=
  start ← now_ns;
  let fwDeadline := start + 50 * 1000000 in
  forever (fun _ : unit =>
    fwNow ← now_ns;
    if fwNow <? fwDeadline then
      fwAck ← readReg32 FORCEWAKE_ACK_RENDER_GEN9;
      if truthy (fwAck .& 1) then mret (inr ()) else mret (inl ())
    else mret (inr ())) ().
Definition ggttPte (page : Z) : list Z := [GGTT_PTE_HI page; GGTT_PTE_LO page].
(** [TGL.cpp:3042-3065 start] *)
Definition prestartReads : list Z :=
  flat_map ggttPte [0; 1; 2; 3] ++ flat_map ggttPte [0x100; 0x101; 0x102; 0x103] ++
  [ RING_CTX_SIZE RENDER_RING_BASE; RING_CCID RENDER_RING_BASE; RING_CTX_CTRL RENDER_RING_BASE;
    RING_MI_MODE RENDER_RING_BASE; RING_MODE RENDER_RING_BASE ].
(** Write a register's set bits back to it. *)
Definition ackBits (r : Z) : M unit := v ← readReg32 r; when (truthy v) (writeReg32 r v).
(** [TGL.cpp:3068-3083 start] *)
Definition prestartErrors : M unit :=
  errPreStart ← readReg32 ERROR_GEN6;
  when (truthy errPreStart)
    (_ ← writeReg32 ERROR_GEN6 errPreStart;
     _ ← delay_us 100;
     rcsEir ← readReg32 (RING_EIR RENDER_RING_BASE);
     bcsEir ← readReg32 (RING_EIR BLT_RING_BASE);
     _ ← when (truthy rcsEir) (writeReg32 (RING_EIR RENDER_RING_BASE) rcsEir);
     _ ← when (truthy bcsEir) (writeReg32 (RING_EIR BLT_RING_BASE) bcsEir);
     readLog [ERROR_GEN6]).
(** [TGL.cpp:3087-3103 start] *)
Definition startWorkarounds : M unit :=
  misccpctl ← readReg32 GEN7_MISCCPCTL;
  _ ← writeReg32 GEN7_MISCCPCTL (misccpctl .& not32 GEN12_DOP_CLOCK_GATE_RENDER_ENABLE);
  _ ← wa_write_or (VDBOX_CGCTL3F10 RENDER_RING_BASE) IECPUNIT_CLKGATE_DIS;
  _ ← wa_write_or (VDBOX_CGCTL3F10 BLT_RING_BASE) IECPUNIT_CLKGATE_DIS;
  _ ← wa_write_or (VDBOX_CGCTL3F10 GEN11_VEBOX_RING_BASE) IECPUNIT_CLKGATE_DIS;
  _ ← wa_mcr_write_or GEN10_DFR_RATIO_EN_AND_CHICKEN DFR_DISABLE;
  _ ← wa_masked_en GEN11_COMMON_SLICE_CHICKEN3 GEN12_DISABLE_CPS_AWARE_COLOR_PIPE;
  _ ← wa_masked_field_set GEN8_CS_CHICKEN1 GEN9_PREEMPT_GPGPU_LEVEL_MASK GEN9_PREEMPT_GPGPU_THREAD_GROUP_LEVEL;
  _ ← wa_write_clr_set GEN8_MCR_SELECTOR mcr_mask mcr;
  wa_masked_en GEN7_FF_SLICE_CS_CHICKEN1 GEN9_FFSC_PERCTX_PREEMPT_CTRL.
(** [TGL.cpp:3028-3108 start] *)
Definition prestartRegs : M unit :=
  _ ← writeReg32 FORCEWAKE_RENDER_GEN9 ((1 .<< 16) .| 1);
  _ ← delay_us 1000;
  _ ← awaitRenderAck;
  _ ← readLog prestartReads;
  _ ← prestartErrors;
  _ ← startWorkarounds;
  writeReg32 FORCEWAKE_RENDER_GEN9 (1 .<< 16).

(** Tier-1 delivery and tier-2 mask of the RCS. [TGL.cpp:3129-3136 start] *)
Definition routeInterrupts : M unit :=
  rcIntr ← readReg32 GEN11_RENDER_COPY_INTR_ENABLE;
  _ ← writeReg32 GEN11_RENDER_COPY_INTR_ENABLE (rcIntr .| ((1 .<< GEN11_RCS0) .| (1 .<< GEN11_BCS)));
  rcsMask ← readReg32 GEN11_RCS0_RSVD_INTR_MASK;
  writeReg32 GEN11_RCS0_RSVD_INTR_MASK (rcsMask .& not32 wantUnmasked).
(** [TGL.cpp:3138-3142 start] *)
Definition zeroError : M unit :=
  errPre ← readReg32 ERROR_GEN6;
  _ ← when (truthy errPre) (writeReg32 ERROR_GEN6 0);
  readLog [GEN11_RENDER_COPY_INTR_ENABLE; GEN11_RCS0_RSVD_INTR_MASK].
(** [TGL.cpp:3118-3143 start] *)
Definition prestartInterrupts : M unit :=
  _ ← writeReg32 GEN11_GFX_MSTR_IRQ GEN11_MASTER_IRQ;
  _ ← delay_us 100;
  _ ← readLog [GEN11_GFX_MSTR_IRQ];
  _ ← routeInterrupts;
  zeroError.
(** Everything up to the first timer. [TGL.cpp:2921-3143 start] *)
Definition startPre (that param_1 : Z) : M unit :=
  real ← ng isRealTGL;
  safe ← ng shouldUseSpoofedSafeSchedulerPolicy;
  plist ← plistScheduler param_1;
  let schedType := selectScheduler real safe (bootarg "ngreenSched") plist in
  _ ← publishScheduler that schedType safe;
  _ ← tracePre that schedType;
  _ ← injectMultiForceWake that;
  _ ← prestartRegs;
  _ ← set_g11 (fun g => g <| accelInstance := that |>);
  prestartInterrupts.

(** *** After the original *)

(** [TGL.cpp:3164-3181 start] *)
Definition poststartInterrupts : M unit :=
  _ ← routeInterrupts;
  _ ← writeReg32 GEN11_GFX_MSTR_IRQ GEN11_MASTER_IRQ;
  zeroError.
(** [TGL.cpp:3233-3283 start] *)
Definition rcsReads : list Z :=
  [ RING_HWSTAM RENDER_RING_BASE;
    RING_ACTHD_UDW RENDER_RING_BASE; RING_ACTHD RENDER_RING_BASE; RING_IPEHR RENDER_RING_BASE; RING_IPEIR RENDER_RING_BASE;
    RING_INSTDONE RENDER_RING_BASE; RING_INSTPM RENDER_RING_BASE; RING_DMA_FADD_UDW RENDER_RING_BASE;
    RING_DMA_FADD RENDER_RING_BASE; RING_EXECLIST_STATUS RENDER_RING_BASE; RING_CONTEXT_STATUS_PTR RENDER_RING_BASE;
    RING_EIR RENDER_RING_BASE; RING_ESR RENDER_RING_BASE; RING_EMR RENDER_RING_BASE; RING_FAULT_REG RENDER_RING_BASE;
    ERROR_GEN6; GEN12_RING_FAULT_REG; GEN8_FAULT_TLB_DATA0; GEN8_FAULT_TLB_DATA1; GEN11_GT_INTR_DW0; GEN11_GT_INTR_DW1;
    RING_CTX_SIZE RENDER_RING_BASE; RING_CCID RENDER_RING_BASE; RING_CTX_CTRL RENDER_RING_BASE;
    RING_MI_MODE RENDER_RING_BASE; RING_MODE RENDER_RING_BASE ].
(** [TGL.cpp:3305-3350 start] *)
Definition bcsReads : list Z :=
  [ RING_CONTEXT_STATUS_PTR RENDER_RING_BASE ] ++
  flat_map (fun i => [RING_CONTEXT_STATUS_BUF_HI RENDER_RING_BASE i; RING_CONTEXT_STATUS_BUF RENDER_RING_BASE i])
    [0; 1; 2; 3; 4; 5] ++
  [ FORCEWAKE_ACK_RENDER_GEN9; FORCEWAKE_ACK_BLITTER_GEN9;
    RING_HEAD BLT_RING_BASE; RING_TAIL BLT_RING_BASE; RING_CTL BLT_RING_BASE; RING_START BLT_RING_BASE;
    RING_HWS_PGA BLT_RING_BASE; RING_MI_MODE BLT_RING_BASE;
    RING_ACTHD_UDW BLT_RING_BASE; RING_ACTHD BLT_RING_BASE; RING_IPEHR BLT_RING_BASE; RING_IPEIR BLT_RING_BASE;
    RING_INSTDONE BLT_RING_BASE; RING_EIR BLT_RING_BASE; RING_ESR BLT_RING_BASE; RING_EMR BLT_RING_BASE;
    RING_EXECLIST_STATUS BLT_RING_BASE; RING_CONTEXT_STATUS_PTR BLT_RING_BASE;
    GEN11_GFX_MSTR_IRQ; GEN11_DISPLAY_INT_CTL; GEN11_RENDER_COPY_INTR_ENABLE; GEN11_VCS_VECS_INTR_ENABLE;
    GEN11_RCS0_RSVD_INTR_MASK; GEN11_BCS_RSVD_INTR_MASK ].
(** The members of the accelerator and its children only go to the log; pending GT interrupts are
    acknowledged. [TGL.cpp:3183-3357 start] *)
Definition diagnostics : M unit :=
  _ ← writeReg32 FORCEWAKE_RENDER_GEN9 ((1 .<< 16) .| 1);
  _ ← writeReg32 FORCEWAKE_BLITTER_GEN9 ((1 .<< 16) .| 1);
  _ ← delay_us 1000;
  _ ← readLog [RING_HEAD RENDER_RING_BASE; RING_TAIL RENDER_RING_BASE; RING_CTL RENDER_RING_BASE];
  rcsStart ← readReg32 (RING_START RENDER_RING_BASE);
  rcsHws ← readReg32 (RING_HWS_PGA RENDER_RING_BASE);
  _ ← readLog rcsReads;
  _ ← when (truthy rcsHws) (readLog (ggttPte (rcsHws .>> 12) ++ ggttPte ((rcsHws .>> 12) + 1)));
  _ ← when (truthy rcsStart) (readLog (ggttPte (rcsStart .>> 12)));
  _ ← readLog bcsReads;
  ackBits 0x190018.

(** The properties the personality would have given the service. [TGL.cpp:3432-3456 start] *)
Definition injectGpuProperties (svc : Z) : M unit :=
  tgl ← g11 tglHWLoaded;
  let nm := Controller.named tgl in
  _ ← setProperty svc "MetalPluginName" (PString (nm "AppleIntelTGLGraphicsMTLDriver" "AppleIntelICLGraphicsMTLDriver"));
  _ ← setProperty svc "IOGLBundleName" (PString (nm "AppleIntelTGLGraphicsGLDriver" "AppleIntelICLGraphicsGLDriver"));
  _ ← setProperty svc "IODVDBundleName" (PString (nm "AppleIntelTGLGraphicsVADriver" "AppleIntelICLGraphicsVADriver"));
  _ ← setProperty svc "IOGVACodec" (PString "Gen10");
  _ ← setProperty svc "IOGVAScaler" (PString "Gen10");
  _ ← setProperty svc "IOGVABGRAEnc" (PString "Gen10");
  _ ← setProperty svc "IOSourceVersion" (PString "0.0.0.0.0");
  _ ← when (allocOk "OSNumber") (setProperty svc "IOVARendererID" (PNumber 32 17301568));
  _ ← applyDisplayPipePolicy svc;
  when (allocOk "OSDictionary")
    (setProperty svc "IOCFPlugInTypes"
       (PDict (Controller.strEntry "ACCF0000-0000-0000-0000-000a2789904e" "IOAccelerator2D.plugin"))).
(** [TGL.cpp v45ScheduleDelayedCheck] *)
Definition v45ScheduleDelayedCheck (delayMs : Z) : M unit := arm "v45DelayedChildCheck" delayMs.
(** [TGL.cpp:3498-3504 start] *)
Definition childCheckDelays : list Z := [3000; 10000; 15000; 20000; 30000; 60000; 120000].
(** [TGL.cpp:3496-3533 start] *)
Definition armTimers : M unit :=
  _ ← iterM childCheckDelays v45ScheduleDelayedCheck;
  _ ← arm "v71EmrEnforcer" 50;
  when isExperimentalMonitorEnabled (arm "v60GpuHealthMonitor" 2000).
(** [TGL.cpp:3379-3487 start] *)
Definition publishAccelerator (svc : Z) : M unit :=
  _ ← logServicePublishSnapshot svc;
  metal ← getProperty svc "MetalPluginName";
  _ ← when (negb (bool_decide (is_Some metal))) (injectGpuProperties svc);
  _ ← applyDisplayPipePolicy svc;
  _ ← readLog Controller.publishReads;
  _ ← call "registerService" [svc];
  _ ← logServicePublishSnapshot svc;
  readLog Controller.publishReads.

(** *** Clearing what start left pending *)

(** [TGL.cpp:3540-3551 start] *)
Definition enableMaster : M unit :=
  mstrIrq ← readReg32 GEN11_GFX_MSTR_IRQ;
  when (negb (truthy (mstrIrq .& GEN11_MASTER_IRQ)))
    (_ ← writeReg32 GEN11_GFX_MSTR_IRQ GEN11_MASTER_IRQ;
     _ ← delay_us 100;
     _ ← readReg32 GEN11_GFX_MSTR_IRQ; mret ()).
(** Write the error bits back at most [n] times, until none is left.
    [TGL.cpp:3571-3578 start] *)
Fixpoint clearError (n : nat) (err : Z) : M unit :=
  match n with
  | O => mret ()
  | S n =>
    if truthy err then
      _ ← writeReg32 ERROR_GEN6 err; _ ← delay_us 200; e ← readReg32 ERROR_GEN6; clearError n e
    else mret ()
  end.
(** [TGL.cpp:3584-3592 start] *)
Definition clearEngineErrors : M unit :=
  rcsEir ← readReg32 (RING_EIR RENDER_RING_BASE);
  bcsEir ← readReg32 (RING_EIR BLT_RING_BASE);
  rcsEsr ← readReg32 (RING_ESR RENDER_RING_BASE);
  bcsEsr ← readReg32 (RING_ESR BLT_RING_BASE);
  _ ← when (truthy rcsEir) (writeReg32 (RING_EIR RENDER_RING_BASE) rcsEir);
  _ ← when (truthy bcsEir) (writeReg32 (RING_EIR BLT_RING_BASE) bcsEir);
  _ ← when (truthy rcsEsr) (writeReg32 (RING_ESR RENDER_RING_BASE) rcsEsr);
  when (truthy bcsEsr) (writeReg32 (RING_ESR BLT_RING_BASE) bcsEsr).
(** [TGL.cpp:3568-3618 start] *)
Definition clearErrors : M unit :=
  errPre ← readReg32 ERROR_GEN6;
  _ ← clearError 3 errPre;
  _ ← clearEngineErrors;
  ringFault ← readReg32 GEN12_RING_FAULT_REG;
  _ ← when (truthy ringFault) (writeReg32 GEN12_RING_FAULT_REG 0);
  tlb0 ← readReg32 GEN8_FAULT_TLB_DATA0;
  tlb1 ← readReg32 GEN8_FAULT_TLB_DATA1;
  _ ← when (truthy tlb0 || truthy tlb1)
        (_ ← writeReg32 GEN8_FAULT_TLB_DATA0 0; writeReg32 GEN8_FAULT_TLB_DATA1 0);
  gtIntr0 ← readReg32 GEN11_GT_INTR_DW0;
  gtIntr1 ← readReg32 GEN11_GT_INTR_DW1;
  _ ← when (truthy gtIntr0) (writeReg32 GEN11_GT_INTR_DW0 gtIntr0);
  when (truthy gtIntr1) (writeReg32 GEN11_GT_INTR_DW1 gtIntr1).
(** [TGL.cpp:3626-3651 start] *)
Definition stopDeadBlitter : M unit :=
  bcsCtlNow ← readReg32 (RING_CTL BLT_RING_BASE);
  when (bcsCtlNow =? 0)
    (_ ← writeReg32 (RING_MI_MODE BLT_RING_BASE) (STOP_RING .| (STOP_RING .<< 16));
     _ ← delay_us 500;
     _ ← writeReg32 (RING_MI_MODE BLT_RING_BASE) (STOP_RING .<< 16);
     _ ← delay_us 100;
     _ ← writeReg32 (RING_HEAD BLT_RING_BASE) 0;
     _ ← writeReg32 (RING_TAIL BLT_RING_BASE) 0;
     readLog [RING_CTL BLT_RING_BASE; RING_EXECLIST_STATUS BLT_RING_BASE]).
(** [TGL.cpp:3661-3681 start] *)
Definition flushTlbs : M unit :=
  _ ← writeReg32 0xcee8 1;
  _ ← delay_us 500;
  _ ← writeReg32 0xcee8 4;
  _ ← delay_us 500;
  errLoop ← readReg32 ERROR_GEN6;
  _ ← clearError 5 errLoop;
  readLog [0xceec].
(** [TGL.cpp:3724-3748 start] *)
Definition maskLog : M unit :=
  rcsEir ← readReg32 (RING_EIR RENDER_RING_BASE);
  _ ← when (truthy rcsEir)
        (_ ← writeReg32 (RING_EIR RENDER_RING_BASE) rcsEir;
         _ ← delay_us 50;
         readLog [RING_EIR RENDER_RING_BASE]);
  readLog [ RING_HEAD RENDER_RING_BASE; RING_TAIL RENDER_RING_BASE; RING_CTL RENDER_RING_BASE;
            RING_IPEIR RENDER_RING_BASE; RING_IPEHR RENDER_RING_BASE; RING_INSTDONE RENDER_RING_BASE; ERROR_GEN6 ].
(** [TGL.cpp:3690-3749 start] *)
Definition maskErrors : M unit :=
  preErr57 ← readReg32 ERROR_GEN6;
  _ ← readLog [RING_EMR RENDER_RING_BASE; RING_EIR RENDER_RING_BASE; RING_ESR RENDER_RING_BASE];
  _ ← writeReg32 ERROR_GEN6 0;
  _ ← delay_us 100;
  afterZero ← readReg32 ERROR_GEN6;
  _ ← when ((afterZero =? preErr57) && negb (preErr57 =? 0))
        (_ ← writeReg32 ERROR_GEN6 preErr57; _ ← delay_us 100; readLog [ERROR_GEN6]);
  _ ← writeReg32 (RING_EMR RENDER_RING_BASE) 0xFFFFFFFF;
  _ ← writeReg32 (RING_EMR BLT_RING_BASE) 0xFFFFFFFF;
  _ ← delay_us 100;
  _ ← readLog [RING_EMR RENDER_RING_BASE; RING_EMR BLT_RING_BASE];
  maskLog.
(** What is done on spoofed hardware only. [TGL.cpp:3622-3750 start] *)
Definition spoofedOnly : M unit :=
  real ← ng isRealTGL;
  when (negb real) (_ ← stopDeadBlitter; _ ← flushTlbs; maskErrors).
(** [TGL.cpp:3755-3756 start] *)
Definition releaseForceWake : M unit :=
  _ ← writeReg32 FORCEWAKE_RENDER_GEN9 (1 .<< 16);
  writeReg32 FORCEWAKE_BLITTER_GEN9 (1 .<< 16).
(** [TGL.cpp:3536-3756 start] *)
Definition startTail : M unit :=
  _ ← enableMaster;
  _ ← readLog [RENDER_RING_BASE + 0x358; BLT_RING_BASE + 0x358];
  _ ← clearErrors;
  _ ← spoofedOnly;
  releaseForceWake.
(** [TGL.cpp:3158-3487 start] *)
Definition startPost (that : Z) : M unit :=
  _ ← ensureDisplayPipeBacking that;
  _ ← dumpTglGpuBringupState "IntelAccelerator::start POST";
  _ ← poststartInterrupts;
  _ ← diagnostics;
  publishAccelerator that.
(** [TGL.cpp:2914-3759 start] *)
Definition start (that param_1 : Z) : M bool :=
  _ ← startPre that param_1;
  _ ← arm "v54IrqWatchdog" 2000;
  ret ← call "ostart" [that; param_1];
  _ ← startPost that;
  _ ← armTimers;
  _ ← startTail;
  mret (truthy (u8 ret)).
End defs.

(** ** The scheduler *)
Lemma selectScheduler_range real safe arg prop : 3 <= selectScheduler real safe arg prop <= 5.
Proof.
  unfold selectScheduler. destruct arg as [a|], prop as [p|], real, safe; cbn [andb];
    repeat case_match; simplify_eq; bools; lia.
Qed.

(** C22 (type). The scheduler the driver is told to use is always one of the three it has (3, 4, 5); under
    the safe policy it is 5 whatever was asked for. Otherwise a boot argument in range wins over the
    provider's property, a property in range over the platform's default, and a value out of
    range counts as absent. *)
Theorem scheduler_type_valid (real tryguc : bool) (arg prop : option Z) :
  let safe := negb real && negb tryguc in
  let inRange v := 3 <= v <= 5 in
  let s := selectScheduler real safe arg prop in
  inRange s /\ (safe = true -> s = 5) /\
  (safe = false ->
     (forall v, arg = Some v -> inRange (s32 v) -> s = s32 v) /\
     ((forall v, arg = Some v -> ~ inRange (s32 v)) ->
        (forall v, prop = Some v -> inRange v -> s = v) /\
        ((forall v, prop = Some v -> ~ inRange v) -> s = if real then 3 else 5))).
Proof.
  intros safe inRange s. subst s. unfold selectScheduler.
  assert (Hr : forall v, ((3 <=? v) && (v <=? 5)) = true <-> inRange v).
  { intros v. unfold inRange. rewrite andb_true_iff, !Z.leb_le. done. }
  assert (Hd : inRange (if real then 3 else 5)) by (unfold inRange; destruct real; lia).
  assert (H5 : safe = true -> real = false) by (unfold safe; by destruct real).
  assert (Hp : let s := match prop with
      | Some val => if safe && negb (val =? 5) then 5 else if (3 <=? val) && (val <=? 5) then val else if real then 3 else 5
      | None => if real then 3 else 5 end in
    inRange s /\ (safe = true -> s = 5) /\ (safe = false -> (forall v, prop = Some v -> inRange v -> s = v) /\
        ((forall v, prop = Some v -> ~ inRange v) -> s = if real then 3 else 5))).
  { destruct prop as [v|]; cbv zeta; [|split; [done|]; split; [by intros ->%H5|by intros _]].
    specialize (Hr v). destruct safe; cbn [andb].
    - destruct (Z.eqb_spec v 5) as [->|]; cbn [negb]; split; try split; try done; unfold inRange; lia.
    - destruct ((3 <=? v) && (v <=? 5)).
      + split; [by apply Hr|]. split; [done|]. intros _. split; [by intros ? [= ->]|].
        intros Hn. destruct (Hn v eq_refl). by apply Hr.
      + split; [done|]. split; [done|]. intros _. split; [|done]. intros ? [= <-] Hi. apply Hr in Hi. done. }
  cbv zeta in Hp. destruct Hp as (P1 & P2 & P3). destruct arg as [v|]; cycle 1.
  { split; [done|]. split; [done|]. intros Hs. split; [done|]. intros _. by apply P3. }
  specialize (Hr (s32 v)). destruct ((3 <=? s32 v) && (s32 v <=? 5)); cycle 1.
  { split; [done|]. split; [done|]. intros Hs. split; [|intros _; by apply P3].
    intros ? [= <-] Hi. apply Hr in Hi. done. }
  assert (Hi : inRange (s32 v)) by by apply Hr. destruct safe; cbn [andb].
  - destruct (Z.eqb_spec (s32 v) 5); cbn [negb]; split; try split; try done; unfold inRange; lia.
  - split; [done|]. split; [done|]. intros _. split; [by intros ? [= ->]|].
    intros Hn. by destruct (Hn v eq_refl).
Qed.

(** ** Running start *)
Section total.
Context `{Platform} `{!SteadyClock}.
Lemma total_awaitRenderAck : total awaitRenderAck.
Proof.
  intros w. destruct (now_ns_run w) as (w0 & E & Ht & _). unfold awaitRenderAck, mbind at 1, M_bind at 1. rewrite E.
  set (deadline := uptime (w_hw w) + _).
  apply (forever_measure (fun _ v => Z.max 0 (deadline - uptime (w_hw v))) (fun _ v => uptime (w_hw w) <= uptime (w_hw v))).
  - intros [] v Hv. destruct (now_ns_run v) as (v1 & E1 & Ht1 & _). unfold mbind, M_bind. rewrite E1.
    destruct (Z.ltb_spec (uptime (w_hw v)) deadline); [|by eexists _, _].
    destruct (total_readReg32 FORCEWAKE_ACK_RENDER_GEN9 v1) as (a & v2 & E2). rewrite E2.
    pose proof (respects_done _ _ _ _ _ (forward_readReg32 _) E2) as Hf. unfold forward in Hf.
    destruct (truthy _); eexists _, _; (split; [reflexivity|]); [done|]. split; lia.
  - intros. lia.
  - lia.
  - subst deadline. lia.
Qed.
Lemma total_clearError n err : total (clearError n err).
Proof. revert err. induction n as [|n IH]; intros err; cbn [clearError]; total_auto. Qed.
Hint Resolve total_awaitRenderAck total_clearError total_wa_add : ng.
Lemma total_startPre that p : total (startPre that p).
Proof.
  unfold startPre, plistScheduler, publishScheduler, tracePre, readDeviceIdFromService, injectMultiForceWake,
    extendDevelopment, prestartRegs, prestartErrors, startWorkarounds, prestartInterrupts, routeInterrupts, zeroError,
    readLog, set_bringup, shouldGateExternalDisplayBringup, wa_write_or, wa_mcr_write_or, wa_mcr_write_clr_set,
    wa_mcr_add, wa_write_clr_set, wa_masked_en, wa_masked_field_set. total_auto.
Qed.
Lemma total_startPost that : total (startPost that).
Proof.
  unfold startPost, ensureDisplayPipeBacking, rescueDisplayMachine, shouldGateExternalDisplayBringup, poststartInterrupts,
    routeInterrupts, zeroError, diagnostics, ackBits, publishAccelerator, logServicePublishSnapshot, injectGpuProperties,
    applyDisplayPipePolicy, readLog. total_auto.
Qed.
Lemma total_armTimers : total armTimers.
Proof. unfold armTimers, v45ScheduleDelayedCheck, arm. total_auto. Qed.
Lemma total_startTail : total startTail.
Proof.
  unfold startTail, enableMaster, clearErrors, clearEngineErrors, spoofedOnly, stopDeadBlitter, flushTlbs, maskErrors,
    maskLog, releaseForceWake, readLog. total_auto.
Qed.
End total.
#[export] Hint Resolve total_startPre total_startPost total_startTail : ng.

(** ** What start leaves behind *)
Section tail.
Context `{Platform} `{!SteadyClock}.

Lemma holds_clearError n err J : apartFrom J ERROR_GEN6 = true -> respects (holds J) (clearError n err).
Proof.
  intros Ha. revert err. induction n as [|n IH]; intros err; cbn [clearError]; [by apply respects_ret, holds_preorder|].
  destruct (truthy err); [|by apply respects_ret, holds_preorder].
  apply respects_bind; [exact _|by apply holds_write|intros _]. apply respects_bind; [exact _|by apply holds_pause|intros _].
  apply respects_bind; [exact _|by apply holds_read|intros e; apply IH].
Qed.
Definition MSTR : list Z := [GEN11_GFX_MSTR_IRQ].
Definition MASKS : list Z := [RING_EMR RENDER_RING_BASE; RING_EMR BLT_RING_BASE].
Lemma holds_clearErrors : respects (holds MSTR) clearErrors.
Proof. unfold clearErrors, clearEngineErrors. holds_auto. by apply holds_clearError. Qed.
Lemma holds_maskErrors : respects (holds MSTR) maskErrors.
Proof. unfold maskErrors, maskLog. holds_auto. Qed.
Lemma holds_stopAndFlush : respects (holds MSTR) (_ ← stopDeadBlitter; flushTlbs).
Proof. unfold stopDeadBlitter, flushTlbs. holds_auto. by apply holds_clearError. Qed.

(** Both error masks are written with all ones, and not touched afterwards. *)
Lemma maskErrors_run w :
  Live w -> exists w', maskErrors w = Done () w' /\
    assured (RING_EMR RENDER_RING_BASE) isMasked (w_tr w') (w_tr w) /\
    assured (RING_EMR BLT_RING_BASE) isMasked (w_tr w') (w_tr w).
Proof.
  intros Hl. assert (Tm : total maskErrors) by (unfold maskErrors, maskLog, readLog; total_auto).
  destruct (Tm w) as ([] & w' & E). exists w'. split; [done|]. unfold maskErrors in E.
  assert (Hp : Live w /\ exists n, w_tr w = n ++ w_tr w) by (split; [done|by exists []]).
  assert (Step : forall A (m : M A) u a u', (Live u /\ exists n, w_tr u = n ++ w_tr w) -> respects (holds []) m ->
    m u = Done a u' -> Live u' /\ exists n, w_tr u' = n ++ w_tr w).
  { intros A m u a u' [Lu (n & Tu)] Hm Em. destruct (holds_extends [] m u a u' Hm Lu Em) as (Lu' & n' & Tu').
    split; [done|]. exists (n' ++ n). by rewrite Tu', Tu, app_assoc. }
  apply bind_done in E as (pre & w1 & E1 & E). apply Step in E1 as P1; [|done|holds_auto].
  apply bind_done in E as ([] & w2 & E2 & E). apply Step in E2 as P2; [|done|holds_auto].
  apply bind_done in E as ([] & w3 & E3 & E). apply Step in E3 as P3; [|done|holds_auto].
  apply bind_done in E as ([] & w4 & E4 & E). apply Step in E4 as P4; [|done|holds_auto].
  apply bind_done in E as (az & w5 & E5 & E). apply Step in E5 as P5; [|done|holds_auto].
  apply bind_done in E as ([] & w6 & E6 & E). apply Step in E6 as [L6 (n6 & T6)]; [|done|holds_auto].
  apply bind_done in E as ([] & w7 & E7 & E). apply bind_done in E as ([] & w8 & E8 & E).
  destruct (wr (RING_EMR RENDER_RING_BASE) 0xFFFFFFFF w6 L6) as (x & Ex & S7 & T7); [done..|].
  rewrite E7 in Ex. injection Ex as <-. pose proof (live_soft _ _ S7 L6) as L7.
  destruct (wr (RING_EMR BLT_RING_BASE) 0xFFFFFFFF w7 L7) as (x & Ex & S8 & T8); [done..|].
  rewrite E8 in Ex. injection Ex as <-.
  assert (Hr : respects (holds MASKS) (_ ← delay_us 100;
    _ ← readLog [RING_EMR RENDER_RING_BASE; RING_EMR BLT_RING_BASE]; maskLog)) by (unfold maskLog; holds_auto).
  destruct (holds_done MASKS _ w8 () w' Hr (live_soft _ _ S8 L7) E) as (_ & _ & K).
  split; (eapply assured_later; [apply K; in_list|]); rewrite T8, T7.
  - exists [EWr (RING_EMR BLT_RING_BASE .>> 2) 0xFFFFFFFF], 0xFFFFFFFF, n6. rewrite <-T6.
    split; [by repeat constructor|]. split; [done|]. by left.
  - exists [], 0xFFFFFFFF, (EWr (RING_EMR RENDER_RING_BASE .>> 2) 0xFFFFFFFF :: n6). simpl. rewrite <-T6.
    split; [done|]. split; [done|]. by left.
Qed.

Lemma release_run w : Live w ->
  exists w', releaseForceWake w = Done () w' /\ (forall j, j ∈ MSTR ++ MASKS -> emits (spares j) w w') /\
    w_tr w' = EWr (FORCEWAKE_BLITTER_GEN9 .>> 2) 0x10000 :: EWr (FORCEWAKE_RENDER_GEN9 .>> 2) 0x10000 :: w_tr w.
Proof.
  intros Hl. destruct (wr FORCEWAKE_RENDER_GEN9 (1 .<< 16) w Hl) as (w1 & E1 & S1 & T1); [done..|].
  destruct (wr FORCEWAKE_BLITTER_GEN9 (1 .<< 16) w1 (live_soft _ _ S1 Hl)) as (w2 & E2 & S2 & T2); [done..|].
  assert (E : releaseForceWake w = Done () w2) by (unfold releaseForceWake, mbind, M_bind; by rewrite E1).
  assert (Hh : respects (holds (MSTR ++ MASKS)) releaseForceWake) by (unfold releaseForceWake; holds_auto).
  destruct (holds_done (MSTR ++ MASKS) _ _ _ _ Hh Hl E) as (_ & _ & K).
  exists w2. split; [done|]. split; [done|]. by rewrite T2, T1.
Qed.

Lemma spoofedOnly_run w : Live w ->
  exists w', spoofedOnly w = Done () w' /\ Live w' /\ emits (spares GEN11_GFX_MSTR_IRQ) w w' /\
    (isRealTGL (w_ng w) = false -> forall r, r ∈ MASKS -> assured r isMasked (w_tr w') (w_tr w)).
Proof.
  intros Hl. unfold spoofedOnly, mbind at 1, M_bind at 1, ng, gets.
  destruct (isRealTGL (w_ng w)); cbn [negb when]; [by exists w|].
  assert (Ta : total (_ ← stopDeadBlitter; flushTlbs)).
  { pose proof total_clearError. unfold stopDeadBlitter, flushTlbs, readLog. total_auto. }
  destruct (Ta w) as ([] & w1 & E1). destruct (holds_done MSTR _ w () w1 holds_stopAndFlush Hl E1) as (_ & L1 & K1).
  destruct (holds_extends MSTR _ w () w1 holds_stopAndFlush Hl E1) as (_ & n & T1).
  destruct (maskErrors_run w1 L1) as (w2 & E2 & A1 & A2).
  destruct (holds_done MSTR maskErrors w1 () w2 holds_maskErrors L1 E2) as (_ & L2 & K2).
  exists w2. apply bind_done in E1 as ([] & x & Ex & E1). split; [unfold mbind, M_bind; by rewrite Ex, E1|].
  split; [done|]. split; [etrans; [apply K1; by left|apply K2; by left]|].
  intros _ r Hr. apply list_elem_of_In in Hr as [<-|[<-|[]]]; by eapply assured_since.
Qed.
Lemma startTail_run w : Live w ->
  exists w' tr, startTail w = Done () w' /\
    assured GEN11_GFX_MSTR_IRQ masterOn (w_tr w') (w_tr w) /\
    (isRealTGL (w_ng w) = false -> forall r, r ∈ MASKS -> assured r isMasked (w_tr w') (w_tr w)) /\
    w_tr w' = EWr (FORCEWAKE_BLITTER_GEN9 .>> 2) 0x10000 :: EWr (FORCEWAKE_RENDER_GEN9 .>> 2) 0x10000 :: tr.
Proof.
  intros Hl. destruct (fixes_run _ _ _ [] w master_fixes eq_refl Hl) as (w1 & E1 & S1 & L1 & A1 & (n1 & T1) & _).
  set (mid := (_ ← readLog [RENDER_RING_BASE + 0x358; BLT_RING_BASE + 0x358]; clearErrors) : M unit).
  assert (Hm : respects (holds MSTR) mid) by (pose proof holds_clearErrors; unfold mid; holds_auto; done).
  assert (Tm : total mid).
  { pose proof total_clearError. unfold mid, clearErrors, clearEngineErrors, readLog. total_auto. }
  destruct (Tm w1) as ([] & w2 & E2). destruct (holds_done MSTR mid w1 () w2 Hm L1 E2) as (S2 & L2 & K2).
  destruct (holds_extends MSTR mid w1 () w2 Hm L1 E2) as (_ & n2 & T2).
  destruct (spoofedOnly_run w2 L2) as (w3 & E3 & L3 & K3 & A3).
  destruct (release_run w3 L3) as (w4 & E4 & K4 & T4). exists w4, (w_tr w3). split.
  { unfold mid in E2. apply bind_done in E2 as ([] & x & Ex & E2). unfold startTail, mbind, M_bind.
    change enableMaster with watchMaster. by rewrite E1, Ex, E2, E3, E4. }
  split; [|split; [|done]].
  - eapply assured_later; [apply K4; in_list|]. eapply assured_later; [exact K3|].
    eapply assured_later; [apply K2; by left|exact A1].
  - intros Hr r Hin. eapply assured_later; [apply K4; apply elem_of_app; by right|].
    assert (N : w_ng w2 = w_ng w) by (destruct S1 as [N1 _], S2 as [N2 _]; congruence).
    apply (assured_since _ _ _ (w_tr w2) _ (n2 ++ n1)); [by rewrite T2, T1, app_assoc|]. apply A3; [by rewrite N|done].
Qed.

(** The plugin's view of the mapping and of the platform; up to its tail, start leaves it alone. *)
Definition mapping (w : world) : option Z * bool * bool := (rmmio (w_ng w), rmmioPtr (w_ng w), isRealTGL (w_ng w)).
Section mapping.
Context `{!Benign (keeps mapping)}.
#[local] Instance mapping_frame : Frame (keeps mapping).
Proof. split; [exact _|exact _|]. unfold keeps, mapping. by intros w w' -> _. Qed.
Lemma mapping_set_g11 f : respects (keeps mapping) (set_g11 f).
Proof. by apply keeps_modify. Qed.
Lemma mapping_wa r c v m b : respects (keeps mapping) (wa_add r c v m b).
Proof. unfold wa_add. frame_auto. Qed.
Hint Resolve mapping_set_g11 mapping_wa : ngframe.
Lemma mapping_startPre that p : respects (keeps mapping) (startPre that p).
Proof.
  unfold startPre, plistScheduler, publishScheduler, tracePre, readDeviceIdFromService, injectMultiForceWake,
    extendDevelopment, prestartRegs, awaitRenderAck, prestartErrors, startWorkarounds, prestartInterrupts, routeInterrupts,
    zeroError, readLog, shouldGateExternalDisplayBringup, wa_write_or, wa_mcr_write_or, wa_mcr_write_clr_set,
    wa_mcr_add, wa_write_clr_set, wa_masked_en, wa_masked_field_set. frame_auto.
Qed.
Lemma mapping_startPost that : respects (keeps mapping) (startPost that).
Proof.
  unfold startPost, ensureDisplayPipeBacking, rescueDisplayMachine, shouldGateExternalDisplayBringup, poststartInterrupts,
    routeInterrupts, zeroError, diagnostics, ackBits, publishAccelerator, logServicePublishSnapshot, injectGpuProperties,
    applyDisplayPipePolicy, readLog. frame_auto.
Qed.
Lemma mapping_arm f ms : respects (keeps mapping) (arm f ms).
Proof. unfold arm. frame_auto. Qed.
Lemma mapping_armTimers : respects (keeps mapping) armTimers.
Proof. pose proof mapping_arm. unfold armTimers, v45ScheduleDelayedCheck. frame_auto; auto. Qed.

(** C17 (liveness). With the registers mapped, on a steady clock and as long as the functions
    of the driver it calls return and leave the mapping alone, start returns, with what the
    driver's own start returned. After the driver's start and everything that follows it,
    whatever the hardware answers: the master interrupt was seen on or turned on and the
    plugin has not written it since, and the last two things done are the releases of both
    force-wake requests; on spoofed hardware the error masks of both command streamers
    were written with all ones, and neither has been written since. *)
Theorem start_returns_gpu_ready (that p : Z) (w : world) :
  Live w ->
  exists ret w' w1 w2 w3 tr, start that p w = Done (truthy (u8 ret)) w' /\
    call "ostart" [that; p] w1 = Done ret w2 /\ (_ ← startPost that; armTimers) w2 = Done () w3 /\
    assured GEN11_GFX_MSTR_IRQ masterOn (w_tr w') (w_tr w3) /\
    w_tr w' = EWr (FORCEWAKE_BLITTER_GEN9 .>> 2) 0x10000 :: EWr (FORCEWAKE_RENDER_GEN9 .>> 2) 0x10000 :: tr /\
    (isRealTGL (w_ng w) = false ->
       assured (RING_EMR RENDER_RING_BASE) isMasked (w_tr w') (w_tr w3) /\
       assured (RING_EMR BLT_RING_BASE) isMasked (w_tr w') (w_tr w3)).
Proof.
  intros (len & Hl). destruct (total_startPre that p w) as ([] & w0 & E0).
  destruct (arm_run "v54IrqWatchdog" 2000 w0) as (w1 & E1 & _ & N1 & _).
  destruct (total_call "ostart" [that; p] w1) as (ret & w2 & E2). destruct (total_startPost that w2) as ([] & w3 & E3).
  destruct (total_armTimers w3) as ([] & w4 & E4).
  pose proof (respects_done _ _ _ _ _ (mapping_startPre that p) E0) as N0.
  pose proof (respects_done _ _ _ _ _ (frame_call (keeps mapping) _ _) E2) as N2.
  pose proof (respects_done _ _ _ _ _ (mapping_startPost that) E3) as N3.
  pose proof (respects_done _ _ _ _ _ mapping_armTimers E4) as N4.
  assert (N : mapping w4 = mapping w).
  { unfold keeps, mapping in N0, N2, N3, N4 |- *. rewrite N1 in N2. congruence. }
  injection N as Nr Np Nt.
  destruct (startTail_run w4) as (w' & tr & E5 & Hm & Hs & T); [exists len; by rewrite Nr, Np|].
  exists ret, w', w1, w2, w4, tr. rewrite Nt in Hs.
  split; [unfold start, mbind, M_bind; by rewrite E0, E1, E2, E3, E4, E5|]. split; [done|].
  split; [unfold mbind, M_bind; by rewrite E3, E4|]. split; [done|]. split; [done|].
  intros Hr. split; apply Hs; done || in_list.
Qed.
End mapping.
End tail.

(** *** Timers *)
Section timers.
Context `{Platform} `{!SteadyClock}.
(** The arming of a timer, and the call of the driver's own start. *)
Definition isSchedule (e : event) : bool :=
  match e with ESchedule _ _ => true | ECall f _ => String.eqb f "ostart" | _ => false end.
(** The timers armed so far and the calls of the driver's start between them, latest first. *)
Definition timers (w : world) : list event := List.filter isSchedule (w_tr w).
Context `{!Benign (keeps timers)}.
Lemma tm_silent (m : M unit) f : (forall w, w_tr (f w) = w_tr w) -> respects (keeps timers) (modify f).
Proof. intros Hf. apply keeps_modify. intros w. unfold timers. by rewrite Hf. Qed.
Lemma tm_set_g11 f : respects (keeps timers) (set_g11 f).
Proof. by apply (tm_silent (mret ())). Qed.
Lemma tm_store n a v : respects (keeps timers) (store n a v).
Proof. by apply (tm_silent (mret ())). Qed.
Lemma tm_setProperty o k v : respects (keeps timers) (setProperty o k v).
Proof. by apply keeps_modify. Qed.
Lemma tm_ptr_read i : respects (keeps timers) (ptr_read i).
Proof. intros w. unfold ptr_read. by destruct (mmio_read _ _). Qed.
Lemma tm_ptr_write i v : respects (keeps timers) (ptr_write i v).
Proof. by intros w. Qed.
Lemma tm_read r : respects (keeps timers) (readReg32 r).
Proof. apply respects_readReg32; [exact _|exact tm_ptr_read|exact tm_ptr_write]. Qed.
Lemma tm_write r v : respects (keeps timers) (writeReg32 r v).
Proof. apply respects_writeReg32; [exact _|exact tm_ptr_read|exact tm_ptr_write]. Qed.
Lemma tm_wa r c v m b : respects (keeps timers) (wa_add r c v m b).
Proof. apply respects_wa_add; [exact _|exact tm_ptr_read|exact tm_ptr_write]. Qed.
Lemma tm_delay us : respects (keeps timers) (delay_us us).
Proof. by intros w. Qed.
Lemma tm_now : respects (keeps timers) now_ns.
Proof. intros w. unfold now_ns. by destruct (clock_ns _). Qed.
Lemma call_run f args w : exists r w', call f args w = Done r w' /\ timers w' = timers (emit (ECall f args) w).
Proof.
  unfold call. pose proof (benign (R := keeps timers) f args (emit (ECall f args) w)) as Hb.
  destruct (original _ _ _) as [r w']. by exists r, w'.
Qed.
Lemma tm_call f args : String.eqb f "ostart" = false -> respects (keeps timers) (call f args).
Proof.
  intros Hf w. destruct (call_run f args w) as (r & w' & -> & T). cbn [final]. unfold keeps. rewrite T.
  unfold timers. simpl. by rewrite Hf.
Qed.
#[local] Instance tm_dump_safe : DumpSafe (keeps timers).
Proof. split; [exact _|exact tm_read|intros; apply tm_set_g11|intros; apply tm_set_g11]. Qed.
Hint Resolve tm_set_g11 tm_store tm_setProperty tm_read tm_write tm_wa tm_delay tm_now : ng.
Hint Extern 1 (respects (keeps timers) (call _ _)) => apply tm_call; reflexivity : ng.

Lemma tm_startPre that p : respects (keeps timers) (startPre that p).
Proof.
  unfold startPre, plistScheduler, publishScheduler, tracePre, readDeviceIdFromService, injectMultiForceWake,
    extendDevelopment, prestartRegs, awaitRenderAck, prestartErrors, startWorkarounds, prestartInterrupts, routeInterrupts,
    zeroError, readLog, shouldGateExternalDisplayBringup, wa_write_or, wa_mcr_write_or, wa_mcr_write_clr_set,
    wa_mcr_add, wa_write_clr_set, wa_masked_en, wa_masked_field_set. respects_auto.
Qed.
Lemma tm_startPost that : respects (keeps timers) (startPost that).
Proof.
  unfold startPost, ensureDisplayPipeBacking, rescueDisplayMachine, shouldGateExternalDisplayBringup, poststartInterrupts,
    routeInterrupts, zeroError, diagnostics, ackBits, publishAccelerator, logServicePublishSnapshot, injectGpuProperties,
    applyDisplayPipePolicy, readLog. respects_auto.
Qed.
Lemma tm_clearError n err : respects (keeps timers) (clearError n err).
Proof. revert err. induction n as [|n IH]; intros err; cbn [clearError]; respects_auto. Qed.
Lemma tm_startTail : respects (keeps timers) startTail.
Proof.
  pose proof tm_clearError. unfold startTail, enableMaster, clearErrors, clearEngineErrors, spoofedOnly, stopDeadBlitter,
    flushTlbs, maskErrors, maskLog, releaseForceWake, readLog. respects_auto.
Qed.
Lemma arm_all l w :
  allocOk "thread_call" = true ->
  exists w', iterM l v45ScheduleDelayedCheck w = Done () w' /\
    w_tr w' = rev (map (ESchedule "v45DelayedChildCheck") l) ++ w_tr w.
Proof.
  intros Ha. revert w. induction l as [|ms l IH]; intros w; [by exists w|]. cbn [iterM map rev].
  unfold mbind, M_bind, v45ScheduleDelayedCheck at 1.
  destruct (arm_run "v45DelayedChildCheck" ms w) as (w1 & -> & _ & _ & _ & T1). rewrite Ha in T1.
  destruct (IH w1) as (w' & -> & T). exists w'. split; [done|]. rewrite T, T1. by rewrite <-app_assoc.
Qed.
Lemma armTimers_run w : allocOk "thread_call" = true ->
  exists w', armTimers w = Done () w' /\
    timers w' = (if isExperimentalMonitorEnabled then [ESchedule "v60GpuHealthMonitor" 2000] else []) ++
      ESchedule "v71EmrEnforcer" 50 :: rev (map (ESchedule "v45DelayedChildCheck") childCheckDelays) ++ timers w.
Proof.
  intros Ha. destruct (arm_all childCheckDelays w Ha) as (w1 & E1 & T1).
  destruct (arm_run "v71EmrEnforcer" 50 w1) as (w2 & E2 & _ & _ & _ & T2). rewrite Ha in T2.
  assert (F2 : timers w2 = ESchedule "v71EmrEnforcer" 50 :: rev (map (ESchedule "v45DelayedChildCheck") childCheckDelays) ++ timers w).
  { unfold timers. rewrite T2, T1. reflexivity. }
  unfold armTimers, mbind, M_bind. rewrite E1, E2. destruct isExperimentalMonitorEnabled; cbn [when]; [|by exists w2].
  destruct (arm_run "v60GpuHealthMonitor" 2000 w2) as (w3 & E3 & _ & _ & _ & T3). rewrite Ha in T3.
  exists w3. split; [done|]. unfold timers in *. rewrite T3. cbn [app List.filter isSchedule]. by rewrite F2.
Qed.

End timers.

(** ** Evaluations *)
Import Sim.
#[local] Instance start_plat : Platform := sim_platform_with [("ngreenSched", 4)] ["-ngreenexp"] 1.
(** Errors pending, interrupts off. *)
Definition pending : world := sim_world [(ERROR_GEN6 .>> 2, 0x7b); (RING_EMR RENDER_RING_BASE .>> 2, 0xfffffffa)].
Lemma start_returns_gpu_ready_witness :
  exists ret w' w1 w2 w3 tr, start 0x500 0x600 pending = Done (truthy (u8 ret)) w' /\
    call "ostart" [0x500; 0x600] w1 = Done ret w2 /\ (_ ← startPost 0x500; armTimers) w2 = Done () w3 /\
    assured GEN11_GFX_MSTR_IRQ masterOn (w_tr w') (w_tr w3) /\
    w_tr w' = EWr (FORCEWAKE_BLITTER_GEN9 .>> 2) 0x10000 :: EWr (FORCEWAKE_RENDER_GEN9 .>> 2) 0x10000 :: tr /\
    (isRealTGL (w_ng pending) = false ->
       assured (RING_EMR RENDER_RING_BASE) isMasked (w_tr w') (w_tr w3) /\
       assured (RING_EMR BLT_RING_BASE) isMasked (w_tr w') (w_tr w3)).
Proof.
  apply (@start_returns_gpu_ready _ start_plat sim_clock (sim_benign _ _ _ (keeps mapping)) 0x500 0x600 pending).
  apply sim_live.
Defined.
Example boot_argument_wins : selectScheduler false false (Some 4) (Some 3) = 4.
Proof. reflexivity. Qed.
End Start.
