(* ===== verification/Monitor.v ===== *)
(** * Delayed checks and the health monitor (TGL.cpp)

    The callback that registers children of the accelerator that were never published, and
    the monitor that, every two seconds for two minutes, suppresses errors, enforces
    interrupt delivery and, on request, rewrites the scanout plane. *)
From S2P Require Import Prelude Machine Memory Sim Regs Mmio BootArgs RegHooks ForceWake Trace Frame Reset.
From S2P Require Import Display Controller Dyld Plugin Hold Watchdog Start.
Import Regs Mmio BootArgs RegHooks Trace Reset Display Watchdog.

Module Monitor.
Section defs.
Context `{Platform}.
(** [getName], the class name and [getState] of a service. *)
Context (nameOf classOf : Z -> world -> option string) (stateOf : Z -> world -> Z).

(** The services among the clients. *)
Definition clientServices (svc : Z) : M (list Z) :=
  gets (fun w => List.filter (isClass "IOService") (clientsOf svc w)).

(** *** The delayed check *)
(** [TGL.cpp:1965-1967 v45DelayedChildCheck] *)
Definition rescuable (name : option string) : bool :=
  match name with
  | Some n => String.eqb n "IGAccelDevice" || String.eqb n "IGAccelSharedUserClient"
  | None => false
  end.
(** [TGL.cpp:1955-1989 v45DelayedChildCheck] *)
Definition checkChild (delayMs child : Z) : M unit :=
  state ← gets (stateOf child);
  name ← gets (nameOf child);
  when ((3000 <=? delayMs) && rescuable name && (state =? 0))
    (_ ← call "registerService" [child]; delay_us 500).
(** The rest of the callback only logs. [TGL.cpp v45DelayedChildCheck] *)
Definition v45DelayedChildCheck (svc delayMs : Z) : M unit :=
  _ ← logServicePublishSnapshot svc;
  children ← clientServices svc;
  iterM children (checkChild delayMs).

(** *** Counting children *)
(** The number of services and the state of the last one named IGAccelDevice.
    [TGL.cpp:2075-2091 v60GpuHealthMonitor] *)
Definition surveyChildren (children : list Z) (w : world) : Z * Z :=
  ( Z.of_nat (length children),
    foldl (fun acc c => match nameOf c w with
                        | Some n => if String.eqb n "IGAccelDevice" then u64 (stateOf c w) else acc
                        | None => acc
                        end) 0xDEAD children ).
(** [TGL.cpp:2123-2135 v60GpuHealthMonitor] *)
Definition lossReads : list Z :=
  [ERROR_GEN6; GEN8_FAULT_TLB_DATA0; GEN8_FAULT_TLB_DATA1; GEN12_RING_FAULT_REG] ++
  flat_map (fun pg => [GGTT_PTE_LO pg; GGTT_PTE_HI pg]) [0; 1; 2; 3].
(** [TGL.cpp:2094-2140 v60GpuHealthMonitor] *)
Definition trackChildren (childCount accelDevState : Z) : M unit :=
  lastChildCount ← g11 v60LastChildCount;
  lastAccelDevState ← g11 v60LastAccelDevState;
  when (negb (childCount =? lastChildCount) || negb (accelDevState =? lastAccelDevState))
    (_ ← when ((accelDevState =? 0xDEAD) && negb (lastAccelDevState =? 0xDEAD) && negb (lastAccelDevState =? 0xBEEF))
           (readLog lossReads);
     set_g11 (fun g => g <| v60LastChildCount := childCount |> <| v60LastAccelDevState := accelDevState |>)).
(** [TGL.cpp:2146-2174 v60GpuHealthMonitor] *)
Definition killDisplayPipes (svc count : Z) : M unit :=
  let v77KillDelay := getV77KillDelayIterations in
  if (0 <? v77KillDelay) && (count <=? v77KillDelay) then mret ()
  else
    children ← clientServices svc;
    iterM children (fun c =>
      cls ← gets (classOf c);
      when (match cls with Some n => contains "DisplayPipe" n | None => false end)
        (_ ← call "terminate" [c]; mret ())).

(** *** Errors and interrupts *)
(** [TGL.cpp:2178-2202 v60GpuHealthMonitor] *)
Definition suppress (realErr emr : Z) : M unit :=
  _ ← when (truthy realErr) (writeReg32 ERROR_GEN6 0);
  _ ← when (negb (emr =? 0xFFFFFFFF)) (writeReg32 (RING_EMR RENDER_RING_BASE) 0xFFFFFFFF);
  _ ← readLog [ERROR_GEN6; GEN11_GT_INTR_DW0; GEN11_RENDER_COPY_INTR_ENABLE];
  when (truthy realErr) (readLog [GEN8_FAULT_TLB_DATA0; GEN8_FAULT_TLB_DATA1]).
(** [TGL.cpp:2207-2233 v60GpuHealthMonitor] *)
Definition firstReads : list Z :=
  flat_map (fun i => [RING_CONTEXT_STATUS_BUF_HI RENDER_RING_BASE i; RING_CONTEXT_STATUS_BUF RENDER_RING_BASE i])
    [0; 1; 2; 3; 4; 5] ++
  [ GEN11_RENDER_COPY_INTR_ENABLE; GEN11_RCS0_RSVD_INTR_MASK; GEN11_GT_INTR_DW0; GEN11_GFX_MSTR_IRQ;
    GEN11_INTR_IDENTITY_REG0; GEN11_INTR_IDENTITY_REG1; GEN8_FAULT_TLB_DATA0; GEN8_FAULT_TLB_DATA1; 0xC000;
    RENDER_RING_BASE + 0xB0 ].
(** [TGL.cpp:2341-2354 v60GpuHealthMonitor] *)
Definition ggttReads : list Z :=
  flat_map (fun pg => [GGTT_PTE_LO (Z.of_nat pg); GGTT_PTE_HI (Z.of_nat pg)]) (seq 0 16) ++
  flat_map (fun i => [GGTT_PTE_LO (0x7FFE + i); GGTT_PTE_HI (0x7FFE + i)]) [0; 1; 2; 3].
(** The dumps of the scheduler, the object behind it and the work loop only go to the log; the
    scheduler's error word and flag are cleared. [TGL.cpp:2205-2360 v60GpuHealthMonitor] *)
Definition firstIteration (svc : Z) : M unit :=
  _ ← readLog firstReads;
  schedPtr ← load 8 (svc + 0xe00);
  _ ← when (truthy schedPtr)
        (schedErr ← load 4 (schedPtr + 0x0C);
         when (truthy schedErr) (_ ← store 4 (schedPtr + 0x0C) 0; store 4 schedPtr 0));
  readLog ggttReads.
(** The status pointer with the read index set to the write index.
    [TGL.cpp:2367-2372 v60GpuHealthMonitor] *)
Definition csbAdvanced (ptr : Z) : Z := (ptr .& not32 7) .| (((ptr .>> 8) .& 7) .& 7).
(** [TGL.cpp:2365-2380 v60GpuHealthMonitor] *)
Definition advanceCsb : M unit :=
  csbPtrNow ← readReg32 (RING_CONTEXT_STATUS_PTR RENDER_RING_BASE);
  when (negb (((csbPtrNow .>> 8) .& 7) =? (csbPtrNow .& 7)))
    (_ ← writeReg32 (RING_CONTEXT_STATUS_PTR RENDER_RING_BASE) (csbAdvanced csbPtrNow);
     readLog [RING_CONTEXT_STATUS_PTR RENDER_RING_BASE]).
(** [TGL.cpp:2385-2408 v60GpuHealthMonitor] *)
Definition enforceInterrupts (count : Z) : M unit :=
  rcIntrEn ← readReg32 GEN11_RENDER_COPY_INTR_ENABLE;
  rcsMask ← readReg32 GEN11_RCS0_RSVD_INTR_MASK;
  let wantBits := (1 .<< GEN11_RCS0) .| (1 .<< GEN11_BCS) in
  _ ← when (negb ((rcIntrEn .& wantBits) =? wantBits))
        (_ ← writeReg32 GEN11_RENDER_COPY_INTR_ENABLE (rcIntrEn .| wantBits);
         when (count <=? 3) (readLog [GEN11_RENDER_COPY_INTR_ENABLE]));
  when (truthy (rcsMask .& wantUnmasked))
    (writeReg32 GEN11_RCS0_RSVD_INTR_MASK (rcsMask .& not32 wantUnmasked)).

(** *** The scanout plane *)
(** [TGL.cpp:2414-2447 v60GpuHealthMonitor] *)
Definition linearStride (tiling stride : Z) : Z :=
  if tiling =? 1 then u32 (stride * 8) else if tiling =? 4 then u32 (stride * 16) else stride.
Definition planeMonitor (count : Z) : M unit :=
  if isExperimentalMonitorEnabled then
    when ((count <=? 5) || (count =? 10) || (count =? 20) || (count =? 30))
      (planCtl ← readReg32 0x70180;
       planStrd ← readReg32 0x70188;
       let tiling := (planCtl .>> 10) .& 7 in
       when (negb (tiling =? 0))
         (_ ← writeReg32 0x70180 (planCtl .& not32 (7 .<< 10));
          _ ← writeReg32 0x70188 (linearStride tiling planStrd);
          planSurf ← readReg32 0x7019C;
          writeReg32 0x7019C planSurf))
  else readLog [0x70180; 0x70188; 0x7019C; 0x70190; 0x7018C; 0x70008].
(** [TGL.cpp:2452-2489 v60GpuHealthMonitor] *)
Definition pipeReads : list Z :=
  [ 0x70008; 0x6001C; 0x70180; 0x70188; 0x7019C; 0x70190; 0x7018C; 0x70194; 0x60008; 0x60000; 0x6000C;
    0x60400; 0x60100; 0xC8250; 0xC8254; 0xC8254; 0x45400; 0x45504 ].
(** The physical address in a translation table entry. [TGL.cpp:2504-2505 v60GpuHealthMonitor] *)
Definition physOf (lo hi : Z) : Z := ((hi .<< 32) .| lo) .& 0x0000FFFFFFFFF000.
(** A page of physical memory mapped into the kernel for the given direction (1 in, 3 both): the
    descriptor, the map and its address, each 0 when it failed. *)
Definition mapPage (phys dir : Z) : M (Z * Z * Z) :=
  desc ← call "withPhysicalAddress" [phys; 4096; dir];
  if negb (truthy desc) then mret (0, 0, 0)
  else
    map ← call "createMappingInTask" [desc; 4096];
    if negb (truthy map) then mret (desc, 0, 0)
    else va ← call "getVirtualAddress" [map]; mret (desc, map, va).
(** Release what [mapPage] made. *)
Definition unmapPage (desc map : Z) : M unit :=
  _ ← when (truthy map) (_ ← call "release" [map]; mret ());
  when (truthy desc) (_ ← call "release" [desc]; mret ()).
(** The pixels read go to the log. [TGL.cpp:2496-2569 v60GpuHealthMonitor] *)
Definition displayProbe : M unit :=
  surfAddr ← readReg32 0x7019C;
  let surfPage := surfAddr .>> 12 in
  pteLo ← readReg32 (GGTT_PTE_LO surfPage);
  pteHi ← readReg32 (GGTT_PTE_HI surfPage);
  let physAddr := physOf pteLo pteHi in
  _ ← readLog (flat_map (fun i => [GGTT_PTE_LO (surfPage + i); GGTT_PTE_HI (surfPage + i)]) [1; 2; 3]);
  _ ← readLog [0x70240; 0x70244; 0x70268; 0x7026C; 0x70278; 0x64800; 0x64840; 0x60900];
  gammaIdx ← readReg32 0x4A400;
  _ ← writeReg32 0x4A400 0;
  _ ← readLog [0x4A404];
  _ ← writeReg32 0x4A400 128;
  _ ← readLog [0x4A404];
  _ ← writeReg32 0x4A400 255;
  _ ← readLog [0x4A404];
  _ ← writeReg32 0x4A400 gammaIdx;
  when (truthy (pteLo .& 1) && negb (physAddr =? 0))
    (m ← mapPage physAddr 1; let '(desc, map, _) := m in unmapPage desc map).

(** *** Filling the scanout buffer *)
(** [TGL.cpp:2589-2619 v60GpuHealthMonitor] *)
Definition transcoderReads : list Z :=
  [0x60008; 0x61008; 0x6F008; 0x60400; 0x6F400; 0x70024; 0x70840; 0x701CC; 0x70194; 0x70198; 0x701A4; 0x701A0].
(** At most [n] reads until the flush bit clears. [TGL.cpp:2624-2626 v60GpuHealthMonitor] *)
Fixpoint awaitFlush (n : nat) : M unit :=
  match n with
  | O => mret ()
  | S n => v ← readReg32 0x101008; if truthy (v .& 1) then awaitFlush n else mret ()
  end.
(** [TGL.cpp:2644-2648 v60GpuHealthMonitor] *)
Definition bandColor (p : Z) : Z :=
  if p <? 1000 then 0xFFFF0000 else if p <? 2000 then 0xFF00FF00 else if p <? 3000 then 0xFF0000FF else 0xFFFFFFFF.
(** [TGL.cpp:2666-2667 v60GpuHealthMonitor] *)
Definition paint (va color : Z) : M unit := iterM (seq 0 1024) (fun px => store 4 (va + 4 * Z.of_nat px) color).
(** The mapping kept for the first page. [TGL.cpp:2657-2665 v60GpuHealthMonitor] *)
Definition persistFirst (count p surfAddr desc : Z) : M unit :=
  when (p =? 0)
    (old ← g11 v85PersistMap;
     when (negb (truthy old) && (3 <=? count))
       (m ← call "createMappingInTask" [desc; 4096];
        set_g11 (fun g => g <| v85PersistMap := m |> <| v85SurfAddr := surfAddr |>))).
(** One page: whether it was filled. [TGL.cpp:2637-2671 v60GpuHealthMonitor] *)
Definition fillPage (count surfAddr p : Z) : M bool :=
  let page := (surfAddr .>> 12) + p in
  lo ← readReg32 (GGTT_PTE_LO page);
  hi ← readReg32 (GGTT_PTE_HI page);
  let phys := physOf lo hi in
  if negb (truthy (lo .& 1)) || (phys =? 0) then mret false
  else if phys <? 0x40000000 then mret false
  else
    m ← mapPage phys 3;
    let '(desc, map, va) := m in
    if truthy map then
      _ ← persistFirst count p surfAddr desc;
      _ ← paint va (bandColor p);
      _ ← unmapPage desc map; mret true
    else _ ← unmapPage desc map; mret false.
(** [TGL.cpp:2636-2672 v60GpuHealthMonitor] *)
Fixpoint fillPages (n : nat) (count surfAddr p filled : Z) : M Z :=
  match n with
  | O => mret filled
  | S n => b ← fillPage count surfAddr p; fillPages n count surfAddr (p + 1) (filled + b2z b)
  end.
(** [TGL.cpp:2679-2691 v60GpuHealthMonitor] *)
Definition togglePlane (surfAddr : Z) : M unit :=
  planCtl ← readReg32 0x70180;
  _ ← writeReg32 0x70180 (planCtl .& not32 0x80000000);
  _ ← writeReg32 0x7019C surfAddr;
  _ ← readLog (repeat 0x70180 1000);
  _ ← writeReg32 0x70180 planCtl;
  writeReg32 0x7019C surfAddr.
(** [TGL.cpp:2584-2698 v60GpuHealthMonitor] *)
Definition scanoutFill (count : Z) : M unit :=
  when (isExperimentalMonitorEnabled && isV88ScanoutFillEnabled && (1 <=? count) && (count <=? 30))
    (surfAddr ← readReg32 0x7019C;
     _ ← when (count <=? 3) (readLog transcoderReads);
     _ ← writeReg32 0x101008 1;
     _ ← awaitFlush 100;
     filled ← fillPages (Z.to_nat 4000) count surfAddr 0 0;
     _ ← when ((0 <? filled) && negb (surfAddr =? 0)) (writeReg32 0x7019C surfAddr);
     when ((count =? 5) && (0 <? filled) && negb (surfAddr =? 0)) (togglePlane surfAddr)).

(** *** The monitor *)
(** [TGL.cpp:2055-2068 v60GpuHealthMonitor] *)
Definition stateReads : list Z :=
  [ RING_EXECLIST_STATUS RENDER_RING_BASE; RING_CONTEXT_STATUS_PTR RENDER_RING_BASE; RING_ACTHD RENDER_RING_BASE;
    RING_CCID RENDER_RING_BASE; GEN12_RING_FAULT_REG ].
(** One health check with the register window mapped. [TGL.cpp:2054-2778 v60GpuHealthMonitor] *)
Definition healthCheck (svc count : Z) : M unit :=
  realErr ← readReg32 ERROR_GEN6;
  rcsHead ← readReg32 (RING_HEAD RENDER_RING_BASE);
  rcsTail ← readReg32 (RING_TAIL RENDER_RING_BASE);
  _ ← readLog [RING_CTL RENDER_RING_BASE];
  emr ← readReg32 (RING_EMR RENDER_RING_BASE);
  _ ← readLog stateReads;
  children ← clientServices svc;
  survey ← gets (surveyChildren children);
  _ ← trackChildren survey.1 survey.2;
  _ ← killDisplayPipes svc count;
  _ ← suppress realErr emr;
  _ ← when (count =? 1) (firstIteration svc);
  _ ← when (count =? 3) advanceCsb;
  _ ← enforceInterrupts count;
  _ ← planeMonitor count;
  _ ← when ((count =? 3) || (count =? 30)) (readLog pipeReads);
  _ ← when (count =? 5) displayProbe;
  _ ← scanoutFill count;
  _ ← when (count =? 5)
        (readLog [0x100000; 0x100004; 0x100008; 0x10000C; GEN8_FAULT_TLB_DATA0; GEN8_FAULT_TLB_DATA1; GEN12_RING_FAULT_REG]);
  set_g11 (fun g => g <| v60LastHead := rcsHead |> <| v60LastTail := rcsTail |>).
(** Without the register window it returns before it arms itself again.
    [TGL.cpp:2040-2792 v60GpuHealthMonitor] *)
Definition v60GpuHealthMonitor (svc : Z) : M unit :=
  _ ← set_g11 (fun g => g <| v60Count ::= fun n => s32 (n + 1) |>);
  count ← g11 v60Count;
  valid ← ng mmioValid;
  if negb valid then mret ()
  else
    _ ← healthCheck svc count;
    when (count <? 60) (arm "v60GpuHealthMonitor" 2000).
End defs.

(** ** Facts *)
Section total.
Context `{Platform} (nameOf classOf : Z -> world -> option string) (stateOf : Z -> world -> Z).
Lemma total_awaitFlush n : total (awaitFlush n).
Proof. induction n as [|n IH]; cbn [awaitFlush]; total_auto. Qed.
Lemma total_mapPage phys dir : total (mapPage phys dir).
Proof. unfold mapPage. total_auto. Qed.
Lemma total_unmapPage desc map : total (unmapPage desc map).
Proof. unfold unmapPage. total_auto. Qed.
Lemma total_paint va c : total (paint va c).
Proof. unfold paint. total_auto. Qed.
Hint Resolve total_awaitFlush total_mapPage total_unmapPage total_paint Controller.total_readLog : ng.
Lemma total_fillPage c s p : total (fillPage c s p).
Proof. unfold fillPage, persistFirst. total_auto. Qed.
Lemma total_fillPages n c s p f : total (fillPages n c s p f).
Proof. pose proof total_fillPage. revert p f. induction n as [|n IH]; intros p f; cbn [fillPages]; total_auto. Qed.
Hint Resolve total_fillPages : ng.
Lemma total_scanoutFill c : total (scanoutFill c).
Proof. unfold scanoutFill, togglePlane. total_auto. Qed.
Hint Resolve total_scanoutFill : ng.
Lemma total_healthCheck svc c : total (healthCheck nameOf classOf stateOf svc c).
Proof.
  unfold healthCheck, clientServices, trackChildren, killDisplayPipes, suppress, firstIteration, advanceCsb,
    enforceInterrupts, planeMonitor, displayProbe. total_auto.
Qed.
End total.
#[export] Hint Resolve total_healthCheck : ng.

(** What holds of a relation that accesses, delays, calls, stores and the monitor's own statics
    respect. *)
Section respects.
Context `{Platform} (nameOf classOf : Z -> world -> option string) (stateOf : Z -> world -> Z).
Context (R : relation world) `{!PreOrder R}.
Hypothesis R_read : forall r, respects R (readReg32 r).
Hypothesis R_write : forall r v, respects R (writeReg32 r v).
Hypothesis R_call : forall f args, f <> "terminate" -> f <> "withPhysicalAddress" -> respects R (call f args).
Hypothesis R_readMap : forall phys, respects R (call "withPhysicalAddress" [phys; 4096; 1]).
Hypothesis R_fillMap : forall phys, 0x40000000 <= phys -> respects R (call "withPhysicalAddress" [phys; 4096; 3]).
Hypothesis R_store : forall n a v, respects R (store n a v).
Hypothesis R_children : forall a b, respects R (set_g11 (fun g => g <| v60LastChildCount := a |> <| v60LastAccelDevState := b |>)).
Hypothesis R_persist : forall a b, respects R (set_g11 (fun g => g <| v85PersistMap := a |> <| v85SurfAddr := b |>)).
Hypothesis R_last : forall a b, respects R (set_g11 (fun g => g <| v60LastHead := a |> <| v60LastTail := b |>)).
Lemma R_readLog l : respects R (readLog l).
Proof. unfold readLog. respects_auto. Qed.
Hint Resolve R_read R_write R_readMap R_store R_children R_persist R_last R_readLog : ng.
Hint Extern 2 (respects R (call _ _)) => apply R_call; discriminate : ng.
Lemma R_awaitFlush n : respects R (awaitFlush n).
Proof. induction n as [|n IH]; cbn [awaitFlush]; respects_auto. Qed.
Lemma R_mapPage phys dir : respects R (call "withPhysicalAddress" [phys; 4096; dir]) -> respects R (mapPage phys dir).
Proof. intros. unfold mapPage. respects_auto. Qed.
Lemma R_unmapPage d m : respects R (unmapPage d m).
Proof. unfold unmapPage. respects_auto. Qed.
Lemma R_paint va c : respects R (paint va c).
Proof. unfold paint. respects_auto. Qed.
Hint Resolve R_awaitFlush R_unmapPage R_paint : ng.
Lemma R_fillPage c s p : respects R (fillPage c s p).
Proof.
  unfold fillPage, persistFirst. cbv zeta. apply respects_bind; [exact _|auto|intros lo].
  apply respects_bind; [exact _|auto|intros hi]. destruct (_ || _); [respects_auto|].
  destruct (Z.ltb_spec (physOf lo hi) 0x40000000); [respects_auto|].
  apply respects_bind; [exact _|by apply R_mapPage, R_fillMap|]. intros [[d m] va]. respects_auto.
Qed.
Lemma R_fillPages n c s p f : respects R (fillPages n c s p f).
Proof. pose proof R_fillPage. revert p f. induction n as [|n IH]; intros p f; cbn [fillPages]; respects_auto. Qed.
Hint Resolve R_fillPages : ng.
Lemma R_scanoutFill c : respects R (scanoutFill c).
Proof. unfold scanoutFill, togglePlane. respects_auto. Qed.
Lemma R_displayProbe : respects R displayProbe.
Proof. pose proof (fun p => R_mapPage p 1 (R_readMap p)). unfold displayProbe. respects_auto. Qed.
Hint Resolve R_scanoutFill R_displayProbe : ng.
Lemma R_healthCheck svc c :
  respects R (killDisplayPipes classOf svc c) -> respects R (healthCheck nameOf classOf stateOf svc c).
Proof.
  intros. unfold healthCheck, clientServices, trackChildren, suppress, firstIteration, advanceCsb,
    enforceInterrupts, planeMonitor. respects_auto.
Qed.
End respects.

(** ** Properties *)
Section properties.
Context `{Platform} (nameOf classOf : Z -> world -> option string) (stateOf : Z -> world -> Z).
Abbreviation monitor := (v60GpuHealthMonitor nameOf classOf stateOf).

(** Physical memory mapped for both directions, which is what the fill asks for before it
    paints a page, lies above the first GiB, where stolen memory is. (The probe maps one
    page for input, to log pixels; it stores nothing.) *)
Definition aboveStolen (e : event) : Prop :=
  match e with
  | ECall "withPhysicalAddress" [phys; _; dir] => dir = 3 -> 0x40000000 <= phys
  | _ => True
  end.
Lemma monitor_above_stolen `{!Benign (emits aboveStolen)} (svc : Z) : respects (emits aboveStolen) (monitor svc).
Proof.
  unfold v60GpuHealthMonitor, arm.
  assert (Hc : forall f args, f <> "withPhysicalAddress" -> respects (emits aboveStolen) (call f args)).
  { intros f args Hf. apply emits_call; [exact _|]. unfold aboveStolen. repeat case_match; done. }
  assert (Hk : forall c, respects (emits aboveStolen) (killDisplayPipes classOf svc c)).
  { intros c. unfold killDisplayPipes, clientServices. respects_auto. }
  respects_auto; [|by apply emits_schedule].
  apply R_healthCheck; auto using emits_store, emits_set_g11; try exact _; intros.
  - by apply emits_readReg32.
  - by apply emits_writeReg32.
  - apply emits_call; [exact _|]. cbn. lia.
  - apply emits_call; [exact _|]. cbn. lia.
Qed.

(** The two halves of the translation entry of a page. *)
Definition readEntry (page : Z) : M (Z * Z) :=
  lo ← readReg32 (GGTT_PTE_LO page); hi ← readReg32 (GGTT_PTE_HI page); mret (lo, hi).
(** C25 (safety). The scanout fill of the monitor reads the translation entry of each page of
    the surface, whatever the entry says: if it is not valid, or its address is 0 or below
    1 GiB, where stolen memory lies, the page is skipped (nothing is mapped, nothing is
    stored and it does not count as filled); otherwise exactly the page of the entry is
    asked to be mapped. Over a whole run of the monitor no memory below 1 GiB is mapped
    for both directions, the mapping the fill paints through, provided the functions it
    calls do not do so. (The page the display probe maps to log pixels, for input only, is
    not among these.) *)
Theorem fill_spares_stolen_memory `{!Benign (emits aboveStolen)} (svc count surfAddr p : Z) (w : world) :
  respects (emits aboveStolen) (monitor svc) /\
  exists lo hi w1, readEntry ((surfAddr .>> 12) + p) w = Done (lo, hi) w1 /\
    (truthy (lo .& 1) = false \/ physOf lo hi < 0x40000000 -> fillPage count surfAddr p w = Done false w1) /\
    (truthy (lo .& 1) = true -> 0x40000000 <= physOf lo hi ->
       exists k, fillPage count surfAddr p w = (call "withPhysicalAddress" [physOf lo hi; 4096; 3] ≫= k) w1).
Proof.
  split; [apply monitor_above_stolen|]. set (page := (surfAddr .>> 12) + p).
  destruct (total_readReg32 (GGTT_PTE_LO page) w) as (lo & w0 & E0).
  destruct (total_readReg32 (GGTT_PTE_HI page) w0) as (hi & w1 & E1).
  exists lo, hi, w1. unfold readEntry, fillPage, mbind, M_bind. fold page. rewrite E0, E1. split; [done|].
  split; intros Hv.
  - destruct Hv as [-> |Hp]; [done|]. apply Z.ltb_lt in Hp. rewrite Hp. by destruct (_ || _).
  - intros Hp. rewrite Hv, (proj2 (Z.ltb_ge _ _) Hp), (proj2 (Z.eqb_neq _ _)) by lia. cbn [negb orb].
    unfold mapPage, mbind, M_bind. eexists (fun d v => _). destruct (call _ _ w1); [|reflexivity..].
    reflexivity.
Qed.

(** *** How often it runs *)

(** What the monitor's schedule depends on. *)
Definition armings (w : world) : list event :=
  List.filter (fun e => match e with ESchedule _ _ => true | _ => false end) (w_tr w).
Definition schedState (w : world) : list event * bool * Z := (armings w, mmioValid (w_ng w), v60Count (w_g11 w)).
Definition noTerminate (e : event) : Prop := match e with ECall f _ => f <> "terminate" | _ => True end.
Context `{!Benign (keeps schedState)}.

Lemma sched_modify f :
  (forall w, w_tr (f w) = w_tr w) -> (forall w, w_ng (f w) = w_ng w) -> (forall w, v60Count (w_g11 (f w)) = v60Count (w_g11 w)) ->
  respects (keeps schedState) (modify f).
Proof. intros Ht Hn Hc. apply keeps_modify. intros w. unfold schedState, armings. by rewrite Ht, Hn, Hc. Qed.
Lemma sched_read i : respects (keeps schedState) (ptr_read i).
Proof. intros w. unfold ptr_read. by destruct (mmio_read _ _). Qed.
Lemma sched_call f args : respects (keeps schedState) (call f args).
Proof.
  intros w. unfold call, keeps. pose proof (benign (R := keeps schedState) f args (emit (ECall f args) w)) as Hb.
  destruct (original _ _ _) as [r w']. exact Hb.
Qed.
Lemma sched_healthCheck svc c : respects (keeps schedState) (healthCheck nameOf classOf stateOf svc c).
Proof.
  apply R_healthCheck; try exact _; intros; auto using sched_call; try by apply sched_modify.
  - apply respects_readReg32; [exact _|exact sched_read|by intros i v w].
  - apply respects_writeReg32; [exact _|exact sched_read|by intros i x w].
  - pose proof sched_call. unfold killDisplayPipes, clientServices. respects_auto; auto.
Qed.

(** One run: the counter goes up and the timer is armed again while it is below 60. *)
Lemma monitor_run svc w :
  mmioValid (w_ng w) = true ->
  exists w', monitor svc w = Done () w' /\
    schedState w' =
      let n := s32 (v60Count (w_g11 w) + 1) in
      ((if (n <? 60) && allocOk "thread_call" then [ESchedule "v60GpuHealthMonitor" 2000] else []) ++ armings w, true, n).
Proof.
  intros Hv. set (w0 := w <| w_g11 ::= fun g => g <| v60Count ::= fun n => s32 (n + 1) |> |>).
  set (n := s32 (v60Count (w_g11 w) + 1)).
  destruct (total_healthCheck nameOf classOf stateOf svc n w0) as ([] & w1 & E1).
  pose proof (respects_done _ _ _ _ _ (sched_healthCheck svc n) E1) as K. unfold keeps in K.
  assert (K' : schedState w1 = (armings w, true, n)) by (rewrite <-Hv; exact K).
  assert (R : monitor svc w = when (n <? 60) (arm "v60GpuHealthMonitor" 2000) w1).
  { unfold v60GpuHealthMonitor, mbind, M_bind, set_g11, modify, g11, ng, gets. fold w0.
    change (mmioValid (w_ng w0)) with (mmioValid (w_ng w)). rewrite Hv. cbn [negb].
    change (v60Count (w_g11 w0)) with n. by rewrite E1. }
  rewrite R. cbv zeta. fold n. unfold schedState in K'. destruct (n <? 60); cbn [when andb]; [|exists w1; split; [done|exact K']].
  destruct (arm_run "v60GpuHealthMonitor" 2000 w1) as (w' & -> & _ & N' & G' & T'). exists w'. split; [done|].
  unfold schedState, armings in *. rewrite T', N', G'. injection K' as K1 K2 K3.
  destruct (allocOk _); cbn [app List.filter]; by rewrite K1, K2, K3.
Qed.
(** With the default kill delay a run terminates no client. *)
Lemma monitor_spares svc w w' `{!Benign (emits noTerminate)} :
  bootarg "ngreenV77DelayKill" = None -> s32 (v60Count (w_g11 w) + 1) <= 60 -> monitor svc w = Done () w' ->
  emits noTerminate w w'.
Proof.
  intros Hb Hc E. unfold v60GpuHealthMonitor in E. apply bind_done in E as (u & w0 & E0 & E).
  unfold set_g11, modify in E0. injection E0 as <- <-. apply bind_done in E as (n & w1 & E1 & E).
  unfold g11, gets in E1. injection E1 as <- <-. apply bind_done in E as (v & w2 & E2 & E).
  unfold ng, gets in E2. injection E2 as <- <-.
  destruct (negb _); [unfold mret, M_ret in E; injection E as <-; by apply emits_silent|].
  set (w0 := w <| w_g11 ::= _ |>) in E. set (c := s32 (v60Count (w_g11 w) + 1)) in E.
  assert (Hc' : c <= 60) by exact Hc. assert (S0 : emits noTerminate w w0) by by apply emits_silent.
  etrans; [exact S0|]. clearbody c w0.
  assert (Hk : forall svc, respects (emits noTerminate) (killDisplayPipes classOf svc c)).
  { intros s. unfold killDisplayPipes, getV77KillDelayIterations. rewrite Hb. cbv zeta.
    rewrite (proj2 (Z.leb_le c 60)) by lia. cbn [andb Z.ltb Z.compare]. apply respects_ret. exact _. }
  apply (respects_done (emits noTerminate)) in E; [exact E|]. unfold arm.
  respects_auto; [|by apply emits_schedule].
  apply R_healthCheck; auto using emits_store, emits_set_g11; try exact _; intros.
  - by apply emits_readReg32.
  - by apply emits_writeReg32.
  - apply emits_call; [exact _|done].
  - apply emits_call; [exact _|done].
  - apply emits_call; [exact _|done].
Qed.

(** Let the timer fire until it is not armed again; the number of firings. *)
Fixpoint fireMonitor (fuel : nat) (svc : Z) : M Z :=
  match fuel with
  | O => out_of_fuel
  | S fuel =>
    before ← gets (fun w => length (armings w));
    _ ← monitor svc;
    after ← gets (fun w => length (armings w));
    if Nat.ltb before after then n ← fireMonitor fuel svc; mret (n + 1) else mret 1
  end.
Lemma fireMonitor_run svc (k : nat) (w : world) :
  mmioValid (w_ng w) = true -> v60Count (w_g11 w) = 59 - Z.of_nat k -> (k <= 59)%nat -> allocOk "thread_call" = true ->
  forall fuel, (k < fuel)%nat -> exists w', fireMonitor fuel svc w = Done (Z.of_nat k + 1) w' /\ v60Count (w_g11 w') = 60.
Proof.
  intros Hv Hc Hk Ha. revert w Hv Hc. induction k as [|k IH]; intros w Hv Hc fuel Hf; (destruct fuel as [|fuel]; [lia|]);
    destruct (monitor_run svc w Hv) as (w1 & E1 & K1); cbv zeta in K1;
    rewrite s32_small, Hc, Ha, andb_true_r in K1 by lia; unfold schedState in K1; injection K1 as T1 N1 C1;
    cbn [fireMonitor]; unfold mbind, M_bind, gets; rewrite E1, T1.
  - exists w1. cbn [Z.of_nat Z.sub Z.add Z.ltb Z.compare app]. rewrite Nat.ltb_irrefl. split; [done|]. rewrite C1. lia.
  - rewrite (proj2 (Z.ltb_lt _ _)) by lia. cbn [app length]. rewrite (proj2 (Nat.ltb_lt _ _)) by lia.
    destruct (IH ltac:(lia) w1 N1 ltac:(lia) fuel ltac:(lia)) as (w' & E & C). rewrite E. exists w'.
    split; [unfold mret, M_ret; f_equal; lia|done].
Qed.

(** C18 (termination). Armed once with the register window mapped, and while thread calls can
    be allocated, the monitor runs exactly 60 times and is not armed again, whatever the
    boot arguments, the hardware and the accelerator's clients are, provided the functions
    it calls do not arm timers, unmap the registers or change its counter. *)
Theorem monitor_runs_sixty_times (svc : Z) (w : world) (fuel : nat) :
  mmioValid (w_ng w) = true -> v60Count (w_g11 w) = 0 -> allocOk "thread_call" = true -> (60 <= fuel)%nat ->
  exists w', fireMonitor fuel svc w = Done 60 w' /\ v60Count (w_g11 w') = 60.
Proof. intros Hv Hc Ha Hf. apply (fireMonitor_run svc 59); [done|by rewrite Hc|lia|done|lia]. Qed.

(** Fired while the register window is not mapped, the monitor does nothing but count, and is
    never armed again. *)
Lemma unmapped_stops svc w :
  mmioValid (w_ng w) = false ->
  exists w', monitor svc w = Done () w' /\ w_tr w' = w_tr w /\ w_hw w' = w_hw w /\ w_reg w' = w_reg w.
Proof.
  intros Hv. eexists. unfold v60GpuHealthMonitor, mbind, M_bind, set_g11, modify, g11, ng, gets.
  cbn. rewrite Hv. done.
Qed.
End properties.

(** The status pointer after the advance: both indices equal, every other bit as it was. *)
Lemma csb_caught_up ptr : 0 <= ptr < 2 ^ 32 ->
  (csbAdvanced ptr .>> 8) .& 7 = csbAdvanced ptr .& 7 /\ csbAdvanced ptr .>> 3 = ptr .>> 3.
Proof.
  intros Hp. assert (H7 : forall i, 0 <= i -> Z.testbit 7 i = (i <? 3)).
  { intros i Hi. change 7 with (Z.ones 3). by apply ones_testbit. }
  unfold csbAdvanced. split; apply Z.bits_inj'; intros i Hi; autorewrite with ngbits; rewrite ?H7 by lia.
  - destruct (Z.ltb_spec i 3); bits_known; btauto.
  - bits_known. destruct (Z_lt_le_dec (i + 3) 32); bits_known; btauto.
Qed.

(** ** Evaluations *)
Import Sim.
#[local] Instance monitor_plat : Platform := sim_platform_with [] ["-ngreenexp"; "-ngreenv88"] 1.
Definition sim_name (o : Z) (w : world) : option string := if o =? 0 then None else Some "IGAccelDevice".
Definition sim_state (o : Z) (w : world) : Z := 0.
(** A page whose entry points below 1 GiB is skipped, one above is painted. *)
Definition entryAt (phys : Z) : world :=
  sim_world [(GGTT_PTE_LO 5 .>> 2, (phys .& 0xFFFFF000) .| 1); (GGTT_PTE_HI 5 .>> 2, phys .>> 32)].
Lemma fill_spares_stolen_memory_witness :
  respects (emits aboveStolen) (v60GpuHealthMonitor sim_name sim_name sim_state 0x500) /\
  exists lo hi w1, readEntry 5 (entryAt 0x3e800000) = Done (lo, hi) w1 /\
    fillPage 1 0x5000 0 (entryAt 0x3e800000) = Done false w1.
Proof.
  destruct (@fill_spares_stolen_memory _ monitor_plat sim_name sim_name sim_state
    (sim_benign _ _ _ (emits aboveStolen)) 0x500 1 0x5000 0 (entryAt 0x3e800000)) as (Hm & lo & hi & w1 & E & Hs & _).
  split; [exact Hm|]. exists lo, hi, w1. split; [exact E|]. apply Hs. right.
  vm_compute in E. injection E as <- <- _. vm_compute. reflexivity.
Defined.
Lemma monitor_runs_sixty_times_witness :
  exists w', fireMonitor sim_name sim_name sim_state 60 0x500 (sim_world []) = Done 60 w' /\ v60Count (w_g11 w') = 60.
Proof.
  apply (@monitor_runs_sixty_times _ monitor_plat sim_name sim_name sim_state (sim_benign _ _ _ (keeps schedState))
    0x500 (sim_world []) 60); first [reflexivity|lia].
Defined.
Example stolen_page_skipped : value (fillPage 1 0x5000 0 (entryAt 0x3e800000)) = Some false.
Proof. by vm_compute. Qed.
Example high_page_filled : value (fillPage 1 0x5000 0 (entryAt 0x140000000)) = Some true.
Proof. by vm_compute. Qed.
Example linear_strides : linearStride 1 20 = 160 /\ linearStride 4 20 = 320 /\ linearStride 0 20 = 20.
Proof. by vm_compute. Qed.
End Monitor.
