(* ===== verification/Model.v ===== *)
(** * Marketing names of graphics devices (Model.hpp)

    The tables from device id to name and the search through them. *)
From S2P Require Import Prelude.

Module Model.
(** One row: a 16-bit device id and a name. [Model.hpp:11-14 DeviceList] *)
Record DeviceList := mkDevice { dev : Z; name : string }.

(** [Model.hpp:21-34 g7] *)
Definition g7 : list DeviceList :=
  [ mkDevice 0x0402 "Intel HD Graphics (Haswell)";
    mkDevice 0x0406 "Intel HD Graphics (Haswell)";
    mkDevice 0x040A "Intel HD Graphics (Haswell)";
    mkDevice 0x040B "Intel HD Graphics (Haswell)";
    mkDevice 0x040E "Intel HD Graphics (Haswell)";
    mkDevice 0x041E "Intel HD 4400 Graphics";
    mkDevice 0x0A02 "Intel HD Graphics (Haswell ULT)";
    mkDevice 0x0A06 "Intel HD Graphics (Haswell ULT)";
    mkDevice 0x0A0A "Intel HD Graphics (Haswell ULT)";
    mkDevice 0x0A0B "Intel HD Graphics (Haswell ULT)";
    mkDevice 0x0A0E "Intel HD Graphics (Haswell ULT)";
    mkDevice 0x0A16 "Intel HD 4400 Graphics" ].
(** [Model.hpp:36-43 g8] *)
Definition g8 : list DeviceList :=
  [ mkDevice 0x1606 "Intel HD Graphics (Broadwell)";
    mkDevice 0x22B0 "Intel HD Graphics 40X";
    mkDevice 0x22B1 "Intel HD Graphics 40X";
    mkDevice 0x22B2 "Intel HD Graphics 40X";
    mkDevice 0x22B3 "Intel HD Graphics 400" ].
(** [Model.hpp:45-49 g9_5] *)
Definition g9_5 : list DeviceList :=
  [ mkDevice 0x3184 "Intel UHD Graphics 605";
    mkDevice 0x3185 "Intel UHD Graphics 600" ].
(** [Model.hpp:52-60 g11_icl] *)
Definition g11_icl : list DeviceList :=
  [ mkDevice 0x8A51 "Intel Iris Plus Graphics G7";
    mkDevice 0x8A52 "Intel Iris Plus Graphics G7";
    mkDevice 0x8A53 "Intel Iris Plus Graphics G7";
    mkDevice 0x8A56 "Intel Iris Plus Graphics G1";
    mkDevice 0x8A58 "Intel UHD Graphics G1";
    mkDevice 0x8A5A "Intel Iris Plus Graphics G4";
    mkDevice 0x8A5C "Intel Iris Plus Graphics G4" ].
(** [Model.hpp:63-67 g11_jsl] *)
Definition g11_jsl : list DeviceList :=
  [ mkDevice 0x4E55 "Intel UHD Graphics";
    mkDevice 0x4E61 "Intel UHD Graphics";
    mkDevice 0x4E71 "Intel UHD Graphics" ].
(** [Model.hpp:70-73 g11_ehl] *)
Definition g11_ehl : list DeviceList :=
  [ mkDevice 0x4555 "Intel UHD Graphics";
    mkDevice 0x4571 "Intel UHD Graphics" ].
(** [Model.hpp:76-83 g12_tgl] *)
Definition g12_tgl : list DeviceList :=
  [ mkDevice 0x9A40 "Intel Iris Xe Graphics";
    mkDevice 0x9A49 "Intel Iris Xe Graphics";
    mkDevice 0x9A60 "Intel UHD Graphics";
    mkDevice 0x9A68 "Intel UHD Graphics";
    mkDevice 0x9A70 "Intel UHD Graphics";
    mkDevice 0x9A78 "Intel UHD Graphics" ].
(** [Model.hpp:86-91 g12_rkl] *)
Definition g12_rkl : list DeviceList :=
  [ mkDevice 0x4C8A "Intel UHD Graphics 750";
    mkDevice 0x4C8B "Intel UHD Graphics 730";
    mkDevice 0x4C90 "Intel UHD Graphics P750";
    mkDevice 0x4C9A "Intel UHD Graphics" ].
(** [Model.hpp:94-114 g12_adl] *)
Definition g12_adl : list DeviceList :=
  [ mkDevice 0x4680 "Intel UHD Graphics 770";
    mkDevice 0x4682 "Intel UHD Graphics 730";
    mkDevice 0x4688 "Intel UHD Graphics 770";
    mkDevice 0x468A "Intel UHD Graphics";
    mkDevice 0x4690 "Intel UHD Graphics 770";
    mkDevice 0x4692 "Intel UHD Graphics 730";
    mkDevice 0x4693 "Intel UHD Graphics 710";
    mkDevice 0x4626 "Intel Iris Xe Graphics";
    mkDevice 0x4628 "Intel UHD Graphics";
    mkDevice 0x462A "Intel UHD Graphics";
    mkDevice 0x46A3 "Intel UHD Graphics";
    mkDevice 0x46A6 "Intel Iris Xe Graphics";
    mkDevice 0x46A8 "Intel Iris Xe Graphics";
    mkDevice 0x46AA "Intel Iris Xe Graphics";
    mkDevice 0x46B3 "Intel UHD Graphics";
    mkDevice 0x46C3 "Intel UHD Graphics";
    mkDevice 0x46D0 "Intel UHD Graphics";
    mkDevice 0x46D1 "Intel UHD Graphics";
    mkDevice 0x46D2 "Intel UHD Graphics" ].
(** [Model.hpp:117-132 g12_rpl] *)
Definition g12_rpl : list DeviceList :=
  [ mkDevice 0xA780 "Intel UHD Graphics 770";
    mkDevice 0xA781 "Intel UHD Graphics";
    mkDevice 0xA782 "Intel UHD Graphics";
    mkDevice 0xA783 "Intel UHD Graphics";
    mkDevice 0xA788 "Intel UHD Graphics";
    mkDevice 0xA789 "Intel UHD Graphics";
    mkDevice 0xA78A "Intel UHD Graphics";
    mkDevice 0xA78B "Intel UHD Graphics";
    mkDevice 0xA7A0 "Intel Iris Xe Graphics";
    mkDevice 0xA7A1 "Intel Iris Xe Graphics";
    mkDevice 0xA7A8 "Intel UHD Graphics";
    mkDevice 0xA7A9 "Intel UHD Graphics";
    mkDevice 0xA720 "Intel UHD Graphics";
    mkDevice 0xA721 "Intel UHD Graphics" ].
(** A table with its length; the search only looks at [modelNum] rows.
    [Model.hpp:16-19 DevicePair] *)
Record DevicePair := mkPair { models : list DeviceList; modelNum : nat }.
(** [{t, arrsize(t)}]. [Model.hpp:135-144 devices] *)
Definition table (t : list DeviceList) : DevicePair := mkPair t (length t).
(** [Model.hpp:134-145 devices] *)
Definition devices : list DevicePair :=
  map table [g7; g8; g9_5; g11_icl; g11_jsl; g11_ehl; g12_tgl; g12_rkl; g12_adl; g12_rpl].

(** The inner loop, from row [i] on; [n] is what remains of the bound.
    [Model.hpp:149-152 getBranding] *)
Fixpoint scanTable (d : Z) (ms : list DeviceList) (n : nat) : option string :=
  match n, ms with
  | S n, m :: ms => if dev m =? d then Some (name m) else scanTable d ms n
  | _, _ => None
  end.
(** The outer loop. [Model.hpp:148-153 getBranding] *)
Fixpoint scanTables (d : Z) (ps : list DevicePair) : option string :=
  match ps with
  | [] => None
  | p :: ps =>
    match scanTable d (models p) (modelNum p) with
    | Some n => Some n
    | None => scanTables d ps
    end
  end.
(** [Model.hpp:147-156 getBranding] *)
Definition getBranding (d : Z) : string :=
  default "Intel HD/UHD Graphics" (scanTables (u16 d) devices).

(** ** Facts *)

(** Every row the search can see. *)
Definition rows (ps : list DevicePair) : list DeviceList :=
  p ← ps; take (modelNum p) (models p).

Lemma scanTable_find d ms n :
  scanTable d ms n = name <$> List.find (fun m => dev m =? d) (take n ms).
Proof.
  revert n. induction ms as [|m ms IH]; intros [|n]; cbn; try done.
  destruct (dev m =? d); [done|]. apply IH.
Qed.
Lemma find_app {A} (f : A -> bool) l k :
  List.find f (l ++ k) = match List.find f l with Some x => Some x | None => List.find f k end.
Proof. induction l as [|x l IH]; cbn; [done|]. by destruct (f x). Qed.
Lemma scanTables_find d ps :
  scanTables d ps = name <$> List.find (fun m => dev m =? d) (rows ps).
Proof.
  induction ps as [|p ps IH]; [done|]. cbn [scanTables rows mbind list_bind].
  rewrite scanTable_find, find_app. destruct (List.find _ (take _ _)); [done|]. exact IH.
Qed.
(** In a table without repeated ids the first match is the only one. *)
Lemma find_unique m (l : list DeviceList) :
  NoDup (map dev l) -> m ∈ l -> List.find (fun x => dev x =? dev m) l = Some m.
Proof.
  induction l as [|x l IH]; intros Hn Hm; [by apply not_elem_of_nil in Hm|].
  apply NoDup_cons in Hn as [Hx Hn]. cbn.
  apply elem_of_cons in Hm as [->|Hm]; [by rewrite Z.eqb_refl|].
  destruct (Z.eqb_spec (dev x) (dev m)) as [E|]; [|by apply IH].
  exfalso. apply Hx. rewrite E. by apply list_elem_of_fmap_2.
Qed.
Lemma rows_wf : NoDup (map dev (rows devices)) /\ Forall (fun m => 0 <= dev m < 2 ^ 16) (rows devices).
Proof.
  split; [by apply (bool_decide_unpack _); vm_compute|].
  apply (bool_decide_unpack _). by vm_compute.
Qed.

(** Every row of every table is reachable: no id is listed twice, so the nested search
    gives each listed device its own name and every other 16-bit id the generic one. It is the
    same as a finite map from id to name. *)
Theorem branding_is_a_map (d : Z) :
  getBranding d = default "Intel HD/UHD Graphics"
    ((list_to_map (map (fun m => (dev m, name m)) (rows devices)) : gmap Z string) !! u16 d) /\
  (forall m, m ∈ rows devices -> getBranding (dev m) = name m).
Proof.
  destruct rows_wf as [Hn Hr]. split.
  - unfold getBranding. rewrite scanTables_find. f_equal.
    generalize (rows devices). intros l. induction l as [|m l IH]; [done|]. cbn [List.find map list_to_map foldr].
    destruct (Z.eqb_spec (dev m) (u16 d)) as [<-|Hne]; cbn [curry uncurry fst snd].
    + by rewrite lookup_insert_eq.
    + rewrite lookup_insert_ne by done. exact IH.
  - intros m Hm. unfold getBranding. rewrite scanTables_find.
    pose proof (proj1 (Forall_forall _ _) Hr m Hm) as Hb. cbn in Hb.
    unfold u16. rewrite Z.mod_small by lia. by rewrite find_unique.
Qed.

Example spoofed_name : getBranding 0x9A49 = "Intel Iris Xe Graphics".
Proof. reflexivity. Qed.
Example unknown_name : getBranding 0xFFFF = "Intel HD/UHD Graphics".
Proof. reflexivity. Qed.
End Model.
