(* ===== verification/MergeNub.v ===== *)
(** * Display property merging (DisplayMergeNub.cpp)

    A driver whose probe always fails but merges a dictionary of its own into the
    display it was asked to probe. *)
From S2P Require Import Prelude Machine Sim Plugin.
Import Plugin.

Module MergeNub.
(** An [OSDictionary] in iteration order; keys are distinct ([wf]). *)
Abbreviation dict := (list (string * prop)).

Section defs.
Context `{Platform}.
(** Whether [setObject]/[setProperty] of a key succeeds (it fails when a collection cannot grow). *)
Context (setOk : string -> bool).
(** Whether [OSDictionary::merge] manages to set a key in the property table. *)
Context (tableOk : string -> bool).

(** The merge of [source] into a copy [target] of a dictionary: the result and the copy
    afterwards; [None] is the dereference of a null iterator. A failed copy of a nested
    target ends the loop with the result so far; a nested merge that returns false ends it too.
    [DisplayMergeNub.cpp:220-319 MergeDictionaryIntoDictionary] *)
Fixpoint MergeDictionaryIntoDictionary (source : prop) (target : dict) : option (bool * dict) :=
  match source with
  | PDict entries =>
    if negb (allocOk "OSCollectionIterator dictionary") then None
    else
      (fix go (es : dict) (result : bool) (target : dict) : option (bool * dict) :=
         match es with
         | [] => Some (result, target)
         | (key, v) :: es =>
           match lookup_key key target, v with
           | Some (PDict child), PDict _ =>
             if negb (allocOk "OSDictionary::withDictionary") then Some (result, target)
             else
               match MergeDictionaryIntoDictionary v child with
               | None => None
               | Some (true, child') =>
                 if setOk key then go es true (setObject key (PDict child') target) else Some (false, target)
               | Some (false, _) => Some (false, target)
               end
           | _, _ => if setOk key then go es true (setObject key v target) else Some (false, target)
           end
         end) entries false target
  | _ => Some (false, target)
  end.

(** The loop over the entries to merge into the provider's properties.
    [DisplayMergeNub.cpp:126-202 MergeDictionaryIntoProvider] *)
Fixpoint mergeProvider (provider : Z) (es : dict) (result : bool) : M bool :=
  match es with
  | [] => mret result
  | (key, v) :: es =>
    p ← getProperty provider key;
    match p, v with
    | Some (PDict child), PDict _ =>
      if negb (allocOk "OSDictionary::withDictionary") then mret result
      else
        match MergeDictionaryIntoDictionary v child with
        | None => panic "null iterator"
        | Some (true, child') =>
          if setOk key then _ ← setProperty provider key (PDict child'); mergeProvider provider es true
          else mret false
        | Some (false, _) => mret false
        end
    | _, _ => if setOk key then _ ← setProperty provider key v; mergeProvider provider es true else mret false
    end
  end.
(** [DisplayMergeNub.cpp:99-206 MergeDictionaryIntoProvider] *)
Definition MergeDictionaryIntoProvider (provider : Z) (dictionaryToMerge : option dict) : M bool :=
  match dictionaryToMerge with
  | None => mret false
  | Some es =>
    if negb (truthy provider) then mret false
    else
      created ← g11 haveCreatedRef;
      _ ← when (negb created)
            (_ ← set_g11 (fun g => g <| haveCreatedRef := true |>);
             _ ← call "instanceConstructed" []; mret ());
      if negb (allocOk "OSCollectionIterator provider") then mret false
      else mergeProvider provider es false
  end.

(** [getPropertyTable()->merge(dict)]: every entry replaces the one of the same key, until
    one cannot be set; the caller drops the result. [DisplayMergeNub.cpp:74-74 probe] *)
Fixpoint mergeTable (provider : Z) (es : dict) : M bool :=
  match es with
  | [] => mret true
  | (k, v) :: es => if tableOk k then _ ← setProperty provider k v; mergeTable provider es else mret false
  end.
(** [unsigned64BitValue] of an object taken for an [OSNumber] by a C cast. *)
Definition unsigned64BitValue (p : prop) : M Z :=
  match p with PNumber _ v => mret (u64 v) | _ => panic "not an OSNumber" end.
(** What is done once all five properties are there. [DisplayMergeNub.cpp:70-84 probe] *)
Definition probeMatch (provider : Z) (dict vendor device vendorValue deviceValue : prop) : M unit :=
  match dict with
  | PDict es =>
    v1 ← unsigned64BitValue vendor;
    v2 ← unsigned64BitValue vendorValue;
    if negb (v1 =? v2) then mret ()
    else
      d1 ← unsigned64BitValue device;
      d2 ← unsigned64BitValue deviceValue;
      when (d1 =? d2)
        (_ ← mergeTable provider es;
         _ ← match lookup_key "IOClass" es with
             | Some (PString s) => _ ← call ("setName " +:+ s) [provider]; mret ()
             | Some _ => panic "not an OSString"
             | None => mret ()
             end;
         _ ← MergeDictionaryIntoProvider provider (Some es); mret ())
  | _ => panic "not an OSDictionary"
  end.
(** The provider is dereferenced before it is compared with null. The two preference keys are
    read and not used. [DisplayMergeNub.cpp:54-87 probe] *)
Definition probe (this provider : Z) : M Z :=
  providerDict ← getProperty this "IOProviderMergeProperties";
  if negb (truthy provider) then panic "null provider"
  else
    providerVendor ← getProperty provider "DisplayVendorID";
    providerDevice ← getProperty provider "DisplayProductID";
    vendorValue ← getProperty this "DisplayVendorID";
    deviceValue ← getProperty this "DisplayProductID";
    match providerDict, providerVendor, providerDevice, vendorValue, deviceValue with
    | Some d, Some pv, Some pd, Some v, Some dv => _ ← probeMatch provider d pv pd v dv; mret 0
    | _, _, _, _, _ => mret 0
    end.
(** [DisplayMergeNub.cpp:34-42 start] *)
Definition start (provider : Z) : M bool := mret true.
End defs.

(** ** Facts *)

(** Keys are distinct at every level. *)
Fixpoint wf (p : prop) : Prop :=
  match p with
  | PDict es => NoDup (map fst es) /\
      (fix all (es : dict) : Prop := match es with [] => True | (_, v) :: es => wf v /\ all es end) es
  | _ => True
  end.
Lemma wf_dict es : wf (PDict es) <-> NoDup (map fst es) /\ Forall (fun e => wf e.2) es.
Proof.
  cbn [wf]. apply and_iff_compat_l. induction es as [|[k v] es IH]; [done|]. rewrite Forall_cons, IH. done.
Qed.

Lemma lookup_setObject k k' v d :
  lookup_key k (setObject k' v d) = if String.eqb k k' then Some v else lookup_key k d.
Proof.
  induction d as [|[k1 v1] d IH]; cbn; [done|].
  destruct (String.eqb_spec k' k1) as [->|Hne]; cbn.
  - destruct (String.eqb_spec k k1); [done|]. done.
  - destruct (String.eqb_spec k k1) as [->|]; [|exact IH].
    destruct (String.eqb_spec k1 k'); [congruence|done].
Qed.
Lemma setObject_same k v d : lookup_key k d = Some v -> setObject k v d = d.
Proof.
  induction d as [|[k1 v1] d IH]; cbn; [done|].
  destruct (String.eqb_spec k k1) as [->|]; [congruence|]. intros. by rewrite IH.
Qed.
Lemma lookup_key_nodup k v (d : dict) : NoDup (map fst d) -> (k, v) ∈ d -> lookup_key k d = Some v.
Proof.
  induction d as [|[k1 v1] d IH]; [by intros _ ?%elem_of_nil|]. cbn.
  intros [Hk Hn]%NoDup_cons [E|Hi]%elem_of_cons; [simplify_eq; by rewrite String.eqb_refl|].
  destruct (String.eqb_spec k k1) as [->|]; [|auto].
  exfalso. apply Hk. exact (list_elem_of_fmap_2 fst d _ Hi).
Qed.
Lemma lookup_key_none k (d : dict) : k ∉ map fst d -> lookup_key k d = None.
Proof.
  induction d as [|[k1 v1] d IH]; cbn; [done|]. intros [Hk Hd]%not_elem_of_cons.
  destruct (String.eqb_spec k k1); [congruence|auto].
Qed.

Lemma lookup_key_elem k v (d : dict) : lookup_key k d = Some v -> (k, v) ∈ d.
Proof.
  induction d as [|[k1 v1] d IH]; cbn; [done|]. destruct (String.eqb_spec k k1) as [->|].
  - intros [= ->]. left.
  - intros. right. auto.
Qed.
Lemma lookup_key_none_inv k (d : dict) : lookup_key k d = None -> k ∉ map fst d.
Proof.
  induction d as [|[k1 v1] d IH]; cbn; [by intros _ ?%elem_of_nil|]. destruct (String.eqb_spec k k1); [done|].
  intros E [?|?]%elem_of_cons; [done|]. by apply IH.
Qed.

(** Induction through nested dictionaries. *)
Fixpoint prop_dict_ind (P : prop -> Prop)
    (Hdict : forall es, Forall (fun e => P e.2) es -> P (PDict es))
    (Hleaf : forall p, (forall es, p <> PDict es) -> P p) (p : prop) : P p.
Proof.
  destruct p as [| | | |es]; try by apply Hleaf. apply Hdict. induction es as [|e es IH]; constructor; [|exact IH].
  apply prop_dict_ind; [exact Hdict|exact Hleaf].
Defined.
(** No dictionary of the tree is empty. *)
Fixpoint noEmpty (p : prop) : Prop :=
  match p with
  | PDict es => es <> [] /\
      (fix all (es : dict) : Prop := match es with [] => True | (_, v) :: es => noEmpty v /\ all es end) es
  | _ => True
  end.
Lemma noEmpty_dict es : noEmpty (PDict es) <-> es <> [] /\ Forall (fun e => noEmpty e.2) es.
Proof.
  cbn [noEmpty]. apply and_iff_compat_l. induction es as [|[k v] es IH]; [done|]. rewrite Forall_cons, IH. done.
Qed.

Section facts.
Context `{Platform} (setOk tableOk : string -> bool).
Abbreviation merge := (MergeDictionaryIntoDictionary setOk).

(** The loop of [MergeDictionaryIntoDictionary], named. *)
Fixpoint mergeLoop (es : dict) (result : bool) (target : dict) : option (bool * dict) :=
  match es with
  | [] => Some (result, target)
  | (key, v) :: es =>
    match lookup_key key target, v with
    | Some (PDict child), PDict _ =>
      if negb (allocOk "OSDictionary::withDictionary") then Some (result, target)
      else
        match merge v child with
        | None => None
        | Some (true, child') =>
          if setOk key then mergeLoop es true (setObject key (PDict child') target) else Some (false, target)
        | Some (false, _) => Some (false, target)
        end
    | _, _ => if setOk key then mergeLoop es true (setObject key v target) else Some (false, target)
    end
  end.
Lemma merge_unfold es t :
  merge (PDict es) t = if negb (allocOk "OSCollectionIterator dictionary") then None else mergeLoop es false t.
Proof. reflexivity. Qed.

(** What an entry merged over what was there becomes, when the nested merge succeeds. *)
Definition entry (v : prop) (old : option prop) : option prop :=
  match old, v with
  | Some (PDict child), PDict _ => match merge v child with Some (_, c) => Some (PDict c) | None => None end
  | _, _ => Some v
  end.
Lemma mergeLoop_keeps es r t r' t' k :
  mergeLoop es r t = Some (r', t') -> k ∉ map fst es -> lookup_key k t' = lookup_key k t.
Proof.
  revert r t. induction es as [|[k1 v] es IH]; intros r t E; [by injection E as _ <-|].
  intros [Hk Hn]%not_elem_of_cons. cbn in Hk. cbn [mergeLoop] in E.
  assert (Hs : forall x t1, mergeLoop es true (setObject k1 x t) = Some (r', t1) -> t1 = t' ->
    lookup_key k t' = lookup_key k t).
  { intros x t1 E1 ->. rewrite (IH _ _ E1 Hn), lookup_setObject. by destruct (String.eqb_spec k k1). }
  cases; eauto.
Qed.
Lemma mergeLoop_step k v es r t t' :
  allocOk "OSDictionary::withDictionary" = true -> mergeLoop ((k, v) :: es) r t = Some (true, t') ->
  exists x, entry v (lookup_key k t) = Some x /\ mergeLoop es true (setObject k x t) = Some (true, t').
Proof.
  intros Ha E. cbn [mergeLoop] in E. rewrite Ha in E. cbn [negb] in E. unfold entry.
  destruct (lookup_key k t) as [[| | | |c]|], v as [| | | |c']; try (destruct (setOk k); [by eexists|done]).
  destruct (merge _ c) as [[[] c1]|]; [|done..]. destruct (setOk k); [by eexists|done].
Qed.
(** Success means every entry was merged. *)
Lemma mergeLoop_spec es r t t' :
  NoDup (map fst es) -> allocOk "OSDictionary::withDictionary" = true ->
  mergeLoop es r t = Some (true, t') ->
  forall k, lookup_key k t' =
    match lookup_key k es with Some v => entry v (lookup_key k t) | None => lookup_key k t end.
Proof.
  intros Hn Ha. revert r t. induction es as [|[k1 v] es IH]; intros r t E k; [by injection E as _ <-|].
  cbn in Hn. apply NoDup_cons in Hn as [Hk Hn]. apply mergeLoop_step in E as (x & Hx & E); [|done].
  cbn [lookup_key]. destruct (String.eqb_spec k k1) as [->|Hne].
  - rewrite (mergeLoop_keeps _ _ _ _ _ _ E Hk), lookup_setObject, String.eqb_refl. by rewrite Hx.
  - rewrite (IH Hn _ _ E), lookup_setObject. by destruct (String.eqb_spec k k1).
Qed.

(** With every allocation and every [setObject] succeeding, a merge without empty
    dictionaries succeeds. *)
Lemma mergeLoop_succeeds es r t :
  allocOk "OSDictionary::withDictionary" = true -> (forall k, setOk k = true) ->
  Forall (fun e => forall c es', e.2 = PDict es' -> exists c', merge (PDict es') c = Some (true, c')) es ->
  exists t', mergeLoop es r t = Some (match es with [] => r | _ => true end, t').
Proof.
  intros Ha Hs. revert r t. induction es as [|[k v] es IH]; intros r t He; [by exists t|].
  apply Forall_cons in He as [Hv He]. cbn [snd] in Hv. cbn [mergeLoop]. rewrite Ha, Hs. cbn [negb].
  assert (Hgo : forall x, exists t', mergeLoop es true (setObject k x t) = Some (true, t')).
  { intros x. destruct (IH true (setObject k x t) He) as [t' E]. exists t'. rewrite E. by destruct es. }
  destruct (lookup_key k t) as [[| | | |c]|], v as [| | | |es']; try apply Hgo.
  destruct (Hv c es' eq_refl) as [c' ->]. apply Hgo.
Qed.
Lemma merge_succeeds p :
  allocOk "OSDictionary::withDictionary" = true -> allocOk "OSCollectionIterator dictionary" = true ->
  (forall k, setOk k = true) -> noEmpty p ->
  forall c es, p = PDict es -> exists c', merge (PDict es) c = Some (true, c').
Proof.
  intros Ha Hi Hs. induction p as [es IH|p Hp] using prop_dict_ind; intros Hne c es' Hp'; [|by eapply Hp in Hp'].
  injection Hp' as <-. apply noEmpty_dict in Hne as [Hne Hc].
  destruct (mergeLoop_succeeds es false c Ha Hs) as [c' E].
  { rewrite !Forall_forall in *. intros e He c1 es1 E1. by eapply IH; eauto. }
  exists c'. rewrite merge_unfold, Hi. cbn [negb]. rewrite E. by destruct es.
Qed.

(** C23 (functional). When memory does not run out and no dictionary of the source is empty, a merge
    succeeds, and the target then holds for every key the recursive union of the two
    dictionaries: a key of the source only gets the source's value, two dictionaries are
    merged by the same rule, any other clash is won by the source, and a key the source does
    not have is untouched. *)
Theorem merge_is_recursive_union (es t : dict) :
  NoDup (map fst es) -> noEmpty (PDict es) -> (forall k, setOk k = true) ->
  allocOk "OSDictionary::withDictionary" = true -> allocOk "OSCollectionIterator dictionary" = true ->
  exists t', merge (PDict es) t = Some (true, t') /\
  forall k, lookup_key k t' =
    match lookup_key k es, lookup_key k t with
    | None, old => old
    | Some (PDict s), Some (PDict c) =>
        match merge (PDict s) c with Some (_, c') => Some (PDict c') | None => None end
    | Some v, _ => Some v
    end.
Proof.
  intros Hn Hne Hs Ha Hi. destruct (merge_succeeds _ Ha Hi Hs Hne t es eq_refl) as [t' E]. exists t'. split; [done|].
  intros k. rewrite merge_unfold, Hi in E. rewrite (mergeLoop_spec _ _ _ _ Hn Ha E k). unfold entry. cases.
Qed.

(** A nested dictionary that is empty in the source makes the merge fail at that entry: nothing
    listed after it is merged. *)
Lemma empty_nested_aborts (post : dict) (k : string) (c t : dict) (r : bool) :
  lookup_key k t = Some (PDict c) ->
  allocOk "OSDictionary::withDictionary" = true -> allocOk "OSCollectionIterator dictionary" = true ->
  mergeLoop ((k, PDict []) :: post) r t = Some (false, t).
Proof. intros E Ha Hi. cbn [mergeLoop]. rewrite E, Ha. cbn [negb]. rewrite merge_unfold, Hi. done. Qed.

(** *** Merging a dictionary into itself *)

Lemma mergeLoop_self es d r r' t' :
  Forall (fun e => lookup_key e.1 d = Some e.2) es ->
  Forall (fun e => forall c r c', e.2 = PDict c -> merge (PDict c) c = Some (r, c') -> c' = c) es ->
  mergeLoop es r d = Some (r', t') -> t' = d.
Proof.
  revert r. induction es as [|[k v] es IH]; intros r Hl Hs E; [by injection E|].
  apply Forall_cons in Hl as [Hk Hl], Hs as [Hv Hs]. cbn [fst snd] in Hk, Hv. cbn [mergeLoop] in E. rewrite Hk in E.
  assert (Hgo : forall x, x = v -> mergeLoop es true (setObject k x d) = Some (r', t') -> t' = d).
  { intros x -> E1. rewrite setObject_same in E1 by done. eauto. }
  destruct v as [| | | |c]; try (destruct (setOk k); [by eapply Hgo|congruence]).
  destruct (negb (allocOk "OSDictionary::withDictionary")); [by injection E|].
  destruct (merge (PDict c) c) as [[[] c']|] eqn:Ec; try congruence.
  rewrite (Hv c true c' eq_refl Ec) in E. destruct (setOk k); [by eapply Hgo|congruence].
Qed.
Lemma merge_self p : wf p -> forall c r c', p = PDict c -> merge (PDict c) c = Some (r, c') -> c' = c.
Proof.
  induction p as [es IH|p Hp] using prop_dict_ind; intros Hw c r c' Hc E; [|by eapply Hp in Hc].
  injection Hc as <-. apply wf_dict in Hw as [Hn Hw]. rewrite merge_unfold in E. destruct (negb _); [done|].
  eapply mergeLoop_self; [| |exact E].
  - apply Forall_forall. intros [k v] Hi. by apply lookup_key_nodup.
  - rewrite !Forall_forall in *. intros e Hi c r1 c1 He. by eapply IH; eauto.
Qed.

(** *** The probe *)

(** The properties of the provider with every entry of [es] put over them. *)
Definition over (provider : Z) (es : dict) (m : gmap (Z * string) prop) : gmap (Z * string) prop :=
  foldl (fun m e => <[(provider, e.1) := e.2]> m) m es.
Lemma over_lookup provider es m o k :
  NoDup (map fst es) ->
  over provider es m !! (o, k) =
    if o =? provider then match lookup_key k es with Some v => Some v | None => m !! (o, k) end else m !! (o, k).
Proof.
  revert m. unfold over. induction es as [|[k1 v] es IH]; intros m; [by destruct (o =? provider)|].
  intros [Hk Hn]%NoDup_cons. cbn. rewrite IH by done. destruct (Z.eqb_spec o provider) as [->|]; cycle 1.
  { rewrite lookup_insert_ne by (intros ?; simplify_eq). done. }
  destruct (String.eqb_spec k k1) as [->|].
  - cbn in Hk. rewrite (lookup_key_none k1 es) by done. by rewrite lookup_insert_eq.
  - rewrite lookup_insert_ne by (intros ?; simplify_eq). done.
Qed.
(** As many entries as fit are put over the table. *)
Lemma mergeTable_run provider es w :
  exists b n w', mergeTable tableOk provider es w = Done b w' /\
    w_reg w' = over provider (take n es) (w_reg w) /\ ((forall k, tableOk k = true) -> (length es <= n)%nat).
Proof.
  revert w. induction es as [|[k v] es IH]; intros w; [by exists true, 0%nat, w|]. cbn [mergeTable].
  destruct (tableOk k) eqn:Ek; [|exists false, 0%nat, w; do 2 (split; [done|]); intros Hk; by rewrite Hk in Ek].
  unfold mbind, M_bind, setProperty at 1, modify.
  destruct (IH (emit (EProp provider k v) (w <| w_reg ::= <[(provider, k) := v]> |>))) as (b & n & w' & E & R & L).
  exists b, (S n), w'. split; [done|]. split; [done|]. intros Hk. specialize (L Hk). cbn. lia.
Qed.
Lemma over_outside provider es m o k :
  o <> provider \/ k ∉ map fst es -> over provider es m !! (o, k) = m !! (o, k).
Proof.
  revert m. unfold over. induction es as [|[k1 v] es IH]; intros m Ho; [done|]. cbn.
  rewrite IH; [apply lookup_insert_ne|]; destruct Ho as [Ho|[Hk Hn]%not_elem_of_cons];
    solve [congruence | by left | by right | intros ?; simplify_eq; cbn in *; congruence].
Qed.
(** Entries that are already there, as they are, stay as they are. *)
Lemma mergeProvider_self provider es r w :
  Forall (fun e => w_reg w !! (provider, e.1) = Some e.2) es -> Forall (fun e => wf e.2) es ->
  w_reg (final (mergeProvider setOk provider es r w)) = w_reg w.
Proof.
  revert r w. induction es as [|[k v] es IH]; intros r w Hl Hw; [done|].
  apply Forall_cons in Hl as [Hk Hl], Hw as [Hv Hw]. cbn [fst snd] in Hk, Hv.
  cbn [mergeProvider]. unfold mbind at 1, M_bind at 1, getProperty, gets. rewrite Hk.
  assert (Hgo : forall x, x = v -> w_reg (final ((_ ← setProperty provider k x; mergeProvider setOk provider es true) w)) = w_reg w).
  { intros x ->. unfold mbind, M_bind, setProperty, modify.
    set (w1 := emit _ _). assert (E1 : w_reg w1 = w_reg w) by (cbn; by apply insert_id).
    rewrite IH; [done| |done]. eapply Forall_impl; [exact Hl|]. intros e He. by rewrite E1. }
  destruct v as [| | | |c]; try (destruct (setOk k); [by apply Hgo|done]).
  destruct (negb _); [done|]. destruct (merge (PDict c) c) as [[[] c']|] eqn:Ec; try done.
  rewrite (merge_self _ Hv c true c' eq_refl Ec). destruct (setOk k); [by apply Hgo|done].
Qed.
Lemma MergeProvider_self `{!Benign (keeps w_reg)} provider es w :
  Forall (fun e => w_reg w !! (provider, e.1) = Some e.2) es -> Forall (fun e => wf e.2) es ->
  w_reg (final (MergeDictionaryIntoProvider setOk provider (Some es) w)) = w_reg w.
Proof.
  intros Hl Hw. unfold MergeDictionaryIntoProvider. destruct (negb _); [done|].
  unfold mbind at 1, M_bind at 1, g11, gets. set (m := when _ _).
  assert (Hm : total m /\ respects (keeps w_reg) m).
  { split; unfold m; [total_auto|]. respects_auto; [by apply keeps_modify|by apply keeps_call]. }
  destruct Hm as [Ht Hk]. destruct (Ht w) as ([] & w1 & E1). pose proof (respects_done _ _ _ _ _ Hk E1) as R1.
  unfold keeps in R1. unfold mbind, M_bind. rewrite E1.
  destruct (negb (allocOk "OSCollectionIterator provider")); [exact R1|].
  rewrite mergeProvider_self; [exact R1| |done]. eapply Forall_impl; [exact Hl|]. intros e He. by rewrite R1.
Qed.

(** A matching probe: the table merge, the new name, the recursive merge. *)
Lemma probe_stages `{!Benign (keeps w_reg)} (this provider : Z) (es : dict)
    (b1 b2 b3 b4 vendor device : Z) (w : world) :
  provider <> 0 ->
  (forall p, lookup_key "IOClass" es = Some p -> exists s, p = PString s) ->
  w_reg w !! (this, "IOProviderMergeProperties") = Some (PDict es) ->
  w_reg w !! (provider, "DisplayVendorID") = Some (PNumber b1 vendor) ->
  w_reg w !! (provider, "DisplayProductID") = Some (PNumber b2 device) ->
  w_reg w !! (this, "DisplayVendorID") = Some (PNumber b3 vendor) ->
  w_reg w !! (this, "DisplayProductID") = Some (PNumber b4 device) ->
  exists n w2, w_reg w2 = over provider (take n es) (w_reg w) /\ ((forall k, tableOk k = true) -> (length es <= n)%nat) /\
    probe setOk tableOk this provider w =
      (_ ← MergeDictionaryIntoProvider setOk provider (Some es); mret 0) w2.
Proof.
  intros Hp Hc E1 E2 E3 E4 E5. unfold probe, mbind, M_bind, getProperty, gets.
  rewrite E1. unfold truthy at 1. rewrite (proj2 (Z.eqb_neq _ _) Hp). cbn [negb].
  rewrite E2, E3, E4, E5.
  unfold probeMatch, unsigned64BitValue, mbind, M_bind, mret, M_ret. rewrite !Z.eqb_refl. cbn [negb when].
  destruct (mergeTable_run provider es w) as (b & n & w1 & -> & R1 & L).
  set (nm := match lookup_key "IOClass" es with Some _ => _ | None => _ end).
  assert (Hnm : exists w2, nm w1 = Done () w2 /\ w_reg w2 = w_reg w1).
  { unfold nm. destruct (lookup_key "IOClass" es) as [p|] eqn:Ep; [|by exists w1].
    destruct (Hc p eq_refl) as [s ->]. destruct (total_call ("setName " +:+ s) [provider] w1) as (x & w2 & E).
    exists w2. rewrite E. split; [done|].
    exact (respects_done (keeps w_reg) _ _ _ _ (keeps_call w_reg _ _ _ ltac:(done)) E). }
  destruct Hnm as (w2 & -> & R2). exists n, w2. split; [congruence|]. split; [done|].
  by destruct (MergeDictionaryIntoProvider _ _ _ w2).
Qed.
(** When the table merge succeeds, a probe of a matching display leaves exactly the flat
    override of its properties by the merge dictionary: the recursive merge that follows
    has nothing left to merge, and what the display had inside a nested dictionary is gone
    before it starts. *)
Lemma probe_overrides_flat `{!Benign (keeps w_reg)} (this provider : Z) (es : dict)
    (b1 b2 b3 b4 vendor device : Z) (w : world) :
  (forall k, tableOk k = true) ->
  provider <> 0 -> wf (PDict es) ->
  (forall p, lookup_key "IOClass" es = Some p -> exists s, p = PString s) ->
  w_reg w !! (this, "IOProviderMergeProperties") = Some (PDict es) ->
  w_reg w !! (provider, "DisplayVendorID") = Some (PNumber b1 vendor) ->
  w_reg w !! (provider, "DisplayProductID") = Some (PNumber b2 device) ->
  w_reg w !! (this, "DisplayVendorID") = Some (PNumber b3 vendor) ->
  w_reg w !! (this, "DisplayProductID") = Some (PNumber b4 device) ->
  forall o k, w_reg (final (probe setOk tableOk this provider w)) !! (o, k) =
    if o =? provider then match lookup_key k es with Some v => Some v | None => w_reg w !! (o, k) end
    else w_reg w !! (o, k).
Proof.
  intros Hok Hp Hwf Hc E1 E2 E3 E4 E5 o k.
  destruct (probe_stages this provider es b1 b2 b3 b4 vendor device w Hp Hc E1 E2 E3 E4 E5) as (n & w2 & R & L & ->).
  rewrite take_ge in R by auto. apply wf_dict in Hwf as [Hn Hw]. rewrite <-over_lookup by done. f_equal.
  rewrite <-R, <-(MergeProvider_self provider es w2).
  - unfold mbind, M_bind. by destruct (MergeDictionaryIntoProvider _ _ _ w2).
  - apply Forall_forall. intros [k1 v1] Hi. rewrite R, over_lookup, Z.eqb_refl by done. cbn.
    by rewrite (lookup_key_nodup k1 v1) by done.
  - done.
Qed.

(** *** Every entry arrives *)

(** [q] holds everything [p] lists, at every level. *)
Fixpoint covers (p q : prop) : Prop :=
  match p with
  | PDict es => exists c, q = PDict c /\
      (fix all (es : dict) : Prop :=
         match es with
         | [] => True
         | (k, v) :: es => (exists v', lookup_key k c = Some v' /\ covers v v') /\ all es
         end) es
  | _ => q = p
  end.
Lemma covers_dict es c :
  covers (PDict es) (PDict c) <-> Forall (fun e => exists v', lookup_key e.1 c = Some v' /\ covers e.2 v') es.
Proof.
  cbn [covers]. split.
  - intros (c' & [= <-] & Ha). induction es as [|[k v] es IH]; [done|]. destruct Ha. constructor; auto.
  - intros Ha. exists c. split; [done|]. induction Ha as [|[k v] es Hv _ IH]; done.
Qed.
Lemma covers_leaf p : (forall es, p <> PDict es) -> covers p p.
Proof. intros Hp. destruct p as [| | | |es]; [done..|]. by destruct (Hp es). Qed.
Lemma covers_refl p : wf p -> covers p p.
Proof.
  induction p as [es IH|p Hp] using prop_dict_ind; [|intros _; by apply covers_leaf].
  intros [Hn Hw]%wf_dict. apply covers_dict. rewrite Forall_forall in *. intros [k v] Hi. exists v.
  split; [by apply lookup_key_nodup|]. by apply (IH _ Hi), (Hw _ Hi).
Qed.
Lemma merge_covers p :
  allocOk "OSDictionary::withDictionary" = true -> allocOk "OSCollectionIterator dictionary" = true ->
  (forall k, setOk k = true) -> wf p -> noEmpty p ->
  forall c c' es, p = PDict es -> merge (PDict es) c = Some (true, c') -> covers (PDict es) (PDict c').
Proof.
  intros Ha Hi Hs. induction p as [es IH|p Hp] using prop_dict_ind; intros Hw Hne c c' es' Hp' E;
    [|by eapply Hp in Hp']. injection Hp' as <-.
  apply wf_dict in Hw as [Hn Hw]. apply noEmpty_dict in Hne as [_ Hc].
  rewrite merge_unfold, Hi in E. cbn [negb] in E. pose proof (mergeLoop_spec _ _ _ _ Hn Ha E) as Hl.
  apply covers_dict. rewrite Forall_forall in *. intros [k v] He. cbn [fst snd]. specialize (Hl k).
  rewrite (lookup_key_nodup k v es Hn He) in Hl. unfold entry in Hl.
  assert (Hr : covers v v) by (apply covers_refl; exact (Hw _ He)).
  destruct (lookup_key k c) as [[| | | |d]|], v as [| | | |d']; eauto.
  destruct (merge_succeeds _ Ha Hi Hs (Hc _ He) d d' eq_refl) as [d'' Ed]. rewrite Ed in Hl.
  exists (PDict d''). split; [done|]. exact (IH _ He (Hw _ He) (Hc _ He) d d'' d' eq_refl Ed).
Qed.
Lemma entry_covers v old :
  allocOk "OSDictionary::withDictionary" = true -> allocOk "OSCollectionIterator dictionary" = true ->
  (forall k, setOk k = true) -> wf v -> noEmpty v -> exists x, entry v old = Some x /\ covers v x.
Proof.
  intros Ha Hi Hs Hw Hne. pose proof (covers_refl v Hw) as Hr. unfold entry.
  destruct old as [[| | | |d]|], v as [| | | |d']; eauto.
  destruct (merge_succeeds _ Ha Hi Hs Hne d d' eq_refl) as [d'' Ed]. rewrite Ed. exists (PDict d''). split; [done|].
  by eapply merge_covers.
Qed.
(** With memory, the provider's loop sets every entry. *)
Lemma mergeProvider_spec provider es r w :
  NoDup (map fst es) -> Forall (fun e => noEmpty e.2) es -> (forall k, setOk k = true) ->
  allocOk "OSDictionary::withDictionary" = true -> allocOk "OSCollectionIterator dictionary" = true ->
  exists b w', mergeProvider setOk provider es r w = Done b w' /\
    forall o k, w_reg w' !! (o, k) =
      if o =? provider then
        match lookup_key k es with Some v => entry v (w_reg w !! (o, k)) | None => w_reg w !! (o, k) end
      else w_reg w !! (o, k).
Proof.
  intros Hn Hne Hs Ha Hi. revert r w Hn Hne. induction es as [|[k1 v] es IH]; intros r w Hn Hne.
  { exists r, w. split; [done|]. intros o k. cbn. by destruct (o =? provider). }
  cbn in Hn. apply NoDup_cons in Hn as [Hk Hn]. apply Forall_cons in Hne as [Hv Hne]. cbn [snd] in Hv.
  assert (Hstep : exists x, entry v (w_reg w !! (provider, k1)) = Some x /\
    mergeProvider setOk provider ((k1, v) :: es) r w =
      mergeProvider setOk provider es true (emit (EProp provider k1 x) (w <| w_reg ::= <[(provider, k1) := x]> |>))).
  { cbn [mergeProvider]. unfold mbind at 1, M_bind at 1, getProperty, gets. unfold entry. rewrite !Hs, Ha. cbn [negb].
    destruct (w_reg w !! (provider, k1)) as [[| | | |d]|], v as [| | | |d']; try (by eexists).
    destruct (merge_succeeds _ Ha Hi Hs Hv d d' eq_refl) as [d'' Ed]. rewrite Ed. by eexists. }
  destruct Hstep as (x & Hx & ->).
  destruct (IH true (emit (EProp provider k1 x) (w <| w_reg ::= <[(provider, k1) := x]> |>)) Hn Hne) as (b & w' & -> & Hl).
  exists b, w'. split; [done|]. intros o k. rewrite Hl. cbn. destruct (Z.eqb_spec o provider) as [->|]; cycle 1.
  { rewrite lookup_insert_ne by (intros ?; simplify_eq). done. }
  destruct (String.eqb_spec k k1) as [->|].
  - rewrite (lookup_key_none k1 es) by done. by rewrite lookup_insert_eq.
  - rewrite lookup_insert_ne by (intros ?; simplify_eq). done.
Qed.
Lemma merge_into_provider `{!Benign (keeps w_reg)} provider es w :
  provider <> 0 -> NoDup (map fst es) -> Forall (fun e => noEmpty e.2) es -> (forall k, setOk k = true) ->
  allocOk "OSDictionary::withDictionary" = true -> allocOk "OSCollectionIterator dictionary" = true ->
  allocOk "OSCollectionIterator provider" = true ->
  exists b w', MergeDictionaryIntoProvider setOk provider (Some es) w = Done b w' /\
    forall o k, w_reg w' !! (o, k) =
      if o =? provider then
        match lookup_key k es with Some v => entry v (w_reg w !! (o, k)) | None => w_reg w !! (o, k) end
      else w_reg w !! (o, k).
Proof.
  intros Hp Hn Hne Hs Ha Hi Hj. unfold MergeDictionaryIntoProvider, truthy. rewrite (proj2 (Z.eqb_neq _ _) Hp). cbn [negb].
  unfold mbind at 1, M_bind at 1, g11, gets. set (m := when _ _).
  assert (Hm : total m /\ respects (keeps w_reg) m).
  { split; unfold m; [total_auto|]. respects_auto; [by apply keeps_modify|by apply keeps_call]. }
  destruct Hm as [Ht Hk]. destruct (Ht w) as ([] & w1 & E1). pose proof (respects_done _ _ _ _ _ Hk E1) as R1.
  unfold keeps in R1. unfold mbind, M_bind. rewrite E1, Hj. cbn [negb].
  destruct (mergeProvider_spec provider es false w1 Hn Hne Hs Ha Hi) as (b & w' & -> & Hl).
  exists b, w'. split; [done|]. intros o k. by rewrite Hl, R1.
Qed.

(** C30 (functional). A probe of a matching display fails, as it is meant to, but installs the merge
    dictionary: when memory does not run out in the recursive merge and no dictionary
    listed is empty, each listed key of the display then holds the listed value or, for a
    dictionary, one with everything listed in it at every level; a key that is not listed
    and every other object's properties are untouched. This holds whether or not the plain
    merge of the table before it stops part way. Nothing is said of what the display had
    inside a listed dictionary. Assumed: naming the display and keeping the class loaded
    change no property. *)
Theorem probe_installs_entries `{!Benign (keeps w_reg)} (this provider : Z) (es : dict)
    (b1 b2 b3 b4 vendor device : Z) (w : world) :
  provider <> 0 -> wf (PDict es) -> noEmpty (PDict es) -> (forall k, setOk k = true) ->
  allocOk "OSDictionary::withDictionary" = true -> allocOk "OSCollectionIterator dictionary" = true ->
  allocOk "OSCollectionIterator provider" = true ->
  (forall p, lookup_key "IOClass" es = Some p -> exists s, p = PString s) ->
  w_reg w !! (this, "IOProviderMergeProperties") = Some (PDict es) ->
  w_reg w !! (provider, "DisplayVendorID") = Some (PNumber b1 vendor) ->
  w_reg w !! (provider, "DisplayProductID") = Some (PNumber b2 device) ->
  w_reg w !! (this, "DisplayVendorID") = Some (PNumber b3 vendor) ->
  w_reg w !! (this, "DisplayProductID") = Some (PNumber b4 device) ->
  exists w', probe setOk tableOk this provider w = Done 0 w' /\
    (forall k v, lookup_key k es = Some v -> exists q, w_reg w' !! (provider, k) = Some q /\ covers v q) /\
    (forall o k, o <> provider \/ lookup_key k es = None -> w_reg w' !! (o, k) = w_reg w !! (o, k)).
Proof.
  intros Hp Hwf Hne Hs Ha Hi Hj Hc E1 E2 E3 E4 E5.
  destruct (probe_stages this provider es b1 b2 b3 b4 vendor device w Hp Hc E1 E2 E3 E4 E5) as (n & w2 & R & _ & ->).
  apply wf_dict in Hwf as [Hn Hw]. apply noEmpty_dict in Hne as [_ Hne].
  destruct (merge_into_provider provider es w2 Hp Hn Hne Hs Ha Hi Hj) as (b & w' & E & Hl).
  unfold mbind, M_bind. rewrite E. exists w'. split; [done|]. split.
  - intros k v Hk. rewrite Hl, Z.eqb_refl, Hk. rewrite Forall_forall in Hw, Hne.
    apply lookup_key_elem in Hk. by apply entry_covers; [..|apply (Hw _ Hk)|apply (Hne _ Hk)].
  - intros o k Ho. rewrite Hl, R.
    assert (Hout : over provider (take n es) (w_reg w) !! (o, k) = w_reg w !! (o, k)).
    { apply over_outside. destruct Ho as [Ho|Hk]; [by left|right]. intros Hin.
      apply lookup_key_none_inv in Hk. apply Hk. rewrite <-(take_drop n es), map_app. apply elem_of_app. by left. }
    destruct (Z.eqb_spec o provider) as [->|]; [|done]. destruct Ho as [|Hk]; [done|]. by rewrite Hk.
Qed.
End facts.

(** ** Evaluations *)
Import Sim.
#[local] Instance merge_plat : Platform := sim_platform_with [] [] 0.
Definition src : dict := [("a", PNumber 32 1); ("d", PDict [("x", PNumber 32 2)])].
Definition tgt : dict := [("d", PDict [("x", PNumber 32 0); ("y", PNumber 32 5)]); ("z", PBool true)].
Example merged :
  MergeDictionaryIntoDictionary (fun _ => true) (PDict src) tgt =
    Some (true, [("d", PDict [("x", PNumber 32 2); ("y", PNumber 32 5)]); ("z", PBool true); ("a", PNumber 32 1)]).
Proof. reflexivity. Qed.
Lemma merge_is_recursive_union_witness :
  exists t', MergeDictionaryIntoDictionary (fun _ => true) (PDict src) tgt = Some (true, t') /\
  forall k, lookup_key k t' =
    match lookup_key k src, lookup_key k tgt with
    | None, old => old
    | Some (PDict s), Some (PDict c) =>
        match MergeDictionaryIntoDictionary (fun _ => true) (PDict s) c with Some (_, c') => Some (PDict c') | None => None end
    | Some v, _ => Some v
    end.
Proof.
  apply (merge_is_recursive_union (fun _ => true) src tgt); [|cbn; repeat split; discriminate|reflexivity..].
  apply (bool_decide_unpack _). vm_compute. exact I.
Defined.
(** A display with a nested dictionary of its own, and the nub's replacement for it. *)
Definition display : world := (sim_world []) <| w_reg := list_to_map
  [ ((1, "IOProviderMergeProperties"), PDict src); ((1, "DisplayVendorID"), PNumber 32 7);
    ((1, "DisplayProductID"), PNumber 32 8); ((2, "DisplayVendorID"), PNumber 64 7);
    ((2, "DisplayProductID"), PNumber 64 8); ((2, "d"), PDict [("y", PNumber 32 5)]) ] |>.
Lemma probe_installs_entries_witness :
  exists w', probe (fun _ => true) (fun _ => false) 1 2 display = Done 0 w' /\
    exists q, w_reg w' !! (2, "d") = Some q /\ covers (PDict [("x", PNumber 32 2)]) q.
Proof.
  destruct (@probe_installs_entries _ merge_plat (fun _ => true) (fun _ => false) (sim_benign _ _ _ (keeps w_reg))
    1 2 src 64 64 32 32 7 8 display) as (w' & E & Hc & _); try reflexivity; try discriminate.
  - apply wf_dict. split; [apply (bool_decide_unpack _); vm_compute; exact I|].
    repeat (apply Forall_cons; split); [exact I|apply wf_dict; split; [apply (bool_decide_unpack _); vm_compute; exact I|
      repeat (apply Forall_cons; split; [exact I|]); constructor]|constructor].
  - cbn. repeat split; discriminate.
  - exists w'. split; [exact E|]. apply Hc. reflexivity.
Defined.
(** What the display had inside its dictionary is lost. *)
Example nested_entries_lost :
  w_reg (final (probe (fun _ => true) (fun _ => true) 1 2 display)) !! (2, "d") = Some (PDict [("x", PNumber 32 2)]).
Proof. by vm_compute. Qed.
(** It is merged when the table merge fails before it. *)
Example nested_entries_merged :
  w_reg (final (probe (fun _ => true) (fun _ => false) 1 2 display)) !! (2, "d") =
    Some (PDict [("y", PNumber 32 5); ("x", PNumber 32 2)]).
Proof. by vm_compute. Qed.
End MergeNub.
