(* ===== verification/NetDbg.v ===== *)
(** * Network debug log (NetDbg.cpp)

    Sending log lines over TCP: the destination comes from a boot argument, the socket
    calls are the kernel's. The statics of the class live in kernel memory. *)
From Stdlib Require Import Ascii.
From S2P Require Import Prelude Machine Memory Sim Patcher.

Import Patcher.

Module NetDbg.
Section defs.
Context `{Platform}.

(** ** [sscanf(ip, "%hhu.%hhu.%hhu.%hhu:%u", ...)] *)
Definition digit (c : ascii) : option Z :=
  let n := Z.of_nat (nat_of_ascii c) - 48 in if (0 <=? n) && (n <=? 9) then Some n else None.
Definition space (c : ascii) : bool := let n := Z.of_nat (nat_of_ascii c) in (n =? 32) || ((9 <=? n) && (n <=? 13)).
(** A run of digits and what follows it. *)
Fixpoint digits (l : list ascii) (acc : Z) : Z * list ascii :=
  match l with
  | c :: l' => match digit c with Some d => digits l' (10 * acc + d) | None => (acc, l) end
  | [] => (acc, [])
  end.
Fixpoint skipSpace (l : list ascii) : list ascii :=
  match l with c :: l' => if space c then skipSpace l' else l | [] => [] end.
(** One [%u]: white space, a sign, at least one digit. *)
Definition scanUnsigned (l : list ascii) : option (Z * list ascii) :=
  let l := skipSpace l in
  let '(neg, l) := match l with
                   | "-"%char :: l' => (true, l')
                   | "+"%char :: l' => (false, l')
                   | _ => (false, l)
                   end in
  match l with
  | c :: _ => match digit c with
              | Some _ => let '(v, rest) := digits l 0 in Some (if neg : bool then - v else v, rest)
              | None => None
              end
  | [] => None
  end.
(** The conversions in order, each followed by its literal: the values converted. *)
Fixpoint scan (widths : list (Z * option ascii)) (l : list ascii) : list Z :=
  match widths with
  | [] => []
  | (n, lit) :: ws =>
    match scanUnsigned l with
    | None => []
    | Some (v, rest) =>
      (v mod 2 ^ n) ::
      match lit with
      | None => []
      | Some c => match rest with c' :: rest => if Ascii.eqb c c' then scan ws rest else [] | [] => [] end
      end
    end
  end.
(** [NetDbg.cpp:32-33 NETDBG::nprint] *)
Definition scanAddress (s : string) : list Z :=
  scan [(8, Some "."%char); (8, Some "."%char); (8, Some "."%char); (8, Some ":"%char); (32, None)]
    (String.list_ascii_of_string s).
(** Byte swap of the low half word. *)
Definition htons (x : Z) : Z := ((x .& 0xFF) .<< 8) .| ((x .>> 8) .& 0xFF).

(** ** Sending *)
(** Whether the argument is given. *)
Definition given : bool := match bootarg "netdbg" with Some _ => true | None => false end.
(** [NetDbg.cpp:12-13 NETDBG::port] *)
Definition ipSlot : Z := slotOf "NETDBG::ip_addr".
Definition portSlot : Z := slotOf "NETDBG::port".

(** The port goes to a local that shadows the static. [NetDbg.cpp:27-39 NETDBG::nprint] *)
Definition resolve : M unit :=
  match scanAddress (bootstr "netdbg") with
  | [p0; p1; p2; p3; p] =>
    let ip := u32 (p0 .| (p1 .<< 8) .| (p2 .<< 16) .| (p3 .<< 24)) in
    let port := htons p in
    _ ← store 4 ipSlot ip;
    if negb (truthy ip) || negb (truthy port) then panic "Invalid IP and/or Port specified" else mret ()
  | _ => panic "Invalid IP and/or Port specified"
  end.
(** One turn of the loop. [NetDbg.cpp:44-63 NETDBG::nprint] *)
Definition tryConnect (socket : Z) : M Z :=
  socket ← (if truthy socket then mret socket else call "sock_socket" [2; 1; 0]);
  if negb (truthy socket) then mret 0
  else
    ip ← load 4 ipSlot; port ← load 4 portSlot;
    err ← call "sock_connect" [socket; ip; u16 port];
    if s32 err =? -1 then _ ← call "sock_close" [socket]; mret 0 else mret socket.
(** [while (retry--)]: the socket and the final value of [retry]. [NetDbg.cpp:42-63 NETDBG::nprint] *)
Fixpoint connect (retry : nat) (socket : Z) : M (Z * Z) :=
  match retry with
  | O => mret (socket, -1)
  | S retry => socket ← tryConnect socket; connect retry socket
  end.
(** [NetDbg.cpp NETDBG::nprint] *)
Definition nprint (data len : Z) : M Z :=
  if negb given then mret 0
  else
    _ ← call "kprintf" [data];
    ip ← load 4 ipSlot; port ← load 4 portSlot;
    _ ← when (negb (truthy ip) || negb (truthy port)) resolve;
    '(socket, retry) ← connect 5 0;
    if negb (truthy socket) || (negb (truthy retry) && negb (truthy socket)) then mret 0
    else if negb (truthy retry) then _ ← call "sock_close" [socket]; mret 0
    else
      _ ← store 8 (slotOf "sentLen") 0;
      err ← call "sock_send" [socket; data; len; slotOf "sentLen"];
      if s32 err =? -1 then _ ← call "sock_close" [socket]; mret 0
      else
        _ ← call "sock_close" [socket];
        load 8 (slotOf "sentLen").
(** The length [vsnprintf] reports is what the line would need. [NetDbg.cpp NETDBG::vprintf] *)
Definition vprintf (fmt args : Z) : M Z :=
  lock ← load 8 (slotOf "NETDBG::lock");
  _ ← when (negb (truthy lock)) (l ← call "IOLockAlloc" []; store 8 (slotOf "NETDBG::lock") l);
  lock ← load 8 (slotOf "NETDBG::lock");
  _ ← call "IOLockLock" [lock];
  data ← call "new" [2048];
  len ← call "vsnprintf" [data; 2047; fmt; args];
  ret ← nprint data (u64 (s32 len));
  _ ← call "delete" [data];
  lock ← load 8 (slotOf "NETDBG::lock");
  _ ← call "IOLockUnlock" [lock];
  mret ret.
End defs.

(** ** Facts *)
Section facts.
Context `{Platform}.
(** The static's value, and a connection to port 0. *)
Definition portValue (w : world) : Z := load_le 4 portSlot (w_mem w).
Definition toPortZero (e : event) : Prop :=
  match e with ECall f args => f = "sock_connect" -> last args = Some 0 | _ => True end.
(** Once 0, the static port stays 0 and every connection goes to port 0. *)
Definition portless : relation world := fun w w' =>
  portValue w = 0 -> portValue w' = 0 /\ emits toPortZero w w'.
#[export] Instance portless_preorder : PreOrder portless.
Proof.
  split.
  - intros w Hw. split; [done|reflexivity].
  - intros w1 w2 w3 H1 H2 Hw. destruct (H1 Hw) as [Hw2 E1]. destruct (H2 Hw2) as [Hw3 E2].
    split; [done|by etrans].
Qed.
Context `{!Benign portless}.
(** The variables written do not overlap the port. *)
Definition apart4 (n a : Z) : Prop := portSlot + 4 <= a \/ a + n <= portSlot.
Hypothesis layout : apart4 4 ipSlot /\ apart4 8 (slotOf "sentLen") /\ apart4 8 (slotOf "NETDBG::lock").

Lemma portless_store n a v : apart4 (Z.of_nat n) a -> respects portless (store n a v).
Proof.
  intros Ha w Hw. split; [|by apply emits_silent]. unfold portValue in *. cbn -[load_le store_le].
  rewrite load_store_disjoint; [done|]. unfold apart4 in Ha. lia.
Qed.
Lemma portless_step f args w :
  (portValue w = 0 -> toPortZero (ECall f args)) -> portless w (final (call f args w)).
Proof.
  intros Hf Hw. unfold call. pose proof (benign (R := portless) f args (emit (ECall f args) w) Hw) as [Hp He].
  destruct (original _ _ _) as [r w']. simpl in *. split; [done|]. etrans; [|exact He].
  eapply emits_one; [reflexivity|]. exact (Hf Hw).
Qed.
Lemma portless_call f args : String.eqb f "sock_connect" = false -> respects portless (call f args).
Proof. intros Hf w. apply portless_step. intros _. simpl. intros ->. by rewrite String.eqb_refl in Hf. Qed.
Hint Extern 1 (respects portless (call _ _)) => apply portless_call; reflexivity : ng.
Hint Extern 1 (respects portless (store _ _ _)) => apply portless_store; apply layout : ng.
Lemma portless_resolve : respects portless resolve.
Proof. unfold resolve. respects_auto. Qed.
Lemma then_portless {A B} (m : M A) (k : A -> M B) w :
  portless w (final (m w)) -> (forall a, respects portless (k a)) -> portless w (final ((m ≫= k) w)).
Proof.
  intros Hm Hk. unfold mbind, M_bind. destruct (m w) as [a w'|e w'|w']; simpl in *; [|done..].
  etrans; [exact Hm|apply Hk].
Qed.
Lemma portless_tryConnect s : respects portless (tryConnect s).
Proof.
  unfold tryConnect. apply respects_bind; [exact _|respects_auto|intros s']. destruct (negb _); [respects_auto|].
  intros w. unfold load, gets. unfold mbind at 1 2, M_bind at 1 2. fold (portValue w).
  apply then_portless; [|intros err; respects_auto].
  apply portless_step. intros -> _. reflexivity.
Qed.
Hint Resolve portless_resolve portless_tryConnect : ng.
Lemma portless_connect n s : respects portless (connect n s).
Proof. revert s. induction n as [|n IH]; intros s; cbn [connect]; respects_auto. Qed.
Hint Resolve portless_connect : ng.
Lemma portless_nprint data len : respects portless (nprint data len).
Proof. unfold nprint. respects_auto. Qed.
Hint Resolve portless_nprint : ng.

(** The port of the boot argument is never used: as long as the static port
    holds its initial 0, sending a line leaves it 0, so that every connection the log
    makes goes to port 0 whatever the argument says. *)
Theorem netdbg_connects_to_port_zero (fmt args : Z) (w : world) :
  portValue w = 0 ->
  portValue (final (vprintf fmt args w)) = 0 /\ emits toPortZero w (final (vprintf fmt args w)).
Proof.
  revert w. change (respects portless (vprintf fmt args)). unfold vprintf. respects_auto.
Qed.
End facts.

(** *** Parsing *)
(** A number of at most three digits, as the boot argument writes it. *)
Example address_scanned : scanAddress "192.168.1.4:8080" = [192; 168; 1; 4; 8080].
Proof. reflexivity. Qed.
Example port_missing : scanAddress "192.168.1.4" = [192; 168; 1; 4].
Proof. reflexivity. Qed.
Example octet_wraps : scanAddress "300.0.0.1:1" = [44; 0; 0; 1; 1].
Proof. reflexivity. Qed.

(** ** Evaluations *)
Import Sim.
(** The argument given, every call succeeding with [ret]. *)
Definition net_plat (ret : Z) : Platform :=
  let p := sim_platform_with [("netdbg", 0)] [] ret in {|
  bootarg := @bootarg _ p; kernarg := @kernarg _ p; resolved := @resolved _ p; allocOk := @allocOk _ p;
  providerOf := @providerOf _ p; isClass := @isClass _ p; fromPath := @fromPath _ p;
  symbolAddr s := if String.eqb s "&NETDBG::port" then 0x1000 else if String.eqb s "&NETDBG::ip_addr" then 0x1010
                  else if String.eqb s "&NETDBG::lock" then 0x1020 else 0x1030;
  bootstr _ := "192.168.1.4:8080"; clientsOf := @clientsOf _ p; pciConfig := @pciConfig _ p;
  original _ _ w := (ret, w)
|}.
Lemma netdbg_connects_to_port_zero_witness :
  emits toPortZero (sim_world []) (final (@vprintf _ (net_plat 7) 1 2 (sim_world []))).
Proof.
  apply (@netdbg_connects_to_port_zero _ (net_plat 7)).
  - intros f args w. reflexivity.
  - vm_compute. split; [left; discriminate|split; left; discriminate].
  - reflexivity.
Defined.
(** A line that is sent makes five connections on one socket. *)
Example five_connections :
  length (List.filter (fun e => match e with ECall f _ => String.eqb f "sock_connect" | _ => false end)
    (w_tr (final (@vprintf _ (net_plat 7) 1 2 (sim_world []))))) = 5%nat.
Proof. by vm_compute. Qed.
End NetDbg.
