(* ===== verification/Interleave.v ===== *)
(** * Register accesses of several threads

    Hooks run on the threads of the drivers and timers on those of the kernel, and the
    source takes no lock around a register access nor around the static table of plane
    surfaces. The accessors and the routed register write are given as programs over single
    dword accesses of the device and single loads and stores of the table's fields, shown to
    be the definitions of Mmio and RegHooks when they run alone, and then interleaved access
    by access over one device and one table. What a thread does is safe under every
    interleaving; what needs two accesses to stay together is not. Accesses take effect in
    the order they are made. *)
From S2P Require Import Prelude Machine Sim Mmio BootArgs RegHooks.
Import Mmio BootArgs RegHooks.

Module Interleave.
(** ** Programs over single accesses

    Reads and writes of the device, loads and stores of the two fields of a slot of the
    plane table, and calls of the driver's own write function. *)
Inductive prog :=
| Stop
| Rd (i : Z) (k : Z -> prog)
| Wr (i v : Z) (k : prog)
| LdReg (j : nat) (k : Z -> prog)
| StReg (j : nat) (v : Z) (k : prog)
| LdSurf (j : nat) (k : Z -> prog)
| StSurf (j : nat) (v : Z) (k : prog)
| Forward (args : list Z) (k : prog).

Section programs.
(** The length of the mapping, which does not change once it is there; whether the plane
    guard is on, and whether the driver's own write function was resolved. *)
Context (len : Z) (guard forward : bool).
(** With the window mapped. [NGreen.hpp:81-89 readReg32] *)
Definition readP (reg : Z) (k : Z -> prog) : prog :=
  if u64 (reg + 4) <=? len then Rd (reg .>> 2) k
  else Wr mmPCIE_INDEX2 reg (Rd mmPCIE_DATA2 k).
(** [NGreen.hpp:124-129 writeReg32] *)
Definition storeP (reg val : Z) (k : prog) : prog :=
  if u64 (reg + 4) <=? len then Wr (reg .>> 2) val k
  else Wr mmPCIE_INDEX2 reg (Wr mmPCIE_DATA2 val k).
(** The nested write is to a control register, which has no guard. [NGreen.hpp writeReg32] *)
Definition writeP (reg val : Z) (k : prog) : prog :=
  if looksLikePlaneSurf reg && (val =? 0) then
    let ctlReg := u32 (reg - 0x1C) in
    readP ctlReg (fun planCtl =>
      if truthy (planCtl .& 0x80000000) then
        readP reg (fun currentSurf =>
          if truthy currentSurf then storeP reg currentSurf k
          else storeP ctlReg (planCtl .& not32 0x80000000) (storeP reg val k))
      else storeP reg val k)
  else storeP reg val k.
(** [NGreen.hpp intel_de_rmw] *)
Definition rmwP (reg clear set : Z) (k : prog) : prog :=
  readP reg (fun old => writeP reg ((old .& not32 clear) .| set) k).
(** [NGreen.hpp wa_add] *)
Definition waP (reg clear set read_mask : Z) (masked_reg : bool) (k : prog) : prog :=
  readP reg (fun old => writeP reg (wa_value old clear set read_mask masked_reg) k).

Definition opP (o : mmio_op) (k : prog) : prog :=
  match o with
  | OpRead32 reg => readP reg (fun _ => k)
  | OpWrite32 reg val => writeP reg val k
  | OpRmw reg clear set => rmwP reg clear set k
  | OpWa reg clear set rm masked => waP reg clear set rm masked k
  end.

(** *** The routed register write and its table *)

(** The first of the slots that holds [x]. [TGL.cpp:4286-4289 getV93State] *)
Fixpoint scanP (x : Z) (slots : list nat) (k : option nat -> prog) : prog :=
  match slots with
  | [] => k None
  | j :: slots => LdReg j (fun r => if r =? x then k (Some j) else scanP x slots k)
  end.
(** [TGL.cpp:4285-4298 getV93State] *)
Definition claimP (reg : Z) (k : option nat -> prog) : prog :=
  scanP reg (seq 0 8) (fun state =>
    match state with
    | Some j => k (Some j)
    | None =>
      scanP 0 (seq 0 8) (fun state =>
        match state with
        | Some j => StReg j reg (StSurf j 0 (k (Some j)))
        | None => k None
        end)
    end).
(** [state->lastNonZeroSurf] behind a test of the pointer. [TGL.cpp:4310-4318 raWriteRegister32] *)
Definition rememberP (state : option nat) (v : Z) (k : prog) : prog :=
  match state with Some j => StSurf j v k | None => k end.
Definition lastP (state : option nat) (k : Z -> prog) : prog :=
  match state with Some j => LdSurf j k | None => k 0 end.
(** The remembered surface is loaded once for the test and once more for its value.
    [TGL.cpp:4301-4342 raWriteRegister32] *)
Definition v93P (param_1 param_2 : Z) (k : Z -> prog) : prog :=
  let reg := u32 (param_1 .& 0xFFFFF) in
  if guard && looksLikePlaneSurf reg then
    claimP reg (fun state =>
      if negb (param_2 =? 0) then rememberP state param_2 (k param_2)
      else
        let ctlReg := reg - 0x1C in
        readP ctlReg (fun planCtl =>
          if truthy (planCtl .& 0x80000000) then
            lastP state (fun last =>
              if truthy last then lastP state k
              else
                readP reg (fun currentSurf =>
                  if truthy currentSurf then rememberP state currentSurf (k currentSurf)
                  else writeP ctlReg (planCtl .& not32 0x80000000) (k param_2)))
          else k param_2))
  else k param_2.
(** [TGL.cpp raWriteRegister32] *)
Definition hookP (that param_1 param_2 : Z) (k : prog) : prog :=
  v93P param_1 param_2 (fun param_2 =>
    let param_2 := v72Mask param_1 param_2 in
    if that =? 0 then writeP param_1 param_2 k
    else if negb forward then writeP param_1 param_2 k
    else Forward [that; param_1; param_2] k).

(** What a thread does next: one of the plugin's own accesses, or a register write of the
    driver through the hook. *)
Inductive op :=
| Access (o : mmio_op)
| HookedWrite (that param_1 param_2 : Z).
Definition stepP (o : op) (k : prog) : prog :=
  match o with
  | Access o => opP o k
  | HookedWrite that param_1 param_2 => hookP that param_1 param_2 k
  end.
(** The operations of one thread, one after the other. *)
Definition thread (ops : list op) : prog := foldr stepP Stop ops.
End programs.
Definition opSafe (o : op) : Prop :=
  match o with
  | Access o => op_ok o
  | HookedWrite _ param_1 param_2 => aligned param_1 /\ word param_2
  end.

(** ** A program that runs alone *)
Section alone.
Context `{Platform}.
Fixpoint exec (p : prog) : M unit :=
  match p with
  | Stop => mret ()
  | Rd i k => v ← ptr_read i; exec (k v)
  | Wr i v k => _ ← ptr_write i v; exec k
  | LdReg j k => v ← g11 (fun g => from_option surfReg 0 (v93States g !! j)); exec (k v)
  | StReg j v k => _ ← set_g11 (fun g => g <| v93States ::= alter (fun s => s <| surfReg := v |>) j |>); exec k
  | LdSurf j k => v ← g11 (fun g => from_option lastNonZeroSurf 0 (v93States g !! j)); exec (k v)
  | StSurf j v k => _ ← set_g11 (fun g => g <| v93States ::= alter (fun s => s <| lastNonZeroSurf := v |>) j |>); exec k
  | Forward args k => _ ← call "oraWriteRegister32" args; exec k
  end.
Definition run (o : op) : M unit :=
  match o with
  | Access o => run_op o
  | HookedWrite that param_1 param_2 => raWriteRegister32 that param_1 param_2
  end.
(** What an operation must find: the window, the plugin's singleton and a table of eight slots. *)
Definition setting (w : world) : NGreen * nat := (w_ng w, length (v93States (w_g11 w))).
Definition mapped (len : Z) (w : world) : Prop :=
  mmioValid (w_ng w) = true /\ getLength (w_ng w) = len /\ ngCallback (w_ng w) = true /\
  length (v93States (w_g11 w)) = 8%nat.
Lemma mapped_setting len w w' : setting w' = setting w -> mapped len w -> mapped len w'.
Proof. unfold setting, mapped. intros E. injection E as -> ->. done. Qed.
Lemma exec_readP len reg k w : mapped len w -> exec (readP len reg k) w = (v ← readReg32 reg; exec (k v)) w.
Proof.
  intros (Hv & Hl & _). unfold mbind, M_bind. rewrite readReg32_run, Hv, Hl. unfold readP.
  destruct (_ <=? _); cbn [exec]; unfold mbind, M_bind; [done|]. by destruct (ptr_write _ _ w).
Qed.
Lemma exec_storeP len reg v k w : mapped len w -> exec (storeP len reg v k) w = (_ ← storeReg32 reg v; exec k) w.
Proof.
  intros (Hv & Hl & _). unfold mbind, M_bind. rewrite storeReg32_run, Hl. unfold storeP.
  destruct (_ <=? _); cbn [exec]; unfold mbind, M_bind; [done|]. by destruct (ptr_write _ _ w).
Qed.
(** Two continuations that agree where the mapping is in place. *)
Lemma bind_mapped {A B} len (m : M A) (f g : A -> M B) w :
  respects (keeps setting) m -> (forall a w', mapped len w' -> f a w' = g a w') -> mapped len w ->
  (m ≫= f) w = (m ≫= g) w.
Proof.
  intros Hm Hfg Hw. specialize (Hm w). unfold mbind, M_bind. destruct (m w) as [a w'| |]; [|done..].
  apply Hfg. by eapply mapped_setting.
Qed.
Lemma keeps_access i v : respects (keeps setting) (ptr_read i) /\ respects (keeps setting) (ptr_write i v).
Proof. split; intros w; unfold ptr_read; [destruct (mmio_read _ _)|]; done. Qed.
Lemma keeps_read reg : respects (keeps setting) (readReg32 reg).
Proof. apply respects_readReg32; [exact _|..]; intros; by apply keeps_access. Qed.
Lemma keeps_write reg v : respects (keeps setting) (writeReg32 reg v).
Proof. apply respects_writeReg32; [exact _|..]; intros; by apply keeps_access. Qed.
Lemma keeps_store reg v : respects (keeps setting) (storeReg32 reg v).
Proof. unfold storeReg32. respects_auto; apply keeps_access. Qed.
(** The nested write of the guard is a plain store. *)
Lemma nested_write len reg v w : looksLikePlaneSurf reg = true -> mapped len w ->
  writeReg32_fuel 1 (u32 (reg - 0x1C)) v w = storeReg32 (u32 (reg - 0x1C)) v w.
Proof.
  intros Hs [Hv _]. destruct (plane_ctl_spec reg Hs) as [-> Hc]. cbn [writeReg32_fuel].
  rewrite guardZeroSurf_off by (by rewrite Hc). unfold mbind, M_bind, ng, gets. by rewrite Hv.
Qed.
Lemma bind_eq {A B} (m m' : M A) (f : A -> M B) w : m w = m' w -> (m ≫= f) w = (m' ≫= f) w.
Proof. unfold mbind, M_bind. by intros ->. Qed.
Hint Resolve keeps_read keeps_store keeps_write : ng.
(** The guarded write of 0, with the nested call opened. *)
Lemma guarded_write len reg w : looksLikePlaneSurf reg = true -> mapped len w ->
  writeReg32 reg 0 w =
    (planCtl ← readReg32 (u32 (reg - 0x1C));
     if truthy (planCtl .& 0x80000000) then
       currentSurf ← readReg32 reg;
       if truthy currentSurf then storeReg32 reg currentSurf
       else _ ← storeReg32 (u32 (reg - 0x1C)) (planCtl .& not32 0x80000000); storeReg32 reg 0
     else storeReg32 reg 0) w.
Proof.
  intros Hs Hw. pose proof Hw as [Hv _].
  change (writeReg32 reg 0) with (valid ← ng mmioValid; if negb valid then mret () else
    val ← guardZeroSurf (writeReg32_fuel 1) reg 0; storeReg32 reg val).
  unfold mbind at 1, M_bind at 1, ng, gets. rewrite Hv. cbn [negb]. unfold guardZeroSurf. rewrite Hs. cbn [andb].
  change (0 =? 0) with true. cbv zeta iota. rewrite bind_assoc. apply (bind_mapped len); [auto with ng| |done].
  intros c w1 H1. destruct (truthy _); [|done]. rewrite bind_assoc. apply (bind_mapped len); [auto with ng| |done].
  intros s w2 H2. destruct (truthy s); [done|]. rewrite bind_assoc.
  unfold mbind, M_bind. by rewrite (nested_write len).
Qed.
Lemma exec_writeP len reg v k w : mapped len w -> exec (writeP len reg v k) w = (_ ← writeReg32 reg v; exec k) w.
Proof.
  intros Hw. unfold writeP. destruct (looksLikePlaneSurf reg && (v =? 0)) eqn:Hg.
  - apply andb_true_iff in Hg as [Hs ->%Z.eqb_eq]. cbv zeta. rewrite (exec_readP len) by done.
    rewrite (bind_eq _ _ _ _ (guarded_write len reg w Hs Hw)), bind_assoc. apply (bind_mapped len); [auto with ng| |done]. intros c w1 H1.
    destruct (truthy _); [|by apply exec_storeP]. rewrite (exec_readP len) by done. rewrite bind_assoc.
    apply (bind_mapped len); [auto with ng| |done]. intros s w2 H2.
    destruct (truthy s); [by apply exec_storeP|]. rewrite (exec_storeP len) by done. rewrite bind_assoc.
    apply (bind_mapped len); [auto with ng| |done]. intros [] w3 H3. by apply exec_storeP.
  - rewrite (exec_storeP len) by done. unfold mbind, M_bind. rewrite writeReg32_plain_run by done.
    by rewrite (proj1 Hw).
Qed.
Lemma exec_opP len o k w : mapped len w -> exec (opP len o k) w = (_ ← run_op o; exec k) w.
Proof.
  intros Hw. destruct o; cbn [opP run_op].
  - rewrite (exec_readP len) by done. by rewrite bind_assoc.
  - by apply exec_writeP.
  - unfold rmwP, intel_de_rmw. rewrite (exec_readP len), !bind_assoc by done.
    apply (bind_mapped len); [auto with ng| |done]. intros old w1 H1. rewrite (exec_writeP len), !bind_assoc by done. done.
  - unfold waP, wa_add. rewrite (exec_readP len), bind_assoc by done.
    apply (bind_mapped len); [auto with ng| |done]. intros old w1 H1. by apply exec_writeP.
Qed.
Lemma keeps_op o : respects (keeps setting) (run_op o).
Proof. destruct o; cbn [run_op]; unfold intel_de_rmw, wa_add; respects_auto. Qed.

(** *** The hook *)

(** A scan loads the slots one by one until it finds the value. *)
Lemma exec_scanP x k n j w :
  exec (scanP x (seq j n) k) w =
    exec (k (match list_find (fun s => surfReg s = x) (take n (drop j (v93States (w_g11 w)))) with
             | Some (i, _) => Some (j + i)%nat | None => None end)) w \/
  (length (v93States (w_g11 w)) < j + n)%nat.
Proof.
  revert j. induction n as [|n IH]; intros j; [by left|]. cbn [seq scanP exec].
  unfold mbind, M_bind, g11, gets. destruct (v93States (w_g11 w) !! j) as [s|] eqn:Hj; cycle 1.
  { right. apply lookup_ge_None in Hj. lia. }
  rewrite (drop_S _ _ _ Hj). cbn [take list_find from_option]. destruct (Z.eqb_spec (surfReg s) x) as [Hx|Hx].
  - left. rewrite decide_True by done. by rewrite Nat.add_0_r.
  - rewrite decide_False by done. destruct (IH (S j)) as [E|E]; [left|right; lia]. rewrite E.
    destruct (list_find _ _) as [[i si]|]; cbn; [|done]. by replace (j + S i)%nat with (S (j + i)) by lia.
Qed.
Lemma exec_scan8 x k w : length (v93States (w_g11 w)) = 8%nat ->
  exec (scanP x (seq 0 8) k) w =
    exec (k (fst <$> list_find (fun s => surfReg s = x) (v93States (w_g11 w)))) w.
Proof.
  intros Hl. destruct (exec_scanP x k 8 0 w) as [E|E]; [|lia]. rewrite E. rewrite drop_0, take_ge by lia.
  destruct (list_find (fun s => surfReg s = x) (v93States (w_g11 w))) as [[i si]|].
  all: done.
Qed.
(** Claiming a slot in two stores is claiming it at once. *)
Lemma exec_claimP reg k w : length (v93States (w_g11 w)) = 8%nat ->
  exec (claimP reg k) w = (state ← getV93State reg; exec (k state)) w.
Proof.
  intros Hl. unfold claimP. rewrite exec_scan8 by done. unfold mbind, M_bind, getV93State, claimV93Slot.
  assert (Hsame : w = w <| w_g11 ::= fun g => g <| v93States := v93States (w_g11 w) |> |>).
  { destruct w as [? ? ? ? [] ?]. done. }
  destruct (list_find (fun s => surfReg s = reg) _) as [[i si]|]; cbn [fmap option_fmap option_map fst];
    [by rewrite <-Hsame|].
  rewrite exec_scan8 by done.
  destruct (list_find (fun s => surfReg s = 0) _) as [[i si]|] eqn:E0; cbn [fmap option_fmap option_map fst];
    [|by rewrite <-Hsame].
  cbn [exec]. unfold mbind, M_bind, set_g11, modify.
  assert (Ec : alter (fun s => s <| lastNonZeroSurf := 0 |>) i (alter (fun s => s <| surfReg := reg |>) i (v93States (w_g11 w))) =
    <[i := mkV93 reg 0]> (v93States (w_g11 w))) by (by rewrite list_alter_alter_eq, list_insert_alter).
  rewrite <-Ec. by destruct w as [? ? ? ? [] ?].
Qed.
Lemma keeps_table (f : Gen11 -> Gen11) :
  (forall g, length (v93States (f g)) = length (v93States g)) -> respects (keeps setting) (set_g11 f).
Proof. intros Hf w. unfold keeps, setting. cbn. by rewrite Hf. Qed.
Lemma keeps_claim reg : respects (keeps setting) (getV93State reg).
Proof.
  intros w. unfold getV93State, claimV93Slot, keeps, setting. repeat case_match; simplify_eq/=; by rewrite ?length_insert.
Qed.
Lemma keeps_remember st v : respects (keeps setting) (v93Remember st v).
Proof. destruct st; [|by intros w]. apply keeps_table. intros g. cbn. by rewrite length_alter. Qed.
Hint Resolve keeps_claim keeps_remember : ng.
Lemma exec_rememberP st v k w : exec (rememberP st v k) w = (_ ← v93Remember st v; exec k) w.
Proof. by destruct st. Qed.
Lemma exec_lastP st k w : exec (lastP st k) w = exec (k (v93Last st (w_g11 w))) w.
Proof. by destruct st. Qed.
Lemma keeps_v93Guard p1 p2 : respects (keeps setting) (v93Guard p1 p2).
Proof. unfold v93Guard. respects_auto. Qed.
(** The two loads of the remembered surface see the same value. *)
Lemma exec_v93P len p1 p2 k w : mapped len w ->
  exec (v93P len isV93PlaneGuardEnabled p1 p2 k) w = (v ← v93Guard p1 p2; exec (k v)) w.
Proof.
  intros Hw. pose proof Hw as (_ & _ & Hc & Hl). unfold v93P, v93Guard. rewrite !bind_assoc.
  unfold mbind at 1, M_bind at 1, ng, gets. rewrite Hc. cbn [andb].
  destruct isV93PlaneGuardEnabled; [|done]. cbv zeta. cbn [andb]. destruct (looksLikePlaneSurf _); [|done].
  rewrite exec_claimP, !bind_assoc by done. apply (bind_mapped len); [auto with ng| |done]. intros st w1 H1.
  destruct (p2 =? 0); cbn [negb]; [|by rewrite exec_rememberP, !bind_assoc].
  rewrite (exec_readP len), !bind_assoc by done. apply (bind_mapped len); [auto with ng| |done]. intros c w2 H2.
  destruct (truthy _); [|done]. rewrite exec_lastP, !bind_assoc. unfold mbind at 1, M_bind at 1, g11, gets.
  destruct (truthy (v93Last st _)) eqn:Ht; [by rewrite exec_lastP|].
  rewrite (exec_readP len), !bind_assoc by done. apply (bind_mapped len); [auto with ng| |done]. intros s w3 H3.
  destruct (truthy s); [by rewrite exec_rememberP, !bind_assoc|].
  by rewrite (exec_writeP len), !bind_assoc by done.
Qed.
Lemma exec_hookP len that p1 p2 k w : mapped len w ->
  exec (hookP len isV93PlaneGuardEnabled (resolved "oraWriteRegister32") that p1 p2 k) w =
    (_ ← raWriteRegister32 that p1 p2; exec k) w.
Proof.
  intros Hw. unfold hookP, raWriteRegister32. rewrite (exec_v93P len), bind_assoc by done.
  apply (bind_mapped len); [apply keeps_v93Guard| |done]. intros v w1 H1.
  destruct (that =? 0); [by apply exec_writeP|]. destruct (resolved _); [|by apply exec_writeP].
  cbn [negb exec]. by rewrite bind_assoc.
Qed.

(** The driver's own write function keeps the window and the size of the table. *)
Context `{!Benign (keeps setting)}.
Lemma keeps_run o : respects (keeps setting) (run o).
Proof.
  destruct o as [o|that p1 p2]; [apply keeps_op|]. cbn [run]. unfold raWriteRegister32.
  pose proof keeps_v93Guard. respects_auto. by apply keeps_call.
Qed.

(** The programs are adequate: a thread's program of single accesses, run without interruption, is the
    sequence of accessor calls and routed register writes it stands for: the same accesses
    with the same values in the same order, the same table and the same final world. In
    particular claiming a slot of the plane table by scans and two stores, and loading the
    remembered surface twice, is what the hook does in one piece. *)
Lemma thread_alone (len : Z) (ops : list op) (w : world) :
  mapped len w ->
  exec (thread len isV93PlaneGuardEnabled (resolved "oraWriteRegister32") ops) w = iterM ops run w.
Proof.
  revert w. induction ops as [|o ops IH]; intros w Hw; [done|]. cbn [thread foldr iterM].
  transitivity ((_ ← run o; exec (thread len isV93PlaneGuardEnabled (resolved "oraWriteRegister32") ops)) w).
  { destruct o; [by apply exec_opP|by apply exec_hookP]. }
  apply (bind_mapped len); [apply keeps_run| |done]. intros []. apply IH.
Qed.
End alone.

(** ** Threads that run at the same time *)
Section together.
Context `{Hardware}.
(** Programs still to run, the device, the plane table, and what was done so far with its
    thread. *)
Record state := mkState {
  threads : list prog; device : hw; table : list V93PlaneSurfState; history : list (nat * event)
}.
Definition regAt (j : nat) (tb : list V93PlaneSurfState) : Z := from_option surfReg 0 (tb !! j).
Definition surfAt (j : nat) (tb : list V93PlaneSurfState) : Z := from_option lastNonZeroSurf 0 (tb !! j).
Definition setReg (j : nat) (v : Z) : list V93PlaneSurfState -> list V93PlaneSurfState :=
  alter (fun s => s <| surfReg := v |>) j.
Definition setSurf (j : nat) (v : Z) : list V93PlaneSurfState -> list V93PlaneSurfState :=
  alter (fun s => s <| lastNonZeroSurf := v |>) j.
(** The driver's own write may do anything to the device. *)
Inductive step : state -> state -> Prop :=
| step_read t i k ps h h' v tb tr :
  ps !! t = Some (Rd i k) -> mmio_read i h = (v, h') ->
  step (mkState ps h tb tr) (mkState (<[t := k (u32 v)]> ps) h' tb ((t, ERd i (u32 v)) :: tr))
| step_write t i v k ps h tb tr :
  ps !! t = Some (Wr i v k) ->
  step (mkState ps h tb tr) (mkState (<[t := k]> ps) (mmio_write i (u32 v) h) tb ((t, EWr i (u32 v)) :: tr))
| step_ldreg t j k ps h tb tr :
  ps !! t = Some (LdReg j k) -> step (mkState ps h tb tr) (mkState (<[t := k (regAt j tb)]> ps) h tb tr)
| step_streg t j v k ps h tb tr :
  ps !! t = Some (StReg j v k) -> step (mkState ps h tb tr) (mkState (<[t := k]> ps) h (setReg j v tb) tr)
| step_ldsurf t j k ps h tb tr :
  ps !! t = Some (LdSurf j k) -> step (mkState ps h tb tr) (mkState (<[t := k (surfAt j tb)]> ps) h tb tr)
| step_stsurf t j v k ps h tb tr :
  ps !! t = Some (StSurf j v k) -> step (mkState ps h tb tr) (mkState (<[t := k]> ps) h (setSurf j v tb) tr)
| step_forward t args k ps h h' tb tr :
  ps !! t = Some (Forward args k) ->
  step (mkState ps h tb tr) (mkState (<[t := k]> ps) h' tb ((t, ECall "oraWriteRegister32" args) :: tr)).
(** What one thread did. *)
Definition own (t : nat) (tr : list (nat * event)) : list event :=
  omap (fun '(t', e) => if decide (t' = t) then Some e else None) tr.
(** Executing a schedule; the driver's own write is left without effect. *)
Definition turn (t : nat) (s : state) : state :=
  let '(mkState ps h tb tr) := s in
  match ps !! t with
  | Some (Rd i k) => let '(v, h') := mmio_read i h in mkState (<[t := k (u32 v)]> ps) h' tb ((t, ERd i (u32 v)) :: tr)
  | Some (Wr i v k) => mkState (<[t := k]> ps) (mmio_write i (u32 v) h) tb ((t, EWr i (u32 v)) :: tr)
  | Some (LdReg j k) => mkState (<[t := k (regAt j tb)]> ps) h tb tr
  | Some (StReg j v k) => mkState (<[t := k]> ps) h (setReg j v tb) tr
  | Some (LdSurf j k) => mkState (<[t := k (surfAt j tb)]> ps) h tb tr
  | Some (StSurf j v k) => mkState (<[t := k]> ps) h (setSurf j v tb) tr
  | Some (Forward args k) => mkState (<[t := k]> ps) h tb ((t, ECall "oraWriteRegister32" args) :: tr)
  | _ => s
  end.
Lemma turn_step t s : turn t s = s \/ step s (turn t s).
Proof.
  destruct s as [ps h tb tr]. unfold turn. destruct (ps !! t) as [[]|] eqn:E; [by left| |..|by left];
    try (right; by constructor).
  destruct (mmio_read i h) as [v h'] eqn:Er. right. by apply step_read.
Qed.
Lemma turns_steps ts s : rtc step s (foldl (fun s t => turn t s) s ts).
Proof.
  revert s. induction ts as [|t ts IH]; intros s; [done|]. cbn [foldl].
  destruct (turn_step t s) as [->|Hs]; [apply IH|]. by eapply rtc_l.
Qed.

(** *** What a program will do, whatever it reads *)
Section safe.
Context (len : Z) (guard forward : bool).
Definition accessible (i : Z) : Prop := 0 <= i /\ 4 * i + 4 <= len.
(** What may be in the fields of a slot. *)
Definition planeReg (r : Z) : Prop := looksLikePlaneSurf r = true.
Definition slotOk (s : V93PlaneSurfState) : Prop :=
  (surfReg s = 0 \/ planeReg (surfReg s)) /\ word (lastNonZeroSurf s).
(** After the accesses [tr], every further access is in the window, no plane is armed with
    surface 0 unless the access before it showed the plane disabled, only plane registers and
    words go to the table and only full error masks to the driver's write. *)
Fixpoint safe (tr : list event) (p : prog) : Prop :=
  match p with
  | Stop => True
  | Rd i k => accessible i /\ forall v, word v -> safe (ERd i v :: tr) (k v)
  | Wr i v k => accessible i /\ (zero_surf_ok tr -> zero_surf_ok (EWr i (u32 v) :: tr)) /\ safe (EWr i (u32 v) :: tr) k
  | LdReg _ k | LdSurf _ k => forall v, word v -> safe tr (k v)
  | StReg _ v k => planeReg v /\ safe tr k
  | StSurf _ v k => word v /\ safe tr k
  | Forward args k => emr_masked (ECall "oraWriteRegister32" args) /\ safe (ECall "oraWriteRegister32" args :: tr) k
  end.
Context (Hlen : 64 <= len).
Lemma ports_accessible : accessible mmPCIE_INDEX2 /\ accessible mmPCIE_DATA2.
Proof. unfold accessible, mmPCIE_INDEX2, mmPCIE_DATA2. lia. Qed.
Lemma safe_readP tr reg k :
  0 <= reg < 2 ^ 64 - 4 ->
  (forall v tr', word v -> (u64 (reg + 4) <= len -> tr' = ERd (reg .>> 2) v :: tr) -> safe tr' (k v)) ->
  safe tr (readP len reg k).
Proof.
  intros Hr Hk. destruct ports_accessible as [Hi Hd]. unfold readP. destruct (Z.leb_spec (u64 (reg + 4)) len).
  - cbn [safe]. split; [by apply dword_in_bar|]. intros v Hv. by apply Hk.
  - cbn [safe]. split; [done|]. split; [intros; by apply zero_ok_write; [left|]|]. split; [done|].
    intros v Hv. apply Hk; [done|lia].
Qed.
(** A store that may be made after [tr]. *)
Definition mayStore (tr : list event) (reg val : Z) : Prop :=
  u64 (reg + 4) <= len -> looksLikePlaneSurf reg = true -> val = 0 ->
  match tr with e :: _ => shows_plane_off (reg .>> 2) e | [] => False end.
Lemma safe_storeP tr reg val k :
  aligned reg -> word val -> mayStore tr reg val ->
  (forall tr', (u64 (reg + 4) <= len -> tr' = EWr (reg .>> 2) (u32 val) :: tr) -> safe tr' k) ->
  safe tr (storeP len reg val k).
Proof.
  intros [Hr Ha] Hv Hm Hk. destruct ports_accessible as [Hi Hd]. unfold storeP.
  destruct (Z.leb_spec (u64 (reg + 4)) len) as [Hl|Hl]; cbn [safe].
  - split; [by apply dword_in_bar|]. split; [|by apply Hk]. intros Hz. split; [|done].
    rewrite shiftr2_dword, u32_small by done. intros Hs Hv0. by apply Hm.
  - split; [done|]. split; [intros; by apply zero_ok_write; [left|]|]. split; [done|].
    split; [intros; by apply zero_ok_write; [left|]|]. apply Hk. lia.
Qed.
Lemma safe_plainStore tr reg val k :
  aligned reg -> word val -> looksLikePlaneSurf reg = false \/ val <> 0 -> (forall tr', safe tr' k) ->
  safe tr (storeP len reg val k).
Proof. intros Ha Hv Hg Hk. apply safe_storeP; [done..| |auto]. intros _ Hs H0. destruct Hg; congruence. Qed.
Lemma safe_writeP tr reg val k :
  aligned reg -> word val -> (forall tr', safe tr' k) -> safe tr (writeP len reg val k).
Proof.
  intros Ha Hv Hk. unfold writeP. destruct (looksLikePlaneSurf reg && (val =? 0)) eqn:Hg.
  2: { apply safe_plainStore; try done. apply andb_false_iff in Hg as [Hg|Hg%Z.eqb_neq]; auto. }
  apply andb_true_iff in Hg as [Hs ->%Z.eqb_eq]. cbv zeta.
  destruct (plane_ctl_spec reg Hs) as [Hc Hns]. rewrite Hc. pose proof Ha as [Hr Hm4].
  pose proof Hs as Hb. apply plane_surf_spec in Hb as [Hb _].
  pose proof (plane_ctl_aligned reg Hs) as Hca.
  assert (Hin : u64 (reg + 4) <= len -> u64 (reg - 0x1C + 4) <= len) by (rewrite !u64_small by lia; lia).
  apply safe_readP; [lia|]. intros c tr1 Hwc H1. rewrite bit31_truthy by done. destruct (Z.testbit c 31) eqn:Hbit.
  - apply safe_readP; [lia|]. intros s tr2 Hws _. destruct (truthy s) eqn:Ht.
    + apply safe_plainStore; try done. right. intros ->. discriminate Ht.
    + apply safe_storeP; [done|by apply land_range_l|intros _; congruence|]. intros tr3 H3.
      apply safe_storeP; [done..| |auto]. intros Hl _ _. rewrite (H3 (Hin Hl)).
      split; [by apply ctl_idx|apply plane_off_cleared].
  - apply safe_storeP; [done..| |auto]. intros Hl _ _. rewrite (H1 (Hin Hl)). split; [by apply ctl_idx|done].
Qed.
Lemma safe_scanP x slots k tr :
  (forall st, safe tr (k st)) -> safe tr (scanP x slots k).
Proof.
  intros Hk. induction slots as [|j slots IH]; cbn [scanP safe]; [done|]. intros v _. by destruct (v =? x).
Qed.
Lemma safe_claimP reg k tr : planeReg reg -> (forall st, safe tr (k st)) -> safe tr (claimP reg k).
Proof.
  intros Hr Hk. apply safe_scanP. intros [j|]; [done|]. apply safe_scanP. intros [j|]; [|done].
  cbn [safe]. split; [done|]. split; [unfold word; lia|done].
Qed.
Lemma safe_rememberP st v k tr : word v -> safe tr k -> safe tr (rememberP st v k).
Proof. by destruct st. Qed.
Lemma safe_lastP st k tr : (forall v, word v -> safe tr (k v)) -> safe tr (lastP st k).
Proof. intros Hk. destruct st; cbn; [done|]. apply Hk. unfold word. lia. Qed.
Lemma safe_v93P tr p1 p2 k :
  word p2 -> (forall tr' v, word v -> safe tr' (k v)) -> safe tr (v93P len guard p1 p2 k).
Proof.
  intros Hv Hk. unfold v93P. cbv zeta. destruct guard; cbn [andb]; [|auto].
  destruct (looksLikePlaneSurf _) eqn:Hs; [|auto]. set (reg := u32 _) in *.
  pose proof (plane_ctl_aligned reg Hs) as Hca. pose proof Hs as Hb. apply plane_surf_spec in Hb as [Hb _].
  apply safe_claimP; [done|]. intros st. destruct (p2 =? 0) eqn:H0; cbn [negb]; [|apply safe_rememberP; auto].
  apply safe_readP; [lia|]. intros c tr1 Hc _. destruct (truthy _); [|auto].
  apply safe_lastP. intros last Hla. destruct (truthy last); [apply safe_lastP; auto|].
  apply safe_readP; [lia|]. intros s tr2 Hs2 _. destruct (truthy s); [apply safe_rememberP; auto|].
  apply safe_writeP; [done|by apply land_range_l|auto].
Qed.
Lemma safe_hookP tr that p1 p2 k :
  aligned p1 -> word p2 -> (forall tr', safe tr' k) -> safe tr (hookP len guard forward that p1 p2 k).
Proof.
  intros Ha Hv Hk. apply safe_v93P; [done|]. intros tr' v Hw. cbv zeta.
  assert (safe tr' (writeP len p1 (v72Mask p1 v) k)) by (apply safe_writeP; [done|by apply v72Mask_word|auto]).
  destruct (that =? 0); [done|]. destruct forward; [|done]. cbn [negb safe]. split; [|auto].
  intros _. apply v72Mask_emr.
Qed.
Lemma safe_opP o k tr : op_ok o -> (forall tr', safe tr' k) -> safe tr (opP len o k).
Proof.
  intros Ho IH. destruct o; cbn [opP op_ok] in *.
  - apply safe_readP; [apply Ho|]. auto.
  - destruct Ho. by apply safe_writeP.
  - destruct Ho as (Ha & Hc & Hs). unfold rmwP. apply safe_readP; [apply Ha|]. intros old tr' Hold _.
    apply safe_writeP; [done| |auto]. apply lor_range; [lia| |done]. apply land_range_l; [lia|done].
  - destruct Ho as (Ha & Hc & Hs & Hm). unfold waP. apply safe_readP; [apply Ha|]. intros old tr' Hold _.
    apply safe_writeP; [done|by apply word_wa_value|auto].
Qed.
Lemma safe_thread ops : Forall opSafe ops -> forall tr, safe tr (thread len guard forward ops).
Proof.
  induction 1 as [|o ops Ho _ IH]; intros tr; [done|]. destruct o as [o|that p1 p2].
  - by apply safe_opP.
  - destruct Ho. by apply safe_hookP.
Qed.

(** Every thread of a state is safe after what it did, which was safe, and the table is well
    formed. *)
Definition eventOk (e : event) : Prop :=
  in_bar len e /\ match e with ECall _ _ => emr_masked e | _ => True end.
Definition tableOk (tb : list V93PlaneSurfState) : Prop := length tb = 8%nat /\ Forall slotOk tb.
Definition sound (n : nat) (s : state) : Prop :=
  length (threads s) = n /\ tableOk (table s) /\ Forall (fun '(_, e) => eventOk e) (history s) /\
  forall t p, threads s !! t = Some p -> zero_surf_ok (own t (history s)) /\ safe (own t (history s)) p.
Lemma own_here t e tr : own t ((t, e) :: tr) = e :: own t tr.
Proof. unfold own. cbn. by rewrite decide_True. Qed.
Lemma own_other t t' e tr : t' <> t -> own t ((t', e) :: tr) = own t tr.
Proof. intros Hn. unfold own. cbn. by rewrite decide_False. Qed.
(** Thread [t] goes on as [p'], with [tr'] as what it has done by then. *)
Lemma sound_go n ps h h' tb tb' tr es t p p' :
  sound n (mkState ps h tb tr) -> ps !! t = Some p -> tableOk tb' -> Forall eventOk es ->
  (zero_surf_ok (own t tr) -> zero_surf_ok (es ++ own t tr)) -> safe (es ++ own t tr) p' ->
  sound n (mkState (<[t := p']> ps) h' tb' (map (pair t) es ++ tr)).
Proof.
  intros (Hn & Htb & Hb & Ht) Hp Htb' He Hz Hs.
  assert (Ho : own t (map (pair t) es ++ tr) = es ++ own t tr).
  { clear -es. induction es as [|e es IH]; [done|]. cbn [map app]. by rewrite own_here, IH. }
  assert (Ho' : forall t', t <> t' -> own t' (map (pair t) es ++ tr) = own t' tr).
  { intros t' Hne. clear -es Hne. induction es as [|e es IH]; [done|]. cbn [map app]. by rewrite own_other, IH. }
  split; [cbn; by rewrite length_insert|]. split; [done|]. split.
  { cbn [history]. apply Forall_app. split; [|done]. clear -He. induction He; cbn; by constructor. }
  cbn [threads history] in *. intros t' q. destruct (decide (t' = t)) as [->|Hne].
  - rewrite list_lookup_insert_eq by (by eapply lookup_lt_Some). intros Hq. simplify_eq. rewrite Ho.
    destruct (Ht _ _ Hp). auto.
  - rewrite list_lookup_insert_ne, Ho' by done. apply Ht.
Qed.
Lemma tableOk_alter j f tb : (forall s, slotOk s -> slotOk (f s)) -> tableOk tb -> tableOk (alter f j tb).
Proof.
  intros Hf [Hl Ht]. split; [by rewrite length_alter|]. apply Forall_alter; [done|]. intros s Hs _.
  rewrite Forall_forall in Ht. apply Hf, Ht. by eapply list_elem_of_lookup_2.
Qed.
Lemma table_word j tb : tableOk tb -> word (regAt j tb) /\ word (surfAt j tb).
Proof.
  intros [_ Ht]. unfold regAt, surfAt. destruct (tb !! j) as [s|] eqn:E; cbn; [|unfold word; lia].
  destruct (Forall_lookup_1 _ _ _ _ Ht E) as [[->|Hr] Hw]; [unfold word in *; lia|].
  apply plane_surf_spec in Hr. unfold word in *. lia.
Qed.
Lemma sound_step n s s' : step s s' -> sound n s -> sound n s'.
Proof.
  intros Hst Hs. pose proof Hs as (_ & Htb & _ & Ht).
  destruct Hst as [t i k ps h h' v tb tr Hp Hr|t i v k ps h tb tr Hp|t j k ps h tb tr Hp|t j v k ps h tb tr Hp
    |t j k ps h tb tr Hp|t j v k ps h tb tr Hp|t args k ps h h' tb tr Hp];
    destruct (Ht t _ Hp) as [_ Hsafe]; cbn [history table safe] in *.
  - destruct Hsafe as [Ha Hk]. apply (sound_go n ps h h' tb tb tr [ERd i (u32 v)] t (Rd i k)); try done.
    + by apply Forall_singleton.
    + apply Hk, u32_range.
  - destruct Hsafe as (Ha & Hw & Hk). apply (sound_go n ps h _ tb tb tr [EWr i (u32 v)] t (Wr i v k)); try done.
    by apply Forall_singleton.
  - apply (sound_go n ps h h tb tb tr [] t (LdReg j k)); try done. apply Hsafe, table_word, Htb.
  - destruct Hsafe as [Hv Hk]. apply (sound_go n ps h h tb (setReg j v tb) tr [] t (StReg j v k)); try done.
    apply tableOk_alter; [|done]. intros s [_ Hs']. split; [by right|done].
  - apply (sound_go n ps h h tb tb tr [] t (LdSurf j k)); try done. apply Hsafe, table_word, Htb.
  - destruct Hsafe as [Hv Hk]. apply (sound_go n ps h h tb (setSurf j v tb) tr [] t (StSurf j v k)); try done.
    apply tableOk_alter; [|done]. by intros s [Hs' _].
  - destruct Hsafe as [He Hk].
    apply (sound_go n ps h h' tb tb tr [ECall "oraWriteRegister32" args] t (Forward args k)); try done.
    by apply Forall_singleton.
Qed.
Lemma sound_start opss h tb :
  tableOk tb -> Forall (Forall opSafe) opss ->
  sound (length opss) (mkState (map (thread len guard forward) opss) h tb []).
Proof.
  intros Htb Ho. split; [cbn; by rewrite length_map|]. split; [done|]. split; [by constructor|]. intros t p Hp. cbn [threads] in Hp.
  rewrite list_lookup_fmap in Hp. destruct (opss !! t) as [ops|] eqn:Hops; [|discriminate Hp]. injection Hp as <-.
  split; [done|]. apply safe_thread. by eapply Forall_lookup_1.
Qed.
Lemma sound_reach n s s' : rtc step s s' -> sound n s -> sound n s'.
Proof. induction 1 as [s|s1 s2 s3 H12 _ IH]; [done|]. intros. apply IH. by eapply sound_step. Qed.
End safe.

(** C11 (safety). Any number of threads use the 32-bit accessors and the routed register
    write [raWriteRegister32], at dword-aligned offsets below 2^64 - 4 and with 32-bit
    values. However their single accesses are interleaved, without a lock, and whatever the
    driver's own write does to the device: every access is inside the mapping (of one length
    of at least 64 bytes); each thread's own accesses keep to the guard, it writes 0 to a
    surface register only right after it has seen or made the plane disabled; the driver's
    write is never handed an error mask other than all ones; and the shared plane table
    keeps its eight slots, each for no register or for a plane's surface register, with a
    32-bit surface. The 64-bit accessors and unaligned offsets are not covered. *)
Theorem interleaved_threads_safe (len : Z) (guard forward : bool) (opss : list (list op)) (h : hw) (s : state) :
  64 <= len -> Forall (Forall opSafe) opss ->
  rtc step (mkState (map (thread len guard forward) opss) h (replicate 8 (mkV93 0 0)) []) s ->
  Forall (fun '(_, e) => eventOk len e) (history s) /\
  (forall t, (t < length opss)%nat -> zero_surf_ok (own t (history s))) /\
  tableOk (table s).
Proof.
  intros Hl Ho Hs. assert (Ht0 : tableOk (replicate 8 (mkV93 0 0))).
  { split; [done|]. apply Forall_replicate. split; [by left|unfold word; cbn; lia]. }
  destruct (sound_reach len _ _ _ Hs (sound_start len guard forward Hl opss h _ Ht0 Ho)) as (Hn & Htb & Hb & Ht).
  split; [done|]. split; [|done]. intros t Hlt.
  destruct (lookup_lt_is_Some_2 (threads s) t) as [p Hp]; [lia|]. by apply (Ht t p).
Qed.
End together.

(** ** Evaluations *)
Import Sim.
#[local] Existing Instance plat.
Definition start (len : Z) (regs : list (Z * Z)) (opss : list (list op)) : state :=
  mkState (map (thread len true true) opss) (mkSim (list_to_map regs) 0) (replicate 8 (mkV93 0 0)) [].
Definition after (ts : list nat) (s : state) : state := foldl (fun s t => turn t s) s ts.
(** [n] turns of thread [t]. *)
Definition runs (t n : nat) : list nat := replicate n t.
Lemma thread_alone_run :
  w_tr (final (exec (thread 0x1000000 isV93PlaneGuardEnabled (resolved "oraWriteRegister32")
                       [Access (OpWrite32 0x7019C 0); HookedWrite 0 0x20b4 0]) (sim_world [(0x70180 / 4, 0x80000000)]))) =
    [EWr (0x20b4 / 4) 0xFFFFFFFF; EWr (0x7019C / 4) 0; EWr (0x70180 / 4) 0; ERd (0x7019C / 4) 0; ERd (0x70180 / 4) 0x80000000].
Proof.
  assert (HB : Benign (keeps setting)) by (apply sim_benign; exact _).
  rewrite (thread_alone 0x1000000 [Access (OpWrite32 0x7019C 0); HookedWrite 0 0x20b4 0]
             (sim_world [(0x70180 / 4, 0x80000000)])) by done.
  vm_compute. reflexivity.
Defined.
Definition mixed : list (list op) := [[HookedWrite 0x500 0x7019C 0x1000; Access (OpWrite32 0x7019C 0)]; [HookedWrite 0 0x7119C 0x2000]].
Lemma interleaved_threads_safe_witness :
  let s := after (runs 1 5 ++ runs 0 15 ++ runs 1 20) (start 0x1000000 [] mixed) in
  length (history s) = 4%nat /\ zero_surf_ok (own 0 (history s)) /\ tableOk (table s).
Proof.
  intros s. split; [vm_compute; reflexivity|].
  destruct (@interleaved_threads_safe sim_hardware 0x1000000 true true mixed (mkSim ∅ 0) s) as (_ & Hz & Ht).
  - lia.
  - repeat constructor; unfold word; try lia; done.
  - apply turns_steps.
  - split; [|done]. apply Hz. cbn. lia.
Defined.

(** The guard needs the plane's control register to itself: another thread that enables the
    plane between the guard's disable and its store leaves the plane enabled with surface
    0. *)
Example guard_race :
  let s := after [0; 0; 0; 1; 0]%nat
    (start 0x1000000 [(0x70180 / 4, 0x80000000)] [[Access (OpWrite32 0x7019C 0)]; [Access (OpWrite32 0x70180 0x80000000)]]) in
  s_regs (device s) !! (0x70180 / 4) = Some 0x80000000 /\ s_regs (device s) !! (0x7019C / 4) = Some 0 /\
  history s !! 0%nat = Some (0%nat, EWr (0x7019C / 4) 0).
Proof. by vm_compute. Qed.
(** Two updates of one register at the same time: one is lost. *)
Example update_lost :
  let s := after [0; 1; 0; 1]%nat (start 0x1000000 [] [[Access (OpRmw 0x2080 0 1)]; [Access (OpRmw 0x2080 0 2)]]) in
  s_regs (device s) !! (0x2080 / 4) = Some 2.
Proof. by vm_compute. Qed.
(** Past the end of the mapping, a value goes to the register another thread selected. *)
Example index_race :
  history (after [0; 1; 0; 1]%nat (start 0x1000 [] [[Access (OpWrite32 0x2000 7)]; [Access (OpWrite32 0x3000 9)]])) =
    [(1%nat, EWr mmPCIE_DATA2 9); (0%nat, EWr mmPCIE_DATA2 7);
     (1%nat, EWr mmPCIE_INDEX2 0x3000); (0%nat, EWr mmPCIE_INDEX2 0x2000)].
Proof. by vm_compute. Qed.
(** Two planes that claim the same free slot: the second plane is given the first one's
    surface when it is next written with 0. *)
Example slot_race :
  history (after (runs 0 9 ++ runs 1 9 ++ [0; 1; 1; 1; 0; 0] ++ runs 1 6)%nat
    (start 0x1000000 [(0x71180 / 4, 0x80000000)]
       [[HookedWrite 0x500 0x7019C 0x1000]; [HookedWrite 0x500 0x7119C 0x2000; HookedWrite 0x500 0x7119C 0]])) !! 0%nat =
  Some (1%nat, ECall "oraWriteRegister32" [0x500; 0x7119C; 0x1000]).
Proof. vm_compute. reflexivity. Qed.
(** The remembered surface is loaded twice: a slot claimed again in between makes the guard
    hand the driver surface 0 for a plane it saw enabled. *)
Example zero_forwarded :
  history (after (runs 1 9 ++ runs 0 13 ++ runs 0 3 ++ runs 1 2 ++ runs 0 2)
    (start 0x1000000 [(0x70180 / 4, 0x80000000)]
       [[HookedWrite 0x500 0x7019C 0x1000; HookedWrite 0x500 0x7019C 0]; [HookedWrite 0x500 0x7119C 0x2000]])) =
  [(0%nat, ECall "oraWriteRegister32" [0x500; 0x7019C; 0]); (0%nat, ERd (0x70180 / 4) 0x80000000);
   (0%nat, ECall "oraWriteRegister32" [0x500; 0x7019C; 0x1000])].
Proof. vm_compute. reflexivity. Qed.
End Interleave.
