(* ===== verification/Exports.v ===== *)
(** * Exports to the framebuffer kext (TGL.cpp)

    Six symbols the framebuffer kext imports are assembly stubs of the plugin: each moves
    the arguments of the C++ method one register down, dropping [this], and jumps to a
    static function of [Gen11]. The moves are executed in order on the argument registers,
    so a move that overwrites an argument still needed would show. *)
From S2P Require Import Prelude Machine Sim Mmio RegHooks.
Import Mmio RegHooks.

Module Exports.
(** ** The stubs *)
(** The argument registers of the System V calling convention a stub touches. *)
Inductive reg := Rdi | Rsi | Rdx | Rcx.
Record regs := mkRegs { rdi : Z; rsi : Z; rdx : Z; rcx : Z }.
Definition getReg (r : reg) (s : regs) : Z :=
  match r with Rdi => rdi s | Rsi => rsi s | Rdx => rdx s | Rcx => rcx s end.
Definition setReg (r : reg) (v : Z) (s : regs) : regs :=
  match r with
  | Rdi => mkRegs v (rsi s) (rdx s) (rcx s)
  | Rsi => mkRegs (rdi s) v (rdx s) (rcx s)
  | Rdx => mkRegs (rdi s) (rsi s) v (rcx s)
  | Rcx => mkRegs (rdi s) (rsi s) (rdx s) v
  end.
(** [movq src, dst], in the order of the source. *)
Record movq := mkMov { src : reg; dst : reg }.
Definition exec (ms : list movq) (s : regs) : regs :=
  foldl (fun s m => setReg (dst m) (getReg (src m) s) s) s ms.
Inductive target :=
| JReadRegister32 | JWriteRegister32 | JReadRegister64 | JWriteRegister64 | JgetPMTNow | JhwSetupDSBMemory.
Record stub := mkStub { export : string; moves : list movq; jmp : target }.
#[global] Instance reg_dec : EqDecision reg.
Proof. solve_decision. Defined.
#[global] Instance movq_dec : EqDecision movq.
Proof. solve_decision. Defined.
#[global] Instance target_dec : EqDecision target.
Proof. solve_decision. Defined.
#[global] Instance stub_dec : EqDecision stub.
Proof. solve_decision. Defined.

(** [TGL.cpp:6940-6945 AppleIntelFramebufferController::ReadRegister32] *)
Definition stubReadRegister32 : stub :=
  mkStub "__ZN31AppleIntelFramebufferController14ReadRegister32Em" [mkMov Rsi Rdi] JReadRegister32.
(** [TGL.cpp:6947-6953 AppleIntelFramebufferController::WriteRegister32] *)
Definition stubWriteRegister32 : stub :=
  mkStub "__ZN31AppleIntelFramebufferController15WriteRegister32Emj" [mkMov Rsi Rdi; mkMov Rdx Rsi] JWriteRegister32.
(** [TGL.cpp:6955-6961 AppleIntelFramebufferController::ReadRegister64] *)
Definition stubReadRegister64 : stub :=
  mkStub "__ZN31AppleIntelFramebufferController14ReadRegister64EPVvm" [mkMov Rsi Rdi; mkMov Rdx Rsi] JReadRegister64.
(** [TGL.cpp:6963-6970 AppleIntelFramebufferController::WriteRegister64] *)
Definition stubWriteRegister64 : stub :=
  mkStub "__ZN31AppleIntelFramebufferController15WriteRegister64EPVvmy"
    [mkMov Rsi Rdi; mkMov Rdx Rsi; mkMov Rcx Rdx] JWriteRegister64.
(** [TGL.cpp:6972-6977 AppleIntelFramebufferController::getPMTNow] *)
Definition stubGetPMTNow : stub := mkStub "__ZN31AppleIntelFramebufferController9getPMTNowEv" [] JgetPMTNow.
(** [TGL.cpp:6979-6984 AppleIntelFramebufferController::hwSetupDSBMemory] *)
Definition stubHwSetupDSBMemory : stub :=
  mkStub "__ZN31AppleIntelFramebufferController16hwSetupDSBMemoryEv" [] JhwSetupDSBMemory.

Definition stubs : list stub :=
  [stubReadRegister32; stubWriteRegister32; stubReadRegister64; stubWriteRegister64; stubGetPMTNow;
   stubHwSetupDSBMemory].

Section defs.
Context `{Platform}.
(** [TGL.cpp tgetPMTNow] *)
Definition tgetPMTNow : M Z := now ← now_ns; mret (u64 now).
(** [TGL.cpp thwSetupDSBMemory] *)
Definition thwSetupDSBMemory : M Z := mret 0.
(** The function a stub jumps to reads its parameters from the registers, an [unsigned int]
    from the low half. *)
Definition enter (t : target) (s : regs) : M Z :=
  match t with
  | JReadRegister32 => tReadRegister32 (rdi s)
  | JWriteRegister32 => _ ← tWriteRegister32 (rdi s) (u32 (rsi s)); mret 0
  | JReadRegister64 => tReadRegister64 (rsi s)
  | JWriteRegister64 => _ ← tWriteRegister64 (rsi s) (rdx s); mret 0
  | JgetPMTNow => tgetPMTNow
  | JhwSetupDSBMemory => thwSetupDSBMemory
  end.
(** A call of the exported method. *)
Definition callStub (st : stub) (s : regs) : M Z := enter (jmp st) (exec (moves st) s).
End defs.

(** ** Properties *)
Section properties.
Context `{Platform}.

(** Each of the six exported methods, called by the framebuffer kext with
    [this] and the method's arguments in the argument registers, behaves as the static
    function it stands for called with those arguments in the same order and [this]
    dropped: no move of a stub overwrites an argument a later one still needs. *)
Theorem exports_forward (this a b c : Z) (w : world) :
  callStub stubReadRegister32 (mkRegs this a b c) w = tReadRegister32 a w /\
  callStub stubWriteRegister32 (mkRegs this a b c) w = (_ ← tWriteRegister32 a (u32 b); mret 0) w /\
  callStub stubReadRegister64 (mkRegs this a b c) w = tReadRegister64 b w /\
  callStub stubWriteRegister64 (mkRegs this a b c) w = (_ ← tWriteRegister64 b c; mret 0) w /\
  callStub stubGetPMTNow (mkRegs this a b c) w = tgetPMTNow w /\
  callStub stubHwSetupDSBMemory (mkRegs this a b c) w = thwSetupDSBMemory w.
Proof. done. Qed.
End properties.

(** ** Evaluations *)
Import Sim.
#[local] Existing Instance plat.
(** The exported [WriteRegister32] does not mask: a driver that unmasks the error register of
    RCS through it succeeds, where the routed one would have written all ones. *)
Theorem export_unmasks_errors :
  w_tr (final (callStub stubWriteRegister32 (mkRegs 0x100 0x20b4 0xFFFFFF00 0) (sim_world []))) =
    [EWr (0x20b4 / 4) 0xFFFFFF00] /\
  w_tr (final (raWriteRegister32 0x100 0x20b4 0xFFFFFF00 (sim_world []))) =
    [ECall "oraWriteRegister32" [0x100; 0x20b4; 0xFFFFFFFF]].
Proof. by vm_compute. Qed.
End Exports.
