(* ===== verification/Hdmi.v ===== *)
(** * HDMI audio (HDMI.cpp)

    The audio component is linked but idle: its registration is commented out, and its kext
    callback returns before it does anything. What follows the early return, the patches of
    the audio drivers, is modelled too, as what would run without it. *)
From S2P Require Import Prelude Machine Sim Patcher Kext.
Import Patcher.

Module Hdmi.
(** [HDMI.hpp:19-19 kCreateAppleHDAFunctionGroup1Original] *)
Definition kCreateAppleHDAFunctionGroup1Original : bytes := mkBytes "kCreateAppleHDAFunctionGroup1Original" [0x3D; 0xD7; 0xAA; 0x00; 0x00].
(** [HDMI.hpp:20-20 kCreateAppleHDAFunctionGroup1Patched] *)
Definition kCreateAppleHDAFunctionGroup1Patched : bytes := mkBytes "kCreateAppleHDAFunctionGroup1Patched" [0x3D; 0x00; 0x00; 0x00; 0x00].
(** [HDMI.hpp:23-23 kCreateAppleHDAFunctionGroup2Original] *)
Definition kCreateAppleHDAFunctionGroup2Original : bytes := mkBytes "kCreateAppleHDAFunctionGroup2Original" [0x3D; 0xF7; 0xAA; 0x00; 0x00; 0x7F].
(** [HDMI.hpp:24-24 kCreateAppleHDAFunctionGroup2Patched] *)
Definition kCreateAppleHDAFunctionGroup2Patched : bytes := mkBytes "kCreateAppleHDAFunctionGroup2Patched" [0x3D; 0xF7; 0xAA; 0x00; 0x00; 0xEB].
(** [HDMI.hpp:27-28 kCreateAppleHDACatalinaOriginal] *)
Definition kCreateAppleHDACatalinaOriginal : bytes := mkBytes "kCreateAppleHDACatalinaOriginal" [0x3D; 0x1F; 0xAB; 0x00; 0x00; 0x7F; 0x00; 0x3D; 0xE0; 0xAA; 0x00; 0x00; 0x74; 0x00].
(** [HDMI.hpp:29-30 kCreateAppleHDACatalinaOriginalMask] *)
Definition kCreateAppleHDACatalinaOriginalMask : bytes := mkBytes "kCreateAppleHDACatalinaOriginalMask" [0xFF; 0xFF; 0xFF; 0xFF; 0xFF; 0xFF; 0x00; 0xFF; 0xFF; 0xFF; 0xFF; 0xFF; 0xFF; 0x00].
(** [HDMI.hpp:31-32 kCreateAppleHDACatalinaPatched] *)
Definition kCreateAppleHDACatalinaPatched : bytes := mkBytes "kCreateAppleHDACatalinaPatched" [0x66; 0x90; 0x66; 0x90; 0x66; 0x90; 0x66; 0x90; 0x66; 0x90; 0x66; 0x90; 0xEB; 0x00].
(** [HDMI.hpp:33-34 kCreateAppleHDACatalinaPatchedMask] *)
Definition kCreateAppleHDACatalinaPatchedMask : bytes := mkBytes "kCreateAppleHDACatalinaPatchedMask" [0xFF; 0xFF; 0xFF; 0xFF; 0xFF; 0xFF; 0xFF; 0xFF; 0xFF; 0xFF; 0xFF; 0xFF; 0xFF; 0x00].
(** [HDMI.hpp:37-38 kCreateAppleHDAWidget1Original] *)
Definition kCreateAppleHDAWidget1Original : bytes := mkBytes "kCreateAppleHDAWidget1Original" [0x3D; 0x87; 0xAA; 0x00; 0x00; 0x7E; 0x00; 0x3D; 0xDF; 0xAA; 0x00; 0x00; 0x7F; 0x00].
(** [HDMI.hpp:39-40 kCreateAppleHDAWidget1OriginalMask] *)
Definition kCreateAppleHDAWidget1OriginalMask : bytes := mkBytes "kCreateAppleHDAWidget1OriginalMask" [0xFF; 0xFF; 0xFF; 0xFF; 0xFF; 0xFF; 0x00; 0xFF; 0xFF; 0xFF; 0xFF; 0xFF; 0xFF; 0x00].
(** [HDMI.hpp:41-42 kCreateAppleHDAWidget1Patched] *)
Definition kCreateAppleHDAWidget1Patched : bytes := mkBytes "kCreateAppleHDAWidget1Patched" [0x66; 0x90; 0x66; 0x90; 0x66; 0x90; 0x90; 0x66; 0x90; 0x66; 0x90; 0x90; 0xEB; 0x00].
(** [HDMI.hpp:43-44 kCreateAppleHDAWidget1PatchedMask] *)
Definition kCreateAppleHDAWidget1PatchedMask : bytes := mkBytes "kCreateAppleHDAWidget1PatchedMask" [0xFF; 0xFF; 0xFF; 0xFF; 0xFF; 0xFF; 0xFF; 0xFF; 0xFF; 0xFF; 0xFF; 0xFF; 0xFF; 0x00].
(** [HDMI.hpp:47-47 kCreateAppleHDAWidget2Original] *)
Definition kCreateAppleHDAWidget2Original : bytes := mkBytes "kCreateAppleHDAWidget2Original" [0x3D; 0x1F; 0xAB; 0x00; 0x00; 0x7E; 0x00].
(** [HDMI.hpp:48-48 kCreateAppleHDAWidget2OriginalMask] *)
Definition kCreateAppleHDAWidget2OriginalMask : bytes := mkBytes "kCreateAppleHDAWidget2OriginalMask" [0xFF; 0xFF; 0xFF; 0xFF; 0xFF; 0xFF; 0x00].
(** [HDMI.hpp:49-49 kCreateAppleHDAWidget2Patched] *)
Definition kCreateAppleHDAWidget2Patched : bytes := mkBytes "kCreateAppleHDAWidget2Patched" [0x66; 0x90; 0x66; 0x90; 0x66; 0x90; 0x90].
(** [HDMI.hpp:52-52 kCreateAppleHDAOriginal] *)
Definition kCreateAppleHDAOriginal : bytes := mkBytes "kCreateAppleHDAOriginal" [0x8D; 0x88; 0xE0; 0x54; 0xFF; 0xFF; 0x83; 0xF9; 0x18; 0x77; 0x00].
(** [HDMI.hpp:53-53 kCreateAppleHDAOriginalMask] *)
Definition kCreateAppleHDAOriginalMask : bytes := mkBytes "kCreateAppleHDAOriginalMask" [0xFF; 0xFF; 0xFF; 0xFF; 0xFF; 0xFF; 0xFF; 0xFF; 0xFF; 0xFF; 0x00].
(** [HDMI.hpp:54-54 kCreateAppleHDAPatched] *)
Definition kCreateAppleHDAPatched : bytes := mkBytes "kCreateAppleHDAPatched" [0x66; 0x90; 0x66; 0x90; 0x66; 0x90; 0x66; 0x90; 0x90; 0xEB; 0x00].
(** [HDMI.hpp:55-55 kCreateAppleHDAPatchedMask] *)
Definition kCreateAppleHDAPatchedMask : bytes := mkBytes "kCreateAppleHDAPatchedMask" [0xFF; 0xFF; 0xFF; 0xFF; 0xFF; 0xFF; 0xFF; 0xFF; 0xFF; 0xFF; 0x00].
(** [HDMI.hpp:58-58 kCreateAppleHDA2Original] *)
Definition kCreateAppleHDA2Original : bytes := mkBytes "kCreateAppleHDA2Original" [0x3D; 0xF8; 0xA0; 0x00; 0x00; 0x74; 0x00].
(** [HDMI.hpp:59-59 kCreateAppleHDA2OriginalMask] *)
Definition kCreateAppleHDA2OriginalMask : bytes := mkBytes "kCreateAppleHDA2OriginalMask" [0xFF; 0xFF; 0xF0; 0xFF; 0xFF; 0xFF; 0x00].
(** [HDMI.hpp:60-60 kCreateAppleHDA2Patched] *)
Definition kCreateAppleHDA2Patched : bytes := mkBytes "kCreateAppleHDA2Patched" [0x66; 0x90; 0x66; 0x90; 0x90; 0xEB; 0x00].
(** [HDMI.hpp:61-61 kCreateAppleHDA2PatchedMask] *)
Definition kCreateAppleHDA2PatchedMask : bytes := mkBytes "kCreateAppleHDA2PatchedMask" [0xFF; 0xFF; 0xFF; 0xFF; 0xFF; 0xFF; 0x00].
(** [HDMI.hpp:64-64 kAHDACreate1Original] *)
Definition kAHDACreate1Original : bytes := mkBytes "kAHDACreate1Original" [0x87; 0xAA; 0x00; 0x00; 0x0F; 0x8F].
(** [HDMI.hpp:65-65 kAHDACreate1Patched] *)
Definition kAHDACreate1Patched : bytes := mkBytes "kAHDACreate1Patched" [0x66; 0x90; 0x66; 0x90; 0x48; 0xE9].
(** [HDMI.hpp:68-68 kAHDACreate2Original] *)
Definition kAHDACreate2Original : bytes := mkBytes "kAHDACreate2Original" [0x83; 0x00; 0x38; 0x77; 0x00; 0xB0].
(** [HDMI.hpp:69-69 kAHDACreate2OriginalMask] *)
Definition kAHDACreate2OriginalMask : bytes := mkBytes "kAHDACreate2OriginalMask" [0xFF; 0x00; 0xFF; 0xFF; 0x00; 0xF0].
(** [HDMI.hpp:70-70 kAHDACreate2Patched] *)
Definition kAHDACreate2Patched : bytes := mkBytes "kAHDACreate2Patched" [0x66; 0x90; 0x90; 0xEB; 0x00; 0x00].
(** [HDMI.hpp:71-71 kAHDACreate2PatchedMask] *)
Definition kAHDACreate2PatchedMask : bytes := mkBytes "kAHDACreate2PatchedMask" [0xFF; 0xFF; 0xFF; 0xFF; 0x00; 0x00].
(** [HDMI.hpp:74-74 kAHDACreate3Original] *)
Definition kAHDACreate3Original : bytes := mkBytes "kAHDACreate3Original" [0xD8; 0xAA; 0x00; 0x00; 0x75; 0x00].
(** [HDMI.hpp:75-75 kAHDACreate3Mask] *)
Definition kAHDACreate3Mask : bytes := mkBytes "kAHDACreate3Mask" [0xFF; 0xFF; 0xFF; 0xFF; 0xFF; 0x00].
(** [HDMI.hpp:76-76 kAHDACreate3Patched] *)
Definition kAHDACreate3Patched : bytes := mkBytes "kAHDACreate3Patched" [0x66; 0x90; 0x66; 0x90; 0x66; 0x90].
(** A search with a mask, replaced as a whole. [PatcherPlus.hpp:105-108 LookupPatchPlus::LookupPatchPlus] *)
Definition findMasked (find findMask replace : bytes) (count : Z) : bytePatch :=
  mkBytePatch find (Some findMask) replace None count.
(** The two ids as little-endian words. [HDMI.cpp:35-36 HDMI::processKext] *)
Definition probeFind : bytes := mkBytes "probeFind" [0x02; 0x10; 0x38; 0xAB].
Definition probeRepl : bytes := mkBytes "probeRepl" (replicate 4 0).
(** [HDMI.cpp:40-45 HDMI::processKext] *)
Definition gfxPatches (catalina : bool) : list bytePatch :=
  [ plain probeFind probeRepl 1;
    masked kCreateAppleHDAWidget1Original kCreateAppleHDAWidget1OriginalMask kCreateAppleHDAWidget1Patched
      kCreateAppleHDAWidget1PatchedMask (if catalina then 2 else 1) ].
(** [HDMI.cpp:49-51 HDMI::processKext] *)
Definition catalinaPatch : bytePatch :=
  masked kCreateAppleHDACatalinaOriginal kCreateAppleHDACatalinaOriginalMask kCreateAppleHDACatalinaPatched
    kCreateAppleHDACatalinaPatchedMask 1.
(** [HDMI.cpp:54-64 HDMI::processKext] *)
Definition laterPatches : list bytePatch :=
  [ plain kCreateAppleHDAFunctionGroup1Original kCreateAppleHDAFunctionGroup1Patched 1;
    plain kCreateAppleHDAFunctionGroup2Original kCreateAppleHDAFunctionGroup2Patched 1;
    findMasked kCreateAppleHDAWidget2Original kCreateAppleHDAWidget2OriginalMask kCreateAppleHDAWidget2Patched 1;
    masked kCreateAppleHDAOriginal kCreateAppleHDAOriginalMask kCreateAppleHDAPatched kCreateAppleHDAPatchedMask 2;
    masked kCreateAppleHDA2Original kCreateAppleHDA2OriginalMask kCreateAppleHDA2Patched kCreateAppleHDA2PatchedMask 2 ].
(** [HDMI.cpp:75-81 HDMI::processKext] *)
Definition controllerPatches : list bytePatch :=
  [ plain (mkBytes "f" [0x83; 0x7E; 0x0C; 0x00; 0x75]) (mkBytes "r" [0x90; 0x90; 0x90; 0x90; 0xEB]) 1 ].
(** [HDMI.cpp:87-92 HDMI::processKext] *)
Definition hdaPatches : list bytePatch :=
  [ plain kAHDACreate1Original kAHDACreate1Patched 2;
    masked kAHDACreate2Original kAHDACreate2OriginalMask kAHDACreate2Patched kAHDACreate2PatchedMask 2;
    findMasked kAHDACreate3Original kAHDACreate3Mask kAHDACreate3Patched 2 ].

Section defs.
Context `{Platform} (loadIndex : string -> Z) (kernelVersion : Z).
(** The static [callback]; no kext is watched. [HDMI.cpp:21-28 HDMI::init] *)
Definition init (this : Z) : M Z := mret this.
(** [HDMI.cpp:37 HDMI::processKext] *)
Definition catalina : bool := kernelVersion =? 19.
(** A refused patch only goes to the log. *)
Definition attempt (address size : Z) (ps : list bytePatch) : M unit :=
  _ ← applyAll address size (map patchOf ps); mret ().
(** What the early return skips. [HDMI.cpp:34-98 HDMI::processKext] *)
Definition patchAudio (id slide size : Z) : M bool :=
  if loadIndex "kextAppleGFXHDA" =? id then
    _ ← attempt slide size (gfxPatches catalina);
    _ ← (if catalina then _ ← apply_patch slide size (patchOf catalinaPatch); mret ()
         else attempt slide size laterPatches);
    mret true
  else if loadIndex "kextAppleHDAController" =? id then
    _ ← when (negb catalina) (attempt slide size controllerPatches); mret false
  else if loadIndex "kextAppleHDA" =? id then
    _ ← attempt slide size hdaPatches; mret true
  else mret false.
(** [HDMI.cpp:30-32 HDMI::processKext] *)
Definition processKext (id slide size : Z) : M bool := mret false.
End defs.

(** ** Facts *)
(** The audio callback never touches a kext. *)
Lemma audio_idle `{Platform} (id slide size : Z) (w : world) : processKext id slide size w = Done false w.
Proof. reflexivity. Qed.
(** The patches it holds back are well formed, like those of the program. *)
Lemma audio_patches_well_formed (c : bool) :
  Forall Kext.wf_patch (gfxPatches c ++ [catalinaPatch] ++ laterPatches ++ controllerPatches ++ hdaPatches).
Proof. destruct c; apply (bool_decide_unpack _); vm_compute; exact I. Qed.
End Hdmi.
