(* ===== verification/Loader.v ===== *)
(** * Loading of the plugin (PluginStart.cpp and Lilu's plugin_start.cpp)

    The entry points the kernel calls: [kern_start] asks Lilu for access and for admission
    with the plugin's configuration, and only then runs [NGreen::init]; [kern_stop] refuses
    to unload a plugin that was started; the I/O Kit class publishes itself only then. *)
From S2P Require Import Prelude Machine Sim Patcher Kext.

Module Loader.
(** ** Configuration *)
(** [kern_util.hpp:444-446 parseModuleVersion] *)
Definition parseModuleVersion (version : string) : Z :=
  let digit i := match String.get i version with Some c => Z.of_N (Ascii.N_of_ascii c) - 48 | None => 0 end in
  u64 (u64 (digit 0%nat) * 100 + digit 2%nat * 10 + digit 4%nat).
(** [kern_util.hpp:381-400 KernelVersion] *)
Definition KernelVersion_Ventura : Z := 22.
Definition KernelVersion_Sequoia : Z := 24.
(** [kern_api.hpp:79-86 RunningMode] *)
Definition AllowNormal : Z := 1.
Definition AllowInstallerRecovery : Z := 2.
Definition AllowSafeMode : Z := 4.
(** [kern_api.hpp:40-49 Error] *)
Inductive Error := NoError | LockError | MemoryError | UnsupportedFeature | IncompatibleOS | Disabled | TooLate | Offline.
(** The code the calling convention returns for an error. *)
Definition errorCode (e : Error) : Z :=
  match e with
  | NoError => 0 | LockError => 1 | MemoryError => 2 | UnsupportedFeature => 3
  | IncompatibleOS => 4 | Disabled => 5 | TooLate => 6 | Offline => 7
  end.
(** Pointers with a count are lists. [plugin_start.hpp:16-29 PluginConfiguration] *)
Record PluginConfiguration := mkConfig {
  product : string;
  version : Z;
  runmode : Z;
  disableArg : list string;
  debugArg : list string;
  betaArg : list string;
  minKernel : Z;
  maxKernel : Z
}.
(** [PluginStart.cpp:13-26 config] *)
Definition config : PluginConfiguration :=
  mkConfig "NootedGreen" (parseModuleVersion "1.0.4") (AllowNormal .| AllowInstallerRecovery .| AllowSafeMode)
    [] ["-NGreenDebug"] [] KernelVersion_Ventura KernelVersion_Sequoia.
(** [kern_api.hpp:55 CompatibilityVersion] *)
Definition CompatibilityVersion : Z := parseModuleVersion "1.2.0".

(** The globals of the start code. [plugin_start.cpp:13-27 startSuccess] *)
Record loader := mkLoader {
  startSuccess : bool;
  debugEnabled : bool;
  debugPrintDelay : Z;
  selfInstance : Z
}.

#[global] Instance eta_loader : Eta loader := fun r =>
  mkLoader (startSuccess r) (debugEnabled r) (debugPrintDelay r) (selfInstance r).
(** [plugin_start.cpp:13-27 startSuccess] *)
Definition loader_init : loader := mkLoader false false 0 0.

(** Return codes of the kernel. *)
Definition KERN_SUCCESS : Z := 0.
Definition KERN_FAILURE : Z := 5.

Section defs.
Context `{Platform}.
(** What [shouldLoad] left in its last argument. *)
Context (printDebug : world -> bool).

(** [plugin_start.cpp:61-63 kern_start] *)
Definition shouldLoad : M Z :=
  call "shouldLoad" [version config; runmode config; Z.of_nat (length (disableArg config));
    Z.of_nat (length (debugArg config)); Z.of_nat (length (betaArg config)); minKernel config; maxKernel config].
(** Admission and start of the plugin proper. [plugin_start.cpp:61-74 kern_start] *)
Definition bootstrap (l : loader) : M loader :=
  error ← shouldLoad;
  dbg ← gets printDebug;
  let l := l <| debugEnabled := dbg |> in
  l ← (if u32 error =? errorCode NoError then
         _ ← Kext.init; mret (l <| startSuccess := true |>)
       else mret l);
  _ ← call "releaseAccess" []; mret l.
(** The debug arguments of the configuration, then Lilu's own. [plugin_start.cpp:79-87 kern_start] *)
Definition debugArgs (l : loader) : loader :=
  let l := if existsb kernarg (debugArg config) then l <| debugEnabled := true |> else l in
  if kernarg "-liludbgall" then l <| debugEnabled := true |> else l.
(** [plugin_start.cpp:55-92 kern_start] *)
Definition kern_start (l : loader) : M (Z * loader) :=
  let l := match bootarg "liludelay" with Some v => l <| debugPrintDelay := u32 v |> | None => l end in
  error ← call "requestAccess" [CompatibilityVersion; 0];
  l ← (if u32 error =? errorCode NoError then bootstrap l else mret l);
  mret (KERN_SUCCESS, debugArgs l).
(** [plugin_start.cpp:94-97 kern_stop] *)
Definition kern_stop (l : loader) : Z := if startSuccess l then KERN_FAILURE else KERN_SUCCESS.

(** *** The I/O Kit class *)
Context (kextVersion : string).
(** [plugin_start.cpp:29-34 probe] *)
Definition probe (this provider score : Z) (l : loader) : M (Z * loader) :=
  _ ← setProperty this "VersionInfo" (PString kextVersion);
  service ← call "IOService::probe" [this; provider; score];
  mret (if startSuccess l then service else 0, l <| selfInstance := this |>).
(** [plugin_start.cpp:36-44 start] *)
Definition start (this provider : Z) (l : loader) : M (bool * loader) :=
  let l := l <| selfInstance := this |> in
  ok ← call "IOService::start" [this; provider];
  if negb (truthy (u8 ok)) then mret (false, l) else mret (startSuccess l, l).
(** [plugin_start.cpp:46-49 stop] *)
Definition stop (this provider : Z) (l : loader) : M loader :=
  _ ← call "IOService::stop" [this; provider]; mret (l <| selfInstance := 0 |>).
End defs.

(** ** Properties *)
Section facts.
Context `{Platform} (printDebug : world -> bool).
Hint Extern 1 (total (mret _)) => apply total_ret : ng.
Lemma total_watch k : total (Kext.watch k).
Proof. unfold Kext.watch. total_auto. Qed.
Lemma total_init : total Kext.init.
Proof. pose proof total_watch. unfold Kext.init, Kext.logBuildMarker, Kext.gen11Init. total_auto; auto. Qed.
(** What a call of an outside function returns, and the world it leaves. *)
Definition answer (f : string) (args : list Z) (w : world) : Z * world := original f args (emit (ECall f args) w).
Lemma call_answer f args w : call f args w = Done (answer f args w).1 (answer f args w).2.
Proof. unfold call, answer. by destruct (original _ _ _). Qed.
Lemma kern_stop_started l : kern_stop l = KERN_SUCCESS <-> startSuccess l = false.
Proof. unfold kern_stop. by destruct (startSuccess l). Qed.
Lemma total_kern_start l : total (kern_start printDebug l).
Proof. pose proof total_init. unfold kern_start, bootstrap, shouldLoad. total_auto; auto. Qed.
Lemma debugArgs_started l : startSuccess (debugArgs l) = startSuccess l.
Proof. unfold debugArgs. by repeat case_match. Qed.

(** C29 (error). Loading always succeeds for the kernel, and starts the plugin exactly when
    Lilu grants access and then accepts its configuration: then the plugin's initialisation
    has run between the two, and from then on it refuses to be unloaded. When either says
    no, nothing of the plugin has run, the world is as Lilu left it, and it may be unloaded.
    Access that was granted is released in both cases, and never when it was not. *)
Theorem kern_start_gate (w : world) :
  let '(access, w1) := answer "requestAccess" [CompatibilityVersion; 0] w in
  exists l w', kern_start printDebug loader_init w = Done (KERN_SUCCESS, l) w' /\
    (kern_stop l = KERN_SUCCESS <-> startSuccess l = false) /\
    if u32 access =? errorCode NoError then
      exists verdict w2, shouldLoad w1 = Done verdict w2 /\
        startSuccess l = (u32 verdict =? errorCode NoError) /\
        exists w3, (if startSuccess l then Kext.init w2 = Done () w3 else w3 = w2) /\
          w' = (answer "releaseAccess" [] w3).2
    else startSuccess l = false /\ w' = w1.
Proof.
  pose proof (call_answer "requestAccess" [CompatibilityVersion; 0] w) as E.
  destruct (answer "requestAccess" _ w) as [access w1]. cbn [fst snd] in E.
  unfold kern_start. cbv zeta. set (l0 := match bootarg "liludelay" with Some _ => _ | None => _ end).
  assert (Hl0 : startSuccess l0 = false) by (unfold l0; by case_match).
  unfold mbind at 1, M_bind at 1. rewrite E.
  destruct (u32 access =? errorCode NoError).
  - destruct (total_call "shouldLoad" [version config; runmode config; Z.of_nat (length (disableArg config));
      Z.of_nat (length (debugArg config)); Z.of_nat (length (betaArg config)); minKernel config; maxKernel config] w1)
      as (v & w2 & Ev). change (shouldLoad w1 = Done v w2) in Ev.
    destruct (total_init w2) as ([] & w3 & Ei). unfold bootstrap. unfold mbind at 1 2 3 4, M_bind at 1 2 3 4. rewrite Ev.
    unfold gets at 1. cbv zeta. destruct (u32 v =? errorCode NoError) eqn:Hv.
    + unfold mbind at 1, M_bind at 1. rewrite Ei. unfold mret at 1, M_ret at 1. unfold mbind, M_bind. rewrite call_answer.
      eexists _, _. split; [reflexivity|]. split; [apply kern_stop_started|]. exists v, w2. split; [done|].
      rewrite debugArgs_started. split; [done|]. exists w3. by split.
    + unfold mret at 1, M_ret at 1. unfold mbind, M_bind. rewrite call_answer.
      eexists _, _. split; [reflexivity|]. split; [apply kern_stop_started|]. exists v, w2. split; [done|].
      rewrite debugArgs_started. cbn [startSuccess]. change (startSuccess (l0 <| debugEnabled := printDebug w2 |>)) with (startSuccess l0).
      rewrite Hl0. split; [done|]. by exists w2.
  - eexists _, _. split; [reflexivity|]. split; [apply kern_stop_started|]. by rewrite debugArgs_started, Hl0.
Qed.
End facts.
(** A Lilu that grants access and accepts, and one that says the system is too new. *)
Import Sim.
Example accepted_starts :
  match @kern_start _ plat (fun _ => false) loader_init (sim_world []) with
  | Done (_, l) w => startSuccess l && ngCallback (w_ng w)
  | _ => false
  end = true.
Proof. by vm_compute. Qed.
Example refused_stays_out :
  match @kern_start _ (sim_platform_with [] [] 4) (fun _ => false) loader_init (sim_world []) with
  | Done (_, l) w => (startSuccess l, map (fun e => match e with ECall f _ => f | _ => EmptyString end) (w_tr w))
  | _ => (true, [])
  end = (false, ["requestAccess"]).
Proof. by vm_compute. Qed.
Example config_version : version config = 104 /\ CompatibilityVersion = 120 /\ runmode config = 7.
Proof. done. Qed.
End Loader.
