(* ===== verification/Published.v ===== *)
(** * What the plugin puts into the I/O registry

    The contract of the properties the plugin publishes on the services of other drivers: the
    keys it uses and, for each of them, the values a reader of the registry may rely on.
    Drivers, user space and the plugin itself act on these values, and nothing checks them
    when they are set. The whole-program invariant (System) is that the plugin never sets a
    property outside the contract. *)
From S2P Require Import Prelude Machine Sim.

Module Published.
(** ** Shapes of values *)
Definition isByte (z : Z) : bool := (0 <=? z) && (z <? 256).
Definition flag (p : prop) : bool := match p with PBool _ => true | _ => false end.
Definition always (b : bool) (p : prop) : bool := match p with PBool b' => Bool.eqb b b' | _ => false end.
Definition text (options : list string) (p : prop) : bool :=
  match p with PString s => existsb (String.eqb s) options | _ => false end.
Definition number (ok : Z -> bool) (p : prop) : bool :=
  match p with PNumber bits v => (bits =? 32) && ok v | _ => false end.
Definition bytes (expected : list Z) (p : prop) : bool :=
  match p with PData b => bool_decide (b = expected) | _ => false end.
Definition blob (size : nat) (p : prop) : bool :=
  match p with PData b => Nat.eqb (length b) size && forallb isByte b | _ => false end.
Definition anyText (p : prop) : bool := match p with PString _ => true | _ => false end.
Definition dictionary (p : prop) : bool := match p with PDict _ => true | _ => false end.
(** Both capabilities of a display pipe are on, or both are off. *)
Definition pipeCapabilities (p : prop) : bool :=
  match p with
  | PDict [(k1, PBool b1); (k2, PBool b2)] =>
    String.eqb k1 "DisplayPipeSupported" && String.eqb k2 "TransactionsSupported" && Bool.eqb b1 b2
  | _ => false
  end.
Definition plugins (p : prop) : bool :=
  match p with
  | PDict [] => true
  | PDict [(k, PString s)] =>
    String.eqb k "ACCF0000-0000-0000-0000-000a2789904e" && String.eqb s "IOAccelerator2D.plugin"
  | _ => false
  end.
(** A text with its terminator. *)
Definition chars (s : string) : list Z :=
  map (fun c => Z.of_nat (Ascii.nat_of_ascii c)) (String.list_ascii_of_string s) ++ [0].

(** ** The contract *)
Definition gateKeys : list (string * (prop -> bool)) :=
  [ ("NGreenConnectorKind", text ["BuiltInEDP"; "External"]);
    ("NGreenBringupPhase", text ["FBOnly"; "InternalReady"; "ExternalReady"]);
    ("NGreenExternalGateActive", flag);
    ("NGreenGateExternal", flag);
    ("NGreenAllow3DRequested", flag);
    ("NGreenTryGuC", always true);
    ("NGreenSchedulerPolicySafe", flag);
    ("GraphicsSchedulerSelect", number (fun v => (3 <=? v) && (v <=? 5)));
    ("Development", dictionary) ].
Definition deviceKeys : list (string * (prop -> bool)) :=
  [ ("AAPL,ig-platform-id", bytes [0x00; 0x00; 0x49; 0x9A]);
    ("device-id", bytes [0x49; 0x9A; 0x00; 0x00]);
    ("built-in", bytes [0]);
    ("AAPL,slot-name", bytes (chars "built-in"));
    ("hda-gfx", bytes (chars "onboard-1"));
    ("model", bytes (chars "Intel Iris Xe Graphics"));
    ("framebuffer-unifiedmem", bytes [0x00; 0x00; 0x00; 0x60]);
    ("saved-config", blob (Z.to_nat 0xea));
    ("IOPCIAccelerationGpu", bytes [1]);
    ("IOAccelCaps", bytes [0x00; 0x00; 0x10; 0x00]);
    ("IOAccelScaleFactorDict", text ["IOAccelScaleFactorDict"]);
    ("IOAccelDeviceShaderBinary", text ["IOAccelTGLShaderBinary"]);
    ("IOPCIMatch", text ["0x9A498086"]);
    ("IOAccelDriverConnectCategory", text ["IOAccelGPU"]) ].
Definition driverKeys : list (string * (prop -> bool)) :=
  [ ("MetalPluginName", text ["AppleIntelTGLGraphics"; "AppleIntelTGLGraphicsMTLDriver"; "AppleIntelICLGraphicsMTLDriver"]);
    ("IOGLBundleName", text ["AppleIntelTGLGraphicsGLDriver"; "AppleIntelICLGraphicsGLDriver"]);
    ("IODVDBundleName", text ["AppleIntelTGLGraphicsVADriver"; "AppleIntelICLGraphicsVADriver"]);
    ("IOGVACodec", text ["Gen10"]);
    ("IOGVAScaler", text ["Gen10"]);
    ("IOGVABGRAEnc", text ["Gen10"]);
    ("IOSourceVersion", text ["0.0.0.0.0"]);
    ("IOVARendererID", number (Z.eqb 17301568));
    ("IOCFPlugInTypes", plugins);
    ("IOAccelDisplayPipeCapabilities", pipeCapabilities);
    ("AAPL,DisplayPipe", number (fun _ => true));
    ("AAPL,boot-display", always true);
    ("AAPL,LCD-PowerState-ON", flag);
    ("FB_Triage", text ["FB Driver Info :  56 0 ff 51 54 52 54 53"]);
    ("Triage", text ["3D Debug Info: 1 223"]);
    ("ApplePanels", dictionary);
    ("hwgva-id", bytes (chars "Mac-7BA5B2D9E42DDD94")) ].
(** On the plugin's own service. *)
Definition pluginKeys : list (string * (prop -> bool)) := [ ("VersionInfo", anyText) ].
Definition contract : list (string * (prop -> bool)) := gateKeys ++ deviceKeys ++ driverKeys ++ pluginKeys.
Definition published (key : string) (v : prop) : bool :=
  match Sim.assoc key contract with Some ok => ok v | None => false end.

(** Each key has one entry. *)
Lemma contract_keys_distinct : NoDup (map fst contract).
Proof. apply (bool_decide_unpack _). vm_compute. exact I. Qed.

Lemma published_scheduler v : 3 <= v <= 5 -> published "GraphicsSchedulerSelect" (PNumber 32 v) = true.
Proof.
  intros Hv. change ((3 <=? v) && (v <=? 5) = true). rewrite andb_true_iff, !Z.leb_le. lia.
Qed.
Lemma published_config b :
  length b = Z.to_nat 0xea -> Forall (fun z => 0 <= z < 256) b -> published "saved-config" (PData b) = true.
Proof.
  intros Hl Hb. change (blob (Z.to_nat 0xea) (PData b) = true). unfold blob. rewrite Hl, Nat.eqb_refl. cbn [andb].
  apply forallb_forall. intros z Hz. rewrite Forall_forall in Hb. specialize (Hb z (proj2 (list_elem_of_In _ _) Hz)).
  unfold isByte. rewrite andb_true_iff, Z.leb_le, Z.ltb_lt. lia.
Qed.
(** What a key of the contract says of its value. *)
Lemma scheduler_form v : published "GraphicsSchedulerSelect" v = true -> exists n, v = PNumber 32 n /\ 3 <= n <= 5.
Proof.
  change (published "GraphicsSchedulerSelect" v) with (number (fun v => (3 <=? v) && (v <=? 5)) v).
  destruct v as [bits n| | | |]; cbn [number]; try done. rewrite !andb_true_iff, Z.eqb_eq, !Z.leb_le.
  intros (-> & Hn). by exists n.
Qed.
Lemma phase_form v : published "NGreenBringupPhase" v = true ->
  exists t, v = PString t /\ t ∈ ["FBOnly"; "InternalReady"; "ExternalReady"].
Proof.
  change (published "NGreenBringupPhase" v) with (text ["FBOnly"; "InternalReady"; "ExternalReady"] v).
  destruct v as [| |t| |]; cbn [text]; try done. intros (t' & Hin & ->%String.eqb_eq)%existsb_exists.
  exists t'. split; [done|]. by apply list_elem_of_In.
Qed.
Lemma pipe_form v : published "IOAccelDisplayPipeCapabilities" v = true ->
  exists b, v = PDict [("DisplayPipeSupported", PBool b); ("TransactionsSupported", PBool b)].
Proof.
  change (published "IOAccelDisplayPipeCapabilities" v) with (pipeCapabilities v).
  unfold pipeCapabilities. repeat case_match; simplify_eq; try done.
  rewrite !andb_true_iff, !String.eqb_eq, Bool.eqb_true_iff. intros ((-> & ->) & ->). eauto.
Qed.
Lemma device_form v : published "device-id" v = true -> v = PData [0x49; 0x9A; 0x00; 0x00].
Proof.
  change (published "device-id" v) with (bytes [0x49; 0x9A; 0x00; 0x00] v).
  destruct v; cbn [bytes]; try done. by intros ->%bool_decide_eq_true.
Qed.
End Published.

(** A value whose shape is given by its constructors and choices. *)
Ltac solve_published :=
  first
  [ assumption
  | vm_compute; reflexivity
  | match goal with |- context [if ?b then _ else _] => destruct b end; solve_published ].
