(* ===== verification/Ambient.v ===== *)
(** * What every hook may do

    Interface between the components and the machine they make up: an ambient relation on
    worlds is one that a read of any register, a well-formed register write, an event that
    is neither a register access nor a route request nor a property outside the registry
    contract, a step of an engine's bring-up and an update of private state all move along. The file shows once and for all that every hook and every timer callback
    moves the world along any ambient relation; the whole-program invariants instantiate it. *)
From S2P Require Import Prelude Machine Memory Regs Mmio BootArgs RegHooks ForceWake Trace Scan Frame Engine Dpcd Reset.
From S2P Require Import Firmware Display Controller Blit Watchdog Start Monitor Plugin Dyld Exports Published.
Import Regs Mmio BootArgs RegHooks ForceWake Trace.

(** ** The interface *)
Section ambient.
Context `{Platform}.

(** The state the machine's invariants are about. *)
Definition keptN (n : NGreen) : bool * bool * Z * option Z * bool :=
  (ngCallback n, isRealTGL n, iGPU n, rmmio n, rmmioPtr n).
Definition keptG (g : Gen11) : Z * bool * bool * list V93PlaneSurfState * NGTglEngineState * NGTglEngineState :=
  (framecont g, tglFBLoaded g, tglHWLoaded g, v93States g, g_bcs g, g_rcs g).
Definition kept (w : world) := (keptN (w_ng w), keptG (w_g11 w)).

(** An offset the index arithmetic of the accessors does not wrap on. *)
Definition readSafe (r : Z) : Prop := 0 <= r < 2 ^ 64 - 4.
(** A dword-aligned write that masks errors and hands the surface guard a 32-bit value. *)
Definition writeSafe (r v : Z) : Prop :=
  aligned r /\ (emrAddress r = true -> v = 0xFFFFFFFF) /\ (looksLikePlaneSurf r = true -> word v).
(** The original write functions, and what they may be called with. *)
Definition writeOriginal (f : string) : bool :=
  String.eqb f "owrapWriteRegister32" || String.eqb f "oraWriteRegister32" || String.eqb f "oFastWriteRegister32".
Definition isRoute (f : string) : bool := String.prefix "routeMultiple " f.
Definition callSafe (f : string) (args : list Z) : Prop :=
  isRoute f = false /\
  (writeOriginal f = true ->
   match args with [_; a; v] => emrAddress a = true -> v = 0xFFFFFFFF | _ => True end).
Definition eventSafe (e : event) : Prop :=
  match e with
  | ERd _ _ | EWr _ _ => False
  | ECall f args => callSafe f args
  | EProp _ k v => Published.published k v = true
  | _ => True
  end.

Class Ambient (R : relation world) : Prop := {
  amb_preorder :: PreOrder R;
  amb_benign :: Benign R;
  amb_quiet w w' : w_tr w' = w_tr w -> kept w' = kept w -> R w w';
  amb_event e w : eventSafe e -> R w (emit e w);
  amb_readReg32 r : readSafe r -> respects R (readReg32 r);
  amb_writeReg32 r v : writeSafe r v -> respects R (writeReg32 r v);
  amb_framecont {A} (k : Z -> M A) : respects R (k 0) -> respects R (fc ← g11 framecont; k fc);
  amb_getV93State r : respects R (getV93State r);
  amb_v93Remember st v : word v -> respects R (v93Remember st v);
  amb_v93Last {A} st (k : Z -> M A) :
    (forall v, word v -> respects R (k v)) -> respects R (v ← g11 (v93Last st); k v);
  amb_engine e f : (forall s, Engine.estep s (f s)) -> respects R (Engine.with_engine e f);
  amb_settle {A} e start ctl head tail exec ctxptr (yes no : M A) :
    respects R yes -> respects R no ->
    respects R (pass ← g11 (fun g => match Engine.trackedEngineState e g with
                                     | Some s => Engine.smokePass s start ctl head tail exec ctxptr
                                     | None => false end);
                if pass : bool then _ ← Engine.with_engine e (fun s => s <| smokePassed := true |>); yes else no)
}.

(** *** Registers that are constants *)
Definition regOk (r : Z) : bool := (0 <=? r) && (r <? 2 ^ 64 - 4).
Definition plainReg (r : Z) : bool :=
  regOk r && (r mod 4 =? 0) && negb (emrAddress r) && negb (looksLikePlaneSurf r).
Definition plainWrite (rv : Z * Z) : bool :=
  plainReg rv.1 || (regOk rv.1 && (rv.1 mod 4 =? 0) && negb (looksLikePlaneSurf rv.1) && (rv.2 =? 0xFFFFFFFF)).
Lemma regOk_safe r : regOk r = true -> readSafe r.
Proof. unfold regOk, readSafe. intros. bools. lia. Qed.
Lemma regOk_all l r : forallb regOk l = true -> r ∈ l -> readSafe r.
Proof. rewrite forallb_forall. intros Hl Hr. by apply regOk_safe, Hl, list_elem_of_In. Qed.
Lemma plainReg_safe r v : plainReg r = true -> writeSafe r v.
Proof.
  unfold plainReg. rewrite !andb_true_iff, !negb_true_iff, Z.eqb_eq. intros [[[Hr%regOk_safe Ha] He] Hs].
  split; [by split|]. split; congruence.
Qed.
Lemma plainWrite_safe r v : plainWrite (r, v) = true -> writeSafe r v.
Proof.
  unfold plainWrite. cbn [fst snd]. rewrite orb_true_iff, !andb_true_iff, negb_true_iff, !Z.eqb_eq.
  intros [?%(plainReg_safe r v)|[[[Hr%regOk_safe Ha] Hs] ->]]; [done|].
  split; [by split|]. split; congruence.
Qed.
Lemma plainWrites_safe l r v : forallb plainWrite l = true -> (r, v) ∈ l -> writeSafe r v.
Proof. rewrite forallb_forall. intros Hl Hr. by apply plainWrite_safe, Hl, list_elem_of_In. Qed.

(** *** The primitives *)
Context (R : relation world) `{!Ambient R}.
Lemma amb_modify f : (forall w, w_tr (f w) = w_tr w) -> (forall w, kept (f w) = kept w) -> respects R (modify f).
Proof. intros Ht Hk w. apply amb_quiet; [apply Ht|apply Hk]. Qed.
Lemma amb_set_g11 f : (forall g, keptG (f g) = keptG g) -> respects R (set_g11 f).
Proof. intros Hf. apply amb_modify; [done|]. intros w. unfold kept. simpl. by rewrite Hf. Qed.
Lemma amb_set_ng f : (forall n, keptN (f n) = keptN n) -> respects R (set_ng f).
Proof. intros Hf. apply amb_modify; [done|]. intros w. unfold kept. simpl. by rewrite Hf. Qed.
Lemma amb_store n a v : respects R (store n a v).
Proof. by apply amb_modify. Qed.
Lemma amb_now : respects R now_ns.
Proof. intros w. unfold now_ns. destruct (clock_ns _). by apply amb_quiet. Qed.
(** An event, and then an update of state the relation does not look at. *)
Lemma amb_emit e w w' : eventSafe e -> w_tr w' = e :: w_tr w -> kept w' = kept w -> R w w'.
Proof. intros He Ht Hk. etrans; [by apply (amb_event e)|]. by apply amb_quiet. Qed.
Lemma amb_pause ns : respects R (pause_ns ns).
Proof. intros w. by apply (amb_emit (EDelay ns)). Qed.
Lemma amb_delay us : respects R (delay_us us).
Proof. apply amb_pause. Qed.
Lemma amb_sleep ms : respects R (sleep_ms ms).
Proof. apply amb_delay. Qed.
Lemma amb_schedule f ms : respects R (schedule f ms).
Proof. intros w. by apply (amb_emit (ESchedule f ms)). Qed.
Lemma amb_setProperty o k v : Published.published k v = true -> respects R (setProperty o k v).
Proof. intros Hp w. by apply (amb_emit (EProp o k v)). Qed.
Lemma amb_removeProperty o k : respects R (removeProperty o k).
Proof. intros w. by apply (amb_emit (ERemove o k)). Qed.
Lemma amb_addDrivers p : respects R (addDrivers p).
Proof. intros w. by apply (amb_emit (EAddDriver p)). Qed.
Lemma amb_call f args : callSafe f args -> respects R (call f args).
Proof.
  intros Hc w. unfold call. pose proof (benign (R := R) f args (emit (ECall f args) w)) as Hb.
  destruct (original _ _ _) as [r w']. simpl in *. etrans; [|exact Hb]. by apply amb_event.
Qed.
(** A read, with what is known of its value. *)
Lemma amb_read_bind {A} r (k : Z -> M A) :
  readSafe r -> (forall v, word v -> respects R (k v)) -> respects R (v ← readReg32 r; k v).
Proof.
  intros Hr Hk w. pose proof (amb_readReg32 r Hr w) as H1. unfold mbind, M_bind.
  destruct (readReg32 r w) as [v w1| |] eqn:E; [|done..]. simpl in H1. etrans; [exact H1|].
  apply Hk. exact (readReg32_range _ _ _ _ E).
Qed.
Lemma amb_tRead a : readSafe a -> respects R (tReadRegister32 a).
Proof. intros. unfold tReadRegister32. pose proof (amb_readReg32 a). respects_auto; auto. Qed.
Lemma amb_tWrite a v : writeSafe a v -> respects R (tWriteRegister32 a v).
Proof. intros. unfold tWriteRegister32. pose proof (amb_writeReg32 a v). respects_auto; auto. Qed.
Lemma amb_rmw r c v : plainReg r = true -> respects R (intel_de_rmw r c v).
Proof.
  intros Hr. unfold intel_de_rmw. pose proof (fun v => amb_writeReg32 r v (plainReg_safe r v Hr)).
  assert (readSafe r) by (apply (plainReg_safe r 0 Hr)). pose proof (amb_readReg32 r). respects_auto; auto.
Qed.
Lemma amb_wa_add r c v m b : plainReg r = true -> respects R (wa_add r c v m b).
Proof.
  intros Hr. unfold wa_add. pose proof (fun v => amb_writeReg32 r v (plainReg_safe r v Hr)).
  assert (readSafe r) by (apply (plainReg_safe r 0 Hr)). pose proof (amb_readReg32 r). respects_auto; auto.
Qed.
Lemma amb_mmioReady : respects R tmmioReady.
Proof. apply respects_ng. exact _. Qed.
Lemma amb_wrapWrite0 r v : writeSafe r v -> respects R (wrapWriteRegister32 0 r v).
Proof. apply amb_writeReg32. Qed.
Lemma amb_wrapRead0 r : readSafe r -> respects R (wrapReadRegister32 0 r).
Proof. apply amb_readReg32. Qed.
End ambient.

Create HintDb amb discriminated.
#[export] Hint Extern 0 (Ambient _) => exact _ : amb.
#[export] Hint Resolve amb_store amb_now amb_pause amb_delay amb_sleep amb_schedule amb_removeProperty
  amb_addDrivers amb_mmioReady : amb.

(** A term that mentions nothing of the context. *)
Ltac closed t :=
  tryif match goal with x : _ |- _ => match t with context [x] => idtac end end then fail else idtac.
(** A closed register: by evaluation. A register from a closed list: by evaluation of the
    list. *)
Ltac solve_reg :=
  match goal with
  | |- readSafe ?r => closed r; apply regOk_safe; vm_compute; reflexivity
  | Hx : ?r ∈ ?l |- readSafe ?r => closed l; apply (regOk_all l); [vm_compute; reflexivity|exact Hx]
  | |- writeSafe ?r _ => closed r; apply plainReg_safe; vm_compute; reflexivity
  | |- writeSafe ?r ?v => closed r; closed v; apply plainWrite_safe; vm_compute; reflexivity
  | Hx : (?r, ?v) ∈ ?l |- writeSafe ?r ?v =>
    closed l; apply (plainWrites_safe l); [vm_compute; reflexivity|exact Hx]
  | |- plainReg ?r = true => closed r; vm_compute; reflexivity
  | |- callSafe ?f _ => closed f; split; [vm_compute; reflexivity|intros Hw; vm_compute in Hw; discriminate Hw]
  end.
#[export] Hint Extern 1 (readSafe _) => solve_reg : amb.
#[export] Hint Extern 1 (writeSafe _ _) => solve_reg : amb.
#[export] Hint Extern 1 (callSafe _ _) => solve_reg : amb.
#[export] Hint Extern 1 (respects _ (setProperty _ _ _)) => apply amb_setProperty; [exact _|solve_published] : amb.
#[export] Hint Extern 1 (respects _ (call _ _)) => apply amb_call; [exact _|solve_reg] : amb.
#[export] Hint Extern 1 (respects _ (readReg32 _)) => apply amb_readReg32; solve_reg : amb.
#[export] Hint Extern 1 (respects _ (readMMIO32 _)) => apply amb_readReg32; solve_reg : amb.
#[export] Hint Extern 1 (respects _ (tReadRegister32 _)) => apply amb_tRead; [exact _|solve_reg] : amb.
#[export] Hint Extern 1 (respects _ (readTraceReg _)) => apply amb_tRead; [exact _|solve_reg] : amb.
#[export] Hint Extern 1 (respects _ (traceRead32 _)) => apply amb_tRead; [exact _|solve_reg] : amb.
#[export] Hint Extern 1 (respects _ (writeReg32 _ _)) => apply amb_writeReg32; solve_reg : amb.
#[export] Hint Extern 1 (respects _ (wrapWriteRegister32 0 _ _)) => apply amb_wrapWrite0; [exact _|solve_reg] : amb.
#[export] Hint Extern 1 (respects _ (wrapReadRegister32 0 _)) => apply amb_wrapRead0; [exact _|solve_reg] : amb.
#[export] Hint Extern 1 (respects _ (intel_de_rmw _ _ _)) => apply amb_rmw; [exact _|solve_reg] : amb.
#[export] Hint Extern 1 (respects _ (wa_add _ _ _ _ _)) => apply amb_wa_add; [exact _|solve_reg] : amb.
#[export] Hint Extern 1 (respects _ (Scan.dumpIGHardwareContextObject _)) => apply Scan.pure_respects; [exact _|solve_pure] : amb.
#[export] Hint Extern 1 (respects _ (Scan.dumpIGHardwareRingBufferObject _)) => apply Scan.pure_respects; [exact _|solve_pure] : amb.
#[export] Hint Extern 1 (respects _ (Scan.traceVirtualCallInSubmitToRing _)) => apply Scan.pure_respects; [exact _|solve_pure] : amb.
#[export] Hint Extern 1 (respects _ (set_g11 _)) => apply amb_set_g11; [exact _|done] : amb.
#[export] Hint Extern 1 (respects _ (set_ng _)) => apply amb_set_ng; [exact _|done] : amb.
#[export] Hint Extern 1 (respects _ (set_bringup _)) => apply amb_set_g11; [exact _|done] : amb.

Ltac amb_step :=
  match goal with
  | |- respects _ (mbind _ (g11 framecont)) => apply amb_framecont
  | |- respects _ (mbind _ (readReg32 _)) => apply amb_read_bind; [exact _|solve_reg|intros ? ?]
  | |- respects _ (iterM _ (fun '(_, _) => _)) => apply respects_iterM; [exact _|intros [??] ?]
  | |- _ => respects_step
  end.
Ltac amb_auto := repeat (first [amb_step | solve [eauto 3 with amb]]).

(** ** Traces *)
Section traces.
Context `{Platform} (R : relation world) `{!Ambient R}.
Lemma amb_readAll rs : forallb regOk rs = true -> respects R (readAll rs).
Proof. intros Hrs. unfold readAll. amb_auto. apply amb_tRead; [exact _|by eapply regOk_all]. Qed.
Lemma amb_readAllWhenReady rs : forallb regOk rs = true -> respects R (readAllWhenReady rs).
Proof. intros Hrs. unfold readAllWhenReady. amb_auto. apply amb_tRead; [exact _|by eapply regOk_all]. Qed.
Lemma amb_anyCsb l : forallb (fun i => (0 <=? i) && (i <? 0x10000)) l = true -> respects R (anyCsb l).
Proof.
  induction l as [|i l IH]; cbn [anyCsb forallb]; [amb_auto|].
  rewrite !andb_true_iff, Z.leb_le, Z.ltb_lt. intros [Hi Hl].
  amb_auto; (apply amb_tRead; [exact _|]);
    unfold readSafe, RING_CONTEXT_STATUS_BUF, RING_CONTEXT_STATUS_BUF_HI, RENDER_RING_BASE; lia.
Qed.
End traces.
#[export] Hint Extern 1 (respects _ (readAll ?l)) => closed l; apply amb_readAll; [exact _|vm_compute; reflexivity] : amb.
#[export] Hint Extern 1 (respects _ (readAllWhenReady ?l)) =>
  closed l; apply amb_readAllWhenReady; [exact _|vm_compute; reflexivity] : amb.
#[export] Hint Extern 1 (respects _ (anyCsb ?l)) => closed l; apply amb_anyCsb; [exact _|vm_compute; reflexivity] : amb.

Section dumps.
Context `{Platform} (R : relation world) `{!Ambient R}.
Lemma amb_dumpRcs : respects R dumpRcsEngineActivationState.
Proof. unfold dumpRcsEngineActivationState. amb_auto. Qed.
Lemma amb_mark : respects R markRcsRegisterTransition.
Proof. unfold markRcsRegisterTransition. amb_auto. Qed.
Lemma amb_update stage : respects R (updateTglGpuBringupStateFromRegisters stage).
Proof. unfold updateTglGpuBringupStateFromRegisters, anyRcsCsbEntrySet. amb_auto. Qed.
Hint Resolve amb_update : amb.
Lemma amb_dumpState stage : respects R (dumpTglGpuBringupState stage).
Proof.
  unfold dumpTglGpuBringupState, dumpRcsRegisters, dumpGucRegisters, dumpGtInterruptRegisters. amb_auto.
Qed.
Lemma amb_sharedVA b : respects R (tGetSharedMappedBufferVirtualAddress b).
Proof. unfold tGetSharedMappedBufferVirtualAddress. amb_auto. Qed.
Lemma amb_mappedVA b : respects R (tGetMappedBufferGPUVirtualAddress b).
Proof. unfold tGetMappedBufferGPUVirtualAddress. amb_auto. Qed.
Lemma amb_candidate c : respects R (candidateTypeName c).
Proof. unfold candidateTypeName. amb_auto. Qed.
Hint Resolve amb_sharedVA amb_mappedVA amb_candidate : amb.
Lemma amb_dumpCandidates o : respects R (dumpCandidateMappedBuffers o).
Proof. unfold dumpCandidateMappedBuffers. amb_auto. Qed.
Hint Resolve amb_dumpCandidates : amb.
Lemma amb_dumpContext c : respects R (dumpContextImageKnownFields c).
Proof. unfold dumpContextImageKnownFields. amb_auto. Qed.
Lemma amb_dumpRing b : respects R (dumpRingMemoryKnownFields b).
Proof. unfold dumpRingMemoryKnownFields. amb_auto. Qed.
Lemma amb_scan o n : respects R (scanMappedCandidates o n).
Proof. unfold scanMappedCandidates. amb_auto. Qed.
End dumps.
#[export] Hint Resolve amb_dumpRcs amb_mark amb_dumpState amb_sharedVA amb_mappedVA amb_dumpCandidates
  amb_dumpContext amb_dumpRing amb_scan : amb.
