(* ===== verification/ContextWa.v ===== *)
(** * Engine workarounds of a new context (TGL.cpp)

    The hook of [IGHardwareExtendedContext::initWithOptions] returns before the workarounds
    it carries for the render, compute and copy engines. They are modelled as what would run
    without that return: a sequence of register updates chosen by the engine of the context,
    and a second call of the original. The file shows that the hook as it is touches no
    register, that the sequence would keep to everything the machine relies on, and what it
    would leave in the cache-control registers. *)
From S2P Require Import Prelude Machine Memory Sim Regs Mmio BootArgs RegHooks Trace Frame Engine Ambient.
Import Regs Mmio.

Module ContextWa.
Section defs.
Context `{Platform}.

(** [TGL.cpp:5622-5718 IGHardwareExtendedContextinitWithOptions] *)
Definition rcsWorkarounds : M unit :=
  let mocs := 3 in
  _ ← wa_masked_field_set (RING_CMD_CCTL RENDER_RING_BASE) CMD_CCTL_MOCS_MASK (CMD_CCTL_MOCS_OVERRIDE mocs mocs);
  _ ← wa_masked_en GEN9_CS_DEBUG_MODE1 FF_DOP_CLOCK_GATE_DISABLE;
  _ ← wa_mcr_masked_en GEN8_ROW_CHICKEN2 GEN12_DISABLE_EARLY_READ;
  _ ← wa_write_or GEN7_FF_THREAD_MODE GEN12_FF_TESSELATION_DOP_GATE_DISABLE;
  _ ← wa_mcr_masked_en GEN10_SAMPLER_MODE ENABLE_SMALLPL;
  _ ← wa_mcr_masked_en GEN8_ROW_CHICKEN2 GEN12_PUSH_CONST_DEREF_HOLD_DIS;
  _ ← wa_mcr_masked_en GEN9_ROW_CHICKEN4 GEN12_DISABLE_TDL_PUSH;
  _ ← wa_masked_en (RING_PSMI_CTL RENDER_RING_BASE)
        (GEN12_WAIT_FOR_EVENT_POWER_DOWN_DISABLE .| GEN8_RC_SEMA_IDLE_MSG_DISABLE);
  _ ← wa_masked_en GEN7_FF_SLICE_CS_CHICKEN1 GEN9_FFSC_PERCTX_PREEMPT_CTRL;
  _ ← whitelist_reg_ext PS_INVOCATION_COUNT (RING_FORCE_TO_NONPRIV_ACCESS_RD .| RING_FORCE_TO_NONPRIV_RANGE_4);
  _ ← whitelist_reg GEN7_COMMON_SLICE_CHICKEN1;
  _ ← whitelist_reg HIZ_CHICKEN;
  _ ← whitelist_reg GEN11_COMMON_SLICE_CHICKEN3;
  _ ← wa_masked_en GEN11_COMMON_SLICE_CHICKEN3 GEN12_DISABLE_CPS_AWARE_COLOR_PIPE;
  _ ← wa_masked_field_set GEN8_CS_CHICKEN1 GEN9_PREEMPT_GPGPU_LEVEL_MASK GEN9_PREEMPT_GPGPU_THREAD_GROUP_LEVEL;
  wa_add GEN12_FF_MODE2 (not32 0) (FF_MODE2_TDS_TIMER_128 .| FF_MODE2_GS_TIMER_224) 0 false.
(** [TGL.cpp:5720-5731 IGHardwareExtendedContextinitWithOptions] *)
Definition ccsWorkarounds : M unit :=
  let mocs := 3 in
  wa_masked_field_set (RING_CMD_CCTL GEN12_COMPUTE0_RING_BASE) CMD_CCTL_MOCS_MASK (CMD_CCTL_MOCS_OVERRIDE mocs mocs).
(** [TGL.cpp:5733-5749 IGHardwareExtendedContextinitWithOptions] *)
Definition bcsWorkarounds : M unit :=
  let mocs := 3 in
  wa_write_clr_set (BLIT_CCTL BLT_RING_BASE) BLIT_CCTL_MASK (BLIT_CCTL_MOCS mocs mocs).
(** Nothing for the video engines. [TGL.cpp:5622-5761 IGHardwareExtendedContextinitWithOptions] *)
Definition contextWorkarounds (ctx : Z) : M unit :=
  _ ← when (ctx =? 0) rcsWorkarounds;
  _ ← when (ctx =? 1) ccsWorkarounds;
  when (ctx =? 2) bcsWorkarounds.
(** What follows the first return. [TGL.cpp:5608-5766 IGHardwareExtendedContextinitWithOptions] *)
Definition afterReturn (that param_1 param_2 : Z) : M Z :=
  ctx ← load 1 (that + 0x6c);
  _ ← contextWorkarounds ctx;
  ret ← call "oIGHardwareExtendedContextinitWithOptions" [that; param_1; param_2];
  mret (u8 ret).
End defs.

Section facts.
Context `{Platform}.
Definition noAccess (e : event) : Prop := match e with ERd _ _ | EWr _ _ => False | _ => True end.

(** Setting up a context runs no workaround: unless the driver's own initialiser does, the
    hook reads and writes no register, whatever engine the context is for. *)
Theorem context_init_touches_no_register `{!Benign (emits noAccess)} (that param_1 param_2 : Z) :
  respects (emits noAccess) (Engine.IGHardwareExtendedContextinitWithOptions that param_1 param_2).
Proof.
  unfold Engine.IGHardwareExtendedContextinitWithOptions, Engine.getTrackedEngineFromContext,
    Engine.markTrackedEngineContextSeen, Engine.with_engine.
  assert (Hc : forall f args, respects (emits noAccess) (call f args)) by (intros; by apply emits_call).
  respects_auto; by intros w; apply emits_silent.
Qed.

(** Every workaround is a dword-aligned update of a plain register: the skipped code would
    keep every invariant of the machine. *)
Lemma amb_afterReturn (R : relation world) `{!Ambient R} that p1 p2 : respects R (afterReturn that p1 p2).
Proof.
  assert (Hext : forall r f, plainReg r = true -> respects R (whitelist_reg_ext r f)).
  { intros r f Hr. unfold whitelist_reg_ext. pose proof (plainReg_safe r 0 Hr) as ([Ha _] & _).
    pose proof (fun v => amb_writeReg32 (R := R) r v (plainReg_safe r v Hr)). pose proof (amb_readReg32 (R := R) r Ha).
    respects_auto; auto. }
  assert (Hl : forall r, plainReg r = true -> respects R (whitelist_reg r)) by (intros; by apply Hext).
  unfold afterReturn, contextWorkarounds, rcsWorkarounds, ccsWorkarounds, bcsWorkarounds, wa_masked_field_set, wa_masked_en,
    wa_mcr_masked_en, wa_mcr_add, wa_write_or, wa_write_clr_set.
  amb_auto.
Qed.

(** The copy engine's cache-control fields would not get the intended index: [wa_add] or-s the
    mask of the fields into the value it writes, so both end up all ones. *)
Lemma bcs_mocs_value old : 0 <= old < 2 ^ 32 ->
  wa_value old BLIT_CCTL_MASK (BLIT_CCTL_MOCS 3 3) (BLIT_CCTL_MASK .| BLIT_CCTL_MOCS 3 3) false .& BLIT_CCTL_MASK = BLIT_CCTL_MASK.
Proof.
  intros Ho. unfold wa_value. change BLIT_CCTL_MASK with 0x7f7f. change (BLIT_CCTL_MOCS 3 3) with 0x606.
  change (0x7f7f .| 0x606) with 0x7f7f. rewrite Z.land_comm. apply Z.bits_inj'. intros i Hi.
  rewrite Z.land_spec, Z.lor_spec. destruct (Z.testbit 0x7f7f i); [by rewrite orb_true_r|done].
Qed.
End facts.

(** ** Evaluations *)
Import Sim.
#[local] Existing Instance plat.
Lemma context_init_touches_no_register_witness :
  emits noAccess (sim_world []) (final (Engine.IGHardwareExtendedContextinitWithOptions 0x100 0 0 (sim_world []))).
Proof. apply (@context_init_touches_no_register _ plat (sim_benign [] [] 0 _)). Defined.
(** The render sequence, on registers that read as 0. *)
Example rcs_accesses :
  length (w_tr (final (contextWorkarounds 0 (sim_world [])))) = 32%nat /\
  hd_error (w_tr (final (contextWorkarounds 0 (sim_world [])))) = Some (EWr (GEN12_FF_MODE2 / 4) 0xE0040000).
Proof. vm_compute. split; reflexivity. Qed.
Example bcs_accesses :
  w_tr (final (contextWorkarounds 2 (sim_world []))) = [EWr (0x22204 / 4) 0x7f7f; ERd (0x22204 / 4) 0].
Proof. vm_compute. reflexivity. Qed.
End ContextWa.
