(* ===== verification/Hooks.v ===== *)
(** * Every hook is ambient

    One lemma per operation of each component: whatever its arguments, it moves the world
    along any ambient relation. Register arguments of the routed accessors are the
    exception: they must be dword aligned, and their values 32-bit words. *)
From S2P Require Import Prelude Machine Memory Regs Mmio BootArgs RegHooks ForceWake Trace Frame Engine Dpcd Reset.
From S2P Require Import Firmware Display Controller Blit Watchdog Start Monitor Plugin Dyld Exports Published Ambient.
Import Regs Mmio BootArgs RegHooks ForceWake Trace.

(** ** Register access hooks *)
Section RegHooks.
Context `{Platform} (R : relation world) `{!Ambient R}.
Lemma respects_assoc {A B C} (m : M A) (f : A -> M B) (k : B -> M C) :
  respects R (a ← m; b ← f a; k b) -> respects R (b ← (a ← m; f a); k b).
Proof. intros Hm w. specialize (Hm w). unfold mbind, M_bind in *. by destruct (m w). Qed.
(** Run a sequence in front of its continuation, case by case. *)
Ltac amb_cps := repeat
  match goal with
  | |- respects _ (mbind _ (mret _)) => respects_step
  | |- respects _ (mbind _ (mbind _ _)) => apply respects_assoc
  | |- respects _ (mbind _ (match ?b with _ => _ end)) => destruct b eqn:?
  | |- respects _ (mbind _ (let _ := _ in _)) => progress cbv zeta
  | |- respects _ (mbind _ (g11 (v93Last _))) => apply amb_v93Last; intros ? ?
  | |- respects _ (mbind _ (ng _)) => respects_step
  | |- respects _ (mbind _ (readReg32 _)) => apply amb_read_bind; [exact _| |intros ? ?]
  | |- respects _ (mbind _ _) => apply respects_bind; [exact _| |intros ?]
  end.
(** The control register of a plane. *)
Lemma ctl_write a v :
  looksLikePlaneSurf a = true -> writeSafe (a - 0x1C) v.
Proof.
  intros Hs. pose proof (plane_ctl_spec _ Hs) as [_ Hc]. split; [by apply plane_ctl_aligned|].
  split; [|congruence]. apply plane_surf_spec in Hs as [Hr Hm]. unfold emrAddress. rewrite orb_true_iff, !Z.eqb_eq. lia.
Qed.
Lemma amb_v93Guard {A} a v (k : Z -> M A) :
  word v -> (forall v, word v -> respects R (k v)) -> respects R (v ← v93Guard a v; k v).
Proof.
  intros Hv Hk. unfold v93Guard. amb_cps;
    match goal with
    | Hs : looksLikePlaneSurf _ = true |- respects _ (writeReg32 _ _) => by apply amb_writeReg32, ctl_write
    | Hs : looksLikePlaneSurf _ = true |- readSafe _ => apply plane_surf_spec in Hs; unfold readSafe; lia
    | |- _ => respects_step
    | |- _ => by first [apply Hk | apply amb_v93Remember | apply amb_getV93State]
    end.
Qed.
Lemma amb_raWriteRegister32 that a v : aligned a -> word v -> respects R (raWriteRegister32 that a v).
Proof.
  intros Ha Hv. unfold raWriteRegister32. apply amb_v93Guard; [done|]. intros v' Hv'.
  assert (writeSafe a (v72Mask a v')).
  { split; [done|]. split; [apply v72Mask_emr|]. intros _. by apply v72Mask_word. }
  pose proof (amb_writeReg32 a (v72Mask a v')). amb_auto.
  apply amb_call; [exact _|]. split; [done|]. intros _. apply v72Mask_emr.
Qed.
Lemma amb_raWriteRegister32b that a b v :
  aligned (u64 (a + b)) -> word v -> respects R (raWriteRegister32b that a b v).
Proof. apply amb_raWriteRegister32. Qed.
Lemma amb_FastWriteRegister32 that a v : respects R (FastWriteRegister32 that a v).
Proof.
  unfold FastWriteRegister32. amb_auto. apply amb_call; [exact _|]. split; [done|]. intros _ Hemr.
  rewrite v72Mask_emr by done. unfold planeFixup, emrAddress in *.
  apply orb_true_iff in Hemr as [E|E]; apply Z.eqb_eq in E; by subst.
Qed.
Lemma amb_raReadRegister32 that a : readSafe a -> respects R (raReadRegister32 that a).
Proof. intros Ha. unfold raReadRegister32. pose proof (amb_readReg32 a Ha). amb_auto. Qed.
Lemma amb_hwConfigureCustomAUX that p : respects R (hwConfigureCustomAUX that p).
Proof. unfold hwConfigureCustomAUX. amb_auto. Qed.
Lemma amb_hwRegsNeedUpdate that a b c d e : respects R (hwRegsNeedUpdate that a b c d e).
Proof. unfold hwRegsNeedUpdate. amb_auto. Qed.
End RegHooks.
#[export] Hint Extern 1 (respects _ (raReadRegister32 _ _)) => apply amb_raReadRegister32; [exact _|solve_reg] : amb.
#[export] Hint Resolve amb_FastWriteRegister32 amb_hwConfigureCustomAUX amb_hwRegsNeedUpdate : amb.

(** ** Force wake *)
Section ForceWake.
Context `{Platform} (R : relation world) `{!Ambient R}.
Lemma amb_pollRegister r v m t : readSafe r -> respects R (pollRegister r v m t).
Proof. intros Hr. unfold pollRegister. amb_auto. by apply amb_wrapRead0. Qed.
Lemma amb_fallbackLoop n req ack v m p :
  plainReg req = true -> readSafe ack -> respects R (fallbackLoop n req ack v m p).
Proof.
  intros Hr Ha. revert p. induction n as [|n IH]; intros p; cbn [fallbackLoop]; amb_auto;
    first [by apply amb_pollRegister | by apply amb_wrapWrite0, plainReg_safe | by apply amb_wrapRead0 | auto].
Qed.
Lemma amb_wakeOne req ack wr e m : plainReg req = true -> readSafe ack -> respects R (wakeOne req ack wr e m).
Proof.
  intros Hr Ha. unfold wakeOne, forceWakeWaitAckFallback. amb_auto;
    first [by apply amb_pollRegister | by apply amb_wrapWrite0, plainReg_safe | by apply amb_fallbackLoop].
Qed.
Lemma amb_hangcheckDump : respects R hangcheckDump.
Proof. unfold hangcheckDump, hangcheckRegs. amb_auto. Qed.
Hint Resolve amb_hangcheckDump : amb.
Lemma amb_wakeDomain dom wr e m d :
  d ∈ [DOM_RENDER; DOM_MEDIA; DOM_BLITTER] -> respects R (wakeDomain dom wr e m d).
Proof.
  rewrite !elem_of_cons. intros Hd. unfold wakeDomain, fwMediaEngines.
  destruct Hd as [->|[->|[->|Hd%elem_of_nil]]]; [..|done]; cbn [Z.eqb]; amb_auto;
    repeat match goal with Hx : _ ∈ _ :: _ |- _ => apply elem_of_cons in Hx as [Hx|Hx] end;
    repeat match goal with Hx : _ ∈ [] |- _ => by apply elem_of_nil in Hx end; simplify_eq; apply amb_wakeOne; solve_reg.
Qed.
Lemma amb_forceWake that set dom ctx : respects R (forceWake that set dom ctx).
Proof. unfold forceWake, traceAcks, wakeDomains. amb_auto. by apply amb_wakeDomain. Qed.
End ForceWake.
#[export] Hint Resolve amb_forceWake : amb.

(** ** Engine bring-up *)
Section Engine.
Import Engine.
Context `{Platform} (R : relation world) `{!Ambient R}.
Hint Constructors estep : core.
Hint Extern 1 (respects _ (with_engine _ _)) => apply amb_engine; auto : amb.
Lemma amb_fromContext c : respects R (getTrackedEngineFromContext c).
Proof. unfold getTrackedEngineFromContext. amb_auto. Qed.
Hint Resolve amb_fromContext : amb.
Lemma amb_fromRing c : respects R (getTrackedEngineFromRingBuffer c).
Proof. unfold getTrackedEngineFromRingBuffer. amb_auto. Qed.
Lemma amb_evaluate e : respects R (evaluateTrackedEngineBootstrap e).
Proof.
  unfold evaluateTrackedEngineBootstrap. do 2 (apply respects_bind; [exact _|amb_auto|intros ?]).
  destruct e; repeat lazymatch goal with
  | |- respects _ (mbind _ (g11 _)) => apply amb_settle
  | |- _ => first [amb_step | solve [eauto 3 with amb]]
  end.
Qed.
Lemma amb_dumpContextObject that : respects R (dumpContext that).
Proof. unfold dumpContext. amb_auto. Qed.
Lemma amb_dumpRingObject that : respects R (dumpRing that).
Proof. unfold dumpRing. amb_auto. Qed.
Hint Resolve amb_dumpContextObject amb_dumpRingObject : amb.
Lemma amb_ctxTracePre that : respects R (ctxTracePre that).
Proof. unfold ctxTracePre, traced. amb_auto. Qed.
Lemma amb_ctxTracePost that : respects R (ctxTracePost that).
Proof. unfold ctxTracePost, traced, markTransition. amb_auto. Qed.
Lemma amb_markContext e : respects R (markTrackedEngineContextSeen e).
Proof. apply amb_engine. auto. Qed.
Lemma amb_markRing e : respects R (markTrackedEngineRingReady e).
Proof. apply amb_engine. auto. Qed.
Lemma amb_markControl e b : respects R (markTrackedEngineControlReady e b).
Proof. apply amb_engine. auto. Qed.
Lemma amb_markSubmitted e : respects R (markTrackedEngineSubmitted e).
Proof. apply amb_engine. auto. Qed.
Lemma amb_submitTrace that : respects R (submitTrace that).
Proof. unfold submitTrace. amb_auto. Qed.
Hint Resolve amb_fromRing amb_evaluate amb_ctxTracePre amb_ctxTracePost amb_markContext amb_markRing
  amb_markControl amb_markSubmitted amb_submitTrace : amb.
(** Open the glue around the originals. *)
Tactic Notation "amb_engine" reference(f) := unfold f, callIf, traced, markTransition, evaluateUnlessPassed; amb_auto.
Lemma amb_initRingGPU that : respects R (IGHardwareContextinitRingGPUVirtualAddress that).
Proof. amb_engine IGHardwareContextinitRingGPUVirtualAddress. Qed.
Lemma amb_initRingRegisters that : respects R (IGHardwareContextinitRingRegisters that).
Proof. amb_engine IGHardwareContextinitRingRegisters. Qed.
Lemma amb_initRingControl that e : respects R (IGHardwareContextinitRingControl that e).
Proof. amb_engine IGHardwareContextinitRingControl. Qed.
Lemma amb_resetRingHead that : respects R (IGHardwareContextresetRingHead that).
Proof. amb_engine IGHardwareContextresetRingHead. Qed.
Lemma amb_updateRingTail that t : respects R (IGHardwareContextupdateRingTail that t).
Proof. amb_engine IGHardwareContextupdateRingTail. Qed.
Lemma amb_initWithOptions that a b : respects R (IGHardwareExtendedContextinitWithOptions that a b).
Proof. amb_engine IGHardwareExtendedContextinitWithOptions. Qed.
Lemma amb_ringBufferInit that c : respects R (IGHardwareRingBufferinit that c).
Proof. amb_engine IGHardwareRingBufferinit. Qed.
Lemma amb_submitToRing that : respects R (IGHardwareRingBuffersubmitToRing that).
Proof. amb_engine IGHardwareRingBuffersubmitToRing. Qed.
Lemma amb_renderInit that a b c : respects R (IGHardwareRenderCommandStreamerinit that a b c).
Proof. amb_engine IGHardwareRenderCommandStreamerinit. Qed.
Lemma amb_resumeScheduling that : respects R (IGHardwareCommandStreamerresumeScheduling that).
Proof. amb_engine IGHardwareCommandStreamerresumeScheduling. Qed.
Lemma amb_submitExecList that s : respects R (IGHardwareCommandStreamersubmitExecList that s).
Proof. amb_engine IGHardwareCommandStreamersubmitExecList. Qed.
Lemma amb_prepareExecList that a b c : respects R (IGHardwareCommandStreamerprepareExecListAndSubmit that a b c).
Proof. amb_engine IGHardwareCommandStreamerprepareExecListAndSubmit. Qed.
Lemma amb_submissionState : respects R dumpRCSSubmissionState.
Proof. unfold dumpRCSSubmissionState. amb_auto. Qed.
Hint Resolve amb_submissionState : amb.
Lemma amb_s5Forward f args extra :
  callSafe f args -> (forall r, respects R (extra r)) -> respects R (s5Forward f args extra).
Proof.
  intros Hf He. unfold s5Forward, traced, markTransition. pose proof (amb_call R f args Hf). amb_auto; auto.
Qed.
Lemma amb_s5Hook f args : callSafe f args -> respects R (s5Hook f args).
Proof. intros Hf. apply amb_s5Forward; [done|]. intros r. amb_auto. Qed.
Hint Extern 1 (respects _ (s5Hook _ _)) => apply amb_s5Hook; solve_reg : amb.
Lemma amb_s5Init that a : respects R (IGScheduler5initWithAccelerator that a).
Proof. unfold IGScheduler5initWithAccelerator. amb_auto. Qed.
Lemma amb_s5Resume that : respects R (IGScheduler5resume that).
Proof. unfold IGScheduler5resume. amb_auto. Qed.
Lemma amb_s5Push that c a b d e : respects R (IGScheduler5push that c a b d e).
Proof. unfold IGScheduler5push. amb_auto. apply amb_s5Forward; [solve_reg|]. intros r. amb_auto. Qed.
Lemma amb_s5Notify that t : respects R (IGScheduler5notify that t).
Proof. unfold IGScheduler5notify. amb_auto. Qed.
Lemma amb_s5Stamp that t : respects R (IGScheduler5enableStampInterrupt that t).
Proof. unfold IGScheduler5enableStampInterrupt. amb_auto. Qed.
Lemma amb_s5Switch that : respects R (IGScheduler5enableContextSwitchInterrupts that).
Proof. unfold IGScheduler5enableContextSwitchInterrupts. amb_auto. Qed.
Lemma amb_s5Progress that t : respects R (IGScheduler5checkForProgress that t).
Proof. unfold IGScheduler5checkForProgress. amb_auto. Qed.
End Engine.
#[export] Hint Resolve amb_initRingGPU amb_initRingRegisters amb_initRingControl amb_resetRingHead amb_updateRingTail
  amb_initWithOptions amb_ringBufferInit amb_submitToRing amb_renderInit amb_resumeScheduling amb_submitExecList
  amb_prepareExecList amb_s5Init amb_s5Resume amb_s5Push amb_s5Notify amb_s5Stamp amb_s5Switch amb_s5Progress : amb.

(** ** Panel and links *)
Section Dpcd.
Import Dpcd.
Context `{Platform} (R : relation world) `{!Ambient R}.
Lemma amb_clampLinkConfig b l : respects R (clampLinkConfig b l).
Proof. unfold clampLinkConfig. amb_auto. Qed.
Lemma amb_handleCaps b : respects R (handleCaps b).
Proof. unfold handleCaps, cacheCaps, capCaps. amb_auto. Qed.
Hint Resolve amb_clampLinkConfig amb_handleCaps : amb.
Lemma amb_wrapICLReadAUX that a b l : respects R (wrapICLReadAUX that a b l).
Proof. unfold wrapICLReadAUX. amb_auto. Qed.
Lemma amb_computeLaneCount that t l b c : respects R (computeLaneCount that t l b c).
Proof. unfold computeLaneCount. amb_auto. Qed.
Lemma amb_AppleIntelPowerWellinit that p : respects R (AppleIntelPowerWellinit that p).
Proof. unfold AppleIntelPowerWellinit. amb_auto. Qed.
Lemma amb_handleLinkIntegrityCheck : respects R handleLinkIntegrityCheck.
Proof. unfold handleLinkIntegrityCheck. amb_auto. Qed.
End Dpcd.
#[export] Hint Resolve amb_wrapICLReadAUX amb_computeLaneCount amb_AppleIntelPowerWellinit
  amb_handleLinkIntegrityCheck : amb.

(** ** Reset and clocks *)
Section Reset.
Import Reset.
Context `{Platform} (R : relation world) `{!Ambient R}.
Lemma amb_program l : forallb plainWrite l = true -> respects R (program l).
Proof. intros Hl. unfold program. amb_auto. apply amb_writeReg32. by eapply plainWrites_safe. Qed.
Lemma amb_readLog l : forallb regOk l = true -> respects R (readLog l).
Proof.
  intros Hl. unfold readLog. apply respects_iterM; [exact _|]. intros r Hr.
  apply amb_read_bind; [exact _|by eapply regOk_all|]. intros. amb_auto.
Qed.
End Reset.
#[export] Hint Extern 1 (respects _ (Reset.program ?l)) => closed l; apply amb_program; [exact _|vm_compute; reflexivity] : amb.
#[export] Hint Extern 1 (respects _ (Reset.readLog ?l)) => closed l; apply amb_readLog; [exact _|vm_compute; reflexivity] : amb.
Section Reset2.
Import Reset.
Context `{Platform} (R : relation world) `{!Ambient R}.
Lemma amb_gtWorkarounds : respects R gtWorkarounds.
Proof.
  unfold gtWorkarounds, wa_masked_en, wa_masked_field_set, wa_write_or, wa_mcr_write_or, wa_mcr_write_clr_set,
    wa_mcr_add, wa_write_clr_set. amb_auto.
Qed.
Lemma amb_suppressErrors : respects R suppressErrors.
Proof. unfold suppressErrors. amb_auto. Qed.
Hint Resolve amb_gtWorkarounds amb_suppressErrors : amb.
Lemma amb_resetGraphicsEngine that p : respects R (resetGraphicsEngine that p).
Proof. unfold resetGraphicsEngine, resetPre, resetPost. amb_auto. Qed.
Lemma amb_disableCDClock that : respects R (disableCDClock that).
Proof. unfold disableCDClock. amb_auto. Qed.
Hint Resolve amb_disableCDClock : amb.
Lemma amb_sanitizeCDClock that : respects R (sanitizeCDClockFrequency that).
Proof. unfold sanitizeCDClockFrequency. amb_auto. Qed.
Hint Resolve amb_sanitizeCDClock : amb.
Lemma amb_wrapProbeCDClock that : respects R (wrapProbeCDClockFrequency that).
Proof. unfold wrapProbeCDClockFrequency. amb_auto. Qed.
Lemma amb_initCDClock that : respects R (initCDClock that).
Proof. unfold initCDClock. amb_auto. Qed.
Lemma amb_setCDClockOnHotplug that : respects R (setCDClockFrequencyOnHotplug that).
Proof. unfold setCDClockFrequencyOnHotplug. amb_auto. Qed.
End Reset2.
#[export] Hint Resolve amb_gtWorkarounds amb_suppressErrors amb_resetGraphicsEngine amb_disableCDClock
  amb_wrapProbeCDClock amb_initCDClock amb_setCDClockOnHotplug : amb.

(** ** Firmware and topology *)
Section Firmware.
Import Firmware.
Context `{Platform} (R : relation world) `{!Ambient R}.
Lemma amb_wrapPavp a b c d e : respects R (wrapPavpSessionCallback a b c d e).
Proof. unfold wrapPavpSessionCallback. amb_auto. Qed.
Lemma amb_loadGuCBinary that : respects R (loadGuCBinary that).
Proof. unfold loadGuCBinary, bypassGuC, Engine.traced. amb_auto. Qed.
Lemma amb_wrapInitSchedControl that : respects R (wrapInitSchedControl that).
Proof. unfold wrapInitSchedControl. amb_auto. Qed.
Lemma amb_canLoadFirmware that a : respects R (canLoadFirmware that a).
Proof. unfold canLoadFirmware. amb_auto. Qed.
Lemma amb_checkWOPCM that a b : respects R (checkWOPCMSettings that a b).
Proof. unfold checkWOPCMSettings. amb_auto. Qed.
Lemma amb_setMembers that l : respects R (setMembers that l).
Proof. unfold setMembers. apply respects_iterM; [exact _|]. intros [[n off] v] _. amb_auto. Qed.
Hint Resolve amb_setMembers : amb.
Lemma amb_getGPUInfo that : respects R (getGPUInfo that).
Proof. unfold getGPUInfo, finishGPUInfo. amb_auto. Qed.
Lemma amb_initHardwareCaps that : respects R (initHardwareCaps that).
Proof. unfold initHardwareCaps. amb_auto. Qed.
End Firmware.
#[export] Hint Resolve amb_wrapPavp amb_loadGuCBinary amb_wrapInitSchedControl amb_canLoadFirmware amb_checkWOPCM
  amb_getGPUInfo amb_initHardwareCaps : amb.

(** ** Display pipe *)
Section Display.
Import Display.
Context `{Platform} (R : relation world) `{!Ambient R}.
Lemma amb_isBuiltIn f : respects R (isBuiltInFramebufferObject f).
Proof. unfold isBuiltInFramebufferObject. amb_auto. Qed.
Hint Resolve amb_isBuiltIn : amb.
Lemma amb_gated that : respects R (gated that).
Proof. unfold gated, shouldGateExternalDisplayBringup. amb_auto. Qed.
Lemma amb_setGate that b : respects R (setFramebufferGateState that b).
Proof. unfold setFramebufferGateState. amb_auto. Qed.
Hint Resolve amb_gated amb_setGate : amb.
Lemma amb_refuse that : respects R (refuse that).
Proof. unfold refuse, publishGate. amb_auto. Qed.
Lemma amb_publishReady that : respects R (publishReady that).
Proof.
  unfold publishReady, framebufferKindString, shouldGateExternalDisplayBringup. apply respects_when; [exact _|].
  apply respects_assoc. apply respects_bind; [exact _|amb_auto|intros b]. amb_auto.
Qed.
Lemma amb_openBuiltIn that : respects R (openBuiltIn that).
Proof. unfold openBuiltIn. amb_auto. Qed.
Hint Resolve amb_refuse amb_publishReady amb_openBuiltIn : amb.
Lemma amb_getOnlineInfo that d o c : respects R (getOnlineInfo that d o c).
Proof. unfold getOnlineInfo. amb_auto. Qed.
Lemma amb_enableController that : respects R (enableController that).
Proof. unfold enableController. amb_auto. Qed.
Lemma amb_setDisplayMode that a b : respects R (setDisplayMode that a b).
Proof. unfold setDisplayMode. amb_auto. Qed.
Lemma amb_connectionChanged that : respects R (connectionChanged that).
Proof. unfold connectionChanged. amb_auto. Qed.
Lemma amb_pipePolicy e : respects R (applyDisplayPipePolicy e).
Proof.
  unfold applyDisplayPipePolicy, createDisplayPipeCapabilityDict.
  destruct isDisplayPipeForceDisabled, (allocOk "OSDictionary"); amb_auto.
Qed.
Lemma amb_bootDisplay f i : respects R (publishBootDisplayProperties f i).
Proof. unfold publishBootDisplayProperties. amb_auto. Qed.
Lemma amb_triage : respects R publishFramebufferTriageResources.
Proof. unfold publishFramebufferTriageResources, publishOnce. amb_auto. Qed.
Lemma amb_snapshot svc : respects R (logServicePublishSnapshot svc).
Proof. unfold logServicePublishSnapshot. amb_auto. Qed.
Lemma amb_rescue that d : respects R (rescueDisplayMachine that d).
Proof. unfold rescueDisplayMachine. amb_auto. Qed.
Hint Resolve amb_rescue : amb.
Lemma amb_ensureBacking that : respects R (ensureDisplayPipeBacking that).
Proof. unfold ensureDisplayPipeBacking. amb_auto. Qed.
Lemma amb_displayCoreInit : respects R displayCoreInit.
Proof. unfold displayCoreInit, rmw. amb_auto. Qed.
End Display.
#[export] Hint Resolve amb_getOnlineInfo amb_enableController amb_setDisplayMode amb_connectionChanged amb_pipePolicy
  amb_bootDisplay amb_triage amb_snapshot amb_ensureBacking amb_displayCoreInit : amb.

(** ** Framebuffer controller *)
Section Controller.
Import Controller.
Context `{Platform} (R : relation world) `{!Ambient R}.
Lemma amb_displayWorkarounds : respects R displayWorkarounds.
Proof. unfold displayWorkarounds, Display.rmw. amb_auto. Qed.
Hint Resolve amb_displayWorkarounds : amb.
Lemma amb_controllerStart that p : respects R (AppleIntelBaseControllerstart that p).
Proof. unfold AppleIntelBaseControllerstart, injectPersonality, publishService. amb_auto. Qed.
Lemma amb_framebufferInit f c p : respects R (AppleIntelFramebufferinit f c p).
Proof. unfold AppleIntelFramebufferinit. amb_auto. Qed.
Lemma amb_withController off f that args :
  callSafe f (that :: args) -> respects R (withController off f that args).
Proof. intros Hf. unfold withController. pose proof (amb_call R f _ Hf). amb_auto. Qed.
Hint Extern 1 (respects _ (withController _ _ _ _)) => apply amb_withController; solve_reg : amb.
Lemma amb_disableScaler that b : respects R (disableScaler that b).
Proof. unfold disableScaler. amb_auto. Qed.
Lemma amb_programPipeScaler that p : respects R (programPipeScaler that p).
Proof. unfold programPipeScaler. amb_auto. Qed.
Lemma amb_enablePlane that b : respects R (enablePlane that b).
Proof. unfold enablePlane. amb_auto. Qed.
Lemma amb_scalerCache that : respects R (AppleIntelScalerupdateRegisterCache that).
Proof. unfold AppleIntelScalerupdateRegisterCache. amb_auto. Qed.
Lemma amb_planeCache that : respects R (AppleIntelPlaneupdateRegisterCache that).
Proof. unfold AppleIntelPlaneupdateRegisterCache. amb_auto. Qed.
Lemma amb_enableDisplayEngine that : respects R (enableDisplayEngine that).
Proof. unfold enableDisplayEngine. amb_auto. Qed.
Lemma amb_disableDisplayEngine that : respects R (disableDisplayEngine that).
Proof. unfold disableDisplayEngine. amb_auto. Qed.
Lemma amb_powerWellDDI that b p : respects R (hwSetPowerWellStateDDI that b p).
Proof. unfold hwSetPowerWellStateDDI. amb_auto. Qed.
Lemma amb_powerWellAux that b p : respects R (hwSetPowerWellStateAux that b p).
Proof. unfold hwSetPowerWellStateAux. amb_auto. Qed.
Lemma amb_writeBlob c off l : respects R (writeBlob c off l).
Proof. revert off. induction l as [|d l IH]; intros off; cbn [writeBlob]; amb_auto. Qed.
Hint Resolve amb_writeBlob : amb.
Lemma amb_cstate tgl adlp that : respects R (hwInitializeCState tgl adlp that).
Proof. unfold hwInitializeCState, loadDmc. amb_auto. Qed.
End Controller.
#[export] Hint Resolve amb_displayWorkarounds amb_controllerStart amb_framebufferInit amb_disableScaler
  amb_programPipeScaler amb_enablePlane amb_scalerCache amb_planeCache amb_enableDisplayEngine
  amb_disableDisplayEngine amb_powerWellDDI amb_powerWellAux amb_cstate : amb.

(** ** Blitter contexts and stubs *)
Section Blit.
Import Blit.
Context `{Platform} (R : relation world) `{!Ambient R}.
Lemma amb_blit3DInit that : respects R (IGHardwareBlit3DContextinitialize that).
Proof. unfold IGHardwareBlit3DContextinitialize. amb_auto. Qed.
Lemma amb_alwaysReturnSuccess p : respects R (alwaysReturnSuccess p).
Proof. unfold alwaysReturnSuccess. amb_auto. Qed.
Lemma amb_releaseDoorbell : respects R releaseDoorbell.
Proof. unfold releaseDoorbell. amb_auto. Qed.
Lemma amb_platformWorkarounds that : respects R (initPlatformWorkarounds that).
Proof. unfold initPlatformWorkarounds. amb_auto. Qed.
Lemma amb_getOSInformation that : respects R (getOSInformation that).
Proof. unfold getOSInformation. amb_auto. Qed.
End Blit.
#[export] Hint Resolve amb_blit3DInit amb_alwaysReturnSuccess amb_releaseDoorbell amb_platformWorkarounds
  amb_getOSInformation : amb.

(** ** Timers and the accelerator's probe *)
Section Watchdog.
Import Watchdog.
Context `{Platform} (R : relation world) `{!Ambient R}.
Lemma amb_arm f ms : respects R (arm f ms).
Proof. unfold arm. amb_auto. Qed.
Hint Resolve amb_arm : amb.
Lemma amb_v71 : respects R v71EmrEnforcer.
Proof. unfold v71EmrEnforcer. amb_auto. Qed.
Lemma amb_v54 : respects R v54IrqWatchdog.
Proof. unfold v54IrqWatchdog, watchMaster, watchTier1, watchTier2, watchError, watchLog. amb_auto. Qed.
Lemma amb_probe that p s : respects R (probe that p s).
Proof. unfold probe. amb_auto. Qed.
End Watchdog.
#[export] Hint Resolve amb_arm amb_v71 amb_v54 amb_probe : amb.

(** ** Accelerator start *)
Section Start.
Import Start.
Context `{Platform} (R : relation world) `{!Ambient R}.
Lemma amb_deviceId s : respects R (readDeviceIdFromService s).
Proof. unfold readDeviceIdFromService. amb_auto. Qed.
Lemma amb_plist p : respects R (plistScheduler p).
Proof. unfold plistScheduler. amb_auto. Qed.
Lemma amb_publishScheduler s t b : 3 <= t <= 5 -> respects R (publishScheduler s t b).
Proof.
  intros Ht. pose proof (Published.published_scheduler t Ht). unfold publishScheduler, extendDevelopment,
    Display.shouldGateExternalDisplayBringup. amb_auto.
Qed.
Lemma amb_multiForceWake s : respects R (injectMultiForceWake s).
Proof. unfold injectMultiForceWake, extendDevelopment. amb_auto. Qed.
Lemma amb_awaitRenderAck : respects R awaitRenderAck.
Proof. unfold awaitRenderAck. amb_auto. Qed.
Hint Extern 1 (respects _ (publishScheduler _ _ _)) => apply amb_publishScheduler, selectScheduler_range : amb.
Hint Resolve amb_deviceId amb_plist amb_multiForceWake amb_awaitRenderAck : amb.
Lemma amb_prestartRegs : respects R prestartRegs.
Proof.
  unfold prestartRegs, prestartErrors, startWorkarounds, wa_masked_en, wa_masked_field_set, wa_write_or, wa_mcr_write_or,
    wa_mcr_write_clr_set, wa_mcr_add, wa_write_clr_set. amb_auto.
Qed.
Lemma amb_routeInterrupts : respects R routeInterrupts.
Proof. unfold routeInterrupts. amb_auto. Qed.
Hint Resolve amb_prestartRegs amb_routeInterrupts : amb.
Lemma amb_startPre that p : respects R (startPre that p).
Proof. unfold startPre, tracePre, prestartInterrupts, zeroError. amb_auto. Qed.
Lemma amb_clearError n e : respects R (clearError n e).
Proof. revert e. induction n as [|n IH]; intros e; cbn [clearError]; amb_auto. Qed.
Hint Resolve amb_startPre amb_clearError : amb.
(** Translation table entries of a page below 2^32. *)
Lemma pte_safe page : 0 <= page < 2 ^ 32 -> readSafe (GGTT_PTE_LO page) /\ readSafe (GGTT_PTE_HI page).
Proof. unfold readSafe, GGTT_PTE_LO, GGTT_PTE_HI, GEN8_GGTT_PTE_BASE. lia. Qed.
Lemma page_range v k : word v -> 0 <= k < 2 ^ 31 -> 0 <= (v .>> 12) + k < 2 ^ 32.
Proof.
  unfold word. intros Hv Hk. rewrite Z.shiftr_div_pow2 by lia.
  assert (0 <= v / 2 ^ 12 < 2 ^ 20) by (split; [apply Z.div_pos; lia|apply Z.div_lt_upper_bound; lia]). lia.
Qed.
Lemma pages_ok v ks :
  word v -> Forall (fun k => 0 <= k < 2 ^ 31) ks ->
  forallb regOk (flat_map (fun k => [GGTT_PTE_LO ((v .>> 12) + k); GGTT_PTE_HI ((v .>> 12) + k)]) ks) = true.
Proof.
  intros Hv. induction 1 as [|k ks Hk _ IH]; [done|]. cbn [flat_map app forallb]. rewrite IH.
  destruct (pte_safe _ (page_range v k Hv Hk)) as [H1 H2]. unfold readSafe in *.
  unfold regOk. rewrite !andb_true_iff, !Z.leb_le, !Z.ltb_lt. lia.
Qed.
Lemma ggttPte_ok v k : word v -> 0 <= k < 2 ^ 31 -> forallb regOk (ggttPte ((v .>> 12) + k)) = true.
Proof.
  intros Hv Hk. pose proof (pages_ok v [k] Hv ltac:(by constructor)) as Hp. cbn [flat_map app forallb] in *.
  unfold ggttPte. cbn [forallb]. rewrite !andb_true_iff in *. tauto.
Qed.
Lemma amb_diagnostics : respects R diagnostics.
Proof.
  unfold diagnostics, ackBits. amb_auto; (apply amb_readLog; [exact _|]).
  - rewrite forallb_app, <-(Z.add_0_r (_ .>> 12)) at 1. rewrite !ggttPte_ok by (done || lia). done.
  - rewrite <-(Z.add_0_r (_ .>> 12)). apply ggttPte_ok; [done|lia].
Qed.
Hint Resolve amb_diagnostics : amb.
Lemma amb_injectGpu svc : respects R (injectGpuProperties svc).
Proof.
  unfold injectGpuProperties, Controller.named, Controller.strEntry.
  apply respects_bind; [exact _|apply respects_gets; exact _|]. intros []; cbv zeta; amb_auto.
Qed.
Hint Resolve amb_injectGpu : amb.
Lemma amb_startPost that : respects R (startPost that).
Proof. unfold startPost, poststartInterrupts, zeroError, publishAccelerator. amb_auto. Qed.
Lemma amb_armTimers : respects R armTimers.
Proof. unfold armTimers, v45ScheduleDelayedCheck. amb_auto. Qed.
Lemma amb_clearErrors : respects R clearErrors.
Proof. unfold clearErrors, clearEngineErrors. amb_auto. Qed.
Lemma amb_spoofedOnly : respects R spoofedOnly.
Proof. unfold spoofedOnly, stopDeadBlitter, flushTlbs, maskErrors, maskLog. amb_auto. Qed.
Hint Resolve amb_startPost amb_armTimers amb_clearErrors amb_spoofedOnly : amb.
Lemma amb_start that p : respects R (start that p).
Proof. unfold start, startTail, enableMaster, releaseForceWake. amb_auto. Qed.
End Start.
#[export] Hint Resolve amb_start : amb.

(** ** Health monitor *)
Section Monitor.
Import Monitor.
Context `{Platform} (R : relation world) `{!Ambient R}.
Context (nameOf classOf : Z -> world -> option string) (stateOf : Z -> world -> Z).
Lemma amb_v45 svc ms : respects R (v45DelayedChildCheck nameOf stateOf svc ms).
Proof. unfold v45DelayedChildCheck, clientServices, checkChild. amb_auto. Qed.
Lemma amb_trackChildren c st : respects R (trackChildren c st).
Proof. unfold trackChildren. amb_auto. Qed.
Lemma amb_killDisplayPipes svc c : respects R (killDisplayPipes classOf svc c).
Proof. unfold killDisplayPipes, clientServices. amb_auto. Qed.
Lemma amb_suppress e m : respects R (suppress e m).
Proof. unfold suppress. amb_auto. Qed.
Lemma amb_firstIteration svc : respects R (firstIteration svc).
Proof. unfold firstIteration. amb_auto. Qed.
Lemma amb_advanceCsb : respects R advanceCsb.
Proof. unfold advanceCsb. amb_auto. Qed.
Lemma amb_enforceInterrupts c : respects R (enforceInterrupts c).
Proof. unfold enforceInterrupts. amb_auto. Qed.
(** The surface register gets a value that was read from it. *)
Lemma surf_safe v : word v -> writeSafe 0x7019C v.
Proof. intros Hv. split; [split; [lia|done]|]. split; [done|]. by intros _. Qed.
Hint Extern 2 (respects _ (writeReg32 0x7019C _)) => apply amb_writeReg32, surf_safe; assumption : amb.
Lemma amb_planeMonitor c : respects R (planeMonitor c).
Proof. unfold planeMonitor. amb_auto. Qed.
Lemma amb_mapPage a d : respects R (mapPage a d).
Proof. unfold mapPage. amb_auto. Qed.
Lemma amb_unmapPage d m : respects R (unmapPage d m).
Proof. unfold unmapPage. amb_auto. Qed.
Hint Resolve amb_mapPage amb_unmapPage : amb.
Lemma amb_displayProbe : respects R displayProbe.
Proof.
  unfold displayProbe. apply amb_read_bind; [exact _|solve_reg|]. intros v Hv. cbv zeta.
  destruct (pte_safe (v .>> 12)) as [Hlo Hhi]; [rewrite <-(Z.add_0_r (_ .>> 12)); apply page_range; [done|lia]|].
  do 2 (apply amb_read_bind; [exact _|done|intros ? _]).
  apply respects_bind; [exact _|apply amb_readLog; [exact _|]|intros _; amb_auto].
  apply (pages_ok v); [done|]. repeat constructor; lia.
Qed.
Lemma amb_awaitFlush n : respects R (awaitFlush n).
Proof. induction n as [|n IH]; cbn [awaitFlush]; amb_auto. Qed.
Lemma amb_paint va c : respects R (paint va c).
Proof. unfold paint. amb_auto. Qed.
Lemma amb_persistFirst c p a d : respects R (persistFirst c p a d).
Proof. unfold persistFirst. amb_auto. Qed.
Hint Resolve amb_awaitFlush amb_paint amb_persistFirst : amb.
Lemma amb_fillPage c a p : word a -> 0 <= p < 2 ^ 31 -> respects R (fillPage c a p).
Proof.
  intros Ha Hp. unfold fillPage. cbv zeta. destruct (pte_safe _ (page_range a p Ha Hp)) as [Hlo Hhi].
  do 2 (apply amb_read_bind; [exact _|done|intros ? _]). amb_auto.
Qed.
Lemma amb_fillPages n c a p f : word a -> 0 <= p -> p + Z.of_nat n < 2 ^ 31 -> respects R (fillPages n c a p f).
Proof.
  intros Ha. revert p f. induction n as [|n IH]; intros p f Hp Hn; cbn [fillPages]; [amb_auto|].
  apply respects_bind; [exact _|apply amb_fillPage; [done|lia]|]. intros b. apply IH; lia.
Qed.
Lemma amb_togglePlane a : word a -> respects R (togglePlane a).
Proof. intros Ha. unfold togglePlane. amb_auto. Qed.
Lemma amb_scanoutFill c : respects R (scanoutFill c).
Proof.
  unfold scanoutFill. amb_auto; [apply amb_fillPages; [done|lia..]|by apply amb_togglePlane].
Qed.
Hint Resolve amb_trackChildren amb_killDisplayPipes amb_suppress amb_firstIteration amb_advanceCsb
  amb_enforceInterrupts amb_planeMonitor amb_displayProbe amb_scanoutFill : amb.
Lemma amb_healthCheck svc c : respects R (healthCheck nameOf classOf stateOf svc c).
Proof. unfold healthCheck, clientServices. amb_auto. Qed.
Hint Resolve amb_healthCheck : amb.
Lemma amb_v60 svc : respects R (v60GpuHealthMonitor nameOf classOf stateOf svc).
Proof. unfold v60GpuHealthMonitor. amb_auto. Qed.
End Monitor.
#[export] Hint Resolve amb_v45 amb_v60 : amb.

(** ** Hooks of the plugin and of the shared cache *)
Section Plugin.
Import Plugin.
Context `{Platform} (R : relation world) `{!Ambient R}.
Context (getName : Z -> world -> option string).
Lemma amb_spoofedId s : respects R (spoofedId getName s).
Proof. unfold spoofedId. amb_auto. Qed.
Hint Resolve amb_spoofedId : amb.
Lemma amb_configRead16 s sp o : respects R (configRead16 getName s sp o).
Proof. unfold configRead16. amb_auto. Qed.
Lemma amb_configRead32 s sp o : respects R (configRead32 getName s sp o).
Proof. unfold configRead32. amb_auto. Qed.
Lemma amb_setDisplay that d : respects R (wrapApplePanelSetDisplay that d).
Proof. unfold wrapApplePanelSetDisplay. amb_auto. Qed.
End Plugin.
#[export] Hint Resolve amb_configRead16 amb_configRead32 amb_setDisplay : amb.

Section Dyld.
Import Dyld.
Context `{Platform} (R : relation world) `{!Ambient R}.
Context (far : list Z -> list Z -> list Z -> list Z -> list Z -> list Z).
Context (kernelVersion : Z) (vn_getpath : Z -> world -> option string)
  (matchSharedCachePath : string -> bool) (modelIdentifier : list Z).
Lemma amb_onPage d f : respects R (onPage d f).
Proof. by apply amb_modify. Qed.
Hint Resolve amb_onPage : amb.
Lemma amb_applyAll d ps : respects R (applyAll far d ps).
Proof. unfold applyAll, apply. amb_auto. Qed.
Hint Resolve amb_applyAll : amb.
Lemma amb_csValidatePage a b c d e f g :
  respects R (wrapCsValidatePage far kernelVersion vn_getpath matchSharedCachePath modelIdentifier a b c d e f g).
Proof. unfold wrapCsValidatePage, patchFile, patchSharedCache, apply. amb_auto. Qed.
End Dyld.
#[export] Hint Resolve amb_csValidatePage : amb.
