(* ===== verification/Safety.v ===== *)
(** * The whole-program invariants as ambient relations

    [life strict L] says what any part of the plugin may do to a world whose register
    window has length [L]: properties follow the registry contract, a kext's functions are
    routed only after that kext was seen, the engines move by their abstract machine, and
    what has been established (a kext seen, the platform identified, the plugin published)
    stays so; and, when [strict], accesses stay in the window, error masks are only written
    with all ones, and a plane seen enabled is never armed with surface 0. [found L] says
    that a graphics device is only remembered on an identified platform. Both are ambient;
    loading a kext and the callbacks of the plugin move the world along [life] as well. *)
From S2P Require Import Prelude Machine Regs Mmio BootArgs RegHooks Trace Frame Engine Plugin Patcher KextFB KextHW Kext Dyld.
From S2P Require Import Published Ambient.
Import Regs Mmio BootArgs RegHooks Trace.

Section life.
Context `{Platform} (strict : Prop) (L : Z).

(** The window is not mapped or has length [L], no controller object was stored, and the
    surface table holds 32-bit words. *)
Definition wired (w : world) : Prop :=
  (rmmio (w_ng w) = None \/ rmmio (w_ng w) = Some L) /\ framecont (w_g11 w) = 0 /\
  Forall (fun s => word (lastNonZeroSurf s)) (v93States (w_g11 w)).

Definition routeNames (hs : list Patcher.hook) : list string := map Kext.routeCall hs.
Definition fbRouteNames : list string := routeNames (KextFB.routes ++ KextFB.prodRoutes ++ KextFB.dbgRoutes).
Definition hwRouteNames : list string :=
  routeNames (KextHW.routes ++ KextHW.firmwareRoute ++ KextHW.policyRoutes ++ KextHW.bringupTraceRoutes ++
    KextHW.schedulerPolicyRoutes ++ KextHW.traceRoutes ++ KextHW.coexistOffRoutes ++ KextHW.gpuInfoRoute).
(** A kext's functions are routed once it was seen. *)
Definition routeOk (w : world) (e : event) : Prop :=
  match e with
  | ECall f _ => (f ∈ fbRouteNames -> tglFBLoaded (w_g11 w) = true) /\
                 (f ∈ hwRouteNames -> tglHWLoaded (w_g11 w) = true)
  | _ => True
  end.
(** Properties follow the registry contract. *)
Definition propOk (e : event) : Prop :=
  match e with EProp _ k v => Published.published k v = true | _ => True end.
Definition eventGood (w : world) (e : event) : Prop :=
  (strict -> in_bar L e /\ emr_masked e) /\ routeOk w e /\ propOk e.
Definition established (w w' : world) : Prop :=
  (tglFBLoaded (w_g11 w) = true -> tglFBLoaded (w_g11 w') = true) /\
  (tglHWLoaded (w_g11 w) = true -> tglHWLoaded (w_g11 w') = true) /\
  (isRealTGL (w_ng w) = true -> isRealTGL (w_ng w') = true) /\
  (ngCallback (w_ng w) = true -> ngCallback (w_ng w') = true) /\
  Engine.engines_step w w'.
Definition life : relation world := fun w w' => wired w ->
  wired w' /\ established w w' /\ (strict -> zero_surf_ok (w_tr w) -> zero_surf_ok (w_tr w')) /\
  emits (eventGood w') w w'.

#[local] Existing Instance Engine.engines_preorder.
#[export] Instance established_preorder : PreOrder established.
Proof.
  split; [by intros w; split_and!|]. unfold established. intros w1 w2 w3 (?&?&?&?&?) (?&?&?&?&?).
  split_and!; auto. by etrans.
Qed.
Lemma eventGood_later w w' e : established w w' -> eventGood w e -> eventGood w' e.
Proof.
  intros (Hf & Hh & _) (Hb & Hr & Hp). split; [done|]. split; [|done].
  destruct e; try done. destruct Hr as [Hr1 Hr2]. split; auto.
Qed.
#[export] Instance life_preorder : PreOrder life.
Proof.
  split.
  - intros w Hw. split; [done|]. split; [reflexivity|]. split; [done|]. reflexivity.
  - intros w1 w2 w3 H12 H23 H1. destruct (H12 H1) as (H2 & E12 & Z12 & (n1 & T1 & G1)).
    destruct (H23 H2) as (H3 & E23 & Z23 & (n2 & T2 & G2)). split; [done|]. split; [by etrans|].
    split; [auto|]. exists (n2 ++ n1). rewrite T2, T1, app_assoc. split; [done|]. apply Forall_app. split; [done|].
    eapply Forall_impl; [exact G1|]. intros e. by apply eventGood_later.
Qed.

(** *** One step *)
Lemma established_kept w w' : kept w' = kept w -> established w w'.
Proof.
  unfold kept, keptN, keptG, established, Engine.engines_step.
  intros E. injection E as -> -> _ _ _ _ -> -> _ -> ->. by split_and!.
Qed.
Lemma wired_kept w w' : kept w' = kept w -> wired w -> wired w'.
Proof. unfold kept, keptN, keptG, wired. intros E. injection E as _ _ _ -> _ -> _ _ -> _ _. done. Qed.
Lemma life_quiet w w' : w_tr w' = w_tr w -> kept w' = kept w -> life w w'.
Proof.
  intros Ht Hk Hw. split; [by eapply wired_kept|]. split; [by apply established_kept|].
  rewrite Ht. split; [done|]. by apply emits_silent.
Qed.
Lemma life_emit e w : in_bar L e -> emr_masked e -> routeOk w e -> propOk e ->
  (zero_surf_ok (w_tr w) -> zero_surf_ok (e :: w_tr w)) -> life w (emit e w).
Proof.
  intros Hb He Hr Hp Hz Hw. split; [done|]. split; [done|]. split; [auto|].
  by apply (emits_one _ e).
Qed.
Lemma not_routed f hs : isRoute f = false -> f ∉ routeNames hs.
Proof.
  intros Hf Hi. apply list_elem_of_fmap in Hi as (h & -> & _). revert Hf. unfold Kext.routeCall, isRoute.
  generalize (Patcher.h_symbol h). intros [|c s] Hf; vm_compute in Hf; discriminate Hf.
Qed.
Lemma zero_ok_other e tr : (forall i v, e <> EWr i v) -> zero_surf_ok tr -> zero_surf_ok (e :: tr).
Proof. intros He Ht. destruct e; try (by split). by destruct (He idx val). Qed.
Lemma life_event e w : eventSafe e -> life w (emit e w).
Proof.
  intros He. apply life_emit.
  - by destruct e.
  - destruct e as [| | |f args| | | |]; try done. destruct He as [_ He].
    destruct args as [|a [|b [|c [|d l]]]]; try done. cbn. intros Hf Hb.
    apply He; [|done]. unfold writeOriginal. rewrite !orb_true_iff, !String.eqb_eq. tauto.
  - destruct e as [| | |f args| | | |]; try done.
    destruct He as [Hf _]. split; intros Hi; exfalso; by eapply not_routed.
  - by destruct e.
  - apply zero_ok_other. intros i v ->. done.
Qed.

(** *** Register accesses *)
Lemma zero_writeReg32 r v w :
  writeSafe r v -> zero_surf_ok (w_tr w) -> zero_surf_ok (w_tr (final (writeReg32 r v w))).
Proof.
  intros (Ha & _ & Hv) Hz. destruct (total_writeReg32 r v w) as ([] & w' & E). rewrite E. simpl.
  destruct (looksLikePlaneSurf r) eqn:Hs; [by eapply writeReg32_trace; eauto|].
  rewrite writeReg32_plain_run in E by (by rewrite Hs). destruct (mmioValid _); [|by simplify_eq/=].
  rewrite storeReg32_run in E. destruct Ha as [_ Ha]. case_match.
  - unfold ptr_write in E. simplify_eq/=. apply zero_ok_write; [|done]. left. by rewrite shiftr2_dword.
  - unfold mbind, M_bind, ptr_write in E. simplify_eq/=. by repeat (apply zero_ok_write; [by left|]).
Qed.
Lemma zero_readReg32 r w : zero_surf_ok (w_tr w) -> zero_surf_ok (w_tr (final (readReg32 r w))).
Proof.
  intros Hz. destruct (total_readReg32 r w) as (v & w' & E). rewrite E.
  by eapply readReg32_trace.
Qed.
(** With nothing mapped there is no access. *)
Lemma unmapped_read r w : rmmio (w_ng w) = None -> readReg32 r w = Done 0 w.
Proof. intros Hr. rewrite readReg32_run. unfold mmioValid. by rewrite Hr. Qed.
Lemma unmapped_write r v w : rmmio (w_ng w) = None -> writeReg32 r v w = Done () w.
Proof. intros Hr. unfold writeReg32. cbn [writeReg32_fuel]. unfold mbind, M_bind, ng, gets, mmioValid. by rewrite Hr. Qed.
(** An access changes nothing but the hardware and the trace. *)
Lemma access_kept w w' : w_ng w' = w_ng w -> w_g11 w' = w_g11 w -> kept w' = kept w.
Proof. unfold kept. by intros -> ->. Qed.
Definition accessed (w w' : world) : Prop := kept w' = kept w /\
  emits (fun e => match e with ECall _ _ | EProp _ _ _ => False | _ => True end) w w'.
#[export] Instance accessed_preorder : PreOrder accessed.
Proof.
  split; [by intros w|]. intros w1 w2 w3 [K1 E1] [K2 E2]. split; [congruence|by etrans].
Qed.
Lemma accessed_read i : respects accessed (ptr_read i).
Proof. intros w. unfold ptr_read. destruct (mmio_read _ _). split; [done|]. by eapply emits_one. Qed.
Lemma accessed_write i v : respects accessed (ptr_write i v).
Proof. intros w. split; [done|]. by eapply emits_one. Qed.
Lemma life_access {A} (m : M A) :
  respects accessed m -> respects (emits emr_masked) m ->
  (forall w, zero_surf_ok (w_tr w) -> zero_surf_ok (w_tr (final (m w)))) ->
  (forall w, rmmio (w_ng w) = None -> emits (fun _ => False) w (final (m w))) ->
  respects (bar_rel L) m -> respects life m.
Proof.
  intros Ha He Hz Hn Hb w Hw. destruct (Ha w) as [Hk (new & T & Hc)].
  split; [by eapply wired_kept|]. split; [by apply established_kept|]. split; [intros _; apply Hz|].
  destruct (He w) as (new' & T' & He'). rewrite T in T'. apply app_inv_tail in T' as <-.
  exists new. split; [done|].
  assert (Hbar : Forall (in_bar L) new).
  { destruct Hw as [[Hr|Hr] _].
    - destruct (Hn w Hr) as (n & T' & F). rewrite T in T'. apply app_inv_tail in T' as <-.
      eapply Forall_impl; [exact F|]. done.
    - destruct (Hb w Hr) as [_ (n & T' & F)]. rewrite T in T'. by apply app_inv_tail in T' as <-. }
  rewrite Forall_forall in *. intros e Hi. specialize (Hc e Hi). split; [auto|].
  by destruct e.
Qed.
(** When the accesses need not be safe, any register access will do. *)
Lemma life_accessed {A} (m : M A) : ~ strict -> respects accessed m -> respects life m.
Proof.
  intros Hs Hm w Hw. destruct (Hm w) as [Hk (new & T & Hc)].
  split; [by eapply wired_kept|]. split; [by apply established_kept|]. split; [done|].
  exists new. split; [done|]. eapply Forall_impl; [exact Hc|]. intros e He. split; [done|]. by destruct e.
Qed.
Lemma life_readReg32 r : 64 <= L -> readSafe r -> respects life (readReg32 r).
Proof.
  intros Hl Hr. apply life_access.
  - apply respects_readReg32; [exact _|exact accessed_read|exact accessed_write].
  - apply emr_readReg32.
  - apply zero_readReg32.
  - intros w Hn. rewrite unmapped_read by done. reflexivity.
  - by apply bar_readReg32.
Qed.
Lemma life_writeReg32 r v : 64 <= L -> writeSafe r v -> respects life (writeReg32 r v).
Proof.
  intros Hl Hr. pose proof Hr as (Ha & He & _). apply life_access.
  - apply respects_writeReg32; [exact _|exact accessed_read|exact accessed_write].
  - by apply emr_writeReg32.
  - intros w. by apply zero_writeReg32.
  - intros w Hn. rewrite unmapped_write by done. reflexivity.
  - apply bar_writeReg32_fuel; [done|apply Ha].
Qed.

(** *** Engines *)
Lemma life_update e f w :
  (forall s, Engine.trackedEngineState e (w_g11 w) = Some s -> Engine.estep s (f s)) ->
  life w (w <| w_g11 ::= Engine.updateEngine e f |>).
Proof.
  intros Hf (Hr & Hc & Hv). split; [by destruct e|]. split; [|split; [done|by apply emits_silent]].
  destruct e; split_and!; try done; (split; simpl; try done); by apply rtc_once, Hf.
Qed.
Lemma life_engine e f : (forall s, Engine.estep s (f s)) -> respects life (Engine.with_engine e f).
Proof. intros Hf w. apply life_update. auto. Qed.

(** *** The instance *)
Context (HL : 64 <= L) `{!Benign life}.
Lemma life_getV93State r : respects life (getV93State r).
Proof.
  intros w (Hr & Hf & Hv). unfold getV93State.
  destruct (claimV93Slot r (v93States (w_g11 w))) as [st states] eqn:E. simpl.
  split; [split; [done|split; [done|]]|split; [by split_and!|split; [done|by apply emits_silent]]].
  cbn [w_g11]. unfold claimV93Slot in E. repeat case_match; simplify_eq/=; try done.
  apply Forall_insert; [done|]. unfold word. simpl. lia.
Qed.
Lemma life_v93Remember st v : word v -> respects life (v93Remember st v).
Proof.
  intros Hv. destruct st as [i|]; [|by apply respects_ret; exact _].
  intros w (Hr & Hf & Hs). split; [split; [done|split; [done|]]|split; [done|split; [done|by apply emits_silent]]].
  simpl. apply Forall_alter; [done|]. intros x _ _. exact Hv.
Qed.
Lemma life_ambient : Ambient life.
Proof.
  split.
  - exact _.
  - exact _.
  - apply life_quiet.
  - apply life_event.
  - intros r. by apply life_readReg32.
  - intros r v. by apply life_writeReg32.
  - intros A k Hk w Hw. pose proof Hw as (_ & Hf & _). unfold mbind, M_bind, g11, gets. rewrite Hf. by apply Hk.
  - apply life_getV93State.
  - apply life_v93Remember.
  - intros A st k Hk w Hw. unfold mbind, M_bind, g11, gets. apply Hk; [|done].
    destruct Hw as (_ & _ & Hs). destruct st as [i|]; simpl; [|unfold word; lia].
    destruct (v93States (w_g11 w) !! i) eqn:E; simpl; [|unfold word; lia].
    exact (Forall_lookup_1 _ _ _ _ Hs E).
  - apply life_engine.
  - intros A e start ctl head tail exec ctxptr yes no Hy Hn w. unfold mbind at 1, M_bind at 1, g11, gets.
    destruct (match Engine.trackedEngineState e _ with Some _ => _ | None => _ end) eqn:Hp; [|apply Hn].
    assert (H1 : life w (w <| w_g11 ::= Engine.updateEngine e (fun s => s <| smokePassed := true |>) |>)).
    { apply life_update. intros s Hs. rewrite Hs in Hp. unfold Engine.smokePass in Hp. bools. destruct_and!.
      by apply Engine.es_pass. }
    unfold mbind, M_bind, Engine.with_engine, set_g11, modify.
    etrans; [exact H1|apply Hy].
Qed.

(** *** Updates of what is kept *)
Lemma life_set_ng f :
  (forall n, rmmio (f n) = rmmio n \/ rmmio (f n) = None \/ rmmio (f n) = Some L) ->
  (forall n, isRealTGL n = true -> isRealTGL (f n) = true) ->
  (forall n, ngCallback n = true -> ngCallback (f n) = true) -> respects life (set_ng f).
Proof.
  intros Hr Ht Hc w (Hm & Hw). split; [split; [|done]|].
  - simpl. destruct (Hr (w_ng w)) as [-> | [-> | ->]]; auto.
  - split; [split_and!; simpl; auto; by split|]. split; [done|by apply emits_silent].
Qed.
Lemma life_set_g11 f :
  (forall g, (framecont (f g), v93States (f g), g_bcs (f g), g_rcs (f g)) = (framecont g, v93States g, g_bcs g, g_rcs g)) ->
  (forall g, tglFBLoaded g = true -> tglFBLoaded (f g) = true) ->
  (forall g, tglHWLoaded g = true -> tglHWLoaded (f g) = true) -> respects life (set_g11 f).
Proof.
  intros Hk Hf Hh w (Hm & Hfc & Hv). specialize (Hk (w_g11 w)). injection Hk as Hk1 Hk2 Hk3 Hk4.
  split; [split; [done|]; simpl; by rewrite Hk1, Hk2|].
  split; [split_and!; simpl; auto; split; simpl; by rewrite ?Hk3, ?Hk4|]. split; [done|by apply emits_silent].
Qed.
End life.

(** ** Loading kexts and the callbacks of the plugin *)
Section callbacks.
Context `{Platform} (strict : Prop) (L : Z) (HL : 64 <= L) `{!Benign (life strict L)}.
#[local] Instance life_amb : Ambient (life strict L) := life_ambient strict L HL.
Context (findPattern : Z -> Z -> Z -> Z -> Z -> world -> option Z) (mapLength : Z -> Z).
(** Every mapping of the register BAR has the length of the BAR. *)
Hypothesis mapLength_bar : forall map, mapLength map = L.

Lemma life_setRMMIO : respects (life strict L) (Plugin.setRMMIOIfNecessary mapLength).
Proof.
  unfold Plugin.setRMMIOIfNecessary. amb_auto; apply life_set_ng; simpl; auto.
  intros n. right. right. by rewrite mapLength_bar.
Qed.
Hint Resolve life_setRMMIO : amb.

(** A kext has been seen: from then on its functions may be routed. *)
Definition seen (F : Gen11 -> bool) : relation world := fun w w' =>
  F (w_g11 w) = true -> wired L w -> F (w_g11 w') = true /\ life strict L w w'.
#[local] Instance seen_preorder F : PreOrder (seen F).
Proof.
  split; [intros w HF Hw; split; [done|reflexivity]|]. intros w1 w2 w3 H12 H23 F1 W1.
  destruct (H12 F1 W1) as [F2 L12]. destruct (H23 F2 (proj1 (L12 W1))) as [F3 L23].
  split; [done|]. by etrans.
Qed.
Definition lasting (F : Gen11 -> bool) : Prop :=
  forall w w', established w w' -> F (w_g11 w) = true -> F (w_g11 w') = true.
Lemma lasting_FB : lasting tglFBLoaded.
Proof. intros w w' (Hf & _). exact Hf. Qed.
Lemma lasting_HW : lasting tglHWLoaded.
Proof. intros w w' (_ & Hh & _). exact Hh. Qed.
Section seen.
Context (F : Gen11 -> bool) (HF : lasting F).
Lemma seen_life {A} (m : M A) : respects (life strict L) m -> respects (seen F) m.
Proof.
  intros Hm w Hs Hw. split; [|apply Hm]. destruct (Hm w Hw) as (_ & He & _). exact (HF _ _ He Hs).
Qed.
Lemma seen_whileOk {A} (f : A -> M bool) l :
  (forall x, x ∈ l -> respects (seen F) (f x)) -> respects (seen F) (Patcher.whileOk f l).
Proof.
  induction l as [|x l IH]; intros Hl; cbn [Patcher.whileOk]; [apply respects_ret; exact _|].
  apply respects_bind; [exact _|apply Hl; left|]. intros []; [|apply respects_ret; exact _].
  apply IH. intros y Hy. apply Hl. by right.
Qed.
Lemma seen_require m msg : respects (seen F) m -> respects (seen F) (Kext.require m msg).
Proof.
  intros Hm. unfold Kext.require. apply respects_bind; [exact _|done|].
  intros []; [apply respects_ret|apply respects_panic]; exact _.
Qed.
(** Noting that a kext was seen starts it. *)
Lemma life_seen {A} (note : M unit) (k : M A) :
  respects (life strict L) note -> (forall w, F (w_g11 (final (note w))) = true) -> total note -> respects (seen F) k ->
  respects (life strict L) (_ ← note; k).
Proof.
  intros Hn HFn Ht Hk w Hw. destruct (Ht w) as ([] & w1 & E). pose proof (Hn w) as H1. pose proof (HFn w) as H2.
  unfold mbind, M_bind. rewrite E in *. simpl in *.
  assert (H3 : life strict L w1 (final (k w1))) by (apply Hk; [done|apply (H1 Hw)]).
  assert (H4 : life strict L w (final (k w1))) by (by etrans). exact (H4 Hw).
Qed.
End seen.
Section kext.
Context (index address size : Z).
Lemma life_lookup p m n : respects (life strict L) (Patcher.lookupPattern findPattern p m n address size).
Proof. unfold Patcher.lookupPattern. amb_auto. Qed.
Hint Resolve life_lookup : amb.
Lemma solve_safe s args : callSafe ("solveSymbol " +:+ s) args.
Proof. split; [by destruct s|]. intros Hw. vm_compute in Hw. discriminate Hw. Qed.
Lemma life_solve r : respects (life strict L) (Patcher.solve findPattern index address size r).
Proof. unfold Patcher.solve. amb_auto. apply amb_call; [exact _|apply solve_safe]. Qed.
Lemma life_apply p : respects (life strict L) (Patcher.apply_patch address size p).
Proof. unfold Patcher.apply_patch. amb_auto. Qed.
Hint Resolve life_solve life_apply : amb.
(** A route of a hook whose kext was seen. *)
Definition routable (F : Gen11 -> bool) (h : Patcher.hook) : Prop :=
  forall w args, F (w_g11 w) = true -> routeOk w (ECall (Kext.routeCall h) args).
Lemma call_seen F f args :
  lasting F -> writeOriginal f = false -> (forall w, F (w_g11 w) = true -> routeOk w (ECall f args)) ->
  respects (seen F) (call f args).
Proof.
  intros HF Hf Hr w Hs Hw. unfold call.
  pose proof (benign (R := life strict L) f args (emit (ECall f args) w)) as Hb.
  destruct (original _ _ _) as [r w']. simpl in *.
  assert (Hl : life strict L w w').
  { etrans; [|exact Hb]. apply life_emit; [done| |by apply Hr|done|].
    - destruct args as [|a [|b [|c [|]]]]; try done. cbn. intros Ho. exfalso. revert Hf. unfold writeOriginal.
      destruct Ho as [->|[->| ->]]; discriminate.
    - intros Hz. by split. }
  split; [|done]. destruct (Hl Hw) as (_ & He & _). exact (HF _ _ He Hs).
Qed.
Lemma seen_route F h : lasting F -> routable F h ->
  respects (seen F) (Patcher.route findPattern index address size (Patcher.routeOf h)).
Proof.
  intros HF Hr. unfold Patcher.route. apply respects_bind; [exact _| |].
  - apply call_seen; [done| |intros w; by apply Hr]. vm_compute. reflexivity.
  - intros v. apply (seen_life F HF). amb_auto.
Qed.
Lemma seen_routes F hs : lasting F -> Forall (routable F) hs ->
  respects (seen F) (Kext.routes findPattern index address size hs).
Proof.
  intros HF Hr. unfold Kext.routes, Patcher.routeAll. apply seen_whileOk. intros x Hx.
  apply list_elem_of_fmap in Hx as (h & -> & Hh). apply seen_route; [done|].
  by eapply Forall_forall in Hr.
Qed.
Lemma life_whileOk {A} (f : A -> M bool) l : (forall x, respects (life strict L) (f x)) -> respects (life strict L) (Patcher.whileOk f l).
Proof. intros Hf. induction l as [|x l IH]; cbn [Patcher.whileOk]; amb_auto; auto. Qed.
Lemma life_solves rs : respects (life strict L) (Kext.solves findPattern index address size rs).
Proof. apply life_whileOk. intros r. amb_auto. Qed.
Lemma life_applies ps : respects (life strict L) (Kext.applies address size ps).
Proof. apply life_whileOk. intros r. amb_auto. Qed.
Lemma life_require m msg : respects (life strict L) m -> respects (life strict L) (Kext.require m msg).
Proof. intros Hm. unfold Kext.require. amb_auto. Qed.
Hint Resolve life_solves life_applies life_require : amb.

(** The tables: a hook of one kext is not a route of the other. *)
Lemma fb_routable : Forall (routable tglFBLoaded) (KextFB.routes ++ KextFB.prodRoutes ++ KextFB.dbgRoutes).
Proof.
  assert (D : Forall (fun f => f ∉ hwRouteNames) fbRouteNames) by (apply (bool_decide_unpack _); vm_compute; exact I).
  apply Forall_forall. intros h Hh w args HF. split; [done|]. intros Hi. exfalso.
  rewrite Forall_forall in D. refine (D _ _ Hi). apply list_elem_of_fmap. by exists h.
Qed.
Definition hwTables : list Patcher.hook :=
  KextHW.routes ++ KextHW.firmwareRoute ++ KextHW.policyRoutes ++ KextHW.bringupTraceRoutes ++
  KextHW.schedulerPolicyRoutes ++ KextHW.traceRoutes ++ KextHW.coexistOffRoutes ++ KextHW.gpuInfoRoute.
Lemma hw_routable : Forall (routable tglHWLoaded) hwTables.
Proof.
  assert (D : Forall (fun f => f ∉ fbRouteNames) hwRouteNames) by (apply (bool_decide_unpack _); vm_compute; exact I).
  apply Forall_forall. intros h Hh w args HF. split; [|done]. intros Hi. exfalso.
  rewrite Forall_forall in D. refine (D _ _ Hi). apply list_elem_of_fmap. by exists h.
Qed.
(** A table of a list of tables. *)
Ltac part := intros ? ?; rewrite !elem_of_app; tauto.
Lemma fb_routes hs : hs ⊆ KextFB.routes ++ KextFB.prodRoutes ++ KextFB.dbgRoutes ->
  respects (seen tglFBLoaded) (Kext.routes findPattern index address size hs).
Proof.
  intros Hs. apply seen_routes; [apply lasting_FB|]. apply Forall_forall. intros h Hh.
  exact (proj1 (Forall_forall _ _) fb_routable h (Hs h Hh)).
Qed.
Lemma hw_routes hs : hs ⊆ hwTables -> respects (seen tglHWLoaded) (Kext.routes findPattern index address size hs).
Proof.
  intros Hs. apply seen_routes; [apply lasting_HW|]. apply Forall_forall. intros h Hh.
  exact (proj1 (Forall_forall _ _) hw_routable h (Hs h Hh)).
Qed.
Lemma life_framebuffer : respects (life strict L) (Kext.processFramebuffer findPattern mapLength index address size).
Proof.
  unfold Kext.processFramebuffer. eapply (life_seen tglFBLoaded); [by apply life_set_g11|done|apply total_modify|].
  apply respects_bind; [exact _|apply (seen_life _ lasting_FB), life_setRMMIO|intros _].
  apply respects_bind; [exact _|apply (seen_life _ lasting_FB); unfold Kext.isProduction; amb_auto|intros isprod].
  apply respects_bind; [exact _|apply (seen_life _ lasting_FB); amb_auto|intros _].
  apply respects_bind; [exact _|apply seen_require, fb_routes; part|intros _].
  apply respects_bind; [exact _| |intros _].
  { unfold Kext.buildRoutes. destruct isprod; apply seen_require, fb_routes; part. }
  apply (seen_life _ lasting_FB). unfold Kext.buildPatches. amb_auto.
Qed.
Lemma life_accelerator : respects (life strict L) (Kext.processAccelerator findPattern mapLength index address size).
Proof.
  unfold Kext.processAccelerator.
  apply respects_bind; [exact _|unfold Kext.resetBringup; amb_auto|intros _].
  eapply (life_seen tglHWLoaded); [by apply life_set_g11|done|apply total_modify|].
  assert (Hlast := lasting_HW).
  assert (Hr : forall hs msg, hs ⊆ hwTables ->
    respects (seen tglHWLoaded) (Kext.require (Kext.routes findPattern index address size hs) msg)).
  { intros hs msg Hs. by apply seen_require, hw_routes. }
  assert (Hl : forall A (m : M A), respects (life strict L) m -> respects (seen tglHWLoaded) m).
  { intros A m. by apply seen_life. }
  unfold hwTables in Hr.
  apply respects_bind; [exact _|apply Hl, life_setRMMIO|intros _].
  apply respects_bind; [exact _|apply Hl; amb_auto|intros _].
  apply respects_bind; [exact _| |intros _].
  { apply Hl. unfold Kext.solveTrace, Kext.fillTraceSymbols, Kext.solveTraceSymbols. amb_auto. }
  apply respects_bind; [exact _|apply Hr; part|intros _].
  apply respects_bind; [exact _| |intros _].
  { unfold Kext.routeFirmware. do 2 (apply respects_bind; [exact _|apply Hl; amb_auto|intros _]). apply Hr. part. }
  apply respects_bind; [exact _|apply Hr; part|intros _].
  apply respects_bind; [exact _|apply respects_when; [exact _|apply Hr; part]|intros _].
  apply respects_bind; [exact _|apply Hr; part|intros _].
  apply respects_bind; [exact _| |intros _].
  { unfold Kext.routeTrace. apply respects_when; [exact _|]. apply respects_iterM; [exact _|]. intros h Hh.
    apply respects_bind; [exact _| |intros _; apply respects_ret; exact _]. apply seen_route; [done|].
    refine (proj1 (Forall_forall _ _) hw_routable h _). unfold hwTables. rewrite !elem_of_app. tauto. }
  apply respects_bind; [exact _| |intros _].
  { unfold Kext.routeOwned. apply respects_when; [exact _|].
    apply respects_bind; [exact _|apply Hr; part|intros _; apply Hr; part]. }
  apply Hl. unfold Kext.patchAccelerator. amb_auto.
Qed.
(** A route of a function of neither graphics kext. *)
Lemma life_otherRoute f args :
  writeOriginal f = false -> bool_decide (f ∈ fbRouteNames) = false -> bool_decide (f ∈ hwRouteNames) = false ->
  respects (life strict L) (call f args).
Proof.
  intros Hf Hfb Hhw w Hw. apply bool_decide_eq_false in Hfb, Hhw.
  refine (proj2 (call_seen (fun _ => true) f args _ Hf _ w eq_refl Hw) Hw); [by intros ? ?|].
  intros w' _. split; intros Hi; [by destruct Hfb|by destruct Hhw].
Qed.
Lemma life_processKext loadIndex :
  respects (life strict L) (Kext.processKext findPattern mapLength loadIndex index address size).
Proof.
  pose proof life_framebuffer. pose proof life_accelerator.
  unfold Kext.processKext, Kext.patchAcceleratorFamily, Kext.patchBacklight, Kext.routeMccs, Kext.gen11ProcessKext.
  amb_auto; apply life_otherRoute; vm_compute; reflexivity.
Qed.
End kext.

Lemma watch_safe s args : callSafe ("onKextLoadForce " +:+ s) args.
Proof. split; [by destruct s|]. intros Hw. vm_compute in Hw. discriminate Hw. Qed.
Lemma life_init : respects (life strict L) Kext.init.
Proof.
  unfold Kext.init, Kext.logBuildMarker, Kext.gen11Init, Kext.watch. amb_auto;
    first [by apply life_set_ng; auto | apply amb_call; [exact _|apply watch_safe]].
Qed.

(** *** The patcher callback *)
Lemma amb_seedMissing R `{!Ambient R} e tbl b :
  Forall (fun kv => Published.published kv.1 kv.2 = true) tbl -> respects R (Plugin.seedMissing e tbl b).
Proof.
  intros Ht. revert b. induction Ht as [|[k v] tbl Hkv _ IH]; intros b; cbn [Plugin.seedMissing]; amb_auto.
Qed.
Lemma saved_config_ok s w : Published.published "saved-config" (PData (Plugin.sconfBytes s w)) = true.
Proof.
  unfold Plugin.sconfBytes. apply Published.published_config; [by rewrite length_map, length_seq|]. apply Forall_forall. intros z Hz.
  apply list_elem_of_fmap in Hz as (i & -> & _). apply u8_range.
Qed.
Lemma seedTable_ok w : Forall (fun kv => Published.published kv.1 kv.2 = true) (Plugin.seedTable w).
Proof. unfold Plugin.seedTable. repeat (apply Forall_cons; split); first [apply saved_config_ok | vm_compute; reflexivity | by apply Forall_nil]. Qed.
Lemma amb_seedEntry R `{!Ambient R} e : respects R (Plugin.seedIGPUPropertiesOnEntry e).
Proof.
  unfold Plugin.seedIGPUPropertiesOnEntry. destruct (negb _); [amb_auto|]. intros w.
  apply (amb_seedMissing R), seedTable_ok.
Qed.
Hint Resolve amb_seedEntry : amb.
Lemma life_needsSeed ps : respects (life strict L) (Plugin.anyNeedsSeed ps).
Proof.
  induction ps as [|p ps IH]; cbn [Plugin.anyNeedsSeed]; unfold Plugin.shouldForceRPLBringupPlatform; amb_auto.
Qed.
Lemma life_pllWait n : respects (life strict L) (Plugin.pllWait n).
Proof. induction n as [|n IH]; cbn [Plugin.pllWait]; amb_auto. Qed.
Hint Resolve life_needsSeed life_pllWait : amb.
Lemma amb_forceProps R `{!Ambient R} g : respects R (Plugin.forceProps g).
Proof.
  assert (Hs : respects R (s ← gets (Plugin.sconfBytes "processPatcher::sconf"); setProperty g "saved-config" (PData s))).
  { intros w. apply (amb_setProperty R), saved_config_ok. }
  unfold Plugin.forceProps. do 4 (apply respects_bind; [exact _|amb_auto|intros _]).
  apply respects_bind; [exact _|amb_auto|]. intros [[]|]; first [exact Hs | amb_auto].
Qed.
Lemma life_recordDevice c g : respects (life strict L) (Plugin.recordDevice c g).
Proof. unfold Plugin.recordDevice. amb_auto; by apply life_set_ng; auto. Qed.
Lemma life_stolenSize v : respects (life strict L) (Plugin.computeStolenSize v).
Proof. unfold Plugin.computeStolenSize. amb_auto. Qed.
Lemma life_publishFB g : respects (life strict L) (Plugin.publishTglFramebufferPersonality g).
Proof. unfold Plugin.publishTglFramebufferPersonality. amb_auto. Qed.
Lemma life_accelProps g : respects (life strict L) (Plugin.publishAccelProps g).
Proof. unfold Plugin.publishAccelProps. amb_auto. Qed.
Lemma life_legacyPll : respects (life strict L) (Plugin.legacyPll mapLength).
Proof. unfold Plugin.legacyPll. amb_auto. Qed.
Lemma life_routeVirtual o off f save : (forall v, respects (life strict L) (save v)) -> respects (life strict L) (Plugin.routeVirtual o off f save).
Proof. intros Hs. unfold Plugin.routeVirtual. amb_auto; auto. Qed.
Lemma life_routeConfig g : respects (life strict L) (Plugin.routeConfigReads g).
Proof. unfold Plugin.routeConfigReads. amb_auto; apply life_routeVirtual; intros v; amb_auto. Qed.
Hint Resolve amb_forceProps life_recordDevice life_stolenSize life_publishFB life_accelProps life_legacyPll
  life_routeConfig : amb.
Lemma life_setupDevice c off b d : respects (life strict L) (Plugin.setupDevice mapLength c off b d).
Proof. unfold Plugin.setupDevice. amb_auto. by apply life_set_ng; auto. Qed.
Hint Resolve life_setupDevice : amb.
Lemma life_processPatcher c off : respects (life strict L) (Plugin.processPatcher mapLength c off).
Proof.
  unfold Plugin.processPatcher, Dyld.processPatcher, Plugin.seedIGPUPropertiesEarly,
    Plugin.shouldAutoSeedIGPUPropertiesEarly. amb_auto.
Qed.
End callbacks.
