(* ===== verification/Identity.v ===== *)
(** * The platform is identified before its device is used

    [NGreen::processPatcher] remembers the graphics device and records the platform; the
    branches for spoofed hardware depend on that record. [found L] says that a device is
    remembered only on an identified platform: every hook, timer and kext load keeps it so,
    and the patcher callback, which breaks it in the middle, has restored it when it
    returns. *)
From S2P Require Import Prelude Machine Regs Mmio BootArgs RegHooks Trace Frame Engine Firmware Plugin Patcher Kext.
From S2P Require Import KextHW Dyld Ambient Safety.
Import Regs Mmio BootArgs RegHooks Trace.

Section found.
Context `{Platform} (L : Z).
Definition identified (w : world) : Prop := iGPU (w_ng w) <> 0 -> isRealTGL (w_ng w) = true.
Definition found : relation world := fun w w' =>
  wired L w -> wired L w' /\ (identified w -> identified w').
#[export] Instance found_preorder : PreOrder found.
Proof.
  split; [by intros w|]. intros w1 w2 w3 H12 H23 W1. destruct (H12 W1) as [W2 D12].
  destruct (H23 W2) as [W3 D23]. auto.
Qed.
Lemma identified_kept w w' : kept w' = kept w -> identified w -> identified w'.
Proof. unfold kept, keptN, identified. intros E. injection E as _ -> -> _ _ _ _ _ _ _ _. done. Qed.
Lemma found_kept w w' : kept w' = kept w -> found w w'.
Proof. intros Hk Hw. split; [by eapply wired_kept|by apply identified_kept]. Qed.
Lemma found_ng w w' : w_ng w' = w_ng w -> (wired L w -> wired L w') -> found w w'.
Proof. unfold found, identified. intros ->. auto. Qed.
Context (HL : 64 <= L) `{!Benign found}.
Lemma found_access {A} (m : M A) : respects accessed m -> respects found m.
Proof. intros Hm w. apply found_kept, Hm. Qed.
Lemma found_ambient : Ambient found.
Proof.
  split.
  - exact _.
  - exact _.
  - intros w w' _. apply found_kept.
  - intros e w _. by apply found_kept.
  - intros r _. apply found_access, respects_readReg32; [exact _|exact accessed_read|exact accessed_write].
  - intros r v _. apply found_access, respects_writeReg32; [exact _|exact accessed_read|exact accessed_write].
  - intros A k Hk w Hw. pose proof Hw as (_ & Hf & _). unfold mbind, M_bind, g11, gets. rewrite Hf. by apply Hk.
  - intros r w. apply found_ng; [|intros Hw; apply (life_getV93State False L r w Hw)].
    unfold getV93State. by destruct (claimV93Slot _ _).
  - intros st v Hv w. apply found_ng; [by destruct st|]. intros Hw. apply (life_v93Remember False L st v Hv w Hw).
  - intros A st k Hk w Hw. unfold mbind, M_bind, g11, gets. apply Hk; [|done].
    destruct Hw as (_ & _ & Hs). destruct st as [i|]; simpl; [|unfold word; lia].
    destruct (v93States (w_g11 w) !! i) eqn:E; simpl; [|unfold word; lia].
    exact (Forall_lookup_1 _ _ _ _ Hs E).
  - intros e f _ w. apply found_ng; [done|]. unfold wired. by destruct e.
  - intros A e start ctl head tail exec ctxptr yes no Hy Hn. apply respects_bind; [exact _|apply respects_gets; exact _|].
    intros []; [|done]. apply respects_bind; [exact _| |done]. intros w. apply found_ng; [done|]. unfold wired. by destruct e.
Qed.
End found.

Section callbacks.
Context `{Platform} (strict : Prop) (L : Z) (HL : 64 <= L) `{!Benign (life strict L)} `{!Benign (found L)}.
#[local] Instance found_amb : Ambient (found L) := found_ambient L.
Context (findPattern : Z -> Z -> Z -> Z -> Z -> world -> option Z) (mapLength : Z -> Z).
Hypothesis mapLength_bar : forall map, mapLength map = L.

Lemma found_call f args : respects (found L) (call f args).
Proof.
  intros w. unfold call. pose proof (benign (R := found L) f args (emit (ECall f args) w)) as Hb.
  destruct (original _ _ _) as [r w']. simpl in *. etrans; [|exact Hb]. by apply found_kept.
Qed.
Hint Resolve found_call : amb.
Lemma found_setRMMIO : respects (found L) (Plugin.setRMMIOIfNecessary mapLength).
Proof.
  unfold Plugin.setRMMIOIfNecessary. amb_auto; intros w (Hr & Hw); split; try done; (split; [|done]); simpl; auto.
  right. by rewrite mapLength_bar.
Qed.
Hint Resolve found_setRMMIO : amb.
Section kext.
Context (index address size : Z).
Lemma found_lookup p m n : respects (found L) (Patcher.lookupPattern findPattern p m n address size).
Proof. unfold Patcher.lookupPattern. amb_auto. Qed.
Hint Resolve found_lookup : amb.
Lemma found_solve r : respects (found L) (Patcher.solve findPattern index address size r).
Proof. unfold Patcher.solve. amb_auto. Qed.
Lemma found_route r : respects (found L) (Patcher.route findPattern index address size r).
Proof. unfold Patcher.route. amb_auto. Qed.
Lemma found_apply p : respects (found L) (Patcher.apply_patch address size p).
Proof. unfold Patcher.apply_patch. amb_auto. Qed.
Lemma found_whileOk {A} (f : A -> M bool) l : (forall x, respects (found L) (f x)) -> respects (found L) (Patcher.whileOk f l).
Proof. intros Hf. induction l as [|x l IH]; cbn [Patcher.whileOk]; amb_auto; auto. Qed.
Hint Resolve found_solve found_route found_apply found_whileOk : amb.
Lemma found_require m msg : respects (found L) m -> respects (found L) (Kext.require m msg).
Proof. intros Hm. unfold Kext.require. amb_auto. Qed.
Lemma found_flag f : (forall g, (framecont (f g), v93States (f g)) = (framecont g, v93States g)) ->
  respects (found L) (set_g11 f).
Proof.
  intros Hf w. apply found_ng; [done|]. specialize (Hf (w_g11 w)). injection Hf as H1 H2.
  unfold wired. simpl. by rewrite H1, H2.
Qed.
Hint Extern 2 (respects _ (set_g11 _)) => by apply found_flag : amb.
Hint Extern 1 (respects _ (Kext.require _ _)) =>
  apply found_require; unfold Kext.routes, Kext.solves, Kext.applies, Patcher.routeAll, Patcher.solveAll, Patcher.applyAll : amb.
Lemma found_processKext loadIndex :
  respects (found L) (Kext.processKext findPattern mapLength loadIndex index address size).
Proof.
  unfold Kext.processKext, Kext.patchAcceleratorFamily, Kext.patchBacklight, Kext.routeMccs, Kext.gen11ProcessKext,
    Kext.processFramebuffer, Kext.processAccelerator, Kext.isProduction, Kext.buildRoutes, Kext.buildPatches,
    Kext.resetBringup, Kext.solveTrace, Kext.fillTraceSymbols, Kext.solveTraceSymbols, Kext.routeFirmware,
    Kext.routeTrace, Kext.routeOwned, Kext.patchAccelerator. amb_auto.
Qed.
End kext.

(** *** The patcher callback *)
#[local] Instance life_amb : Ambient (life strict L) := life_ambient strict L HL.
(** When it returns, [m] has identified the platform. *)
Definition identifies {A} (m : M A) : Prop := forall w a w', wired L w -> m w = Done a w' -> isRealTGL (w_ng w') = true.
Lemma identifies_later {A B} (m : M A) (k : A -> M B) :
  respects (life strict L) m -> (forall a, identifies (k a)) -> identifies (m ≫= k).
Proof.
  intros Hm Hk w b w' Hw (a & w1 & E1 & E2)%bind_done.
  refine (Hk a w1 b w' _ E2). apply (respects_done _ _ _ _ _ Hm E1 Hw).
Qed.
Lemma identifies_before {A B} (m : M A) (k : A -> M B) :
  respects (life strict L) m -> identifies m -> (forall a, respects (life strict L) (k a)) -> identifies (m ≫= k).
Proof.
  intros Hm Hi Hk w b w' Hw (a & w1 & E1 & E2)%bind_done.
  destruct (respects_done _ _ _ _ _ Hm E1 Hw) as (W1 & _).
  destruct (respects_done _ _ _ _ _ (Hk a) E2 W1) as (_ & (_ & _ & Hr & _ & _) & _). eauto.
Qed.
Lemma identifies_recordDevice c g : identifies (Plugin.recordDevice c g).
Proof.
  intros w [] w' _. unfold Plugin.recordDevice, mbind, M_bind, gets, set_ng, setProperty, modify.
  intros E. by simplify_eq/=.
Qed.
Hint Resolve amb_seedEntry amb_forceProps life_stolenSize life_publishFB life_accelProps life_routeConfig
  life_legacyPll : amb.
Lemma identifies_setupDevice c off b d : identifies (Plugin.setupDevice mapLength c off b d).
Proof.
  unfold Plugin.setupDevice. apply identifies_later; [amb_auto|intros _]. apply identifies_later; [amb_auto|intros vb].
  cbv zeta. apply identifies_later; [by apply life_set_ng; auto|intros _].
  destruct (negb _); [intros w a w' _ E; discriminate E|].
  do 7 (apply identifies_later; [amb_auto|intros _]).
  apply identifies_before; [by apply life_recordDevice|apply identifies_recordDevice|intros _; amb_auto].
Qed.
Lemma found_needsSeed ps : respects (found L) (Plugin.anyNeedsSeed ps).
Proof.
  induction ps as [|p ps IH]; cbn [Plugin.anyNeedsSeed]; unfold Plugin.shouldForceRPLBringupPlatform; amb_auto.
Qed.
Hint Resolve found_needsSeed : amb.
Lemma found_processPatcher c off w w' :
  wired L w -> identified w -> Plugin.processPatcher mapLength c off w = Done () w' -> identified w'.
Proof.
  intros Hw Hi E. unfold Plugin.processPatcher in E.
  apply bind_done in E as ([] & w1 & E1 & E). apply bind_done in E as (auto & w2 & E2 & E). cbv zeta in E.
  apply bind_done in E as ([] & w3 & E3 & E). apply bind_done in E as (d & w4 & E4 & E).
  assert (F : found L w w4).
  { etrans; [eapply respects_done, E1; unfold Dyld.processPatcher; amb_auto|].
    etrans; [eapply respects_done, E2; unfold Plugin.shouldAutoSeedIGPUPropertiesEarly; amb_auto|].
    etrans; [eapply respects_done, E3|eapply respects_done, E4; amb_auto].
    unfold Plugin.seedIGPUPropertiesEarly. amb_auto. }
  destruct (F Hw) as [W4 I4]. destruct (truthy d); cbn [when] in E.
  - intros _. by eapply identifies_setupDevice.
  - unfold mret, M_ret in E. simplify_eq. auto.
Qed.
Lemma found_init : respects (found L) Kext.init.
Proof.
  unfold Kext.init, Kext.logBuildMarker, Kext.gen11Init, Kext.watch. amb_auto. intros w Hw. by split.
Qed.
End callbacks.
