(* ===== verification/System.v ===== *)
(** * The plugin as one machine

    The components put together: the plugin is loaded, its patcher callback runs, kexts
    are loaded in any order, and from then on the drivers call the routed functions and the
    timers fire, in any order and any number of times, while the hardware, the rest of the
    kernel's memory and the I/O registry change underneath. A hook runs only once its route
    has been requested, a timer only once it has been armed. What holds of every reachable
    world is shown from the ambient relations. *)
From S2P Require Import Prelude Machine Memory Sim Regs Mmio BootArgs RegHooks ForceWake Trace Frame Engine Dpcd Reset.
From S2P Require Import Firmware Display Controller Blit Watchdog Start Monitor Plugin Dyld Patcher KextFB KextHW Kext Loader.
From S2P Require Import Exports MergeNub Published Ambient Hooks Safety Identity.
Import Regs Mmio BootArgs RegHooks ForceWake Trace.

Module System.
(** ** Calling a hook with the arguments of the driver *)

(** A C function applied to a list of machine arguments; [None] on a wrong number of them. *)
Class Invoke `{Hardware} (T : Type) := invoke : T -> list Z -> option (M unit).
#[export] Instance invoke_result `{Hardware} {A} : Invoke (M A) := fun m args =>
  match args with [] => Some (_ ← m; mret ()) | _ => None end.
#[export] Instance invoke_word `{Hardware} {T} `{!Invoke T} : Invoke (Z -> T) := fun f args =>
  match args with [] => None | a :: args => invoke (f a) args end.
#[export] Instance invoke_bool `{Hardware} {T} `{!Invoke T} : Invoke (bool -> T) := fun f args =>
  match args with [] => None | a :: args => invoke (f (truthy (u8 a))) args end.

(** What the plugin links against: pattern search, mapping lengths and kext handles of Lilu;
    the processor, the offset of the built-in video device, names, classes and busy states of
    services, the shared cache and its paths; the two firmware images and the version of the
    build; and how the framebuffer kext uses the symbols it imports. *)
Class Externals `{Hardware} := {
  findPattern : Z -> Z -> Z -> Z -> Z -> world -> option Z;
  mapLength : Z -> Z;
  loadIndex : string -> Z;
  cpuid1 : Z;
  videoBuiltinOff : Z;
  getName : Z -> world -> option string;
  nameOf : Z -> world -> option string;
  classOf : Z -> world -> option string;
  stateOf : Z -> world -> Z;
  findAndReplaceWithMask : list Z -> list Z -> list Z -> list Z -> list Z -> list Z;
  kernelVersion : Z;
  vn_getpath : Z -> world -> option string;
  matchSharedCachePath : string -> bool;
  modelIdentifier : list Z;
  tgl_dmc : list Z;
  adlp_dmc : list Z;
  printDebug : world -> bool;
  kextVersion : string;
  (** The calls of the exported stubs the framebuffer kext makes. *)
  exportCalls : Exports.stub -> Exports.regs -> bool
}.

Section machine.
Context `{Platform} `{!Externals}.

(** The functions the routes lead to, by the name the tables give them. *)
Definition fbHandlers : list (string * (list Z -> option (M unit))) :=
  [ ("alwaysReturnSuccess", invoke Blit.alwaysReturnSuccess);
    ("releaseDoorbell", fun _ => Some Blit.releaseDoorbell);
    ("disableScaler", invoke Controller.disableScaler);
    ("enablePlane", invoke Controller.enablePlane);
    ("programPipeScaler", invoke Controller.programPipeScaler);
    ("AppleIntelPlaneupdateRegisterCache", invoke Controller.AppleIntelPlaneupdateRegisterCache);
    ("AppleIntelScalerupdateRegisterCache", invoke Controller.AppleIntelScalerupdateRegisterCache);
    ("disableDisplayEngine", invoke Controller.disableDisplayEngine);
    ("enableDisplayEngine", invoke Controller.enableDisplayEngine);
    ("computeLaneCount", invoke Dpcd.computeLaneCount);
    ("wrapICLReadAUX", invoke Dpcd.wrapICLReadAUX);
    ("getOnlineInfo", invoke Display.getOnlineInfo);
    ("enableController", invoke Display.enableController);
    ("setDisplayMode", invoke Display.setDisplayMode);
    ("connectionChanged", invoke Display.connectionChanged);
    ("hwSetPowerWellStateAux", invoke Controller.hwSetPowerWellStateAux);
    ("hwSetPowerWellStateDDI", invoke Controller.hwSetPowerWellStateDDI);
    ("FastWriteRegister32", invoke FastWriteRegister32);
    ("raWriteRegister32", invoke raWriteRegister32);
    ("raWriteRegister32b", invoke raWriteRegister32b);
    ("AppleIntelFramebufferinit", invoke Controller.AppleIntelFramebufferinit);
    ("handleLinkIntegrityCheck", fun _ => Some (_ ← Dpcd.handleLinkIntegrityCheck; mret ()));
    ("hwInitializeCState", invoke (Controller.hwInitializeCState tgl_dmc adlp_dmc));
    ("hwConfigureCustomAUX", invoke hwConfigureCustomAUX);
    ("AppleIntelPowerWellinit", invoke Dpcd.AppleIntelPowerWellinit);
    ("AppleIntelBaseControllerstart", invoke Controller.AppleIntelBaseControllerstart);
    ("wrapProbeCDClockFrequency", invoke Reset.wrapProbeCDClockFrequency);
    ("initCDClock", invoke Reset.initCDClock);
    ("setCDClockFrequencyOnHotplug", invoke Reset.setCDClockFrequencyOnHotplug);
    ("disableCDClock", invoke Reset.disableCDClock);
    ("initPlatformWorkarounds", invoke Blit.initPlatformWorkarounds);
    ("getOSInformation", invoke Blit.getOSInformation);
    ("hwRegsNeedUpdate", invoke hwRegsNeedUpdate) ].
Definition hwHandlers : list (string * (list Z -> option (M unit))) :=
  [ ("wrapPavpSessionCallback", invoke Firmware.wrapPavpSessionCallback);
    ("resetGraphicsEngine", invoke Reset.resetGraphicsEngine);
    ("start", invoke Start.start);
    ("probe", invoke Watchdog.probe);
    ("IGHardwareBlit3DContextinitialize", invoke Blit.IGHardwareBlit3DContextinitialize);
    ("loadGuCBinary", invoke Firmware.loadGuCBinary);
    ("wrapInitSchedControl", invoke Firmware.wrapInitSchedControl);
    ("canLoadFirmware", invoke Firmware.canLoadFirmware);
    ("IGHardwareExtendedContextinitWithOptions", invoke Engine.IGHardwareExtendedContextinitWithOptions);
    ("IGHardwareContextinitRingGPUVirtualAddress", invoke Engine.IGHardwareContextinitRingGPUVirtualAddress);
    ("IGHardwareContextinitRingRegisters", invoke Engine.IGHardwareContextinitRingRegisters);
    ("IGHardwareContextinitRingControl", invoke Engine.IGHardwareContextinitRingControl);
    ("IGHardwareContextresetRingHead", invoke Engine.IGHardwareContextresetRingHead);
    ("IGHardwareContextupdateRingTail", invoke Engine.IGHardwareContextupdateRingTail);
    ("IGHardwareRingBufferinit", invoke Engine.IGHardwareRingBufferinit);
    ("IGHardwareRingBuffersubmitToRing", invoke Engine.IGHardwareRingBuffersubmitToRing);
    ("IGHardwareCommandStreamersubmitExecList", invoke Engine.IGHardwareCommandStreamersubmitExecList);
    ("IGHardwareCommandStreamerresumeScheduling", invoke Engine.IGHardwareCommandStreamerresumeScheduling);
    ("IGHardwareCommandStreamerprepareExecListAndSubmit", invoke Engine.IGHardwareCommandStreamerprepareExecListAndSubmit);
    ("checkWOPCMSettings", invoke Firmware.checkWOPCMSettings);
    ("IGScheduler5initWithAccelerator", invoke Engine.IGScheduler5initWithAccelerator);
    ("IGScheduler5resume", invoke Engine.IGScheduler5resume);
    ("IGScheduler5push", invoke Engine.IGScheduler5push);
    ("IGScheduler5notify", invoke Engine.IGScheduler5notify);
    ("IGScheduler5enableStampInterrupt", invoke Engine.IGScheduler5enableStampInterrupt);
    ("IGScheduler5enableContextSwitchInterrupts", invoke Engine.IGScheduler5enableContextSwitchInterrupts);
    ("IGScheduler5checkForProgress", invoke Engine.IGScheduler5checkForProgress);
    ("IGHardwareRenderCommandStreamerinit", invoke Engine.IGHardwareRenderCommandStreamerinit);
    ("forceWake", invoke forceWake);
    ("getGPUInfo", invoke Firmware.getGPUInfo);
    ("initHardwareCaps", invoke Firmware.initHardwareCaps) ].
Definition handlers : list (string * (list Z -> option (M unit))) := fbHandlers ++ hwHandlers.
(** The routes of both kexts. *)
Definition hooks : list Patcher.hook := KextFB.routes ++ KextFB.prodRoutes ++ KextFB.dbgRoutes ++ hwTables.
(** What the plugin does when the driver calls a routed function. *)
Definition dispatch (to : string) (args : list Z) : option (M unit) :=
  f ← Sim.assoc to handlers; f args.
(** Register writes of the driver: a dword-aligned 64-bit offset and a 32-bit value. *)
Definition argsOk (to : string) (args : list Z) : Prop :=
  match args with
  | [_; a; v] => to = "raWriteRegister32" -> aligned a /\ word v
  | [_; a; b; v] => to = "raWriteRegister32b" -> aligned (u64 (a + b)) /\ word v
  | _ => True
  end.
(** The thread calls, by the name they are armed under, on the service they were armed for. *)
Definition timer (t : string) (svc ms : Z) : option (M unit) :=
  if String.eqb t "v54IrqWatchdog" then Some Watchdog.v54IrqWatchdog
  else if String.eqb t "v71EmrEnforcer" then Some Watchdog.v71EmrEnforcer
  else if String.eqb t "v45DelayedChildCheck" then Some (Monitor.v45DelayedChildCheck nameOf stateOf svc ms)
  else if String.eqb t "v60GpuHealthMonitor" then Some (Monitor.v60GpuHealthMonitor nameOf classOf stateOf svc)
  else None.
(** What the rest of the kernel may call at any time: the configuration reads of the graphics
    device, the panel, and the validation of a shared-cache page. *)
Inductive entry :=
| ConfigRead16 (service space offset : Z)
| ConfigRead32 (service space offset : Z)
| SetDisplay (that display : Z)
| ValidatePage (vp pager page_offset data validated_p tainted_p nx_p : Z).
Definition enter (e : entry) : M unit :=
  match e with
  | ConfigRead16 s sp o => _ ← Plugin.configRead16 getName s sp o; mret ()
  | ConfigRead32 s sp o => _ ← Plugin.configRead32 getName s sp o; mret ()
  | SetDisplay t d => _ ← Plugin.wrapApplePanelSetDisplay t d; mret ()
  | ValidatePage a b c d e f g =>
    Dyld.wrapCsValidatePage findAndReplaceWithMask kernelVersion vn_getpath matchSharedCachePath modelIdentifier a b c d e f g
  end.

(** The methods I/O Kit calls of the plugin's own class, whatever the start code left behind. *)
Inductive iokit :=
| KProbe (this provider score : Z) (l : Loader.loader)
| KStart (this provider : Z) (l : Loader.loader)
| KStop (this provider : Z) (l : Loader.loader).
Definition manage (k : iokit) : M unit :=
  match k with
  | KProbe this provider score l => _ ← Loader.probe kextVersion this provider score l; mret ()
  | KStart this provider l => _ ← Loader.start this provider l; mret ()
  | KStop this provider l => _ ← Loader.stop this provider l; mret ()
  end.

(** ** The machine *)
Inductive phase := Booting | Declined | Registered | Ready | Halted.
#[export] Instance phase_dec : EqDecision phase.
Proof. solve_decision. Defined.
Definition state : Type := phase * world.
(** A run that panicked or did not end stops the machine. *)
Definition settle {A} (p : phase) (o : outcome A) : state :=
  match o with Done _ w => (p, w) | Panicked _ w | OutOfFuel w => (Halted, w) end.
(** Lilu's verdict decides whether the plugin takes part. *)
Definition loaded (o : outcome (Z * Loader.loader)) : state :=
  match o with
  | Done (_, l) w => (if Loader.startSuccess l then Registered else Declined, w)
  | Panicked _ w | OutOfFuel w => (Halted, w)
  end.
Definition installed (h : Patcher.hook) (w : world) : Prop := exists args, ECall (Kext.routeCall h) args ∈ w_tr w.
(** The hardware, memory and the registry change under the plugin; its own state does not,
    but for the mark of the display-merging driver, which lives beside it. *)
Definition aside (w w' : world) : Prop :=
  w_ng w' = w_ng w /\ w_g11 w' = (w_g11 w) <| haveCreatedRef := haveCreatedRef (w_g11 w') |>.
Definition outside (w w' : world) : Prop := aside w w' /\ w_tr w' = w_tr w.

Inductive step : state -> state -> Prop :=
| step_load w : step (Booting, w) (loaded (Loader.kern_start printDebug Loader.loader_init w))
| step_patcher w : step (Registered, w) (settle Ready (Plugin.processPatcher mapLength cpuid1 videoBuiltinOff w))
| step_kext w index address size :
  step (Ready, w) (settle Ready (Kext.processKext findPattern mapLength loadIndex index address size w))
| step_hook w h args m :
  h ∈ hooks -> installed h w -> dispatch (Patcher.h_to h) args = Some m -> argsOk (Patcher.h_to h) args ->
  step (Ready, w) (settle Ready (m w))
| step_timer w t svc ms m :
  ESchedule t ms ∈ w_tr w -> timer t svc ms = Some m -> step (Ready, w) (settle Ready (m w))
| step_enter w e : step (Ready, w) (settle Ready (enter e w))
| step_export w st r :
  st ∈ Exports.stubs -> exportCalls st r = true -> step (Ready, w) (settle Ready (Exports.callStub st r w))
| step_iokit p w k : p <> Halted -> p <> Booting -> step (p, w) (settle p (manage k w))
| step_outside p w w' : p <> Halted -> outside w w' -> step (p, w) (p, w').
Definition boot (s : state) : Prop :=
  s.1 = Booting /\ w_ng s.2 = NGreen_init /\ w_g11 s.2 = Gen11_init /\ w_tr s.2 = [].
Definition reachable (s : state) : Prop := exists s0, boot s0 /\ rtc step s0 s.

(** *** Executing a schedule *)
Inductive action :=
| ALoad
| APatcher
| AKext (index address size : Z)
| AHook (h : Patcher.hook) (args : list Z)
| ATimer (t : string) (svc ms : Z)
| AEnter (e : entry)
| AExport (st : Exports.stub) (r : Exports.regs)
| AIokit (k : iokit).
Definition installedb (h : Patcher.hook) (w : world) : bool :=
  existsb (fun e => match e with ECall f _ => String.eqb f (Kext.routeCall h) | _ => false end) (w_tr w).
Definition armedb (t : string) (ms : Z) (w : world) : bool :=
  existsb (fun e => match e with ESchedule t' ms' => String.eqb t' t && (ms' =? ms) | _ => false end) (w_tr w).
Definition dwordAligned (r : Z) : bool := regOk r && (r mod 4 =? 0).
Definition wordb (v : Z) : bool := (0 <=? v) && (v <? 2 ^ 32).
Definition argsOkb (to : string) (args : list Z) : bool :=
  match args with
  | [_; a; v] => negb (String.eqb to "raWriteRegister32") || (dwordAligned a && wordb v)
  | [_; a; b; v] => negb (String.eqb to "raWriteRegister32b") || (dwordAligned (u64 (a + b)) && wordb v)
  | _ => true
  end.
Definition perform (a : action) (s : state) : option state :=
  let w := s.2 in
  match s.1, a with
  | Booting, ALoad => Some (loaded (Loader.kern_start printDebug Loader.loader_init w))
  | Registered, APatcher => Some (settle Ready (Plugin.processPatcher mapLength cpuid1 videoBuiltinOff w))
  | Ready, AKext i a n => Some (settle Ready (Kext.processKext findPattern mapLength loadIndex i a n w))
  | Ready, AHook h args =>
    if existsb (fun h' => String.eqb (Patcher.h_symbol h') (Patcher.h_symbol h) &&
                          String.eqb (Patcher.h_to h') (Patcher.h_to h)) hooks
       && installedb h w && argsOkb (Patcher.h_to h) args
    then m ← dispatch (Patcher.h_to h) args; Some (settle Ready (m w)) else None
  | Ready, ATimer t svc ms => if armedb t ms w then m ← timer t svc ms; Some (settle Ready (m w)) else None
  | Ready, AEnter e => Some (settle Ready (enter e w))
  | Ready, AExport st r =>
    if bool_decide (st ∈ Exports.stubs) && exportCalls st r
    then Some (settle Ready (Exports.callStub st r w)) else None
  | (Declined | Registered | Ready), AIokit k => Some (settle s.1 (manage k w))
  | _, _ => None
  end.
Fixpoint play (l : list action) (s : state) : option state :=
  match l with [] => Some s | a :: l => s' ← perform a s; play l s' end.
Lemma argsOkb_ok to args : argsOkb to args = true -> argsOk to args.
Proof.
  assert (A : forall a, dwordAligned a = true -> aligned a).
  { intros a. unfold dwordAligned. rewrite andb_true_iff, Z.eqb_eq. intros [Hr%regOk_safe Hm]. by split. }
  assert (W : forall v, wordb v = true -> word v).
  { intros v. unfold wordb, word. intros. bools. lia. }
  unfold argsOkb, argsOk. repeat case_match; try done; intros Ho ->; simpl in Ho; apply andb_true_iff in Ho as [? ?]; auto.
Qed.
Lemma installedb_ok h w : installedb h w = true -> installed h w.
Proof.
  intros (e & He & Hc)%existsb_exists. destruct e as [| | |f fargs| | | |]; try discriminate Hc.
  apply String.eqb_eq in Hc as ->. exists fargs. by apply list_elem_of_In.
Qed.
Lemma perform_step a s s' : perform a s = Some s' -> step s s'.
Proof.
  destruct s as [p w]. unfold perform. cbn [fst snd].
  destruct p, a as [| |i ad n|h args|t svc ms|e|st r|k]; intros E; try discriminate E; try (injection E as <-; by constructor).
  - destruct (_ && _) eqn:C; [|discriminate E]. apply andb_true_iff in C as [[C1 C2]%andb_true_iff C3].
    apply bind_Some in E as (m & Hm & E). injection E as <-.
    apply existsb_exists in C1 as (h' & Hin & [Hs Ht]%andb_true_iff).
    apply String.eqb_eq in Hs, Ht. apply installedb_ok in C2 as (fargs & Hi).
    apply (step_hook w h' args m).
    + by apply list_elem_of_In.
    + exists fargs. unfold Kext.routeCall in *. by rewrite Hs.
    + by rewrite Ht.
    + rewrite Ht. by apply argsOkb_ok.
  - destruct (armedb t ms w) eqn:C; [|discriminate E]. apply bind_Some in E as (m & Hm & E). injection E as <-.
    apply existsb_exists in C as (e & He & Hc). destruct e as [| | | |t' ms'| | |]; try discriminate Hc.
    apply andb_true_iff in Hc as [->%String.eqb_eq ->%Z.eqb_eq].
    apply (step_timer w t svc ms m); [by apply list_elem_of_In|done].
  - destruct (_ && _) eqn:C; [|discriminate E]. apply andb_true_iff in C as [C1%bool_decide_eq_true C2].
    injection E as <-. by constructor.
Qed.
Lemma play_steps l s s' : play l s = Some s' -> rtc step s s'.
Proof.
  revert s. induction l as [|a l IH]; cbn [play]; intros s E; [by simplify_eq|].
  apply bind_Some in E as (s1 & E1 & E2). eapply rtc_l; [by apply (perform_step a)|auto].
Qed.
(** The world after a schedule, with what was to be shown of it decided by evaluation. *)
Lemma play_runs l s0 (P : state -> bool) :
  match play l s0 with Some s => P s | None => false end = true -> exists s, rtc step s0 s /\ P s = true.
Proof.
  destruct (play l s0) as [s|] eqn:E; [|done]. intros HP. exists s. split; [by eapply play_steps|done].
Qed.
Lemma play_reachable l s0 (P : state -> bool) :
  boot s0 -> match play l s0 with Some s => P s | None => false end = true -> exists s, reachable s /\ P s = true.
Proof. intros Hb (s & Hs & HP)%play_runs. exists s. split; [by exists s0|done]. Qed.

(** ** Every entry point is ambient *)
Section ambient.
Context (R : relation world) `{!Ambient R}.
Lemma amb_unit {A} (m : M A) : respects R m -> respects R (_ ← m; mret ()).
Proof. intros Hm. amb_auto. Qed.
Lemma amb_enter e : respects R (enter e).
Proof. destruct e; cbn [enter]; amb_auto. Qed.
Lemma amb_manage k : respects R (manage k).
Proof. destruct k; cbn [manage]; unfold Loader.probe, Loader.start, Loader.stop; amb_auto. Qed.
Lemma amb_timer t svc ms m : timer t svc ms = Some m -> respects R m.
Proof. unfold timer. repeat case_match; intros; simplify_eq; amb_auto. Qed.
(** A handler called with the number of arguments it takes. *)
Definition ambientHandler (e : string * (list Z -> option (M unit))) : Prop :=
  forall args m, e.2 args = Some m -> argsOk e.1 args -> respects R m.
(** Take the arguments apart; a handler of a register write gets what the driver owes it. *)
Ltac handler :=
  intros args m E Ha; cbn [fst snd] in E, Ha;
  repeat match type of E with
  | Some _ = Some _ => injection E as <-
  | _ => destruct args; cbn in E; try discriminate E
  end;
  try (apply amb_unit); first
  [ solve [eauto 2 with amb]
  | destruct (Ha eq_refl); first [by apply amb_raWriteRegister32 | by apply amb_raWriteRegister32b] ].
Lemma amb_fbHandlers : Forall ambientHandler fbHandlers.
Proof. unfold fbHandlers. repeat (apply Forall_cons; split); [handler..|apply Forall_nil; exact I]. Qed.
Lemma amb_hwHandlers : Forall ambientHandler hwHandlers.
Proof. unfold hwHandlers. repeat (apply Forall_cons; split); [handler..|apply Forall_nil; exact I]. Qed.
Lemma assoc_in {A} k (l : list (string * A)) v : Sim.assoc k l = Some v -> (k, v) ∈ l.
Proof.
  induction l as [|[k' v'] l IH]; simpl; [done|]. destruct (String.eqb k k') eqn:E; intros; simplify_eq.
  - apply String.eqb_eq in E as ->. left.
  - right. auto.
Qed.
Lemma amb_dispatch to args m : dispatch to args = Some m -> argsOk to args -> respects R m.
Proof.
  unfold dispatch. intros (f & Hf%assoc_in & Hm)%bind_Some. revert Hm. apply (proj1 (Forall_forall _ _) (proj2 (Forall_app _ _ _) (conj amb_fbHandlers amb_hwHandlers)) _ Hf).
Qed.
End ambient.

(** ** What holds of every reachable world *)

(** A call of an export that asks for nothing unsafe: a 32-bit access, dword aligned where it
    writes, that unmasks no error; the 64-bit accessors index by byte offset and are left out. *)
Definition exportSafe (st : Exports.stub) (r : Exports.regs) : Prop :=
  let args := Exports.exec (Exports.moves st) r in
  match Exports.jmp st with
  | Exports.JReadRegister32 => readSafe (Exports.rdi args)
  | Exports.JWriteRegister32 => writeSafe (Exports.rdi args) (u32 (Exports.rsi args))
  | Exports.JReadRegister64 | Exports.JWriteRegister64 => False
  | Exports.JgetPMTNow | Exports.JhwSetupDSBMemory => True
  end.
Lemma aside_same w w' : w_ng w' = w_ng w -> w_g11 w' = w_g11 w -> aside w w'.
Proof. intros En Eg. split; [done|]. rewrite Eg. by destruct (w_g11 w). Qed.
Lemma aside_kept w w' : aside w w' -> kept w' = kept w.
Proof. unfold aside, kept. intros (-> & ->). done. Qed.
Lemma export_accesses st r : respects accessed (Exports.callStub st r).
Proof.
  unfold Exports.callStub, Exports.enter, tReadRegister32, tWriteRegister32, tReadRegister64, tWriteRegister64,
    Exports.tgetPMTNow, Exports.thwSetupDSBMemory.
  assert (Hn : respects accessed now_ns).
  { intros w. unfold now_ns. destruct (clock_ns _). split; [done|]. by apply emits_silent. }
  pose proof (respects_readReg32 accessed accessed_read accessed_write).
  pose proof (respects_readReg64 accessed accessed_read accessed_write).
  pose proof (respects_writeReg32 accessed accessed_read accessed_write).
  pose proof (respects_writeReg64 accessed accessed_read accessed_write).
  destruct (Exports.jmp st); respects_auto; auto.
Qed.

Section invariant.
Context (strict : Prop) (L : Z) (HL : 64 <= L) `{!Benign (life strict L)} `{!Benign (found L)}.
Context (mapLength_bar : forall map, mapLength map = L).
Context (respectful : strict -> forall st r, exportCalls st r = true -> exportSafe st r).
#[local] Existing Instance Engine.engines_preorder.
#[local] Instance life_here : Ambient (life strict L) := life_ambient strict L HL.
#[local] Instance found_here : Ambient (found L) := found_ambient L.

(** *** Every step moves along [life] *)
Lemma life_export st r : (strict -> exportSafe st r) -> respects (life strict L) (Exports.callStub st r).
Proof.
  intros Hs. assert (Hl : strict -> respects (life strict L) (Exports.callStub st r)).
  { intros S. specialize (Hs S). unfold Exports.callStub, Exports.enter, exportSafe, Exports.tgetPMTNow, Exports.thwSetupDSBMemory in *.
    destruct (Exports.jmp st); try done; amb_auto; [apply amb_tRead|apply amb_tWrite]; first [exact _|done]. }
  intros w Hw. destruct (export_accesses st r w) as [Hk He].
  split; [by eapply wired_kept|]. split; [by apply established_kept|].
  split; [intros S; by apply (Hl S w Hw)|]. destruct He as (new & T & F). exists new. split; [done|].
  rewrite Forall_forall in *. intros e Hi. split; [|specialize (F e Hi); by destruct e].
  intros S. destruct (Hl S w Hw) as (_ & _ & _ & (new' & T' & F')). rewrite T in T'. apply app_inv_tail in T' as <-.
  rewrite Forall_forall in F'. apply (F' e Hi). exact S.
Qed.
Lemma found_export st r : respects (found L) (Exports.callStub st r).
Proof. apply found_access, export_accesses. Qed.
Lemma settle_final {A} p (o : outcome A) : (settle p o).2 = final o.
Proof. by destruct o. Qed.
Lemma loaded_final o : (loaded o).2 = final o.
Proof. by destruct o as [[? ?] ?| |]. Qed.
#[local] Hint Resolve life_init found_init : amb.
Lemma life_kern_start l : respects (life strict L) (Loader.kern_start printDebug l).
Proof. unfold Loader.kern_start, Loader.bootstrap, Loader.shouldLoad. amb_auto; by apply life_init. Qed.
Lemma found_kern_start l : respects (found L) (Loader.kern_start printDebug l).
Proof. unfold Loader.kern_start, Loader.bootstrap, Loader.shouldLoad. amb_auto; by apply found_init. Qed.
Lemma step_life s s' : step s s' -> life strict L s.2 s'.2.
Proof.
  intros []; cbn [fst snd]; rewrite ?settle_final, ?loaded_final.
  - by apply life_kern_start.
  - by apply life_processPatcher.
  - by apply life_processKext.
  - by eapply amb_dispatch; eauto; exact _.
  - by eapply amb_timer; eauto; exact _.
  - by apply amb_enter; exact _.
  - apply life_export. intros S. by apply respectful.
  - by apply amb_manage; exact _.
  - match goal with Ho : outside _ _ |- _ => destruct Ho as (Ho & Ht) end. by apply life_quiet, aside_kept.
Qed.
(** All but the patcher callback move along [found]. *)
Lemma step_found s s' : step s s' -> s.1 <> Registered \/ s'.1 = Registered -> found L s.2 s'.2.
Proof.
  intros [] Hp; cbn [fst snd] in *; rewrite ?settle_final, ?loaded_final.
  - by apply found_kern_start.
  - exfalso. destruct Hp as [|Hp]; [done|]. by destruct (Plugin.processPatcher _ _ _ _).
  - by apply found_processKext.
  - by eapply amb_dispatch; eauto; exact _.
  - by eapply amb_timer; eauto; exact _.
  - by apply amb_enter; exact _.
  - by apply found_export.
  - by apply amb_manage; exact _.
  - match goal with Ho : outside _ _ |- _ => destruct Ho as (Ho & Ht) end. by apply found_kept, aside_kept.
Qed.

(** *** The invariant *)
(** The world is the product of safe events only. *)
Definition sound (w : world) : Prop :=
  wired L w /\ (strict -> zero_surf_ok (w_tr w)) /\ Forall (eventGood strict L w) (w_tr w).
Definition inv (s : state) : Prop := sound s.2 /\ (s.1 <> Halted -> identified s.2).
Lemma sound_life w w' : life strict L w w' -> sound w -> sound w'.
Proof.
  intros Hl (Hw & Hz & He). destruct (Hl Hw) as (Hw' & Hest & Hz' & (new & Ht & Hn)).
  split; [done|]. split; [auto|]. rewrite Ht. apply Forall_app. split; [done|].
  eapply Forall_impl; [exact He|]. intros e. by apply eventGood_later.
Qed.
Lemma step_inv s s' : step s s' -> inv s -> inv s'.
Proof.
  intros Hst [Hs Hi]. split; [by eapply sound_life; [apply step_life|]|]. intros Hh.
  destruct (decide (s.1 = Registered /\ s'.1 <> Registered)) as [[Hr Hr']|Hn].
  - destruct Hst as [|w| | | | | |p w k Hp Hp'|]; cbn [fst snd] in *; try done.
    + destruct (Plugin.processPatcher _ _ _ w) as [[] w'| |] eqn:E; [|done..]. simpl.
      eapply found_processPatcher; [done..|apply Hs|apply Hi; done|exact E].
    + subst p. by destruct (manage k w).
  - assert (Hf : s.1 <> Registered \/ s'.1 = Registered) by (destruct (decide (s.1 = Registered)), (decide (s'.1 = Registered)); tauto).
    apply (step_found s s' Hst Hf); [apply Hs|]. apply Hi. intros Hs1. destruct Hst; cbn [fst] in *; done.
Qed.
(** What a step does to the engines. *)
Lemma step_engines s s' : step s s' -> inv s -> Engine.engines_step s.2 s'.2.
Proof. intros Hst [(Hw & _) _]. destruct (step_life s s' Hst Hw) as (_ & He & _). apply He. Qed.
Lemma steps_engines s s' : inv s -> rtc step s s' -> Engine.engines_step s.2 s'.2.
Proof.
  intros Hr Hs. induction Hs as [s|s s1 s2 Hs _ IH]; [by split|].
  etrans; [by apply step_engines|]. by apply IH, (step_inv _ _ Hs).
Qed.
Lemma boot_inv s : boot s -> inv s.
Proof.
  destruct s as [p w]. unfold boot, inv, sound, wired, identified. simpl. intros (-> & -> & -> & ->).
  split; [|done]. split; [|done]. split; [by left|]. split; [done|].
  change (v93States Gen11_init) with (replicate (length (v93States Gen11_init)) (mkV93 0 0)).
  apply Forall_replicate. unfold word. simpl. lia.
Qed.
Lemma reachable_inv s : reachable s -> inv s.
Proof.
  intros (s0 & Hb & Hr). pose proof (boot_inv s0 Hb) as Hi. clear Hb.
  induction Hr as [|? ? ? Hs _ IH]; [done|]. by apply IH, (step_inv _ _ Hs).
Qed.
End invariant.

End machine.

(** ** The drivers *)
Section drivers.
Context `{Platform} `{!Externals}.

(** The same platform with other original functions. *)
Definition withOriginal (o : string -> list Z -> world -> Z * world) : Platform := {|
  bootarg := bootarg; kernarg := kernarg; resolved := resolved; allocOk := allocOk; providerOf := providerOf;
  isClass := isClass; fromPath := fromPath; symbolAddr := symbolAddr; bootstr := bootstr; clientsOf := clientsOf;
  pciConfig := pciConfig; original := o
|}.
(** What a driver's function may do: change the hardware, memory and the registry, and enter
    the running plugin in calls that return, whose own originals are [o]. *)
Definition drives (o : string -> list Z -> world -> Z * world) : relation world :=
  rtc (fun w w' => outside w w' \/ @step _ (withOriginal o) _ (Ready, w) (Ready, w')).
(** The originals [o] enter the plugin, which calls originals that enter it, to depth [n]. *)
Fixpoint driven (n : nat) (o : string -> list Z -> world -> Z * world) : Prop :=
  match n with
  | O => forall f args w, outside w (o f args w).2
  | S n => exists o', driven n o' /\ forall f args w, drives o' w (o f args w).2
  end.
(** Allowing more depth allows more. *)
Lemma driven_deeper n o : driven n o -> driven (S n) o.
Proof.
  revert o. induction n as [|n IH]; intros o Hd.
  - exists o. split; [done|]. intros f args w. apply rtc_once. by left.
  - destruct Hd as (o' & Ho & Hd). exists o'. split; [by apply IH|done].
Qed.
Context (strict : Prop) (L : Z) (HL : 64 <= L) (mapLength_bar : forall map, mapLength map = L).
Context (respectful : strict -> forall st r, exportCalls st r = true -> exportSafe st r).
Lemma outside_moves w w' : outside w w' -> life strict L w w' /\ found L w w'.
Proof. intros (Ho%aside_kept & Ht). split; [by apply life_quiet|by apply found_kept]. Qed.
(** Entering the plugin keeps what the plugin keeps, however deep. *)
Lemma driven_benign n o :
  driven n o -> @Benign _ (withOriginal o) (life strict L) /\ @Benign _ (withOriginal o) (found L).
Proof.
  revert o. induction n as [|n IH]; intros o Hd; [split; intros f args w; apply outside_moves, Hd|].
  destruct Hd as (o' & [B1 B2]%IH & Hd).
  assert (Hm : forall w w', drives o' w w' -> life strict L w w' /\ found L w w').
  { induction 1 as [w|w w1 w2 Hs _ [IH1 IH2]]; [by split|].
    assert (Hs' : life strict L w w1 /\ found L w w1).
    { destruct Hs as [Ho|Hs]; [by apply outside_moves|]. split.
      - exact (@step_life _ (withOriginal o') _ strict L HL B1 mapLength_bar respectful _ _ Hs).
      - apply (@step_found _ (withOriginal o') _ L B2 mapLength_bar _ _ Hs). by left. }
    destruct Hs'. split; by etrans. }
  split; intros f args w; apply Hm, Hd.
Qed.
Lemma drivers_benign n : driven n original -> Benign (life strict L) /\ Benign (found L).
Proof. intros [B1 B2]%driven_benign. split; [exact B1|exact B2]. Qed.
End drivers.

Section theorems.
Context `{Platform} `{!Externals}.
Section promises.
Context (L : Z) (HL : 64 <= L) (mapLength_bar : forall map, mapLength map = L).

(** C1 (invariant). As long as the framebuffer kext uses the exported accessors as it should
    (32-bit accesses below 2^64 - 4, dword-aligned writes, none that unmasks an engine's
    errors, no 64-bit accessor), every world the plugin can reach, after any interleaving
    of kext loads, calls of routed functions and exports, timers, I/O Kit calls and other
    entries, while hardware, memory and the registry change arbitrarily, has a safe
    history: every register access went into the mapped window, no write of an engine's
    error-mask register, direct or handed on to a driver's write function, carried
    anything but all ones, and no plane seen enabled was armed with surface 0. Assumed: the
    routed register writes get dword-aligned offsets and 32-bit values; every mapping of
    the register BAR has one length of at least 64 bytes; and the drivers' functions reach
    the plugin only through these entries, in calls that return and are nested to some
    bounded depth. Code outside the plugin that writes registers by itself is outside the
    claim. *)
Theorem reachable_accesses_safe (n : nat) (s : state) :
  driven n original -> (forall st r, exportCalls st r = true -> exportSafe st r) -> reachable s ->
  Forall (fun e => in_bar L e /\ emr_masked e) (w_tr s.2) /\ zero_surf_ok (w_tr s.2).
Proof.
  intros Hd Hr Hs. destruct (drivers_benign True L HL mapLength_bar (fun _ => Hr) n Hd) as [B1 B2].
  destruct (reachable_inv True L HL mapLength_bar (fun _ => Hr) s Hs) as ((_ & Hz & He) & _). split; [|auto].
  eapply Forall_impl; [exact He|]. intros e (Hg & _). auto.
Qed.

(** C13 (type). Whatever the plugin publishes in the I/O registry, in any reachable world and on
    any service, its own included, is one of the keys of its contract with a value of that
    key's form. So a scheduler is only ever announced as one of the three the driver has, a
    framebuffer's phase and connector kind are one of their names, the two display-pipe
    capabilities are announced together, and the identity seeded for the device is that of
    the supported one. DisplayMergeNub, which installs whatever its own property list
    names, is not part of the claim: it is one of the outside changes. Assumed: every
    mapping of the register BAR has one length of at least 64 bytes, and the drivers'
    functions reach the plugin only through its entries, nested to some bounded depth. *)
Theorem registry_contract_kept (n : nat) (s : state) (obj : Z) (key : string) (v : prop) :
  driven n original -> reachable s -> EProp obj key v ∈ w_tr s.2 ->
  Published.published key v = true /\
  (key = "GraphicsSchedulerSelect" -> exists n, v = PNumber 32 n /\ 3 <= n <= 5) /\
  (key = "NGreenBringupPhase" -> exists t, v = PString t /\ t ∈ ["FBOnly"; "InternalReady"; "ExternalReady"]) /\
  (key = "IOAccelDisplayPipeCapabilities" ->
     exists b, v = PDict [("DisplayPipeSupported", PBool b); ("TransactionsSupported", PBool b)]) /\
  (key = "device-id" -> v = PData Plugin.builtin3).
Proof.
  intros Hd Hs Hi. destruct (drivers_benign False L HL mapLength_bar ltac:(done) n Hd) as [B1 B2].
  destruct (reachable_inv False L HL mapLength_bar ltac:(done) s Hs) as ((_ & _ & He) & _).
  destruct (proj1 (Forall_forall _ _) He _ Hi) as (_ & _ & Hp). cbn [propOk] in Hp.
  split; [exact Hp|]. split_and!; intros ->.
  - by apply Published.scheduler_form.
  - by apply Published.phase_form.
  - by apply Published.pipe_form.
  - by apply Published.device_form.
Qed.

Context `{!Benign (life False L)} `{!Benign (found L)}.
Lemma reachable_sound (s : state) : reachable s -> inv False L s.
Proof. by apply reachable_inv. Qed.

(** C2 (refinement). The whole machine implements the engine machine of the bring-up policy:
    between any two worlds of a run, whatever was loaded, called, fired or changed outside in
    between, the tracked state of the copy engine and that of the render engine moved only
    by steps of the abstract machine. So the context, ring, passed and quarantined flags of
    an engine are never taken back, a quarantine lasts until the next boot, and an engine
    that passed its smoke test has seen its context and its ring set up. The exported
    accessors may be called with anything. Assumed: what the drivers' functions do to the
    plugin's own state they do through its entries (they move along [life]), and every
    mapping of the register BAR has one length of at least 64 bytes. *)
Theorem machine_refines_engines (s s' : state) : reachable s -> rtc step s s' ->
  Engine.engines_step s.2 s'.2 /\
  forall e a b, Engine.trackedEngineState e (w_g11 s.2) = Some a -> Engine.trackedEngineState e (w_g11 s'.2) = Some b ->
    Engine.flags_grow a b /\ (Engine.passed_is_ready a -> Engine.passed_is_ready b).
Proof.
  intros Hr Hs. pose proof (steps_engines False L HL mapLength_bar ltac:(done) s s' (reachable_sound s Hr) Hs) as He. split; [done|].
  intros e a b Ha Hb. apply Engine.rtc_estep_inv. destruct He as [Hbcs Hrcs]. destruct e; by simplify_eq/=.
Qed.

(** C12 (safety). In every reachable world a function of the framebuffer kext is routed only
    if the framebuffer kext was seen, and one of the accelerator only if the accelerator
    was: no hook is ever live for a kext that has not been processed. Assumed: what the
    drivers' functions do to the plugin's own state they do through its entries (they move
    along [life]), and every mapping of the register BAR has one length of at least 64
    bytes. *)
Theorem hooks_follow_their_kext (s : state) (h : Patcher.hook) : reachable s -> installed h s.2 ->
  (h ∈ KextFB.routes ++ KextFB.prodRoutes ++ KextFB.dbgRoutes -> tglFBLoaded (w_g11 s.2) = true) /\
  (h ∈ hwTables -> tglHWLoaded (w_g11 s.2) = true).
Proof.
  intros (Hs & _)%reachable_sound (args & Hi). destruct Hs as (_ & _ & He).
  destruct (proj1 (Forall_forall _ _) He _ Hi) as (_ & [Hf Hh] & _).
  split; intros Hin; [apply Hf|apply Hh]; by apply list_elem_of_fmap_2.
Qed.

(** Once the patcher callback has found the graphics device, every reachable world counts as
    genuine Tiger Lake: the policy for spoofed platforms never blocks a command streamer, an
    accelerator load adds no patch for other platforms, and the lane count and, from DPCD
    revision 3 on, the link rate a display reports are not reduced. *)
Lemma spoofed_paths_dead (w : world) (rev rate lanes : Z) : reachable (Ready, w) -> iGPU (w_ng w) <> 0 ->
  Engine.shouldUseSpoofedSafeSchedulerPolicy (w_ng w) = false /\ Engine.streamerBlocked w = false /\
  Kext.hwPatches (isRealTGL (w_ng w)) = KextHW.patchesAlways /\
  (3 <= rev -> Dpcd.cappedRate (isRealTGL (w_ng w)) rev rate = rate) /\ Dpcd.cappedLanes (isRealTGL (w_ng w)) lanes = lanes.
Proof.
  intros (_ & Hi)%reachable_sound Hg. specialize (Hi ltac:(done) Hg).
  unfold Engine.streamerBlocked, Engine.shouldUseSpoofedSafeSchedulerPolicy. cbn [snd] in Hi. rewrite Hi.
  cbn [negb]. rewrite andb_false_r. repeat split.
  intros Hr. unfold Dpcd.cappedRate. by rewrite (proj2 (Z.ltb_ge _ _) Hr).
Qed.
End promises.

(** What DisplayMergeNub does to a display is one of the outside changes, when naming the
    display and keeping the class loaded are. *)
Section merge.
Context `{!Benign aside}.
#[local] Instance aside_preorder : PreOrder aside.
Proof.
  split; [intros w; by apply aside_same|]. intros w1 w2 w3 (N1 & G1) (N2 & G2). split; [congruence|].
  rewrite G2, G1 at 1. by destruct (w_g11 w1).
Qed.
Lemma aside_call f args : respects aside (call f args).
Proof.
  intros w. unfold call. pose proof (benign (R := aside) f args (emit (ECall f args) w)) as Hb.
  by destruct (original _ _ _) as [r w'].
Qed.
Lemma merge_is_outside setOk tableOk this provider w :
  let w' := final (MergeNub.probe setOk tableOk this provider w) in outside w (w' <| w_tr := w_tr w |>).
Proof.
  assert (Hp : forall o k v, respects aside (setProperty o k v)) by (intros o k v x; by apply aside_same).
  assert (Hg : respects aside (set_g11 (fun g => g <| haveCreatedRef := true |>))) by (intros x; by split).
  pose proof aside_call as Hc.
  assert (Ht : forall es, respects aside (MergeNub.mergeTable tableOk provider es)).
  { induction es as [|[k v] es IH]; cbn [MergeNub.mergeTable]; respects_auto; auto. }
  assert (Hm : forall es r, respects aside (MergeNub.mergeProvider setOk provider es r)).
  { induction es as [|[k v] es IH]; intros r; cbn [MergeNub.mergeProvider]; respects_auto; auto. }
  assert (Hr : respects aside (MergeNub.probe setOk tableOk this provider)).
  { unfold MergeNub.probe, MergeNub.probeMatch, MergeNub.unsigned64BitValue, MergeNub.MergeDictionaryIntoProvider.
    respects_auto; auto. }
  intros w'. split; [|done]. exact (Hr w).
Qed.
End merge.
End theorems.

(** ** Evaluations *)
Import Sim.
(** A machine whose Lilu accepts the plugin and grants every request, with a graphics device at 0x500 that the
    device list at 1 knows. *)
Definition demo_plat : Platform :=
  let p := Kext.granting [] in {|
  bootarg := @bootarg _ p; kernarg := @kernarg _ p; resolved := @resolved _ p; allocOk := @allocOk _ p;
  providerOf := @providerOf _ p; isClass := @isClass _ p; fromPath := @fromPath _ p;
  symbolAddr := @symbolAddr _ p; bootstr := @bootstr _ p; clientsOf := @clientsOf _ p; pciConfig := @pciConfig _ p;
  original f args w := (if existsb (String.eqb f) ["getError"; "requestAccess"; "shouldLoad"] then 0 else 1, w)
|}.
#[local] Existing Instance demo_plat.
Definition demo_world : world :=
  World _ (mkSim ∅ 0) (store_le 8 (1 + 8) 0x500 ∅) ∅ NGreen_init Gen11_init [].
Definition demo_boot : state := (Booting, demo_world).
(** The framebuffer reads a pipe's register, stores a plane's stride and asks for the time. *)
Definition demo_calls (st : Exports.stub) (r : Exports.regs) : bool :=
  bool_decide (st = Exports.stubReadRegister32) && (Exports.rsi r =? 0x70008) ||
  bool_decide (st = Exports.stubWriteRegister32) && (Exports.rsi r =? 0x70188) ||
  bool_decide (st = Exports.stubGetPMTNow).
#[local] Instance demo_externals : Externals := {|
  findPattern := Kext.noPattern; mapLength _ := 0x1000000; loadIndex := Kext.kext_index;
  cpuid1 := 0x806C1; videoBuiltinOff := 8; getName _ _ := Some "IGPU"; nameOf _ _ := None; classOf _ _ := None;
  stateOf _ _ := 0; findAndReplaceWithMask _ _ _ _ d := d; kernelVersion := 24; vn_getpath _ _ := None;
  matchSharedCachePath _ := false; modelIdentifier := []; tgl_dmc := []; adlp_dmc := []; printDebug _ := false;
  kextVersion := "1.0.4"; exportCalls st r := demo_calls st r
|}.
(** Publish, patch, load both kexts, unmask the errors, probe, reset, read the device id. *)
Definition demo_hook (to : string) : Patcher.hook :=
  default (Patcher.mkHook "" "" None) (list_find (fun h => Patcher.h_to h = to) hooks ≫= fun p => Some p.2).
Definition demo_actions : list action :=
  [ ALoad; APatcher; AKext 1 0x8000 0x1000; AKext 2 0x8000 0x1000;
    AHook (demo_hook "raWriteRegister32") [0x100; 0x20b4; 0]; AHook (demo_hook "probe") [0x100; 0x200; 0];
    AHook (demo_hook "resetGraphicsEngine") [0x100; 0];
    AEnter (ConfigRead16 0x500 0 2);
    AExport Exports.stubWriteRegister32 (Exports.mkRegs 0x100 0x70188 0x20 0);
    AIokit (KProbe 0x600 0x500 0 Loader.loader_init) ].
Lemma demo_boots : boot demo_boot.
Proof. repeat split. Qed.
#[local] Instance demo_benign R `{!PreOrder R} : Benign R.
Proof. intros f args w. reflexivity. Qed.
Lemma demo_mapped map : mapLength map = 0x1000000.
Proof. reflexivity. Qed.
(** A world after the schedule, and what its evaluation shows. *)
Definition demo_done (s : state) : bool :=
  bool_decide (s.1 = Ready) && negb (iGPU (w_ng s.2) =? 0) && installedb (demo_hook "raWriteRegister32") s.2 &&
  installedb (demo_hook "forceWake") s.2 &&
  existsb (fun e => match e with EWr _ _ => true | _ => false end) (w_tr s.2).
Lemma demo_runs : exists s, rtc step demo_boot s /\ demo_done s = true.
Proof. apply (play_runs demo_actions). vm_compute. reflexivity. Qed.
Lemma demo_reaches : exists s, reachable s /\ demo_done s = true.
Proof. apply (play_reachable demo_actions demo_boot); [apply demo_boots|vm_compute; reflexivity]. Qed.

Lemma demo_driven : driven 0 original.
Proof. intros f args w. split; [|done]. by apply aside_same. Qed.
Lemma demo_respectful st r : exportCalls st r = true -> exportSafe st r.
Proof.
  intros Hc. change (demo_calls st r = true) in Hc. unfold demo_calls in Hc.
  rewrite !orb_true_iff, !andb_true_iff, !bool_decide_eq_true, !Z.eqb_eq in Hc.
  destruct Hc as [[[-> E]|[-> E]]| ->]; [..|exact I]; unfold exportSafe; cbn -[u32]; rewrite E; [unfold readSafe; lia|].
  split; [by split|]. by split.
Qed.
Lemma reachable_accesses_safe_witness :
  exists s, reachable s /\ existsb (fun e => match e with EWr _ _ => true | _ => false end) (w_tr s.2) = true /\
    Forall (fun e => in_bar 0x1000000 e /\ emr_masked e) (w_tr s.2).
Proof.
  destruct demo_reaches as (s & Hr & Hd). exists s. split; [exact Hr|]. split; [apply andb_true_iff in Hd; apply Hd|].
  exact (proj1 (reachable_accesses_safe 0x1000000 ltac:(lia) demo_mapped 0 s demo_driven demo_respectful Hr)).
Defined.
Lemma machine_refines_engines_witness :
  exists s, reachable s /\ Engine.engines_step demo_boot.2 s.2.
Proof.
  assert (Hb : reachable demo_boot) by (exists demo_boot; split; [apply demo_boots|reflexivity]).
  destruct demo_runs as (s & Hs & _). exists s. split; [exists demo_boot; split; [apply demo_boots|exact Hs]|].
  exact (proj1 (machine_refines_engines 0x1000000 ltac:(lia) demo_mapped _ _ Hb Hs)).
Defined.
Lemma hooks_follow_their_kext_witness :
  exists s, reachable s /\ installed (demo_hook "forceWake") s.2 /\ tglHWLoaded (w_g11 s.2) = true.
Proof.
  destruct demo_reaches as (s & Hr & Hd). exists s. split; [exact Hr|].
  assert (Hi : installed (demo_hook "forceWake") s.2).
  { unfold demo_done in Hd. rewrite !andb_true_iff in Hd. apply installedb_ok, Hd. }
  split; [exact Hi|].
  apply (hooks_follow_their_kext 0x1000000 ltac:(lia) demo_mapped s _ Hr Hi).
  vm_compute. repeat (first [left|right]).
Defined.
Lemma demo_identified :
  exists w, reachable (Ready, w) /\ Kext.hwPatches (isRealTGL (w_ng w)) = KextHW.patchesAlways.
Proof.
  destruct demo_reaches as ([p w] & Hr & Hd). unfold demo_done in Hd. rewrite !andb_true_iff in Hd.
  destruct Hd as [[[[Hp Hg] _] _] _]. apply bool_decide_eq_true in Hp. cbn in Hp, Hg. subst p.
  exists w. split; [exact Hr|].
  apply (spoofed_paths_dead 0x1000000 ltac:(lia) demo_mapped w 0 0 0 Hr).
  apply Z.eqb_neq, negb_true_iff, Hg.
Defined.
Lemma registry_contract_kept_witness :
  exists s obj v, reachable s /\ EProp obj "device-id" v ∈ w_tr s.2 /\ v = PData [0x49; 0x9A; 0x00; 0x00].
Proof.
  destruct (play_reachable demo_actions demo_boot
    (fun s => existsb (fun e => match e with EProp 0x500 "device-id" (PData _) => true | _ => false end) (w_tr s.2)))
    as (s & Hr & Hd); [apply demo_boots|vm_compute; reflexivity|].
  apply existsb_exists in Hd as (e & Hin & He).
  destruct e as [| | | | |obj key v| |]; try discriminate He.
  exists s, obj, v. split; [exact Hr|].
  assert (Hkey : key = "device-id") by (repeat case_match; simplify_eq; done).
  subst key. apply list_elem_of_In in Hin. split; [exact Hin|].
  apply (registry_contract_kept 0x1000000 ltac:(lia) demo_mapped 0 s obj "device-id" v demo_driven Hr Hin). reflexivity.
Defined.
End System.
