(* ===== verification/Progress.v ===== *)
(** * Nothing the drivers call stops the machine

    Whatever the hardware answers and whatever the original functions return, a routed
    function, a timer callback and the other entries of the plugin run to completion: they
    neither panic nor wait for ever. The waits of the force-wake hook and of the
    accelerator's start end because the kernel clock advances; everything else returns
    outright. Only publishing the plugin's patches to the kernel and to a kext can halt. *)
From S2P Require Import Prelude Machine Sim Regs Mmio RegHooks ForceWake Trace Scan Frame Engine Controller Start Monitor Plugin Patcher.
From S2P Require Import KextFB KextHW Kext Loader Watchdog Exports Ambient Safety Identity System.
Import Regs Mmio RegHooks ForceWake Trace System.

(** Open a computation down to its primitives; the components' own lemmas come first. *)
Ltac head t := lazymatch t with ?f _ => head f | _ => t end.
Ltac total_deep := repeat
  first [ total_step | apply total_readReg32 | apply total_writeReg32 | solve [eauto 3 with ng]
        | match goal with |- total ?m => let h := head m in progress unfold h end ].

Section Progress.
Context `{Platform} `{!SteadyClock} `{!Externals}.
Import Start Monitor.
Hint Resolve total_intel_de_rmw total_wa_add Controller.total_writeBlob : ng.
Lemma total_getV93State r : total (getV93State r).
Proof. intros w. unfold getV93State. destruct (claimV93Slot _ _). by eexists _, _. Qed.
Hint Resolve total_getV93State : ng.
(** The trace calls, once for all the hooks that make them. *)
Lemma total_dumpState stage : total (dumpTglGpuBringupState stage).
Proof. total_deep. Qed.
Lemma total_scan o n : total (scanMappedCandidates o n).
Proof. total_deep. Qed.
Lemma total_dumpContext c : total (dumpContextImageKnownFields c).
Proof. total_deep. Qed.
Lemma total_dumpRing c : total (dumpRingMemoryKnownFields c).
Proof. total_deep. Qed.
Hint Resolve total_dumpRcs total_dumpState total_mark total_scan total_dumpContext total_dumpRing : ng.
Lemma total_evaluate e : total (Engine.evaluateTrackedEngineBootstrap e).
Proof. total_deep. Qed.
Hint Resolve total_evaluate : ng.

(** [m] returns from every world without a controller object. *)
Definition ends {A} (m : M A) : Prop := forall w, framecont (w_g11 w) = 0 -> exists a w', m w = Done a w'.
Lemma total_ends {A} (m : M A) : total m -> ends m.
Proof. intros Hm w _. apply Hm. Qed.
Lemma ends_forceWake that set dom ctx : ends (_ ← forceWake that set dom ctx; mret ()).
Proof.
  intros w Hw. destruct (forceWake_run that set dom ctx w Hw) as (w' & E & _). exists (), w'.
  unfold mbind, M_bind. by rewrite E.
Qed.

Definition endingHandler (e : string * (list Z -> option (M unit))) : Prop :=
  forall args m, e.2 args = Some m -> ends m.
Ltac handler :=
  intros args m E; cbn [fst snd] in E;
  repeat match type of E with
  | Some _ = Some _ => injection E as <-
  | _ => destruct args; cbn in E; try discriminate E
  end;
  first [apply ends_forceWake | apply total_ends; total_deep].
Lemma fbHandlers_end : Forall endingHandler fbHandlers.
Proof. unfold fbHandlers. repeat (apply Forall_cons; split); [handler..|apply Forall_nil; exact I]. Qed.
Lemma hwHandlers_end : Forall endingHandler hwHandlers.
Proof. unfold hwHandlers. repeat (apply Forall_cons; split); [handler..|apply Forall_nil; exact I]. Qed.
Lemma dispatch_ends to args m : dispatch to args = Some m -> ends m.
Proof.
  unfold dispatch, handlers. intros (f & Hf%assoc_in & Hm)%bind_Some.
  apply elem_of_app in Hf as [Hf|Hf].
  - exact (proj1 (Forall_forall _ _) fbHandlers_end _ Hf _ _ Hm).
  - exact (proj1 (Forall_forall _ _) hwHandlers_end _ Hf _ _ Hm).
Qed.
Lemma timer_ends t svc ms m : timer t svc ms = Some m -> ends m.
Proof. unfold timer. repeat case_match; intros; simplify_eq; apply total_ends; total_deep. Qed.
Lemma enter_ends e : ends (enter e).
Proof. apply total_ends. destruct e; cbn [enter]; total_deep. Qed.

Lemma export_ends st r : ends (Exports.callStub st r).
Proof.
  apply total_ends. unfold Exports.callStub, Exports.enter, tReadRegister32, tWriteRegister32, tReadRegister64,
    tWriteRegister64, Exports.tgetPMTNow, Exports.thwSetupDSBMemory.
  destruct (Exports.jmp st); total_auto;
    auto using total_readReg32, total_writeReg32, total_readReg64, total_writeReg64.
Qed.
Lemma manage_ends k : ends (manage k).
Proof. apply total_ends. destruct k; cbn [manage]; total_deep. Qed.

(** *** Where the plugin panics *)
(** The patcher callback panics on a device that is not PCI or cannot be mapped. *)
Definition patcherMessages : list string := ["videoBuiltin is not IOPCIDevice"; "null IOMemoryMap"].
Lemma Ends_when msgs b m : Kext.Ends msgs m -> Kext.Ends msgs (when b m).
Proof. destruct b; [done|]. intros _. apply Kext.Ends_total, total_ret. Qed.
Lemma total_seedMissing e tbl b : total (Plugin.seedMissing e tbl b).
Proof. revert b. induction tbl as [|[k v] tbl IH]; intros b; cbn [Plugin.seedMissing]; total_deep. Qed.
Lemma total_needsSeed ps : total (Plugin.anyNeedsSeed ps).
Proof. induction ps as [|p ps IH]; cbn [Plugin.anyNeedsSeed]; total_deep. Qed.
Lemma total_pllWait n : total (Plugin.pllWait n).
Proof. induction n as [|n IH]; cbn [Plugin.pllWait]; total_deep. Qed.
Hint Resolve total_seedMissing total_needsSeed total_pllWait : ng.
Ltac message := apply (bool_decide_unpack _); vm_compute; exact I.
Ltac ends_step :=
  match goal with
  | |- Kext.Ends _ (Plugin.setRMMIOIfNecessary _) => apply Kext.Ends_setRMMIO; message
  | |- Kext.Ends _ (panic _) => intros ?; message
  | |- Kext.Ends _ (mbind _ _) => apply Kext.Ends_bind; [|intros ?]
  | |- Kext.Ends _ (when _ _) => apply Ends_when
  | |- Kext.Ends _ (match ?b with _ => _ end) => destruct b
  end.
Ltac ends_auto := repeat first [eassumption | ends_step | solve [apply Kext.Ends_total; total_deep]].
Lemma patcher_ends : Kext.Ends patcherMessages (Plugin.processPatcher mapLength cpuid1 videoBuiltinOff).
Proof. unfold Plugin.processPatcher, Plugin.setupDevice, Plugin.legacyPll. ends_auto. Qed.
(** Of the kexts, only the two graphics drivers can be refused. *)
Definition kextMessages (index : Z) : list string :=
  (if loadIndex "kextG11FBT" =? index then Kext.fbMessages else []) ++
  (if loadIndex "kextG11HWT" =? index then Kext.hwMessages else []).
Lemma Ends_weaken {A} ms ms' (m : M A) : ms ⊆ ms' -> Kext.Ends ms m -> Kext.Ends ms' m.
Proof. intros Hs Hm w. specialize (Hm w). destruct (m w); auto. Qed.
Lemma processKext_ends index address size :
  Kext.Ends (kextMessages index) (Kext.processKext findPattern mapLength loadIndex index address size).
Proof.
  pose proof (Kext.framebuffer_ends findPattern mapLength index address size) as Hf.
  pose proof (Kext.accelerator_ends findPattern mapLength index address size) as Hh.
  assert (Hg : Kext.Ends (kextMessages index) (Kext.gen11ProcessKext findPattern mapLength loadIndex index address size)).
  { unfold Kext.gen11ProcessKext, kextMessages. destruct (_ =? _).
    - eapply Ends_weaken, Hf. intros x Hx. apply elem_of_app. by left.
    - destruct (_ =? _); [exact Hh|]. apply Kext.Ends_total, total_ret. }
  unfold Kext.processKext. ends_auto.
Qed.

(** ** The machine *)
Lemma settle_halted {A} msgs p (m : M A) w : p <> Halted -> Kext.Ends msgs m -> (settle p (m w)).1 = Halted ->
  exists msg w', m w = Panicked msg w' /\ msg ∈ msgs.
Proof. intros Hp Hm Hh. specialize (Hm w). destruct (m w); [done| |done]. eauto. Qed.
Lemma settle_ends {A} p (m : M A) w : p <> Halted -> framecont (w_g11 w) = 0 -> ends m -> (settle p (m w)).1 <> Halted.
Proof. intros Hp Hf Hm. by destruct (Hm w Hf) as (a & w' & ->). Qed.
Context (L : Z) (HL : 64 <= L) (mapLength_bar : forall map, mapLength map = L).

End Progress.

(** ** Evaluations *)
Import Sim.
#[local] Existing Instances demo_plat demo_externals demo_benign.
(** A machine without a graphics device halts in the patcher callback. *)
Definition headless : state := (Booting, World _ (mkSim ∅ 0) ∅ ∅ NGreen_init Gen11_init []).
Lemma headless_registers : exists s, reachable s /\ bool_decide (s.1 = Registered) && (iGPU (w_ng s.2) =? 0) &&
  bool_decide ((settle Ready (Plugin.processPatcher mapLength cpuid1 videoBuiltinOff s.2)).1 = Halted) = true.
Proof.
  apply (play_reachable [ALoad] headless (fun s => bool_decide (s.1 = Registered) && (iGPU (w_ng s.2) =? 0) &&
    bool_decide ((settle Ready (Plugin.processPatcher mapLength cpuid1 videoBuiltinOff s.2)).1 = Halted)));
    [done|vm_compute; reflexivity].
Qed.
